(* ===== verification/_CoqProject ===== *)
-Q . S2P
Prelude.v
GoStrings.v
GoFloat.v
FloatBounds.v
GoScan.v
GoTime.v
GoUrl.v
JsonString.v
NumberText.v
Rounding.v
Base64.v
Config.v
ProcfsUtils.v
Cgroup.v
Meminfo.v
CpuStat.v
LoadAvg.v
MountInfo.v
Json.v
JsonText.v
Client.v
Filters.v
Smoothing.v
Docker.v
Resources.v
CpuMonitor.v
NetMonitor.v
Monitoring.v
Delivery.v
Webserver.v
Typed.v
Server.v
Main.v
Program.v
