(* ===== verification/Prelude.v ===== *)
(** * A verification development for acadock-monitoring

    acadock-monitoring is a daemon that measures the containers of a docker host
    and its host, and answers over HTTP; the repository also holds its Go client.
    This library models the program's own packages as executable definitions and
    proves what each of them does, up to the client talking to the server.

    ** How the program is put together

    [cmd/acadock-monitoring/main.go] builds everything.  The parsers of [procfs/]
    read the kernel's files.  [cgroup/] reads the statistics of one container and
    names its devices through the mount tables of [procfs/mountinfo.go], refreshed
    by a goroutine.  [docker/] turns docker's events into a stream that the two
    monitors, [cpu/] and [net/], subscribe to; each runs goroutines that sample
    counters into maps.  [filters/] smooths the number of running processes.  The
    handlers of [webserver/] read the monitors, the filter and [resources/], and
    encode the payloads of [client/], which the client decodes.  Between them stand
    the routers and the middlewares that main.go sets up.

    ** The files

    The language and its standard library:
    - [Prelude]: errors, the result type [outcome] of a Go call that may fail or
      panic, machine integers with their wrap-around, transition relations,
      histories of samples, tactics and hint databases;
    - [GoStrings], [GoFloat], [GoScan], [GoTime], [GoUrl]: the parts of [strings],
      [strconv], [path/filepath], float64, [fmt.Sscanf], [time] and [net/url] that
      the sources use ([GoUrl] for paths that need no escape and any query);
    - [FloatBounds]: what rounding does to non-negative numbers below [2 ^ 53]:
      bounds, exact cases, relative errors, integer parts of quotients;
    - [Rounding]: every operation of float64 gives a float64, and its error over the
      rationals, with one lemma for each operation;
    - [JsonString], [NumberText], [Json], [JsonText]: [encoding/json].  String
      literals over UTF-8; number literals and the shortest decimals that read back
      as the same float; the values of a document; its text, printed and parsed;
    - [Base64]: [encoding/base64] and the header that carries the credentials.

    The program, one file per component (in a Module of the same name where the
    names of Go packages would clash):
    - [Config] (config/env.go): the environment and the derived settings;
    - [ProcfsUtils], [Meminfo], [CpuStat], [LoadAvg], [MountInfo] (procfs/): the
      reading loop and the parsers, and the two tables of mounts and devices;
    - [Cgroup] (cgroup/): the manager and the statistics of both cgroup versions;
    - [Filters] (filters/): the loop of [Start] as a function of what the clock and
      the reader answer at each iteration, [Read], [Stop];
    - [Smoothing]: the same loop in float64 against the exact one;
    - [Docker] (docker/): the repository as a transition system of its goroutines;
    - [Resources] (resources/): memory and I/O usages;
    - [CpuMonitor] (cpu/), [NetMonitor] (net/): the monitors, their critical
      sections as actions (the lookup of a network sample's container and its record
      are two), and the runs of any interleaving of them;
    - [Monitoring]: the repository and the two monitors composed, the channel of
      each monitor being the one the repository sends on;
    - [Delivery]: how many steps the events on their way still need;
    - [Client] (client/): payloads, wire format, requests;
    - [Webserver] (webserver/): the handlers over a controller;
    - [Typed]: the ranges of the numbers that the monitors and the handlers hold, and
      the UTF-8 names of the mount tables, from what the libraries and the operating
      system answer;
    - [Server] (cmd/acadock-monitoring/main.go): the routers of [vendor/]'s
      gorilla/mux with their redirects of paths that are not clean, the profiling
      routes, the middlewares, the authentication;
    - [Main] (cmd/acadock-monitoring/main.go): start-up, and the client against the
      server, from the text of a request to the text of its answer;
    - [Program] (cmd/acadock-monitoring/main.go): everything that main starts as one
      transition system, and the client against what the handlers see of a run.

    Interfaces of the sources are classes: [FS], [Sysconf], [OS], [MountInfos],
    [CPUStat], [MetricsReader], [StatsReader].  [StatsReaderSpec] states what the
    clients of a statistics reader rely on (its errors are recognised by type); the
    CPU monitor and the handlers are proved against it, and [Cgroup] proves it of
    the implementation.  Libraries that the sources only call are parameters:
    [CgroupLib], [DockerLib], [NetLib], [math.Exp], the output of [net/http/pprof],
    the scanning of hexadecimal and special floats, and what Go leaves to the
    implementation when a float does not fit an integer.

    ** What the theorems show

    - Parsers: each inverts the kernel's format on every well-formed file, and what
      it answers on the malformed lines it tests for ([Meminfo], [CpuStat],
      [LoadAvg]); the loop they share ends on every file ([ProcfsUtils]).
    - Statistics: the two-pass aggregation of the cgroup v1 tables computes the
      exact totals modulo 2^64; [GetStats] on every branch, with what each figure is
      of the metrics of both versions; every error has the type the monitor stops on
      ([Cgroup]).
    - Tables: how a device is named, and that after any sequence of refreshes both
      tables are those of the last successful one ([MountInfo]).
    - Monitors: for every interleaving, what is answered for a container is a
      function of its last two samples ([CpuMonitor], [NetMonitor]); the percentage
      of a container is within one of the exact one and between 0 and 100 for each
      CPU, the host usage is a number between 0 and 1, the rates are exact; one goroutine
      per container while starts are not repeated, and what a repeated one leaves
      behind ([CpuMonitor]); the search of the interface, and what a stop leaves of a
      container, the sample then in flight included ([NetMonitor]).
    - Filter: for every run, the queue holds the averages of the last batches of
      readings and [Read] answers their smoothing; in exact arithmetic that is a
      mean; the spacing of samples ([Filters]); in float64 the answer is finite and
      within [2 ^ -49] of the exact mean for each element of the queue, in units of
      the largest reading ([Smoothing]).
    - Event stream: in order, without loss or duplicate, for every consumer; it can
      always progress, unless a consumer stops receiving ([Docker]).
    - Composition: each part of the whole does what it does alone; the CPU monitor
      keeps a cancel function for the containers that the handled events leave started
      (it says nothing of their goroutines, which an error of the statistics ends); a
      stop that overtakes the initial list, and a busy network monitor that holds back
      every consumer ([Monitoring]).  Every event on its way is delivered: however the goroutines
      interleave, the steps that carry events are bounded, and one of them is possible
      until both monitors have handled everything ([Delivery]).
    - Handlers: the document of each on every branch ([Webserver]); the wire format
      loses nothing, down to the text ([Client], [JsonText]).
    - Server: which handler, redirect or error answers each request, and that no request
      is redirected twice; nothing outside the profiling depends on the state without
      the credentials, and the profiling asks for none ([Server]).
    - End to end: the client returns what the handler computed, and what it makes of
      the errors of the server, whose statuses it never tests ([Main]).
    - Whole program: in every run, at whatever moments a handler looks at the
      goroutines, the host usage, the usage of all containers and that of one which the
      client gets are those of the states of the run, for every label, with nothing
      assumed of the server; the memory and I/O figures of a container are those of the
      metrics of containerd, under the names of the mount tables ([Program]).  That the
      payloads can be decoded rests on every number being in the range of its Go type,
      every string UTF-8 and every float finite, which is an invariant of the runs
      ([Typed], [Smoothing], [Program.Inv]).

    Where the code does not do what it means to, the theorem says what it does:
    nil results of three client methods, statuses that are never tested, errors
    around nil, a host document that cannot be encoded, counters that restart,
    prefixes of interface numbers, repeated and stale start events, profiling open
    to anybody, labels sent without escapes.  Where the README describes the answers
    otherwise (a plain text for the CPU usage, other names in the memory usage),
    [Main.readme_replies] shows the ones the program gives.

    ** Bounds and fuel

    Integers are [Z] with the wrap-around of their width written out.  Recursion
    that is not structural has a length as fuel: [Fields] one more than the length
    of the string, the reading loop the length of the file (every iteration
    consumes a byte), [Sscanf] one more than the length of its format,
    [FormatUint] the 20 digits of a 64-bit number, the parser of documents one more
    than twice the length of the text ([parse_fuel]: more fuel changes nothing); the
    lemmas on them show the fuel is enough.  The shortest decimals of a float are
    searched among 1 to 17 digits, and its exact expansion is the answer when none
    reads back, so that what is printed always does.  The client follows the nine
    redirects net/http allows it.  Goroutines are transitions: the theorems on one
    component bound no run.  Those of [Program] hold for [2 ^ 52] steps, more than a
    century at a step for each microsecond, so that the number of samples of a
    batch is exact in float64 and no sum overflows, and for a queue of at most [2 ^ 40]
    elements.

    ** Not modelled

    Logging, tracing, graceful restart, exhaustion of memory; the context that main gives
    to its goroutines, which nothing cancels; HTTP below the level of requests and
    responses; addresses of the server and paths that need escapes, where queries and
    labels are any bytes; mocks and tests.  Where the decoder of credentials ends its
    buffers is a parameter.  Reads of a monitor by a handler are atomic, as they are in
    the code under the monitor's mutex.  The rounding of floats is computed everywhere
    and bounded for the usages, the rates and the smoothed queue length; a product and a
    sum are rounded one after the other, as the compiler does for amd64 by default.  The
    messages of the program's own errors are exact, those of the standard library's are
    abbreviated.
*)
From Stdlib Require Export ZArith Lia.
From stdpp Require Export base list gmap strings numbers.

#[global] Open Scope Z_scope.

(** ** Errors

    The values of Go's [error] interface that the program builds or tests.
    [errors/v3] wraps every error in an [ErrCtx]; [ErrCtxNil] is an [ErrCtx] whose
    inner error is Go's [nil], which [Wrap] and [Wrapf] build from a [nil]
    because they call [pkg/errors] and that returns [nil] on [nil]; [StatsReaderError] is the one type the program recognises with
    [errors.As]; [ErrNotEnoughMetrics] is compared by identity. *)
Inductive error : Type :=
| ErrOpaque (msg : string)
| ErrNotEnoughMetrics
| ErrWithMessage (msg : string) (cause : error)
| ErrCtxNil
| ErrCtx (inner : error)
| StatsReaderError (err : error).

(** The result of a Go call that returns [(T, error)] and may also panic. *)
Inductive outcome (A : Type) : Type :=
| Ok (a : A)
| Err (e : error)
| Panic (msg : string).
Arguments Ok {A} a.
Arguments Err {A} e.
Arguments Panic {A} msg.

Declare Scope go_scope.
Delimit Scope go_scope with go.
#[global] Open Scope go_scope.

Definition obind {A B} (o : outcome A) (k : A -> outcome B) : outcome B :=
  match o with
  | Ok a => k a
  | Err e => Err e
  | Panic m => Panic m
  end.

(** [wrap f o] is the idiom [if err != nil { return _, f(err) }]. *)
Definition wrap {A} (f : error -> error) (o : outcome A) : outcome A :=
  match o with
  | Ok a => Ok a
  | Err e => Err (f e)
  | Panic m => Panic m
  end.

Definition omap_ok {A B} (f : A -> B) (o : outcome A) : outcome B :=
  obind o (fun a => Ok (f a)).

Notation "'let!' x ':=' o 'in' k" := (obind o (fun x => k))
  (at level 10, x pattern, o at level 100, k at level 200) : go_scope.

(** [errors/v3.Wrap] and [Wrapf]: an [ErrCtx] around what [pkg/errors.Wrap]
    returns, which is [nil] for a [nil] error.  The result is never [nil]. *)
Definition Wrap (err : option error) (message : string) : error :=
  match err with
  | None => ErrCtxNil
  | Some e => ErrCtx (ErrWithMessage message e)
  end.

(** [wrapMsg message o] is [if err != nil { return _, errors.Wrap(ctx, err, message) }]. *)
Definition wrapMsg {A} (message : string) (o : outcome A) : outcome A :=
  wrap (fun e => Wrap (Some e) message) o.

Definition Errorf (message : string) : error := ErrCtx (ErrOpaque message).

(** [err.Error()]; calling it on an [ErrCtx] around [nil] dereferences [nil]. *)
Fixpoint errorString (e : error) : outcome string :=
  match e with
  | ErrOpaque m => Ok m
  | ErrNotEnoughMetrics => Ok "no enough metrics yet"
  | ErrWithMessage m c =>
      let! s := errorString c in Ok (m +:+ ": " +:+ s)
  | ErrCtxNil => Panic "runtime error: invalid memory address or nil pointer dereference"
  | ErrCtx i => errorString i
  | StatsReaderError i => errorString i
  end.

(** Reading a message fails in one way only. *)
Lemma errorString_panic e :
  match errorString e with
  | Ok _ => True
  | Err _ => False
  | Panic p => p = "runtime error: invalid memory address or nil pointer dereference"
  end.
Proof. induction e; simpl; try done. by destruct (errorString e). Qed.

(** [errors.As(err, &cgroup.StatsReaderError{})]: some error of the chain is one. *)
Fixpoint asStatsReaderError (e : error) : bool :=
  match e with
  | ErrOpaque _ | ErrNotEnoughMetrics | ErrCtxNil => false
  | ErrWithMessage _ c => asStatsReaderError c
  | ErrCtx i => asStatsReaderError i
  | StatsReaderError _ => true
  end.

(** [err == filters.ErrNotEnoughMetrics]. *)
Definition isNotEnoughMetrics (e : error) : bool :=
  match e with ErrNotEnoughMetrics => true | _ => false end.

Definition is_ok {A} (o : outcome A) : bool :=
  match o with Ok _ => true | _ => false end.
Definition is_err {A} (o : outcome A) : bool :=
  match o with Err _ => true | _ => false end.
Definition is_panic {A} (o : outcome A) : bool :=
  match o with Panic _ => true | _ => false end.

(** ** Machine integers

    A [uint64], an [int64] or a [time.Duration] is a [Z]; the operators of the
    source wrap, which the definitions write out with [u64] and [i64]. *)
Definition u64 (z : Z) : Z := z mod 2 ^ 64.
Definition i64 (z : Z) : Z := (z + 2 ^ 63) mod 2 ^ 64 - 2 ^ 63.
Definition is_u64 (z : Z) : Prop := 0 <= z < 2 ^ 64.
Definition is_i64 (z : Z) : Prop := - 2 ^ 63 <= z < 2 ^ 63.
#[export] Instance is_u64_dec z : Decision (is_u64 z) := _.
#[export] Instance is_i64_dec z : Decision (is_i64 z) := _.

Definition addu (x y : Z) : Z := u64 (x + y).
Definition subu (x y : Z) : Z := u64 (x - y).
Definition mulu (x y : Z) : Z := u64 (x * y).
Definition addi (x y : Z) : Z := i64 (x + y).
Definition subi (x y : Z) : Z := i64 (x - y).
Definition muli (x y : Z) : Z := i64 (x * y).

(** Indexing a slice: out of range panics (Go's message goes on with the index and the
    length). *)
Definition index {A} (l : list A) (i : Z) : outcome A :=
  match (if i <? 0 then None else l !! Z.to_nat i) with
  | Some a => Ok a
  | None => Panic "runtime error: index out of range"
  end.

(** A method call through a pointer or an interface: nil panics. *)
Definition deref {A} (p : option A) : outcome A :=
  match p with
  | Some a => Ok a
  | None => Panic "runtime error: invalid memory address or nil pointer dereference"
  end.

(** A Go map read [m[k]]: the zero value [d] when the key is absent. *)
Definition mapget {V} (d : V) (m : gmap string V) (k : string) : V := default d (m !! k).

(** Transitions: the reflexive transitive closure used for reachable states. *)
Inductive steps {S : Type} (step : S -> S -> Prop) : S -> S -> Prop :=
| steps_refl s : steps step s s
| steps_snoc s t u : steps step s t -> step t u -> steps step s u.

(** ** Tactics and hint databases *)
Create HintDb go.

Ltac inv_ok :=
  repeat match goal with
  | H : Ok _ = Ok _ |- _ => injection H as H; try subst
  | H : Ok _ = Err _ |- _ => discriminate H
  | H : Err _ = Ok _ |- _ => discriminate H
  | H : Panic _ = Ok _ |- _ => discriminate H
  | H : Ok _ = Panic _ |- _ => discriminate H
  | H : Err _ = Err _ |- _ => injection H as H; try subst
  | H : Err _ = Panic _ |- _ => discriminate H
  | H : Panic _ = Err _ |- _ => discriminate H
  end.

(** Case on the outcome a goal or hypothesis scrutinises. *)
Ltac case_outcome :=
  match goal with
  | |- context [match ?o with Ok _ => _ | Err _ => _ | Panic _ => _ end] => destruct o eqn:?
  | H : context [match ?o with Ok _ => _ | Err _ => _ | Panic _ => _ end] |- _ => destruct o eqn:?
  end.

(** Expose the wrap-around of machine integers to [lia]. *)
Ltac unfold_int :=
  unfold addu, subu, mulu, addi, subi, muli, u64, i64, is_u64, is_i64 in *.

(** ** Generic lemmas *)

Lemma obind_ok {A B} (o : outcome A) (k : A -> outcome B) (b : B) :
  obind o k = Ok b -> exists a, o = Ok a /\ k a = Ok b.
Proof. destruct o; simpl; [eauto | discriminate ..]. Qed.

Lemma obind_assoc {A B C} (o : outcome A) (f : A -> outcome B) (g : B -> outcome C) :
  obind (obind o f) g = obind o (fun a => obind (f a) g).
Proof. by destruct o. Qed.

Lemma wrap_ok {A} f (o : outcome A) a : wrap f o = Ok a <-> o = Ok a.
Proof. by destruct o. Qed.

Lemma u64_small z : is_u64 z -> u64 z = z.
Proof. intros H. apply Z.mod_small, H. Qed.

Lemma u64_range z : is_u64 (u64 z).
Proof. apply Z.mod_pos_bound. lia. Qed.

Lemma i64_range z : is_i64 (i64 z).
Proof. unfold i64, is_i64. pose proof (Z.mod_pos_bound (z + 2 ^ 63) (2 ^ 64)). lia. Qed.

Lemma i64_small z : is_i64 z -> i64 z = z.
Proof. unfold i64, is_i64. intros H. rewrite Z.mod_small; lia. Qed.

Lemma i64_cong a b : (exists k, a = b + k * 2 ^ 64) -> i64 a = i64 b.
Proof.
  intros [k ->]. unfold i64.
  replace (b + k * 2 ^ 64 + 2 ^ 63) with (b + 2 ^ 63 + k * 2 ^ 64) by ring.
  by rewrite Z_mod_plus_full.
Qed.

Lemma i64_mod z : exists k, i64 z = z + k * 2 ^ 64.
Proof.
  exists (- ((z + 2 ^ 63) / 2 ^ 64)). unfold i64. rewrite Z.mod_eq by lia. lia.
Qed.

Lemma i64_idemp_add a b : i64 (i64 a + b) = i64 (a + b).
Proof.
  destruct (i64_mod a) as [k ->]. apply i64_cong. exists k. ring.
Qed.

Lemma u64_idemp_add a b : u64 (u64 a + b) = u64 (a + b).
Proof. unfold u64. by rewrite Zplus_mod_idemp_l. Qed.

Lemma index_Some {A} (l : list A) (i : nat) a :
  l !! i = Some a -> index l (Z.of_nat i) = Ok a.
Proof.
  intros H. unfold index. destruct (Z.ltb_spec (Z.of_nat i) 0); [lia|].
  by rewrite Nat2Z.id, H.
Qed.

Lemma index_ok {A} (l : list A) (i : Z) :
  0 <= i < Z.of_nat (length l) -> exists a, index l i = Ok a.
Proof.
  intros H. destruct (lookup_lt_is_Some_2 l (Z.to_nat i)) as [a Ha]; [lia|].
  exists a. unfold index. destruct (Z.ltb_spec i 0); [lia|]. by rewrite Ha.
Qed.

Lemma steps_ind_inv {S} (step : S -> S -> Prop) (I : S -> Prop) s t :
  I s -> (forall a b, I a -> step a b -> I b) -> steps step s t -> I t.
Proof. intros Hs Hstep. induction 1; eauto. Qed.

Lemma steps_trans {S} (step : S -> S -> Prop) s t u :
  steps step s t -> steps step t u -> steps step s u.
Proof. intros H1 H2. induction H2; eauto using steps. Qed.

Lemma steps_one {S} (step : S -> S -> Prop) s t : step s t -> steps step s t.
Proof. intros. eapply steps_snoc; [constructor | done]. Qed.

Lemma string_app_cons a (s t : string) : String a s +:+ t = String a (s +:+ t).
Proof. reflexivity. Qed.

Lemma string_app_nil_l (s : string) : "" +:+ s = s.
Proof. reflexivity. Qed.

Lemma string_app_nil_r (s : string) : s +:+ "" = s.
Proof. induction s as [|a s IH]; [done|]. by rewrite string_app_cons, IH. Qed.

Lemma string_app_assoc (s1 s2 s3 : string) : (s1 +:+ s2) +:+ s3 = s1 +:+ (s2 +:+ s3).
Proof. induction s1 as [|a s1 IH]; [done|]. by rewrite !string_app_cons, IH. Qed.

Lemma string_app_length (s1 s2 : string) :
  String.length (s1 +:+ s2) = (String.length s1 + String.length s2)%nat.
Proof. induction s1 as [|a s1 IH]; [done|]. rewrite string_app_cons. simpl. by rewrite IH. Qed.

(** ** Histories: the two last elements of a sequence of samples *)

(** The last element of a history, and the one before, with a default. *)
Definition newest {A} (d : A) (l : list A) : A := default d (l !! pred (length l)).
Definition former {A} (d : A) (l : list A) : A :=
  if (length l <? 2)%nat then d else default d (l !! (length l - 2)%nat).

(** [cur] and [prev] are the two last elements of the history [l], if any. *)
Definition holds {A} (d : A) (l : list A) (cur prev : option A) : Prop :=
  match l with
  | [] => cur = None /\ prev = None
  | _ => cur = Some (newest d l) /\ prev = Some (former d l)
  end.

Lemma newest_snoc {A} (d : A) l a : newest d (l ++ [a])%list = a.
Proof.
  unfold newest. rewrite length_app. cbn [length]. replace (pred (length l + 1)) with (length l) by lia.
  by rewrite list_lookup_middle.
Qed.

Lemma former_snoc {A} (d : A) l a : former d (l ++ [a])%list = newest d l.
Proof.
  unfold former, newest. rewrite length_app. cbn [length].
  destruct l as [|b l]; [done|]. destruct (Nat.ltb_spec (length (b :: l) + 1) 2); [simpl in *; lia|].
  replace (length (b :: l) + 1 - 2)%nat with (pred (length (b :: l))) by (simpl; lia).
  rewrite lookup_app_l by (simpl; lia). done.
Qed.

Lemma holds_snoc {A} (d : A) l a cur prev :
  holds d l cur prev -> holds d (l ++ [a])%list (Some a) (Some (default d cur)).
Proof.
  intros H. destruct (l ++ [a])%list as [|b l'] eqn:E; [by destruct l|].
  cbn [holds]. rewrite <- E, newest_snoc, former_snoc. split; [done|]. f_equal.
  destruct l; destruct H as [-> _]; done.
Qed.

#[export] Hint Resolve u64_range i64_range : go.
#[export] Hint Resolve steps_refl steps_snoc steps_one : go.
Create Rewrite HintDb gostr.
#[export] Hint Rewrite string_app_cons string_app_nil_l string_app_nil_r string_app_assoc : gostr.
