(* ===== verification/GoStrings.v ===== *)
(** * The parts of Go's [strings], [strconv] and [path/filepath] the program uses

    A Go string is a byte string; the functions that look at Unicode classes
    ([strings.Fields], [strings.TrimSpace], [strings.ToLower]) are given on their
    ASCII behaviour, which is all that /proc, cgroup files and [ip link] produce. *)
From S2P Require Import Prelude.
From Stdlib Require Export Ascii.
#[global] Open Scope string_scope.
#[global] Open Scope Z_scope.

(** ** Characters *)

Definition is_space (c : ascii) : bool :=
  let n := nat_of_ascii c in
  ((9 <=? n) && (n <=? 13) || (n =? 32))%nat.

Definition is_digit (c : ascii) : bool :=
  let n := nat_of_ascii c in ((48 <=? n) && (n <=? 57))%nat.

Definition digit_val (c : ascii) : Z := Z.of_nat (nat_of_ascii c) - 48.
Definition digit_char (d : Z) : ascii := ascii_of_nat (Z.to_nat d + 48).

Definition nl : ascii := "010".
Definition eol : string := String nl "".

(** ** [strings] *)

Definition HasPrefix (s p : string) : bool := String.prefix p s.

Fixpoint TrimSuffix (s suffix : string) : string :=
  if String.eqb s suffix then ""
  else match s with
       | "" => ""
       | String c s' => String c (TrimSuffix s' suffix)
       end.

(** [strings.Split] for a one-byte separator: never empty. *)
Fixpoint Split (sep : ascii) (s : string) : list string :=
  match s with
  | "" => [""]
  | String c s' =>
      if Ascii.eqb c sep then "" :: Split sep s'
      else match Split sep s' with
           | w :: ws => String c w :: ws
           | [] => [String c ""]
           end
  end.

(** [strings.Join]. *)
Fixpoint Join (sep : string) (l : list string) : string :=
  match l with
  | [] => ""
  | [w] => w
  | w :: ws => w +:+ sep +:+ Join sep ws
  end.

Fixpoint TrimLeft (s : string) : string :=
  match s with
  | String c s' => if is_space c then TrimLeft s' else s
  | "" => ""
  end.

Fixpoint TrimRight (s : string) : string :=
  match s with
  | "" => ""
  | String c s' =>
      match TrimRight s' with
      | "" => if is_space c then "" else String c ""
      | t => String c t
      end
  end.

Definition TrimSpace (s : string) : string := TrimRight (TrimLeft s).

(** The longest prefix without white space, and what follows it. *)
Fixpoint span_word (s : string) : string * string :=
  match s with
  | String c s' =>
      if is_space c then ("", s)
      else let '(w, r) := span_word s' in (String c w, r)
  | "" => ("", "")
  end.

(** [strings.Fields]; the fuel is the length of the string. *)
Fixpoint Fields_go (fuel : nat) (s : string) : list string :=
  match fuel with
  | O => []
  | S fuel' =>
      match TrimLeft s with
      | "" => []
      | t => let '(w, r) := span_word t in w :: Fields_go fuel' r
      end
  end.

Definition Fields (s : string) : list string := Fields_go (S (String.length s)) s.

Definition lower (c : ascii) : ascii :=
  let n := nat_of_ascii c in
  if ((65 <=? n) && (n <=? 90))%nat then ascii_of_nat (n + 32) else c.

Fixpoint ToLower (s : string) : string :=
  match s with "" => "" | String c s' => String (lower c) (ToLower s') end.

(** ** [strconv] *)

Fixpoint parse_digits (acc : Z) (s : string) : option Z :=
  match s with
  | "" => Some acc
  | String c s' => if is_digit c then parse_digits (10 * acc + digit_val c) s' else None
  end.

(** [strconv.ParseUint(s, 10, 64)]. *)
Definition ParseUint (s : string) : outcome Z :=
  if String.eqb s "" then Err (ErrOpaque "invalid syntax")
  else match parse_digits 0 s with
       | None => Err (ErrOpaque "invalid syntax")
       | Some v => if v <? 2 ^ 64 then Ok v else Err (ErrOpaque "value out of range")
       end.

(** [strconv.Atoi]. *)
Definition Atoi (s : string) : outcome Z :=
  let '(neg, digits) :=
    match s with
    | String c s' =>
        if Ascii.eqb c "-" then (true, s')
        else if Ascii.eqb c "+" then (false, s') else (false, s)
    | "" => (false, s)
    end in
  if String.eqb digits "" then Err (ErrOpaque "invalid syntax")
  else match parse_digits 0 digits with
       | None => Err (ErrOpaque "invalid syntax")
       | Some v =>
           let r := if (neg : bool) then - v else v in
           if bool_decide (is_i64 r) then Ok r else Err (ErrOpaque "value out of range")
       end.

Fixpoint format_go (fuel : nat) (n : Z) : string :=
  match fuel with
  | O => ""
  | S fuel' =>
      if n <? 10 then String (digit_char n) ""
      else format_go fuel' (n / 10) +:+ String (digit_char (n mod 10)) ""
  end.

(** [strconv.FormatUint(n, 10)]; twenty digits hold every [uint64]. *)
Definition FormatUint (n : Z) : string := format_go 20 n.

(** [strconv.Itoa]. *)
Definition Itoa (n : Z) : string :=
  if n <? 0 then String "-" (format_go 20 (- n)) else format_go 20 n.

(** [%v] of a bool. *)
Definition FormatBool (b : bool) : string := if b then "true" else "false".

(** ** [path/filepath] *)

Definition clean_step (rooted : bool) (stack : list string) (comp : string) : list string :=
  if String.eqb comp "" || String.eqb comp "." then stack
  else if String.eqb comp ".." then
    match stack with
    | top :: rest => if String.eqb top ".." then comp :: stack else rest
    | [] => if rooted then [] else [comp]
    end
  else comp :: stack.

Definition Clean (path : string) : string :=
  let rooted := HasPrefix path "/" in
  let comps := List.rev (fold_left (clean_step rooted) (Split "/" path) []) in
  let body := Join "/" comps in
  if rooted then "/" +:+ body else if String.eqb body "" then "." else body.

(** [filepath.Join]: the first non-empty element onwards, cleaned. *)
Fixpoint JoinPath (elems : list string) : string :=
  match elems with
  | [] => ""
  | e :: es => if String.eqb e "" then JoinPath es else Clean (Join "/" elems)
  end.

(** [filepath.Base]: the last non-empty component. *)
Definition Base (path : string) : string :=
  if String.eqb path "" then "."
  else match List.rev (List.filter (fun c => negb (String.eqb c "")) (Split "/" path)) with
       | c :: _ => c
       | [] => "/"
       end.

(** ** Lemmas *)

Lemma ascii_bound c : (nat_of_ascii c < 256)%nat.
Proof. apply nat_ascii_bounded. Qed.

Lemma digit_char_nat d : 0 <= d < 10 -> nat_of_ascii (digit_char d) = (Z.to_nat d + 48)%nat.
Proof. intros H. unfold digit_char. apply nat_ascii_embedding. lia. Qed.

Lemma digit_val_char d : 0 <= d < 10 -> digit_val (digit_char d) = d.
Proof. intros H. unfold digit_val. rewrite digit_char_nat; lia. Qed.

Lemma is_digit_char d : 0 <= d < 10 -> is_digit (digit_char d) = true.
Proof.
  intros H. unfold is_digit. rewrite digit_char_nat by done.
  apply andb_true_iff. rewrite !Nat.leb_le. lia.
Qed.

Lemma digit_val_range c : is_digit c = true -> 0 <= digit_val c < 10.
Proof.
  unfold is_digit, digit_val. rewrite andb_true_iff, !Nat.leb_le. lia.
Qed.

Lemma digit_not_space c : is_digit c = true -> is_space c = false.
Proof.
  unfold is_digit, is_space. rewrite andb_true_iff, !Nat.leb_le. intros H.
  apply orb_false_iff. rewrite andb_false_iff, !Nat.leb_gt, Nat.eqb_neq. lia.
Qed.

(** A string all of whose characters satisfy [P]. *)
Fixpoint all_chars (P : ascii -> bool) (s : string) : bool :=
  match s with "" => true | String c s' => P c && all_chars P s' end.

Lemma all_chars_app P s t : all_chars P (s +:+ t) = all_chars P s && all_chars P t.
Proof.
  induction s as [|c s IH]; [done|]. rewrite string_app_cons. simpl.
  by rewrite IH, andb_assoc.
Qed.

Lemma all_chars_impl P Q s :
  (forall c, P c = true -> Q c = true) -> all_chars P s = true -> all_chars Q s = true.
Proof.
  intros H. induction s as [|c s IH]; [done|]. simpl.
  rewrite !andb_true_iff. intros [? ?]. auto.
Qed.

Lemma parse_digits_app acc s t :
  parse_digits acc (s +:+ t) =
  match parse_digits acc s with Some a => parse_digits a t | None => None end.
Proof.
  revert acc. induction s as [|c s IH]; intros acc; [done|].
  rewrite string_app_cons. simpl. destruct (is_digit c); [apply IH | done].
Qed.

Lemma format_go_parse fuel n :
  0 <= n < 10 ^ Z.of_nat fuel ->
  parse_digits 0 (format_go fuel n) = Some n.
Proof.
  revert n. induction fuel as [|fuel IH]; intros n Hn.
  { rewrite Z.pow_0_r in Hn. replace n with 0 by lia. done. }
  simpl. destruct (Z.ltb_spec n 10).
  { simpl. rewrite is_digit_char, digit_val_char by lia. done. }
  rewrite Nat2Z.inj_succ, Z.pow_succ_r in Hn by lia.
  rewrite parse_digits_app, IH.
  - pose proof (Z.mod_pos_bound n 10). simpl.
    rewrite is_digit_char, digit_val_char by lia.
    f_equal. pose proof (Z.div_mod n 10). lia.
  - split; [apply Z.div_pos; lia | apply Z.div_lt_upper_bound; lia].
Qed.

Lemma format_go_digits fuel n : 0 <= n -> all_chars is_digit (format_go fuel n) = true.
Proof.
  revert n. induction fuel as [|fuel IH]; intros n Hn; [done|]. simpl.
  destruct (Z.ltb_spec n 10).
  - simpl. by rewrite is_digit_char by lia.
  - rewrite all_chars_app, IH by (apply Z.div_pos; lia). simpl.
    pose proof (Z.mod_pos_bound n 10). by rewrite is_digit_char by lia.
Qed.

Lemma format_go_nonempty fuel n : (0 < fuel)%nat -> format_go fuel n <> "".
Proof.
  destruct fuel; [lia|]. intros _. simpl. destruct (n <? 10); [done|].
  by destruct (format_go fuel (n / 10)).
Qed.

Lemma FormatUint_digits n : 0 <= n -> all_chars is_digit (FormatUint n) = true.
Proof. apply format_go_digits. Qed.

Lemma FormatUint_nonempty n : FormatUint n <> "".
Proof. apply format_go_nonempty. lia. Qed.

Lemma FormatUint_parse n : is_u64 n -> parse_digits 0 (FormatUint n) = Some n.
Proof. intros [? ?]. apply format_go_parse. lia. Qed.

Lemma ParseUint_FormatUint n : is_u64 n -> ParseUint (FormatUint n) = Ok n.
Proof.
  intros H. unfold ParseUint.
  destruct (String.eqb_spec (FormatUint n) ""); [by destruct (FormatUint_nonempty n)|].
  rewrite FormatUint_parse by done.
  destruct (Z.ltb_spec n (2 ^ 64)); [done | destruct H; lia].
Qed.

Lemma FormatUint_inj m n : is_u64 m -> is_u64 n -> FormatUint m = FormatUint n -> m = n.
Proof.
  intros Hm Hn H. apply FormatUint_parse in Hm, Hn. congruence.
Qed.

Lemma ParseUint_range s n : ParseUint s = Ok n -> is_u64 n.
Proof.
  unfold ParseUint. destruct (String.eqb s ""); [done|].
  assert (forall t acc v, 0 <= acc -> parse_digits acc t = Some v -> 0 <= v) as Hpos.
  { induction t as [|c t IH]; simpl; intros acc v Hacc Hv; [by simplify_eq|].
    destruct (is_digit c) eqn:Hc; [|done]. apply digit_val_range in Hc.
    eapply IH; [|exact Hv]. lia. }
  destruct (parse_digits 0 s) as [v|] eqn:Hv; [|done].
  destruct (Z.ltb_spec v (2 ^ 64)); intros; inv_ok.
  split; [eapply Hpos; [|exact Hv]; lia | lia].
Qed.

Lemma ToLower_idemp s : ToLower (ToLower s) = ToLower s.
Proof.
  induction s as [|c s IH]; [done|]. simpl. rewrite IH. f_equal.
  unfold lower at 2.
  destruct ((65 <=? nat_of_ascii c) && (nat_of_ascii c <=? 90))%nat eqn:Hc.
  - apply andb_true_iff in Hc as [H1%Nat.leb_le H2%Nat.leb_le].
    unfold lower. rewrite Hc || idtac.
    assert (nat_of_ascii (ascii_of_nat (nat_of_ascii c + 32)) = (nat_of_ascii c + 32)%nat) as E
      by (apply nat_ascii_embedding; lia).
    rewrite E. destruct (Nat.leb_spec (nat_of_ascii c + 32) 90); [lia|].
    rewrite andb_false_r.
    destruct (Nat.leb_spec 65 (nat_of_ascii c)); [|lia].
    destruct (Nat.leb_spec (nat_of_ascii c) 90); [done|lia].
  - unfold lower. by rewrite Hc.
Qed.

(** ** White space and words *)

Definition wordChars (s : string) : bool := all_chars (fun c => negb (is_space c)) s.

(** The string is empty or starts with white space. *)
Definition space_led (s : string) : bool :=
  match s with "" => true | String c _ => is_space c end.

Lemma wordChars_digits s : all_chars is_digit s = true -> wordChars s = true.
Proof.
  apply all_chars_impl. intros c Hc. apply negb_true_iff. by apply digit_not_space.
Qed.

Lemma wordChars_app s t : wordChars (s +:+ t) = wordChars s && wordChars t.
Proof. apply all_chars_app. Qed.

Lemma TrimLeft_word w rest :
  wordChars w = true -> w <> "" -> TrimLeft (w +:+ rest) = w +:+ rest.
Proof.
  destruct w as [|c w]; [done|]. unfold wordChars. cbn [all_chars].
  rewrite andb_true_iff, negb_true_iff. intros [Hc _] _.
  rewrite string_app_cons. cbn [TrimLeft]. by rewrite Hc.
Qed.

Lemma TrimLeft_length s : (String.length (TrimLeft s) <= String.length s)%nat.
Proof. induction s as [|c s IH]; simpl; [lia|]. destruct (is_space c); simpl; lia. Qed.

Lemma span_word_app w rest :
  wordChars w = true -> space_led rest = true -> span_word (w +:+ rest) = (w, rest).
Proof.
  induction w as [|c w IH]; intros Hw Hr.
  - rewrite string_app_nil_l. destruct rest as [|c rest]; [done|]. simpl in *. by rewrite Hr.
  - unfold wordChars in Hw. cbn [all_chars] in Hw. apply andb_true_iff in Hw as [Hc Hw].
    apply negb_true_iff in Hc. rewrite string_app_cons. cbn [span_word].
    rewrite Hc, IH by done. done.
Qed.

Lemma span_word_length s w r :
  span_word s = (w, r) -> String.length s = (String.length w + String.length r)%nat.
Proof.
  revert w. induction s as [|c s IH]; intros w; cbn [span_word]; [by intros [= <- <-]|].
  destruct (is_space c); [by intros [= <- <-]|].
  destruct (span_word s) as [w' r']. intros [= <- <-]. simpl. by rewrite (IH w').
Qed.

Lemma span_word_first c s : is_space c = false -> exists w, (span_word (String c s)).1 = String c w.
Proof. intros Hc. cbn [span_word]. rewrite Hc. destruct (span_word s). by eexists. Qed.

Lemma TrimLeft_head s c t : TrimLeft s = String c t -> is_space c = false.
Proof.
  induction s as [|c0 s IH]; [done|]. simpl. destruct (is_space c0) eqn:E; [done|].
  by intros [= -> ->].
Qed.

Lemma Fields_go_fuel n m s :
  (String.length s < n)%nat -> (String.length s < m)%nat -> Fields_go n s = Fields_go m s.
Proof.
  revert m s. induction n as [|n IH]; intros m s Hn Hm; [lia|].
  destruct m as [|m]; [lia|]. cbn [Fields_go].
  pose proof (TrimLeft_length s) as Hlen.
  destruct (TrimLeft s) as [|c t] eqn:Ht; [done|].
  apply TrimLeft_head in Ht.
  destruct (span_word (String c t)) as [w r] eqn:Hs. f_equal.
  destruct (span_word_first c t Ht) as [w' Hw']. rewrite Hs in Hw'. simpl in Hw'. subst w.
  apply span_word_length in Hs. simpl in Hs, Hlen. apply IH; lia.
Qed.

(** One more word: the working equation of [Fields]. *)
Lemma Fields_cons s w rest :
  TrimLeft s = w +:+ rest -> wordChars w = true -> w <> "" -> space_led rest = true ->
  Fields s = w :: Fields rest.
Proof.
  intros Ht Hw Hne Hr. unfold Fields at 1. cbn [Fields_go]. rewrite Ht.
  destruct (w +:+ rest) as [|c t] eqn:E.
  { apply (f_equal String.length) in E. rewrite string_app_length in E.
    destruct w; [done|]. simpl in E. lia. }
  rewrite <- E, span_word_app by done. f_equal.
  pose proof (TrimLeft_length s) as Hlen. rewrite Ht, <- E, string_app_length in Hlen.
  unfold Fields. destruct w; [done|]. simpl in Hlen. apply Fields_go_fuel; lia.
Qed.

Lemma Fields_blank s : TrimLeft s = "" -> Fields s = [].
Proof. intros H. unfold Fields. cbn [Fields_go]. by rewrite H. Qed.

(** ** Prefixes of a given class of characters *)

Lemma HasPrefix_app p s : HasPrefix (p +:+ s) p = true.
Proof.
  unfold HasPrefix. induction p as [|c p IH]; [by destruct s|].
  rewrite string_app_cons. cbn [String.prefix]. by destruct (ascii_dec c c).
Qed.

Lemma HasPrefix_spec s p : HasPrefix s p = true <-> exists t, s = p +:+ t.
Proof.
  split; [|intros [t ->]; apply HasPrefix_app]. unfold HasPrefix.
  revert s. induction p as [|c p IH]; intros s H; [by exists s|].
  destruct s as [|c' s]; [done|]. cbn [String.prefix] in H.
  destruct (ascii_dec c c') as [->|]; [|done].
  destruct (IH s H) as [t ->]. by exists t.
Qed.

Lemma Split_single sep s : all_chars (fun c => negb (Ascii.eqb c sep)) s = true -> Split sep s = [s].
Proof.
  induction s as [|c s IH]; [done|]. cbn [all_chars Split].
  rewrite andb_true_iff, negb_true_iff. intros [-> Hs]. by rewrite IH.
Qed.

Lemma Split_app sep s t :
  all_chars (fun c => negb (Ascii.eqb c sep)) s = true ->
  Split sep (s +:+ String sep t) = s :: Split sep t.
Proof.
  induction s as [|c s IH].
  - intros _. rewrite string_app_nil_l. cbn [Split]. by rewrite Ascii.eqb_refl.
  - cbn [all_chars]. rewrite andb_true_iff, negb_true_iff. intros [Hc Hs].
    rewrite string_app_cons. cbn [Split]. by rewrite Hc, IH.
Qed.

Lemma Split_nonempty sep s : Split sep s <> [].
Proof. destruct s; simpl; [done|]. by destruct (Ascii.eqb _ _), (Split sep s). Qed.
