(* ===== verification/GoFloat.v ===== *)
(** * Go's [float64]

    IEEE 754 binary64, by the Standard Library's executable specification
    [SpecFloat]: 53 bits of precision, round to nearest with ties to even.
    Conversions from integers round the same way; a conversion to an integer
    truncates, and what it gives outside the integer's range (or for NaN) is left
    to the implementation by the Go specification, so it is a parameter. *)
From S2P Require Import Prelude.
From Stdlib Require Export SpecFloat.
From Stdlib Require Import QArith.

#[global] Open Scope Z_scope.

Abbreviation float64 := spec_float.

Definition prec64 : Z := 53.
Definition emax64 : Z := 1024.

Definition fadd (x y : float64) : float64 := SFadd prec64 emax64 x y.
Definition fsub (x y : float64) : float64 := SFsub prec64 emax64 x y.
Definition fmul (x y : float64) : float64 := SFmul prec64 emax64 x y.
Definition fdiv (x y : float64) : float64 := SFdiv prec64 emax64 x y.
Definition fltb (x y : float64) : bool := SFltb x y.

Definition fzero : float64 := S754_zero false.

(** [float64(n)] for an integer [n]. *)
Definition of_int (n : Z) : float64 := binary_normalize prec64 emax64 n 0 false.

Definition fone : float64 := of_int 1.

(** The nearest [float64] to [num / den * 10 ^ e], for [den > 0] and [num >= 0]. *)
Definition of_decimal (num e : Z) : float64 :=
  if num =? 0 then fzero
  else if 0 <=? e then of_int (num * 10 ^ e)
  else let '(m, ex, l) := SFdiv_core_binary prec64 emax64 num 0 (10 ^ (- e)) 0 in
       binary_round_aux prec64 emax64 false m ex l.

(** The integer part of a finite float, by truncation; [None] for NaN and infinities. *)
Definition trunc (x : float64) : option Z :=
  match x with
  | S754_zero _ => Some 0
  | S754_finite s m e =>
      let a := if 0 <=? e then Zpos m * 2 ^ e else Zpos m / 2 ^ (- e) in
      Some (if s then - a else a)
  | _ => None
  end.

(** [int64(x)] (and [int(x)] on a 64-bit platform): [oob] gives the
    implementation's result where the value is not representable. *)
Definition to_int64 (oob : float64 -> Z) (x : float64) : Z :=
  match trunc x with
  | Some z => if bool_decide (is_i64 z) then z else i64 (oob x)
  | None => i64 (oob x)
  end.

(** [uint64(x)]. *)
Definition to_uint64 (oob : float64 -> Z) (x : float64) : Z :=
  match trunc x with
  | Some z => if bool_decide (is_u64 z) then z else u64 (oob x)
  | None => u64 (oob x)
  end.

Definition is_finite (x : float64) : bool :=
  match x with S754_zero _ | S754_finite _ _ _ => true | _ => false end.

#[export] Instance float64_eq_dec : EqDecision float64.
Proof. solve_decision. Defined.

(** The rational value of a finite float. *)
Definition fvalue (x : float64) : Q :=
  match x with
  | S754_finite s m e =>
      let q := if 0 <=? e then inject_Z (Zpos m * 2 ^ e)
               else Qmake (Zpos m) (Z.to_pos (2 ^ (- e))) in
      if s then Qopp q else q
  | _ => 0%Q
  end.

(** ** Sanity checks against values computed by hardware *)

Example f64_third : fdiv fone (of_int 3) = S754_finite false 6004799503160661 (-54).
Proof. reflexivity. Qed.

Example f64_decimal : of_decimal 176 (-2) = S754_finite false 7926335344172073 (-52).
Proof. reflexivity. Qed.

Example f64_round : of_int (2 ^ 53 + 1) = of_int (2 ^ 53).
Proof. reflexivity. Qed.

Lemma to_int64_range oob x : is_i64 (to_int64 oob x).
Proof.
  unfold to_int64. destruct (trunc x) as [z|]; [case_bool_decide; [done|] |]; apply i64_range.
Qed.
