(* ===== verification/FloatBounds.v ===== *)
(** * Bounds on rounded results

    The operations of [GoFloat] round.  This file bounds their results: an
    operation on non-negative numbers whose exact result is at most an integer
    [N < 2 ^ 53] gives a finite float that is at most [N], because [N] is itself
    a float.  [between N x] says it of a float whose exponent is not positive, as
    every float below [2 ^ 53] has. *)
From S2P Require Import Prelude GoFloat.
From Stdlib Require Import QArith Qabs.

#[local] Open Scope Z_scope.

(** [x] is finite, not negative, and at most [N]. *)
Definition between (N : Z) (x : float64) : Prop :=
  match x with
  | S754_zero s => s = false
  | S754_finite s m e => s = false /\ e <= 0 /\ Zpos m <= N * 2 ^ (- e)
  | _ => False
  end.

(** [x] is exactly the integer [k]. *)
Definition exactly (k : Z) (x : float64) : Prop :=
  match x with
  | S754_zero s => s = false /\ k = 0
  | S754_finite s m e => s = false /\ -1074 <= e <= 0 /\ Zpos m = k * 2 ^ (- e)
  | _ => False
  end.

(** ** Digits *)

Lemma digits2_pos_bounds p : 2 ^ (Zpos (digits2_pos p) - 1) <= Zpos p < 2 ^ Zpos (digits2_pos p).
Proof.
  induction p as [p IH|p IH|]; cbn [digits2_pos]; [| |done].
  all: rewrite Pos2Z.inj_succ, (Z.pow_succ_r 2 (Zpos (digits2_pos p))) by lia.
  all: replace (Z.succ (Zpos (digits2_pos p)) - 1) with (Z.succ (Zpos (digits2_pos p) - 1)) by lia.
  all: rewrite Z.pow_succ_r by lia; lia.
Qed.

Lemma Zdigits2_bounds m : 0 < m -> 2 ^ (Zdigits2 m - 1) <= m < 2 ^ Zdigits2 m.
Proof. destruct m; [lia| |lia]. intros _. apply digits2_pos_bounds. Qed.

Lemma Zdigits2_nonneg m : 0 <= Zdigits2 m.
Proof. by destruct m. Qed.

Lemma Zdigits2_le m k : 0 <= m < 2 ^ k -> 0 <= k -> Zdigits2 m <= k.
Proof.
  intros [H0 H1] Hk. destruct (decide (m = 0)) as [->|Hne]; [done|].
  pose proof (Zdigits2_bounds m ltac:(lia)) as [Hl _].
  enough (Zdigits2 m - 1 < k) by lia. eapply (Z.pow_lt_mono_r_iff 2); lia.
Qed.

Lemma iter_xO p j : Zpos (Pos.iter xO p j) = Zpos p * 2 ^ Zpos j.
Proof.
  induction j using Pos.peano_ind; [cbn; lia|].
  rewrite Pos.iter_succ, Pos2Z.inj_succ, Z.pow_succ_r by lia. lia.
Qed.

(** ** Shifting the mantissa right *)

(** Whether something was shifted out. *)
Definition inexact (x : shr_record) : bool := shr_r x || shr_s x.

(** [y] is [x] shifted right by [k] bits. *)
Definition shifted (k : Z) (x y : shr_record) : Prop :=
  shr_m y = shr_m x / 2 ^ k /\ (inexact y = true -> inexact x = true \/ shr_m y * 2 ^ k < shr_m x).

Lemma shifted_zero x : shifted 0 x x.
Proof. split; [by rewrite Z.div_1_r|auto]. Qed.

Lemma shifted_trans j k x y z :
  0 <= j -> 0 <= k -> shifted j x y -> shifted k y z -> shifted (j + k) x z.
Proof.
  intros Hj Hk [H1 H2] [H3 H4].
  assert (0 < 2 ^ j /\ 0 < 2 ^ k) as [Pj Pk] by (split; apply Z.pow_pos_nonneg; lia).
  split.
  - rewrite H3, H1, Z.pow_add_r by done. apply Z.div_div; lia.
  - intros Hi. rewrite Z.pow_add_r by done.
    assert (shr_m y * 2 ^ j <= shr_m x) by (rewrite H1; pose proof (Z.mul_div_le (shr_m x) (2 ^ j)); lia).
    assert (shr_m z * 2 ^ k <= shr_m y) by (rewrite H3; pose proof (Z.mul_div_le (shr_m y) (2 ^ k)); lia).
    destruct (H4 Hi) as [Hy|Hlt]; [destruct (H2 Hy) as [Hx|Hlt]; [by left|]|]; right; nia.
Qed.

Lemma shr_1_shifted x : 0 <= shr_m x -> shifted 1 x (shr_1 x).
Proof.
  destruct x as [m r s]. cbn [shr_m]. intros Hm. split.
  - destruct m as [|[p|p|]|]; try reflexivity; cbn [shr_1 shr_m].
    + rewrite Pos2Z.inj_xI. apply (Z.div_unique_pos _ _ _ 1); lia.
    + rewrite Pos2Z.inj_xO. apply (Z.div_unique_pos _ _ _ 0); lia.
    + lia.
  - destruct m as [|[p|p|]|]; cbn [shr_1 inexact shr_m shr_r shr_s]; try (by left); intros _; right; lia.
Qed.

Lemma iter_shr_1_shifted p x : 0 <= shr_m x -> shifted (Zpos p) x (SpecFloat.iter_pos shr_1 p x).
Proof.
  revert x. induction p as [p IH|p IH|]; intros x Hx; cbn [iter_pos].
  - assert (shifted 1 x (shr_1 x)) as H1 by by apply shr_1_shifted.
    assert (0 <= shr_m (shr_1 x)) as P1 by (destruct H1 as [-> _]; by apply Z.div_pos).
    pose proof (IH (shr_1 x) P1) as H2.
    assert (0 <= shr_m (SpecFloat.iter_pos shr_1 p (shr_1 x))) as P2
      by (destruct H2 as [-> _]; apply Z.div_pos; [done|apply Z.pow_pos_nonneg; lia]).
    pose proof (IH _ P2) as H3.
    replace (Zpos p~1) with (1 + Zpos p + Zpos p) by lia.
    eapply shifted_trans; [lia|lia| |exact H3]. eapply shifted_trans; [lia|lia|exact H1|exact H2].
  - pose proof (IH x Hx) as H2.
    assert (0 <= shr_m (SpecFloat.iter_pos shr_1 p x)) as P2
      by (destruct H2 as [-> _]; apply Z.div_pos; [done|apply Z.pow_pos_nonneg; lia]).
    pose proof (IH _ P2) as H3.
    replace (Zpos p~0) with (Zpos p + Zpos p) by lia.
    eapply shifted_trans; [lia|lia|exact H2|exact H3].
  - by apply shr_1_shifted.
Qed.

Lemma shr_shifted x e n x' e' :
  0 <= shr_m x -> shr x e n = (x', e') -> e' = e + Z.max 0 n /\ shifted (Z.max 0 n) x x'.
Proof.
  intros Hx. destruct n as [|p|p]; cbn [shr]; intros [= <- <-]; (split; [lia|]).
  - apply shifted_zero.
  - by apply iter_shr_1_shifted.
  - apply shifted_zero.
Qed.

Lemma shr_record_of_loc_m m l : shr_m (shr_record_of_loc m l) = m.
Proof. by destruct l as [|[]]. Qed.

Lemma shr_record_of_loc_inexact m l : inexact (shr_record_of_loc m l) = true -> l <> loc_Exact.
Proof. by destruct l as [|[]]. Qed.

(** ** Rounding *)

Lemma round_nearest_even_le m l B :
  m <= B -> (l <> loc_Exact -> m < B) -> m <= round_nearest_even m l <= B.
Proof.
  intros H1 H2. destruct l as [|[]]; cbn [round_nearest_even]; [lia| |lia|].
  - assert (m < B) by by apply H2. destruct (Z.even m); lia.
  - assert (m < B) by by apply H2. lia.
Qed.

Lemma loc_of_shr_record_exact x : loc_of_shr_record x <> loc_Exact -> inexact x = true.
Proof. destruct x as [m [] []]; done. Qed.

Lemma fexp_le d : d <= 53 -> fexp prec64 emax64 d <= 0.
Proof. unfold fexp, emin, prec64, emax64. lia. Qed.

(** One normalisation keeps the bound: the exponent stays non-positive. *)
Lemma shr_fexp_bound N m e l x' e' :
  0 <= m -> e <= 0 -> 0 <= N < 2 ^ 53 -> m <= N * 2 ^ (- e) -> (l <> loc_Exact -> m < N * 2 ^ (- e)) ->
  shr_fexp prec64 emax64 m e l = (x', e') ->
  e' <= 0 /\ 0 <= shr_m x' /\ shr_m x' <= N * 2 ^ (- e') /\
  (loc_of_shr_record x' <> loc_Exact -> shr_m x' < N * 2 ^ (- e')).
Proof.
  intros Hm He HN Hle Hlt Hs. unfold shr_fexp in Hs.
  assert (Zdigits2 m <= 53 - e) as Hd.
  { apply Zdigits2_le; [|lia]. split; [done|]. unfold Z.sub. rewrite Z.pow_add_r by lia.
    assert (0 < 2 ^ (- e)) by (apply Z.pow_pos_nonneg; lia). nia. }
  apply shr_shifted in Hs as [-> [H1 H2]]; [|by rewrite shr_record_of_loc_m].
  rewrite shr_record_of_loc_m in H1, H2.
  set (n := Z.max 0 (fexp prec64 emax64 (Zdigits2 m + e) - e)) in *.
  assert (0 <= n /\ e + n <= 0) as [Hn Hen] by (pose proof (fexp_le (Zdigits2 m + e)); lia).
  assert (2 ^ (- e) = 2 ^ (- (e + n)) * 2 ^ n) as Hpow by (rewrite <- Z.pow_add_r by lia; f_equal; lia).
  assert (0 < 2 ^ n) by (apply Z.pow_pos_nonneg; lia).
  pose proof (Z.mul_div_le m (2 ^ n) ltac:(lia)) as Hdiv. rewrite <- H1 in Hdiv.
  split; [done|]. split; [rewrite H1; by apply Z.div_pos|].
  rewrite Hpow in Hle, Hlt. split; [nia|].
  intros Hi%loc_of_shr_record_exact. destruct (H2 Hi) as [Hx|Hx].
  - apply shr_record_of_loc_inexact in Hx. specialize (Hlt Hx). nia.
  - nia.
Qed.

(** Rounding a number that is at most an integer below [2 ^ 53] gives at most
    that integer. *)
Lemma round_between N m e l :
  0 <= m -> e <= 0 -> 0 <= N < 2 ^ 53 -> m <= N * 2 ^ (- e) -> (l <> loc_Exact -> m < N * 2 ^ (- e)) ->
  between N (binary_round_aux prec64 emax64 false m e l).
Proof.
  intros Hm He HN Hle Hlt. unfold binary_round_aux.
  destruct (shr_fexp prec64 emax64 m e l) as [x1 e1] eqn:E1.
  eapply shr_fexp_bound in E1 as (He1 & Hp1 & Hle1 & Hlt1); [|eassumption..].
  pose proof (round_nearest_even_le _ _ _ Hle1 Hlt1) as Hr.
  destruct (shr_fexp prec64 emax64 (round_nearest_even _ _) e1 loc_Exact) as [x2 e2] eqn:E2.
  eapply (shr_fexp_bound N) in E2 as (He2 & Hp2 & Hle2 & _); [|lia|done|done|lia|done].
  destruct (shr_m x2) as [|p|p]; [done| |lia].
  rewrite (proj2 (Z.leb_le _ _)) by (unfold emax64, prec64; lia). done.
Qed.

(** ** The operations *)

Lemma shl_align_le m e e' :
  e' <= e -> exists m', shl_align m e e' = (m', e') /\ Zpos m' = Zpos m * 2 ^ (e - e').
Proof.
  intros Hle. unfold shl_align. destruct (e' - e) as [|p|p] eqn:E; [|lia|].
  - exists m. replace (e - e') with 0 by lia. split; [f_equal; lia|lia].
  - exists (Pos.iter xO m p). split; [done|]. rewrite iter_xO. do 2 f_equal. lia.
Qed.

Lemma shl_align_ge m e e' : e <= e' -> shl_align m e e' = (m, e).
Proof. intros Hle. unfold shl_align. destruct (e' - e) as [|p|p] eqn:E; [done..|lia]. Qed.

Lemma shr_fexp_exactly k m e x' e' :
  0 <= k < 2 ^ 53 -> -1074 <= e <= 0 -> m = k * 2 ^ (- e) ->
  shr_fexp prec64 emax64 m e loc_Exact = (x', e') ->
  -1074 <= e' <= 0 /\ shr_m x' = k * 2 ^ (- e') /\ loc_of_shr_record x' = loc_Exact.
Proof.
  intros Hk [Hmin He] -> Hs. assert (0 < 2 ^ (- e)) by (apply Z.pow_pos_nonneg; lia).
  pose proof Hs as Hb. apply (shr_fexp_bound k) in Hb as (He' & _ & Hle & _); [|nia|done|done|lia|done].
  unfold shr_fexp in Hs. apply shr_shifted in Hs as [-> [H1 H2]]; [|rewrite shr_record_of_loc_m; nia].
  rewrite shr_record_of_loc_m in H1, H2.
  set (n := Z.max 0 _) in *. assert (0 <= n) by lia.
  assert (0 < 2 ^ n) by (apply Z.pow_pos_nonneg; lia).
  replace (2 ^ (- e)) with (2 ^ (- (e + n)) * 2 ^ n) in H1, H2 by (rewrite <- Z.pow_add_r by lia; f_equal; lia).
  rewrite Z.mul_assoc, Z.div_mul in H1 by lia. split; [lia|]. split; [done|].
  destruct (loc_of_shr_record x') as [|c] eqn:E; [done|exfalso].
  assert (inexact x' = true) as Hi by (apply loc_of_shr_record_exact; by rewrite E).
  destruct (H2 Hi) as [Hf|Hf]; [done|]. rewrite H1 in Hf. lia.
Qed.

(** Rounding an integer below [2 ^ 53] is exact. *)
Lemma round_exactly k m e :
  0 <= k < 2 ^ 53 -> -1074 <= e <= 0 -> m = k * 2 ^ (- e) ->
  exactly k (binary_round_aux prec64 emax64 false m e loc_Exact).
Proof.
  intros Hk He Hm. unfold binary_round_aux.
  destruct (shr_fexp prec64 emax64 m e loc_Exact) as [x1 e1] eqn:E1.
  apply (shr_fexp_exactly k) in E1 as (He1 & Hm1 & ->); [|done..]. cbn [round_nearest_even].
  destruct (shr_fexp prec64 emax64 (shr_m x1) e1 loc_Exact) as [x2 e2] eqn:E2.
  apply (shr_fexp_exactly k) in E2 as (He2 & Hm2 & _); [|done..].
  assert (0 < 2 ^ (- e2)) by (apply Z.pow_pos_nonneg; lia).
  destruct (shr_m x2) as [|p|p]; [|rewrite (proj2 (Z.leb_le _ _)) by (unfold emax64, prec64; lia); done|nia].
  split; [done|nia].
Qed.

Lemma normalize_exactly k m e :
  0 <= k < 2 ^ 53 -> -1074 <= e <= 0 -> m = k * 2 ^ (- e) ->
  exactly k (binary_normalize prec64 emax64 m e false).
Proof.
  intros Hk He Hm. assert (0 < 2 ^ (- e)) by (apply Z.pow_pos_nonneg; lia).
  destruct m as [|p|p]; [split; [done|nia]| |nia].
  cbn [binary_normalize]. unfold binary_round.
  set (f := fexp prec64 emax64 (Zpos (digits2_pos p) + e)).
  assert (-1074 <= f) by (subst f; unfold fexp, emin, prec64, emax64; lia).
  destruct (decide (f <= e)) as [Hf|Hf].
  - destruct (shl_align_le p e f Hf) as (p' & -> & Hp'). apply round_exactly; [done|lia|].
    rewrite Hp', Hm, <- Z.mul_assoc, <- Z.pow_add_r by lia. do 2 f_equal. lia.
  - rewrite shl_align_ge by lia. by apply round_exactly.
Qed.

(** An integer below [2 ^ 53] is exactly represented. *)
Lemma of_int_exactly k : 0 <= k < 2 ^ 53 -> exactly k (of_int k).
Proof. intros Hk. apply normalize_exactly; [done|lia|]. by rewrite Z.mul_1_r. Qed.

Lemma exactly_between k x : exactly k x -> between k x.
Proof.
  destruct x as [| | |s m e]; cbn; [by intros [-> _] | done..|]. intros (-> & He & Hm).
  split; [done|]. split; lia.
Qed.

Lemma between_mono N M x : N <= M -> between N x -> between M x.
Proof.
  intros HNM. destruct x as [| | |s m e]; cbn; [done..|]. intros (-> & He & Hm).
  split; [done|]. split; [done|]. assert (0 < 2 ^ (- e)) by (apply Z.pow_pos_nonneg; lia). nia.
Qed.

Lemma exactly_nonneg k x : exactly k x -> 0 <= k.
Proof.
  destruct x as [| | |s m e]; cbn; [by intros [_ ->] | done..|]. intros (_ & He & Hm).
  assert (0 < 2 ^ (- e)) by (apply Z.pow_pos_nonneg; lia). nia.
Qed.

(** The difference of two such integers is exact. *)
Lemma fsub_exactly a b x y :
  a < 2 ^ 53 -> 0 <= b <= a -> exactly a x -> exactly b y -> exactly (a - b) (fsub x y).
Proof.
  intros Ha [Hb Hle] Hx Hy.
  destruct x as [| | |sx mx ex]; cbn in Hx; [| done..|]; destruct y as [| | |sy my ey]; cbn in Hy; try done.
  - destruct Hx as [-> ->]. by destruct Hy as [-> ->].
  - destruct Hx as [-> ->]. destruct Hy as (-> & He & Hm).
    assert (0 < 2 ^ (- ey)) by (apply Z.pow_pos_nonneg; lia). nia.
  - destruct Hx as (-> & He & Hm). destruct Hy as [-> ->]. by rewrite Z.sub_0_r.
  - destruct Hx as (-> & Hex & Hmx). destruct Hy as (-> & Hey & Hmy).
    unfold fsub. cbn [SFsub cond_Zopp].
    destruct (shl_align_le mx ex (Z.min ex ey) ltac:(lia)) as (px & -> & Hpx).
    destruct (shl_align_le my ey (Z.min ex ey) ltac:(lia)) as (py & -> & Hpy). cbn [fst].
    apply normalize_exactly; [lia|lia|]. rewrite Z.mul_sub_distr_r. f_equal.
    + rewrite Hpx, Hmx, <- Z.mul_assoc, <- Z.pow_add_r by lia. do 2 f_equal. lia.
    + rewrite Hpy, Hmy, <- Z.mul_assoc, <- Z.pow_add_r by lia. do 2 f_equal. lia.
Qed.

(** The exponent [SFdiv_core_binary] divides at, for mantissas of [d1] and [d2] bits. *)
Definition divExponent (d1 e1 d2 e2 : Z) : Z := Z.min (fexp prec64 emax64 (d1 + e1 - (d2 + e2))) (e1 - e2).

Lemma SFdiv_core_binary_eq m1 e1 m2 e2 :
  let e := divExponent (Zdigits2 (Zpos m1)) e1 (Zdigits2 (Zpos m2)) e2 in
  let A := Zpos m1 * 2 ^ (e1 - e2 - e) in
  SFdiv_core_binary prec64 emax64 (Zpos m1) e1 (Zpos m2) e2 =
    (A / Zpos m2, e, new_location (Zpos m2) (A mod Zpos m2)).
Proof.
  cbv zeta. unfold SFdiv_core_binary. cbv zeta. fold (divExponent (Zdigits2 (Zpos m1)) e1 (Zdigits2 (Zpos m2)) e2).
  set (e := divExponent _ _ _ _). assert (e <= e1 - e2) by apply Z.le_min_r.
  assert (match e1 - e2 - e with Z0 => Zpos m1 | Zpos _ => Z.shiftl (Zpos m1) (e1 - e2 - e) | Zneg _ => 0 end
          = Zpos m1 * 2 ^ (e1 - e2 - e)) as ->.
  { destruct (e1 - e2 - e) as [|p|p] eqn:E; [lia| |lia]. by rewrite Z.shiftl_mul_pow2. }
  unfold Z.div, Z.modulo. by destruct (Z.div_eucl _ _).
Qed.

Lemma divExponent_le s m1 e1 m2 e2 :
  0 < s -> e1 <= 0 -> e2 <= 0 -> Zpos m1 <= s * 2 ^ (- e1) -> Zpos m2 = s * 2 ^ (- e2) ->
  divExponent (Zdigits2 (Zpos m1)) e1 (Zdigits2 (Zpos m2)) e2 <= 0.
Proof.
  intros Hs He1 He2 Hm1 Hm2. unfold divExponent. cbn [Zdigits2].
  set (d1 := Zpos (digits2_pos m1)). set (d2 := Zpos (digits2_pos m2)).
  pose proof (digits2_pos_bounds m1) as [Hd1 _]. pose proof (digits2_pos_bounds m2) as [_ Hd2].
  fold d1 in Hd1. fold d2 in Hd2.
  assert (0 < 2 ^ (- e1) /\ 0 < 2 ^ (- e2)) as [P1 P2] by (split; apply Z.pow_pos_nonneg; lia).
  enough (d1 - 1 - e2 < d2 - e1) by (pose proof (fexp_le (d1 + e1 - (d2 + e2)) ltac:(lia)); lia).
  apply (Z.pow_lt_mono_r_iff 2); [lia|subst d2; lia|].
  replace (2 ^ (d1 - 1 - e2)) with (2 ^ (d1 - 1) * 2 ^ (- e2))
    by (rewrite <- Z.pow_add_r by (subst d1; lia); f_equal; lia).
  replace (2 ^ (d2 - e1)) with (2 ^ d2 * 2 ^ (- e1))
    by (rewrite <- Z.pow_add_r by (subst d2; lia); f_equal; lia).
  apply (Z.le_lt_trans _ (s * 2 ^ (- e1) * 2 ^ (- e2))); [nia|].
  replace (s * 2 ^ (- e1) * 2 ^ (- e2)) with (Zpos m2 * 2 ^ (- e1)) by lia. nia.
Qed.

(** The quotient of a number by an integer it does not exceed. *)
Lemma fdiv_between s x y : 0 < s -> between s x -> exactly s y -> between 1 (fdiv x y).
Proof.
  intros Hs Hx Hy. destruct y as [sy| | |sy m2 e2]; cbn in Hy; [by destruct Hy; lia | done..|].
  destruct Hy as (-> & He2 & Hm2). destruct x as [sx| | |sx m1 e1]; cbn in Hx; [by subst | done..|].
  destruct Hx as (-> & He1 & Hm1). unfold fdiv. cbn [SFdiv xorb]. rewrite SFdiv_core_binary_eq.
  pose proof (divExponent_le s m1 e1 m2 e2 Hs He1 (proj2 He2) Hm1 Hm2) as He.
  set (e := divExponent _ _ _ _) in *. assert (e <= e1 - e2) by apply Z.le_min_r.
  set (A := Zpos m1 * 2 ^ (e1 - e2 - e)).
  assert (0 < 2 ^ (e1 - e2 - e)) as HP by (apply Z.pow_pos_nonneg; lia).
  assert (0 <= A) as HA by (subst A; nia).
  assert (A <= Zpos m2 * 2 ^ (- e)) as Hle.
  { subst A. transitivity (s * 2 ^ (- e1) * 2 ^ (e1 - e2 - e)); [nia|].
    rewrite Hm2, <- !Z.mul_assoc, <- !Z.pow_add_r by lia. apply Z.mul_le_mono_nonneg_l; [lia|].
    apply Z.pow_le_mono_r; lia. }
  pose proof (Z.div_mod A (Zpos m2) ltac:(lia)). pose proof (Z.mod_pos_bound A (Zpos m2) ltac:(lia)).
  apply round_between; [apply Z.div_pos; lia|done|lia|nia|].
  intros Hloc. rewrite Z.mul_1_l. destruct (decide (A mod Zpos m2 = 0)) as [Hr|Hr0]; [|nia].
  exfalso. apply Hloc. rewrite Hr. unfold new_location, new_location_even, new_location_odd. by destruct (Z.even _).
Qed.

(** The product by an integer. *)
Lemma fmul_between N k x y :
  0 <= N -> N * k < 2 ^ 53 -> between N x -> exactly k y -> between (N * k) (fmul x y).
Proof.
  intros HN Hlt Hx Hy. pose proof (exactly_nonneg _ _ Hy) as Hk.
  destruct x as [sx| | |sx m1 e1]; cbn in Hx; [|done..|]; destruct y as [sy| | |sy m2 e2]; cbn in Hy; try done.
  - subst. by destruct Hy as [-> _].
  - subst. by destruct Hy as [-> _].
  - destruct Hx as (-> & _). by destruct Hy as [-> _].
  - destruct Hx as (-> & He1 & Hm1). destruct Hy as (-> & He2 & Hm2). unfold fmul. cbn [SFmul xorb].
    apply round_between; [lia|lia|nia| |done].
    rewrite Pos2Z.inj_mul, Hm2. replace (- (e1 + e2)) with (- e1 + - e2) by lia.
    rewrite Z.pow_add_r by lia.
    assert (0 <= k * 2 ^ (- e2)) by (apply Z.mul_nonneg_nonneg; [done|apply Z.pow_nonneg; lia]). nia.
Qed.

(** ** What the bound means *)

Lemma between_finite N x : between N x -> is_finite x = true.
Proof. by destruct x. Qed.

Lemma between_trunc N x : 0 <= N -> between N x -> exists z, trunc x = Some z /\ 0 <= z <= N.
Proof.
  intros HN. destruct x as [s| | |s m e]; cbn [between trunc]; [|done..|].
  - intros _. exists 0. split; [done|lia].
  - intros (-> & He & Hm). assert (0 < 2 ^ (- e)) by (apply Z.pow_pos_nonneg; lia).
    destruct (Z.leb_spec 0 e).
    + replace e with 0 in * by lia. eexists. split; [reflexivity|]. cbn in *. lia.
    + eexists. split; [reflexivity|]. split; [by apply Z.div_pos|]. apply Z.div_le_upper_bound; lia.
Qed.

Lemma between_to_int64 oob N x : 0 <= N < 2 ^ 63 -> between N x -> 0 <= to_int64 oob x <= N.
Proof.
  intros HN Hx. destruct (between_trunc N x) as (z & Hz & Hb); [lia|done|].
  unfold to_int64. rewrite Hz. rewrite bool_decide_true; [done|]. unfold is_i64. lia.
Qed.

Lemma between_fvalue N x : 0 <= N -> between N x -> (0 <= fvalue x)%Q /\ (fvalue x <= inject_Z N)%Q.
Proof.
  intros HN. unfold Qle. destruct x as [s| | |s m e]; cbn [between fvalue]; [|done..|].
  - intros _. cbn. lia.
  - intros (-> & He & Hm). assert (0 < 2 ^ (- e)) by (apply Z.pow_pos_nonneg; lia).
    destruct (Z.leb_spec 0 e).
    + replace e with 0 in * by lia. cbn in *. lia.
    + cbn [Qnum Qden inject_Z]. rewrite Z2Pos.id by done. lia.
Qed.

(** ** Truncated quotients

    The rounding of a quotient of integers below [2 ^ 53] never reaches the next
    integer, so that its integer part is the exact one. *)

(** [x] is [A / B] cut after the binary point, its half bit says on which side of
    the middle [A / B] is, and its last bit that it is neither in the middle nor [shr_m x]. *)
Definition halved (A B : Z) (x : shr_record) : Prop :=
  shr_m x * B <= A < (shr_m x + 1) * B /\
  (if shr_r x then (2 * shr_m x + 1) * B <= 2 * A else 2 * A <= (2 * shr_m x + 1) * B) /\
  (shr_s x = false -> 2 * A = (2 * shr_m x + if shr_r x then 1 else 0) * B).

Lemma shr_1_halved A B x : 0 <= shr_m x -> 0 < B -> halved A B x -> halved A (B * 2) (shr_1 x).
Proof.
  destruct x as [m r s]. unfold halved. cbn [shr_m shr_r shr_s]. intros Hm HB (H1 & H2 & H3).
  assert (r || s = false -> A = m * B) as Hrs.
  { destruct r, s; try done. intros _. specialize (H3 eq_refl). lia. }
  destruct m as [|[p|p|]|]; cbn [shr_1 shr_m shr_r shr_s]; try lia; repeat split; try lia; try nia.
  all: intros Hz; specialize (Hrs Hz); lia.
Qed.

Lemma iter_shr_1_halved A p B x :
  0 <= shr_m x -> 0 < B -> halved A B x -> halved A (B * 2 ^ Zpos p) (SpecFloat.iter_pos shr_1 p x).
Proof.
  revert B x. induction p as [p IH|p IH|]; intros B x Hm HB Hx; cbn [SpecFloat.iter_pos].
  - assert (0 <= shr_m (shr_1 x)) as P1.
    { destruct (shr_1_shifted x Hm) as [-> _]. by apply Z.div_pos. }
    assert (0 <= shr_m (SpecFloat.iter_pos shr_1 p (shr_1 x))) as P2.
    { destruct (iter_shr_1_shifted p _ P1) as [-> _]. apply Z.div_pos; [done|]. apply Z.pow_pos_nonneg; lia. }
    replace (B * 2 ^ Zpos p~1) with (B * 2 * 2 ^ Zpos p * 2 ^ Zpos p).
    + assert (0 < 2 ^ Zpos p) by (apply Z.pow_pos_nonneg; lia).
      apply IH; [done|lia|]. apply IH; [done|lia|]. by apply shr_1_halved.
    + rewrite <- !Z.mul_assoc. f_equal. rewrite <- Z.pow_add_r, <- Z.pow_succ_r by lia. f_equal. lia.
  - assert (0 <= shr_m (SpecFloat.iter_pos shr_1 p x)) as P2.
    { destruct (iter_shr_1_shifted p _ Hm) as [-> _]. apply Z.div_pos; [done|]. apply Z.pow_pos_nonneg; lia. }
    replace (B * 2 ^ Zpos p~0) with (B * 2 ^ Zpos p * 2 ^ Zpos p).
    + assert (0 < 2 ^ Zpos p) by (apply Z.pow_pos_nonneg; lia).
      apply IH; [done|lia|]. by apply IH.
    + rewrite <- !Z.mul_assoc. f_equal. rewrite <- Z.pow_add_r by lia. f_equal. lia.
  - by apply shr_1_halved.
Qed.

Lemma shr_halved A B x e n x' e' :
  0 <= shr_m x -> 0 < B -> halved A B x -> shr x e n = (x', e') -> halved A (B * 2 ^ Z.max 0 n) x'.
Proof.
  intros Hm HB Hx. destruct n as [|p|p]; cbn [shr]; intros [= <- <-].
  - by rewrite Z.mul_1_r.
  - by apply iter_shr_1_halved.
  - by rewrite Z.mul_1_r.
Qed.

(** Rounding moves by half a unit at most. *)
Lemma round_nearest_even_half A B x :
  0 < B -> halved A B x ->
  shr_m x <= round_nearest_even (shr_m x) (loc_of_shr_record x) /\
  2 * A - B <= 2 * (round_nearest_even (shr_m x) (loc_of_shr_record x) * B) <= 2 * A + B.
Proof.
  intros HB (H1 & H2 & H3). destruct x as [m [] []]; cbn [shr_m shr_r shr_s loc_of_shr_record round_nearest_even] in *;
    try specialize (H3 eq_refl); [| destruct (Z.even m) | |]; lia.
Qed.

Lemma shr_fexp_exponent m e l x' e' :
  0 <= m < 2 ^ (53 - e) -> e <= 0 -> shr_fexp prec64 emax64 m e l = (x', e') ->
  exists n, 0 <= n /\ e' = e + n /\ e' <= 0 /\ n = Z.max 0 (fexp prec64 emax64 (Zdigits2 m + e) - e) /\
    shr_m x' = m / 2 ^ n.
Proof.
  intros Hm He Hs. unfold shr_fexp in Hs.
  apply shr_shifted in Hs as [-> [H1 _]]; [|rewrite shr_record_of_loc_m; lia].
  rewrite shr_record_of_loc_m in H1. eexists. split; [apply Z.le_max_l|]. split; [done|]. split; [|done].
  pose proof (Zdigits2_le m (53 - e) Hm ltac:(lia)). pose proof (fexp_le (Zdigits2 m + e) ltac:(lia)). lia.
Qed.

(** The mantissa [m] at exponent [e] has integer part [N]. *)
Definition floors (N m e : Z) : Prop := N * 2 ^ (- e) <= m < (N + 1) * 2 ^ (- e).

Lemma floors_digits N m e : 0 <= N < 2 ^ 53 -> e <= 0 -> floors N m e -> 0 <= m < 2 ^ (53 - e).
Proof.
  intros HN He [H1 H2]. assert (0 < 2 ^ (- e)) by (apply Z.pow_pos_nonneg; lia).
  unfold Z.sub. rewrite Z.pow_add_r by lia. nia.
Qed.

Lemma floors_shift N m e n : 0 <= n -> e + n <= 0 -> floors N m e -> floors N (m / 2 ^ n) (e + n).
Proof.
  intros Hn He [H1 H2]. assert (0 < 2 ^ n) by (apply Z.pow_pos_nonneg; lia).
  assert (2 ^ (- e) = 2 ^ (- (e + n)) * 2 ^ n) as Hpow by (rewrite <- Z.pow_add_r by lia; f_equal; lia).
  rewrite Hpow in H1, H2. split.
  - apply Z.div_le_lower_bound; lia.
  - apply Z.div_lt_upper_bound; lia.
Qed.

Lemma floors_trunc N m e : e <= 0 -> floors N (Zpos m) e -> trunc (S754_finite false m e) = Some N.
Proof.
  intros He [H1 H2]. assert (0 < 2 ^ (- e)) by (apply Z.pow_pos_nonneg; lia). cbn [trunc].
  destruct (Z.leb_spec 0 e).
  - replace e with 0 in * by lia. f_equal. cbn in *. lia.
  - f_equal. symmetry. apply (Z.div_unique_pos _ _ _ (Zpos m - 2 ^ (- e) * N)); lia.
Qed.

(** A record that holds the digits of [a / b] at exponent [e]. *)
Definition quotientAt (a b e : Z) (x : shr_record) : Prop := halved (a * 2 ^ (- e)) b x.

Lemma halved_scale A B R x : 0 < R -> halved (A * R) (B * R) x -> halved A B x.
Proof.
  intros HR ((H1 & H2) & H3 & H4). split; [split|split].
  - apply (Z.mul_le_mono_pos_r _ _ R); lia.
  - apply (Z.mul_lt_mono_pos_r R); lia.
  - destruct (shr_r x); apply (Z.mul_le_mono_pos_r _ _ R); lia.
  - intros Hs. specialize (H4 Hs). apply (Z.mul_reg_r _ _ R); lia.
Qed.

Lemma quotientAt_shift a b e n x :
  0 <= n -> e + n <= 0 -> halved (a * 2 ^ (- e)) (b * 2 ^ n) x -> quotientAt a b (e + n) x.
Proof.
  intros Hn He. replace (2 ^ (- e)) with (2 ^ (- (e + n)) * 2 ^ n) by (rewrite <- Z.pow_add_r by lia; f_equal; lia).
  rewrite Z.mul_assoc. apply halved_scale. apply Z.pow_pos_nonneg; lia.
Qed.

(** The half ulp is less than [1 / b], so rounding stays below the next integer. *)
Lemma round_nearest_even_floors a b e x :
  0 < b -> e <= 0 -> b < 2 ^ (1 - e) -> quotientAt a b e x ->
  floors (a / b) (round_nearest_even (shr_m x) (loc_of_shr_record x)) e.
Proof.
  intros Hb He Hulp Hx. destruct (round_nearest_even_half _ _ _ Hb Hx) as [Hl Hu].
  destruct Hx as [[_ Hx] _]. assert (0 < 2 ^ (- e)) by (apply Z.pow_pos_nonneg; lia).
  unfold Z.sub in Hulp. rewrite Z.pow_add_r in Hulp by lia.
  set (r := round_nearest_even _ _) in *. set (P := 2 ^ (- e)) in *.
  pose proof (Z.mul_div_le a b Hb) as H1. pose proof (Z.mul_succ_div_gt a b Hb) as H2.
  set (N := a / b) in *. split.
  - enough (N * P < shr_m x + 1) by lia. apply (Z.mul_lt_mono_pos_r b); nia.
  - destruct (Z.lt_ge_cases r ((N + 1) * P)) as [|Hge]; [done|exfalso].
    assert ((N + 1) * P * b <= r * b) by nia. assert (a + 1 <= (N + 1) * b) by lia.
    assert ((a + 1) * P <= (N + 1) * b * P) by nia. lia.
Qed.

Lemma round_trunc a b m e l :
  0 <= a < 2 ^ 53 -> 0 < b -> 0 <= m -> -1074 <= e <= 0 -> b < 2 ^ (1 - e) ->
  quotientAt a b e (shr_record_of_loc m l) ->
  trunc (binary_round_aux prec64 emax64 false m e l) = Some (a / b).
Proof.
  intros Ha Hb Hm [Hmin He] Hulp Hx.
  assert (0 <= a / b < 2 ^ 53) as HN.
  { split; [apply Z.div_pos; lia|]. apply Z.div_lt_upper_bound; nia. }
  pose proof Hx as [[Hx1 _] _]. rewrite shr_record_of_loc_m in Hx1.
  assert (m < 2 ^ (53 - e)) as Hmd.
  { unfold Z.sub. rewrite Z.pow_add_r by lia. assert (0 < 2 ^ (- e)) by (apply Z.pow_pos_nonneg; lia).
    apply (Z.le_lt_trans _ (a * 2 ^ (- e))); [|apply Z.mul_lt_mono_pos_r; lia].
    transitivity (m * b); [|done]. rewrite <- (Z.mul_1_r m) at 1. apply Z.mul_le_mono_nonneg_l; lia. }
  unfold binary_round_aux.
  destruct (shr_fexp prec64 emax64 m e l) as [x1 e1] eqn:E1.
  pose proof E1 as E1'. unfold shr_fexp in E1'.
  eapply shr_halved in E1'; [|rewrite shr_record_of_loc_m; lia|exact Hb|exact Hx].
  destruct (shr_fexp_exponent _ _ _ _ _ (conj Hm Hmd) He E1) as (n & Hn & -> & Hen & En & Hm1).
  rewrite <- En in E1'. apply quotientAt_shift in E1'; [|done..].
  assert (b < 2 ^ (1 - (e + n))) as Hulp1.
  { destruct (decide (n = 0)) as [->|Hn0]; [by rewrite Z.add_0_r|].
    assert (0 < m) as Hm0.
    { destruct (decide (m = 0)) as [->|]; [|lia]. exfalso. apply Hn0. rewrite En.
      cbn [Zdigits2]. pose proof (fexp_le (0 + e)). unfold fexp, emin, prec64, emax64 in *. lia. }
    pose proof (Zdigits2_bounds m Hm0) as [Hd _]. set (d := Zdigits2 m) in *.
    assert (n = d - 53) as -> by (unfold fexp, emin, prec64, emax64 in En; lia).
    destruct (Z.lt_ge_cases b (2 ^ (1 - (e + (d - 53))))) as [|Hge]; [done|exfalso].
    assert (2 ^ (d - 1) * 2 ^ (1 - (e + (d - 53))) = 2 ^ 53 * 2 ^ (- e)) as Hp.
    { rewrite <- !Z.pow_add_r by lia. f_equal. lia. }
    assert (0 < 2 ^ (d - 1)) by (apply Z.pow_pos_nonneg; lia).
    assert (0 < 2 ^ (- e)) by (apply Z.pow_pos_nonneg; lia). nia. }
  pose proof (round_nearest_even_floors a b (e + n) x1 Hb Hen Hulp1 E1') as Hfl.
  destruct (shr_fexp prec64 emax64 (round_nearest_even _ _) (e + n) loc_Exact) as [x2 e2] eqn:E2.
  destruct (shr_fexp_exponent _ _ _ _ _ (floors_digits _ _ _ HN Hen Hfl) Hen E2)
    as (k & Hk & -> & Hek & _ & Hm2).
  apply (floors_shift _ _ _ k Hk Hek) in Hfl. rewrite <- Hm2 in Hfl.
  destruct (shr_m x2) as [|p|p].
  - destruct Hfl as [Hfl _]. assert (0 < 2 ^ (- (e + n + k))) by (apply Z.pow_pos_nonneg; lia).
    cbn [trunc]. f_equal. nia.
  - rewrite (proj2 (Z.leb_le _ _)) by (unfold emax64, prec64; lia). by apply floors_trunc.
  - destruct Hfl as [Hfl _]. assert (0 < 2 ^ (- (e + n + k))) by (apply Z.pow_pos_nonneg; lia). nia.
Qed.


Lemma new_location_halved q r B :
  0 <= r < B -> halved (q * B + r) B (shr_record_of_loc q (new_location B r)).
Proof.
  intros Hr. unfold halved. rewrite shr_record_of_loc_m. split; [lia|].
  unfold new_location, new_location_even, new_location_odd.
  destruct (Z.even B); destruct (Z.eqb_spec r 0); cbn [shr_record_of_loc shr_r shr_s]; [lia| |lia|].
  - destruct (Z.compare_spec (2 * r) B); cbn [shr_record_of_loc shr_r shr_s]; split; (done || lia).
  - destruct (Z.compare_spec (2 * r + 1) B); cbn [shr_record_of_loc shr_r shr_s]; split; (done || lia).
Qed.

Lemma digits_exactly k m e :
  0 < k < 2 ^ 53 -> e <= 0 -> Zpos m = k * 2 ^ (- e) ->
  1 <= Zdigits2 (Zpos m) + e <= 53 /\ k < 2 ^ (Zdigits2 (Zpos m) + e).
Proof.
  intros Hk He Hm. assert (0 < 2 ^ (- e)) by (apply Z.pow_pos_nonneg; lia).
  assert (Zdigits2 (Zpos m) <= 53 - e) as Hd.
  { apply Zdigits2_le; [|lia]. unfold Z.sub. rewrite Z.pow_add_r by lia. nia. }
  pose proof (Zdigits2_bounds (Zpos m) ltac:(lia)) as [_ Hu]. set (d := Zdigits2 (Zpos m)) in *.
  assert (- e < d) as Hed.
  { apply (Z.pow_lt_mono_r_iff 2); [lia|apply Zdigits2_nonneg|]. nia. }
  split; [lia|]. apply (Z.mul_lt_mono_pos_r (2 ^ (- e))); [done|].
  rewrite <- Z.pow_add_r by lia. replace (d + e + - e) with d by lia. lia.
Qed.

(** The exponent is small enough for half a unit in the last place to be below [1 / b]. *)
Lemma divExponent_ulp a b m1 e1 m2 e2 :
  0 < a < 2 ^ 53 -> 0 < b < 2 ^ 53 -> -1074 <= e1 <= 0 -> -1074 <= e2 <= 0 ->
  Zpos m1 = a * 2 ^ (- e1) -> Zpos m2 = b * 2 ^ (- e2) ->
  let e := divExponent (Zdigits2 (Zpos m1)) e1 (Zdigits2 (Zpos m2)) e2 in
  -1074 <= e <= 0 /\ e <= e1 - e2 /\ b < 2 ^ (1 - e).
Proof.
  intros Ha Hb He1 He2 Hm1 Hm2.
  destruct (digits_exactly a m1 e1 Ha (proj2 He1) Hm1) as [Hd1 _].
  destruct (digits_exactly b m2 e2 Hb (proj2 He2) Hm2) as [Hd2 Hlt].
  cbv zeta. unfold divExponent, fexp, emin, prec64, emax64.
  split; [lia|]. split; [lia|]. eapply Z.lt_le_trans; [exact Hlt|]. apply Z.pow_le_mono_r; lia.
Qed.

(** The integer part of the rounded quotient of two integers is the integer
    quotient. *)
Lemma trunc_fdiv a b x y :
  0 <= a < 2 ^ 53 -> 0 < b < 2 ^ 53 -> exactly a x -> exactly b y -> trunc (fdiv x y) = Some (a / b).
Proof.
  intros Ha Hb Hx Hy. destruct y as [sy| | |sy m2 e2]; cbn in Hy; [by destruct Hy; lia | done..|].
  destruct Hy as (-> & He2 & Hm2).
  destruct x as [sx| | |sx m1 e1]; cbn in Hx; [by destruct Hx as [-> ->] | done..|].
  destruct Hx as (-> & He1 & Hm1).
  assert (0 < a) by (assert (0 < 2 ^ (- e1)) by (apply Z.pow_pos_nonneg; lia); nia).
  unfold fdiv. cbn [SFdiv xorb]. rewrite SFdiv_core_binary_eq.
  destruct (divExponent_ulp a b m1 e1 m2 e2) as (He & Hee & Hulp); [lia|done..|].
  set (e := divExponent _ _ _ _) in *. set (A := Zpos m1 * 2 ^ (e1 - e2 - e)).
  assert (A = a * 2 ^ (- e) * 2 ^ (- e2)) as HA.
  { subst A. rewrite Hm1, <- !Z.mul_assoc, <- !Z.pow_add_r by lia. do 2 f_equal. lia. }
  assert (0 <= A) by (subst A; assert (0 < 2 ^ (e1 - e2 - e)) by (apply Z.pow_pos_nonneg; lia); nia).
  apply round_trunc; [lia|lia|apply Z.div_pos; lia|done|done|].
  unfold quotientAt. apply (halved_scale _ _ (2 ^ (- e2))); [apply Z.pow_pos_nonneg; lia|].
  rewrite <- HA, <- Hm2. rewrite (Z.div_mod A (Zpos m2)) at 1 by lia.
  rewrite (Z.mul_comm (Zpos m2)). apply new_location_halved. apply Z.mod_pos_bound. lia.
Qed.

(** ** Relative error

    [near c N D x]: the positive float [x] is [N / D] but for [c] half units in
    the last place. *)
Definition closeTo (c N D m e : Z) : Prop :=
  (2 ^ 53 - c) * (N * 2 ^ (- e)) <= 2 ^ 53 * (m * D) <= (2 ^ 53 + c) * (N * 2 ^ (- e)).

Definition near (c N D : Z) (x : float64) : Prop :=
  match x with
  | S754_finite s m e => s = false /\ e <= 0 /\ closeTo c N D (Zpos m) e
  | _ => False
  end.

(** The first normalisation of a quotient that is not too small leaves at most 53
    bits, and exactly 53 if anything is shifted out. *)
Definition normal (x : shr_record) : Prop :=
  shr_m x < 2 ^ 53 /\ (inexact x = true -> 2 ^ 52 <= shr_m x).

Lemma round_nearest_even_close N D e x :
  0 < D -> 0 <= N -> e <= 0 -> quotientAt N D e x -> normal x ->
  let R := round_nearest_even (shr_m x) (loc_of_shr_record x) in
  closeTo 1 N D R e /\ 0 <= R <= 2 ^ 53.
Proof.
  intros HD HN He Hx [Hn1 Hn2]. cbv zeta. destruct (round_nearest_even_half _ _ _ HD Hx) as [Hl Hu].
  destruct Hx as ((H1 & H1') & H2 & H3). unfold closeTo.
  assert (0 <= N * 2 ^ (- e)) as HA by (apply Z.mul_nonneg_nonneg; [done|apply Z.pow_nonneg; lia]).
  set (A := N * 2 ^ (- e)) in *. assert (0 <= shr_m x) by nia.
  destruct x as [m r s]. cbn [shr_m shr_r shr_s loc_of_shr_record] in *.
  unfold inexact in Hn2. cbn [shr_r shr_s] in Hn2.
  destruct (r || s) eqn:E.
  - specialize (Hn2 eq_refl).
    assert (2 ^ 52 * D <= A) by nia.
    split; [lia|]. destruct r, s; cbn [round_nearest_even] in *; try destruct (Z.even m); lia.
  - apply orb_false_iff in E as [-> ->]. specialize (H3 eq_refl). cbn [round_nearest_even]. lia.
Qed.

Lemma closeTo_shift c N D m e n :
  0 <= n -> e + n <= 0 -> m = m / 2 ^ n * 2 ^ n -> closeTo c N D m e -> closeTo c N D (m / 2 ^ n) (e + n).
Proof.
  intros Hn He Hm. unfold closeTo. set (q := m / 2 ^ n) in *. assert (0 < 2 ^ n) by (apply Z.pow_pos_nonneg; lia).
  replace (2 ^ (- e)) with (2 ^ (- (e + n)) * 2 ^ n) by (rewrite <- Z.pow_add_r by lia; f_equal; lia).
  rewrite Hm. set (P := 2 ^ (- (e + n))). set (R := 2 ^ n) in *. intros [H1 H2]. split.
  - apply (Z.mul_le_mono_pos_r _ _ R); lia.
  - apply (Z.mul_le_mono_pos_r _ _ R); lia.
Qed.

(** The second normalisation is exact. *)
Lemma second_shift_exact R e :
  0 <= R <= 2 ^ 53 -> -1020 <= Zdigits2 R + e ->
  let n := Z.max 0 (fexp prec64 emax64 (Zdigits2 R + e) - e) in R = R / 2 ^ n * 2 ^ n.
Proof.
  intros HR Hd. cbv zeta. destruct (decide (R = 2 ^ 53)) as [->|Hne].
  - change (Zdigits2 (2 ^ 53)) with 54 in *.
    replace (Z.max 0 _) with 1; [reflexivity|]. unfold fexp, emin, prec64, emax64 in *. lia.
  - assert (Zdigits2 R <= 53) by (apply Zdigits2_le; lia).
    replace (Z.max 0 _) with 0; [by rewrite Z.div_1_r, Z.mul_1_r|]. unfold fexp, emin, prec64, emax64 in *. lia.
Qed.

Lemma Zdigits2_lt m : 0 <= m -> m < 2 ^ Zdigits2 m.
Proof.
  intros Hm. destruct (decide (m = 0)) as [->|]; [done|]. apply Zdigits2_bounds. lia.
Qed.

Lemma digits_above k N D m e :
  0 <= m -> e <= 0 -> 0 < D -> 0 <= k -> D <= N * 2 ^ k -> N * 2 ^ (- e) <= 2 * ((m + 1) * D) ->
  - k - 1 <= Zdigits2 m + e.
Proof.
  intros Hm He HD Hk HND Hle.
  assert (0 < 2 ^ (- e) /\ 0 < 2 ^ k) as [HP HK] by (split; apply Z.pow_pos_nonneg; lia).
  pose proof (Zdigits2_lt m Hm). pose proof (Zdigits2_nonneg m).
  assert (2 ^ (- e) * D <= 2 * (m + 1) * 2 ^ k * D) by nia.
  assert (2 ^ (- e) <= 2 * (m + 1) * 2 ^ k) by nia.
  enough (- e <= 1 + Zdigits2 m + k) by lia. apply (Z.pow_le_mono_r_iff 2); [lia|lia|].
  rewrite !Z.pow_add_r by lia. nia.
Qed.

(** The first normalisation of a quotient in a moderate range. *)
Lemma shr_fexp_normal N D m e l x1 e1 :
  0 < N -> 0 < D -> N <= D * 2 ^ 52 -> D <= N * 2 ^ 1000 -> 0 <= m -> e <= 0 ->
  quotientAt N D e (shr_record_of_loc m l) -> (l <> loc_Exact -> 2 ^ 52 <= m) ->
  shr_fexp prec64 emax64 m e l = (x1, e1) ->
  e1 <= 0 /\ quotientAt N D e1 x1 /\ normal x1.
Proof.
  intros HN HD Hle Hge Hm He Hx Hl E1.
  pose proof Hx as [[Hx1 Hx2] _]. rewrite shr_record_of_loc_m in Hx1, Hx2.
  assert (0 < 2 ^ (- e)) as HP by (apply Z.pow_pos_nonneg; lia).
  assert (m < 2 ^ (53 - e)) as Hmd.
  { unfold Z.sub. rewrite Z.pow_add_r by lia. apply (Z.le_lt_trans _ (2 ^ 52 * 2 ^ (- e))); [|lia].
    apply (Z.mul_le_mono_pos_r _ _ D); nia. }
  pose proof (digits_above 1000 N D m e Hm He HD ltac:(lia) Hge ltac:(lia)) as Hd.
  pose proof E1 as E1'. unfold shr_fexp in E1'. pose proof E1' as E1''.
  eapply shr_halved in E1'; [|rewrite shr_record_of_loc_m; lia|exact HD|exact Hx].
  apply shr_shifted in E1'' as [_ [_ Hin]]; [|rewrite shr_record_of_loc_m; lia].
  destruct (shr_fexp_exponent _ _ _ _ _ (conj Hm Hmd) He E1) as (n & Hn & -> & Hen & En & Hm1).
  rewrite <- En in E1', Hin. rewrite shr_record_of_loc_m in Hin.
  apply quotientAt_shift in E1'; [|done..]. split; [done|]. split; [done|].
  assert (n = Z.max 0 (Zdigits2 m - 53)) as En' by (unfold fexp, emin, prec64, emax64 in En; lia).
  unfold normal. destruct (decide (Zdigits2 m <= 53)) as [Hs|Hs].
  - replace n with 0 in * by lia. rewrite Z.div_1_r in Hm1. rewrite Hm1. rewrite Z.mul_1_r in Hin. split.
    + eapply Z.lt_le_trans; [by apply Zdigits2_lt|]. apply Z.pow_le_mono_r; lia.
    + intros Hi. destruct (Hin Hi) as [Hr|]; [|lia]. apply Hl. by eapply shr_record_of_loc_inexact.
  - assert (0 < m) as Hm0 by (destruct m; cbn in Hs; lia).
    destruct (Zdigits2_bounds m Hm0) as [Hb1 Hb2]. replace n with (Zdigits2 m - 53) in * by lia.
    set (d := Zdigits2 m) in *. assert (0 < 2 ^ (d - 53)) by (apply Z.pow_pos_nonneg; lia).
    rewrite Hm1. split; [|intros _].
    + apply Z.div_lt_upper_bound; [done|]. rewrite <- Z.pow_add_r by lia. by replace (d - 53 + 53) with d by lia.
    + apply Z.div_le_lower_bound; [done|]. rewrite <- Z.pow_add_r by lia.
      by replace (d - 53 + 52) with (d - 1) by lia.
Qed.

(** Rounding a quotient in a moderate range is accurate. *)
Lemma round_near N D m e l :
  0 < N -> 0 < D -> N <= D * 2 ^ 52 -> D <= N * 2 ^ 1000 -> 0 <= m -> e <= 0 ->
  quotientAt N D e (shr_record_of_loc m l) -> (l <> loc_Exact -> 2 ^ 52 <= m) ->
  near 1 N D (binary_round_aux prec64 emax64 false m e l).
Proof.
  intros HN HD Hle Hge Hm He Hx Hl. unfold binary_round_aux.
  destruct (shr_fexp prec64 emax64 m e l) as [x1 e1] eqn:E1.
  destruct (shr_fexp_normal N D m e l x1 e1) as (He1 & Hq1 & Hn1); [done..|].
  destruct (round_nearest_even_close N D e1 x1 HD ltac:(lia) He1 Hq1 Hn1) as [Hc HR].
  set (R := round_nearest_even _ _) in *.
  pose proof Hc as [Hc1 Hc2]. assert (0 < 2 ^ (- e1)) as HP by (apply Z.pow_pos_nonneg; lia).
  assert (0 < R) as HR0 by nia.
  assert (R < 2 ^ (53 - e1)) as HRd.
  { unfold Z.sub. rewrite Z.pow_add_r by lia.
    assert (N * 2 ^ (- e1) <= D * 2 ^ 52 * 2 ^ (- e1)) by nia.
    apply (Z.mul_lt_mono_pos_r D); [done|]. set (P := 2 ^ (- e1)) in *.
    assert (0 < D * P) by nia. lia. }
  assert (-1020 <= Zdigits2 R + e1) as HdR.
  { pose proof (digits_above 1000 N D R e1 ltac:(lia) He1 HD ltac:(lia) Hge). lia. }
  destruct (shr_fexp prec64 emax64 R e1 loc_Exact) as [x2 e2] eqn:E2.
  destruct (shr_fexp_exponent _ _ _ _ _ (conj (proj1 HR) HRd) He1 E2) as (n & Hn & -> & Hen & En & Hm2).
  pose proof (second_shift_exact R e1 HR HdR) as Hex. cbv zeta in Hex. rewrite <- En in Hex.
  pose proof (closeTo_shift 1 N D R e1 n Hn Hen Hex Hc) as Hf. rewrite <- Hm2 in Hf, Hex.
  destruct (shr_m x2) as [|p|p]; [lia| |].
  - rewrite (proj2 (Z.leb_le _ _)) by (unfold emax64, prec64; lia). done.
  - assert (0 < 2 ^ n) by (apply Z.pow_pos_nonneg; lia). nia.
Qed.

Lemma exactly_zero x : exactly 0 x -> exists s, x = S754_zero s.
Proof.
  destruct x as [s| | |s m e]; cbn; [by exists s | done..|]. intros (_ & _ & Hm). lia.
Qed.

Lemma exactly_pos k x : 0 < k -> exactly k x ->
  exists m e, x = S754_finite false m e /\ -1074 <= e <= 0 /\ Zpos m = k * 2 ^ (- e).
Proof.
  destruct x as [| | |s m e]; cbn; intros Hk; [by intros [_ ->]; lia | done..|].
  intros (-> & He & Hm). by exists m, e.
Qed.

Lemma fdiv_near a b x y :
  0 < a < 2 ^ 53 -> 0 < b < 2 ^ 53 -> a <= b * 2 ^ 52 -> exactly a x -> exactly b y -> near 1 a b (fdiv x y).
Proof.
  intros Ha Hb Hab Hx Hy.
  apply exactly_pos in Hx as (m1 & e1 & -> & He1 & Hm1); [|lia].
  apply exactly_pos in Hy as (m2 & e2 & -> & He2 & Hm2); [|lia].
  unfold fdiv. cbn [SFdiv xorb]. rewrite SFdiv_core_binary_eq.
  destruct (digits_exactly a m1 e1 Ha (proj2 He1) Hm1) as [Hd1 _].
  destruct (digits_exactly b m2 e2 Hb (proj2 He2) Hm2) as [Hd2 _].
  destruct (divExponent_ulp a b m1 e1 m2 e2) as (He & Hee & _); [done..|].
  assert (divExponent (Zdigits2 (Zpos m1)) e1 (Zdigits2 (Zpos m2)) e2
          <= Zdigits2 (Zpos m1) + e1 - (Zdigits2 (Zpos m2) + e2) - 53) as Hdiv
    by (unfold divExponent, fexp, emin, prec64, emax64; lia).
  pose proof (Zdigits2_bounds (Zpos m1) ltac:(lia)) as [Hb1 _].
  pose proof (Zdigits2_bounds (Zpos m2) ltac:(lia)) as [_ Hb2].
  set (e := divExponent _ _ _ _) in *. set (A := Zpos m1 * 2 ^ (e1 - e2 - e)).
  assert (A = a * 2 ^ (- e) * 2 ^ (- e2)) as HA.
  { subst A. rewrite Hm1, <- !Z.mul_assoc, <- !Z.pow_add_r by lia. do 2 f_equal. lia. }
  assert (2 ^ 52 <= A / Zpos m2) as Hq.
  { apply Z.div_le_lower_bound; [lia|]. subst A.
    set (d1 := Zdigits2 (Zpos m1)) in *. set (d2 := Zdigits2 (Zpos m2)) in *.
    assert (0 < 2 ^ (e1 - e2 - e)) by (apply Z.pow_pos_nonneg; lia).
    transitivity (2 ^ (d1 - 1) * 2 ^ (e1 - e2 - e)); [|nia].
    rewrite <- Z.pow_add_r by lia. transitivity (2 ^ (d2 + 52)); [|apply Z.pow_le_mono_r; lia].
    rewrite Z.pow_add_r by lia. lia. }
  apply round_near; [lia|lia|lia| |lia|lia| |done].
  { assert (1 * 2 ^ 1000 <= a * 2 ^ 1000) by (apply Z.mul_le_mono_nonneg_r; lia). lia. }
  unfold quotientAt. apply (halved_scale _ _ (2 ^ (- e2))); [apply Z.pow_pos_nonneg; lia|].
  rewrite <- HA, <- Hm2. rewrite (Z.div_mod A (Zpos m2)) at 1 by lia.
  rewrite (Z.mul_comm (Zpos m2)). apply new_location_halved. apply Z.mod_pos_bound. lia.
Qed.

Lemma halved_exact m B : 0 < B -> halved (m * B) B (shr_record_of_loc m loc_Exact).
Proof. intros HB. unfold halved. cbn [shr_record_of_loc shr_m shr_r shr_s]. lia. Qed.

(** Relative errors add up. *)
Lemma closeTo_trans c N D m1 e1 k m e :
  0 <= c <= 2 ^ 50 -> 0 <= N -> 0 < D -> 0 <= k -> e1 <= 0 -> e <= 0 ->
  closeTo c N D m1 e1 -> closeTo 1 (m1 * k) (2 ^ (- e1)) m e -> closeTo (c + 2) (N * k) D m e.
Proof.
  intros Hc HN HD Hk He1 He. unfold closeTo.
  assert (0 < 2 ^ (- e1) /\ 0 < 2 ^ (- e)) as [HP1 HP] by (split; apply Z.pow_pos_nonneg; lia).
  set (P1 := 2 ^ (- e1)) in *. set (P := 2 ^ (- e)) in *. intros [H1 H2] [H3 H4].
  assert (0 <= k * P) as HkP by nia. assert (0 <= N * P1) as HNP by nia.
  set (G := N * P1 * (k * P)). assert (0 <= G) as HG by nia.
  assert ((2 ^ 53 - c) * G <= 2 ^ 53 * (m1 * D) * (k * P) <= (2 ^ 53 + c) * G) as [G1 G2].
  { replace ((2 ^ 53 - c) * G) with ((2 ^ 53 - c) * (N * P1) * (k * P)) by (subst G; lia).
    replace ((2 ^ 53 + c) * G) with ((2 ^ 53 + c) * (N * P1) * (k * P)) by (subst G; lia).
    split; by apply Z.mul_le_mono_nonneg_r. }
  assert ((2 ^ 53 - 1) * (m1 * k * P) * D <= 2 ^ 53 * (m * P1) * D <= (2 ^ 53 + 1) * (m1 * k * P) * D) as [G3 G4].
  { split; apply Z.mul_le_mono_nonneg_r; lia. }
  split; apply (Z.mul_le_mono_pos_r _ _ P1); [done| |done|].
  - transitivity (2 ^ 53 * (m * P1) * D); [|lia].
    enough (2 ^ 53 * ((2 ^ 53 - (c + 2)) * G) <= 2 ^ 53 * ((2 ^ 53 - 1) * (m1 * k * P) * D)) by (subst G; lia).
    transitivity ((2 ^ 53 - 1) * ((2 ^ 53 - c) * G)); [nia|]. lia.
  - transitivity (2 ^ 53 * (m * P1) * D); [lia|].
    enough (2 ^ 53 * ((2 ^ 53 + 1) * (m1 * k * P) * D) <= 2 ^ 53 * ((2 ^ 53 + (c + 2)) * G)) by (subst G; lia).
    transitivity ((2 ^ 53 + 1) * ((2 ^ 53 + c) * G)); [lia|]. nia.
Qed.

Lemma fmul_near c N D k x y :
  0 <= c <= 2 ^ 50 -> 0 < N -> 0 < D <= N * 2 ^ 60 -> 0 < k -> N * k <= D * 2 ^ 51 ->
  near c N D x -> exactly k y -> near (c + 2) (N * k) D (fmul x y).
Proof.
  intros Hc HN [HD Hge] Hk Hle Hx Hy.
  apply exactly_pos in Hy as (m2 & e2 & -> & He2 & Hm2); [|done].
  destruct x as [| | |s m1 e1]; cbn [near] in Hx; [done..|]. destruct Hx as (-> & He1 & Hcl).
  unfold fmul. cbn [SFmul xorb]. pose proof Hcl as [Hl Hu]. rewrite Pos2Z.inj_mul.
  assert (0 < 2 ^ (- e1)) as HP by (apply Z.pow_pos_nonneg; lia).
  assert (near 1 (Zpos m1 * k) (2 ^ (- e1))
            (binary_round_aux prec64 emax64 false (Zpos m1 * Zpos m2) (e1 + e2) loc_Exact)) as Hn.
  { apply round_near; [lia|done| | |lia|lia| |done].
    - clear Hge Hl. set (P := 2 ^ (- e1)) in *. apply (Z.mul_le_mono_pos_r _ _ D); [done|].
      assert (2 ^ 53 * (Zpos m1 * D) * k <= (2 ^ 53 + c) * (N * P) * k) by (apply Z.mul_le_mono_nonneg_r; lia).
      assert (N * k * P <= D * 2 ^ 51 * P) by (apply Z.mul_le_mono_nonneg_r; lia).
      assert ((2 ^ 53 + c) * (N * k * P) <= (2 ^ 53 + 2 ^ 50) * (D * 2 ^ 51 * P)) by (apply Z.mul_le_mono_nonneg; nia).
      lia.
    - clear Hle Hu. set (P := 2 ^ (- e1)) in *. apply (Z.le_trans _ (Zpos m1 * 2 ^ 61)).
      + apply (Z.mul_le_mono_pos_r _ _ N); [done|].
        assert (2 ^ 53 * (Zpos m1 * D) <= 2 ^ 53 * (Zpos m1 * (N * 2 ^ 60))) by nia.
        assert (2 ^ 52 * (N * P) <= (2 ^ 53 - c) * (N * P)) by (apply Z.mul_le_mono_nonneg_r; nia). lia.
      + rewrite <- Z.mul_assoc. apply Z.mul_le_mono_nonneg_l; [lia|].
        rewrite <- (Z.mul_1_l (2 ^ 61)). apply Z.mul_le_mono_nonneg; [lia|lia|lia|]. apply Z.pow_le_mono_r; lia.
    - unfold quotientAt.
      replace (Zpos m1 * k * 2 ^ (- (e1 + e2))) with (Zpos m1 * Zpos m2 * 2 ^ (- e1)); [by apply halved_exact|].
      rewrite Hm2. replace (- (e1 + e2)) with (- e2 + - e1) by lia. rewrite Z.pow_add_r by lia. lia. }
  destruct (binary_round_aux _ _ _ _ _ _) as [| | |s m e]; cbn [near] in Hn |- *; [done..|].
  destruct Hn as (-> & He & Hn). split; [done|]. split; [done|].
  eapply (closeTo_trans c N D (Zpos m1) e1 k); try done; lia.
Qed.

(** A float within half a unit of [N / D] truncates within one of [N / D]. *)
Lemma near_trunc c N D x :
  0 < D -> 0 <= c -> 0 <= N -> c * N <= 2 ^ 52 * D -> near c N D x ->
  exists z, trunc x = Some z /\ N / D - 1 <= z <= N / D + 1.
Proof.
  intros HD Hc HN Hcl Hx. destruct x as [| | |s m e]; cbn [near] in Hx; [done..|].
  destruct Hx as (-> & He & Hl & Hu). assert (0 < 2 ^ (- e)) as HP by (apply Z.pow_pos_nonneg; lia).
  exists (Zpos m / 2 ^ (- e)). split.
  { cbn [trunc]. destruct (Z.leb_spec 0 e); [|done]. replace e with 0 by lia. f_equal. rewrite Z.div_1_r. lia. }
  set (P := 2 ^ (- e)) in *. set (z := Zpos m / P).
  assert (z * P <= Zpos m < (z + 1) * P) as [Hz1 Hz2].
  { pose proof (Z.mul_div_le (Zpos m) P HP). pose proof (Z.mul_succ_div_gt (Zpos m) P HP). subst z. lia. }
  pose proof (Z.mul_div_le N D HD) as HF1. pose proof (Z.mul_succ_div_gt N D HD) as HF2.
  set (F := N / D) in *. split.
  - assert ((2 ^ 53 - c) * N * P < 2 ^ 53 * ((z + 1) * D) * P) as H.
    { apply (Z.le_lt_trans _ (2 ^ 53 * (Zpos m * D))); [lia|]. nia. }
    apply Z.mul_lt_mono_pos_r in H; [|done].
    assert (2 ^ 53 * (F * D) <= 2 ^ 53 * ((z + 1) * D) + 2 ^ 52 * D) by lia. nia.
  - assert (2 ^ 53 * (z * D) * P <= (2 ^ 53 + c) * N * P) as H.
    { transitivity (2 ^ 53 * (Zpos m * D)); [nia|lia]. }
    apply Z.mul_le_mono_pos_r in H; [|done].
    assert (2 ^ 53 * (z * D) <= 2 ^ 53 * ((F + 1) * D) + 2 ^ 52 * D) by lia. nia.
Qed.

(** The quotient of two integers, as a rational. *)
Definition ratio (N D : Z) : Q := N # Z.to_pos D.

Lemma near_fvalue c N D x :
  0 < D -> near c N D x -> (Qabs (fvalue x - ratio N D) <= (c # 2 ^ 53) * ratio N D)%Q.
Proof.
  intros HD. destruct x as [| | |s m e]; cbn [near fvalue]; [done..|]. intros (-> & He & Hl & Hu).
  assert (0 < 2 ^ (- e)) as HP by (apply Z.pow_pos_nonneg; lia).
  assert ((if 0 <=? e then inject_Z (Zpos m * 2 ^ e) else Zpos m # Z.to_pos (2 ^ (- e)))
          == Zpos m # Z.to_pos (2 ^ (- e)))%Q as ->.
  { destruct (Z.leb_spec 0 e); [|done]. replace e with 0 by lia. unfold Qeq. cbn. lia. }
  unfold ratio. apply Qabs_Qle_condition. unfold Qle, Qminus, Qopp, Qplus, Qmult. cbn [Qnum Qden].
  rewrite !Pos2Z.inj_mul, !Z2Pos.id by done. change (Zpos (2 ^ 53)) with (2 ^ 53).
  set (P := 2 ^ (- e)) in *. split; nia.
Qed.
