(* ===== verification/GoScan.v ===== *)
(** * Go's [fmt.Sscanf], for the verbs the program's formats use

    [doScanf] walks the format the way [fmt/scan.go] does: runs of white space,
    literal characters, and the verbs [%s], [%d] and [%f] for operands of type
    [*string], [*uint64] and [*float64].  The formats of the program give no
    field widths.  A scanning error aborts the whole call ([Err]). *)
From S2P Require Import Prelude GoStrings GoFloat.

(** The operands' types, and the values stored through them. *)
Inductive argty : Type := AString | AUint64 | AFloat64.
Inductive sval : Type := SString (s : string) | SUint64 (n : Z) | SFloat64 (x : float64).

Definition scanErr {A} (m : string) : outcome A := Err (ErrOpaque m).

(** [ss.SkipSpace]: a newline is an error, because [Sscanf] has [nlIsSpace = false]. *)
Fixpoint SkipSpace (inp : string) : outcome string :=
  match inp with
  | "" => Ok ""
  | String c rest =>
      if Ascii.eqb c nl then scanErr "unexpected newline"
      else if is_space c then SkipSpace rest else Ok inp
  end.

(** Zero or more spaces that are not newlines. *)
Fixpoint skip_blank (inp : string) : string :=
  match inp with
  | String c rest => if is_space c && negb (Ascii.eqb c nl) then skip_blank rest else inp
  | "" => ""
  end.

(** The longest prefix of characters accepted by [P]. *)
Fixpoint take_while (P : ascii -> bool) (inp : string) : string * string :=
  match inp with
  | String c rest =>
      if P c then let '(t, r) := take_while P rest in (String c t, r) else ("", inp)
  | "" => ("", "")
  end.

Definition notSpace (c : ascii) : bool := negb (is_space c).

(** [ss.scanUint(verb, 64)] for the verb [%d]. *)
Definition scanUint (inp : string) : outcome (sval * string) :=
  let! inp := SkipSpace inp in
  if String.eqb inp "" then scanErr "unexpected EOF"
  else let '(tok, rest) := take_while is_digit inp in
       if String.eqb tok "" then scanErr "expected integer"
       else let! n := ParseUint tok in Ok (SUint64 n, rest).

(** [ss.convertString] for the verb [%s]. *)
Definition scanString (inp : string) : outcome (sval * string) :=
  let! inp := SkipSpace inp in
  if String.eqb inp "" then scanErr "unexpected EOF"
  else let '(tok, rest) := take_while notSpace inp in Ok (SString tok, rest).

Definition is_char (cs : string) (c : ascii) : bool :=
  existsb (Ascii.eqb c) (String.list_ascii_of_string cs).

(** [ss.accept]: consume one character of the set. *)
Definition accept (cs : string) (inp : string) : option (ascii * string) :=
  match inp with
  | String c rest => if is_char cs c then Some (c, rest) else None
  | "" => None
  end.

(** A decimal numeral [digits [. digits] [e [sign] digits]], as a mantissa, a
    power of ten and the rest of the input. *)
Definition decimal_token (inp : string) : option (Z * Z * string) :=
  let '(ip, r1) := take_while is_digit inp in
  let '(fp, r2) :=
    match accept "." r1 with Some (_, r) => take_while is_digit r | None => ("", r1) end in
  if String.eqb (ip +:+ fp) "" then None
  else match parse_digits 0 (ip +:+ fp) with
       | None => None
       | Some m =>
           let frac := Z.of_nat (String.length fp) in
           match accept "eE" r2 with
           | None => Some (m, - frac, r2)
           | Some (_, r3) =>
               let '(neg, r4) :=
                 match accept "+-" r3 with
                 | Some (c, r) => (Ascii.eqb c "-", r) | None => (false, r3) end in
               let '(ep, r5) := take_while is_digit r4 in
               if String.eqb ep "" then None
               else match parse_digits 0 ep with
                    | None => None
                    | Some k => Some (m, (if (neg : bool) then - k else k) - frac, r5)
                    end
           end
       end.

Section Scanf.

(** What [%f] does with the numerals that are not plain decimals (NaN, infinities,
    hexadecimal mantissas, digit separators, signs). *)
Variable exotic_float : string -> outcome (float64 * string).

Definition exotic_start (inp : string) : bool :=
  match inp with
  | String "0" (String c _) => is_char "xX_" c
  | String c _ => negb (is_digit c || Ascii.eqb c ".")
  | "" => false
  end.

(** [ss.convertFloat(ss.floatToken(), 64)] for the verb [%f]. *)
Definition scanFloat (inp : string) : outcome (sval * string) :=
  let! inp := SkipSpace inp in
  if String.eqb inp "" then scanErr "unexpected EOF"
  else if exotic_start inp then
    let! (x, rest) := exotic_float inp in Ok (SFloat64 x, rest)
  else match decimal_token inp with
       | None => scanErr "invalid syntax"
       | Some (m, e, rest) =>
           if is_char "_pP" (match rest with String c _ => c | "" => " "%char end) then
             let! (x, rest) := exotic_float inp in Ok (SFloat64 x, rest)
           else let x := of_decimal m e in
                if is_finite x then Ok (SFloat64 x, rest)
                else scanErr "value out of range"
       end.

(** [ss.scanOne]: the verb must suit the operand's type. *)
Definition scanOne (verb : ascii) (ty : argty) (inp : string) : outcome (sval * string) :=
  match ty with
  | AString => if Ascii.eqb verb "s" then scanString inp else scanErr "bad verb"
  | AUint64 => if Ascii.eqb verb "d" then scanUint inp else scanErr "bad verb"
  | AFloat64 => if Ascii.eqb verb "f" then scanFloat inp else scanErr "bad verb"
  end.

(** A run of spaces of the format against the input ([ss.advance] for a format
    without newlines): at least one space of the input, or its end. *)
Definition match_spaces (inp : string) : outcome string :=
  match inp with
  | "" => Ok ""
  | String c rest =>
      if negb (is_space c) then scanErr "expected space in input to match format"
      else if Ascii.eqb c nl then scanErr "newline in input does not match format"
      else Ok (skip_blank rest)
  end.

(** [ss.doScanf]: the values stored so far are returned in order; [n] is
    [numProcessed].  The fuel is the length of the format. *)
Fixpoint doScanf (fuel : nat) (format : string) (args : list argty) (inp : string)
    : outcome (list sval) :=
  match fuel with
  | O => Ok []
  | S fuel =>
      match format with
      | "" => Ok []
      | String c frest =>
          if is_space c then
            let! inp := match_spaces inp in
            doScanf fuel (skip_blank frest) args inp
          else if Ascii.eqb c "%" then
            match frest with
            | "" => scanErr "missing verb: % at end of format string"
            | String verb frest' =>
                match args with
                | [] => scanErr "too few operands for format"
                | ty :: args' =>
                    let! (v, inp) := scanOne verb ty inp in
                    let! vs := doScanf fuel frest' args' inp in
                    Ok (v :: vs)
                end
            end
          else match inp with
               | "" => scanErr "unexpected EOF"
               | String c' irest =>
                   if Ascii.eqb c c' then doScanf fuel frest args irest
                   else scanErr "input does not match format"
               end
      end
  end.

Definition Sscanf (inp format : string) (args : list argty) : outcome (list sval) :=
  doScanf (S (String.length format)) format args inp.

End Scanf.

(** ** Lemmas *)

Lemma take_while_app P w rest :
  all_chars P w = true ->
  match rest with "" => True | String c _ => P c = false end ->
  take_while P (w +:+ rest) = (w, rest).
Proof.
  intros Hw Hr. induction w as [|c w IH].
  - rewrite string_app_nil_l. destruct rest as [|c rest]; [done|]. simpl. by rewrite Hr.
  - simpl in Hw. apply andb_true_iff in Hw as [Hc Hw].
    rewrite string_app_cons. simpl. by rewrite Hc, IH.
Qed.

Lemma not_space_not_nl c : is_space c = false -> Ascii.eqb c nl = false.
Proof. intros H. by destruct (Ascii.eqb_spec c nl) as [->|]. Qed.

Lemma SkipSpace_word w rest :
  wordChars w = true -> w <> "" -> SkipSpace (w +:+ rest) = Ok (w +:+ rest).
Proof.
  destruct w as [|c w]; [done|]. unfold wordChars. cbn [all_chars].
  rewrite andb_true_iff, negb_true_iff. intros [Hc _] _.
  rewrite string_app_cons. simpl. by rewrite not_space_not_nl, Hc.
Qed.

Lemma word_app_nonempty w rest : w <> "" -> String.eqb (w +:+ rest) "" = false.
Proof. by destruct w. Qed.

(** Scanning back what [strconv.FormatUint] wrote. *)
Lemma scanUint_format n rest :
  is_u64 n -> match rest with "" => True | String c _ => is_digit c = false end ->
  scanUint (FormatUint n +:+ rest) = Ok (SUint64 n, rest).
Proof.
  intros Hn Hr. unfold scanUint.
  assert (all_chars is_digit (FormatUint n) = true) as Hd by apply FormatUint_digits, Hn.
  rewrite SkipSpace_word by (apply FormatUint_nonempty || by apply wordChars_digits).
  cbn [obind]. rewrite word_app_nonempty by apply FormatUint_nonempty.
  rewrite take_while_app by done.
  destruct (String.eqb_spec (FormatUint n) "") as [E|_]; [by destruct (FormatUint_nonempty n)|].
  by rewrite ParseUint_FormatUint.
Qed.

Lemma scanString_word w rest :
  wordChars w = true -> w <> "" -> space_led rest = true ->
  scanString (w +:+ rest) = Ok (SString w, rest).
Proof.
  intros Hw Hne Hr. unfold scanString. rewrite SkipSpace_word by done. cbn [obind].
  rewrite word_app_nonempty by done. unfold wordChars in Hw.
  rewrite take_while_app; [done | done |].
  destruct rest as [|c rest]; [done|]. simpl in Hr. unfold notSpace. by rewrite Hr.
Qed.

(** A list of numbers, each after a space, and the format that reads it. *)
Fixpoint spacedNumbers (vs : list Z) (rest : string) : string :=
  match vs with [] => rest | v :: vs => " " +:+ FormatUint v +:+ spacedNumbers vs rest end.

Fixpoint spacedVerbs (k : nat) : string :=
  match k with O => "" | S k => " %d" +:+ spacedVerbs k end.

Lemma spacedNumbers_led vs rest :
  match rest with "" => True | String c _ => is_digit c = false end ->
  match spacedNumbers vs rest with "" => True | String c _ => is_digit c = false end.
Proof. by destruct vs. Qed.

Lemma skip_blank_word w s : wordChars w = true -> w <> "" -> skip_blank (w +:+ s) = w +:+ s.
Proof.
  destruct w as [|c w]; [done|]. unfold wordChars. cbn [all_chars].
  rewrite andb_true_iff, negb_true_iff. intros [Hc _] _.
  rewrite string_app_cons. cbn [skip_blank]. by rewrite Hc.
Qed.

Lemma doScanf_space ex fuel f args inp :
  doScanf ex (S fuel) (String " " f) args inp =
    (let! inp := match_spaces inp in doScanf ex fuel (skip_blank f) args inp).
Proof. reflexivity. Qed.

Lemma doScanf_verb ex fuel verb f ty args inp :
  doScanf ex (S fuel) (String "%" (String verb f)) (ty :: args) inp =
    (let! (v, inp) := scanOne ex verb ty inp in
     let! vs := doScanf ex fuel f args inp in Ok (v :: vs)).
Proof. reflexivity. Qed.

Lemma scanOne_uint ex inp : scanOne ex "d" AUint64 inp = scanUint inp.
Proof. reflexivity. Qed.

Lemma scanOne_string ex inp : scanOne ex "s" AString inp = scanString inp.
Proof. reflexivity. Qed.

Lemma scanOne_float ex inp : scanOne ex "f" AFloat64 inp = scanFloat ex inp.
Proof. reflexivity. Qed.

(** One [" %d"] of the format against one number of the input. *)
Lemma doScanf_number ex fuel f args v rest :
  is_u64 v -> match rest with "" => True | String c _ => is_digit c = false end ->
  doScanf ex (S (S fuel)) (" %d" +:+ f) (AUint64 :: args) (" " +:+ FormatUint v +:+ rest) =
    (let! vs := doScanf ex fuel f args rest in Ok (SUint64 v :: vs)).
Proof.
  intros Hv Hr. rewrite !string_app_cons, !string_app_nil_l, doScanf_space.
  change (match_spaces (String " " ?x)) with (Ok (skip_blank x)). cbn [obind].
  rewrite skip_blank_word by (apply FormatUint_nonempty || apply wordChars_digits, FormatUint_digits, Hv).
  change (skip_blank (String "%" ?x)) with (String "%" x).
  rewrite doScanf_verb. by rewrite scanOne_uint, scanUint_format.
Qed.

Lemma doScanf_numbers ex fuel vs :
  Forall is_u64 vs -> (2 * length vs < fuel)%nat ->
  doScanf ex fuel (spacedVerbs (length vs)) (replicate (length vs) AUint64)
    (spacedNumbers vs eol) = Ok (map SUint64 vs).
Proof.
  intros Hvs. revert fuel. induction Hvs as [|v vs Hv Hvs IH]; intros fuel Hf.
  { destruct fuel; done. }
  cbn [length] in *. destruct fuel as [|[|fuel]]; [lia ..|].
  cbn [spacedVerbs replicate spacedNumbers].
  rewrite doScanf_number by (done || by apply spacedNumbers_led).
  by rewrite IH by lia.
Qed.

(** With fewer numbers than verbs the scan fails at the end of the line. *)
Lemma doScanf_short ex fuel vs k :
  Forall is_u64 vs -> (2 * (length vs + S k) < fuel)%nat ->
  is_err (doScanf ex fuel (spacedVerbs (length vs + S k)) (replicate (length vs + S k) AUint64)
            (spacedNumbers vs eol)) = true.
Proof.
  intros Hvs. revert fuel. induction Hvs as [|v vs Hv Hvs IH]; intros fuel Hf.
  { destruct fuel; [lia|]. done. }
  cbn [length] in *. destruct fuel as [|[|fuel]]; [lia ..|].
  cbn [Nat.add spacedVerbs replicate spacedNumbers].
  rewrite doScanf_number by (done || by apply spacedNumbers_led).
  specialize (IH fuel ltac:(lia)). by destruct (doScanf _ _ _ _ _).
Qed.

(** Scanning returns a value or an error; it does not panic. *)
Lemma SkipSpace_no_panic inp : is_panic (SkipSpace inp) = false.
Proof.
  induction inp as [|c inp IH]; [done|]. simpl. by destruct (Ascii.eqb c nl), (is_space c).
Qed.

Lemma ParseUint_no_panic s : is_panic (ParseUint s) = false.
Proof. unfold ParseUint. by repeat case_match. Qed.

Lemma scanOne_no_panic ex verb ty inp :
  (forall inp, is_panic (ex inp) = false) -> is_panic (scanOne ex verb ty inp) = false.
Proof.
  intros Hex. pose proof (SkipSpace_no_panic inp) as Hs.
  destruct ty; unfold scanOne, scanString, scanUint, scanFloat;
    destruct (Ascii.eqb verb _); try done; destruct (SkipSpace inp) as [i| |]; try done; cbn [obind].
  - destruct (String.eqb i ""); [done|]. by destruct (take_while notSpace i).
  - destruct (String.eqb i ""); [done|]. destruct (take_while is_digit i) as [tok rest].
    destruct (String.eqb tok ""); [done|]. pose proof (ParseUint_no_panic tok).
    by destruct (ParseUint tok).
  - destruct (String.eqb i ""); [done|]. specialize (Hex i).
    destruct (ex i) as [[? ?]| |]; try done; cbn [obind];
      destruct (exotic_start i); try done;
      destruct (decimal_token i) as [[[? ?] ?]|]; try done;
      destruct (is_char "_pP" _); try done; by destruct (is_finite _).
Qed.

(** The integers that a scan stores are of their type. *)
Definition typedScan (v : sval) : Prop := match v with SUint64 n => is_u64 n | _ => True end.

Lemma scanOne_typed ex verb ty inp v rest : scanOne ex verb ty inp = Ok (v, rest) -> typedScan v.
Proof.
  destruct ty; cbn [scanOne]; intros H; destruct (Ascii.eqb verb _); try done.
  - unfold scanString in H. by repeat (apply obind_ok in H as (? & _ & H) || case_match || inv_ok).
  - unfold scanUint in H. apply obind_ok in H as (inp' & _ & H). destruct (String.eqb inp' ""); [done|].
    destruct (take_while is_digit inp') as [tok r].
    destruct (String.eqb tok ""); [done|]. apply obind_ok in H as (n & Hn & H). inv_ok. by apply ParseUint_range in Hn.
  - unfold scanFloat in H. apply obind_ok in H as (inp' & _ & H).
    repeat (apply obind_ok in H as ([] & _ & H) || case_match || inv_ok || done).
Qed.

Lemma doScanf_typed ex fuel format args inp vs : doScanf ex fuel format args inp = Ok vs -> Forall typedScan vs.
Proof.
  revert format args inp vs. induction fuel as [|fuel IH]; intros format args inp vs H; cbn [doScanf] in H; [inv_ok; constructor|].
  destruct format as [|c f]; [inv_ok; constructor|].
  destruct (is_space c). { apply obind_ok in H as (inp' & _ & H). by eapply IH. }
  destruct (Ascii.eqb c "%").
  - destruct f as [|verb f]; [done|]. destruct args as [|ty args]; [done|].
    apply obind_ok in H as ([v inp'] & Hv & H). apply obind_ok in H as (vs' & Hvs & H). inv_ok.
    constructor; [by eapply scanOne_typed|by eapply IH].
  - destruct inp as [|c' inp]; [done|]. destruct (Ascii.eqb c c'); [by eapply IH|done].
Qed.

Lemma Sscanf_no_panic ex inp format args :
  (forall inp, is_panic (ex inp) = false) -> is_panic (Sscanf ex inp format args) = false.
Proof.
  intros Hex. unfold Sscanf. generalize (S (String.length format)) as fuel.
  intros fuel. revert format args inp.
  induction fuel as [|fuel IH]; intros format args inp; [done|]. cbn [doScanf].
  destruct format as [|c f]; [done|]. destruct (is_space c).
  - destruct inp as [|c' inp]; [apply IH|]. cbn [match_spaces].
    destruct (negb (is_space c')); [done|]. destruct (Ascii.eqb c' nl); [done|]. apply IH.
  - destruct (Ascii.eqb c "%").
    + destruct f as [|verb f]; [done|]. destruct args as [|ty args]; [done|].
      pose proof (scanOne_no_panic ex verb ty inp Hex).
      destruct (scanOne ex verb ty inp) as [[v i]| |]; try done. cbn [obind].
      specialize (IH f args i). by destruct (doScanf ex fuel f args i).
    + destruct inp as [|c' inp]; [done|]. destruct (Ascii.eqb c c'); [apply IH|done].
Qed.

(** ** Examples *)

Example scan_loadavg ex :
  Sscanf ex ("1.76 4.08 4.41 3/1484 2852530" +:+ eol) "%f %f %f %d/%d %d"
    [AFloat64; AFloat64; AFloat64; AUint64; AUint64; AUint64] =
  Ok [SFloat64 (of_decimal 176 (-2)); SFloat64 (of_decimal 408 (-2));
      SFloat64 (of_decimal 441 (-2)); SUint64 3; SUint64 1484; SUint64 2852530].
Proof. vm_compute. reflexivity. Qed.

Example scan_short ex :
  Sscanf ex ("cpu0 1 2" +:+ eol) "%s %d %d %d" [AString; AUint64; AUint64; AUint64] =
  Err (ErrOpaque "newline in input does not match format").
Proof. reflexivity. Qed.
