(* ===== verification/GoTime.v ===== *)
(** * Go's [time.Duration]: constants and [time.ParseDuration]

    A duration is an [int64] count of nanoseconds.  [ParseDuration] follows
    [time/format.go]: a sign, then a non-empty sequence of decimal numbers with a
    unit suffix, accumulated in a [uint64] with the overflow tests of the source. *)
From S2P Require Import Prelude GoStrings GoFloat GoScan.

Definition Nanosecond : Z := 1.
Definition Microsecond : Z := 1000 * Nanosecond.
Definition Millisecond : Z := 1000 * Microsecond.
Definition Second : Z := 1000 * Millisecond.
Definition Minute : Z := 60 * Second.
Definition Hour : Z := 60 * Minute.

(** [d.Seconds()]: whole seconds plus the fraction, as floats. *)
Definition Seconds (d : Z) : float64 :=
  fadd (of_int (Z.quot d Second)) (fdiv (of_int (Z.rem d Second)) (of_int Second)).

(** [fmtFrac]: at most [prec] decimals of [v] without their trailing zeros, put before
    [acc], and the integer part. *)
Fixpoint fmtFrac (prec : nat) (v : Z) (print : bool) (acc : string) : string * Z :=
  match prec with
  | O => (if print then String "." acc else acc, v)
  | S p =>
      let digit := v mod 10 in
      let print' := print || negb (digit =? 0) in
      fmtFrac p (v / 10) print' (if print' then String (digit_char digit) acc else acc)
  end.

(** [d.String()]. *)
Definition DurationString (d : Z) : string :=
  let u := Z.abs d in
  let sign := if d <? 0 then "-" else "" in
  if u <? Second then
    if u =? 0 then "0s"
    else
      let '(prec, unit) :=
        if u <? Microsecond then (0%nat, "ns")
        else if u <? Millisecond then (3%nat, String "194" (String "181" "s"))
        else (6%nat, "ms") in
      let '(frac, n) := fmtFrac prec u false unit in
      sign +:+ FormatUint n +:+ frac
  else
    let '(frac, n) := fmtFrac 9 u false "s" in
    let seconds := FormatUint (n mod 60) +:+ frac in
    let minutes := n / 60 in
    if 0 <? minutes then
      let text := FormatUint (minutes mod 60) +:+ "m" +:+ seconds in
      let hours := minutes / 60 in
      sign +:+ (if 0 <? hours then FormatUint hours +:+ "h" +:+ text else text)
    else sign +:+ seconds.

Definition unitMap (u : string) : option Z :=
  if String.eqb u "ns" then Some Nanosecond
  else if String.eqb u "us" then Some Microsecond
  else if String.eqb u (String "194" (String "181" "s")) then Some Microsecond
  else if String.eqb u (String "206" (String "188" "s")) then Some Microsecond
  else if String.eqb u "ms" then Some Millisecond
  else if String.eqb u "s" then Some Second
  else if String.eqb u "m" then Some Minute
  else if String.eqb u "h" then Some Hour
  else None.

Definition durErr {A} : outcome A := Err (ErrOpaque "time: invalid duration").

(** [leadingInt]: the value of the leading digits and the rest. *)
Fixpoint leadingInt (x : Z) (s : string) : outcome (Z * string) :=
  match s with
  | String c s' =>
      if is_digit c then
        if 2 ^ 63 / 10 <? x then durErr
        else let x' := x * 10 + digit_val c in
             if 2 ^ 63 <? x' then durErr else leadingInt x' s'
      else Ok (x, s)
  | "" => Ok (x, s)
  end.

(** [leadingFraction]: digits beyond what fits are consumed and ignored. *)
Fixpoint leadingFraction (x : Z) (scale : float64) (overflow : bool) (s : string)
    : Z * float64 * string :=
  match s with
  | String c s' =>
      if is_digit c then
        if overflow then leadingFraction x scale true s'
        else if (2 ^ 63 - 1) / 10 <? x then leadingFraction x scale true s'
        else let y := x * 10 + digit_val c in
             if 2 ^ 63 <? y then leadingFraction x scale true s'
             else leadingFraction y (fmul scale (of_int 10)) false s'
      else (x, scale, s)
  | "" => (x, scale, s)
  end.

Definition unit_char (c : ascii) : bool := negb (Ascii.eqb c "." || is_digit c).

Section ParseDuration.
Variable oob : float64 -> Z.

(** One [number unit] group: its value in nanoseconds and the rest. *)
Definition parse_group (s : string) : outcome (Z * string) :=
  match s with
  | "" => durErr
  | String c0 _ =>
      if negb (Ascii.eqb c0 "." || is_digit c0) then durErr
      else
        let! (v, s1) := leadingInt 0 s in
        let pre := negb (String.length s1 =? String.length s)%nat in
        let '(f, scale, s2, post) :=
          match s1 with
          | String "." s1' =>
              let '(f, scale, s2) := leadingFraction 0 fone false s1' in
              (f, scale, s2, negb (String.length s2 =? String.length s1')%nat)
          | _ => (0, fone, s1, false)
          end in
        if negb pre && negb post then durErr
        else
          let '(u, s3) := take_while unit_char s2 in
          if String.eqb u "" then durErr
          else match unitMap u with
               | None => durErr
               | Some unit =>
                   if 2 ^ 63 / unit <? v then durErr
                   else
                     let v1 := v * unit in
                     let v2 :=
                       if 0 <? f then
                         addu v1 (to_uint64 oob (fmul (of_int f) (fdiv (of_int unit) scale)))
                       else v1 in
                     if (0 <? f) && (2 ^ 63 <? v2) then durErr else Ok (v2, s3)
               end
  end.

(** The groups, one after another; the fuel is the length of the string. *)
Fixpoint parse_groups (fuel : nat) (d : Z) (s : string) : outcome Z :=
  if String.eqb s "" then Ok d
  else match fuel with
       | O => durErr
       | S fuel =>
           let! (v, s') := parse_group s in
           let d' := addu d v in
           if 2 ^ 63 <? d' then durErr else parse_groups fuel d' s'
       end.

Definition ParseDuration (s : string) : outcome Z :=
  let '(neg, s1) :=
    match s with
    | String "-" s' => (true, s')
    | String "+" s' => (false, s')
    | _ => (false, s)
    end in
  if String.eqb s1 "0" then Ok 0
  else if String.eqb s1 "" then durErr
  else let! d := parse_groups (String.length s1) 0 s1 in
       if (neg : bool) then Ok (i64 (- i64 d))
       else if 2 ^ 63 - 1 <? d then durErr else Ok d.

End ParseDuration.

(** As in the documentation of [String]. *)
Example DurationString_examples :
  map DurationString [0; 1; 1100; 2200000; 3300000000; 4 * Minute + 5 * Second;
                      4 * Minute + 5001 * Millisecond; 5 * Hour + 6 * Minute + 7001 * Millisecond; -1000000] =
  ["0s"; "1ns"; "1.1" +:+ String "194" (String "181" "s"); "2.2ms"; "3.3s"; "4m5s"; "4m5.001s"; "5h6m7.001s"; "-1ms"].
Proof. vm_compute. reflexivity. Qed.

(** ** Lemmas *)

Lemma leadingInt_digits x s :
  all_chars is_digit s = true ->
  leadingInt x s = durErr \/ exists v, leadingInt x s = Ok (v, "").
Proof.
  revert x. induction s as [|c s IH]; intros x; [eauto|].
  simpl. rewrite andb_true_iff. intros [-> Hs].
  destruct (_ <? x); [by left|]. destruct (_ <? _); [by left|]. auto.
Qed.

(** A number without a unit is not a duration, except [0]. *)
Lemma ParseDuration_digits oob s :
  all_chars is_digit s = true -> s <> "" -> s <> "0" -> ParseDuration oob s = durErr.
Proof.
  intros Hs Hne H0.
  assert (parse_group oob s = durErr) as Hg.
  { destruct s as [|c s]; [done|]. unfold parse_group.
    pose proof Hs as Hc. simpl in Hc. apply andb_true_iff in Hc as [Hc _].
    rewrite Hc, orb_true_r. cbn [negb].
    destruct (leadingInt_digits 0 (String c s) Hs) as [-> | [v ->]]; [done|].
    cbn [obind]. simpl. done. }
  unfold ParseDuration.
  assert (match s with String "-" s' => (true, s') | String "+" s' => (false, s')
          | _ => (false, s) end = (false, s)) as ->.
  { destruct s as [|c s]; [done|]. simpl in Hs. apply andb_true_iff in Hs as [Hc _].
    destruct c as [[] [] [] [] [] [] [] []]; try done. }
  destruct (String.eqb_spec s "0"); [done|]. destruct (String.eqb_spec s ""); [done|].
  destruct s as [|c s]; [done|]. cbn [String.length parse_groups].
  destruct (String.eqb_spec (String c s) ""); [done|]. by rewrite Hg.
Qed.

(** ** Examples *)

Example parse_20s oob : ParseDuration oob "20s" = Ok (20 * Second).
Proof. reflexivity. Qed.

Example parse_1h30m oob : ParseDuration oob "1h30m0.5s" = Ok (5400 * Second + 500 * Millisecond).
Proof. vm_compute. reflexivity. Qed.

Example parse_no_unit oob : ParseDuration oob "20" = durErr.
Proof. reflexivity. Qed.

Example seconds_20 : Seconds (20 * Second) = of_int 20.
Proof. vm_compute. reflexivity. Qed.
