(* ===== verification/GoUrl.v ===== *)
(** * net/url and net/http: queries, and the way of a request to its server

    [parseQuery] with its unescaping, [Values.Get]; what of a URL is sent to the
    server whose address it starts with.  The address and the path are those of
    unreserved characters, which need no escaping; the query and the fragment are any
    bytes, as [net/url] sends the one and drops the other unchanged. *)
From S2P Require Import Prelude GoStrings.

(** [strings.Cut] at a byte: what is before it and after it. *)
Fixpoint Cut (s : string) (sep : ascii) : string * string :=
  match s with
  | "" => ("", "")
  | String c s' =>
      if Ascii.eqb c sep then ("", s')
      else let '(a, b) := Cut s' sep in (String c a, b)
  end.

Fixpoint Contains (s : string) (c : ascii) : bool :=
  match s with
  | "" => false
  | String d s' => Ascii.eqb d c || Contains s' c
  end.

Definition unhex (c : ascii) : option Z :=
  let n := Z.of_nat (nat_of_ascii c) in
  if (48 <=? n) && (n <=? 57) then Some (n - 48)
  else if (97 <=? n) && (n <=? 102) then Some (n - 87)
  else if (65 <=? n) && (n <=? 70) then Some (n - 55)
  else None.

(** [url.QueryUnescape]; [None] for an invalid escape. *)
Fixpoint QueryUnescape (s : string) : option string :=
  match s with
  | "" => Some ""
  | String "%" (String a (String b s')) =>
      match unhex a, unhex b, QueryUnescape s' with
      | Some x, Some y, Some t => Some (String (ascii_of_nat (Z.to_nat (16 * x + y))) t)
      | _, _, _ => None
      end
  | String "%" _ => None
  | String "+" s' => option_map (String " ") (QueryUnescape s')
  | String c s' => option_map (String c) (QueryUnescape s')
  end.

(** One piece of the query: skipped when empty, with a semicolon or a bad escape. *)
Definition queryPair (piece : string) : option (string * string) :=
  if Contains piece ";" then None
  else if String.eqb piece "" then None
  else
    let '(k, v) := Cut piece "=" in
    match QueryUnescape k, QueryUnescape v with
    | Some k', Some v' => Some (k', v')
    | _, _ => None
    end.

(** [req.URL.Query().Get(key)]. *)
Definition QueryGet (query key : string) : string :=
  match List.find (fun kv => String.eqb kv.1 key) (omap queryPair (Split "&" query)) with
  | Some (_, v) => v
  | None => ""
  end.

Fixpoint stripPrefix (p s : string) : option string :=
  match p, s with
  | "", _ => Some s
  | String a p', String b s' => if Ascii.eqb a b then stripPrefix p' s' else None
  | String _ _, "" => None
  end.

(** Letters, digits and [-._~/:] : what neither the URL nor the query escapes. *)
Definition unreserved (c : ascii) : bool :=
  let n := nat_of_ascii c in
  is_digit c || ((65 <=? n) && (n <=? 90))%nat || ((97 <=? n) && (n <=? 122))%nat ||
  Ascii.eqb c "-" || Ascii.eqb c "." || Ascii.eqb c "_" || Ascii.eqb c "~" ||
  Ascii.eqb c "/" || Ascii.eqb c ":".

Definition safe (s : string) : bool := all_chars unreserved s.

(** [stringContainsCTLByte], of one byte. *)
Definition isCTL (c : ascii) : bool := let n := nat_of_ascii c in (n <? 32)%nat || (n =? 127)%nat.

(** [url.Parse] as [http.NewRequest] calls it: the fragment is cut off and unescaped,
    the rest has no control byte. *)
Definition ParseURL (rawURL : string) : outcome unit :=
  let '(target, fragment) := Cut rawURL "#" in
  if negb (all_chars (fun c => negb (isCTL c)) target) then Err (ErrOpaque "net/url: invalid control character in URL")
  else match QueryUnescape fragment with
       | Some _ => Ok tt
       | None => Err (ErrOpaque "invalid URL escape")
       end.

(** What is left of a query without the fragment that may follow it. *)
Definition sentQuery (query : string) : string := (Cut query "#").1.

(** ** Lemmas *)

Lemma stripPrefix_app p s : stripPrefix p (p +:+ s) = Some s.
Proof. induction p as [|c p IH]; [done|]. rewrite string_app_cons. cbn [stripPrefix]. by rewrite Ascii.eqb_refl. Qed.

Lemma Cut_app sep s t :
  all_chars (fun c => negb (Ascii.eqb c sep)) s = true -> Cut (s +:+ String sep t) sep = (s, t).
Proof.
  induction s as [|c s IH]; [intros _; rewrite string_app_nil_l; cbn [Cut]; by rewrite Ascii.eqb_refl|].
  cbn [all_chars]. rewrite andb_true_iff, negb_true_iff. intros [Hc Hs].
  rewrite string_app_cons. cbn [Cut]. by rewrite Hc, IH.
Qed.

Lemma Cut_none sep s : all_chars (fun c => negb (Ascii.eqb c sep)) s = true -> Cut s sep = (s, "").
Proof.
  induction s as [|c s IH]; [done|]. cbn [all_chars Cut].
  rewrite andb_true_iff, negb_true_iff. intros [-> Hs]. by rewrite IH.
Qed.

Lemma Contains_none c s : all_chars (fun x => negb (Ascii.eqb x c)) s = true -> Contains s c = false.
Proof.
  induction s as [|d s IH]; [done|]. cbn [all_chars Contains].
  rewrite andb_true_iff, negb_true_iff. intros [-> Hs]. by rewrite IH.
Qed.

(** A character that [unreserved] rejects does not occur in a safe string. *)
Lemma safe_not c s : unreserved c = false -> safe s = true -> all_chars (fun x => negb (Ascii.eqb x c)) s = true.
Proof.
  intros Hc. apply all_chars_impl. intros x Hx. apply negb_true_iff.
  destruct (Ascii.eqb_spec x c) as [->|]; congruence.
Qed.

Lemma safe_app s t : safe (s +:+ t) = safe s && safe t.
Proof. apply all_chars_app. Qed.

Lemma QueryUnescape_safe s : safe s = true -> QueryUnescape s = Some s.
Proof.
  induction s as [|c s IH]; [done|]. unfold safe. cbn [all_chars]. rewrite andb_true_iff. intros [Hc Hs].
  assert (c <> "%"%char) as H1 by (intros ->; done). assert (c <> "+"%char) as H2 by (intros ->; done).
  transitivity (option_map (String c) (QueryUnescape s)); [|by rewrite IH].
  destruct c as [[] [] [] [] [] [] [] []]; try reflexivity; done.
Qed.

(** The value of the only parameter of a query. *)
Lemma QueryGet_single k v :
  safe k = true -> k <> "" -> safe v = true -> QueryGet (k +:+ "=" +:+ v) k = v.
Proof.
  intros Hk Hne Hv. unfold QueryGet.
  assert (all_chars (fun x => negb (Ascii.eqb x "&")) (k +:+ "=" +:+ v) = true) as Hamp.
  { rewrite !all_chars_app, (safe_not "&" k), (safe_not "&" v) by done. done. }
  rewrite Split_single by done. cbn [omap list_omap]. unfold queryPair.
  rewrite Contains_none.
  2: { rewrite !all_chars_app, (safe_not ";" k), (safe_not ";" v) by done. done. }
  destruct (String.eqb_spec (k +:+ "=" +:+ v) "") as [E|_]; [by destruct k|].
  change ("=" +:+ v) with (String "=" v). rewrite Cut_app by by apply safe_not.
  rewrite !QueryUnescape_safe by done. cbn [List.find fst]. by rewrite String.eqb_refl.
Qed.

Lemma Cut_spec s sep a b : Cut s sep = (a, b) -> Contains s sep = true ->
  s = a +:+ String sep b /\ Contains a sep = false.
Proof.
  revert a. induction s as [|c s IH]; intros a; cbn [Cut Contains]; [done|].
  destruct (Ascii.eqb_spec c sep) as [->|Hne].
  - intros [= <- <-] _. by rewrite string_app_nil_l.
  - destruct (Cut s sep) as [a' b'] eqn:E. intros [= <- <-]. cbn [orb]. intros Hc.
    destruct (IH a' eq_refl Hc) as [-> Hno]. rewrite string_app_cons. split; [done|].
    cbn [Contains]. rewrite Hno. by apply Ascii.eqb_neq in Hne as ->.
Qed.

Lemma Cut_prefix sep s t :
  all_chars (fun c => negb (Ascii.eqb c sep)) s = true -> Cut (s +:+ t) sep = (s +:+ (Cut t sep).1, (Cut t sep).2).
Proof.
  induction s as [|c s IH]; [intros _; rewrite !string_app_nil_l; by destruct (Cut t sep)|].
  cbn [all_chars]. rewrite andb_true_iff, negb_true_iff. intros [Hc Hs].
  rewrite string_app_cons. cbn [Cut]. by rewrite Hc, IH.
Qed.

Lemma Contains_prefix c s t :
  all_chars (fun x => negb (Ascii.eqb x c)) s = true -> Contains (s +:+ t) c = Contains t c.
Proof.
  induction s as [|d s IH]; [by rewrite string_app_nil_l|].
  cbn [all_chars]. rewrite andb_true_iff, negb_true_iff. intros [Hc Hs].
  rewrite string_app_cons. cbn [Contains]. by rewrite Hc, IH.
Qed.

Lemma safe_noCTL s : safe s = true -> all_chars (fun c => negb (isCTL c)) s = true.
Proof. apply all_chars_impl. by intros [[] [] [] [] [] [] [] []]. Qed.

(** A plain address and path before the query. *)
Lemma ParseURL_prefix s t :
  safe s = true -> ParseURL (s +:+ t) = ParseURL t.
Proof.
  intros Hs. unfold ParseURL. rewrite Cut_prefix by by apply safe_not. destruct (Cut t "#") as [q f]. cbn [fst snd].
  by rewrite all_chars_app, safe_noCTL.
Qed.

Lemma sentQuery_safe s : safe s = true -> sentQuery s = s.
Proof. intros Hs. unfold sentQuery. by rewrite Cut_none by by apply safe_not. Qed.
