(* ===== verification/JsonString.v ===== *)
(** * encoding/json: string literals

    A Go string is any sequence of bytes; JSON text is UTF-8.  The encoder copies
    the well-formed sequences, writes U+FFFD for every other byte, and escapes the
    control characters, the quote, the backslash, the characters of HTML and two
    line separators; the decoder does the converse. *)
From S2P Require Import Prelude GoStrings.

Definition code (c : ascii) : Z := Z.of_N (N_of_ascii c).
Definition byte (n : Z) : ascii := ascii_of_N (Z.to_N n).
Definition quote : ascii := "034".
Definition backslash : ascii := "092".

Definition between_bytes (lo hi : Z) (c : ascii) : bool := (lo <=? code c) && (code c <=? hi).
Definition continuation (c : ascii) : bool := between_bytes 128 191 c.

(** [utf8.DecodeRuneInString]: how many bytes follow the first one in the
    well-formed sequence at the start of a string; [None] when there is none. *)
Definition runeTail (s : string) : option nat :=
  match s with
  | "" => None
  | String b0 s1 =>
      if (code b0 <? 128) then Some 0%nat
      else if between_bytes 194 223 b0 then
        match s1 with String b1 _ => if continuation b1 then Some 1%nat else None | _ => None end
      else if between_bytes 224 239 b0 then
        match s1 with
        | String b1 (String b2 _) =>
            let ok := if (code b0 =? 224) then between_bytes 160 191 b1
                      else if (code b0 =? 237) then between_bytes 128 159 b1 else continuation b1 in
            if ok && continuation b2 then Some 2%nat else None
        | _ => None
        end
      else if between_bytes 240 244 b0 then
        match s1 with
        | String b1 (String b2 (String b3 _)) =>
            let ok := if (code b0 =? 240) then between_bytes 144 191 b1
                      else if (code b0 =? 244) then between_bytes 128 143 b1 else continuation b1 in
            if ok && continuation b2 && continuation b3 then Some 3%nat else None
        | _ => None
        end
      else None
  end.

(** [utf8.ValidString]. *)
Fixpoint valid_go (skip : nat) (s : string) : bool :=
  match s with
  | "" => true
  | String _ s' =>
      match skip with
      | S k => valid_go k s'
      | O => match runeTail s with Some k => valid_go k s' | None => false end
      end
  end.

Definition ValidString (s : string) : bool := valid_go 0 s.

(** [strings.ToValidUTF8], with U+FFFD for each byte that starts no rune: what the
    text of a string says of it. *)
Fixpoint toValid_go (skip : nat) (s : string) : string :=
  match s with
  | "" => ""
  | String c s' =>
      match skip with
      | S k => String c (toValid_go k s')
      | O => match runeTail s with
             | Some k => String c (toValid_go k s')
             | None => String "239" (String "191" (String "189" (toValid_go 0 s')))
             end
      end
  end.

Definition toValid (s : string) : string := toValid_go 0 s.

(** ** Encoding *)

Definition hexDigit (n : Z) : ascii := if n <? 10 then byte (48 + n) else byte (87 + n).

(** A backslash, [u] and four hexadecimal digits. *)
Definition u4 (n : Z) : string :=
  String backslash (String "u" (String (hexDigit (n / 4096)) (String (hexDigit (n / 256 mod 16))
    (String (hexDigit (n / 16 mod 16)) (String (hexDigit (n mod 16)) ""))))).

(** One byte below 128, with the escapes of HTML that an [Encoder] makes. *)
Definition escapeChar (c : ascii) : string :=
  let n := code c in
  if (n =? 34) || (n =? 92) then String backslash (String c "")
  else if (n =? 8) then String backslash "b"
  else if (n =? 12) then String backslash "f"
  else if (n =? 10) then String backslash "n"
  else if (n =? 13) then String backslash "r"
  else if (n =? 9) then String backslash "t"
  else if (n <? 32) || (n =? 60) || (n =? 62) || (n =? 38) then u4 n
  else String c "".

(** U+2028 and U+2029 are E2 80 A8 and E2 80 A9. *)
Definition lineSeparator (s : string) : option Z :=
  match s with
  | String b0 (String b1 (String b2 _)) =>
      if (code b0 =? 226) && (code b1 =? 128) then
        if (code b2 =? 168) then Some 8232 else if (code b2 =? 169) then Some 8233 else None
      else None
  | _ => None
  end.

(** What to do with the next bytes: look at them, or copy or drop the rest of a
    sequence. *)
Inductive mode : Type := Look | Copy (n : nat) | Skip (n : nat).

Definition copying (n : nat) : mode := match n with O => Look | S k => Copy k end.
Definition skipping (n : nat) : mode := match n with O => Look | S k => Skip k end.

Fixpoint escape (m : mode) (s : string) : string :=
  match s with
  | "" => ""
  | String c s' =>
      match m with
      | Copy k => String c (escape (copying k) s')
      | Skip k => escape (skipping k) s'
      | Look =>
          match runeTail s with
          | None => u4 65533 +:+ escape Look s'
          | Some O => escapeChar c +:+ escape Look s'
          | Some k =>
              match lineSeparator s with
              | Some n => u4 n +:+ escape (Skip 1) s'
              | None => String c (escape (copying k) s')
              end
          end
      end
  end.

(** [appendString] with [escapeHTML]. *)
Definition printString (s : string) : string := String quote (escape Look s +:+ String quote "").

(** ** Decoding *)

Definition hexVal (c : ascii) : option Z :=
  if between_bytes 48 57 c then Some (code c - 48)
  else if between_bytes 97 102 c then Some (code c - 87)
  else if between_bytes 65 70 c then Some (code c - 55)
  else None.

Definition hex4 (a b c d : ascii) : option Z :=
  match hexVal a, hexVal b, hexVal c, hexVal d with
  | Some x, Some y, Some z, Some w => Some (((x * 16 + y) * 16 + z) * 16 + w)
  | _, _, _, _ => None
  end.

(** [utf8.AppendRune] for a code point that is not a surrogate. *)
Definition encodeRune (n : Z) : string :=
  if n <? 128 then String (byte n) ""
   else if n <? 2048 then String (byte (192 + n / 64)) (String (byte (128 + n mod 64)) "")
   else if n <? 65536 then
     String (byte (224 + n / 4096)) (String (byte (128 + n / 64 mod 64)) (String (byte (128 + n mod 64)) ""))
   else String (byte (240 + n / 262144)) (String (byte (128 + n / 4096 mod 64))
          (String (byte (128 + n / 64 mod 64)) (String (byte (128 + n mod 64)) ""))).

Definition highSurrogate (n : Z) : bool := ((55296 <=? n) && (n <=? 56319)).
Definition lowSurrogate (n : Z) : bool := ((56320 <=? n) && (n <=? 57343)).

(** The character a one-letter escape stands for. *)
Definition unescapeChar (c : ascii) : option ascii :=
  let n := code c in
  if (n =? 34) || (n =? 92) || (n =? 47) then Some c
  else if Ascii.eqb c "b" then Some "008"%char
  else if Ascii.eqb c "f" then Some "012"%char
  else if Ascii.eqb c "n" then Some "010"%char
  else if Ascii.eqb c "r" then Some "013"%char
  else if Ascii.eqb c "t" then Some "009"%char
  else None.

Definition prefixed (p : string) (r : option (string * string)) : option (string * string) :=
  option_map (fun '(t, rest) => (p +:+ t, rest)) r.

(** The literal after its opening quote: the string and what follows the closing
    quote; [None] for a syntax error. *)
Fixpoint readString (m : nat) (s : string) : option (string * string) :=
  match s with
  | "" => None
  | String c s' =>
      match m with
      | S k => prefixed (String c "") (readString k s')
      | O =>
          if Ascii.eqb c quote then Some ("", s')
          else if Ascii.eqb c backslash then
            match s' with
            | String "u" (String a (String b (String d (String e rest)))) =>
                match hex4 a b d e with
                | None => None
                | Some n =>
                    if highSurrogate n then
                      match rest with
                      | String x (String "u" (String a' (String b' (String d' (String e' rest'))))) =>
                          if Ascii.eqb x backslash then
                            match hex4 a' b' d' e' with
                            | Some n' =>
                                if lowSurrogate n' then
                                  prefixed (encodeRune (65536 + (n - 55296) * 1024 + (n' - 56320))) (readString 0 rest')
                                else prefixed (encodeRune 65533) (readString 0 rest)
                            | None => None
                            end
                          else prefixed (encodeRune 65533) (readString 0 rest)
                      | _ => prefixed (encodeRune 65533) (readString 0 rest)
                      end
                    else if lowSurrogate n then prefixed (encodeRune 65533) (readString 0 rest)
                    else prefixed (encodeRune n) (readString 0 rest)
                end
            | String d rest =>
                match unescapeChar d with
                | Some x => prefixed (String x "") (readString 0 rest)
                | None => None
                end
            | "" => None
            end
          else if code c <? 32 then None
          else match runeTail s with
               | Some k => prefixed (String c "") (readString k s')
               | None => prefixed (encodeRune 65533) (readString 0 s')
               end
      end
  end.

(** ** Lemmas *)

(** The rest of a sequence, and that nothing after it matters. *)
Lemma runeTail_split c s k :
  runeTail (String c s) = Some k ->
  exists p u, s = p +:+ u /\ String.length p = k /\ (forall v, runeTail (String c (p +:+ v)) = Some k) /\
    (code c <? 128) = (k =? 0)%nat.
Proof.
  cbn [runeTail]. destruct (code c <? 128) eqn:E.
  { intros [= <-]. exists "", s. split_and!; [done..| |done]. done. }
  destruct (between_bytes 194 223 c) eqn:E1.
  { destruct s as [|b1 s]; [done|]. destruct (continuation b1) eqn:F; [|done]. intros [= <-].
    exists (String b1 ""), s. split_and!; [done..| |done]. intros v.
    rewrite ?string_app_cons. cbv iota beta. by rewrite F. }
  destruct (between_bytes 224 239 c) eqn:E2.
  { destruct s as [|b1 [|b2 s]]; [done..|]. destruct (_ && continuation b2) eqn:F; [|done]. intros [= <-].
    exists (String b1 (String b2 "")), s. split_and!; [done..| |done]. intros v.
    rewrite ?string_app_cons. cbv iota beta. by rewrite F. }
  destruct (between_bytes 240 244 c) eqn:E3; [|done].
  destruct s as [|b1 [|b2 [|b3 s]]]; [done..|]. destruct (_ && continuation b3) eqn:F; [|done]. intros [= <-].
  exists (String b1 (String b2 (String b3 ""))), s. split_and!; [done..| |done]. intros v.
    rewrite ?string_app_cons. cbv iota beta. by rewrite F.
Qed.

Lemma valid_skip p u : valid_go (String.length p) (p +:+ u) = valid_go 0 u.
Proof. induction p as [|c p IH]; [done|exact IH]. Qed.

Lemma escape_copy p u : escape (copying (String.length p)) (p +:+ u) = p +:+ escape Look u.
Proof.
  induction p as [|c p IH]; [done|]. cbn [String.length copying]. rewrite !string_app_cons. cbn [escape].
  by rewrite IH.
Qed.

Lemma prefixed_nil r : prefixed "" r = r.
Proof. by destruct r as [[]|]. Qed.

Lemma prefixed_app p q r : prefixed p (prefixed q r) = prefixed (p +:+ q) r.
Proof. destruct r as [[t rest]|]; [|done]. cbn. by rewrite string_app_assoc. Qed.

Lemma readString_copy p t : readString (String.length p) (p +:+ t) = prefixed p (readString 0 t).
Proof.
  induction p as [|c p IH]; [by rewrite prefixed_nil|].
  rewrite string_app_cons. cbn [String.length readString]. by rewrite IH, prefixed_app.
Qed.

(** An escaped byte below 128 is read back. *)
Lemma readString_escapeChar c t :
  (code c <? 128) = true -> readString 0 (escapeChar c +:+ t) = prefixed (String c "") (readString 0 t).
Proof. destruct c as [[] [] [] [] [] [] [] []]; intros H; first [discriminate H | reflexivity]. Qed.

Lemma readString_u4 n t :
  n = 8232 \/ n = 8233 -> readString 0 (u4 n +:+ t) = prefixed (encodeRune n) (readString 0 t).
Proof. intros [-> | ->]; reflexivity. Qed.

Lemma readString_nonascii c t k :
  (code c <? 128) = false -> runeTail (String c t) = Some k ->
  readString 0 (String c t) = prefixed (String c "") (readString k t).
Proof.
  intros Hc Hk. cbn [readString]. rewrite Hk.
  assert (Ascii.eqb c quote = false /\ Ascii.eqb c backslash = false /\ (code c <? 32) = false) as (-> & -> & ->); [|done].
  clear Hk. destruct c as [[] [] [] [] [] [] [] []]; first [discriminate Hc | done].
Qed.

Lemma lineSeparator_split s n :
  lineSeparator s = Some n ->
  exists c b1 b2 u, s = String c (String b1 (String b2 u)) /\ (n = 8232 \/ n = 8233) /\
    encodeRune n = String c (String b1 (String b2 "")) /\ runeTail s = Some 2%nat.
Proof.
  destruct s as [|c [|b1 [|b2 u]]]; [done..|]. cbn [lineSeparator].
  assert (forall x k, (code x =? k) = true -> x = byte k) as Hcode.
  { intros x k H%Z.eqb_eq. unfold byte, code in *. rewrite <- H, N2Z.id. by rewrite ascii_N_embedding. }
  destruct (code c =? 226) eqn:E0; [|done]. destruct (code b1 =? 128) eqn:E1; [|done]. cbn [andb].
  apply Hcode in E0 as ->. apply Hcode in E1 as ->.
  destruct (code b2 =? 168) eqn:E2.
  - apply Hcode in E2 as ->. intros [= <-]. do 4 eexists. split; [reflexivity|]. split; [by left|done].
  - destruct (code b2 =? 169) eqn:E3; [|done]. apply Hcode in E3 as ->. intros [= <-].
    do 4 eexists. split; [reflexivity|]. split; [by right|done].
Qed.

Lemma toValid_skip p u : toValid_go (String.length p) (p +:+ u) = p +:+ toValid_go 0 u.
Proof. induction p as [|c p IH]; [done|]. rewrite !string_app_cons. cbn [String.length toValid_go]. by rewrite IH. Qed.

Lemma readString_unknown t : readString 0 (u4 65533 +:+ t) = prefixed (String "239" (String "191" (String "189" ""))) (readString 0 t).
Proof. reflexivity. Qed.

(** What the encoder writes of a string is read back, its invalid bytes replaced. *)
Lemma readString_escape s rest :
  readString 0 (escape Look s +:+ String quote rest) = Some (toValid s, rest).
Proof.
  remember (String.length s) as n eqn:Hn. revert s Hn.
  induction (lt_wf n) as [n _ IH]. intros s ->. destruct s as [|c s]; [done|].
  destruct (runeTail (String c s)) as [k|] eqn:Hk.
  2: { unfold toValid. cbn [escape toValid_go]. rewrite Hk, string_app_assoc, readString_unknown.
       rewrite (IH (String.length s)) by (cbn [String.length]; lia || done). done. }
  destruct (runeTail_split c s k Hk) as (p & u & -> & <- & Hext & Hlen).
  assert (readString 0 (escape Look u +:+ String quote rest) = Some (toValid u, rest)) as IHu.
  { eapply IH; [|reflexivity]. cbn [String.length]. rewrite string_app_length. lia. }
  assert (toValid (String c (p +:+ u)) = String c (p +:+ toValid u)) as ->.
  { unfold toValid. cbn [toValid_go]. by rewrite Hk, toValid_skip. }
  cbn [escape]. rewrite Hk. destruct p as [|b p]; cbn [String.length] in *.
  - rewrite !string_app_nil_l, string_app_assoc, readString_escapeChar by done. by rewrite IHu.
  - destruct (lineSeparator (String c (String b p +:+ u))) as [n|] eqn:Hl.
    + apply lineSeparator_split in Hl as (c' & b1 & b2 & u' & E & Hn & Henc & Hk').
      rewrite Hk' in Hk. injection Hk as Hk. destruct p as [|b' [|? ?]]; [done| |done].
      rewrite !string_app_cons in E. injection E as <- <- <- <-. cbn [escape skipping].
      rewrite string_app_assoc, readString_u4, Henc by done. rewrite !string_app_cons, string_app_nil_l.
      cbn [escape skipping]. by rewrite IHu.
    + change (copying (S (String.length p))) with (copying (String.length (String b p))).
      rewrite escape_copy, string_app_cons, string_app_assoc.
      rewrite (readString_nonascii _ _ (S (String.length p))); [|done|apply Hext].
      change (S (String.length p)) with (String.length (String b p)). by rewrite readString_copy, IHu.
Qed.

(** *** Valid strings, rune by rune *)

Definition nonASCII (c : ascii) : bool := negb (code c <? 128).

Lemma runeTail_nonASCII c p u :
  runeTail (String c (p +:+ u)) = Some (String.length p) -> all_chars nonASCII p = true.
Proof.
  assert (forall lo hi x, between_bytes lo hi x = true -> 128 <= lo -> nonASCII x = true) as Hb.
  { intros lo hi x [H1%Z.leb_le H2]%andb_true_iff Hlo. apply negb_true_iff, Z.ltb_ge. lia. }
  cbn [runeTail]. destruct (code c <? 128); [by destruct p|].
  destruct p as [|b1 [|b2 [|b3 [|b4 p]]]]; [done|..]; rewrite ?string_app_cons, ?string_app_nil_l; cbv iota beta;
    cbn [String.length all_chars]; intros H; repeat case_match; simplify_eq;
    repeat match goal with H : _ && _ = true |- _ => apply andb_true_iff in H as [? ?] end;
    unfold continuation in *; rewrite ?andb_true_iff; repeat split; by eapply Hb.
Qed.

Lemma valid_rune c p u : (forall v, runeTail (String c (p +:+ v)) = Some (String.length p)) ->
  ValidString (String c (p +:+ u)) = ValidString u.
Proof. intros H. unfold ValidString. cbn [valid_go]. by rewrite H, valid_skip. Qed.

Lemma valid_ind (P : string -> Prop) :
  P "" ->
  (forall c p u, (forall v, runeTail (String c (p +:+ v)) = Some (String.length p)) -> all_chars nonASCII p = true ->
     ValidString u = true -> P u -> P (String c (p +:+ u))) ->
  forall s, ValidString s = true -> P s.
Proof.
  intros H0 Hs s. remember (String.length s) as n eqn:Hn. revert s Hn.
  induction n as [n IH] using (well_founded_induction lt_wf). intros [|c s] Hn Hv; [done|].
  pose proof Hv as Hv'. unfold ValidString in Hv'. cbn [valid_go] in Hv'. destruct (runeTail (String c s)) as [k|] eqn:Hk; [|done].
  destruct (runeTail_split c s k Hk) as (p & u & -> & <- & Hext & _). rewrite valid_rune in Hv by done.
  apply Hs; [done|by eapply runeTail_nonASCII|done|].
  eapply IH; [|reflexivity|done]. subst n. cbn [String.length]. rewrite string_app_length. lia.
Qed.

Lemma valid_app s t : ValidString s = true -> ValidString t = true -> ValidString (s +:+ t) = true.
Proof.
  intros Hs Ht. revert s Hs. apply valid_ind; [done|]. intros c p u Hp _ _ IH.
  by rewrite string_app_cons, string_app_assoc, valid_rune.
Qed.

Lemma valid_Split sep s : nonASCII sep = false -> ValidString s = true -> Forall (fun w => ValidString w = true) (Split sep s).
Proof.
  intros Hsep. revert s. apply valid_ind; [by repeat constructor|]. intros c p u Hp Hn Hu IH.
  assert (exists w ws, Split sep (p +:+ u) = (p +:+ w) :: ws /\ Split sep u = w :: ws) as (w & ws & E1 & E2).
  { clear -Hn Hsep. induction p as [|x p IH].
    - pose proof (Split_nonempty sep u). destruct (Split sep u) as [|w ws] eqn:E; [done|]. by exists w, ws.
    - cbn [all_chars] in Hn. apply andb_true_iff in Hn as [Hx Hn]. destruct (IH Hn) as (w & ws & E1 & E2).
      exists w, ws. split; [|done]. rewrite !string_app_cons. cbn [Split].
      destruct (Ascii.eqb_spec x sep) as [->|_]; [by rewrite Hx in Hsep|]. by rewrite E1. }
  rewrite E2 in IH. apply list.Forall_cons in IH as [Hw Hws]. cbn [Split]. rewrite E1.
  destruct (Ascii.eqb c sep) eqn:Ec.
  - apply Ascii.eqb_eq in Ec as ->. destruct p as [|x p]; [constructor; [done|by constructor]|].
    exfalso. pose proof (Hp "") as H. apply negb_false_iff in Hsep. cbn [runeTail String.length] in H. by rewrite Hsep in H.
  - constructor; [by rewrite valid_rune|done].
Qed.

Lemma valid_Join sep l :
  ValidString sep = true -> Forall (fun w => ValidString w = true) l -> ValidString (Join sep l) = true.
Proof.
  intros Hsep. induction 1 as [|w l Hw _ IH]; [done|]. cbn [Join]. destruct l as [|w' l]; [done|].
  apply valid_app; [done|]. by apply valid_app.
Qed.

Lemma valid_Clean s : ValidString s = true -> ValidString (Clean s) = true.
Proof.
  intros Hs. unfold Clean.
  assert (forall l stack, Forall (fun w => ValidString w = true) l -> Forall (fun w => ValidString w = true) stack ->
    Forall (fun w => ValidString w = true) (fold_left (clean_step (HasPrefix s "/")) l stack)) as Hfold.
  { induction l as [|w l IH]; intros stack Hl Hst; [done|]. apply list.Forall_cons in Hl as [Hw Hl].
    cbn [fold_left]. apply IH; [done|]. unfold clean_step. destruct (_ || _); [done|].
    destruct (String.eqb w ".."); [|by constructor]. destruct stack as [|top rest]; [by destruct (HasPrefix s "/"); repeat constructor|].
    destruct (String.eqb top ".."); [by constructor|]. by apply list.Forall_cons in Hst as [_ Hst]. }
  assert (ValidString (Join "/" (List.rev (fold_left (clean_step (HasPrefix s "/")) (Split "/" s) []))) = true) as Hj.
  { apply valid_Join; [done|]. apply List.Forall_rev, Hfold; [by apply valid_Split|constructor]. }
  destruct (HasPrefix s "/"); [by apply valid_app|]. by destruct (String.eqb _ "").
Qed.

Lemma valid_JoinPath l : Forall (fun w => ValidString w = true) l -> ValidString (JoinPath l) = true.
Proof.
  induction 1 as [|w l Hw Hl IH]; [done|]. cbn [JoinPath]. destruct (String.eqb w ""); [done|].
  apply valid_Clean, valid_Join; [done|by constructor].
Qed.

Lemma valid_Base s : ValidString s = true -> ValidString (Base s) = true.
Proof.
  intros Hs. unfold Base. destruct (String.eqb s ""); [done|].
  destruct (List.rev _) as [|w ws] eqn:E; [done|].
  assert (In w (Split "/" s)) as Hin.
  { apply (proj1 (filter_In (fun c => negb (String.eqb c "")) w (Split "/" s))), in_rev. rewrite E. by left. }
  pose proof (valid_Split "/" s eq_refl Hs) as H. rewrite List.Forall_forall in H. by apply H.
Qed.

Lemma toValid_valid s : ValidString s = true -> toValid s = s.
Proof.
  unfold ValidString, toValid. generalize 0%nat as k. induction s as [|c s IH]; intros k H; [done|]. cbn [valid_go toValid_go] in *.
  destruct k as [|k]; [|by rewrite IH]. destruct (runeTail (String c s)); [by rewrite IH|done].
Qed.

(** A printed string, in front of anything. *)
Lemma readString_printed s rest :
  exists t, printString s +:+ rest = String quote t /\ readString 0 t = Some (toValid s, rest).
Proof.
  exists (escape Look s +:+ String quote rest). unfold printString.
  rewrite string_app_cons, string_app_assoc. split; [done|]. apply readString_escape.
Qed.

Lemma readString_print s rest :
  ValidString s = true ->
  exists t, printString s +:+ rest = String quote t /\ readString 0 t = Some (s, rest).
Proof. intros Hv. destruct (readString_printed s rest) as (t & Ht & Hr). exists t. by rewrite (toValid_valid s Hv) in Hr. Qed.
