(* ===== verification/NumberText.v ===== *)
(** * Numbers as decimal text

    The number literals of JSON; [strconv.AppendFloat(b, x, fmt, -1, 64)] as
    [encoding/json] calls it: the decimal with the fewest digits that is read back
    as [x], nearest to [x] among those; and [strconv.ParseFloat] on literals. *)
From S2P Require Import Prelude GoStrings GoFloat FloatBounds GoScan.

(** ** Decimal digits of any natural number *)

Definition Digits (n : Z) : string := format_go (S (Z.to_nat (Z.log2 n))) n.
Definition width (n : Z) : Z := Z.of_nat (String.length (Digits n)).

Fixpoint Zeros (k : nat) : string := match k with O => "" | S k' => String "0" (Zeros k') end.

(** [s[:k]] and [s[k:]]. *)
Fixpoint cutAt (k : nat) (s : string) : string * string :=
  match k, s with
  | S k', String c s' => let '(a, b) := cutAt k' s' in (String c a, b)
  | _, _ => ("", s)
  end.

(** ** The shortest decimal *)

(** The numerator and the denominator of a positive mantissa and an exponent. *)
Definition numerator (m : positive) (e : Z) : Z := Zpos m * 2 ^ Z.max e 0.
Definition denominator (e : Z) : Z := 2 ^ Z.max (- e) 0.

(** The [k] with [10 ^ k <= m * 2 ^ e < 10 ^ (k + 1)]. *)
Definition magnitude (m : positive) (e : Z) : Z :=
  let k := width (numerator m e) - width (denominator e) in
  if numerator m e * 10 ^ Z.max (- k) 0 <? denominator e * 10 ^ Z.max k 0 then k - 1 else k.

(** [d * 10 ^ q] without the zeros at the end of [d]. *)
Fixpoint strip (fuel : nat) (d q : Z) : Z * Z :=
  match fuel with
  | O => (d, q)
  | S fuel' => if d mod 10 =? 0 then strip fuel' (d / 10) (q + 1) else (d, q)
  end.

(** The two decimals of [n] digits around the number, the nearest first. *)
Definition candidates (m : positive) (e n : Z) : list (Z * Z) :=
  let q := magnitude m e - n + 1 in
  let a := numerator m e * 10 ^ Z.max (- q) 0 in
  let b := denominator e * 10 ^ Z.max q 0 in
  let lo := a / b in
  let r := 2 * (a mod b) in
  let down := (r <? b) || ((r =? b) && Z.even lo) in
  map (fun d => strip 20 d q) (if down then [lo; lo + 1] else [lo + 1; lo]).

Definition readsAs (x : float64) (c : Z * Z) : bool :=
  (0 <? c.1) && bool_decide (of_decimal c.1 c.2 = x).

(** Seventeen digits are always enough; the exact expansion, at the end, makes the
    function total without that fact. *)
Definition exactDecimal (m : positive) (e : Z) : Z * Z :=
  if 0 <=? e then (Zpos m * 2 ^ e, 0) else (Zpos m * 5 ^ (- e), e).

Definition shortest (m : positive) (e : Z) : Z * Z :=
  let x := S754_finite false m e in
  match List.find (readsAs x) (flat_map (candidates m e) (seqZ 1 17)) with
  | Some c => c
  | None => exactDecimal m e
  end.

(** ** Layouts *)

(** The format ['f']. *)
Definition fixedText (d q : Z) : string :=
  let ds := Digits d in
  if 0 <=? q then ds +:+ Zeros (Z.to_nat q)
  else let p := Z.to_nat (- q) in
       let n := String.length ds in
       if (p <? n)%nat then let '(a, b) := cutAt (n - p) ds in a +:+ "." +:+ b
       else "0." +:+ Zeros (p - n) +:+ ds.

(** The format ['e'], with the exponent as [floatEncoder] leaves it. *)
Definition exponentText (d q : Z) : string :=
  match Digits d with
  | "" => ""
  | String c ds =>
      let e := q + Z.of_nat (String.length ds) in
      String c (if String.eqb ds "" then "" else String "." ds) +:+
        (if e <? 0 then "e-" +:+ Digits (- e) else "e+" +:+ Digits e)
  end.

(** [floatEncoder], for a number that is neither NaN nor infinite. *)
Definition positiveText (m : positive) (e : Z) : string :=
  let x := S754_finite false m e in
  let '(d, q) := shortest m e in
  if fltb x (of_decimal 1 (-6)) || negb (fltb x (of_decimal 1 21)) then exponentText d q else fixedText d q.

Definition FormatFloat (x : float64) : string :=
  match x with
  | S754_zero s => if s then "-0" else "0"
  | S754_finite s m e => if s then String "-" (positiveText m e) else positiveText m e
  | _ => ""
  end.

(** [strconv.ParseFloat(s, 64)], [s] a number literal of JSON. *)
Definition ParseFloat (s : string) : option float64 :=
  let '(neg, s') := match s with String c t => if Ascii.eqb c "-" then (true, t) else (false, s) | "" => (false, s) end in
  match decimal_token s' with
  | Some (d, e, "") =>
      let x := of_decimal d e in
      if is_finite x then Some (if (neg : bool) then SFopp x else x) else None
  | _ => None
  end.

Definition isFloat64 (x : float64) : bool := valid_binary prec64 emax64 x.

(** ** Examples, against what Go prints *)

Example print_third : FormatFloat (fdiv fone (of_int 3)) = "0.3333333333333333".
Proof. vm_compute. reflexivity. Qed.

(** The nearest decimal of 16 digits is not read back; its neighbour is. *)
Example print_power : FormatFloat (S754_finite false 4503599627370496 (-96)) = "5.684341886080802e-14".
Proof. vm_compute. reflexivity. Qed.

Example print_1e23 : FormatFloat (of_decimal 1 23) = "1e+23".
Proof. vm_compute. reflexivity. Qed.

Example print_small : map FormatFloat [of_decimal 123456789125 (-3); of_decimal 1 (-7); of_int 100; of_decimal 25 (-2);
    of_decimal 1 (-6); of_decimal 1 20; S754_finite true 1 (-1074); of_decimal 17976931348623157 292] =
  ["123456789.125"; "1e-7"; "100"; "0.25"; "0.000001"; "100000000000000000000"; "-5e-324"; "1.7976931348623157e+308"].
Proof. vm_compute. reflexivity. Qed.

(** ** Number literals *)

(** The scanner of [encoding/json]: the longest number at the start of a text. *)
Definition scanInteger (s : string) : option (string * string) :=
  match s with
  | String c r =>
      if Ascii.eqb c "0" then Some ("0", r)
      else if is_digit c then Some (take_while is_digit s) else None
  | "" => None
  end.

Definition scanFraction (s : string) : option (string * string) :=
  match s with
  | String c r =>
      if Ascii.eqb c "." then
        let '(ds, r') := take_while is_digit r in
        if String.eqb ds "" then None else Some (String "." ds, r')
      else Some ("", s)
  | "" => Some ("", s)
  end.

Definition scanExponent (s : string) : option (string * string) :=
  match s with
  | String c r =>
      if is_char "eE" c then
        let '(sign, r1) := match accept "+-" r with Some (x, r1) => (String x "", r1) | None => ("", r) end in
        let '(ds, r') := take_while is_digit r1 in
        if String.eqb ds "" then None else Some (String c (sign +:+ ds), r')
      else Some ("", s)
  | "" => Some ("", s)
  end.

Definition scanNumber (s : string) : option (string * string) :=
  let '(sign, s0) := match s with String c r => if Ascii.eqb c "-" then ("-", r) else ("", s) | "" => ("", s) end in
  match scanInteger s0 with
  | None => None
  | Some (ip, s1) =>
      match scanFraction s1 with
      | None => None
      | Some (fp, s2) =>
          match scanExponent s2 with
          | None => None
          | Some (ep, s3) => Some (sign +:+ ip +:+ fp +:+ ep, s3)
          end
      end
  end.

(** What may follow a number. *)
Definition stops (s : string) : bool :=
  match s with String c _ => negb (is_digit c || is_char ".eE" c) | "" => true end.

(** A literal by its parts. *)
Record literal : Type := mkLiteral { lInt : string; lFrac : string; lExp : option (bool * string) }.

Definition literalText (l : literal) : string :=
  lInt l +:+ (if String.eqb (lFrac l) "" then "" else String "." (lFrac l)) +:+
  match lExp l with None => "" | Some (neg, ds) => String "e" (String (if (neg : bool) then "-" else "+")%char ds) end.

Definition isInteger (s : string) : bool :=
  match s with
  | String c r => if Ascii.eqb c "0" then String.eqb r "" else all_chars is_digit s
  | "" => false
  end.

Definition wfLiteral (l : literal) : bool :=
  isInteger (lInt l) && all_chars is_digit (lFrac l) &&
  match lExp l with None => true | Some (_, ds) => negb (String.eqb ds "") && all_chars is_digit ds end.

(** ** Lemmas: literals *)

Lemma stops_digit s : stops s = true -> match s with "" => True | String c _ => is_digit c = false end.
Proof. destruct s as [|c s]; [done|]. cbn [stops]. by intros [? _]%negb_true_iff%orb_false_iff. Qed.

Lemma isInteger_digits s : isInteger s = true -> all_chars is_digit s = true /\ s <> "".
Proof.
  destruct s as [|c r]; [done|]. cbn [isInteger]. destruct (Ascii.eqb_spec c "0") as [->|_]; [|done].
  by intros ->%String.eqb_eq.
Qed.

Lemma scanInteger_app ip rest :
  isInteger ip = true -> match rest with "" => True | String c _ => is_digit c = false end ->
  scanInteger (ip +:+ rest) = Some (ip, rest).
Proof.
  intros Hip Hr. destruct (isInteger_digits ip Hip) as [Hd Hne]. destruct ip as [|c r]; [done|].
  rewrite string_app_cons. cbn [scanInteger]. cbn [isInteger] in Hip. destruct (Ascii.eqb_spec c "0") as [->|_].
  - apply String.eqb_eq in Hip as ->. by rewrite string_app_nil_l.
  - pose proof Hd as Hd'. cbn [all_chars] in Hd'. apply andb_true_iff in Hd' as [-> _].
    rewrite <- string_app_cons. by rewrite take_while_app.
Qed.

Lemma scanExponent_app ep rest :
  match ep with None => True | Some (_, ds) => ds <> "" /\ all_chars is_digit ds = true end -> stops rest = true ->
  let t := match ep with None => "" | Some (neg, ds) => String "e" (String (if (neg : bool) then "-" else "+")%char ds) end in
  scanExponent (t +:+ rest) = Some (t, rest).
Proof.
  intros He Hr. pose proof (stops_digit _ Hr) as Hd. destruct ep as [[neg ds]|]; cbv zeta.
  - destruct He as [Hne Hds]. rewrite !string_app_cons. cbn [scanExponent].
    change (is_char "eE" "e") with true. cbv iota.
    assert (accept "+-" (String (if neg then "-" else "+")%char (ds +:+ rest)) =
      Some ((if neg then "-" else "+")%char, ds +:+ rest)) as -> by by destruct neg.
    rewrite take_while_app by done. by destruct (String.eqb_spec ds "").
  - rewrite string_app_nil_l. destruct rest as [|c r]; [done|]. cbn [scanExponent stops] in *.
    apply negb_true_iff, orb_false_iff in Hr as [_ Hr].
    assert (is_char "eE" c = false) as ->; [|done].
    destruct (is_char "eE" c) eqn:E; [|done]. exfalso. revert E Hr. clear.
    destruct c as [[] [] [] [] [] [] [] []]; done.
Qed.

Lemma scanFraction_app fp rest :
  all_chars is_digit fp = true ->
  match rest with "" => True | String c _ => is_digit c = false /\ Ascii.eqb c "." = false end ->
  let t := if String.eqb fp "" then "" else String "." fp in
  scanFraction (t +:+ rest) = Some (t, rest).
Proof.
  intros Hfp Hr. cbv zeta. destruct (String.eqb_spec fp "") as [->|Hne].
  - rewrite string_app_nil_l. destruct rest as [|c r]; [done|]. cbn [scanFraction]. by destruct Hr as [_ ->].
  - rewrite string_app_cons. cbn [scanFraction]. rewrite Ascii.eqb_refl, take_while_app; [|done|by destruct rest; [|destruct Hr]].
    by destruct (String.eqb_spec fp "").
Qed.

(** The rest of a literal after its integer part, and after its fraction. *)
Definition literalExp (l : literal) : string :=
  match lExp l with None => "" | Some (neg, ds) => String "e" (String (if (neg : bool) then "-" else "+")%char ds) end.
Definition literalFrac (l : literal) : string := if String.eqb (lFrac l) "" then "" else String "." (lFrac l).

Lemma literalExp_head l rest :
  stops rest = true ->
  match literalExp l +:+ rest with "" => True | String c _ => is_digit c = false /\ Ascii.eqb c "." = false end.
Proof.
  intros Hr. unfold literalExp. destruct (lExp l) as [[neg ds]|].
  - rewrite string_app_cons. done.
  - rewrite string_app_nil_l. destruct rest as [|c r]; [done|]. cbn [stops] in Hr.
    apply negb_true_iff, orb_false_iff in Hr as [Hd Hr]. split; [done|]. revert Hr. clear.
    destruct c as [[] [] [] [] [] [] [] []]; done.
Qed.

Lemma literalFrac_head l rest :
  stops rest = true ->
  match literalFrac l +:+ literalExp l +:+ rest with "" => True | String c _ => is_digit c = false end.
Proof.
  intros Hr. unfold literalFrac. destruct (String.eqb (lFrac l) ""); [|by rewrite string_app_cons].
  rewrite string_app_nil_l. pose proof (literalExp_head l rest Hr). by destruct (literalExp l +:+ rest) as [|c r]; [|destruct H].
Qed.

Definition signText (neg : bool) : string := if neg then "-" else "".

Lemma digit_not_minus c : is_digit c = true -> Ascii.eqb c "-" = false.
Proof. by destruct (Ascii.eqb_spec c "-") as [->|]. Qed.

Lemma literal_not_minus l c r rest : wfLiteral l = true -> literalText l +:+ rest = String c r -> Ascii.eqb c "-" = false.
Proof.
  intros [[Hi _]%andb_true_iff _]%andb_true_iff. destruct (isInteger_digits _ Hi) as [Hd Hne].
  unfold literalText. destruct (lInt l) as [|c' ip]; [done|]. rewrite !string_app_cons. intros [= -> _].
  cbn [all_chars] in Hd. apply andb_true_iff in Hd as [Hd _]. by apply digit_not_minus.
Qed.

(** A literal is scanned whole, whatever follows it that no number contains. *)
Lemma scanNumber_literal neg l rest :
  wfLiteral l = true -> stops rest = true ->
  scanNumber (signText neg +:+ literalText l +:+ rest) = Some (signText neg +:+ literalText l, rest).
Proof.
  intros Hw Hr. pose proof Hw as Hw'. unfold wfLiteral in Hw'. apply andb_true_iff in Hw' as [[Hi Hf]%andb_true_iff He].
  assert (forall sign, match scanInteger (literalText l +:+ rest) with
    | None => None
    | Some (ip, s1) => match scanFraction s1 with None => None | Some (fp, s2) =>
        match scanExponent s2 with None => None | Some (ep, s3) => Some (sign +:+ ip +:+ fp +:+ ep, s3) end end end
    = Some (sign +:+ literalText l, rest)) as H.
  { intros sign. unfold literalText. rewrite !string_app_assoc.
    fold (literalFrac l) (literalExp l). rewrite scanInteger_app; [|done|by apply literalFrac_head].
    pose proof (scanFraction_app (lFrac l) (literalExp l +:+ rest) Hf (literalExp_head l rest Hr)) as HF.
    cbv zeta in HF. fold (literalFrac l) in HF. rewrite HF.
    pose proof (scanExponent_app (lExp l) rest) as HE. cbv zeta in HE. fold (literalExp l) in HE. rewrite HE; [done| |done].
    destruct (lExp l) as [[n ds]|]; [|done]. apply andb_true_iff in He as [He%negb_true_iff ?].
    split; [by apply String.eqb_neq|done]. }
  unfold scanNumber. destruct neg; cbn [signText].
  - rewrite string_app_cons, string_app_nil_l. change (Ascii.eqb "-" "-") with true. cbv iota. rewrite H. done.
  - rewrite !string_app_nil_l. destruct (literalText l +:+ rest) as [|c r] eqn:E.
    + exfalso. unfold literalText in E. destruct (isInteger_digits _ Hi) as [_ Hne]. by destruct (lInt l).
    + rewrite (literal_not_minus l c r rest Hw E). rewrite H. by rewrite string_app_nil_l.
Qed.

(** The value of a literal: its digits, with the power of ten it scales them by. *)
Lemma decimal_token_literal l d k :
  wfLiteral l = true -> parse_digits 0 (lInt l +:+ lFrac l) = Some d ->
  match lExp l with None => k = 0 | Some (neg, ds) => exists n, parse_digits 0 ds = Some n /\ k = if neg then - n else n end ->
  decimal_token (literalText l) = Some (d, k - Z.of_nat (String.length (lFrac l)), "").
Proof.
  intros [[Hi Hf]%andb_true_iff He]%andb_true_iff Hd Hk. destruct (isInteger_digits _ Hi) as [Hid Hne].
  unfold decimal_token, literalText. fold (literalFrac l) (literalExp l).
  pose proof (literalFrac_head l "" eq_refl) as Hh. rewrite string_app_nil_r in Hh.
  rewrite take_while_app by done.
  assert (match accept "." (literalFrac l +:+ literalExp l) with
          | Some (_, r) => take_while is_digit r | None => ("", literalFrac l +:+ literalExp l) end
          = (lFrac l, literalExp l)) as ->.
  { unfold literalFrac. pose proof (literalExp_head l "" eq_refl) as Hx. rewrite string_app_nil_r in Hx.
    destruct (String.eqb_spec (lFrac l) "") as [->|Hfne].
    - rewrite string_app_nil_l. destruct (literalExp l) as [|c r]; [done|]. cbn [accept].
      assert (is_char "." c = false) as ->; [|done]. destruct Hx as [_ Hx]. revert Hx. clear.
      by destruct c as [[] [] [] [] [] [] [] []].
    - rewrite string_app_cons. cbn [accept]. change (is_char "." ".") with true. cbv iota.
      apply take_while_app; [done|]. by destruct (literalExp l); [|destruct Hx]. }
  destruct (String.eqb_spec (lInt l +:+ lFrac l) "") as [E|_]; [by destruct (lInt l)|]. rewrite Hd.
  unfold literalExp. destruct (lExp l) as [[neg ds]|].
  - destruct Hk as (n & Hn & ->). apply andb_true_iff in He as [Hdne%negb_true_iff Hds].
    cbn [accept]. change (is_char "eE" "e") with true. cbv iota.
    assert (accept "+-" (String (if neg then "-" else "+")%char ds) = Some ((if neg then "-" else "+")%char, ds)) as -> by by destruct neg.
    assert (take_while is_digit ds = (ds, "")) as -> by (rewrite <- (string_app_nil_r ds) at 1; by apply take_while_app).
    rewrite Hdne, Hn. by destruct neg.
  - subst k. done.
Qed.

(** ** Lemmas: the texts *)

(** A positive number starts with a digit other than 0. *)
Lemma format_go_first fuel n :
  0 < n < 10 ^ Z.of_nat fuel -> exists c r, format_go fuel n = String c r /\ Ascii.eqb c "0" = false.
Proof.
  revert n. induction fuel as [|f IH]; intros n Hn; [cbn in Hn; lia|]. cbn [format_go]. destruct (Z.ltb_spec n 10).
  - exists (digit_char n), "". split; [done|].
    assert (n = 1 \/ n = 2 \/ n = 3 \/ n = 4 \/ n = 5 \/ n = 6 \/ n = 7 \/ n = 8 \/ n = 9) as Hc by lia.
    by repeat (destruct Hc as [->|Hc]; [done|]); subst.
  - rewrite Nat2Z.inj_succ, Z.pow_succ_r in Hn by lia.
    destruct (IH (n / 10)) as (c & r & E & Hc); [split; [apply Z.div_str_pos; lia|apply Z.div_lt_upper_bound; lia]|].
    rewrite E. exists c, (r +:+ String (digit_char (n mod 10)) ""). by rewrite string_app_cons.
Qed.

Lemma format_go_isInteger fuel n : 0 <= n < 10 ^ Z.of_nat fuel -> (0 < fuel)%nat -> isInteger (format_go fuel n) = true.
Proof.
  intros Hn Hf. destruct (decide (n = 0)) as [->|Hne]; [by destruct fuel; [lia|]|].
  destruct (format_go_first fuel n) as (c & r & E & Hc); [lia|]. pose proof (format_go_digits fuel n (proj1 Hn)) as Hd.
  rewrite E in *. cbn [isInteger]. by rewrite Hc.
Qed.

Lemma Digits_bound n : 0 <= n -> 0 <= n < 10 ^ Z.of_nat (S (Z.to_nat (Z.log2 n))).
Proof.
  intros Hn. split; [done|]. pose proof (Z.log2_nonneg n). rewrite Nat2Z.inj_succ, Z2Nat.id by done.
  destruct (decide (n = 0)) as [->|Hne]; [done|].
  pose proof (Z.log2_spec n ltac:(lia)) as [_ H2]. eapply Z.lt_le_trans; [exact H2|].
  apply Z.pow_le_mono_l. lia.
Qed.

Lemma Digits_isInteger n : 0 <= n -> isInteger (Digits n) = true.
Proof. intros Hn. apply format_go_isInteger; [by apply Digits_bound|lia]. Qed.

Lemma Digits_digits n : 0 <= n -> all_chars is_digit (Digits n) = true.
Proof. apply format_go_digits. Qed.

Lemma Digits_parse n : 0 <= n -> parse_digits 0 (Digits n) = Some n.
Proof. intros Hn. by apply format_go_parse, Digits_bound. Qed.

Lemma Zeros_digits k : all_chars is_digit (Zeros k) = true.
Proof. by induction k. Qed.

Lemma Zeros_parse acc k : parse_digits acc (Zeros k) = Some (acc * 10 ^ Z.of_nat k).
Proof.
  revert acc. induction k as [|k IH]; intros acc; [cbn; f_equal; lia|].
  cbn [Zeros parse_digits]. change (is_digit "0") with true. cbv iota. rewrite IH.
  change (digit_val "0") with 0. rewrite Nat2Z.inj_succ, Z.pow_succ_r by lia. f_equal. lia.
Qed.

Lemma Zeros_length k : String.length (Zeros k) = k.
Proof. induction k; [done|]. cbn. by f_equal. Qed.

Lemma cutAt_spec k s : (k <= String.length s)%nat ->
  (cutAt k s).1 +:+ (cutAt k s).2 = s /\ String.length (cutAt k s).1 = k /\ String.length (cutAt k s).2 = (String.length s - k)%nat.
Proof.
  revert s. induction k as [|k IH]; intros s Hk; [split; [by rewrite string_app_nil_l|]; cbn; split; [done|lia]|].
  destruct s as [|c s]; [cbn in Hk; lia|]. cbn [cutAt String.length] in *. destruct (IH s) as (H1 & H2 & H3); [lia|].
  destruct (cutAt k s) as [a b]. cbn [fst snd String.length] in *. rewrite string_app_cons, H1. auto.
Qed.

Lemma Digits_first n : 0 < n -> exists c r, Digits n = String c r /\ Ascii.eqb c "0" = false.
Proof. intros Hn. apply format_go_first. split; [done|]. apply Digits_bound. lia. Qed.

(** The parts of the texts. *)
Definition fixedLiteral (d q : Z) : literal :=
  let ds := Digits d in
  if 0 <=? q then mkLiteral (ds +:+ Zeros (Z.to_nat q)) "" None
  else let p := Z.to_nat (- q) in
       let n := String.length ds in
       if (p <? n)%nat then let '(a, b) := cutAt (n - p) ds in mkLiteral a b None
       else mkLiteral "0" (Zeros (p - n) +:+ ds) None.

Definition exponentLiteral (d q : Z) : literal :=
  match Digits d with
  | "" => mkLiteral "" "" None
  | String c ds =>
      let e := q + Z.of_nat (String.length ds) in
      mkLiteral (String c "") ds (Some (if e <? 0 then (true, Digits (- e)) else (false, Digits e)))
  end.

Lemma literalText_frac a b : b <> "" -> literalText (mkLiteral a b None) = a +:+ "." +:+ b.
Proof. intros Hb. unfold literalText. cbn. destruct (String.eqb_spec b ""); [done|]. by rewrite string_app_nil_r. Qed.

Lemma fixedText_literal d q : 0 < d -> fixedText d q = literalText (fixedLiteral d q).
Proof.
  intros Hd. unfold fixedText, fixedLiteral. destruct (Digits_first d Hd) as (c & r & E & _).
  destruct (0 <=? q) eqn:Hq; [unfold literalText; cbn; by rewrite !string_app_nil_r|].
  destruct (_ <? _)%nat eqn:Hp.
  - apply Nat.ltb_lt in Hp. apply Z.leb_gt in Hq. pose proof (cutAt_spec (String.length (Digits d) - Z.to_nat (- q)) (Digits d) ltac:(lia)) as (_ & _ & Hl).
    destruct (cutAt _ _) as [a b]. cbn [snd] in Hl. rewrite literalText_frac; [done|].
    assert (String.length b <> 0%nat) by lia. by intros ->.
  - rewrite literalText_frac; [done|]. rewrite E. by destruct (Zeros _).
Qed.

Lemma exponentText_literal d q : 0 < d -> exponentText d q = literalText (exponentLiteral d q).
Proof.
  intros Hd. unfold exponentText, exponentLiteral. destruct (Digits d) as [|c ds]; [done|].
  unfold literalText. cbn [lInt lFrac lExp]. rewrite !string_app_cons, !string_app_nil_l.
  by destruct (q + Z.of_nat (String.length ds) <? 0).
Qed.

Lemma of_decimal_scale d k : 0 < d -> 0 <= k -> of_decimal (d * 10 ^ k) 0 = of_decimal d k.
Proof.
  intros Hd Hk. assert (0 < 10 ^ k) by (by apply Z.pow_pos_nonneg). unfold of_decimal.
  rewrite (proj2 (Z.eqb_neq _ _)), (proj2 (Z.eqb_neq d _)), (proj2 (Z.leb_le 0 k)) by nia.
  change (10 ^ 0) with 1. change (0 <=? 0) with true. by rewrite Z.mul_1_r.
Qed.

(** Both texts are literals that are read as the decimal they stand for. *)
Lemma fixedLiteral_reads d q : 0 < d ->
  wfLiteral (fixedLiteral d q) = true /\
  exists d' e', decimal_token (literalText (fixedLiteral d q)) = Some (d', e', "") /\ of_decimal d' e' = of_decimal d q.
Proof.
  intros Hd. destruct (Digits_first d Hd) as (c & r & E & Hc).
  pose proof (Digits_parse d ltac:(lia)) as Hparse. pose proof (Digits_digits d ltac:(lia)) as Hdigits.
  assert (forall t, all_chars is_digit t = true -> isInteger (String c r +:+ t) = true) as Happ.
  { intros t Ht. rewrite string_app_cons. cbn [isInteger]. rewrite Hc, <- string_app_cons, all_chars_app, <- E, Hdigits. done. }
  unfold fixedLiteral. destruct (Z.leb_spec 0 q) as [Hq|Hq].
  - assert (wfLiteral (mkLiteral (Digits d +:+ Zeros (Z.to_nat q)) "" None) = true) as Hw.
    { unfold wfLiteral. cbn [lInt lFrac lExp]. rewrite E, Happ by apply Zeros_digits. done. }
    split; [done|]. eexists _, _. split.
    + apply (decimal_token_literal _ (d * 10 ^ q) 0); [done| |done]. cbn [lInt lFrac].
      rewrite string_app_nil_r, parse_digits_app, Hparse, Zeros_parse, Z2Nat.id by done. done.
    + cbn [lFrac String.length]. by apply of_decimal_scale.
  - destruct (Nat.ltb_spec (Z.to_nat (- q)) (String.length (Digits d))) as [Hp|Hp].
    + pose proof (cutAt_spec (String.length (Digits d) - Z.to_nat (- q)) (Digits d) ltac:(lia)) as (Hab & Hla & Hlb).
      destruct (cutAt _ _) as [a b]. cbn [fst snd] in *.
      rewrite <- Hab, all_chars_app in Hdigits. apply andb_true_iff in Hdigits as [Hda Hdb].
      assert (wfLiteral (mkLiteral a b None) = true) as Hw.
      { unfold wfLiteral. cbn [lInt lFrac lExp]. rewrite Hdb. assert (String.length a <> 0%nat) by lia. destruct a as [|c' a]; [done|].
        rewrite E, string_app_cons in Hab. injection Hab as -> _. cbn [isInteger]. by rewrite Hc, Hda. }
      split; [done|]. eexists _, _. split.
      * apply (decimal_token_literal _ d 0); [done| |done]. cbn [lInt lFrac]. by rewrite Hab.
      * cbn [lFrac]. f_equal. lia.
    + assert (wfLiteral (mkLiteral "0" (Zeros (Z.to_nat (- q) - String.length (Digits d)) +:+ Digits d) None) = true) as Hw.
      { unfold wfLiteral. cbn [lInt lFrac lExp]. by rewrite all_chars_app, Zeros_digits, Hdigits. }
      split; [done|]. eexists _, _. split.
      * apply (decimal_token_literal _ d 0); [done| |done]. cbn [lInt lFrac].
        rewrite string_app_cons, string_app_nil_l. cbn [parse_digits]. change (is_digit "0") with true. cbv iota.
        rewrite parse_digits_app, Zeros_parse. exact Hparse.
      * cbn [lFrac]. f_equal. rewrite string_app_length, Zeros_length. lia.
Qed.

Lemma exponentLiteral_reads d q : 0 < d ->
  wfLiteral (exponentLiteral d q) = true /\
  exists d' e', decimal_token (literalText (exponentLiteral d q)) = Some (d', e', "") /\ of_decimal d' e' = of_decimal d q.
Proof.
  intros Hd. destruct (Digits_first d Hd) as (c & r & E & Hc).
  pose proof (Digits_parse d ltac:(lia)) as Hparse. pose proof (Digits_digits d ltac:(lia)) as Hdigits.
  unfold exponentLiteral. rewrite E in *. cbn [all_chars] in Hdigits. apply andb_true_iff in Hdigits as [Hdc Hdr].
  set (e := q + Z.of_nat (String.length r)).
  set (ex := if e <? 0 then (true, Digits (- e)) else (false, Digits e)).
  assert (negb (String.eqb ex.2 "") && all_chars is_digit ex.2 = true /\
    exists n, parse_digits 0 ex.2 = Some n /\ e = if ex.1 then - n else n) as [Hex Hn].
  { assert (forall n, 0 <= n -> negb (String.eqb (Digits n) "") && all_chars is_digit (Digits n) = true) as Hdg.
    { intros n Hn. rewrite Digits_digits by done. destruct (isInteger_digits _ (Digits_isInteger n Hn)) as [_ Hne].
      by destruct (String.eqb_spec (Digits n) ""). }
    subst ex. destruct (Z.ltb_spec e 0); cbn [fst snd]; (split; [apply Hdg; lia|]).
    - exists (- e). split; [apply Digits_parse; lia|lia].
    - exists e. split; [apply Digits_parse; lia|lia]. }
  assert (wfLiteral (mkLiteral (String c "") r (Some ex)) = true) as Hw.
  { unfold wfLiteral. cbn [lInt lFrac lExp isInteger all_chars]. rewrite Hc, Hdc, Hdr. destruct ex as [b t]. exact Hex. }
  split; [done|]. eexists _, _. split.
  - apply (decimal_token_literal _ d e); [done| |]; cbn [lInt lFrac lExp].
    + rewrite string_app_cons, string_app_nil_l. exact Hparse.
    + by destruct ex.
  - cbn [lFrac]. f_equal. subst e. lia.
Qed.

(** ** Lemmas: the exact expansion *)

Lemma Zdigits2_mul_pow2 m k : 0 < m -> 0 <= k -> Zdigits2 (m * 2 ^ k) = Zdigits2 m + k.
Proof.
  intros Hm Hk. assert (0 < 2 ^ k) by (by apply Z.pow_pos_nonneg).
  pose proof (Zdigits2_bounds m Hm) as [L1 U1]. pose proof (Zdigits2_bounds (m * 2 ^ k) ltac:(nia)) as [L2 U2].
  pose proof (Zdigits2_nonneg m). pose proof (Zdigits2_nonneg (m * 2 ^ k)).
  assert (Zdigits2 m <> 0) by (intros E; rewrite E in U1; cbn in U1; lia).
  apply Z.le_antisymm.
  - enough (Zdigits2 (m * 2 ^ k) - 1 < Zdigits2 m + k) by lia. apply (Z.pow_lt_mono_r_iff 2); [lia|lia|].
    rewrite Z.pow_add_r by lia. nia.
  - enough (Zdigits2 m - 1 + k < Zdigits2 (m * 2 ^ k)) by lia. apply (Z.pow_lt_mono_r_iff 2); [lia|lia|].
    rewrite Z.pow_add_r by lia. nia.
Qed.

Definition canonical (m : positive) (e : Z) : Prop :=
  fexp prec64 emax64 (Zdigits2 (Zpos m) + e) = e /\ e <= emax64 - prec64.

Lemma canonical_valid s m e : isFloat64 (S754_finite s m e) = true <-> canonical m e.
Proof.
  unfold isFloat64, canonical. cbn [valid_binary]. unfold bounded, canonical_mantissa.
  rewrite andb_true_iff, Z.eqb_eq, Z.leb_le. done.
Qed.

(** A normalisation without loss. *)
Lemma shr_fexp_canonical m e k :
  canonical m e -> 0 <= k ->
  exists x, shr_fexp prec64 emax64 (Zpos m * 2 ^ k) (e - k) loc_Exact = (x, e) /\
    shr_m x = Zpos m /\ loc_of_shr_record x = loc_Exact.
Proof.
  intros [Hc _] Hk. unfold shr_fexp. rewrite Zdigits2_mul_pow2 by done.
  replace (Zdigits2 (Zpos m) + k + (e - k)) with (Zdigits2 (Zpos m) + e) by lia. rewrite Hc.
  assert (0 < 2 ^ k) by (by apply Z.pow_pos_nonneg).
  destruct (shr _ _ _) as [x e'] eqn:Hs. apply shr_shifted in Hs as [-> [H1 H2]]; [|rewrite shr_record_of_loc_m; nia].
  rewrite shr_record_of_loc_m in H1, H2. replace (Z.max 0 (e - (e - k))) with k in * by lia.
  rewrite Z.div_mul in H1 by lia. exists x. split; [f_equal; lia|]. split; [done|].
  destruct (loc_of_shr_record x) eqn:El; [done|exfalso].
  destruct (H2 (loc_of_shr_record_exact x ltac:(by rewrite El))) as [Hi|Hi]; [done|]. rewrite H1 in Hi. lia.
Qed.

Lemma round_canonical m e k :
  canonical m e -> 0 <= k ->
  binary_round_aux prec64 emax64 false (Zpos m * 2 ^ k) (e - k) loc_Exact = S754_finite false m e.
Proof.
  intros Hc Hk. unfold binary_round_aux. destruct (shr_fexp_canonical m e k Hc Hk) as (x & -> & -> & ->).
  cbn [round_nearest_even]. destruct (shr_fexp_canonical m e 0 Hc) as (y & E & Hy & _); [done|].
  change (2 ^ 0) with 1 in E. rewrite Z.mul_1_r, Z.sub_0_r in E. rewrite E, Hy.
  by rewrite (proj2 (Z.leb_le _ _)) by apply Hc.
Qed.

Lemma of_decimal_exact m e :
  canonical m e -> of_decimal (exactDecimal m e).1 (exactDecimal m e).2 = S754_finite false m e.
Proof.
  intros Hc. unfold exactDecimal. destruct (Z.leb_spec 0 e) as [He|He]; cbn [fst snd]; unfold of_decimal.
  - assert (0 < 2 ^ e) by (by apply Z.pow_pos_nonneg).
    rewrite (proj2 (Z.eqb_neq _ _)) by nia. change (0 <=? 0) with true. cbv iota. change (10 ^ 0) with 1.
    rewrite Z.mul_1_r. unfold of_int. destruct (Zpos m * 2 ^ e) as [|p|p] eqn:Ep; [nia| |nia].
    cbn [binary_normalize]. unfold binary_round. change (Zpos (digits2_pos p)) with (Zdigits2 (Zpos p)).
    rewrite <- Ep, Zdigits2_mul_pow2, Z.add_0_r by done. destruct Hc as [Hc Hm]. rewrite Hc, shl_align_ge by done.
    rewrite <- Ep. replace 0 with (e - e) by lia. by apply round_canonical.
  - assert (0 < 5 ^ (- e)) by (by apply Z.pow_pos_nonneg; [|lia]).
    rewrite (proj2 (Z.eqb_neq _ _)), (proj2 (Z.leb_gt 0 e)) by (done || nia).
    assert (0 < 10 ^ (- e)) as H10 by (by apply Z.pow_pos_nonneg; [|lia]).
    assert (10 ^ (- e) = 2 ^ (- e) * 5 ^ (- e)) as E10 by (change 10 with (2 * 5); by rewrite Z.pow_mul_l).
    destruct (Zpos m * 5 ^ (- e)) as [|p1|p1] eqn:E1; [nia| |nia].
    destruct (10 ^ (- e)) as [|p2|p2] eqn:E2; [lia| |lia].
    rewrite SFdiv_core_binary_eq. set (d := divExponent _ _ _ _).
    assert (d <= e) as Hd.
    { subst d. unfold divExponent. rewrite !Z.add_0_r.
      enough (fexp prec64 emax64 (Zdigits2 (Zpos p1) - Zdigits2 (Zpos p2)) <= e) by lia.
      destruct Hc as [<- _]. unfold fexp, emin, prec64, emax64.
      enough (Zdigits2 (Zpos p1) - Zdigits2 (Zpos p2) <= Zdigits2 (Zpos m) + e) by lia.
      pose proof (Zdigits2_bounds (Zpos p1) ltac:(done)) as [L1 _]. pose proof (Zdigits2_bounds (Zpos p2) ltac:(done)) as [_ U2].
      pose proof (Zdigits2_bounds (Zpos m) ltac:(done)) as [_ Um]. pose proof (Zdigits2_nonneg (Zpos p2)).
      pose proof (Zdigits2_nonneg (Zpos m)).
      enough (Zdigits2 (Zpos p1) - 1 - e < Zdigits2 (Zpos p2) + Zdigits2 (Zpos m)) by lia.
      assert (0 < Zdigits2 (Zpos p1)) by done.
      apply (Z.pow_lt_mono_r_iff 2); [lia|lia|].
      rewrite Z.pow_add_r by lia. unfold Z.sub at 1. rewrite Z.pow_add_r by lia.
      assert (0 < 2 ^ (- e)) by (apply Z.pow_pos_nonneg; lia).
      apply (Z.le_lt_trans _ (Zpos p1 * 2 ^ (- e))); [apply Z.mul_le_mono_nonneg_r; lia|].
      rewrite <- E1. replace (Zpos m * 5 ^ (- e) * 2 ^ (- e)) with (Zpos p2 * Zpos m) by (rewrite E10; lia).
      apply Z.mul_lt_mono_nonneg; lia. }
    assert (Zpos p1 * 2 ^ (0 - 0 - d) = (Zpos m * 2 ^ (e - d)) * Zpos p2) as Hq.
    { rewrite <- E1, E10. replace (0 - 0 - d) with ((e - d) + (- e)) by lia. rewrite Z.pow_add_r by lia. lia. }
    rewrite Hq, Z.div_mul, Z.mod_mul by done.
    assert (new_location (Zpos p2) 0 = loc_Exact) as ->.
    { unfold new_location, new_location_even, new_location_odd. by destruct (Z.even _). }
    replace d with (e - (e - d)) at 2 by lia. apply round_canonical; [done|lia].
Qed.

(** ** Lemmas: numbers and their literals *)

Lemma shortest_reads m e :
  canonical m e -> 0 < (shortest m e).1 /\ of_decimal (shortest m e).1 (shortest m e).2 = S754_finite false m e.
Proof.
  intros Hc. unfold shortest. destruct (List.find _ _) as [c|] eqn:E.
  - apply List.find_some in E as [_ E]. unfold readsAs in E. apply andb_true_iff in E as [H1 H2].
    apply Z.ltb_lt in H1. by apply bool_decide_eq_true in H2.
  - split; [|by apply of_decimal_exact]. unfold exactDecimal. destruct (Z.leb_spec 0 e); cbn [fst].
    + assert (0 < 2 ^ e) by (by apply Z.pow_pos_nonneg). nia.
    + assert (0 < 5 ^ (- e)) by (apply Z.pow_pos_nonneg; lia). nia.
Qed.

(** The literal of a positive number, and what it is read as. *)
Lemma positiveText_literal m e :
  canonical m e ->
  exists l d' e', positiveText m e = literalText l /\ wfLiteral l = true /\
    decimal_token (literalText l) = Some (d', e', "") /\ of_decimal d' e' = S754_finite false m e.
Proof.
  intros Hc. destruct (shortest_reads m e Hc) as [Hd Hr]. unfold positiveText.
  destruct (shortest m e) as [d q]. cbn [fst snd] in *. destruct (_ || _).
  - rewrite exponentText_literal by done. destruct (exponentLiteral_reads d q Hd) as (Hw & d' & e' & Ht & Ho).
    exists (exponentLiteral d q), d', e'. by rewrite Ho.
  - rewrite fixedText_literal by done. destruct (fixedLiteral_reads d q Hd) as (Hw & d' & e' & Ht & Ho).
    exists (fixedLiteral d q), d', e'. by rewrite Ho.
Qed.

(** The text of a number is one literal of the grammar. *)
Definition isLiteral (s : string) : Prop := exists neg l, s = signText neg +:+ literalText l /\ wfLiteral l = true.

Lemma scanNumber_isLiteral s rest : isLiteral s -> stops rest = true -> scanNumber (s +:+ rest) = Some (s, rest).
Proof. intros (neg & l & -> & Hw) Hr. rewrite string_app_assoc. by apply scanNumber_literal. Qed.

Lemma FormatFloat_isLiteral x : isFloat64 x = true -> is_finite x = true -> isLiteral (FormatFloat x).
Proof.
  destruct x as [s| | |s m e]; [|done..|].
  - intros _ _. exists s, (mkLiteral "0" "" None). by destruct s.
  - intros Hc%canonical_valid _. destruct (positiveText_literal m e Hc) as (l & _ & _ & E & Hw & _).
    exists s, l. cbn [FormatFloat]. rewrite E. by destruct s.
Qed.

Lemma ParseFloat_literal neg l d e :
  wfLiteral l = true -> decimal_token (literalText l) = Some (d, e, "") -> is_finite (of_decimal d e) = true ->
  ParseFloat (signText neg +:+ literalText l) = Some (if neg then SFopp (of_decimal d e) else of_decimal d e).
Proof.
  intros Hw Ht Hf. unfold ParseFloat. destruct neg; cbn [signText].
  - rewrite string_app_cons, string_app_nil_l. change (Ascii.eqb "-" "-") with true. cbv iota. by rewrite Ht, Hf.
  - rewrite string_app_nil_l. destruct (literalText l) as [|c r] eqn:E; [by rewrite Ht, Hf|].
    rewrite (literal_not_minus l c r "" Hw) by by rewrite string_app_nil_r. by rewrite Ht, Hf.
Qed.

(** Every number is read back from its text. *)
Lemma ParseFloat_FormatFloat x : isFloat64 x = true -> is_finite x = true -> ParseFloat (FormatFloat x) = Some x.
Proof.
  destruct x as [s| | |s m e]; [|done..|].
  - by destruct s.
  - intros Hc%canonical_valid _. destruct (positiveText_literal m e Hc) as (l & d' & e' & E & Hw & Ht & Ho).
    assert (FormatFloat (S754_finite s m e) = signText s +:+ literalText l) as ->
      by (cbn [FormatFloat]; rewrite E; by destruct s).
    rewrite (ParseFloat_literal s l d' e') by (done || by rewrite Ho). rewrite Ho. by destruct s.
Qed.

(** Integers. *)
Lemma Itoa_literal n : - 10 ^ 20 < n < 10 ^ 20 -> isLiteral (Itoa n).
Proof.
  intros Hn. exists (n <? 0), (mkLiteral (format_go 20 (Z.abs n)) "" None). split.
  - unfold Itoa, literalText. cbn [lInt lFrac lExp]. rewrite !string_app_nil_r.
    destruct (Z.ltb_spec n 0); cbn [signText]; [by rewrite string_app_cons, string_app_nil_l, Z.abs_neq by lia|].
    by rewrite string_app_nil_l, Z.abs_eq by lia.
  - unfold wfLiteral. cbn [lInt lFrac lExp]. rewrite format_go_isInteger; [done| |lia].
    change (Z.of_nat 20) with 20. lia.
Qed.

Lemma ParseUint_Itoa n : is_u64 n -> ParseUint (Itoa n) = Ok n.
Proof.
  intros Hn. unfold Itoa. destruct (Z.ltb_spec n 0) as [H|_]; [destruct Hn; lia|]. by apply ParseUint_FormatUint.
Qed.

Lemma Atoi_Itoa n : is_i64 n -> Atoi (Itoa n) = Ok n.
Proof.
  intros Hn. pose proof Hn as [H1 H2]. change (2 ^ 63) with 9223372036854775808 in H1, H2.
  assert (forall m, 0 <= m < 10 ^ 20 -> parse_digits 0 (format_go 20 m) = Some m /\ String.eqb (format_go 20 m) "" = false) as Hp.
  { intros m Hm. split; [by apply format_go_parse|]. apply String.eqb_neq, format_go_nonempty. lia. }
  unfold Itoa, Atoi. destruct (Z.ltb_spec n 0) as [Hneg|Hpos].
  - change (Ascii.eqb "-" "-") with true. cbv iota. destruct (Hp (- n)) as [-> ->]; [lia|].
    rewrite Z.opp_involutive. by rewrite bool_decide_true.
  - destruct (Hp n) as [Hparse Hne]; [lia|]. pose proof (format_go_digits 20 n Hpos) as Hd.
    assert (match format_go 20 n with
            | String c s' => if Ascii.eqb c "-" then (true, s') else if Ascii.eqb c "+" then (false, s') else (false, format_go 20 n)
            | "" => (false, format_go 20 n) end = (false, format_go 20 n)) as ->.
    { destruct (format_go 20 n) as [|c r]; [done|]. cbn [all_chars] in Hd. apply andb_true_iff in Hd as [Hd _].
      by destruct (Ascii.eqb_spec c "-") as [->|_]; [|destruct (Ascii.eqb_spec c "+") as [->|_]]. }
    rewrite Hne, Hparse. by rewrite bool_decide_true.
Qed.
