(* ===== verification/Rounding.v ===== *)
(** * Rounding: every float is a float64, and how far it is from the exact number

    [SpecFloat] computes on mantissas and exponents of any size.  Here: that what the
    arithmetic of [GoFloat] returns always has the 53 bits and the exponents of a
    float64; and the error of one rounding, half a unit in the last place, as a
    rational bound that holds for all magnitudes. *)
From S2P Require Import Prelude GoFloat FloatBounds NumberText.
From Stdlib Require Import QArith Qabs Qpower Lqa.
#[local] Open Scope Z_scope.

(** ** Digits *)

Lemma Zdigits2_div m n : 0 < m -> 0 <= n < Zdigits2 m -> Zdigits2 (m / 2 ^ n) = Zdigits2 m - n.
Proof.
  intros Hm Hn. pose proof (Zdigits2_bounds m Hm) as [L U].
  assert (0 < 2 ^ n) by (apply Z.pow_pos_nonneg; lia).
  assert (2 ^ (Zdigits2 m - 1) = 2 ^ (Zdigits2 m - n - 1) * 2 ^ n) as E1 by (rewrite <- Z.pow_add_r by lia; f_equal; lia).
  assert (2 ^ Zdigits2 m = 2 ^ (Zdigits2 m - n) * 2 ^ n) as E2 by (rewrite <- Z.pow_add_r by lia; f_equal; lia).
  rewrite E1 in L. rewrite E2 in U.
  assert (2 ^ (Zdigits2 m - n - 1) <= m / 2 ^ n) as L' by (apply Z.div_le_lower_bound; lia).
  assert (m / 2 ^ n < 2 ^ (Zdigits2 m - n)) as U' by (apply Z.div_lt_upper_bound; lia).
  assert (0 < m / 2 ^ n) as Hq by (assert (0 < 2 ^ (Zdigits2 m - n - 1)) by (apply Z.pow_pos_nonneg; lia); lia).
  pose proof (Zdigits2_bounds _ Hq) as [L2 U2]. pose proof (Zdigits2_nonneg (m / 2 ^ n)).
  apply Z.le_antisymm.
  - enough (Zdigits2 (m / 2 ^ n) - 1 < Zdigits2 m - n) by lia. apply (Z.pow_lt_mono_r_iff 2); lia.
  - enough (Zdigits2 m - n - 1 < Zdigits2 (m / 2 ^ n)) by lia. apply (Z.pow_lt_mono_r_iff 2); lia.
Qed.

Lemma Zdigits2_ge m k : 0 <= k -> 2 ^ k <= m -> k < Zdigits2 m.
Proof.
  intros Hk Hm. assert (0 < 2 ^ k) by (by apply Z.pow_pos_nonneg).
  pose proof (Zdigits2_bounds m ltac:(lia)) as [_ U]. pose proof (Zdigits2_nonneg m).
  apply (Z.pow_lt_mono_r_iff 2); lia.
Qed.

Lemma fexp_spec d : fexp prec64 emax64 d = Z.max (d - 53) (-1074).
Proof. reflexivity. Qed.

(** ** One rounding *)

Lemma round_nearest_even_range m l : m <= round_nearest_even m l <= m + 1.
Proof. destruct l as [|[]]; cbn; [lia| |lia|lia]. destruct (Z.even m); lia. Qed.

(** The first normalisation of [binary_round_aux], the mantissa it rounds to, and the
    second normalisation, which loses nothing. *)
Lemma normalised m e l x e' :
  0 <= m -> e <= fexp prec64 emax64 (Zdigits2 m + e) -> shr_fexp prec64 emax64 m e l = (x, e') ->
  e' = fexp prec64 emax64 (Zdigits2 m + e) /\ shr_m x = m / 2 ^ (e' - e) /\ e <= e' /\
  (shr_m x < 2 ^ 53) /\ (-1074 < e' -> 2 ^ 52 <= shr_m x).
Proof.
  intros Hm He Hs. unfold shr_fexp in Hs. apply shr_shifted in Hs as [-> [H1 _]]; [|by rewrite shr_record_of_loc_m].
  rewrite shr_record_of_loc_m in H1. rewrite fexp_spec in *. set (d := Zdigits2 m) in *.
  rewrite H1. replace (Z.max 0 (Z.max (d + e - 53) (-1074) - e)) with (Z.max (d + e - 53) (-1074) - e) by lia.
  set (n := Z.max (d + e - 53) (-1074) - e). assert (0 <= n) as Hn by (subst n; lia).
  split; [subst n; lia|]. replace (e + n - e) with n by lia. split; [done|]. split; [lia|].
  assert (0 < 2 ^ n) by (by apply Z.pow_pos_nonneg).
  split.
  - apply Z.div_lt_upper_bound; [done|]. rewrite <- Z.pow_add_r by lia.
    apply (Z.lt_le_trans _ (2 ^ d)); [by apply Zdigits2_lt|]. apply Z.pow_le_mono_r; subst n; lia.
  - intros Hlt. assert (n = d - 53) as Hd by (subst n; lia).
    destruct (decide (m = 0)) as [->|Hm0]; [subst d; change (Zdigits2 0) with 0 in *; lia|].
    pose proof (Zdigits2_bounds m ltac:(lia)) as [L _]. fold d in L.
    apply Z.div_le_lower_bound; [done|]. rewrite <- Z.pow_add_r by lia.
    replace (n + 52) with (d - 1) by lia. done.
Qed.

Lemma normalised_again R e y e'' :
  0 <= R <= 2 ^ 53 -> -1074 <= e -> (-1074 < e -> 2 ^ 52 <= R) -> shr_fexp prec64 emax64 R e loc_Exact = (y, e'') ->
  e <= e'' /\ shr_m y * 2 ^ (e'' - e) = R /\ (forall p, shr_m y = Zpos p -> fexp prec64 emax64 (Zdigits2 (Zpos p) + e'') = e'').
Proof.
  intros HR He Hbig Hs. unfold shr_fexp in Hs. apply shr_shifted in Hs as [-> [H1 _]]; [|by rewrite shr_record_of_loc_m; lia].
  rewrite shr_record_of_loc_m in H1. rewrite fexp_spec in *. set (d := Zdigits2 R) in *.
  destruct (decide (R = 2 ^ 53)) as [E|Hne].
  - subst R. assert (d = 54) as Ed by reflexivity. rewrite Ed in *. clearbody d. subst d.
    replace (Z.max 0 (Z.max (54 + e - 53) (-1074) - e)) with 1 in * by lia.
    assert (shr_m y = 2 ^ 52) as Hy by (rewrite H1; reflexivity).
    split; [lia|]. split; [rewrite Hy; replace (e + 1 - e) with 1 by lia; reflexivity|].
    intros p Hp. rewrite Hy in Hp. rewrite <- Hp. change (Zdigits2 (2 ^ 52)) with 53. rewrite fexp_spec. lia.
  - assert (d <= 53) as Hd by (apply Zdigits2_le; lia).
    replace (Z.max 0 (Z.max (d + e - 53) (-1074) - e)) with 0 in * by lia.
    rewrite Z.div_1_r in H1. split; [lia|]. split; [rewrite H1; replace (e + 0 - e) with 0 by lia; lia|].
    intros p Hp. rewrite <- Hp, H1, Z.add_0_r. fold d. rewrite fexp_spec.
    destruct (decide (-1074 < e)) as [Hlt|]; [|lia].
    pose proof (Zdigits2_ge R 52 ltac:(lia) (Hbig Hlt)). fold d in H. lia.
Qed.

(** What one rounding returns: the mantissa [R] rounded to, at its exponent. *)
Lemma round_result s m e l :
  0 <= m -> e <= fexp prec64 emax64 (Zdigits2 m + e) ->
  exists x e', shr_fexp prec64 emax64 m e l = (x, e') /\ e' = fexp prec64 emax64 (Zdigits2 m + e) /\
    let R := round_nearest_even (shr_m x) (loc_of_shr_record x) in
    0 <= R <= 2 ^ 53 /\
    match binary_round_aux prec64 emax64 s m e l with
    | S754_zero s' => s' = s /\ R = 0
    | S754_infinity s' => s' = s /\ exists p e'', 971 < e'' /\ e' <= e'' /\ Zpos p * 2 ^ (e'' - e') = R /\
                             fexp prec64 emax64 (Zdigits2 (Zpos p) + e'') = e''
    | S754_finite s' p e'' => s' = s /\ e' <= e'' /\ Zpos p * 2 ^ (e'' - e') = R /\ canonical p e''
    | S754_nan => False
    end.
Proof.
  intros Hm He. unfold binary_round_aux. destruct (shr_fexp _ _ m e l) as [x e'] eqn:E1. exists x, e'.
  destruct (normalised m e l x e' Hm He E1) as (He' & Hx & Hle & Hlt & Hbig). split; [done|]. split; [done|]. cbv zeta.
  pose proof (round_nearest_even_range (shr_m x) (loc_of_shr_record x)) as Hr.
  set (R := round_nearest_even _ _) in *.
  assert (0 < 2 ^ (e' - e)) by (apply Z.pow_pos_nonneg; lia).
  assert (0 <= shr_m x) by (rewrite Hx; apply Z.div_pos; lia). split; [lia|].
  destruct (shr_fexp _ _ R e' loc_Exact) as [y e''] eqn:E2. rewrite fexp_spec in He'.
  destruct (normalised_again R e' y e'') as (Hle2 & HR & Hc); [lia|lia| |done|].
  { intros Hlt'. specialize (Hbig Hlt'). lia. }
  destruct (shr_m y) as [|p|p] eqn:Ey.
  - split; [done|]. lia.
  - specialize (Hc p eq_refl). change (emax64 - prec64) with 971. destruct (Z.leb_spec e'' 971).
    + repeat split; try done.
    + split; [done|]. exists p, e''. repeat split; try done; lia.
  - exfalso. assert (0 < 2 ^ (e'' - e')) by (apply Z.pow_pos_nonneg; lia). nia.
Qed.

(** ** Every operation returns a float64 *)

Lemma round_valid s m e l :
  0 <= m -> e <= fexp prec64 emax64 (Zdigits2 m + e) -> isFloat64 (binary_round_aux prec64 emax64 s m e l) = true.
Proof.
  intros Hm He. destruct (round_result s m e l Hm He) as (x & e' & _ & _ & _ & H).
  destruct (binary_round_aux _ _ _ _ _ _) as [| | |s' p e'']; try done. apply canonical_valid, H.
Qed.

Lemma normalize_valid m e : isFloat64 (binary_normalize prec64 emax64 m e false) = true.
Proof.
  assert (forall s p, isFloat64 (binary_round prec64 emax64 s p e) = true) as H; [|destruct m; [done|apply H|apply H]].
  intros s p. unfold binary_round. set (d := Zpos (digits2_pos p)).
  destruct (Z.le_gt_cases (fexp prec64 emax64 (d + e)) e) as [Hle|Hgt].
  - destruct (shl_align_le p e (fexp prec64 emax64 (d + e)) Hle) as (p' & -> & Hp'). apply round_valid; [lia|].
    rewrite Hp', Zdigits2_mul_pow2 by lia. change (Zdigits2 (Zpos p)) with d.
    by replace (d + (e - fexp prec64 emax64 (d + e)) + fexp prec64 emax64 (d + e)) with (d + e) by lia.
  - rewrite shl_align_ge by lia. apply round_valid; [lia|]. change (Zdigits2 (Zpos p)) with d. lia.
Qed.

Lemma of_int_valid n : isFloat64 (of_int n) = true.
Proof. apply normalize_valid. Qed.

Lemma fadd_valid x y : isFloat64 x = true -> isFloat64 y = true -> isFloat64 (fadd x y) = true.
Proof.
  destruct x as [[]|[]| |s m e], y as [[]|[]| |s' m' e']; intros Hx Hy; try done. apply normalize_valid.
Qed.

Lemma fsub_valid x y : isFloat64 x = true -> isFloat64 y = true -> isFloat64 (fsub x y) = true.
Proof.
  destruct x as [[]|[]| |s m e], y as [[]|[]| |s' m' e']; intros Hx Hy; try done; apply normalize_valid.
Qed.

(** The exact product and the quotient have enough digits to be rounded. *)
Lemma canonical_digits m e : canonical m e -> -1074 <= e /\ Zdigits2 (Zpos m) <= 53 /\ (-1074 < e -> Zdigits2 (Zpos m) = 53).
Proof. unfold canonical. rewrite fexp_spec. lia. Qed.

Lemma Zdigits2_mul a b : 0 < a -> 0 < b -> Zdigits2 a + Zdigits2 b - 1 <= Zdigits2 (a * b).
Proof.
  intros Ha Hb. pose proof (Zdigits2_bounds a Ha) as [La _]. pose proof (Zdigits2_bounds b Hb) as [Lb _].
  assert (1 <= Zdigits2 a /\ 1 <= Zdigits2 b) as [Pa Pb].
  { pose proof (Zdigits2_ge a 0). pose proof (Zdigits2_ge b 0). change (2 ^ 0) with 1 in *. lia. }
  assert (2 ^ (Zdigits2 a - 1) * 2 ^ (Zdigits2 b - 1) <= a * b) as H
    by (apply Z.mul_le_mono_nonneg; [apply Z.pow_nonneg; lia|done|apply Z.pow_nonneg; lia|done]).
  rewrite <- Z.pow_add_r in H by lia. apply Zdigits2_ge in H; lia.
Qed.

Lemma product_exponent m1 e1 m2 e2 :
  canonical m1 e1 -> canonical m2 e2 ->
  e1 + e2 <= fexp prec64 emax64 (Zdigits2 (Zpos (m1 * m2)) + (e1 + e2)).
Proof.
  intros H1%canonical_digits H2%canonical_digits. rewrite fexp_spec, Pos2Z.inj_mul.
  pose proof (Zdigits2_mul (Zpos m1) (Zpos m2) ltac:(lia) ltac:(lia)) as H.
  assert (1 <= Zdigits2 (Zpos m1) /\ 1 <= Zdigits2 (Zpos m2)) by (cbn; lia). lia.
Qed.

Lemma fmul_valid x y : isFloat64 x = true -> isFloat64 y = true -> isFloat64 (fmul x y) = true.
Proof.
  destruct x as [[]|[]| |s m e], y as [[]|[]| |s' m' e']; intros Hx Hy; try done.
  all: apply canonical_valid in Hx, Hy; apply round_valid; [lia|by apply product_exponent].
Qed.

Lemma quotient_exponent m1 e1 m2 e2 :
  let e := divExponent (Zdigits2 (Zpos m1)) e1 (Zdigits2 (Zpos m2)) e2 in
  e <= fexp prec64 emax64 (Zdigits2 (Zpos m1 * 2 ^ (e1 - e2 - e) / Zpos m2) + e).
Proof.
  intros e. set (D := Zdigits2 (Zpos m1) + e1 - (Zdigits2 (Zpos m2) + e2)).
  assert (e <= fexp prec64 emax64 D /\ e <= e1 - e2) as [H1 H2] by (split; [apply Z.le_min_l|apply Z.le_min_r]).
  rewrite fexp_spec in *. set (A := Zpos m1 * 2 ^ (e1 - e2 - e)).
  assert (0 < 2 ^ (e1 - e2 - e)) by (apply Z.pow_pos_nonneg; lia).
  destruct (decide (e <= -1074)); [lia|].
  assert (D - e - 1 < Zdigits2 (A / Zpos m2)); [|lia]. apply Zdigits2_ge; [lia|].
  pose proof (Zdigits2_bounds A ltac:(lia)) as [L _]. pose proof (Zdigits2_bounds (Zpos m2) ltac:(lia)) as [_ U].
  unfold A in L at 1. rewrite Zdigits2_mul_pow2 in L by lia.
  apply Z.div_le_lower_bound; [lia|].
  apply (Z.le_trans _ (2 ^ Zdigits2 (Zpos m2) * 2 ^ (D - e - 1))).
  - apply Z.mul_le_mono_nonneg_r; [apply Z.pow_nonneg; lia|lia].
  - rewrite <- Z.pow_add_r by (cbn; lia).
    replace (Zdigits2 (Zpos m2) + (D - e - 1)) with (Zdigits2 (Zpos m1) + (e1 - e2 - e) - 1) by lia. done.
Qed.

Lemma fdiv_valid x y : isFloat64 x = true -> isFloat64 y = true -> isFloat64 (fdiv x y) = true.
Proof.
  destruct x as [[]|[]| |s m e], y as [[]|[]| |s' m' e']; intros Hx Hy; try done.
  all: unfold fdiv; cbn [SFdiv xorb]; rewrite SFdiv_core_binary_eq; apply round_valid;
    [apply Z.div_pos; [apply Z.mul_nonneg_nonneg; [lia|apply Z.pow_nonneg; lia]|lia] | apply quotient_exponent].
Qed.

(** ** The error of one rounding *)

Definition pow2 (e : Z) : Q := Qpower 2 e.

Lemma pow2_pos e : (0 < pow2 e)%Q.
Proof. apply Qpower_0_lt. reflexivity. Qed.

Lemma pow2_plus a b : (pow2 (a + b) == pow2 a * pow2 b)%Q.
Proof. apply Qpower_plus. discriminate. Qed.

Lemma pow2_Z n : 0 <= n -> (pow2 n == inject_Z (2 ^ n))%Q.
Proof. intros Hn. unfold pow2. by rewrite (Zpower_Qpower 2 n Hn). Qed.

Lemma pow2_mono a b : a <= b -> (pow2 a <= pow2 b)%Q.
Proof.
  intros H. replace b with (a + (b - a)) by lia. rewrite pow2_plus, (pow2_Z (b - a)) by lia.
  pose proof (pow2_pos a). assert (1 <= inject_Z (2 ^ (b - a)))%Q.
  { change 1%Q with (inject_Z 1). rewrite <- Zle_Qle. apply (Z.pow_le_mono_r 2 0); lia. }
  nra.
Qed.

Lemma fvalue_pow2 p e : (fvalue (S754_finite false p e) == inject_Z (Zpos p) * pow2 e)%Q.
Proof.
  cbn [fvalue]. destruct (Z.leb_spec 0 e) as [H|H].
  - by rewrite pow2_Z, inject_Z_mult by done.
  - assert (pow2 e * inject_Z (2 ^ (- e)) == 1)%Q as E.
    { rewrite <- pow2_Z, <- pow2_plus by lia. by replace (e + - e) with 0 by lia. }
    assert (0 < 2 ^ (- e)) by (apply Z.pow_pos_nonneg; lia).
    rewrite Qmake_Qdiv, Z2Pos.id by done. apply (Qmult_inj_r _ _ (inject_Z (2 ^ (- e)))).
    + change 0%Q with (inject_Z 0). rewrite inject_Z_injective. lia.
    + rewrite <- Qmult_assoc, E. field. change 0%Q with (inject_Z 0). rewrite inject_Z_injective. lia.
Qed.

(** A finite float64 without a sign. *)
Definition nonneg (x : float64) : Prop :=
  isFloat64 x = true /\ match x with S754_zero s | S754_finite s _ _ => s = false | _ => False end.

(** Half a unit in the last place, relative for normal numbers, absolute below. *)
Definition unit64 : Q := pow2 (-53).
Definition tiny64 : Q := pow2 (-1075).

Definition rounds (X : Q) (x : float64) : Prop :=
  nonneg x /\ (X - (unit64 * X + tiny64) <= fvalue x <= X + (unit64 * X + tiny64))%Q.

Lemma nonneg_value x : nonneg x -> (0 <= fvalue x)%Q.
Proof.
  intros [_ H]. destruct x as [s| | |s p e]; try done; subst.
  rewrite fvalue_pow2. pose proof (pow2_pos e). assert (0 <= inject_Z (Zpos p))%Q by (by rewrite <- (Zle_Qle 0)). nra.
Qed.

Lemma nonneg_finite x : nonneg x -> is_finite x = true.
Proof. intros [_ H]. by destruct x. Qed.

#[export] Instance rounds_Proper : Proper (Qeq ==> eq ==> iff) rounds.
Proof. intros X Y E x ? <-. unfold rounds. by rewrite E. Qed.

Lemma rounds_proper X Y x : (X == Y)%Q -> rounds X x -> rounds Y x.
Proof. by intros ->. Qed.

(** Half a unit in the last place of a number that is at least [2 ^ 52] of them. *)
Lemma half_unit A B e e' (X := (inject_Z A / inject_Z B * pow2 e)%Q) :
  0 < B -> 0 <= A -> e <= e' -> -1074 <= e' -> (-1074 < e' -> 2 ^ 52 * (B * 2 ^ (e' - e)) <= A) ->
  ((1 # 2) * pow2 e' <= unit64 * X + tiny64)%Q.
Proof.
  intros HB HA Hle He' Hbig.
  assert (0 < inject_Z B)%Q as QB by (by rewrite <- (Zlt_Qlt 0)).
  assert (0 <= inject_Z A)%Q as QA by (by rewrite <- (Zle_Qle 0)).
  pose proof (pow2_pos e) as Pe. pose proof (pow2_pos (-1075)) as Pt. change (pow2 (-1075)) with tiny64 in Pt.
  assert (X * inject_Z B == inject_Z A * pow2 e)%Q as HX by (unfold X; field; lra).
  assert (0 <= X)%Q as QX.
  { apply (Qmult_le_r _ _ (inject_Z B)); [done|]. rewrite HX. nra. }
  change unit64 with (1 # 9007199254740992)%Q. clearbody X.
  destruct (decide (e' = -1074)) as [->|Hne].
  - assert ((1 # 2) * pow2 (-1074) == tiny64)%Q as -> by (vm_compute; reflexivity). lra.
  - assert (pow2 52 * pow2 e' <= X)%Q as Hn; [|change (pow2 52) with (4503599627370496 # 1)%Q in Hn; lra].
    apply (Qmult_le_r _ _ (inject_Z B)); [done|]. rewrite HX.
    assert (pow2 e' == inject_Z (2 ^ (e' - e)) * pow2 e)%Q as ->.
    { rewrite <- pow2_Z, <- pow2_plus by lia. by replace (e' - e + e) with e' by lia. }
    specialize (Hbig ltac:(lia)). rewrite Zle_Qle, !inject_Z_mult in Hbig.
    change (pow2 52) with (inject_Z (2 ^ 52)).
    assert ((inject_Z (2 ^ 52) * (inject_Z (2 ^ (e' - e)) * pow2 e) * inject_Z B) == (inject_Z (2 ^ 52) * (inject_Z B * inject_Z (2 ^ (e' - e))) * pow2 e))%Q as -> by ring.
    apply Qmult_le_compat_r; lra.
Qed.

(** An integer within half of a quotient, at the scale of a coarser exponent. *)
Lemma half_scaled A B P R e e' (X := (inject_Z A / inject_Z B * pow2 e)%Q) :
  0 < B -> P = 2 ^ (e' - e) -> e <= e' -> 2 * A - B * P <= 2 * (R * (B * P)) <= 2 * A + B * P ->
  (X - (1 # 2) * pow2 e' <= inject_Z R * pow2 e' <= X + (1 # 2) * pow2 e')%Q.
Proof.
  intros HB HP Hle [Hlo Hhi].
  assert (0 < inject_Z B)%Q as QB by (by rewrite <- (Zlt_Qlt 0)). pose proof (pow2_pos e) as Pe.
  assert (X * inject_Z B == inject_Z A * pow2 e)%Q as HX by (unfold X; field; lra).
  assert (pow2 e' == inject_Z P * pow2 e)%Q as HPe.
  { rewrite HP, <- pow2_Z, <- pow2_plus by lia. by replace (e' - e + e) with e' by lia. }
  assert (inject_Z R * pow2 e' * (2 * inject_Z B) == 2 * (inject_Z R * (inject_Z B * inject_Z P)) * pow2 e)%Q as HR
    by (rewrite HPe; ring).
  rewrite Zle_Qle in Hlo, Hhi. rewrite ?inject_Z_plus, ?inject_Z_mult in *. unfold Z.sub in Hlo.
  rewrite inject_Z_plus, inject_Z_opp, !inject_Z_mult in Hlo. change (inject_Z 2) with 2%Q in *.
  split; apply (Qmult_le_r _ _ (2 * inject_Z B)); try lra; rewrite HR.
  - assert ((X - (1 # 2) * pow2 e') * (2 * inject_Z B) == (2 * inject_Z A - inject_Z B * inject_Z P) * pow2 e)%Q as ->
      by (transitivity (2 * (X * inject_Z B) - inject_Z B * pow2 e')%Q; [ring|rewrite HX, HPe; ring]).
    apply Qmult_le_compat_r; lra.
  - assert ((X + (1 # 2) * pow2 e') * (2 * inject_Z B) == (2 * inject_Z A + inject_Z B * inject_Z P) * pow2 e)%Q as ->
      by (transitivity (2 * (X * inject_Z B) + inject_Z B * pow2 e')%Q; [ring|rewrite HX, HPe; ring]).
    apply Qmult_le_compat_r; lra.
Qed.

(** A float whose exponent is beyond the largest is at least [2 ^ 1024]. *)
Lemma overflow_large p e : e + 53 > 1024 -> Zdigits2 (Zpos p) = 53 -> (pow2 1024 <= inject_Z (Zpos p) * pow2 e)%Q.
Proof.
  intros He Hd. pose proof (Zdigits2_bounds (Zpos p) ltac:(lia)) as [Lp _]. rewrite Hd in Lp.
  change (53 - 1) with 52 in Lp. rewrite Zle_Qle, <- pow2_Z in Lp by lia. change 1024 with (52 + 972). rewrite pow2_plus.
  pose proof (pow2_mono 972 e ltac:(lia)). pose proof (pow2_pos 972). pose proof (pow2_pos 52). nra.
Qed.

(** The number that a mantissa with its location stands for. *)
Lemma round_rounds A B m e l :
  0 < B -> 0 <= A -> 0 <= m -> e <= fexp prec64 emax64 (Zdigits2 m + e) -> halved A B (shr_record_of_loc m l) ->
  (inject_Z A / inject_Z B * pow2 e <= pow2 1000)%Q ->
  rounds (inject_Z A / inject_Z B * pow2 e) (binary_round_aux prec64 emax64 false m e l).
Proof.
  intros HB HA Hm He Hh Hmax. pose proof (round_valid false m e l Hm He) as Hv.
  destruct (round_result false m e l Hm He) as (x & e' & Hs & He' & HR & Hres).
  destruct (normalised m e l x e' Hm He Hs) as (_ & _ & Hle & _ & Hnorm).
  unfold shr_fexp in Hs. rewrite <- He' in Hs.
  apply (shr_halved A B) in Hs; [|by rewrite shr_record_of_loc_m|done|done].
  rewrite Z.max_r in Hs by lia. set (P := 2 ^ (e' - e)) in Hs.
  assert (0 < P) as HP by (apply Z.pow_pos_nonneg; lia).
  assert (0 < B * P) as HBP by nia.
  destruct (round_nearest_even_half A (B * P) x HBP Hs) as [_ [Hlo Hhi]]. destruct Hs as [[Hfl _] _].
  set (R := round_nearest_even _ _) in *.
  assert (-1074 <= e') as Hmin by (rewrite He', fexp_spec; lia).
  pose proof (half_unit A B e e' HB HA Hle Hmin) as Hu. cbv zeta in Hu. fold P in Hu.
  specialize (Hu ltac:(intros Hlt; specialize (Hnorm Hlt); nia)).
  pose proof (half_scaled A B P R e e' HB eq_refl Hle ltac:(lia)) as HRX. cbv zeta in HRX.
  set (X := (inject_Z A / inject_Z B * pow2 e)%Q) in *. pose proof (pow2_pos e') as Pe'.
  assert (forall p e'', e' <= e'' -> Zpos p * 2 ^ (e'' - e') = R -> (inject_Z (Zpos p) * pow2 e'' == inject_Z R * pow2 e')%Q) as Hval.
  { intros p e'' Hle' <-. rewrite inject_Z_mult, <- pow2_Z, <- Qmult_assoc, <- pow2_plus by lia.
    by replace (e'' - e' + e') with e'' by lia. }
  destruct (binary_round_aux prec64 emax64 false m e l) as [s|s| |s p e'']; cbv zeta in Hres.
  - destruct Hres as [-> HR0]. split; [by split|]. cbn [fvalue]. rewrite HR0 in HRX. change (inject_Z 0) with 0%Q in HRX. lra.
  - exfalso. destruct Hres as (_ & p & e'' & Hb & Hle' & HpR & Hc). rewrite <- (Hval p e'' Hle' HpR) in HRX.
    rewrite fexp_spec in Hc. pose proof (overflow_large p e'' ltac:(lia) ltac:(lia)) as Hbig.
    assert (X + (unit64 * X + tiny64) < pow2 1024)%Q as Hs; [|lra].
    change unit64 with (1 # 9007199254740992)%Q. clearbody X.
    assert (pow2 1000 + ((1 # 9007199254740992) * pow2 1000 + tiny64) < pow2 1024)%Q by (vm_compute; reflexivity). lra.
  - by destruct Hres.
  - destruct Hres as (-> & Hle' & HpR & _). split; [by split|]. rewrite fvalue_pow2, (Hval p e'' Hle' HpR). lra.
Qed.

(** ** The error of each operation on numbers without a sign *)

Lemma tiny64_pos : (0 < tiny64)%Q.
Proof. apply pow2_pos. Qed.

Lemma rounds_zero : rounds 0 fzero.
Proof. pose proof tiny64_pos. split; [done|]. cbn [fvalue fzero]. lra. Qed.

Lemma rounds_exact x : nonneg x -> rounds (fvalue x) x.
Proof.
  intros H. pose proof (nonneg_value x H) as Hv. pose proof tiny64_pos. split; [done|].
  change unit64 with (1 # 9007199254740992)%Q. lra.
Qed.

Lemma normalize_rounds m e :
  0 <= m -> (inject_Z m * pow2 e <= pow2 1000)%Q -> rounds (inject_Z m * pow2 e) (binary_normalize prec64 emax64 m e false).
Proof.
  intros Hm Hmax. destruct m as [|p|p]; [| |lia]; cbn [binary_normalize].
  { eapply rounds_proper; [|apply rounds_zero]. change (inject_Z 0) with 0%Q. ring. }
  unfold binary_round. set (d := Zpos (digits2_pos p)) in *.
  assert (forall p' e', inject_Z (Zpos p') * pow2 e' == inject_Z (Zpos p) * pow2 e ->
            (e' <= fexp prec64 emax64 (Zdigits2 (Zpos p') + e'))%Z ->
            rounds (inject_Z (Zpos p) * pow2 e) (binary_round_aux prec64 emax64 false (Zpos p') e' loc_Exact))%Q as H.
  { intros p' e' E He. eapply rounds_proper.
    2: { eapply (round_rounds (Zpos p') 1); try lia.
         - rewrite <- (Z.mul_1_r (Zpos p')) at 1. by apply halved_exact.
         - change (inject_Z 1) with 1%Q. assert (inject_Z (Zpos p') / 1 == inject_Z (Zpos p'))%Q as -> by field. by rewrite E. }
    rewrite <- E. change (inject_Z 1) with 1%Q. field. }
  destruct (Z.le_gt_cases (fexp prec64 emax64 (d + e)) e) as [Hle|Hgt].
  - destruct (shl_align_le p e (fexp prec64 emax64 (d + e)) Hle) as (p' & -> & Hp'). apply H.
    + rewrite Hp', inject_Z_mult, <- pow2_Z, <- Qmult_assoc, <- pow2_plus by lia.
      by replace (e - fexp prec64 emax64 (d + e) + fexp prec64 emax64 (d + e)) with e by lia.
    + rewrite Hp', Zdigits2_mul_pow2 by lia. change (Zdigits2 (Zpos p)) with d.
      by replace (d + (e - fexp prec64 emax64 (d + e)) + fexp prec64 emax64 (d + e)) with (d + e) by lia.
  - rewrite shl_align_ge by lia. apply H; [done|]. change (Zdigits2 (Zpos p)) with d. lia.
Qed.

(** Two numbers at one exponent. *)
Lemma aligned p e ez : ez <= e -> (inject_Z (Zpos (fst (shl_align p e ez))) * pow2 ez == inject_Z (Zpos p) * pow2 e)%Q.
Proof.
  intros H. destruct (shl_align_le p e ez H) as (p' & -> & Hp'). cbn [fst].
  rewrite Hp', inject_Z_mult, <- pow2_Z, <- Qmult_assoc, <- pow2_plus by lia. by replace (e - ez + ez) with e by lia.
Qed.

Lemma fadd_rounds x y :
  nonneg x -> nonneg y -> (fvalue x + fvalue y <= pow2 1000)%Q -> rounds (fvalue x + fvalue y) (fadd x y).
Proof.
  intros Hx Hy Hmax. pose proof Hx as [_ Sx]. pose proof Hy as [_ Sy].
  destruct x as [sx| | |sx m1 e1], y as [sy| | |sy m2 e2]; try done; subst; cbn [fadd SFadd].
  - eapply rounds_proper; [|apply rounds_zero]. reflexivity.
  - eapply rounds_proper; [|by apply (rounds_exact (S754_finite false m2 e2))]. cbn [fvalue]. ring.
  - eapply rounds_proper; [|by apply (rounds_exact (S754_finite false m1 e1))]. cbn [fvalue]. ring.
  - rewrite !fvalue_pow2 in *. cbn [fadd SFadd cond_Zopp]. set (ez := Z.min e1 e2).
    assert (inject_Z (Zpos m1) * pow2 e1 + inject_Z (Zpos m2) * pow2 e2 ==
      inject_Z (Zpos (fst (shl_align m1 e1 ez)) + Zpos (fst (shl_align m2 e2 ez))) * pow2 ez)%Q as E.
    { rewrite inject_Z_plus, Qmult_plus_distr_l, !aligned by lia. reflexivity. }
    eapply rounds_proper; [symmetry; exact E|]. apply normalize_rounds; [lia|]. by rewrite <- E.
Qed.

Lemma fsub_rounds x y :
  nonneg x -> nonneg y -> (fvalue y <= fvalue x)%Q -> (fvalue x <= pow2 1000)%Q -> rounds (fvalue x - fvalue y) (fsub x y).
Proof.
  intros Hx Hy Hle Hmax. pose proof Hx as [_ Sx]. pose proof Hy as [_ Sy]. pose proof (nonneg_value y Hy) as Py.
  destruct x as [sx| | |sx m1 e1], y as [sy| | |sy m2 e2]; try done; subst; cbn [fsub SFsub].
  - eapply rounds_proper; [|apply rounds_zero]. reflexivity.
  - exfalso. rewrite fvalue_pow2 in Hle. cbn [fvalue] in Hle. pose proof (pow2_pos e2).
    assert (0 < inject_Z (Zpos m2))%Q by (by rewrite <- (Zlt_Qlt 0)). nra.
  - eapply rounds_proper; [|by apply (rounds_exact (S754_finite false m1 e1))]. cbn [fvalue]. ring.
  - rewrite !fvalue_pow2 in *. cbn [fsub SFsub cond_Zopp]. set (ez := Z.min e1 e2).
    assert (inject_Z (Zpos m1) * pow2 e1 - inject_Z (Zpos m2) * pow2 e2 ==
      inject_Z (Zpos (fst (shl_align m1 e1 ez)) - Zpos (fst (shl_align m2 e2 ez))) * pow2 ez)%Q as E.
    { unfold Z.sub. rewrite inject_Z_plus, inject_Z_opp, Qmult_plus_distr_l.
      rewrite <- (aligned m1 e1 ez), <- (aligned m2 e2 ez) by lia. ring. }
    eapply rounds_proper; [symmetry; exact E|]. apply normalize_rounds.
    + pose proof (pow2_pos ez) as Pe. apply Z.le_0_sub. rewrite Zle_Qle.
      rewrite <- (aligned m1 e1 ez), <- (aligned m2 e2 ez) in Hle by lia. by apply (Qmult_le_r _ _ (pow2 ez)).
    + rewrite <- E. pose proof (pow2_pos e2). assert (0 <= inject_Z (Zpos m2))%Q by (by rewrite <- (Zle_Qle 0)). nra.
Qed.

Lemma fmul_rounds x y :
  nonneg x -> nonneg y -> (fvalue x * fvalue y <= pow2 1000)%Q -> rounds (fvalue x * fvalue y) (fmul x y).
Proof.
  intros Hx Hy Hmax. pose proof Hx as [Vx Sx]. pose proof Hy as [Vy Sy].
  destruct x as [sx| | |sx m1 e1], y as [sy| | |sy m2 e2]; try done; subst; cbn [fmul SFmul xorb].
  1-3: eapply rounds_proper; [|apply rounds_zero]; cbn [fvalue]; ring.
  rewrite !fvalue_pow2 in *. apply canonical_valid in Vx, Vy.
  assert (inject_Z (Zpos m1) * pow2 e1 * (inject_Z (Zpos m2) * pow2 e2) ==
    inject_Z (Zpos (m1 * m2)) / inject_Z 1 * pow2 (e1 + e2))%Q as E.
  { rewrite pow2_plus, Pos2Z.inj_mul, inject_Z_mult. change (inject_Z 1) with 1%Q. field. }
  eapply rounds_proper; [symmetry; exact E|]. unfold fmul. cbn [SFmul xorb].
  apply round_rounds; try lia; [by apply product_exponent| |by rewrite <- E].
  rewrite <- (Z.mul_1_r (Zpos (m1 * m2))) at 1. by apply halved_exact.
Qed.

Lemma fdiv_rounds x y :
  nonneg x -> nonneg y -> (0 < fvalue y)%Q -> (fvalue x / fvalue y <= pow2 1000)%Q -> rounds (fvalue x / fvalue y) (fdiv x y).
Proof.
  intros Hx Hy Hpos Hmax. pose proof Hx as [Vx Sx]. pose proof Hy as [Vy Sy].
  destruct y as [sy| | |sy m2 e2]; try done; subst.
  destruct x as [sx| | |sx m1 e1]; try done; subst.
  { eapply rounds_proper; [|apply rounds_zero]. cbn [fvalue]. unfold Qdiv. ring. }
  rewrite !fvalue_pow2 in *. unfold fdiv. cbn [SFdiv xorb]. rewrite SFdiv_core_binary_eq.
  pose proof (quotient_exponent m1 e1 m2 e2) as He. cbv zeta in He.
  set (e := divExponent _ _ _ _) in *. assert (e <= e1 - e2) as Hle by apply Z.le_min_r.
  set (A := Zpos m1 * 2 ^ (e1 - e2 - e)) in *.
  assert (0 < 2 ^ (e1 - e2 - e)) by (apply Z.pow_pos_nonneg; lia).
  assert (0 < inject_Z (Zpos m2))%Q by (by rewrite <- (Zlt_Qlt 0)). pose proof (pow2_pos e2). pose proof (pow2_pos e).
  assert (inject_Z (Zpos m1) * pow2 e1 / (inject_Z (Zpos m2) * pow2 e2) == inject_Z A / inject_Z (Zpos m2) * pow2 e)%Q as E.
  { unfold A. rewrite inject_Z_mult, <- pow2_Z by lia.
    assert (pow2 e1 == pow2 (e1 - e2 - e) * pow2 e * pow2 e2)%Q as ->
      by (rewrite <- !pow2_plus; by replace (e1 - e2 - e + e + e2) with e1 by lia).
    field. split; lra. }
  eapply rounds_proper; [symmetry; exact E|].
  apply round_rounds; [lia|lia|apply Z.div_pos; lia|done| |by rewrite <- E].
  rewrite (Z.div_mod A (Zpos m2)) at 1 by lia. rewrite (Z.mul_comm (Zpos m2)).
  apply new_location_halved, Z.mod_pos_bound. lia.
Qed.

(** ** Signs *)

Definition fabs (x : float64) : float64 :=
  match x with
  | S754_zero _ => S754_zero false
  | S754_infinity _ => S754_infinity false
  | S754_nan => S754_nan
  | S754_finite _ m e => S754_finite false m e
  end.

Lemma fabs_finite x : is_finite (fabs x) = is_finite x.
Proof. by destruct x. Qed.

Lemma fabs_nonneg x : nonneg x -> fabs x = x.
Proof. intros [_ H]. destruct x; try done; by rewrite H. Qed.

(** The sign plays no part in the rounding, and it is kept. *)
Lemma round_sign s m e l :
  fabs (binary_round_aux prec64 emax64 s m e l) = fabs (binary_round_aux prec64 emax64 false m e l) /\
  match binary_round_aux prec64 emax64 s m e l with
  | S754_zero s' | S754_infinity s' | S754_finite s' _ _ => s' = s
  | S754_nan => True
  end.
Proof.
  unfold binary_round_aux. destruct (shr_fexp _ _ m e l) as [r e']. destruct (shr_fexp _ _ _ e' loc_Exact) as [r' e''].
  destruct (shr_m r'); [done| |done]. by destruct (e'' <=? _).
Qed.

Lemma fabs_normalize m e :
  fabs (binary_normalize prec64 emax64 m e false) = fabs (binary_normalize prec64 emax64 (Z.abs m) e false).
Proof.
  destruct m as [|p|p]; [done|done|]. change (Z.abs (Zneg p)) with (Zpos p).
  cbn [binary_normalize]. unfold binary_round.
  destruct (shl_align _ _ _) as [mz ez]. apply round_sign.
Qed.

(** The difference of two numbers and the opposite one. *)
Lemma fabs_fsub x y : nonneg x -> nonneg y -> fabs (fsub x y) = fabs (fsub y x).
Proof.
  intros [_ Hx] [_ Hy]. destruct x as [sx| | |sx m1 e1], y as [sy| | |sy m2 e2]; try done; subst; [done..|].
  unfold fsub. cbn [SFsub cond_Zopp]. rewrite (Z.min_comm e2 e1).
  rewrite (fabs_normalize (Z.sub _ _)), (fabs_normalize (Z.sub (Zpos (fst (shl_align m2 _ _))) _)).
  do 2 f_equal. match goal with |- Z.abs (?a - ?b) = _ => generalize a b end. intros. lia.
Qed.

Lemma fabs_fdiv x y : fabs (fdiv x y) = fabs (fdiv (fabs x) (fabs y)).
Proof.
  destruct x, y; try done. unfold fdiv. cbn [fabs SFdiv]. destruct (SFdiv_core_binary _ _ _ _ _ _) as [[q f] l].
  apply round_sign.
Qed.

(** The conversion of an integer. *)
Lemma of_int_rounds k : 0 <= k < 2 ^ 64 -> rounds (inject_Z k) (of_int k).
Proof.
  intros Hk. assert (inject_Z k * pow2 0 == inject_Z k)%Q as E by (change (pow2 0) with 1%Q; ring).
  eapply rounds_proper; [exact E|]. apply normalize_rounds; [lia|]. rewrite E.
  apply (Qle_trans _ (pow2 64)); [|by apply pow2_mono]. rewrite pow2_Z, <- Zle_Qle by lia. lia.
Qed.

Lemma of_int_size k : 0 <= k < 2 ^ 64 ->
  nonneg (of_int k) /\ (fvalue (of_int k) <= pow2 65)%Q /\ (0 < k -> ((1 # 2) <= fvalue (of_int k))%Q).
Proof.
  intros Hk. destruct (of_int_rounds k Hk) as [Hn [Hlo Hhi]]. split; [done|].
  assert (inject_Z k <= pow2 64)%Q by (rewrite pow2_Z, <- Zle_Qle by lia; lia).
  change unit64 with (1 # 9007199254740992)%Q in *.
  assert (tiny64 <= 1 # 4)%Q by (vm_compute; discriminate).
  change (pow2 64) with (18446744073709551616 # 1)%Q in *. change (pow2 65) with (36893488147419103232 # 1)%Q.
  assert (0 <= inject_Z k)%Q by (change 0%Q with (inject_Z 0); rewrite <- Zle_Qle; lia).
  split; [lra|]. intros Hpos.
  assert (1 <= inject_Z k)%Q by (change 1%Q with (inject_Z 1); rewrite <- Zle_Qle; lia). lra.
Qed.

Lemma of_int_lt_zero k : is_i64 k -> fltb (of_int k) fzero = (k <? 0).
Proof.
  intros Hk. unfold is_i64 in Hk. destruct (Z.ltb_spec k 0) as [H|H].
  - pose proof (of_int_size (- k) ltac:(lia)) as (Hn & _ & Hpos). specialize (Hpos ltac:(lia)).
    pose proof (fabs_normalize k 0) as Ha. fold (of_int k) (of_int (Z.abs k)) in Ha.
    replace (Z.abs k) with (- k) in Ha by lia. rewrite (fabs_nonneg _ Hn) in Ha.
    destruct k as [|p|p]; [lia..|]. unfold of_int in *. cbn [binary_normalize] in *. unfold binary_round in *.
    destruct (shl_align _ _ _) as [mz ez]. pose proof (round_sign true (Zpos mz) ez loc_Exact) as [_ Hs].
    rewrite <- Ha in Hpos, Hn. destruct Hn as [_ Hn].
    destruct (binary_round_aux _ _ true (Zpos mz) ez loc_Exact) as [s|s| |s m e]; cbn [fabs] in *; try done; by subst.
  - pose proof (of_int_size k ltac:(lia)) as ([_ Hn] & _). destruct (of_int k) as [s| | |s m e]; try done; by subst.
Qed.

(** The quotient of two numbers of moderate size is finite. *)
Lemma fdiv_finite x y :
  nonneg x -> nonneg y -> (fvalue x <= pow2 66)%Q -> ((1 # 2) <= fvalue y)%Q -> is_finite (fdiv x y) = true.
Proof.
  intros Hx Hy Hmax Hmin. apply nonneg_finite. pose proof (nonneg_value x Hx) as Px.
  apply (fdiv_rounds x y); [done|done|lra|]. apply Qle_shift_div_r; [lra|].
  assert (pow2 66 * 2 <= pow2 1000)%Q by (vm_compute; discriminate). pose proof (pow2_pos 1000). nra.
Qed.

Lemma fdiv_difference_finite a b :
  0 <= a < 2 ^ 63 -> 0 <= b < 2 ^ 63 -> 0 < a -> is_finite (fdiv (fsub (of_int a) (of_int b)) (of_int a)) = true.
Proof.
  intros Ha Hb Hpos. destruct (of_int_size a ltac:(lia)) as (Na & Ma & Pa). destruct (of_int_size b ltac:(lia)) as (Nb & Mb & _).
  specialize (Pa Hpos). rewrite <- fabs_finite, fabs_fdiv, fabs_finite, (fabs_nonneg (of_int a) Na).
  assert (nonneg (fabs (fsub (of_int a) (of_int b))) /\ (fvalue (fabs (fsub (of_int a) (of_int b))) <= pow2 66)%Q) as [Hn Hm].
  { assert (forall x y, nonneg x -> nonneg y -> (fvalue y <= fvalue x)%Q -> (fvalue x <= pow2 65)%Q ->
      nonneg (fsub x y) /\ (fvalue (fsub x y) <= pow2 66)%Q) as Hsub.
    { intros x y Hx Hy Hle Hmax.
      assert (pow2 65 <= pow2 1000)%Q as H1000 by (vm_compute; discriminate).
      destruct (fsub_rounds x y Hx Hy Hle ltac:(lra)) as [Hn [_ Hhi]]. split; [done|]. pose proof (nonneg_value y Hy).
      change unit64 with (1 # 9007199254740992)%Q in Hhi. assert (tiny64 <= 1)%Q by (vm_compute; discriminate).
      change (pow2 65) with (36893488147419103232 # 1)%Q in *. change (pow2 66) with (73786976294838206464 # 1)%Q. lra. }
    destruct (Qlt_le_dec (fvalue (of_int a)) (fvalue (of_int b))) as [Hlt|Hle].
    - rewrite fabs_fsub by done. rewrite fabs_nonneg; apply Hsub; (done || lra).
    - rewrite fabs_nonneg; apply Hsub; (done || lra). }
  by apply fdiv_finite.
Qed.
