(* ===== verification/Base64.v ===== *)
(** * encoding/base64: the standard encoding, and the Authorization header

    [EncodeToString] as the client's [SetBasicAuth] uses it; what a reader gets from
    [NewDecoder] byte by byte, errors included; and how the vendored middleware finds
    the credentials of a request in its header.  Whatever the bytes of the
    credentials, the middleware finds those that the client sent. *)
From S2P Require Import Prelude GoStrings GoUrl JsonString.

(** The digits of the alphabet, and [decodeMap]. *)
Definition digit64 (n : Z) : ascii :=
  if n <? 26 then byte (65 + n)
  else if n <? 52 then byte (71 + n)
  else if n <? 62 then byte (n - 4)
  else if n =? 62 then "+"%char else "/"%char.

Definition value64 (c : ascii) : option Z :=
  if between_bytes 65 90 c then Some (code c - 65)
  else if between_bytes 97 122 c then Some (code c - 71)
  else if between_bytes 48 57 c then Some (code c + 4)
  else if Ascii.eqb c "+" then Some 62
  else if Ascii.eqb c "/" then Some 63
  else None.

Definition pad : ascii := "=".

(** [EncodeToString]: four digits for three bytes. *)
Fixpoint EncodeToString (s : string) : string :=
  match s with
  | "" => ""
  | String a "" => String (digit64 (code a / 4)) (String (digit64 (code a mod 4 * 16)) (String pad (String pad "")))
  | String a (String b "") =>
      String (digit64 (code a / 4)) (String (digit64 (code a mod 4 * 16 + code b / 16))
        (String (digit64 (code b mod 16 * 4)) (String pad "")))
  | String a (String b (String c s')) =>
      String (digit64 (code a / 4)) (String (digit64 (code a mod 4 * 16 + code b / 16))
        (String (digit64 (code b mod 16 * 4 + code c / 64)) (String (digit64 (code c mod 64)) (EncodeToString s'))))
  end.

(** What the digits of a group say: the bytes, and whether the group is padded;
    [None] is a [CorruptInputError] before any byte.  The bits left over are not
    looked at. *)
Definition decodeQuantum (a b c d : ascii) : option (string * bool) :=
  match value64 a, value64 b with
  | Some x, Some y =>
      let first := byte (x * 4 + y / 16) in
      match value64 c with
      | None => if Ascii.eqb c pad && Ascii.eqb d pad then Some (String first "", true) else None
      | Some z =>
          let second := byte (y mod 16 * 16 + z / 4) in
          match value64 d with
          | None => if Ascii.eqb d pad then Some (String first (String second ""), true) else None
          | Some w => Some (String first (String second (String (byte (z mod 4 * 64 + w)) "")), false)
          end
      end
  | _, _ => None
  end.

(** What a reader gets from the decoder: the bytes, and whether they end with
    [io.EOF] or with another error.  What follows a padded group is an error unless
    the decoder's buffer ends there; [cuts] says after which groups it does. *)
Fixpoint decodeStream (cuts : nat -> bool) (group : nat) (s : string) : string * bool :=
  match s with
  | "" => ("", true)
  | String a (String b (String c (String d s'))) =>
      match decodeQuantum a b c d with
      | None => ("", false)
      | Some (bytes, padded) =>
          if padded && negb (String.eqb s' "") && negb (cuts group) then (bytes, false)
          else let '(rest, ok) := decodeStream cuts (S group) s' in (bytes +:+ rest, ok)
      end
  | _ => ("", false)
  end.

Definition NUL : ascii := "000".

(** [bufio.Reader.ReadString]: up to the delimiter and with it, or what comes before
    [io.EOF]; [None] for another error. *)
Fixpoint ReadString (delim : ascii) (s : string) (ok : bool) : option string :=
  match s with
  | "" => if ok then Some "" else None
  | String c s' =>
      if Ascii.eqb c delim then Some (String c "") else option_map (String c) (ReadString delim s' ok)
  end.

(** [Request.SetBasicAuth]. *)
Definition SetBasicAuth (user password : string) : string :=
  "Basic " +:+ EncodeToString (user +:+ ":" +:+ password).

(** The first steps of [handlers.AuthMiddleware]: the text of the credentials, [None]
    where it answers 401.  The scheme is not looked at; a header without a space is a
    panic. *)
Definition credentials (cuts : nat -> bool) (auth : string) : outcome (option string) :=
  if String.eqb auth "" then Ok None
  else match Split " " auth with
       | _ :: b64auth :: _ => let '(bytes, ok) := decodeStream cuts 0 b64auth in Ok (ReadString NUL bytes ok)
       | _ => Panic "runtime error: index out of range [1] with length 1"
       end.

(** ** Lemmas *)

Lemma code_range a : 0 <= code a < 256.
Proof. pose proof (N_ascii_bounded a). unfold code. lia. Qed.

Lemma byte_code a : byte (code a) = a.
Proof. unfold byte, code. rewrite N2Z.id. apply ascii_N_embedding. Qed.

Lemma byte_of a n : n = code a -> byte n = a.
Proof. intros ->. apply byte_code. Qed.

(** A property of the 64 digits, checked on each. *)
Lemma digits_forall (P : Z -> bool) n : forallb P (seqZ 0 64) = true -> 0 <= n < 64 -> P n = true.
Proof. rewrite forallb_forall. intros H Hn. apply H, list_elem_of_In, elem_of_seqZ. lia. Qed.

Lemma value64_digit64 n : 0 <= n < 64 -> value64 (digit64 n) = Some n.
Proof.
  intros Hn. pose proof (digits_forall (fun n => bool_decide (value64 (digit64 n) = Some n)) n) as H.
  apply (bool_decide_eq_true_1 _), H; [vm_compute; reflexivity|done].
Qed.

Lemma digit64_word n : 0 <= n < 64 -> Ascii.eqb (digit64 n) " " = false.
Proof.
  intros Hn. apply negb_true_iff, (digits_forall (fun n => negb (Ascii.eqb (digit64 n) " "))); [vm_compute; reflexivity|done].
Qed.

(** Induction by groups of three bytes. *)
Lemma group_ind (P : string -> Prop) :
  P "" -> (forall a, P (String a "")) -> (forall a b, P (String a (String b ""))) ->
  (forall a b c s, P s -> P (String a (String b (String c s)))) -> forall s, P s.
Proof.
  intros H0 H1 H2 H3.
  assert (forall n s, (String.length s <= n)%nat -> P s) as H; [|intros s; by apply (H (String.length s))].
  induction n as [|n IH]; intros [|a [|b [|c s]]] Hl; cbn [String.length] in Hl; try lia; auto.
  apply H3, IH. lia.
Qed.

Ltac by_code a b c :=
  pose proof (code_range a); pose proof (code_range b); pose proof (code_range c);
  Z.to_euclidean_division_equations; lia.

(** The decoder inverts the encoder, wherever its buffers end. *)
Lemma decodeStream_Encode cuts s : forall group, decodeStream cuts group (EncodeToString s) = (s, true).
Proof.
  induction s as [|a|a b|a b c s IH] using group_ind; intros group; [done|..]; cbn [EncodeToString decodeStream];
    unfold decodeQuantum.
  - rewrite !value64_digit64 by by_code a a a. cbn -[Z.mul Z.div Z.modulo byte code].
    by rewrite (byte_of a) by by_code a a a.
  - rewrite !value64_digit64 by by_code a b b. cbn -[Z.mul Z.div Z.modulo byte code].
    by rewrite (byte_of a), (byte_of b) by by_code a b b.
  - rewrite !value64_digit64 by by_code a b c. cbn [andb]. rewrite IH.
    by rewrite (byte_of a), (byte_of b), (byte_of c) by by_code a b c.
Qed.

Lemma Encode_word s : all_chars (fun c => negb (Ascii.eqb c " ")) (EncodeToString s) = true.
Proof.
  induction s as [|a|a b|a b c s IH] using group_ind; [done|..]; cbn [EncodeToString all_chars];
    rewrite ?IH, ?digit64_word by first [by_code a a a | by_code a b b | by_code a b c]; reflexivity.
Qed.

Lemma ReadString_all delim s : Contains s delim = false -> ReadString delim s true = Some s.
Proof.
  induction s as [|c s IH]; [done|]. cbn [Contains ReadString]. rewrite orb_false_iff. intros [-> H]. by rewrite IH.
Qed.

(** The server finds the credentials of the client, unless they hold a zero byte. *)
Lemma credentials_SetBasicAuth cuts user password :
  Contains (user +:+ ":" +:+ password) NUL = false ->
  credentials cuts (SetBasicAuth user password) = Ok (Some (user +:+ ":" +:+ password)).
Proof.
  intros H. unfold credentials, SetBasicAuth.
  change ("Basic " +:+ ?e) with (String "B" (String "a" (String "s" (String "i" (String "c" (String " " e)))))).
  cbn [String.eqb]. cbv iota. cbn [Split]. rewrite Split_single by apply Encode_word.
  cbv iota. cbn. by rewrite decodeStream_Encode, ReadString_all.
Qed.

Example Encode_examples :
  map EncodeToString [""; "f"; "fo"; "foo"; "foob"; "bob:secret"] =
  [""; "Zg=="; "Zm8="; "Zm9v"; "Zm9vYg=="; "Ym9iOnNlY3JldA=="].
Proof. reflexivity. Qed.

Example credentials_examples :
  map (credentials (fun _ => false))
    [""; "Basic"; "Basic Ym9iOnNlY3JldA=="; "Other Ym9iOnNlY3JldA=="; "Basic Ym9iOnNlY3JldB=="; "Basic Ym9iOnNlY3Jld"; "Basic Zg==Zg=="; "Basic !"] =
  [Ok None; Panic "runtime error: index out of range [1] with length 1"; Ok (Some "bob:secret"); Ok (Some "bob:secret");
   Ok (Some "bob:secret"); Ok None; Ok None; Ok None].
Proof. reflexivity. Qed.
