(* ===== verification/Config.v ===== *)
(** * config/env.go: the environment and the derived settings *)
From S2P Require Import Prelude GoStrings GoFloat GoTime.

Module Config.

(** [ENV]: the defaults of the source. *)
Definition ENV : gmap string string :=
  list_to_map
    [ ("DOCKER_URL", "http://127.0.0.1:4243");
      ("PORT", "4244");
      ("REFRESH_TIME", "20s");
      ("CGROUP_SOURCE", "docker");
      ("CGROUP_DIR", "/sys/fs/cgroup");
      ("PROC_DIR", "/proc");
      ("PROC_MOUNTINFO_PID", "");
      ("RUNNER_DIR", "/usr/bin");
      ("DEBUG", "false");
      ("NET_MONITORING", "true");
      ("QUEUE_LENGTH_SAMPLING_INTERVAL", "5s");
      ("QUEUE_LENGTH_POINTS_PER_SAMPLE", "5");
      ("QUEUE_LENGTH_ELEMENTS_NEEDED", "6");
      ("HTTP_USERNAME", "");
      ("HTTP_PASSWORD", "") ].

(** The package variables. *)
Record t : Type := mk {
  env : gmap string string;
  RefreshTime : Z;
  Debug : bool;
  QueueLengthSamplingInterval : Z;
  QueueLengthPointsPerSample : Z;
  QueueLengthElementsNeeded : Z;
  IsUsingCgroupV2 : bool }.

(** The body of the loop of [init] for one key: the process environment
    overrides the default, or receives it. *)
Definition env_step (st : gmap string string * gmap string string) (kv : string * string)
    : gmap string string * gmap string string :=
  let '(ENV, os) := st in
  let '(k, v) := kv in
  if negb (String.eqb (mapget "" os k) "")
  then (<[k := mapget "" os k]> ENV, os)
  else (ENV, <[k := v]> os).

(** [for k, v := range ENV]: Go visits the entries in an unspecified order [kvs]. *)
Definition env_loop (kvs : list (string * string)) (ENV os : gmap string string) :=
  fold_left env_step kvs (ENV, os).

Section Init.
Variable oob : float64 -> Z.
(** [cgroups.Mode() == cgroups.Unified], a question to the host. *)
Variable unified : bool.

(** [x, err = f(); if err != nil { panic(err) }]. *)
Definition orPanic {A} (o : outcome A) : outcome A :=
  match o with
  | Err e => Panic (match errorString e with Ok m => m | _ => "" end)
  | _ => o
  end.

(** [init], the rest of the function after the loop. *)
Definition settings (ENV : gmap string string) : outcome t :=
  let Debug := String.eqb (mapget "" ENV "DEBUG") "1" || String.eqb (mapget "" ENV "DEBUG") "true" in
  let! refresh := orPanic (ParseDuration oob (mapget "" ENV "REFRESH_TIME")) in
  let! needed := orPanic (Atoi (mapget "" ENV "QUEUE_LENGTH_ELEMENTS_NEEDED")) in
  let! points := orPanic (Atoi (mapget "" ENV "QUEUE_LENGTH_POINTS_PER_SAMPLE")) in
  let! interval := orPanic (ParseDuration oob (mapget "" ENV "QUEUE_LENGTH_SAMPLING_INTERVAL")) in
  Ok (mk ENV refresh Debug interval points needed unified).

Definition init (kvs : list (string * string)) (os : gmap string string)
    : outcome (t * gmap string string) :=
  let '(e, os') := env_loop kvs ENV os in
  let! s := settings e in Ok (s, os').

End Init.

(** [CgroupPath]; an unknown source panics. *)
Definition CgroupPath (c : t) (cgroup id : string) : outcome string :=
  if String.eqb (mapget "" (env c) "CGROUP_SOURCE") "docker" then
    Ok (mapget "" (env c) "CGROUP_DIR" +:+ "/" +:+ cgroup +:+ "/docker/" +:+ id)
  else if String.eqb (mapget "" (env c) "CGROUP_SOURCE") "systemd" then
    Ok (mapget "" (env c) "CGROUP_DIR" +:+ "/" +:+ cgroup +:+ "/system.slice/docker-" +:+ id +:+ ".scope")
  else Panic ("unknown cgroup source" +:+ mapget "" (env c) "CGROUP_SOURCE").

(** ** Lemmas *)

(** What the loop computes, key by key. *)
Definition env_value (os : gmap string string) (k : string) (dflt : option string) : option string :=
  match dflt with
  | None => None
  | Some v => Some (if String.eqb (mapget "" os k) "" then v else mapget "" os k)
  end.

Definition os_value (kvs : list (string * string)) (os : gmap string string) (k : string)
    : option string :=
  match (list_to_map kvs : gmap string string) !! k with
  | Some v => if String.eqb (mapget "" os k) "" then Some v else os !! k
  | None => os !! k
  end.

Lemma mapget_insert_ne {V} (d : V) m i j (x : V) :
  i <> j -> mapget d (<[i := x]> m) j = mapget d m j.
Proof. intros H. unfold mapget. by rewrite lookup_insert_ne. Qed.

Lemma mapget_insert_eq {V} (d : V) m i (x : V) : mapget d (<[i := x]> m) i = x.
Proof. unfold mapget. by rewrite lookup_insert_eq. Qed.

(** The loop in closed form: each key is visited once, so its entry depends on
    the initial process environment only. *)
Lemma env_loop_spec kvs e os :
  NoDup kvs.*1 ->
  (forall k v, (k, v) ∈ kvs -> e !! k = Some v) ->
  forall k,
    (env_loop kvs e os).1 !! k =
      (if decide (k ∈ kvs.*1) then env_value os k (e !! k) else e !! k)
    /\ (env_loop kvs e os).2 !! k = os_value kvs os k.
Proof.
  unfold env_loop. revert e os. induction kvs as [|[k0 v0] kvs IH]; intros e os Hnd He k.
  { rewrite decide_False by (intros H; inversion H).
    unfold os_value. cbn. by rewrite lookup_empty. }
  apply list.NoDup_cons in Hnd as [Hnotin Hnd]. cbn [fst] in Hnotin.
  assert (e !! k0 = Some v0) as He0 by (apply He; left).
  assert (forall k v, (k, v) ∈ kvs -> k <> k0) as Hne.
  { intros k1 v1 Hin ->. apply Hnotin. by apply (list_elem_of_fmap_2 fst) in Hin. }
  cbn [fold_left]. unfold env_step at 2 4.
  destruct (negb (String.eqb (mapget "" os k0) "")) eqn:Hset.
  - apply negb_true_iff in Hset.
    destruct (IH (<[k0 := mapget "" os k0]> e) os Hnd) with (k := k) as [H1 H2].
    { intros k1 v1 Hin. rewrite lookup_insert_ne by (symmetry; eauto). apply He. by right. }
    rewrite H1, H2. split.
    + cbn [fmap list_fmap fst]. destruct (decide (k = k0)) as [->|Hk].
      * rewrite decide_False by done. rewrite decide_True by left.
        rewrite lookup_insert_eq, He0. unfold env_value. by rewrite Hset.
      * rewrite lookup_insert_ne by done.
        destruct (decide (k ∈ kvs.*1)); [rewrite decide_True by (by right)|rewrite decide_False by (by rewrite elem_of_cons; intros [?|?])]; done.
    + unfold os_value. cbn [list_to_map foldr]. simpl.
      destruct (decide (k = k0)) as [->|Hk].
      * rewrite lookup_insert_eq. rewrite Hset. rewrite not_elem_of_list_to_map_1; done.
      * by rewrite lookup_insert_ne.
  - apply negb_false_iff in Hset.
    destruct (IH e (<[k0 := v0]> os) Hnd) with (k := k) as [H1 H2].
    { intros k1 v1 Hin. apply He. by right. }
    rewrite H1, H2. split.
    + cbn [fmap list_fmap fst]. destruct (decide (k = k0)) as [->|Hk].
      * rewrite decide_False by done. rewrite decide_True by left.
        rewrite He0. unfold env_value. by rewrite Hset.
      * destruct (decide (k ∈ kvs.*1)); [rewrite decide_True by (by right)|rewrite decide_False by (by rewrite elem_of_cons; intros [?|?])]; [|done].
        unfold env_value. by rewrite mapget_insert_ne by done.
    + unfold os_value. cbn [list_to_map foldr]. simpl.
      destruct (decide (k = k0)) as [->|Hk].
      * rewrite lookup_insert_eq. rewrite Hset. rewrite not_elem_of_list_to_map_1 by done.
        by rewrite lookup_insert_eq.
      * rewrite !lookup_insert_ne by done. by rewrite mapget_insert_ne by done.
Qed.

(** The two maps the loop leaves, as closed expressions of the inputs. *)
Definition env_final (os : gmap string string) : gmap string string :=
  map_imap (fun k v => env_value os k (Some v)) ENV.

Definition os_final (os : gmap string string) : gmap string string :=
  filter (fun kv => mapget "" os kv.1 = "") ENV ∪ os.

Lemma env_loop_final kvs os :
  kvs ≡ₚ map_to_list ENV -> env_loop kvs ENV os = (env_final os, os_final os).
Proof.
  intros Hperm.
  assert (NoDup kvs.*1) as Hnd by (rewrite Hperm; apply NoDup_fst_map_to_list).
  assert (list_to_map kvs = ENV) as Hmap.
  { transitivity (list_to_map (map_to_list ENV) : gmap string string);
      [by apply list_to_map_proper | apply list_to_map_to_list]. }
  assert (forall k v, (k, v) ∈ kvs -> ENV !! k = Some v) as Hin.
  { intros k v. rewrite Hperm. apply elem_of_map_to_list. }
  rewrite (surjective_pairing (env_loop kvs ENV os)).
  f_equal; apply map_eq; intros k;
    destruct (env_loop_spec kvs ENV os Hnd Hin k) as [H1 H2].
  - rewrite H1. unfold env_final. rewrite map_lookup_imap.
    destruct (ENV !! k) as [v|] eqn:Hk; simpl.
    + rewrite decide_True; [done|]. apply (list_elem_of_fmap_2' fst _ (k, v)); [|done].
      rewrite Hperm. by apply elem_of_map_to_list.
    + by case_decide.
  - rewrite H2. unfold os_value, os_final. rewrite Hmap, lookup_union, map_lookup_filter.
    destruct (ENV !! k) as [v|]; simpl.
    + destruct (String.eqb_spec (mapget "" os k) "").
      * rewrite option_guard_True by done. simpl. by destruct (os !! k).
      * rewrite option_guard_False by done. by destruct (os !! k).
    + by destruct (os !! k).
Qed.

(** C37. The package initialiser gives the same settings and the same process
    environment whatever the order in which Go ranges over [ENV]: a variable set
    to a non-empty value overrides the default, every other variable of [ENV] is
    exported with its default, and the other variables are left alone. *)
Theorem init_order_independent oob unified kvs os :
  kvs ≡ₚ map_to_list ENV ->
  init oob unified kvs os =
    (let! s := settings oob unified (env_final os) in Ok (s, os_final os)).
Proof. intros H. unfold init. by rewrite (env_loop_final kvs os H). Qed.

Lemma init_order_independent_witness :
  exists s, init (fun _ => 0) true (List.rev (map_to_list ENV)) {["PORT" := "80"]} =
            Ok (s, os_final {["PORT" := "80"]}).
Proof.
  eexists. rewrite (init_order_independent (fun _ => 0) true);
    [ | symmetry; apply Permutation_rev].
  vm_compute. reflexivity.
Defined.

(** With nothing set, the settings are the documented defaults of the source. *)
Lemma settings_default oob unified :
  settings oob unified (env_final ∅) =
    Ok (mk ENV (20 * Second) false (5 * Second) 5 6 unified).
Proof. vm_compute. reflexivity. Qed.

(** The settings read only a few keys; a bad refresh period stops them at once. *)
Lemma settings_bad_refresh oob unified e :
  is_err (ParseDuration oob (mapget "" e "REFRESH_TIME")) = true ->
  is_panic (settings oob unified e) = true.
Proof.
  unfold settings, orPanic. by destruct (ParseDuration oob (mapget "" e "REFRESH_TIME")).
Qed.

(** [REFRESH_TIME] must carry a unit: a bare number (the "number of
    second" of the README) makes the initialiser panic, whatever the rest of the
    environment. *)
Theorem init_panics_without_unit oob unified kvs os v :
  kvs ≡ₚ map_to_list ENV ->
  os !! "REFRESH_TIME" = Some v -> all_chars is_digit v = true -> v <> "" -> v <> "0" ->
  is_panic (init oob unified kvs os) = true.
Proof.
  intros Hkvs Hos Hdig Hne H0. unfold init. rewrite (env_loop_final kvs os Hkvs).
  assert (mapget "" (env_final os) "REFRESH_TIME" = v) as Hv.
  { unfold mapget, env_final. rewrite map_lookup_imap. simpl.
    unfold mapget. rewrite Hos. simpl. destruct (String.eqb_spec v ""); [done|done]. }
  pose proof (settings_bad_refresh oob unified (env_final os)) as Hset.
  rewrite Hv, (ParseDuration_digits oob v Hdig Hne H0) in Hset.
  specialize (Hset eq_refl). by destruct (settings oob unified (env_final os)).
Qed.

Lemma init_panics_without_unit_witness :
  is_panic (init (fun _ => 0) false (map_to_list ENV) {["REFRESH_TIME" := "20"]}) = true.
Proof.
  apply (init_panics_without_unit _ _ _ _ "20"); [done | reflexivity | reflexivity | done | done].
Defined.

End Config.
