(* ===== verification/ProcfsUtils.v ===== *)
(** * procfs/utils.go: files and sysconf, and reading a file line by line

    A file is what its reads return: its bytes, and the error that ends them
    ([None] is [io.EOF]).  [os.Open] and [sysconf] are the operating system's:
    they are the fields of the interfaces [FS] and [Sysconf]. *)
From S2P Require Import Prelude GoStrings.

Record file : Type := mkFile { contents : string; readError : option error }.

(** [procfs.FS] and [procfs.Sysconf]. *)
Class FS : Type := { Open : string -> outcome file }.
Class Sysconf : Type := { ClockTick : outcome Z }.

(** [FileSystem.Open] over [os.Open]. *)
Definition FileSystem (osOpen : string -> outcome file) : FS :=
  {| Open := fun filename => wrapMsg "open file" (osOpen filename) |}.

(** [SysconfReader.ClockTick] over [sysconf.Sysconf]. *)
Inductive sysconfName : Type := SC_CLK_TCK.
Definition SysconfReader (sysconf : sysconfName -> outcome Z) : Sysconf :=
  {| ClockTick := sysconf SC_CLK_TCK |}.

(** [reader.ReadString('\n')]: the line with its newline and what is left, or
    [None] when the data ends before a newline (and an error is returned). *)
Fixpoint ReadString (s : string) : option (string * string) :=
  match s with
  | "" => None
  | String c s' =>
      if Ascii.eqb c nl then Some (eol, s')
      else match ReadString s' with
           | Some (line, rest) => Some (String c line, rest)
           | None => None
           end
  end.

(** The reading loop [for { line, err := reader.ReadString('\n'); ... }] of the
    parsers: [io.EOF] leaves the loop (even if some data came with it), any other
    error ends the function.  Every iteration consumes at least one byte, so the
    length of the file is enough fuel. *)
Fixpoint readLoop {A} (fuel : nat) (body : string -> A -> outcome A) (readErr : option error)
    (content : string) (acc : A) : outcome A :=
  match ReadString content with
  | None => match readErr with None => Ok acc | Some e => Err e end
  | Some (line, rest) =>
      match fuel with
      | O => Ok acc
      | S fuel => let! acc' := body line acc in readLoop fuel body readErr rest acc'
      end
  end.

Definition forEachLine {A} (body : string -> A -> outcome A) (message : string) (f : file) (acc : A)
    : outcome A :=
  readLoop (String.length (contents f)) body
    (match readError f with None => None | Some e => Some (Wrap (Some e) message) end)
    (contents f) acc.

(** ** Lemmas *)

Definition no_nl (s : string) : bool := all_chars (fun c => negb (Ascii.eqb c nl)) s.

Lemma ReadString_line s rest :
  no_nl s = true -> ReadString (s +:+ eol +:+ rest) = Some (s +:+ eol, rest).
Proof.
  induction s as [|c s IH]; [done|]. unfold no_nl. cbn [all_chars].
  rewrite andb_true_iff, negb_true_iff. intros [Hc Hs].
  rewrite string_app_cons. cbn [ReadString]. by rewrite Hc, IH.
Qed.

Lemma ReadString_tail s : no_nl s = true -> ReadString s = None.
Proof.
  induction s as [|c s IH]; [done|]. unfold no_nl. cbn [all_chars].
  rewrite andb_true_iff, negb_true_iff. intros [Hc Hs]. cbn [ReadString]. by rewrite Hc, IH.
Qed.

Lemma ReadString_shorter s line rest :
  ReadString s = Some (line, rest) -> (String.length rest < String.length s)%nat.
Proof.
  revert line. induction s as [|c s IH]; intros line; [done|]. simpl.
  destruct (Ascii.eqb c nl); intros H; simplify_eq; [lia|].
  destruct (ReadString s) as [[l r]|] eqn:E; simplify_eq. specialize (IH l eq_refl). lia.
Qed.

(** More fuel than the length changes nothing. *)
Lemma readLoop_fuel {A} n m body e content (acc : A) :
  (String.length content <= n)%nat -> (n <= m)%nat ->
  readLoop n body e content acc = readLoop m body e content acc.
Proof.
  revert m content acc. induction n as [|n IH]; intros m content acc Hlen Hle.
  - destruct content; simpl in Hlen; [|lia]. by destruct m.
  - destruct m as [|m]; [lia|]. simpl.
    destruct (ReadString content) as [[line rest]|] eqn:E; [|done].
    apply ReadString_shorter in E.
    destruct (body line acc); simpl; [|done|done]. apply IH; lia.
Qed.

(** A whole file: complete lines, then bytes without a newline. *)
Fixpoint unlines (ls : list string) : string :=
  match ls with [] => "" | l :: ls' => l +:+ eol +:+ unlines ls' end.

Fixpoint foldLines {A} (body : string -> A -> outcome A) (ls : list string) (acc : A) : outcome A :=
  match ls with
  | [] => Ok acc
  | l :: ls' => let! acc' := body (l +:+ eol) acc in foldLines body ls' acc'
  end.

Lemma unlines_app ls tail : unlines ls +:+ tail =
  foldr (fun l s => l +:+ eol +:+ s) tail ls.
Proof.
  induction ls as [|l ls IH]; [done|]. simpl. rewrite <- IH.
  by rewrite !string_app_assoc.
Qed.

(** The loop visits the complete lines in order; unterminated data at the end of
    the file is never looked at. *)
Lemma readLoop_lines {A} n ls tail body e (acc : A) :
  forallb no_nl ls = true -> no_nl tail = true -> (String.length (unlines ls +:+ tail) <= n)%nat ->
  readLoop n body e (unlines ls +:+ tail) acc =
    (let! a := foldLines body ls acc in match e with None => Ok a | Some er => Err er end).
Proof.
  intros Hls Htail. revert acc n. induction ls as [|l ls IH]; intros acc n Hn.
  - simpl. rewrite string_app_nil_l. destruct n; simpl; by rewrite ReadString_tail.
  - simpl in Hls. apply andb_true_iff in Hls as [Hl Hls]. simpl in *.
    rewrite !string_app_assoc in *. destruct n as [|n].
    + rewrite !string_app_length in Hn. simpl in Hn. lia.
    + cbn [readLoop]. rewrite ReadString_line by done.
      destruct (body (l +:+ eol) acc) as [a| |]; simpl; [|done|done].
      apply IH; [done|]. rewrite !string_app_length in *. simpl in Hn. lia.
Qed.

Lemma forEachLine_unlines {A} body msg ls tail (acc : A) :
  forallb no_nl ls = true -> no_nl tail = true ->
  forEachLine body msg (mkFile (unlines ls +:+ tail) None) acc = foldLines body ls acc.
Proof.
  intros Hls Htail. unfold forEachLine. cbn [contents readError].
  rewrite readLoop_lines by done. by destruct (foldLines body ls acc).
Qed.

Lemma foldLines_app {A} body ls1 ls2 (acc : A) :
  foldLines body (ls1 ++ ls2)%list acc =
  (let! acc' := foldLines body ls1 acc in foldLines body ls2 acc').
Proof.
  revert acc. induction ls1 as [|l ls1 IH]; intros acc; [done|]. simpl.
  rewrite obind_assoc. destruct (body (l +:+ eol) acc); simpl; [apply IH | done | done].
Qed.

(** What every line keeps, the loop keeps. *)
Lemma readLoop_inv {A} (P : A -> Prop) n body e content (acc a : A) :
  (forall line x y, P x -> body line x = Ok y -> P y) -> P acc -> readLoop n body e content acc = Ok a -> P a.
Proof.
  intros Hb. revert content acc. induction n as [|n IH]; intros content acc Hacc H; cbn [readLoop] in H.
  - destruct (ReadString content) as [[line rest]|]; [by inv_ok|]. destruct e; by inv_ok.
  - destruct (ReadString content) as [[line rest]|]; [|destruct e; by inv_ok].
    apply obind_ok in H as (y & Hy & H). eapply IH; [|exact H]. by eapply Hb.
Qed.

(** Every text is complete lines and a rest without a newline. *)
Lemma unlines_split s :
  exists ls tail, s = unlines ls +:+ tail /\ forallb no_nl ls = true /\ no_nl tail = true.
Proof.
  induction s as [|c s (ls & tail & -> & Hls & Htail)]; [by exists [], ""|].
  destruct (Ascii.eqb_spec c nl) as [->|Hc].
  - exists ("" :: ls), tail. split; [done|]. split; [|done]. exact Hls.
  - assert (negb (Ascii.eqb c nl) = true) as Hc' by by apply negb_true_iff, Ascii.eqb_neq.
    destruct ls as [|l ls].
    + exists [], (String c tail). split; [done|]. split; [done|]. unfold no_nl. cbn [all_chars]. by rewrite Hc'.
    + exists (String c l :: ls), tail. split; [done|]. split; [|done].
      cbn [forallb] in Hls |- *. unfold no_nl at 1. cbn [all_chars]. by rewrite Hc'.
Qed.

(** ** Property *)

(** C22. The reading loop of the parsers ends on every file: whatever its bytes,
    it runs its body once for each complete line, in order, until the body fails,
    ignores what follows the last newline, and ends with the error of the last
    read, if that is not the end of the file; the fuel of the model, the length of
    the file, is never what stops it. *)
Theorem forEachLine_terminates {A} (body : string -> A -> outcome A) (message : string) (f : file) (acc : A) :
  exists ls tail, contents f = unlines ls +:+ tail /\ forallb no_nl ls = true /\ no_nl tail = true /\
    forEachLine body message f acc =
      (let! a := foldLines body ls acc in
       match readError f with None => Ok a | Some e => Err (Wrap (Some e) message) end) /\
    forall fuel, (String.length (contents f) <= fuel)%nat ->
      forEachLine body message f acc =
        readLoop fuel body (match readError f with None => None | Some e => Some (Wrap (Some e) message) end)
          (contents f) acc.
Proof.
  destruct (unlines_split (contents f)) as (ls & tail & E & Hls & Htail). exists ls, tail.
  split; [done|]. split; [done|]. split; [done|].
  split; [|intros fuel Hf; by apply readLoop_fuel].
  unfold forEachLine. rewrite E.
  rewrite readLoop_lines by (done || lia). by destruct (readError f).
Qed.

(** The last line has no newline: it is not read. *)
Lemma forEachLine_terminates_witness :
  exists ls tail, unlines ls +:+ tail = "a" +:+ eol +:+ "b" /\
    forEachLine (fun line n => Ok (n + Z.of_nat (String.length line))) "read" (mkFile ("a" +:+ eol +:+ "b") None) 0 = Ok 2.
Proof.
  destruct (forEachLine_terminates (fun line n => Ok (n + Z.of_nat (String.length line))) "read"
              (mkFile ("a" +:+ eol +:+ "b") None) 0) as (ls & tail & E & _ & _ & _ & H).
  exists ls, tail. split; [by rewrite <- E|]. rewrite (H 3%nat) by reflexivity. reflexivity.
Defined.
