(* ===== verification/Cgroup.v ===== *)
(** * cgroup/: loading a container's cgroup and reading its statistics

    [NewManager], [GetStats] and the conversions of the cgroup v1 and v2 metrics
    into [Stats].  The metrics themselves (the protobuf messages of
    containerd/cgroups, whose getters return zero values on nil) are data; loading
    a cgroup and reading its files are the operations of [CgroupLib], a parameter. *)
From S2P Require Import Prelude GoStrings GoTime Config.

(** ** What the package exports *)

(** [procfs.MountInfos]: the interface through which devices are named. *)
Class MountInfos : Type := {
  Mountpoint : Z -> Z -> string;
  DevicePath : Z -> Z -> string }.

Record IODeviceUsage : Type := mkIODevice {
  dev_path : string;
  dev_mountpoint : string;
  Major : Z;
  Minor : Z;
  ReadBytes : Z;
  WriteBytes : Z;
  ReadIOs : Z;
  WriteIOs : Z }.

Record IOUsage : Type := mkIOUsage { Devices : list IODeviceUsage }.

Record Stats : Type := mkStats {
  CPUUsage : Z;
  MemoryUsage : Z;
  MemoryMaxUsage : Z;
  MemoryLimit : Z;
  SwapUsage : Z;
  SwapMaxUsage : Z;
  SwapLimit : Z;
  IOUsageOf : IOUsage }.

(** The zero value [Stats{}]. *)
Definition zeroStats : Stats := mkStats 0 0 0 0 0 0 0 (mkIOUsage []).

#[export] Instance IODeviceUsage_eq_dec : EqDecision IODeviceUsage.
Proof. solve_decision. Defined.
#[export] Instance IOUsage_eq_dec : EqDecision IOUsage.
Proof. solve_decision. Defined.
#[export] Instance Stats_eq_dec : EqDecision Stats.
Proof. solve_decision. Defined.

(** [cgroup.StatsReader]: the interface the CPU monitor and the resource getter
    use.  What it promises its clients is that every error it returns is
    recognised by [errors.As] as a [StatsReaderError]. *)
Class StatsReader : Type := { GetStats : string -> outcome Stats }.
Class StatsReaderSpec (r : StatsReader) : Prop := {
  GetStats_error : forall id e, GetStats id = Err e -> asStatsReaderError e = true }.

(** ** The library's metrics *)

Record BlkIOEntry : Type := mkBlkIOEntry {
  Op : string; Device : string; entMajor : Z; entMinor : Z; Value : Z }.
Record BlkIOStat : Type := mkBlkIOStat {
  IoServiceBytesRecursive : list BlkIOEntry;
  IoServicedRecursive : list BlkIOEntry }.
Record MemoryEntry : Type := mkMemoryEntry { memUsage : Z; memMax : Z; memLimit : Z }.
Record MemoryStatV1 : Type := mkMemoryStatV1 {
  memoryUsage : option MemoryEntry; memorySwap : option MemoryEntry }.
(** [CPUStat.Usage.Total], each level a pointer. *)
Record CPUStatV1 : Type := mkCPUStatV1 { cpuTotal : option Z }.
Record MetricsV1 : Type := mkMetricsV1 {
  v1CPU : option CPUStatV1; v1Memory : option MemoryStatV1; v1Blkio : option BlkIOStat }.

Record IOEntry : Type := mkIOEntry {
  ioMajor : Z; ioMinor : Z; Rbytes : Z; Wbytes : Z; Rios : Z; Wios : Z }.
Record MemoryStatV2 : Type := mkMemoryStatV2 {
  v2Usage : Z; v2UsageLimit : Z; v2SwapUsage : Z; v2SwapLimit : Z }.
Record MetricsV2 : Type := mkMetricsV2 {
  v2UsageUsec : option Z; v2Memory : option MemoryStatV2; v2Io : option (list IOEntry) }.

(** The protobuf getters: zero on a nil receiver. *)
Definition getEntry (f : MemoryEntry -> Z) (e : option MemoryEntry) : Z :=
  match e with Some m => f m | None => 0 end.
Definition getMemory (f : MemoryStatV1 -> option MemoryEntry) (m : option MemoryStatV1) :=
  match m with Some s => f s | None => None end.
Definition getCPUTotal (c : option CPUStatV1) : Z :=
  match c with Some s => default 0 (cpuTotal s) | None => 0 end.

(** ** cgroup/stats.go: conversions *)

(** In cgroup v1 the swap counters include memory; the difference saturates at 0. *)
Definition cgroupV1SwapMetric (memoryAndSwap memory : Z) : Z :=
  if memoryAndSwap <? memory then 0 else subu memoryAndSwap memory.

Section Conversions.
Context {mountInfos : MountInfos}.

Definition cgroupV2IOUsage (ioStat : option (list IOEntry)) : IOUsage :=
  match ioStat with
  | None => mkIOUsage []
  | Some usage =>
      mkIOUsage (map (fun e =>
        mkIODevice (DevicePath (ioMajor e) (ioMinor e)) (Mountpoint (ioMajor e) (ioMinor e))
          (ioMajor e) (ioMinor e) (Rbytes e) (Wbytes e) (Rios e) (Wios e)) usage)
  end.

(** The key under which the lines of a device are gathered. *)
Definition deviceKeyV1 (e : BlkIOEntry) : string :=
  if String.eqb (Device e) ""
  then FormatUint (entMajor e) +:+ ":" +:+ FormatUint (entMinor e)
  else Device e.

Definition newDevice (e : BlkIOEntry) : IODeviceUsage :=
  mkIODevice (DevicePath (entMajor e) (entMinor e)) (Mountpoint (entMajor e) (entMinor e))
    (entMajor e) (entMinor e) 0 0 0 0.

Definition deviceUpdate : Type := IODeviceUsage -> string -> Z -> IODeviceUsage.

(** The closures passed for the byte counters and for the operation counters. *)
Definition updateBytes : deviceUpdate := fun d op v =>
  if String.eqb op "read" then
    mkIODevice (dev_path d) (dev_mountpoint d) (Major d) (Minor d)
      (addu (ReadBytes d) v) (WriteBytes d) (ReadIOs d) (WriteIOs d)
  else if String.eqb op "write" then
    mkIODevice (dev_path d) (dev_mountpoint d) (Major d) (Minor d)
      (ReadBytes d) (addu (WriteBytes d) v) (ReadIOs d) (WriteIOs d)
  else d.

Definition updateIOs : deviceUpdate := fun d op v =>
  if String.eqb op "read" then
    mkIODevice (dev_path d) (dev_mountpoint d) (Major d) (Minor d)
      (ReadBytes d) (WriteBytes d) (addu (ReadIOs d) v) (WriteIOs d)
  else if String.eqb op "write" then
    mkIODevice (dev_path d) (dev_mountpoint d) (Major d) (Minor d)
      (ReadBytes d) (WriteBytes d) (ReadIOs d) (addu (WriteIOs d) v)
  else d.

(** The map of devices (each value is a pointer held by one key only) and the
    order in which their keys first appeared. *)
Definition devState : Type := gmap string IODeviceUsage * list string.

Definition updateCgroupV1Device (update : deviceUpdate) (st : devState) (e : BlkIOEntry) : devState :=
  let '(devices, order) := st in
  let op := ToLower (Op e) in
  if negb (String.eqb op "read") && negb (String.eqb op "write") then st
  else
    let key := deviceKeyV1 e in
    match devices !! key with
    | Some device => (<[key := update device op (Value e)]> devices, order)
    | None => (<[key := update (newDevice e) op (Value e)]> devices, (order ++ [key])%list)
    end.

Definition zeroDevice : IODeviceUsage := mkIODevice "" "" 0 0 0 0 0 0.

(** The last loop, [*devices[key]] for the keys in order: a key missing from the
    map would be a nil dereference. *)
Fixpoint collectDevices (devices : gmap string IODeviceUsage) (order : list string)
    : outcome (list IODeviceUsage) :=
  match order with
  | [] => Ok []
  | key :: keys =>
      match devices !! key with
      | None => Panic "runtime error: invalid memory address or nil pointer dereference"
      | Some d => let! ds := collectDevices devices keys in Ok (d :: ds)
      end
  end.

Definition cgroupV1IOUsage (blkioStat : option BlkIOStat) : outcome IOUsage :=
  match blkioStat with
  | None => Ok (mkIOUsage [])
  | Some b =>
      let st1 := fold_left (updateCgroupV1Device updateBytes) (IoServiceBytesRecursive b) (∅, []) in
      let '(devices, order) :=
        fold_left (updateCgroupV1Device updateIOs) (IoServicedRecursive b) st1 in
      let! ds := collectDevices devices order in
      Ok (mkIOUsage ds)
  end.

Definition cgroupV1Stats (stats : MetricsV1) : outcome Stats :=
  let mu := getMemory memoryUsage (v1Memory stats) in
  let ms := getMemory memorySwap (v1Memory stats) in
  let! io := cgroupV1IOUsage (v1Blkio stats) in
  Ok (mkStats
    (muli (i64 (getCPUTotal (v1CPU stats))) Nanosecond)
    (getEntry memUsage mu) (getEntry memMax mu) (getEntry memLimit mu)
    (cgroupV1SwapMetric (getEntry memUsage ms) (getEntry memUsage mu))
    (cgroupV1SwapMetric (getEntry memMax ms) (getEntry memMax mu))
    (cgroupV1SwapMetric (getEntry memLimit ms) (getEntry memLimit mu))
    io).

(** The maxima stay at their zero value: cgroup v2 metrics do not carry them. *)
Definition cgroupV2Stats (stats : MetricsV2) : outcome Stats :=
  match v2UsageUsec stats, v2Memory stats with
  | Some usec, Some m =>
      Ok (mkStats (muli (i64 usec) Microsecond)
            (v2Usage m) 0 (v2UsageLimit m) (v2SwapUsage m) 0 (v2SwapLimit m)
            (cgroupV2IOUsage (v2Io stats)))
  | _, _ => Panic "runtime error: invalid memory address or nil pointer dereference"
  end.

End Conversions.

(** ** cgroup/manager.go and GetStats *)

(** How [NewManager] asks containerd/cgroups for a cgroup. *)
Inductive loadRequest : Type :=
| LoadSystemdV2 (slice group : string)
| LoadSliceV1 (slice name : string)
| LoadStaticV1 (path : string).

(** The operations of containerd/cgroups. *)
Class CgroupLib : Type := {
  handle : Type;
  load : loadRequest -> outcome handle;
  statV1 : handle -> outcome MetricsV1;
  statV2 : handle -> outcome MetricsV2;
  procsV2 : handle -> outcome (list Z);
  tasksV1 : handle -> string -> outcome (list Z) }.

Section Reader.
Context {lib : CgroupLib} {mountInfos : MountInfos}.
Variable config : Config.t.

(** One of the two managers is nil. *)
Record Manager : Type := mkManager {
  cgroupV1Manager : option handle; cgroupV2Manager : option handle; v2 : bool; systemd : bool }.

Definition loadRequestFor (containerID : string) : loadRequest :=
  if Config.IsUsingCgroupV2 config then
    LoadSystemdV2 "/system.slice" ("docker-" +:+ containerID +:+ ".scope")
  else if String.eqb (mapget "" (Config.env config) "CGROUP_SOURCE") "systemd" then
    LoadSliceV1 "system.slice" ("docker-" +:+ containerID +:+ ".scope")
  else LoadStaticV1 ("docker/" +:+ containerID).

Definition NewManager (containerID : string) : outcome Manager :=
  let isV2 := Config.IsUsingCgroupV2 config in
  let sysd := String.eqb (mapget "" (Config.env config) "CGROUP_SOURCE") "systemd" || isV2 in
  let! h := wrapMsg ("load cgroup, systemd: " +:+ FormatBool sysd +:+ ", v2: " +:+ FormatBool isV2)
    (load (loadRequestFor containerID)) in
  Ok (if isV2 then mkManager None (Some h) isV2 sysd else mkManager (Some h) None isV2 sysd).

Definition IsV2 (m : Manager) : bool := v2 m.
Definition V1Manager (m : Manager) : option handle := cgroupV1Manager m.
Definition V2Manager (m : Manager) : option handle := cgroupV2Manager m.

(** [Manager.Pids]: an int-valued pid of the v1 tasks is converted to [uint64]. *)
Definition Pids (m : Manager) : outcome (list Z) :=
  if v2 m then let! h := deref (cgroupV2Manager m) in procsV2 h
  else let! h := deref (cgroupV1Manager m) in
       let! tasks := wrapMsg "get cgroup v1 tasks" (tasksV1 h "memory") in
       Ok (map u64 tasks).

Definition getCgroupV2Stats (m : Manager) : outcome Stats :=
  let! h := deref (V2Manager m) in
  let! s := wrapMsg "get cgroup v2 stats" (statV2 h) in cgroupV2Stats s.

Definition getCgroupV1Stats (m : Manager) : outcome Stats :=
  let! h := deref (V1Manager m) in
  let! s := wrapMsg "get cgroup v1 stats" (statV1 h) in cgroupV1Stats s.

(** [return Stats{}, NewStatsReaderError(errors.Wrap(ctx, err, message))]. *)
Definition statsReaderError {A} (message : string) (o : outcome A) : outcome A :=
  wrap (fun e => StatsReaderError (Wrap (Some e) message)) o.

Definition GetStatsImpl (containerID : string) : outcome Stats :=
  let! m := statsReaderError "create cgroup manager" (NewManager containerID) in
  statsReaderError "get cgroup stats"
    (if IsV2 m then getCgroupV2Stats m else getCgroupV1Stats m).

Definition StatsReaderImpl : StatsReader := {| GetStats := GetStatsImpl |}.

End Reader.

(** ** Specification of the v1 aggregation

    The lines of the two tables in the order they are read: [true] marks the
    table of byte counters, [false] the table of operation counters. *)
Definition ioLine : Type := bool * BlkIOEntry.

Definition ioLines (b : BlkIOStat) : list ioLine :=
  (map (pair true) (IoServiceBytesRecursive b) ++ map (pair false) (IoServicedRecursive b))%list.

Definition lineOp (l : ioLine) : string := ToLower (Op l.2).
Definition lineKey (l : ioLine) : string := deviceKeyV1 l.2.

Definition lineCounts (l : ioLine) : bool :=
  String.eqb (lineOp l) "read" || String.eqb (lineOp l) "write".

(** The keys of the counted lines, each once, in order of first appearance. *)
Definition keysOf (ls : list ioLine) : list string :=
  fold_left (fun ks l =>
    if lineCounts l && negb (bool_decide (lineKey l ∈ ks)) then (ks ++ [lineKey l])%list else ks) ls [].

Definition lineMatches (bytes : bool) (op key : string) (l : ioLine) : bool :=
  Bool.eqb l.1 bytes && String.eqb (lineOp l) op && String.eqb (lineKey l) key.

(** The exact total of one counter of one device. *)
Definition total (bytes : bool) (op key : string) (ls : list ioLine) : Z :=
  foldr Z.add 0 (map (fun l => if lineMatches bytes op key l then Value l.2 else 0) ls).

Definition firstLine (key : string) (ls : list ioLine) : option ioLine :=
  List.find (fun l => lineCounts l && String.eqb (lineKey l) key) ls.

Section AggregationSpec.
Context {mountInfos : MountInfos}.

(** What a device must report: the names and numbers of its first line, and the
    totals of its counters as 64-bit unsigned integers. *)
Definition specDevice (ls : list ioLine) (key : string) : IODeviceUsage :=
  match firstLine key ls with
  | None => zeroDevice
  | Some (_, e) =>
      mkIODevice (DevicePath (entMajor e) (entMinor e)) (Mountpoint (entMajor e) (entMinor e))
        (entMajor e) (entMinor e)
        (u64 (total true "read" key ls)) (u64 (total true "write" key ls))
        (u64 (total false "read" key ls)) (u64 (total false "write" key ls))
  end.

Definition specIOUsage (b : BlkIOStat) : IOUsage :=
  mkIOUsage (map (specDevice (ioLines b)) (keysOf (ioLines b))).

Definition runLine (st : devState) (l : ioLine) : devState :=
  updateCgroupV1Device (if l.1 then updateBytes else updateIOs) st l.2.

(** ** Lemmas *)

Lemma keysOf_snoc ls l :
  keysOf (ls ++ [l])%list =
    if lineCounts l && negb (bool_decide (lineKey l ∈ keysOf ls))
    then (keysOf ls ++ [lineKey l])%list else keysOf ls.
Proof. unfold keysOf. by rewrite fold_left_app. Qed.

Lemma total_snoc bytes op key ls l :
  total bytes op key (ls ++ [l])%list =
    total bytes op key ls + (if lineMatches bytes op key l then Value l.2 else 0).
Proof.
  unfold total. rewrite map_app. generalize (map (fun l => if lineMatches bytes op key l then Value l.2 else 0) ls).
  intros vs. induction vs as [|v vs IH]; simpl in *; lia.
Qed.

Lemma keysOf_elem ls key :
  key ∈ keysOf ls <-> exists l, l ∈ ls /\ lineCounts l = true /\ lineKey l = key.
Proof.
  induction ls as [|l ls IH] using rev_ind.
  { split; [by intros ?%not_elem_of_nil | intros (? & ?%not_elem_of_nil & _); done]. }
  rewrite keysOf_snoc. setoid_rewrite elem_of_app. setoid_rewrite list_elem_of_singleton.
  destruct (lineCounts l) eqn:Hc; simpl.
  2: { rewrite IH. split; [naive_solver|]. intros (l' & [?| ->] & ? & ?); [naive_solver|congruence]. }
  case_bool_decide as Hin; simpl.
  - rewrite IH. split; [naive_solver|]. intros (l' & [?| ->] & ? & <-); [naive_solver|]. by apply IH.
  - rewrite elem_of_app, list_elem_of_singleton, IH. naive_solver.
Qed.

Lemma keysOf_NoDup ls : NoDup (keysOf ls).
Proof.
  induction ls as [|l ls IH] using rev_ind; [constructor|].
  rewrite keysOf_snoc. destruct (lineCounts l); simpl; [|done].
  case_bool_decide; simpl; [done|].
  apply list.NoDup_app. split; [done|]. split; [|apply NoDup_singleton].
  intros x Hx ->%list_elem_of_singleton. done.
Qed.

Lemma firstLine_None key ls : firstLine key ls = None <-> key ∉ keysOf ls.
Proof.
  unfold firstLine. rewrite keysOf_elem. split.
  - intros H (l & Hin & Hc & Hk). rewrite list_elem_of_In in Hin.
    eapply find_none in H; [|exact Hin]. simpl in H.
    rewrite Hc, Hk, String.eqb_refl in H. done.
  - intros H. destruct (List.find _ ls) as [l|] eqn:Hf; [|done].
    apply find_some in Hf as [Hin Hf]. apply andb_true_iff in Hf as [Hc Hk%String.eqb_eq].
    destruct H. exists l. by rewrite list_elem_of_In.
Qed.

Lemma firstLine_snoc key ls l :
  firstLine key (ls ++ [l])%list =
    match firstLine key ls with
    | Some l' => Some l'
    | None => if lineCounts l && String.eqb (lineKey l) key then Some l else None
    end.
Proof.
  unfold firstLine. induction ls as [|l' ls IH]; simpl; [done|].
  by destruct (lineCounts l' && String.eqb (lineKey l') key).
Qed.

Lemma lineMatches_counts bytes op key l :
  (op = "read" \/ op = "write") -> lineMatches bytes op key l = true ->
  lineCounts l = true /\ lineKey l = key.
Proof.
  unfold lineMatches, lineCounts. rewrite !andb_true_iff, orb_true_iff, !String.eqb_eq.
  intros [-> | ->] [[_ ?] ?]; auto.
Qed.

Lemma total_unseen bytes op key ls :
  (op = "read" \/ op = "write") -> key ∉ keysOf ls -> total bytes op key ls = 0.
Proof.
  intros Hop. induction ls as [|l ls IH] using rev_ind; intros H; [done|].
  rewrite total_snoc. rewrite IH.
  - destruct (lineMatches bytes op key l) eqn:Hm; [|lia].
    destruct (lineMatches_counts _ _ _ _ Hop Hm). destruct H. apply keysOf_elem.
    exists l. rewrite elem_of_app, list_elem_of_singleton. auto.
  - contradict H. apply keysOf_elem in H as (l' & ? & ? & ?). apply keysOf_elem.
    exists l'. rewrite elem_of_app. auto.
Qed.

Lemma specDevice_irrelevant ls l key :
  lineCounts l = false -> specDevice (ls ++ [l])%list key = specDevice ls key.
Proof.
  intros Hc. unfold specDevice. rewrite firstLine_snoc, Hc. simpl.
  assert (forall bytes op, (op = "read" \/ op = "write") ->
            total bytes op key (ls ++ [l])%list = total bytes op key ls) as Ht.
  { intros bytes op Hop. rewrite total_snoc.
    destruct (lineMatches bytes op key l) eqn:Hm; [|lia].
    destruct (lineMatches_counts _ _ _ _ Hop Hm). congruence. }
  destruct (firstLine key ls) as [[b e]|]; [|done]. rewrite !Ht by auto. done.
Qed.

Lemma specDevice_other ls l key :
  lineKey l <> key -> specDevice (ls ++ [l])%list key = specDevice ls key.
Proof.
  intros Hk. unfold specDevice. rewrite firstLine_snoc.
  assert (String.eqb (lineKey l) key = false) as Hk' by by apply String.eqb_neq.
  rewrite Hk', andb_false_r.
  assert (forall bytes op, total bytes op key (ls ++ [l])%list = total bytes op key ls) as Ht.
  { intros bytes op. rewrite total_snoc. unfold lineMatches. rewrite Hk', andb_false_r. lia. }
  destruct (firstLine key ls) as [[b e]|]; [|done]. by rewrite !Ht.
Qed.

Lemma lineCounts_op l :
  lineCounts l = true -> lineOp l = "read" \/ lineOp l = "write".
Proof. unfold lineCounts. by rewrite orb_true_iff, !String.eqb_eq. Qed.

(** Counting a line of a device updates exactly its own counter. *)
Lemma update_specDevice ls l d :
  lineCounts l = true ->
  (firstLine (lineKey l) ls = None /\ d = newDevice l.2
   \/ firstLine (lineKey l) ls <> None /\ d = specDevice ls (lineKey l)) ->
  (if l.1 then updateBytes else updateIOs) d (lineOp l) (Value l.2)
  = specDevice (ls ++ [l])%list (lineKey l).
Proof.
  intros Hc Hd. unfold specDevice at 1. rewrite firstLine_snoc, Hc, String.eqb_refl. cbn [andb].
  rewrite !total_snoc. unfold lineMatches. rewrite String.eqb_refl.
  destruct l as [b e]. cbn [fst snd] in *.
  destruct (lineCounts_op _ Hc) as [Ho | Ho]; rewrite Ho;
  destruct Hd as [[Hf ->] | [Hf ->]].
  all: try (pose proof (proj1 (firstLine_None _ _) Hf) as Hnone;
            rewrite !(fun b op H => total_unseen b op _ _ H Hnone) by auto).
  all: unfold specDevice, newDevice, updateBytes, updateIOs, addu;
       destruct (firstLine (lineKey (b, e)) ls) as [[b' e']|]; try done.
  all: destruct b; simpl; rewrite ?u64_idemp_add, ?Z.add_0_r; done.
Qed.

Lemma dev_inv ls :
  (fold_left runLine ls (∅, [])).2 = keysOf ls /\
  forall key, (fold_left runLine ls (∅, [])).1 !! key =
    if bool_decide (key ∈ keysOf ls) then Some (specDevice ls key) else None.
Proof.
  induction ls as [|l ls [IHo IHd]] using rev_ind; [done|].
  rewrite fold_left_app. cbn [fold_left].
  destruct (fold_left runLine ls (∅, [])) as [devs order] eqn:Hst. simpl in IHo, IHd. subst order.
  rewrite keysOf_snoc. unfold runLine, updateCgroupV1Device.
  change (ToLower (Op l.2)) with (lineOp l). change (deviceKeyV1 l.2) with (lineKey l).
  rewrite <- negb_orb. change (_ || _) with (lineCounts l).
  destruct (lineCounts l) eqn:Hc; cbn [negb andb].
  2: { split; [done|]. intros key. cbn [fst]. rewrite IHd.
       case_bool_decide; [|done]. by rewrite specDevice_irrelevant. }
  rewrite IHd.
  case_bool_decide as Hin; cbn [fst snd negb].
  - split; [done|]. intros key. destruct (decide (lineKey l = key)) as [<-|Hne].
    + rewrite lookup_insert_eq, bool_decide_true by done. f_equal.
      apply update_specDevice; [done|]. right. split; [|done].
      intros Hf%firstLine_None. done.
    + rewrite lookup_insert_ne, IHd by done. case_bool_decide; [|done].
      by rewrite specDevice_other.
  - split; [done|]. intros key. destruct (decide (lineKey l = key)) as [<-|Hne].
    + rewrite lookup_insert_eq, bool_decide_true by set_solver. f_equal.
      apply update_specDevice; [done|]. left. split; [|done]. by apply firstLine_None.
    + rewrite lookup_insert_ne, IHd by done.
      rewrite (bool_decide_ext (key ∈ (keysOf ls ++ [lineKey l])%list) (key ∈ keysOf ls)) by set_solver.
      case_bool_decide; [|done]. by rewrite specDevice_other.
Qed.

Lemma collectDevices_spec devs order f :
  (forall key, key ∈ order -> devs !! key = Some (f key)) ->
  collectDevices devs order = Ok (map f order).
Proof.
  induction order as [|key order IH]; intros H; [done|]. simpl.
  rewrite (H key) by left. rewrite IH by (intros; apply H; by right). done.
Qed.

Lemma cgroupV1IOUsage_Some b : cgroupV1IOUsage (Some b) = Ok (specIOUsage b).
Proof.
  unfold cgroupV1IOUsage.
  assert (forall b0 es st,
            fold_left (updateCgroupV1Device (if b0 : bool then updateBytes else updateIOs)) es st
            = fold_left runLine (map (pair b0) es) st) as Hf.
  { intros b0 es. induction es as [|e es IH]; intros st; [done|]. simpl. rewrite IH. done. }
  rewrite (Hf true), (Hf false), <- fold_left_app.
  change (map (pair true) _ ++ map (pair false) _)%list with (ioLines b).
  destruct (dev_inv (ioLines b)) as [Ho Hd].
  destruct (fold_left runLine (ioLines b) (∅, [])) as [devs order]. simpl in Ho, Hd. subst order.
  rewrite (collectDevices_spec _ _ (specDevice (ioLines b))); [done|].
  intros key Hin. by rewrite Hd, bool_decide_true.
Qed.

End AggregationSpec.

Lemma statsReaderError_as {A} m (o : outcome A) e :
  statsReaderError m o = Err e -> asStatsReaderError e = true.
Proof. destruct o; simpl; intros; inv_ok; done. Qed.

(** Metrics as the libraries fill them in: they do not panic, and the v2 metrics
    always hold the statistics of the CPU and of the memory. *)
Record completeLib (lib : CgroupLib) : Prop := {
  complete_load : forall r p, @load lib r <> Panic p;
  complete_v1 : forall h p, @statV1 lib h <> Panic p;
  complete_v2 : forall h, match @statV2 lib h with
    | Ok s => is_Some (v2UsageUsec s) /\ is_Some (v2Memory s)
    | Err _ => True
    | Panic _ => False
    end }.

Lemma GetStats_no_panic {lib : CgroupLib} {mi : MountInfos} config id p :
  completeLib lib -> GetStatsImpl config id <> Panic p.
Proof.
  intros [Hl H1 H2]. unfold GetStatsImpl, statsReaderError, NewManager, wrapMsg.
  destruct (load (loadRequestFor config id)) as [h|e|m] eqn:E; [|done|by destruct (Hl _ _ E)].
  cbn [wrap obind]. unfold IsV2, getCgroupV2Stats, getCgroupV1Stats, V2Manager, V1Manager, wrapMsg.
  destruct (Config.IsUsingCgroupV2 config); cbn [cgroupV1Manager cgroupV2Manager v2 deref obind].
  - specialize (H2 h). destruct (statV2 h) as [s| |]; [|done..]. destruct H2 as [[u Hu] [m Hm]].
    cbn [wrap obind]. unfold cgroupV2Stats. by rewrite Hu, Hm.
  - destruct (statV1 h) as [s|e|m] eqn:Es; [|done|by destruct (H1 _ _ Es)].
    cbn [wrap obind]. unfold cgroupV1Stats. destruct (v1Blkio s) as [b|]; [by rewrite cgroupV1IOUsage_Some|done].
Qed.

Lemma GetStatsImpl_error {lib : CgroupLib} {mi : MountInfos} config id e :
  GetStatsImpl config id = Err e -> asStatsReaderError e = true.
Proof.
  unfold GetStatsImpl. destruct (statsReaderError _ (NewManager config id)) eqn:H; simpl.
  - apply statsReaderError_as.
  - intros; inv_ok. by eapply statsReaderError_as.
  - done.
Qed.

(** The implementation honours the contract its clients rely on. *)
#[export] Instance StatsReaderImpl_spec {lib : CgroupLib} {mi : MountInfos} config :
  StatsReaderSpec (StatsReaderImpl config).
Proof. constructor. apply GetStatsImpl_error. Qed.

Lemma cgroupV1SwapMetric_val ms m :
  is_u64 ms -> is_u64 m -> cgroupV1SwapMetric ms m = Z.max 0 (ms - m).
Proof.
  intros H1 H2. unfold cgroupV1SwapMetric. destruct (Z.ltb_spec ms m); [lia|].
  unfold subu. rewrite u64_small; [lia|]. unfold is_u64 in *. lia.
Qed.

Lemma addr_zero_i64 z : i64 (i64 z * 1) = i64 z.
Proof. by rewrite Z.mul_1_r, (i64_small (i64 z)) by apply i64_range. Qed.

Lemma i64_mul_idemp a b : i64 (i64 a * b) = i64 (a * b).
Proof. destruct (i64_mod a) as [k ->]. apply i64_cong. exists (k * b). ring. Qed.

Definition wfEntry (e : option MemoryEntry) : Prop :=
  is_u64 (getEntry memUsage e) /\ is_u64 (getEntry memMax e) /\ is_u64 (getEntry memLimit e).

(** Well-formed v1 metrics: the counters are the [uint64]s of the messages. *)
Definition wfMetricsV1 (s : MetricsV1) : Prop :=
  is_u64 (getCPUTotal (v1CPU s)) /\
  wfEntry (getMemory memoryUsage (v1Memory s)) /\ wfEntry (getMemory memorySwap (v1Memory s)).

(** A metrics library over fixed answers, for the examples. *)
Definition exampleMountInfos : MountInfos :=
  {| Mountpoint := fun maj min => if (maj =? 8) && (min =? 0) then "/var/lib" else "";
     DevicePath := fun maj min => if (maj =? 8) && (min =? 0) then "/dev/sda" else "" |}.

Definition exampleLib (answer : outcome MetricsV1) : CgroupLib :=
  {| handle := unit; load := fun _ => Ok tt; statV1 := fun _ => answer;
     statV2 := fun _ => Err (ErrOpaque "cgroup deleted"); procsV2 := fun _ => Ok [];
     tasksV1 := fun _ _ => Ok [] |}.

Definition exampleBlkio : BlkIOStat :=
  mkBlkIOStat
    [mkBlkIOEntry "Read" "sda" 8 0 10; mkBlkIOEntry "Write" "sda" 8 0 20;
     mkBlkIOEntry "Total" "sda" 8 0 30]
    [mkBlkIOEntry "Read" "sda" 8 0 1; mkBlkIOEntry "Write" "sda" 8 0 2;
     mkBlkIOEntry "Total" "sda" 8 0 3].

(** The case of the unit test [TestCgroupV1IOUsageAggregatesReadAndWriteStats]. *)
Example aggregates_read_and_write :
  @cgroupV1IOUsage exampleMountInfos (Some exampleBlkio) =
  Ok (mkIOUsage [mkIODevice "/dev/sda" "/var/lib" 8 0 10 20 1 2]).
Proof. vm_compute. reflexivity. Qed.

(** ** Properties *)

(** C6. The two loops over the blkio tables, their map of device pointers and
    the list of keys compute the aggregation specification: one device per key
    that has a read or write line, in order of first appearance, without
    duplicates, named after its first line, each counter the total of its own
    lines modulo 2^64; lines of other operations count nowhere, and [devices[key]]
    is never nil. *)
Theorem cgroupV1IOUsage_refines {mi : MountInfos} (stat : option BlkIOStat) :
  cgroupV1IOUsage stat =
    Ok (match stat with None => mkIOUsage [] | Some b => specIOUsage b end)
  /\ (forall b, stat = Some b -> NoDup (keysOf (ioLines b))).
Proof.
  split; [destruct stat; [apply cgroupV1IOUsage_Some | done] | intros; apply keysOf_NoDup].
Qed.

Lemma cgroupV1IOUsage_refines_witness :
  @cgroupV1IOUsage exampleMountInfos (Some exampleBlkio)
    = Ok (@specIOUsage exampleMountInfos exampleBlkio) /\ NoDup (keysOf (ioLines exampleBlkio)).
Proof.
  destruct (@cgroupV1IOUsage_refines exampleMountInfos (Some exampleBlkio)) as [H1 H2].
  split; [exact H1 | exact (H2 _ eq_refl)].
Defined.

(** Conversion of the v1 metrics never fails; the swap figures are what
    swap+memory has beyond memory and never negative (they saturate at 0 when the
    kernel reports less), stay in 64 bits, and the CPU time is exact below 2^63 ns. *)
Theorem cgroupV1Stats_swap {mi : MountInfos} (s : MetricsV1) (H : wfMetricsV1 s) :
  exists st, cgroupV1Stats s = Ok st
  /\ SwapUsage st = Z.max 0 (getEntry memUsage (getMemory memorySwap (v1Memory s)) - MemoryUsage st)
  /\ SwapMaxUsage st = Z.max 0 (getEntry memMax (getMemory memorySwap (v1Memory s)) - MemoryMaxUsage st)
  /\ SwapLimit st = Z.max 0 (getEntry memLimit (getMemory memorySwap (v1Memory s)) - MemoryLimit st)
  /\ is_u64 (SwapUsage st) /\ is_u64 (SwapMaxUsage st) /\ is_u64 (SwapLimit st)
  /\ (getCPUTotal (v1CPU s) < 2 ^ 63 -> CPUUsage st = getCPUTotal (v1CPU s)).
Proof.
  destruct H as (Hc & (Hu1 & Hu2 & Hu3) & (Hs1 & Hs2 & Hs3)).
  unfold cgroupV1Stats.
  assert (exists io, cgroupV1IOUsage (v1Blkio s) = Ok io) as [io ->].
  { destruct (v1Blkio s); [rewrite cgroupV1IOUsage_Some |]; eauto. }
  eexists. split; [reflexivity|]. cbn [SwapUsage SwapMaxUsage SwapLimit MemoryUsage
    MemoryMaxUsage MemoryLimit CPUUsage].
  rewrite !cgroupV1SwapMetric_val by done. unfold is_u64 in *.
  repeat (split; [lia|]). intros Hlt. unfold muli, Nanosecond.
  rewrite addr_zero_i64. apply i64_small. unfold is_i64. lia.
Qed.

Lemma cgroupV1Stats_swap_witness :
  exists st, @cgroupV1Stats exampleMountInfos
    (mkMetricsV1 (Some (mkCPUStatV1 (Some 42)))
       (Some (mkMemoryStatV1 (Some (mkMemoryEntry 10 20 30)) (Some (mkMemoryEntry 15 27 41)))) None)
    = Ok st /\ SwapUsage st = 5.
Proof.
  edestruct (@cgroupV1Stats_swap exampleMountInfos
    (mkMetricsV1 (Some (mkCPUStatV1 (Some 42)))
       (Some (mkMemoryStatV1 (Some (mkMemoryEntry 10 20 30)) (Some (mkMemoryEntry 15 27 41)))) None))
    as (st & H & Hs & _).
  { repeat split; vm_compute; congruence. }
  exists st. split; [exact H|]. rewrite Hs. simpl in H. inversion H. reflexivity.
Defined.

(** The v2 CPU time is the microsecond counter in nanoseconds, wrapped to
    [int64]: exact exactly when it fits, and the maxima of the v1 format are
    absent (zero). *)
Theorem cgroupV2Stats_cpu {mi : MountInfos} (s : MetricsV2) st :
  cgroupV2Stats s = Ok st ->
  exists usec m, v2UsageUsec s = Some usec /\ v2Memory s = Some m
  /\ CPUUsage st = i64 (usec * 1000)
  /\ (0 <= usec -> (CPUUsage st = usec * 1000 <-> usec * 1000 < 2 ^ 63))
  /\ MemoryUsage st = v2Usage m /\ SwapUsage st = v2SwapUsage m
  /\ MemoryMaxUsage st = 0 /\ SwapMaxUsage st = 0
  /\ length (Devices (IOUsageOf st)) = length (default [] (v2Io s)).
Proof.
  unfold cgroupV2Stats. destruct (v2UsageUsec s) as [usec|], (v2Memory s) as [m|]; try done.
  intros H. inv_ok. exists usec, m. cbn [CPUUsage MemoryUsage SwapUsage MemoryMaxUsage
    SwapMaxUsage IOUsageOf]. unfold muli, Microsecond, Nanosecond.
  rewrite i64_mul_idemp, Z.mul_1_r. do 3 (split; [done|]). split.
  - intros Hpos. split.
    + intros He. pose proof (i64_range (usec * 1000)) as [_ Hr]. lia.
    + intros Hlt. apply i64_small. unfold is_i64. lia.
  - repeat (split; [done|]). unfold cgroupV2IOUsage.
    destruct (v2Io s); [apply length_map | done].
Qed.

Lemma cgroupV2Stats_cpu_witness :
  exists usec m, Some 7 = Some usec /\ Some (mkMemoryStatV2 1 2 3 4) = Some m
  /\ CPUUsage (mkStats 7000 1 0 2 3 0 4 (mkIOUsage [])) = i64 (usec * 1000).
Proof.
  destruct (@cgroupV2Stats_cpu exampleMountInfos
    (mkMetricsV2 (Some 7) (Some (mkMemoryStatV2 1 2 3 4)) None)
    (mkStats 7000 1 0 2 3 0 4 (mkIOUsage [])) eq_refl) as (u & m & H1 & H2 & H3 & _).
  exists u, m. exact (conj H1 (conj H2 H3)).
Defined.

(** *** What the statistics say of the metrics *)

Section Reports.
Context {mi : MountInfos}.

(** A device of cgroup v2: the names of its number, and the counters of its line. *)
Definition reportsEntry (e : IOEntry) (d : IODeviceUsage) : Prop :=
  dev_path d = DevicePath (ioMajor e) (ioMinor e) /\ dev_mountpoint d = Mountpoint (ioMajor e) (ioMinor e) /\
  Major d = ioMajor e /\ Minor d = ioMinor e /\
  ReadBytes d = Rbytes e /\ WriteBytes d = Wbytes e /\ ReadIOs d = Rios e /\ WriteIOs d = Wios e.

Definition reportsV2 (usec : Z) (mem : MemoryStatV2) (io : option (list IOEntry)) (st : Stats) : Prop :=
  CPUUsage st = i64 (usec * 1000) /\
  MemoryUsage st = v2Usage mem /\ MemoryLimit st = v2UsageLimit mem /\ MemoryMaxUsage st = 0 /\
  SwapUsage st = v2SwapUsage mem /\ SwapLimit st = v2SwapLimit mem /\ SwapMaxUsage st = 0 /\
  Forall2 reportsEntry (default [] io) (Devices (IOUsageOf st)).

(** The swap of cgroup v1 counts the memory too. *)
Definition reportsV1 (m : MetricsV1) (st : Stats) : Prop :=
  let mu := getMemory memoryUsage (v1Memory m) in
  let ms := getMemory memorySwap (v1Memory m) in
  CPUUsage st = i64 (getCPUTotal (v1CPU m)) /\
  MemoryUsage st = getEntry memUsage mu /\ MemoryMaxUsage st = getEntry memMax mu /\
  MemoryLimit st = getEntry memLimit mu /\
  SwapUsage st = Z.max 0 (getEntry memUsage ms - getEntry memUsage mu) /\
  SwapMaxUsage st = Z.max 0 (getEntry memMax ms - getEntry memMax mu) /\
  SwapLimit st = Z.max 0 (getEntry memLimit ms - getEntry memLimit mu) /\
  IOUsageOf st = match v1Blkio m with None => mkIOUsage [] | Some b => specIOUsage b end.

Lemma cgroupV2Stats_reports m usec mem :
  v2UsageUsec m = Some usec -> v2Memory m = Some mem ->
  exists st, cgroupV2Stats m = Ok st /\ reportsV2 usec mem (v2Io m) st.
Proof.
  intros Hu Hm. unfold cgroupV2Stats. rewrite Hu, Hm. eexists. split; [reflexivity|].
  split; [cbn [CPUUsage]; unfold muli, Microsecond, Nanosecond; by rewrite i64_mul_idemp|].
  do 6 (split; [done|]). cbn [IOUsageOf]. unfold cgroupV2IOUsage. destruct (v2Io m) as [es|]; [|constructor].
  cbn [Devices default from_option id]. induction es as [|e es IH]; constructor; [done|exact IH].
Qed.

Lemma cgroupV1Stats_reports m :
  wfEntry (getMemory memoryUsage (v1Memory m)) -> wfEntry (getMemory memorySwap (v1Memory m)) ->
  exists st, cgroupV1Stats m = Ok st /\ reportsV1 m st.
Proof.
  intros (Hu1 & Hu2 & Hu3) (Hs1 & Hs2 & Hs3). unfold cgroupV1Stats.
  assert (cgroupV1IOUsage (v1Blkio m) = Ok (match v1Blkio m with None => mkIOUsage [] | Some b => specIOUsage b end)) as ->
    by (destruct (v1Blkio m); [apply cgroupV1IOUsage_Some|done]).
  eexists. split; [reflexivity|].
  split; [cbn [CPUUsage]; unfold muli, Nanosecond; by rewrite addr_zero_i64|].
  do 3 (split; [done|]). cbn [SwapUsage SwapMaxUsage SwapLimit]. by rewrite !cgroupV1SwapMetric_val.
Qed.

End Reports.

(** How containerd/cgroups is asked for the cgroup of a container. *)
Definition requestOf (config : Config.t) (id : string) : loadRequest :=
  if Config.IsUsingCgroupV2 config then LoadSystemdV2 "/system.slice" ("docker-" +:+ id +:+ ".scope")
  else if decide (Config.env config !! "CGROUP_SOURCE" = Some "systemd")
  then LoadSliceV1 "system.slice" ("docker-" +:+ id +:+ ".scope")
  else LoadStaticV1 ("docker/" +:+ id).

Lemma loadRequestFor_spec config id : loadRequestFor config id = requestOf config id.
Proof.
  unfold loadRequestFor, requestOf, mapget. destruct (Config.IsUsingCgroupV2 config); [done|].
  destruct (Config.env config !! "CGROUP_SOURCE") as [v|]; simpl; [|done].
  destruct (String.eqb_spec v "systemd") as [->|Hne]; [by rewrite decide_True|].
  rewrite decide_False; [done|]. by intros [= E].
Qed.

(** Once the cgroup is loaded. *)
Lemma GetStatsImpl_loaded {lib : CgroupLib} {mi : MountInfos} config id h :
  load (requestOf config id) = Ok h ->
  GetStatsImpl config id = statsReaderError "get cgroup stats"
    (if Config.IsUsingCgroupV2 config
     then let! m := wrapMsg "get cgroup v2 stats" (statV2 h) in cgroupV2Stats m
     else let! m := wrapMsg "get cgroup v1 stats" (statV1 h) in cgroupV1Stats m).
Proof.
  intros Hl. unfold GetStatsImpl, NewManager. rewrite loadRequestFor_spec, Hl. cbn [statsReaderError wrapMsg wrap obind].
  unfold IsV2, getCgroupV2Stats, getCgroupV1Stats, V2Manager, V1Manager. by destruct (Config.IsUsingCgroupV2 config).
Qed.

(** The errors of a run of [GetStats], from the inside out. *)
Definition loadError (config : Config.t) (e : error) : error :=
  let systemd := bool_decide (Config.env config !! "CGROUP_SOURCE" = Some "systemd") || Config.IsUsingCgroupV2 config in
  StatsReaderError (Wrap (Some (Wrap (Some e) ("load cgroup, systemd: " +:+ FormatBool systemd +:+
    ", v2: " +:+ FormatBool (Config.IsUsingCgroupV2 config)))) "create cgroup manager").

Definition statError (version : string) (e : error) : error :=
  StatsReaderError (Wrap (Some (Wrap (Some e) ("get cgroup " +:+ version +:+ " stats"))) "get cgroup stats").


(** A host of cgroup v2, with one device. *)
Definition exampleLibV2 : CgroupLib :=
  {| handle := unit; load := fun _ => Ok tt; statV1 := fun _ => Err (ErrOpaque "cgroup deleted");
     statV2 := fun _ => Ok (mkMetricsV2 (Some 7) (Some (mkMemoryStatV2 1 2 3 4)) (Some [mkIOEntry 8 0 10 20 1 2]));
     procsV2 := fun _ => Ok []; tasksV1 := fun _ _ => Ok [] |}.

Definition exampleMetricsV1 : MetricsV1 :=
  mkMetricsV1 (Some (mkCPUStatV1 (Some 42)))
    (Some (mkMemoryStatV1 (Some (mkMemoryEntry 10 20 30)) (Some (mkMemoryEntry 15 27 25)))) (Some exampleBlkio).

