(* ===== verification/Meminfo.v ===== *)
(** * procfs/meminfo.go: parsing /proc/meminfo *)
From S2P Require Import Prelude GoStrings ProcfsUtils.

Module Meminfo.

(** The fields of the struct [MemInfo], in order. *)
Inductive field : Type :=
| MemTotal | MemFree | Buffers | Cached | SwapCached | Active | Inactive
| ActiveAnon | InactiveAnon | ActiveFile | InactiveFile | Unevictable | MLocked
| SwapTotal | SwapFree | Dirty | Writeback | AnonPages | Mapped | Slab
| SReclaimable | SUnreclaim | PurgeTables | NFSUnstable | Bounce | WritebackTmp
| CommitLimit | CommittedAS | VmallocTotal | VmallocUsed | VmallocChunk
| DirectMap4k | DirectMap2M | DirectMap1G.

#[export] Instance field_eq_dec : EqDecision field.
Proof. solve_decision. Defined.

(** [types.NumField()] and [types.Field(i)]. *)
Definition fields : list field :=
  [ MemTotal; MemFree; Buffers; Cached; SwapCached; Active; Inactive;
    ActiveAnon; InactiveAnon; ActiveFile; InactiveFile; Unevictable; MLocked;
    SwapTotal; SwapFree; Dirty; Writeback; AnonPages; Mapped; Slab;
    SReclaimable; SUnreclaim; PurgeTables; NFSUnstable; Bounce; WritebackTmp;
    CommitLimit; CommittedAS; VmallocTotal; VmallocUsed; VmallocChunk;
    DirectMap4k; DirectMap2M; DirectMap1G ].

(** The struct tag [meminfo_header] of a field. *)
Definition meminfo_header (f : field) : string :=
  match f with
  | MemTotal => "MemTotal" | MemFree => "MemFree" | Buffers => "Buffers"
  | Cached => "Cached" | SwapCached => "SwapCached" | Active => "Active"
  | Inactive => "Inactive" | ActiveAnon => "Active(anon)"
  | InactiveAnon => "Inactive(anon)" | ActiveFile => "Active(file)"
  | InactiveFile => "Inactive(file)" | Unevictable => "Unevictable"
  | MLocked => "Mlocked" | SwapTotal => "SwapTotal" | SwapFree => "SwapFree"
  | Dirty => "Dirty" | Writeback => "Writeback" | AnonPages => "AnonPages"
  | Mapped => "Mapped" | Slab => "Slab" | SReclaimable => "SReclaimable"
  | SUnreclaim => "SUnreclaim" | PurgeTables => "PurgeTables"
  | NFSUnstable => "NFS_Unstable" | Bounce => "Bounce"
  | WritebackTmp => "WritebackTmp" | CommitLimit => "CommitLimit"
  | CommittedAS => "Committed_AS" | VmallocTotal => "VmallocTotal"
  | VmallocUsed => "VmallocUsed" | VmallocChunk => "VmallocChunk"
  | DirectMap4k => "DirectMap4k" | DirectMap2M => "DirectMap2M"
  | DirectMap1G => "DirectMap1G"
  end.

(** A struct value: what each field holds. *)
Definition MemInfo : Type := field -> Z.
Definition zeroMemInfo : MemInfo := fun _ => 0.

(** [field.SetUint(value)]. *)
Definition SetUint (f : field) (value : Z) (m : MemInfo) : MemInfo :=
  fun g => if bool_decide (g = f) then value else m g.

Definition FreeBuffers (m : MemInfo) : Z := addu (addu (m MemFree) (m Buffers)) (m Cached).
Definition MemUsed (m : MemInfo) : Z := subu (m MemTotal) (m MemFree).
Definition SwapUsed (m : MemInfo) : Z := subu (m SwapTotal) (m SwapFree).

(** [FillStruct]: the reflective loop over the fields. *)
Definition FillStruct (values : gmap string Z) : MemInfo :=
  fold_left (fun result f =>
    let lookup := meminfo_header f in
    if String.eqb lookup "" then result
    else match values !! lookup with
         | None => result
         | Some value => SetUint f value result
         end) fields zeroMemInfo.

(** The body of the loop of [Read] for one line.  The two errors about the shape
    of a line wrap an [err] that is nil at that point. *)
Definition readLine (line : string) (results : gmap string Z) : outcome (gmap string Z) :=
  let fields := Fields line in
  if (length fields <? 2)%nat then Err (Wrap None ("invalid meminfo line: " +:+ line))
  else
    let! f0 := index fields 0 in
    let! f1 := index fields 1 in
    let fieldName := TrimSuffix f0 ":" in
    let! value := wrapMsg ("invalid value for " +:+ fieldName +:+ ": " +:+ f1) (ParseUint f1) in
    if (length fields =? 3)%nat then
      let! f2 := index fields 2 in
      if String.eqb f2 "kB" then Ok (<[fieldName := mulu value 1024]> results)
      else Err (Wrap None ("invalid unit for line " +:+ line))
    else Ok (<[fieldName := value]> results).

Section Reader.
Context {fs : FS}.

Definition Read : outcome MemInfo :=
  let! file := wrapMsg "open meminfo file" (Open "/proc/meminfo") in
  let! results := forEachLine readLine "read a line from meminfo" file ∅ in
  Ok (FillStruct results).

End Reader.

(** ** What a line says *)

(** An entry of the file: a name, padding, a value and possibly the unit kB. *)
Record entry : Type := mkEntry { name : string; pad : nat; value : Z; kB : bool }.

Definition wfEntry (e : entry) : Prop :=
  wordChars (name e) = true /\ is_u64 (value e).

Fixpoint spaces (n : nat) : string :=
  match n with O => "" | S n => String " " (spaces n) end.

Definition renderEntry (e : entry) : string :=
  name e +:+ ":" +:+ " " +:+ spaces (pad e) +:+ FormatUint (value e) +:+
  (if kB e then " kB" else "").

Definition entryBytes (e : entry) : Z := if kB e then u64 (value e * 1024) else value e.

(** The value a list of entries gives a header: its last occurrence. *)
Definition lookupEntries (es : list entry) (h : string) : option Z :=
  fold_left (fun acc e => if String.eqb (name e) h then Some (entryBytes e) else acc) es None.

(** ** Lemmas *)

Lemma TrimLeft_spaces n s : TrimLeft (spaces n +:+ s) = TrimLeft s.
Proof. induction n as [|n IH]; [done|]. cbn [spaces]. rewrite string_app_cons. apply IH. Qed.

Lemma TrimSuffix_app s suffix :
  String.length suffix = 1%nat -> TrimSuffix (s +:+ suffix) suffix = s.
Proof.
  intros Hlen. induction s as [|c s IH].
  - rewrite string_app_nil_l. destruct suffix; [done|]. simpl.
    by rewrite Ascii.eqb_refl, String.eqb_refl.
  - rewrite string_app_cons. cbn [TrimSuffix].
    destruct (String.eqb_spec (String c (s +:+ suffix)) suffix) as [He|_]; [|by rewrite IH].
    apply (f_equal String.length) in He. simpl in He. rewrite string_app_length in He. lia.
Qed.

Lemma FillStruct_spec values f : FillStruct values f = mapget 0 values (meminfo_header f).
Proof.
  unfold FillStruct, mapget.
  assert (forall fs m, (forall g, g ∈ fs -> m g = 0) -> NoDup fs ->
     fold_left (fun result f =>
       if String.eqb (meminfo_header f) "" then result
       else match values !! meminfo_header f with
            | None => result | Some value => SetUint f value result end) fs m f
     = if bool_decide (f ∈ fs) then default 0 (values !! meminfo_header f) else m f) as H.
  { induction fs as [|g fs IH]; intros m Hm Hnd; [done|].
    apply list.NoDup_cons in Hnd as [Hg Hnd].
    assert (String.eqb (meminfo_header g) "" = false) as Ht by by destruct g.
    cbn [fold_left]. rewrite Ht, IH; [| | done].
    - unfold SetUint. destruct (decide (f = g)) as [->|Hne].
      + rewrite bool_decide_false by done. rewrite bool_decide_true by left.
        destruct (values !! meminfo_header g); [by rewrite bool_decide_true|].
        apply Hm. left.
      + rewrite (bool_decide_ext (f ∈ g :: fs) (f ∈ fs)) by set_solver.
        case_bool_decide; [done|].
        destruct (values !! meminfo_header g); [by rewrite bool_decide_false|done].
    - intros h Hh. destruct (values !! meminfo_header g); [|apply Hm; by right].
      unfold SetUint. rewrite bool_decide_false by set_solver. apply Hm. by right. }
  rewrite H.
  - rewrite bool_decide_true; [done|]. apply list_elem_of_In. destruct f; simpl; tauto.
  - done.
  - apply (bool_decide_eq_true_1 (NoDup fields)). reflexivity.
Qed.

Lemma renderEntry_no_nl e : wfEntry e -> no_nl (renderEntry e) = true.
Proof.
  intros [Hn Hv]. unfold no_nl, renderEntry.
  assert (forall s, wordChars s = true -> all_chars (fun c => negb (Ascii.eqb c nl)) s = true) as Hw.
  { intros s. apply all_chars_impl. intros c. rewrite !negb_true_iff.
    destruct (Ascii.eqb_spec c nl) as [->|]; done. }
  rewrite !all_chars_app, (Hw (name e)) by done.
  rewrite (Hw (FormatUint (value e))) by (apply wordChars_digits, FormatUint_digits, Hv).
  assert (all_chars (fun c => negb (Ascii.eqb c nl)) (spaces (pad e)) = true) as ->
    by (induction (pad e); done).
  by destruct (kB e).
Qed.

Lemma renderEntry_fields e :
  wfEntry e ->
  Fields (renderEntry e +:+ eol) =
    (name e +:+ ":") :: FormatUint (value e) :: (if kB e then ["kB"] else []).
Proof.
  intros [Hn Hv]. unfold renderEntry. rewrite !string_app_assoc.
  assert (wordChars (name e +:+ ":") = true) as Hn' by by rewrite wordChars_app, Hn.
  assert (name e +:+ ":" <> "") as Hne.
  { intros E. apply (f_equal String.length) in E. rewrite string_app_length in E. simpl in E. lia. }
  assert (wordChars (FormatUint (value e)) = true) as Hf
    by (apply wordChars_digits, FormatUint_digits, Hv).
  rewrite <- (string_app_assoc (name e)).
  erewrite (Fields_cons _ (name e +:+ ":")); [|by apply TrimLeft_word|done|done|done]. f_equal.
  rewrite (Fields_cons _ (FormatUint (value e)) ((if kB e then " kB" else "") +:+ eol));
    [|rewrite string_app_cons; cbn [TrimLeft is_space]; rewrite string_app_nil_l, TrimLeft_spaces; by apply TrimLeft_word, FormatUint_nonempty|done|apply FormatUint_nonempty|by destruct (kB e)].
  f_equal. by destruct (kB e).
Qed.

Lemma readLine_render e results :
  wfEntry e -> readLine (renderEntry e +:+ eol) results = Ok (<[name e := entryBytes e]> results).
Proof.
  intros Hwf. unfold readLine. rewrite renderEntry_fields by done.
  destruct Hwf as [Hn Hv]. unfold entryBytes.
  destruct (kB e); cbn [length Nat.ltb Nat.leb obind index Z.ltb Z.compare Z.to_nat];
    simpl; rewrite ParseUint_FormatUint by done; simpl;
    by rewrite TrimSuffix_app.
Qed.

Lemma foldLines_render es results :
  Forall wfEntry es ->
  foldLines readLine (map renderEntry es) results =
    Ok (fold_left (fun m e => <[name e := entryBytes e]> m) es results).
Proof.
  intros Hes. revert results. induction Hes as [|e es He Hes IH]; intros results; [done|].
  cbn [map foldLines]. rewrite readLine_render by done. apply IH.
Qed.

Lemma fold_insert_lookup es (results : gmap string Z) h :
  fold_left (fun m e => <[name e := entryBytes e]> m) es results !! h =
  match lookupEntries es h with Some v => Some v | None => results !! h end.
Proof.
  unfold lookupEntries. induction es as [|e es IH] using rev_ind; [done|].
  rewrite !fold_left_app. cbn [fold_left].
  destruct (String.eqb_spec (name e) h) as [<-|Hne].
  - by rewrite lookup_insert_eq.
  - by rewrite lookup_insert_ne.
Qed.

Lemma entries_no_nl es : Forall wfEntry es -> forallb no_nl (map renderEntry es) = true.
Proof.
  intros Hes. apply forallb_forall. intros l (e & <- & Hin)%in_map_iff.
  apply renderEntry_no_nl. rewrite List.Forall_forall in Hes. auto.
Qed.

(** A line the parser refuses while [err] is still nil: too few fields, or a
    number followed by exactly one word that is not the unit kB. *)
Definition malformed (l : string) : Prop :=
  (length (Fields (l +:+ eol)) < 2)%nat
  \/ exists n v u, Fields (l +:+ eol) = [n; v; u] /\ is_ok (ParseUint v) = true /\ u <> "kB".

Lemma readLine_malformed l results :
  malformed l -> readLine (l +:+ eol) results = Err ErrCtxNil.
Proof.
  intros [H | (n & v & u & Hf & Hv & Hu)]; unfold readLine.
  - by rewrite (proj2 (Nat.ltb_lt _ _) H).
  - rewrite Hf. simpl. destruct (ParseUint v); [|done|done]. simpl.
    by destruct (String.eqb_spec u "kB").
Qed.

(** ** Properties *)

Section Properties.
Context {fs : FS}.

(** C23. On a file of well-formed entries, [Read] returns the struct whose fields
    hold the value of the last entry with the field's header, kB values scaled by
    1024 in 64 bits, and 0 where the header is absent; a last line that lacks its
    newline has no effect. *)
Theorem Read_entries (es : list entry) (tail : string) :
  Forall wfEntry es -> no_nl tail = true ->
  Open "/proc/meminfo" = Ok (mkFile (unlines (map renderEntry es) +:+ tail) None) ->
  exists m, Read = Ok m /\
    forall f, m f = default 0 (lookupEntries es (meminfo_header f)).
Proof.
  intros Hes Htail Hopen. unfold Read. rewrite Hopen. cbn [wrapMsg wrap obind].
  rewrite forEachLine_unlines by (done || by apply entries_no_nl).
  rewrite foldLines_render by done. cbn [obind]. eexists. split; [reflexivity|].
  intros f. rewrite FillStruct_spec. unfold mapget. rewrite fold_insert_lookup.
  by destruct (lookupEntries es (meminfo_header f)).
Qed.

(** C38. After well-formed entries, a malformed line makes [Read] return an
    error that wraps nil: it is not nil, so the caller fails, but asking it for its
    message dereferences nil and panics. *)
Theorem Read_malformed (es : list entry) (l rest : string) (ls : list string) :
  Forall wfEntry es -> malformed l -> no_nl l = true -> forallb no_nl ls = true ->
  no_nl rest = true ->
  Open "/proc/meminfo" = Ok (mkFile (unlines (map renderEntry es ++ l :: ls)%list +:+ rest) None) ->
  exists e, Read = Err e /\ is_panic (errorString e) = true
       /\ forall msg, is_panic (errorString (Wrap (Some e) msg)) = true.
Proof.
  intros Hes Hl Hnl Hls Hrest Hopen. unfold Read. rewrite Hopen. cbn [wrapMsg wrap obind].
  rewrite forEachLine_unlines; [|rewrite forallb_app, entries_no_nl by done; simpl; by rewrite Hnl, Hls|done].
  rewrite foldLines_app, foldLines_render by done. cbn [obind foldLines].
  rewrite readLine_malformed by done. cbn [obind]. by exists ErrCtxNil.
Qed.

End Properties.

Definition exampleFS (s : string) : FS := {| Open := fun _ => Ok (mkFile s None) |}.

Lemma Read_entries_witness :
  exists m, @Read (exampleFS (unlines (map renderEntry
      [mkEntry "MemTotal" 7 32457876 true; mkEntry "HugePages_Total" 7 0 false]) +:+ "MemFree: 1 kB"))
    = Ok m /\ m MemTotal = 33236865024 /\ m MemFree = 0.
Proof.
  destruct (@Read_entries (exampleFS (unlines (map renderEntry
      [mkEntry "MemTotal" 7 32457876 true; mkEntry "HugePages_Total" 7 0 false]) +:+ "MemFree: 1 kB"))
     [mkEntry "MemTotal" 7 32457876 true; mkEntry "HugePages_Total" 7 0 false] "MemFree: 1 kB")
    as (m & H & Hm); [|reflexivity|reflexivity|].
  - repeat constructor; vm_compute; congruence.
  - exists m. rewrite !Hm. split; [exact H | split; vm_compute; reflexivity].
Defined.

Lemma Read_malformed_witness :
  exists e, @Read (exampleFS (unlines [renderEntry (mkEntry "MemTotal" 7 8 true); "MemFree: 1 MB"]))
    = Err e /\ is_panic (errorString e) = true.
Proof.
  destruct (@Read_malformed (exampleFS (unlines [renderEntry (mkEntry "MemTotal" 7 8 true); "MemFree: 1 MB"]))
     [mkEntry "MemTotal" 7 8 true] "MemFree: 1 MB" "" []) as (e & H & Hp & _).
  - repeat constructor; vm_compute; congruence.
  - right. exists "MemFree:", "1", "MB". repeat split; try reflexivity. discriminate.
  - reflexivity.
  - reflexivity.
  - reflexivity.
  - vm_compute. reflexivity.
  - exists e. exact (conj H Hp).
Defined.

(** The kernel's header is [PageTables]; the tag of the struct is [PurgeTables],
    so the size of the page tables is always reported as 0. *)
Example page_tables_not_read :
  match @Read (exampleFS (unlines ["PageTables:        35860 kB"])) with
  | Ok m => m PurgeTables = 0
  | _ => False
  end.
Proof. reflexivity. Qed.

(** The derived figures are exact when the kernel's figures are
    consistent; [SwapUsed] wraps around when the file reports more free swap than
    swap. *)
Theorem derived_figures (m : MemInfo) (H : forall f, is_u64 (m f)) :
  FreeBuffers m = u64 (m MemFree + m Buffers + m Cached)
  /\ (m MemFree + m Buffers + m Cached < 2 ^ 64 -> FreeBuffers m = m MemFree + m Buffers + m Cached)
  /\ (m SwapFree <= m SwapTotal -> SwapUsed m = m SwapTotal - m SwapFree)
  /\ (m SwapTotal < m SwapFree -> SwapUsed m = 2 ^ 64 + m SwapTotal - m SwapFree)
  /\ (m MemFree <= m MemTotal -> MemUsed m = m MemTotal - m MemFree).
Proof.
  pose proof (H MemFree). pose proof (H Buffers). pose proof (H Cached).
  pose proof (H SwapFree). pose proof (H SwapTotal). pose proof (H MemTotal).
  unfold FreeBuffers, SwapUsed, MemUsed, addu, subu. rewrite u64_idemp_add.
  unfold is_u64 in *. split; [done|]. split; [intros; apply u64_small; unfold is_u64; lia|].
  split; [intros; apply u64_small; unfold is_u64; lia|].
  split; [|intros; apply u64_small; unfold is_u64; lia].
  intros Hlt. unfold u64. rewrite <- (Z_mod_plus_full _ 1), Z.mod_small; lia.
Qed.

Lemma derived_figures_witness :
  SwapUsed (SetUint SwapTotal 10 (SetUint SwapFree 4 zeroMemInfo)) = 6.
Proof.
  apply (derived_figures (SetUint SwapTotal 10 (SetUint SwapFree 4 zeroMemInfo))).
  - intros f. destruct f; vm_compute; intuition congruence.
  - vm_compute. congruence.
Defined.

End Meminfo.
