(* ===== verification/CpuStat.v ===== *)
(** * procfs/cpu_stat.go: parsing /proc/stat *)
From S2P Require Import Prelude GoStrings GoFloat GoScan GoTime ProcfsUtils.

Record SingleCPUStat : Type := mkCPUStat {
  Name : string;
  User : Z; Nice : Z; System : Z; IDLE : Z; IOWait : Z;
  IRQ : Z; SoftIRQ : Z; Steal : Z; Guest : Z; GuestNice : Z }.

#[export] Instance SingleCPUStat_eq_dec : EqDecision SingleCPUStat.
Proof. solve_decision. Defined.

Definition zeroCPUStat : SingleCPUStat := mkCPUStat "" 0 0 0 0 0 0 0 0 0 0.

(** [CPUStats], a struct around one map. *)
Record CPUStats : Type := mkCPUStats { CPUs : gmap string SingleCPUStat }.

(** [SingleCPUStat.Sum]: a sum of durations, which wraps like any [int64] sum. *)
Definition Sum (c : SingleCPUStat) : Z :=
  addi (addi (addi (addi (addi (addi (addi (addi (addi (User c) (Nice c)) (System c)) (IDLE c))
    (IOWait c)) (IRQ c)) (SoftIRQ c)) (Steal c)) (Guest c)) (GuestNice c).

(** [CPUStats.All]. *)
Definition All (c : CPUStats) : SingleCPUStat := mapget zeroCPUStat (CPUs c) "cpu".

(** [procfs.CPUStat]: the interface the CPU monitor reads through. *)
Class CPUStat : Type := { ReadCPUStats : outcome CPUStats }.

Definition cpuLineFormat : string := "%s %d %d %d %d %d %d %d %d %d %d".
Definition cpuLineArgs : list argty := AString :: replicate 10 AUint64.

(** The format has no floating-point verb. *)
Definition noFloat (inp : string) : outcome (float64 * string) := scanErr "bad verb".

(** [time.Duration(val) * scaleFactor]. *)
Definition scaled (scaleFactor val : Z) : Z := muli (i64 val) scaleFactor.

(** [readOneCPULine]: [time.Second / time.Duration(userHZ)] panics for 0. *)
Definition readOneCPULine (line : string) (userHZ : Z) : outcome SingleCPUStat :=
  let! vs := wrapMsg "parse procstat line" (Sscanf noFloat line cpuLineFormat cpuLineArgs) in
  if negb (length vs =? 11)%nat then
    Err (Errorf ("invalid procstat line, parsed " +:+ Itoa (Z.of_nat (length vs)) +:+ " field expected 11"))
  else if i64 userHZ =? 0 then Panic "runtime error: integer divide by zero"
  else
    let d := scaled (Z.quot Second (i64 userHZ)) in
    match vs with
    | [SString n; SUint64 v0; SUint64 v1; SUint64 v2; SUint64 v3; SUint64 v4;
       SUint64 v5; SUint64 v6; SUint64 v7; SUint64 v8; SUint64 v9] =>
        Ok (mkCPUStat n (d v0) (d v1) (d v2) (d v3) (d v4) (d v5) (d v6) (d v7) (d v8) (d v9))
    | _ => Err (Errorf "") (* Sscanf stores what its arguments ask for *)
    end.

(** The body of the loop of [Read] for one line. *)
Definition readStatLine (clktck : Z) (line : string) (result : CPUStats) : outcome CPUStats :=
  if negb (HasPrefix line "cpu") then Ok result
  else let! res := wrapMsg "parse one line of stat file" (readOneCPULine line clktck) in
       Ok (mkCPUStats (<[Name res := res]> (CPUs result))).

Section Reader.
Context {fs : FS} {sysconf : Sysconf}.

Definition CPUStatReaderRead : outcome CPUStats :=
  let! clktck := wrapMsg "get SC_CLK_TCK" ClockTick in
  let! file := wrapMsg "open stat file" (Open "/proc/stat") in
  forEachLine (readStatLine clktck) "read a line from stat file" file (mkCPUStats ∅).

Definition CPUStatReader : CPUStat := {| ReadCPUStats := CPUStatReaderRead |}.

End Reader.

(** ** What a line says *)

(** A line of /proc/stat: the counters of one CPU, or something else. *)
Inductive statLine : Type :=
| CpuLine (name : string) (pad : string) (vs : list Z)
| OtherLine (l : string).

Definition renderStatLine (l : statLine) : string :=
  match l with
  | CpuLine name pad vs => name +:+ pad +:+ spacedNumbers vs ""
  | OtherLine l => l
  end.

(** Ten 64-bit counters after a name that starts with cpu; the padding of the
    first line is one more space. *)
Definition wfStatLine (l : statLine) : Prop :=
  match l with
  | CpuLine name pad vs =>
      HasPrefix name "cpu" = true /\ wordChars name = true /\ (pad = "" \/ pad = " ")
      /\ length vs = 10%nat /\ Forall is_u64 vs
  | OtherLine l => HasPrefix l "cpu" = false /\ no_nl l = true /\ l <> "" /\ l <> "c" /\ l <> "cp"
  end.

Definition statOf (scaleFactor : Z) (name : string) (vs : list Z) : SingleCPUStat :=
  let d i := scaled scaleFactor (nth i vs 0) in
  mkCPUStat name (d 0%nat) (d 1%nat) (d 2%nat) (d 3%nat) (d 4%nat)
    (d 5%nat) (d 6%nat) (d 7%nat) (d 8%nat) (d 9%nat).

(** The last line of a given name. *)
Definition lookupStat (scaleFactor : Z) (ls : list statLine) (name : string) : option SingleCPUStat :=
  fold_left (fun acc l =>
    match l with
    | CpuLine n _ vs => if String.eqb n name then Some (statOf scaleFactor n vs) else acc
    | OtherLine _ => acc
    end) ls None.

(** ** Lemmas *)

Lemma cpuLineFormat_eq : cpuLineFormat = "%s" +:+ spacedVerbs 10.
Proof. reflexivity. Qed.

Lemma cpuLineFormat_length : String.length cpuLineFormat = 32%nat.
Proof. reflexivity. Qed.

Lemma spacedNumbers_eol vs : spacedNumbers vs "" +:+ eol = spacedNumbers vs eol.
Proof.
  induction vs as [|v vs IH]; [done|]. cbn [spacedNumbers].
  by rewrite !string_app_assoc, IH.
Qed.

Lemma HasPrefix_nonempty s p : HasPrefix s p = true -> p <> "" -> s <> "".
Proof. intros [t ->]%HasPrefix_spec Hp. by destruct p. Qed.

(** The scan of a line: the name, then whatever the verbs make of the numbers. *)
Lemma Sscanf_cpu_line name pad vs :
  wordChars name = true -> name <> "" -> (pad = "" \/ pad = " ") -> vs <> [] ->
  Sscanf noFloat (name +:+ pad +:+ spacedNumbers vs eol) cpuLineFormat cpuLineArgs =
    (let! vs' := doScanf noFloat (String.length cpuLineFormat) (spacedVerbs 10)
                   (replicate 10 AUint64) (spacedNumbers vs eol) in
     Ok (SString name :: vs')).
Proof.
  intros Hw Hne Hpad Hvs. unfold Sscanf. rewrite cpuLineFormat_length, cpuLineFormat_eq.
  rewrite !string_app_cons, string_app_nil_l. unfold cpuLineArgs. rewrite doScanf_verb.
  rewrite scanOne_string.
  destruct vs as [|v vs]; [done|].
  assert (space_led (pad +:+ spacedNumbers (v :: vs) eol) = true) as Hled by by destruct Hpad as [-> | ->].
  rewrite scanString_word by done. cbn [obind].
  destruct Hpad as [-> | ->]; [rewrite string_app_nil_l; reflexivity|].
  (* the extra space of the first line is absorbed by the format's space *)
  cbn [spacedVerbs spacedNumbers]. rewrite !string_app_cons, !string_app_nil_l, !doScanf_space.
  reflexivity.
Qed.

Lemma readOneCPULine_render name pad vs userHZ :
  wfStatLine (CpuLine name pad vs) -> i64 userHZ <> 0 ->
  readOneCPULine (renderStatLine (CpuLine name pad vs) +:+ eol) userHZ =
    Ok (statOf (Z.quot Second (i64 userHZ)) name vs).
Proof.
  intros (Hp & Hw & Hpad & Hlen & Hvs) Hhz. unfold readOneCPULine.
  cbn [renderStatLine]. rewrite !string_app_assoc, spacedNumbers_eol.
  rewrite Sscanf_cpu_line; [|done|by eapply HasPrefix_nonempty|done|by destruct vs].
  pose proof (doScanf_numbers noFloat 32 vs Hvs) as Hscan. rewrite Hlen in Hscan.
  rewrite cpuLineFormat_length, Hscan by lia.
  cbn [obind wrapMsg wrap]. do 10 (destruct vs as [|? vs]; [done|]). destruct vs; [|done].
  cbn [map length Nat.eqb negb]. destruct (Z.eqb_spec (i64 userHZ) 0); [done|]. reflexivity.
Qed.

Lemma readOneCPULine_short name pad vs userHZ :
  HasPrefix name "cpu" = true -> wordChars name = true -> (pad = "" \/ pad = " ") ->
  (0 < length vs < 10)%nat -> Forall is_u64 vs ->
  is_err (readOneCPULine (name +:+ pad +:+ spacedNumbers vs eol) userHZ) = true.
Proof.
  intros Hp Hw Hpad Hlen Hvs. unfold readOneCPULine.
  rewrite Sscanf_cpu_line; [|done|by eapply HasPrefix_nonempty|done|by destruct vs; simpl in Hlen; [lia|]].
  rewrite cpuLineFormat_length.
  pose proof (doScanf_short noFloat 32 vs (9 - length vs) Hvs ltac:(lia)) as Hs.
  replace (length vs + S (9 - length vs))%nat with 10%nat in Hs by lia.
  by destruct (doScanf _ _ _ _ _).
Qed.

Lemma OtherLine_not_cpu l :
  wfStatLine (OtherLine l) -> HasPrefix (l +:+ eol) "cpu" = false.
Proof.
  intros (Hp & Hn & H1 & H2 & H3). unfold HasPrefix in *.
  destruct l as [|c1 [|c2 [|c3 l]]]; [done | | | ].
  - cbn [String.prefix] in *. rewrite string_app_cons, string_app_nil_l. cbn [String.prefix].
    by destruct (ascii_dec "c" c1).
  - rewrite !string_app_cons, string_app_nil_l. cbn [String.prefix].
    destruct (ascii_dec "c" c1); [|done]. destruct (ascii_dec "p" c2); done.
  - rewrite !string_app_cons. cbn [String.prefix] in *.
    destruct (ascii_dec "c" c1); [|done]. destruct (ascii_dec "p" c2); [|done].
    destruct (ascii_dec "u" c3); [|done]. by destruct l.
Qed.

Lemma cpuLine_no_nl name pad vs :
  wordChars name = true -> (pad = "" \/ pad = " ") -> Forall is_u64 vs ->
  no_nl (name +:+ pad +:+ spacedNumbers vs "") = true.
Proof.
  intros Hw Hpad Hvs. unfold no_nl. rewrite !all_chars_app.
  assert (forall s, wordChars s = true -> all_chars (fun c => negb (Ascii.eqb c nl)) s = true) as Hnl.
  { intros s. apply all_chars_impl. intros c Hc%negb_true_iff.
    by rewrite not_space_not_nl. }
  rewrite (Hnl name) by done.
  assert (all_chars (fun c => negb (Ascii.eqb c nl)) pad = true) as -> by by destruct Hpad as [-> | ->].
  induction Hvs as [|v vs Hv Hvs IH]; [done|]. cbn [spacedNumbers].
  rewrite !all_chars_app, (Hnl (FormatUint v)) by apply wordChars_digits, FormatUint_digits, Hv.
  exact IH.
Qed.

Lemma renderStatLine_no_nl l : wfStatLine l -> no_nl (renderStatLine l) = true.
Proof.
  destruct l as [name pad vs|l]; [|by intros (_ & H & _)].
  intros (_ & Hw & Hpad & _ & Hvs). by apply cpuLine_no_nl.
Qed.

Lemma statLines_no_nl ls :
  Forall wfStatLine ls -> forallb no_nl (map renderStatLine ls) = true.
Proof.
  intros Hls. apply forallb_forall. intros l (s & <- & Hin)%in_map_iff.
  apply renderStatLine_no_nl. rewrite List.Forall_forall in Hls. auto.
Qed.

Lemma foldLines_stat clktck ls result :
  Forall wfStatLine ls -> i64 clktck <> 0 ->
  exists r, foldLines (readStatLine clktck) (map renderStatLine ls) result = Ok r /\
    forall n, CPUs r !! n = match lookupStat (Z.quot Second (i64 clktck)) ls n with
                            | Some s => Some s | None => CPUs result !! n end.
Proof.
  intros Hls Hhz. induction ls as [|l ls IH] using rev_ind; [by exists result|].
  apply Forall_app in Hls as [Hls Hl]. apply list.Forall_cons_1 in Hl as [Hl _].
  destruct (IH Hls) as (r & Hr & Hlk). rewrite map_app, foldLines_app, Hr. cbn [obind map foldLines].
  unfold readStatLine. unfold lookupStat. setoid_rewrite fold_left_app. cbn [fold_left].
  destruct l as [name pad vs|l].
  - assert (HasPrefix (renderStatLine (CpuLine name pad vs) +:+ eol) "cpu" = true) as ->.
    { pose proof Hl as Hp. cbn [wfStatLine] in Hp. apply proj1 in Hp. apply HasPrefix_spec in Hp as [t ->]. cbn [renderStatLine].
      rewrite !string_app_assoc. apply HasPrefix_app. }
    rewrite readOneCPULine_render by done. cbn [obind wrapMsg wrap negb].
    eexists. split; [reflexivity|]. intros n. cbn [Name statOf CPUs].
    destruct (String.eqb_spec name n) as [->|Hne].
    + by rewrite lookup_insert_eq.
    + rewrite lookup_insert_ne by done. apply Hlk.
  - cbn [renderStatLine]. rewrite (OtherLine_not_cpu l Hl). cbn [negb obind]. eauto.
Qed.

Lemma scaled_exact k v : 0 <= v -> 0 <= k -> v * k < 2 ^ 63 -> scaled k v = v * k.
Proof.
  intros Hv Hk Hlt. unfold scaled, muli.
  destruct (decide (k = 0)) as [->|Hk0].
  { rewrite !Z.mul_0_r. reflexivity. }
  assert (is_i64 v) by (unfold is_i64; nia).
  rewrite (i64_small v) by done. apply i64_small. unfold is_i64. nia.
Qed.

(** The exact sum, in unbounded integers. *)
Definition exactSum (c : SingleCPUStat) : Z :=
  User c + Nice c + System c + IDLE c + IOWait c + IRQ c + SoftIRQ c + Steal c + Guest c + GuestNice c.

Definition nonneg (c : SingleCPUStat) : Prop :=
  0 <= User c /\ 0 <= Nice c /\ 0 <= System c /\ 0 <= IDLE c /\ 0 <= IOWait c /\ 0 <= IRQ c
  /\ 0 <= SoftIRQ c /\ 0 <= Steal c /\ 0 <= Guest c /\ 0 <= GuestNice c.

(** Every counter of [d] is at least that of [c]. *)
Definition counters_le (c d : SingleCPUStat) : Prop :=
  User c <= User d /\ Nice c <= Nice d /\ System c <= System d /\ IDLE c <= IDLE d
  /\ IOWait c <= IOWait d /\ IRQ c <= IRQ d /\ SoftIRQ c <= SoftIRQ d /\ Steal c <= Steal d
  /\ Guest c <= Guest d /\ GuestNice c <= GuestNice d.

Lemma Sum_wraps c : Sum c = i64 (exactSum c).
Proof.
  unfold Sum, addi, exactSum. repeat (rewrite i64_idemp_add, <- ?Z.add_assoc).
  f_equal.
Qed.

Lemma Sum_exact c : nonneg c -> exactSum c < 2 ^ 63 -> Sum c = exactSum c.
Proof.
  intros Hn Hlt. rewrite Sum_wraps. apply i64_small.
  unfold nonneg, exactSum, is_i64 in *. lia.
Qed.

(** Between two readings of monotone counters the idle time grows by no more
    than the total. *)
Lemma Sum_idle_delta c d :
  nonneg c -> counters_le c d -> exactSum d < 2 ^ 63 ->
  0 <= subi (IDLE d) (IDLE c) <= subi (Sum d) (Sum c)
  /\ subi (Sum d) (Sum c) = exactSum d - exactSum c.
Proof.
  intros Hn Hle Hlt.
  assert (nonneg d) by (unfold nonneg, counters_le in *; lia).
  assert (exactSum c <= exactSum d) by (unfold exactSum, counters_le in *; lia).
  assert (0 <= exactSum c) by (unfold exactSum, nonneg in *; lia).
  rewrite !Sum_exact by (done || lia).
  unfold nonneg, counters_le, exactSum in *.
  unfold subi. rewrite !i64_small by (unfold is_i64; lia). lia.
Qed.

(** ** Properties *)

Section Properties.
Context {fs : FS} {sysconf : Sysconf}.

(** C24. On a file of well-formed lines and with a non-zero clock tick, [Read]
    returns a map from each CPU name to the ten counters of its last line, each
    multiplied by [time.Second / clock tick] in 64 bits (exactly, while the
    product fits); lines that do not start with cpu are ignored. *)
Theorem ReadCPUStats_lines (hz : Z) (ls : list statLine) (tail : string) :
  is_i64 hz -> hz <> 0 -> ClockTick = Ok hz ->
  Forall wfStatLine ls -> no_nl tail = true ->
  Open "/proc/stat" = Ok (mkFile (unlines (map renderStatLine ls) +:+ tail) None) ->
  exists r, CPUStatReaderRead = Ok r /\
    (forall n, CPUs r !! n = lookupStat (Z.quot Second hz) ls n)
    /\ (forall v, 0 < hz -> 0 <= v -> v * (Second / hz) < 2 ^ 63 ->
          scaled (Z.quot Second hz) v = v * (Second / hz)).
Proof.
  intros Hr Hhz Hclk Hls Htail Hopen. unfold CPUStatReaderRead. rewrite Hclk, Hopen.
  cbn [wrapMsg wrap obind].
  rewrite forEachLine_unlines by (done || by apply statLines_no_nl).
  destruct (foldLines_stat hz ls (mkCPUStats ∅) Hls) as (r & Hr' & Hlk); [by rewrite i64_small|].
  rewrite i64_small in Hlk by done.
  exists r. split; [done|]. split.
  - intros n. rewrite Hlk. by destruct (lookupStat _ _ _).
  - intros v Hpos Hv Hlt. rewrite Z.quot_div_nonneg in * by (unfold Second, Millisecond, Microsecond, Nanosecond; lia).
    apply scaled_exact; [done| |done]. apply Z.div_pos; [|done].
    unfold Second, Millisecond, Microsecond, Nanosecond. lia.
Qed.

(** A cpu line with fewer than ten counters (as old kernels print
    them) makes the whole read fail. *)
Theorem ReadCPUStats_short (hz : Z) (before : list statLine) (name : string) (vs : list Z)
    (after : list string) :
  is_i64 hz -> hz <> 0 -> ClockTick = Ok hz ->
  Forall wfStatLine before -> HasPrefix name "cpu" = true -> wordChars name = true ->
  (0 < length vs < 10)%nat -> Forall is_u64 vs -> forallb no_nl after = true ->
  Open "/proc/stat" =
    Ok (mkFile (unlines (map renderStatLine before ++ (name +:+ spacedNumbers vs "") :: after)%list) None) ->
  is_err CPUStatReaderRead = true.
Proof.
  intros Hr Hhz Hclk Hls Hp Hw Hlen Hvs Hafter Hopen. unfold CPUStatReaderRead. rewrite Hclk, Hopen.
  cbn [wrapMsg wrap obind].
  pose proof (cpuLine_no_nl name "" vs Hw (or_introl eq_refl) Hvs) as Hline.
  rewrite string_app_nil_l in Hline.
  rewrite <- (string_app_nil_r (unlines _)), forEachLine_unlines; [| |done].
  2: { rewrite forallb_app. cbn [forallb]. by rewrite Hline, Hafter, statLines_no_nl. }
  rewrite foldLines_app.
  destruct (foldLines_stat hz before (mkCPUStats ∅) Hls) as (r & -> & _); [by rewrite i64_small|].
  cbn [obind foldLines]. unfold readStatLine.
  rewrite string_app_assoc, spacedNumbers_eol.
  assert (HasPrefix (name +:+ spacedNumbers vs eol) "cpu" = true) as ->.
  { apply HasPrefix_spec in Hp as [t ->]. rewrite string_app_assoc. apply HasPrefix_app. }
  cbn [negb]. pose proof (readOneCPULine_short name "" vs hz Hp Hw (or_introl eq_refl) Hlen Hvs) as Hs.
  rewrite string_app_nil_l in Hs. by destruct (readOneCPULine _ _).
Qed.

End Properties.

(** [Sum] is the sum of the ten counters as long as it fits in 63 bits, and
    between two readings of counters that only grow the idle share of the
    difference lies between 0 and the difference of the sums. *)
Theorem Sum_monotone (c d : SingleCPUStat) :
  nonneg c -> counters_le c d -> exactSum d < 2 ^ 63 ->
  Sum d = exactSum d /\ Sum c <= Sum d
  /\ 0 <= subi (IDLE d) (IDLE c) <= subi (Sum d) (Sum c).
Proof.
  intros Hn Hle Hlt.
  assert (nonneg d) by (unfold nonneg, counters_le in *; lia).
  assert (exactSum c <= exactSum d) by (unfold exactSum, counters_le in *; lia).
  split; [by apply Sum_exact|]. split; [rewrite !Sum_exact by (done || lia); done|].
  by apply Sum_idle_delta.
Qed.

Definition exampleStatFS (s : string) : FS := {| Open := fun _ => Ok (mkFile s None) |}.
Definition exampleSysconf (hz : Z) : Sysconf := {| ClockTick := Ok hz |}.

Definition exampleStatLines : list statLine :=
  [ CpuLine "cpu" " " [155973; 111; 25140; 1665056; 1628; 5054; 1906; 0; 0; 0];
    CpuLine "cpu0" "" [20172; 13; 3028; 207387; 220; 607; 249; 0; 0; 0];
    OtherLine "ctxt 14619208" ].

(** The fixture of [TestCPUStatReader_Read], cut after two CPUs. *)
Lemma ReadCPUStats_lines_witness :
  exists r, @CPUStatReaderRead (exampleStatFS (unlines (map renderStatLine exampleStatLines) +:+ ""))
      (exampleSysconf 100) = Ok r /\
    CPUs r !! "cpu" = Some (mkCPUStat "cpu" 1559730000000 1110000000 251400000000 16650560000000
                   16280000000 50540000000 19060000000 0 0 0).
Proof.
  destruct (@ReadCPUStats_lines (exampleStatFS (unlines (map renderStatLine exampleStatLines) +:+ ""))
      (exampleSysconf 100) 100 exampleStatLines "") as (r & Hr & Hl & _).
  - vm_compute. intuition congruence.
  - discriminate.
  - reflexivity.
  - repeat constructor; vm_compute; intuition congruence.
  - reflexivity.
  - reflexivity.
  - exists r. split; [exact Hr|]. rewrite Hl. vm_compute. reflexivity.
Defined.

Lemma ReadCPUStats_short_witness :
  is_err (@CPUStatReaderRead (exampleStatFS (unlines
    (map renderStatLine exampleStatLines ++ ["cpu1" +:+ spacedNumbers [1; 2; 3; 4; 5; 6; 7; 8] ""])%list))
    (exampleSysconf 100)) = true.
Proof.
  apply (@ReadCPUStats_short _ (exampleSysconf 100) 100 exampleStatLines "cpu1"
           [1; 2; 3; 4; 5; 6; 7; 8] []).
  - vm_compute. intuition congruence.
  - discriminate.
  - reflexivity.
  - repeat constructor; vm_compute; intuition congruence.
  - reflexivity.
  - reflexivity.
  - simpl. lia.
  - repeat constructor; vm_compute; congruence.
  - reflexivity.
  - reflexivity.
Defined.

Lemma Sum_monotone_witness :
  0 <= subi 7 5 <= subi (Sum (mkCPUStat "cpu" 3 0 0 7 0 0 0 0 0 0)) (Sum (mkCPUStat "cpu" 1 0 0 5 0 0 0 0 0 0)).
Proof.
  apply (Sum_monotone (mkCPUStat "cpu" 1 0 0 5 0 0 0 0 0 0) (mkCPUStat "cpu" 3 0 0 7 0 0 0 0 0 0));
    vm_compute; intuition congruence.
Defined.
