(* ===== verification/LoadAvg.v ===== *)
(** * procfs/loadavg.go: parsing /proc/loadavg *)
From S2P Require Import Prelude GoStrings GoFloat GoScan ProcfsUtils.

(** [filters.MetricsReader]: what the smoothing filter samples. *)
Class MetricsReader : Type := { ReadMetric : outcome float64 }.

Record LoadAverage : Type := mkLoadAverage {
  Load1 : float64; Load5 : float64; Load10 : float64;
  RunningProcess : Z; TotalProcess : Z; LastPID : Z }.

Definition loadavgFormat : string := "%f %f %f %d/%d %d".
Definition loadavgArgs : list argty := [AFloat64; AFloat64; AFloat64; AUint64; AUint64; AUint64].

Section Reader.
Context {fs : FS}.
Variable exotic_float : string -> outcome (float64 * string).

(** [LoadAvgReader.Read]: here, unlike in the other parsers, a line without a
    newline is an error ([io.EOF] is not special). *)
Definition LoadAvgRead : outcome LoadAverage :=
  let! file := wrapMsg "open loadavg file" (Open "/proc/loadavg") in
  match ReadString (contents file) with
  | None => Err (Wrap (Some (default (ErrOpaque "EOF") (readError file))) "read loadavg")
  | Some (line, _) =>
      let! vs := wrapMsg "parse loadavg line" (Sscanf exotic_float line loadavgFormat loadavgArgs) in
      if negb (length vs =? 6)%nat then
        Err (ErrOpaque ("invalid loadavg line, parsed " +:+ Itoa (Z.of_nat (length vs)) +:+ " field expected 6"))
      else match vs with
           | [SFloat64 l1; SFloat64 l5; SFloat64 l10; SUint64 r; SUint64 t; SUint64 p] =>
               Ok (mkLoadAverage l1 l5 l10 r t p)
           | _ => Err (ErrOpaque "") (* Sscanf stores what its arguments ask for *)
           end
  end.

(** [LoadAvgMetricsWrapper.Read]: the number of running processes. *)
Definition LoadAvgMetric : outcome float64 :=
  let! res := LoadAvgRead in Ok (of_int (RunningProcess res)).

(** [FilterWrap]. *)
Definition FilterWrap : MetricsReader := {| ReadMetric := LoadAvgMetric |}.

End Reader.

(** ** What the line says *)

(** A load average as the kernel prints it: integer part and two decimals. *)
Record load : Type := mkLoad { whole : Z; cents : Z }.

Definition renderLoad (l : load) : string :=
  FormatUint (whole l) +:+ "." +:+ String (digit_char (cents l / 10)) (String (digit_char (cents l mod 10)) "").

Definition loadValue (l : load) : float64 := of_decimal (100 * whole l + cents l) (-2).

Definition wfLoad (l : load) : Prop :=
  is_u64 (whole l) /\ 0 <= cents l < 100 /\ is_finite (loadValue l) = true.

Definition renderLoadavg (l1 l5 l10 : load) (r t p : Z) : string :=
  renderLoad l1 +:+ " " +:+ renderLoad l5 +:+ " " +:+ renderLoad l10 +:+ " " +:+
  FormatUint r +:+ "/" +:+ FormatUint t +:+ " " +:+ FormatUint p +:+ eol.

(** ** Lemmas *)

(** The metric is a 64-bit counter, whatever the file holds. *)
Lemma LoadAvgMetric_reading {fs : FS} ex x : LoadAvgMetric ex = Ok x -> exists k, is_u64 k /\ x = of_int k.
Proof.
  intros H. unfold LoadAvgMetric in H. apply obind_ok in H as (res & Hr & H). inv_ok.
  exists (RunningProcess res). split; [|done]. unfold LoadAvgRead in Hr.
  apply obind_ok in Hr as (file & _ & Hr). destruct (ReadString (contents file)) as [[line r]|]; [|done].
  apply obind_ok in Hr as (vs & Hvs & Hr). apply wrap_ok in Hvs. apply doScanf_typed in Hvs.
  destruct (negb _); [done|]. repeat (case_match; try done). inv_ok. cbn [RunningProcess].
  rewrite !list.Forall_cons in Hvs. by destruct Hvs as (_ & _ & _ & ? & _).
Qed.

Lemma scanFloat_load ex l rest :
  wfLoad l -> match rest with String c _ => c = " "%char | "" => False end ->
  scanFloat ex (renderLoad l +:+ rest) = Ok (SFloat64 (loadValue l), rest).
Proof.
  intros (Hw & Hc & Hfin) Hrest. unfold scanFloat, renderLoad.
  rewrite !string_app_assoc, !string_app_cons, !string_app_nil_l.
  assert (all_chars is_digit (FormatUint (whole l)) = true) as Hd by apply FormatUint_digits, Hw.
  rewrite SkipSpace_word by (apply FormatUint_nonempty || by apply wordChars_digits).
  cbn [obind]. rewrite word_app_nonempty by apply FormatUint_nonempty.
  assert (0 <= cents l / 10 < 10) as H1.
  { split; [apply Z.div_pos; lia | apply Z.div_lt_upper_bound; lia]. }
  assert (0 <= cents l mod 10 < 10) as H2 by (apply Z.mod_pos_bound; lia).
  set (d1 := digit_char (cents l / 10)). set (d2 := digit_char (cents l mod 10)).
  assert (is_digit d1 = true /\ is_digit d2 = true) as [Hd1 Hd2] by (split; by apply is_digit_char).
  assert (exotic_start (FormatUint (whole l) +:+ String "." (String d1 (String d2 rest))) = false) as ->.
  { destruct (FormatUint (whole l)) as [|c w] eqn:E; [by destruct (FormatUint_nonempty (whole l))|].
    simpl in Hd. apply andb_true_iff in Hd as [Hdc Hdw].
    rewrite string_app_cons. unfold exotic_start.
    destruct w as [|c' w].
    - rewrite string_app_nil_l. destruct c as [[] [] [] [] [] [] [] []]; done.
    - rewrite string_app_cons. simpl in Hdw. apply andb_true_iff in Hdw as [Hdc' _].
      destruct c as [[] [] [] [] [] [] [] []]; try done.
      destruct c' as [[] [] [] [] [] [] [] []]; done. }
  unfold decimal_token. rewrite take_while_app by done.
  change (accept "." (String "." ?x)) with (Some ("."%char, x)). cbv iota beta.
  change (String d1 (String d2 rest)) with (String d1 (String d2 "") +:+ rest).
  assert (all_chars is_digit (String d1 (String d2 "")) = true) as Hdd
    by (simpl; by rewrite Hd1, Hd2).
  destruct rest as [|c rest]; [done|]. subst c.
  rewrite take_while_app by done.
  rewrite word_app_nonempty by apply FormatUint_nonempty.
  rewrite parse_digits_app, FormatUint_parse by done.
  cbn [parse_digits]. rewrite Hd1, Hd2. unfold d1, d2. rewrite !digit_val_char by done.
  change (accept "eE" (String " " rest)) with (@None (ascii * string)). cbv iota beta.
  change (is_char "_pP" " ") with false. cbv iota.
  change (- Z.of_nat (String.length (String _ (String _ "")))) with (-2).
  replace (10 * (10 * whole l + cents l / 10) + cents l mod 10) with (100 * whole l + cents l)
    by (pose proof (Z.div_mod (cents l) 10); lia).
  fold (loadValue l). by rewrite Hfin.
Qed.

(** One ["%f "] of the format against one load average. *)
Lemma doScanf_load ex fuel f args l w rest :
  wfLoad l -> wordChars w = true -> w <> "" -> skip_blank f = f ->
  doScanf ex (S (S fuel)) ("%f " +:+ f) (AFloat64 :: args) (renderLoad l +:+ " " +:+ w +:+ rest) =
    (let! vs := doScanf ex fuel f args (w +:+ rest) in Ok (SFloat64 (loadValue l) :: vs)).
Proof.
  intros Hl Hw Hne Hf. rewrite (string_app_cons "%"), (string_app_cons "f"), (string_app_cons " ").
  rewrite string_app_nil_l, doScanf_verb, scanOne_float.
  rewrite scanFloat_load by done. cbn [obind]. rewrite doScanf_space.
  rewrite string_app_cons, string_app_nil_l.
  change (match_spaces (String " " ?x)) with (Ok (skip_blank x)). cbn [obind].
  by rewrite skip_blank_word, Hf.
Qed.

Lemma doScanf_uint ex fuel f args v rest :
  is_u64 v -> match rest with "" => True | String c _ => is_digit c = false end ->
  doScanf ex (S fuel) ("%d" +:+ f) (AUint64 :: args) (FormatUint v +:+ rest) =
    (let! vs := doScanf ex fuel f args rest in Ok (SUint64 v :: vs)).
Proof.
  intros Hv Hr. rewrite !string_app_cons, string_app_nil_l, doScanf_verb, scanOne_uint.
  by rewrite scanUint_format.
Qed.

Lemma doScanf_slash ex fuel f args rest :
  doScanf ex (S fuel) (String "/" f) args (String "/" rest) = doScanf ex fuel f args rest.
Proof. reflexivity. Qed.

Lemma loadavgFormat_eq :
  loadavgFormat = "%f " +:+ "%f " +:+ "%f " +:+ "%d" +:+ "/" +:+ "%d" +:+ " " +:+ "%d".
Proof. reflexivity. Qed.

Lemma wordChars_load l : wfLoad l -> wordChars (renderLoad l) = true /\ renderLoad l <> "".
Proof.
  intros (Hw & Hc & _). unfold renderLoad. split.
  - rewrite !wordChars_app, wordChars_digits by apply FormatUint_digits, Hw.
    assert (0 <= cents l / 10 < 10) as H1.
    { split; [apply Z.div_pos; lia | apply Z.div_lt_upper_bound; lia]. }
    assert (0 <= cents l mod 10 < 10) as H2 by (apply Z.mod_pos_bound; lia).
    rewrite (wordChars_digits (String (digit_char (cents l / 10)) _)); [done|]. simpl. by rewrite !is_digit_char.
  - destruct (FormatUint (whole l)) eqn:E; [by destruct (FormatUint_nonempty (whole l))|done].
Qed.

Lemma Sscanf_loadavg ex l1 l5 l10 r t p :
  wfLoad l1 -> wfLoad l5 -> wfLoad l10 -> is_u64 r -> is_u64 t -> is_u64 p ->
  Sscanf ex (renderLoadavg l1 l5 l10 r t p) loadavgFormat loadavgArgs =
    Ok [SFloat64 (loadValue l1); SFloat64 (loadValue l5); SFloat64 (loadValue l10);
        SUint64 r; SUint64 t; SUint64 p].
Proof.
  intros H1 H5 H10 Hr Ht Hp. unfold Sscanf.
  change (S (String.length loadavgFormat)) with 18%nat. rewrite loadavgFormat_eq.
  unfold renderLoadavg, loadavgArgs.
  destruct (wordChars_load l5 H5), (wordChars_load l10 H10).
  assert (wordChars (FormatUint r) = true) by apply wordChars_digits, FormatUint_digits, Hr.
  rewrite !doScanf_load by (done || apply FormatUint_nonempty).
  rewrite doScanf_uint by done.
  rewrite (string_app_cons "/"), (string_app_cons "/"), !(string_app_nil_l ("%d" +:+ _)),
    !(string_app_nil_l (FormatUint t +:+ _)), doScanf_slash, doScanf_uint by done.
  pose proof (doScanf_number ex 7 "" [] p eol Hp eq_refl) as Hlast.
  rewrite string_app_nil_r in Hlast. 
  change (" " +:+ "%d") with " %d". rewrite Hlast. reflexivity.
Qed.

Lemma load_line_no_nl s : wordChars s = true -> no_nl s = true.
Proof.
  apply all_chars_impl. intros c Hc%negb_true_iff. by rewrite not_space_not_nl.
Qed.

Lemma renderLoadavg_line l1 l5 l10 r t p more :
  wfLoad l1 -> wfLoad l5 -> wfLoad l10 -> is_u64 r -> is_u64 t -> is_u64 p ->
  ReadString (renderLoadavg l1 l5 l10 r t p +:+ more) = Some (renderLoadavg l1 l5 l10 r t p, more).
Proof.
  intros H1 H5 H10 Hr Ht Hp. unfold renderLoadavg.
  set (s := renderLoad l1 +:+ " " +:+ renderLoad l5 +:+ " " +:+ renderLoad l10 +:+ " " +:+
            FormatUint r +:+ "/" +:+ FormatUint t +:+ " " +:+ FormatUint p).
  assert (forall x, renderLoad l1 +:+ " " +:+ renderLoad l5 +:+ " " +:+ renderLoad l10 +:+ " " +:+
            FormatUint r +:+ "/" +:+ FormatUint t +:+ " " +:+ FormatUint p +:+ x = s +:+ x) as Hs.
  { intros x. unfold s. by rewrite !string_app_assoc. }
  rewrite Hs. rewrite string_app_assoc. apply ReadString_line.
  unfold s, no_nl. rewrite !all_chars_app.
  destruct (wordChars_load l1 H1), (wordChars_load l5 H5), (wordChars_load l10 H10).
  fold (no_nl (renderLoad l1)) (no_nl (renderLoad l5)) (no_nl (renderLoad l10)).
  fold (no_nl (FormatUint r)) (no_nl (FormatUint t)) (no_nl (FormatUint p)).
  assert (forall n, is_u64 n -> no_nl (FormatUint n) = true) as Hf
    by (intros n Hn; apply load_line_no_nl, wordChars_digits, FormatUint_digits, Hn).
  rewrite (load_line_no_nl (renderLoad l1)), (load_line_no_nl (renderLoad l5)),
    (load_line_no_nl (renderLoad l10)), (Hf r), (Hf t), (Hf p) by done.
  reflexivity.
Qed.

(** ** Properties *)

Section Properties.
Context {fs : FS}.
Variable exotic_float : string -> outcome (float64 * string).

(** C25. [Read] inverts the kernel's format: from the line the kernel prints it
    recovers the three averages (as the nearest floats), the running and total
    process counts and the last pid, whatever follows the first line; and the
    metric handed to the smoothing filter is the number of running processes. *)
Theorem LoadAvgRead_line (l1 l5 l10 : load) (r t p : Z) (more : string) (err : option error) :
  wfLoad l1 -> wfLoad l5 -> wfLoad l10 -> is_u64 r -> is_u64 t -> is_u64 p ->
  Open "/proc/loadavg" = Ok (mkFile (renderLoadavg l1 l5 l10 r t p +:+ more) err) ->
  LoadAvgRead exotic_float = Ok (mkLoadAverage (loadValue l1) (loadValue l5) (loadValue l10) r t p)
  /\ LoadAvgMetric exotic_float = Ok (of_int r).
Proof.
  intros H1 H5 H10 Hr Ht Hp Hopen.
  assert (LoadAvgRead exotic_float =
            Ok (mkLoadAverage (loadValue l1) (loadValue l5) (loadValue l10) r t p)) as Hread.
  { unfold LoadAvgRead. rewrite Hopen. cbn [wrapMsg wrap obind contents].
    rewrite renderLoadavg_line by done. by rewrite Sscanf_loadavg. }
  split; [done|]. unfold LoadAvgMetric. by rewrite Hread.
Qed.

(** Every other outcome is an error, never a panic and never a partial
    result: in particular a line without a newline, or one whose scan stops early. *)
Theorem LoadAvgRead_total :
  (forall f, is_panic (Open f) = false) ->
  (forall inp, is_panic (exotic_float inp) = false) ->
  match LoadAvgRead exotic_float with
  | Ok _ => exists f line rest, Open "/proc/loadavg" = Ok f
            /\ ReadString (contents f) = Some (line, rest)
            /\ is_ok (Sscanf exotic_float line loadavgFormat loadavgArgs) = true
  | Err _ => True
  | Panic _ => False
  end.
Proof.
  intros Hopen Hex. unfold LoadAvgRead. specialize (Hopen "/proc/loadavg").
  destruct (Open "/proc/loadavg") as [f| |]; cbn [wrapMsg wrap obind]; [|done|done].
  destruct (ReadString (contents f)) as [[line rest]|] eqn:Hline; [|done].
  pose proof (Sscanf_no_panic exotic_float line loadavgFormat loadavgArgs Hex) as Hnp.
  destruct (Sscanf exotic_float line loadavgFormat loadavgArgs) as [vs| |] eqn:Hscan;
    cbn [wrapMsg wrap obind]; [|done|done].
  destruct (negb (length vs =? 6)%nat); [done|].
  repeat case_match; try done. exists f, line, rest. by rewrite Hscan.
Qed.

End Properties.

Definition exampleLoadFS (s : string) : FS := {| Open := fun _ => Ok (mkFile s None) |}.
Definition noExotic (inp : string) : outcome (float64 * string) := Err (ErrOpaque "syntax").

Lemma LoadAvgRead_line_witness :
  @LoadAvgRead (exampleLoadFS (renderLoadavg (mkLoad 1 76) (mkLoad 4 8) (mkLoad 4 41) 3 1484 2852530 +:+ ""))
    noExotic =
  Ok (mkLoadAverage (of_decimal 176 (-2)) (of_decimal 408 (-2)) (of_decimal 441 (-2)) 3 1484 2852530).
Proof.
  apply (@LoadAvgRead_line
    (exampleLoadFS (renderLoadavg (mkLoad 1 76) (mkLoad 4 8) (mkLoad 4 41) 3 1484 2852530 +:+ ""))
    noExotic (mkLoad 1 76) (mkLoad 4 8) (mkLoad 4 41) 3 1484 2852530 "" None);
    [vm_compute; intuition congruence .. | reflexivity].
Defined.

Lemma LoadAvgRead_total_witness :
  match @LoadAvgRead (exampleLoadFS "1.76 4.08") noExotic with
  | Panic _ => False | _ => True end.
Proof.
  pose proof (@LoadAvgRead_total (exampleLoadFS "1.76 4.08") noExotic
                (fun _ => eq_refl) (fun _ => eq_refl)) as H.
  destruct (@LoadAvgRead (exampleLoadFS "1.76 4.08") noExotic); [exact I | exact I | exact H].
Defined.
