(* ===== verification/MountInfo.v ===== *)
(** * procfs/mountinfo.go: names and mount points of block devices *)
From S2P Require Import Prelude GoStrings GoTime Cgroup.

(** [deviceKey]. *)
Definition deviceKey (major minor : Z) : string := FormatUint major +:+ ":" +:+ FormatUint minor.

Definition MountInfoRefreshInterval : Z := 30 * Second.

(** The fields of prometheus/procfs's [MountInfo] the reader uses. *)
Record mountEntry : Type := mkMountEntry { MajorMinorVer : string; MountPoint : string }.

(** What the reader asks the operating system. *)
Class OS : Type := {
  ReadDir : string -> outcome (list string);
  EvalSymlinks : string -> outcome string }.

(** The immutable part of [MountInfoReader]. *)
Record readerConfig : Type := mkReaderConfig {
  getMountInfos : outcome (list mountEntry);
  sysDevBlock : string;
  dev : string;
  devMapper : string }.

(** The part under the mutex: the two maps, always replaced together. *)
Record mountState : Type := mkMountState {
  mountInfos : gmap string string;
  devices : gmap string string }.

Definition emptyMountState : mountState := mkMountState ∅ ∅.

(** [NewMountInfoReader]: pid 0 means the process itself. *)
Section New.
Variable procfs : Type.
Variable NewFS : string -> outcome procfs.
Variable GetProcMounts : procfs -> Z -> outcome (list mountEntry).
Variable Getpid : Z.

Definition NewMountInfoReader (procDir : string) (pid : Z) : outcome (readerConfig * mountState) :=
  let! procFS := wrapMsg "create procfs filesystem" (NewFS procDir) in
  let pid := if pid =? 0 then Getpid else pid in
  Ok (mkReaderConfig (GetProcMounts procFS pid) "/sys/dev/block" "/dev" "/dev/mapper",
      emptyMountState).
End New.

Section Reader.
Context {os : OS}.
Variable r : readerConfig.

(** [mapperPaths]: from the target of each symbolic link of the mapper directory
    to the link; a later entry with the same target replaces an earlier one. *)
Fixpoint mapperLoop (entries : list string) (paths : gmap string string)
    : outcome (gmap string string) :=
  match entries with
  | [] => Ok paths
  | name :: entries' =>
      let path := JoinPath [devMapper r; name] in
      let! target := wrapMsg ("resolve device mapper symlink " +:+ path) (EvalSymlinks path) in
      mapperLoop entries' (<[target := path]> paths)
  end.

Definition mapperPaths : outcome (gmap string string) :=
  let! entries := wrapMsg "read device mapper directory" (ReadDir (devMapper r)) in
  mapperLoop entries ∅.

(** [devicePath]: the mapper alias of the device if there is one. *)
Definition devicePath (key : string) (mapper : gmap string string) : outcome string :=
  let! target := wrapMsg "resolve sysfs device symlink" (EvalSymlinks (JoinPath [sysDevBlock r; key])) in
  let path := JoinPath [dev r; Base target] in
  if negb (String.eqb (mapget "" mapper path) "") then Ok (mapget "" mapper path) else Ok path.

Fixpoint devicesLoop (entries : list string) (mapper : gmap string string)
    (devs : gmap string string) : outcome (gmap string string) :=
  match entries with
  | [] => Ok devs
  | name :: entries' =>
      let! path := wrapMsg ("get device path for " +:+ name) (devicePath name mapper) in
      devicesLoop entries' mapper (<[name := path]> devs)
  end.

Definition devicePaths (mapper : gmap string string) : outcome (gmap string string) :=
  let! entries := wrapMsg "read sysfs device block directory" (ReadDir (sysDevBlock r)) in
  devicesLoop entries mapper ∅.

(** The loop of [Refresh] over the mounts: the last mount of a device wins. *)
Definition infosLoop (infos : list mountEntry) : gmap string string :=
  fold_left (fun m e => <[MajorMinorVer e := MountPoint e]> m) infos ∅.

(** The part of [Refresh] before the lock is taken. *)
Definition refreshTables : outcome (gmap string string * gmap string string) :=
  let! infos := wrapMsg "get mount infos" (getMountInfos r) in
  let! mapper := wrapMsg "get device mapper paths" mapperPaths in
  let! devs := wrapMsg "get device paths" (devicePaths mapper) in
  Ok (infosLoop infos, devs).

(** [Refresh]: both maps are replaced under the lock, or neither is. *)
Definition Refresh (st : mountState) : mountState * outcome unit :=
  match refreshTables with
  | Ok (infos, devs) => (mkMountState infos devs, Ok tt)
  | Err e => (st, Err e)
  | Panic m => (st, Panic m)
  end.

End Reader.

(** [Mountpoint] and [DevicePath] read the current maps. *)
Definition MountpointOf (st : mountState) (major minor : Z) : string :=
  mapget "" (mountInfos st) (deviceKey major minor).
Definition DevicePathOf (st : mountState) (major minor : Z) : string :=
  mapget "" (devices st) (deviceKey major minor).

(** The state as the interface the cgroup reader is given. *)
Definition MountInfosOf (st : mountState) : MountInfos :=
  {| Mountpoint := MountpointOf st; DevicePath := DevicePathOf st |}.

(** [Start]: one refresh at once and one per tick, whose errors are only logged.
    The operating system may answer differently each time; a panic ends the
    goroutine. *)
Record answers : Type := mkAnswers { osAnswers : OS; cfgAnswers : readerConfig }.

Fixpoint StartRun (ticks : list answers) (st : mountState) : mountState :=
  match ticks with
  | [] => st
  | a :: ticks' =>
      match @Refresh (osAnswers a) (cfgAnswers a) st with
      | (st', Panic _) => st'
      | (st', _) => StartRun ticks' st'
      end
  end.

(** ** Lemmas *)

Lemma all_digits_no_colon s :
  all_chars is_digit s = true -> all_chars (fun c => negb (Ascii.eqb c ":")) s = true.
Proof.
  apply all_chars_impl. intros c Hc. apply negb_true_iff. by destruct (Ascii.eqb_spec c ":") as [->|].
Qed.

Lemma deviceKey_split major minor :
  is_u64 major -> is_u64 minor ->
  Split ":" (deviceKey major minor) = [FormatUint major; FormatUint minor].
Proof.
  intros H1 H2. unfold deviceKey. rewrite string_app_cons, string_app_nil_l.
  rewrite Split_app by apply all_digits_no_colon, FormatUint_digits, H1.
  by rewrite Split_single by apply all_digits_no_colon, FormatUint_digits, H2.
Qed.

Lemma deviceKey_injective a b c d :
  is_u64 a -> is_u64 b -> is_u64 c -> is_u64 d ->
  deviceKey a b = deviceKey c d -> a = c /\ b = d.
Proof.
  intros Ha Hb Hc Hd H. apply (f_equal (Split ":")) in H.
  rewrite !deviceKey_split in H by done. injection H as H1 H2.
  split; by apply FormatUint_inj.
Qed.

(** Where the last mount of a device is. *)
Definition lastMount (infos : list mountEntry) (key : string) : option string :=
  fold_left (fun acc e => if String.eqb (MajorMinorVer e) key then Some (MountPoint e) else acc) infos None.

Lemma infosLoop_lookup infos key : infosLoop infos !! key = lastMount infos key.
Proof.
  unfold infosLoop, lastMount. induction infos as [|e infos IH] using rev_ind; [done|].
  rewrite !fold_left_app. cbn [fold_left].
  destruct (String.eqb_spec (MajorMinorVer e) key) as [<-|Hne].
  - by rewrite lookup_insert_eq.
  - by rewrite lookup_insert_ne.
Qed.

Section Loops.
Context {os : OS}.
Variable r : readerConfig.

(** The devices loop names every listed device, and nothing else. *)
Lemma devicesLoop_spec entries mapper devs res :
  devicesLoop r entries mapper devs = Ok res ->
  forall key, res !! key =
    (if decide (key ∈ entries)
     then match devicePath r key mapper with Ok p => Some p | _ => None end
     else devs !! key)
  /\ (key ∈ entries -> is_ok (devicePath r key mapper) = true).
Proof.
  revert devs. induction entries as [|name entries IH]; intros devs.
  { intros H. cbn in H. inv_ok. intros key. rewrite decide_False by (intros H; inversion H).
    split; [done|]. intros H; inversion H. }
  cbn [devicesLoop]. destruct (devicePath r name mapper) as [p| |] eqn:Hp;
    cbn [wrapMsg wrap obind]; [|done|done].
  intros H key. destruct (IH _ H key) as [H1 H2]. split.
  - rewrite H1. destruct (decide (key ∈ entries)).
    + by rewrite decide_True by (by right).
    + destruct (decide (key = name)) as [->|Hne].
      * rewrite decide_True by left. by rewrite Hp, lookup_insert_eq.
      * rewrite decide_False by (rewrite elem_of_cons; intros [?|?]; done).
        by rewrite lookup_insert_ne.
  - rewrite elem_of_cons. intros [-> | ?]; [by rewrite Hp | auto].
Qed.

(** The mapper loop keeps, for a target, the last entry that resolves to it. *)
Definition mapperLast (entries : list string) (target : string) : option string :=
  fold_left (fun acc name =>
    match EvalSymlinks (JoinPath [devMapper r; name]) with
    | Ok t => if String.eqb t target then Some (JoinPath [devMapper r; name]) else acc
    | _ => acc
    end) entries None.

Lemma mapperLoop_spec entries paths res target :
  mapperLoop r entries paths = Ok res ->
  res !! target = match mapperLast entries target with Some p => Some p | None => paths !! target end.
Proof.
  revert paths. induction entries as [|name entries IH]; intros paths; [by intros [= ->]|].
  cbn [mapperLoop]. destruct (EvalSymlinks (JoinPath [devMapper r; name])) as [t| |] eqn:Ht;
    cbn [wrapMsg wrap obind]; [|done|done].
  intros H. rewrite (IH _ H). unfold mapperLast. cbn [fold_left]. rewrite Ht.
  assert (forall acc, fold_left (fun acc name =>
      match EvalSymlinks (JoinPath [devMapper r; name]) with
      | Ok t => if String.eqb t target then Some (JoinPath [devMapper r; name]) else acc
      | _ => acc end) entries acc
    = match fold_left (fun acc name =>
      match EvalSymlinks (JoinPath [devMapper r; name]) with
      | Ok t => if String.eqb t target then Some (JoinPath [devMapper r; name]) else acc
      | _ => acc end) entries None with Some p => Some p | None => acc end) as Hacc.
  { clear. induction entries as [|e entries IH] using rev_ind; intros acc; [done|].
    rewrite !fold_left_app. cbn [fold_left].
    destruct (EvalSymlinks (JoinPath [devMapper r; e])) as [t| |]; [|apply IH|apply IH].
    destruct (String.eqb t target); [done|apply IH]. }
  rewrite (Hacc (if String.eqb t target then _ else _)).
  destruct (fold_left _ entries None); [done|].
  destruct (String.eqb_spec t target) as [->|Hne].
  - by rewrite lookup_insert_eq.
  - by rewrite lookup_insert_ne.
Qed.

End Loops.

(** ** Properties *)

(** Two devices never share a key: the decimal rendering with a colon is
    injective on 64-bit device numbers. *)
Theorem deviceKey_inj a b c d :
  is_u64 a -> is_u64 b -> is_u64 c -> is_u64 d ->
  deviceKey a b = deviceKey c d <-> a = c /\ b = d.
Proof.
  intros Ha Hb Hc Hd. split; [by apply deviceKey_injective | by intros [-> ->]].
Qed.

(** C26. After a successful [Refresh] a device that sysfs lists is named by
    its device-mapper alias when the mapper directory has one (the last link that
    resolves to it) and by its own node otherwise, an unlisted device has the empty
    name, and the mount point is that of the last mount of the device. *)
Theorem Refresh_names {os : OS} (r : readerConfig) (st st' : mountState) (major minor : Z) :
  Refresh r st = (st', Ok tt) ->
  exists mounts links listed,
    getMountInfos r = Ok mounts /\ ReadDir (devMapper r) = Ok links
    /\ ReadDir (sysDevBlock r) = Ok listed
    /\ MountpointOf st' major minor = default "" (lastMount mounts (deviceKey major minor))
    /\ (deviceKey major minor ∉ listed -> DevicePathOf st' major minor = "")
    /\ (deviceKey major minor ∈ listed ->
          exists target, EvalSymlinks (JoinPath [sysDevBlock r; deviceKey major minor]) = Ok target
          /\ let node := JoinPath [dev r; Base target] in
             DevicePathOf st' major minor =
               match mapperLast r links node with
               | Some alias => if String.eqb alias "" then node else alias
               | None => node
               end).
Proof.
  unfold Refresh, refreshTables, mapperPaths, devicePaths.
  destruct (getMountInfos r) as [mounts| |]; cbn [wrapMsg wrap obind]; try done.
  destruct (ReadDir (devMapper r)) as [links| |]; cbn [wrapMsg wrap obind]; try done.
  destruct (mapperLoop r links ∅) as [mapper| |] eqn:Hm; cbn [wrapMsg wrap obind]; try done.
  destruct (ReadDir (sysDevBlock r)) as [listed| |]; cbn [wrapMsg wrap obind]; try done.
  destruct (devicesLoop r listed mapper ∅) as [devs| |] eqn:Hd; cbn [wrapMsg wrap obind]; try done.
  intros [= <-]. exists mounts, links, listed. do 3 (split; [done|]).
  destruct (devicesLoop_spec r _ _ _ _ Hd (deviceKey major minor)) as [Hlk Hok].
  unfold MountpointOf, DevicePathOf, mapget. cbn [mountInfos devices].
  split; [by rewrite infosLoop_lookup|]. rewrite Hlk. split.
  - intros Hn. by rewrite decide_False.
  - intros Hin. rewrite decide_True by done. specialize (Hok Hin). unfold devicePath in *.
    destruct (EvalSymlinks _) as [target| |]; cbn [wrapMsg wrap obind] in *; try done.
    exists target. split; [done|]. unfold mapget.
    rewrite (mapperLoop_spec r _ _ _ _ Hm), lookup_empty.
    destruct (mapperLast r links _) as [alias|]; [|done].
    cbn. by destruct (String.eqb alias "").
Qed.

(** The refreshes that [Start] runs: a panic ends it. *)
Fixpoint executed (ticks : list answers) : list answers :=
  match ticks with
  | [] => []
  | a :: ticks' => if is_panic (@refreshTables (osAnswers a) (cfgAnswers a)) then [] else a :: executed ticks'
  end.

(** The tables that a refresh reads, if it can. *)
Definition tablesOf (a : answers) : option mountState :=
  match @refreshTables (osAnswers a) (cfgAnswers a) with
  | Ok (infos, devs) => Some (mkMountState infos devs)
  | _ => None
  end.

(** C27. [Refresh] is all or nothing: it stores the two tables that it read, or, when
    it fails, leaves both as they were.  So whatever the outcomes of the refreshes of
    [Start], both tables are those of the last successful one before any panic, and
    the first tables if there is none. *)
Theorem StartRun_last (ticks : list answers) (st : mountState) :
  (forall (os : OS) r, (Refresh r st).1 = default st (tablesOf (mkAnswers os r)) /\
     ((Refresh r st).2 = Ok tt <-> is_Some (tablesOf (mkAnswers os r)))) /\
  StartRun ticks st = default st (list.last (omap tablesOf (executed ticks))).
Proof.
  split.
  { intros os r. unfold Refresh, tablesOf. cbn [osAnswers cfgAnswers].
    destruct (refreshTables r) as [[infos devs]|e|m]; (split; [done|]); (split; intros H; [first [done|by eexists]|first [done|by destruct H]]). }
  revert st. induction ticks as [|a ticks IH]; intros st; [done|]. cbn [StartRun executed]. unfold Refresh.
  destruct (@refreshTables (osAnswers a) (cfgAnswers a)) as [[infos devs]|e|m] eqn:Hr; cbn [is_panic omap list_omap].
  - rewrite IH. unfold tablesOf at 2. rewrite Hr. rewrite list.last_cons. by destruct (list.last _).
  - rewrite IH. unfold tablesOf at 2. by rewrite Hr.
  - done.
Qed.

Definition exampleOS : OS :=
  {| ReadDir := fun d =>
       if String.eqb d "/dev/mapper" then Ok ["data"]
       else if String.eqb d "/sys/dev/block" then Ok ["253:0"; "8:1"] else Err (ErrOpaque "no such directory");
     EvalSymlinks := fun p =>
       if String.eqb p "/dev/mapper/data" then Ok "/dev/dm-0"
       else if String.eqb p "/sys/dev/block/253:0" then Ok "/sys/devices/virtual/block/dm-0"
       else if String.eqb p "/sys/dev/block/8:1" then Ok "/sys/devices/pci0/block/sda/sda1"
       else Err (ErrOpaque "no such file") |}.

Definition exampleReader : readerConfig :=
  mkReaderConfig (Ok [mkMountEntry "8:1" "/"; mkMountEntry "253:0" "/data"])
    "/sys/dev/block" "/dev" "/dev/mapper".

Example prefers_mapper_alias :
  DevicePathOf (@Refresh exampleOS exampleReader emptyMountState).1 253 0 = "/dev/mapper/data"
  /\ DevicePathOf (@Refresh exampleOS exampleReader emptyMountState).1 8 1 = "/dev/sda1".
Proof. split; vm_compute; reflexivity. Qed.

Lemma deviceKey_inj_witness : deviceKey 8 1 = deviceKey 8 1 <-> 8 = 8 /\ 1 = 1.
Proof. apply (deviceKey_inj 8 1 8 1); vm_compute; intuition congruence. Defined.

Lemma Refresh_names_witness :
  exists mounts, Ok [mkMountEntry "8:1" "/"; mkMountEntry "253:0" "/data"] = Ok mounts
  /\ MountpointOf (@Refresh exampleOS exampleReader emptyMountState).1 8 1
      = default "" (lastMount mounts (deviceKey 8 1)).
Proof.
  destruct (@Refresh_names exampleOS exampleReader emptyMountState
    (@Refresh exampleOS exampleReader emptyMountState).1 8 1) as (m & l & d & Hm & _ & _ & Hp & _).
  - vm_compute. reflexivity.
  - exists m. exact (conj Hm Hp).
Defined.

(** A refresh, one that fails, a second one that sees one mount, and one that fails. *)
Definition exampleTicks : list answers :=
  let failing := mkReaderConfig (Err (ErrOpaque "boom")) "/sys/dev/block" "/dev" "/dev/mapper" in
  let later := mkReaderConfig (Ok [mkMountEntry "8:1" "/srv"]) "/sys/dev/block" "/dev" "/dev/mapper" in
  [mkAnswers exampleOS exampleReader; mkAnswers exampleOS failing; mkAnswers exampleOS later; mkAnswers exampleOS failing].

Lemma StartRun_last_witness :
  MountpointOf (StartRun exampleTicks emptyMountState) 8 1 = "/srv" /\
  MountpointOf (StartRun exampleTicks emptyMountState) 253 0 = "" /\
  DevicePathOf (StartRun exampleTicks emptyMountState) 253 0 = "/dev/mapper/data".
Proof.
  rewrite (proj2 (StartRun_last exampleTicks emptyMountState)). split_and!; vm_compute; reflexivity.
Defined.
