(* ===== verification/Json.v ===== *)
(** * encoding/json at the level of values

    What [json.Encoder] makes of a Go value and [json.Decoder] of a document, as
    trees; [JsonText] gives the text of a tree.  A number is kept as its literal,
    as the decoder does until it knows the type of the target.  A float that is NaN
    or infinite cannot be encoded.  Decoding into a struct goes through the members
    of the object in order, matches each against the field names (exactly, else
    ignoring case), ignores the unknown ones and leaves absent fields alone;
    [null] leaves the target unchanged. *)
From S2P Require Import Prelude GoStrings GoFloat NumberText.
From stdpp Require Import sorting.

Inductive json : Type :=
| JNull
| JBool (b : bool)
| JNum (literal : string)
| JStr (s : string)
| JArr (js : list json)
| JObj (members : list (string * json)).

(** ** Encoding *)

(** An integer. *)
Definition JInt (n : Z) : json := JNum (Itoa n).

Definition encFloat (x : float64) : outcome json :=
  if is_finite x then Ok (JNum (FormatFloat x)) else Err (ErrOpaque "json: unsupported value").

(** [omitempty] on a string: the member or nothing. *)
Definition omitEmpty (name s : string) : list (string * json) :=
  if String.eqb s "" then [] else [(name, JStr s)].

Fixpoint encMapList {V} (enc : V -> outcome json) (kvs : list (string * V))
    : outcome (list (string * json)) :=
  match kvs with
  | [] => Ok []
  | (k, v) :: kvs' =>
      let! j := enc v in
      let! js := encMapList enc kvs' in
      Ok ((k, j) :: js)
  end.

(** The order of the keys of an object made from a map. *)
Definition keyLe {V} (a b : string * V) : Prop := String.leb a.1 b.1 = true.
#[export] Instance keyLe_dec {V} : RelDecision (@keyLe V) := fun a b => decide (String.leb a.1 b.1 = true).

(** A map becomes an object, its keys sorted. *)
Definition encMap {V} (enc : V -> outcome json) (m : gmap string V) : outcome json :=
  let! js := encMapList enc (merge_sort keyLe (map_to_list m)) in Ok (JObj js).

(** ** Decoding *)

Definition typeError {A} : outcome A := Err (ErrOpaque "json: cannot unmarshal").

(** A decoder updates a target that already has a value. *)
Definition decoder (T : Type) : Type := json -> T -> outcome T.

Definition decUint64 : decoder Z := fun j cur =>
  match j with
  | JNull => Ok cur
  | JNum s => match ParseUint s with Ok n => Ok n | _ => typeError end
  | _ => typeError
  end.

Definition decInt64 : decoder Z := fun j cur =>
  match j with
  | JNull => Ok cur
  | JNum s => match Atoi s with Ok n => Ok n | _ => typeError end
  | _ => typeError
  end.

Definition decFloat64 : decoder float64 := fun j cur =>
  match j with
  | JNull => Ok cur
  | JNum s => match ParseFloat s with Some x => Ok x | None => typeError end
  | _ => typeError
  end.

Definition decString : decoder string := fun j cur =>
  match j with
  | JNull => Ok cur
  | JStr s => Ok s
  | _ => typeError
  end.

(** The decoder of the field a member name selects. *)
Definition findField {T} (fields : list (string * decoder T)) (name : string) : option (decoder T) :=
  match List.find (fun f => String.eqb f.1 name) fields with
  | Some (_, d) => Some d
  | None =>
      match List.find (fun f => String.eqb (ToLower f.1) (ToLower name)) fields with
      | Some (_, d) => Some d
      | None => None
      end
  end.

Fixpoint decMembers {T} (fields : list (string * decoder T)) (members : list (string * json)) (cur : T)
    : outcome T :=
  match members with
  | [] => Ok cur
  | (name, j) :: members' =>
      match findField fields name with
      | None => decMembers fields members' cur
      | Some d => let! cur' := d j cur in decMembers fields members' cur'
      end
  end.

Definition decStruct {T} (fields : list (string * decoder T)) : decoder T := fun j cur =>
  match j with
  | JNull => Ok cur
  | JObj members => decMembers fields members cur
  | _ => typeError
  end.

(** A field of a struct, from the decoder of its type. *)
Definition field {T F} (get : T -> F) (set : F -> T -> T) (dec : decoder F) : decoder T :=
  fun j cur => let! v := dec j (get cur) in Ok (set v cur).

(** A pointer: [null] makes it nil, anything else is decoded into what it points
    to, or into a new zero value. *)
Definition decPtr {T} (zero : T) (dec : decoder T) : decoder (option T) := fun j cur =>
  match j with
  | JNull => Ok None
  | _ => let! v := dec j (default zero cur) in Ok (Some v)
  end.

Fixpoint decElems {T} (zero : T) (dec : decoder T) (js : list json) : outcome (list T) :=
  match js with
  | [] => Ok []
  | j :: js' =>
      let! v := dec j zero in
      let! vs := decElems zero dec js' in
      Ok (v :: vs)
  end.

(** A slice (whose previous contents do not matter: the targets start out nil). *)
Definition decSlice {T} (zero : T) (dec : decoder T) : decoder (list T) := fun j cur =>
  match j with
  | JNull => Ok []
  | JArr js => decElems zero dec js
  | _ => typeError
  end.

Fixpoint decMapMembers {V} (zero : V) (dec : decoder V) (members : list (string * json))
    (cur : gmap string V) : outcome (gmap string V) :=
  match members with
  | [] => Ok cur
  | (k, j) :: members' =>
      let! v := dec j zero in decMapMembers zero dec members' (<[k := v]> cur)
  end.

Definition decMap {V} (zero : V) (dec : decoder V) : decoder (gmap string V) := fun j cur =>
  match j with
  | JNull => Ok ∅
  | JObj members => decMapMembers zero dec members cur
  | _ => typeError
  end.

(** Decoding into an [interface{}]: every number must fit a float64. *)
Fixpoint decodesGeneric (j : json) : bool :=
  match j with
  | JNum s => match ParseFloat s with Some _ => true | None => false end
  | JArr js => forallb decodesGeneric js
  | JObj ms => forallb (fun m => decodesGeneric m.2) ms
  | _ => true
  end.

(** [json.NewDecoder(body).Decode(&data)], where [data] is an [interface{}]
    parameter holding the pointer [ptr].  A non-nil pointer is decoded through; a
    nil one is not, and the generic value goes into the parameter itself: the
    caller's pointer keeps its value. *)
Definition decodeInterface {T} (dec : decoder T) (j : json) (ptr : option T) : outcome (option T) :=
  match ptr with
  | None => if decodesGeneric j then Ok None else typeError
  | Some cur => let! v := dec j cur in Ok (Some v)
  end.

(** ** Lemmas *)

(** Inserting distinct keys one after the other. *)
Lemma fold_insert_map {V} (kvs : list (string * V)) :
  NoDup kvs.*1 -> fold_left (fun m kv => <[kv.1 := kv.2]> m) kvs (∅ : gmap string V) = list_to_map kvs.
Proof.
  intros Hnd.
  assert (forall cur : gmap string V, (forall k, k ∈ kvs.*1 -> cur !! k = None) ->
            fold_left (fun m kv => <[kv.1 := kv.2]> m) kvs cur = list_to_map kvs ∪ cur) as Hf.
  { induction kvs as [|[k v] kvs IH]; intros cur Hc; cbn [fold_left list_to_map foldr fst snd].
    - by rewrite (left_id_L ∅ (∪)).
    - apply list.NoDup_cons in Hnd as [Hk Hnd]. rewrite IH; [|done|].
      + simpl. rewrite <- insert_union_l. rewrite <- insert_union_r; [done|].
        by apply not_elem_of_list_to_map_1.
      + intros k' Hk'. rewrite lookup_insert_ne; [apply Hc; by right|]. intros ->. done. }
  rewrite Hf; [apply (right_id_L ∅ (∪)) | intros; apply lookup_empty].
Qed.

(** Encoding then decoding the values of a map gives the map back. *)
Lemma map_roundtrip {V} (zero : V) (enc : V -> outcome json) (dec : decoder V) (m : gmap string V) :
  (forall k v, m !! k = Some v -> exists j, enc v = Ok j /\ dec j zero = Ok v) ->
  exists j, encMap enc m = Ok j /\ decMap zero dec j ∅ = Ok m.
Proof.
  intros H. unfold encMap.
  assert (forall kvs cur, (forall k v, (k, v) ∈ kvs -> exists j, enc v = Ok j /\ dec j zero = Ok v) ->
            exists js, encMapList enc kvs = Ok js /\
              decMapMembers zero dec js cur = Ok (fold_left (fun m kv => <[kv.1 := kv.2]> m) kvs cur)) as Hl.
  { induction kvs as [|[k v] kvs IH]; intros cur Hk; [by exists []|].
    destruct (Hk k v) as (j & Hj & Hd); [left|].
    destruct (IH (<[k := v]> cur)) as (js & Hjs & Hds); [intros k2 v2 Hin2; apply (Hk k2 v2); by right|].
    exists ((k, j) :: js). cbn [encMapList]. rewrite Hj, Hjs. cbn. by rewrite Hd. }
  assert (merge_sort keyLe (map_to_list m) ≡ₚ map_to_list m) as Hperm by apply merge_sort_Permutation.
  destruct (Hl (merge_sort keyLe (map_to_list m)) ∅) as (js & Hjs & Hds).
  { intros k v Hin. rewrite Hperm in Hin. apply elem_of_map_to_list in Hin. eauto. }
  rewrite Hjs. exists (JObj js). split; [done|]. cbn [decMap]. rewrite Hds. f_equal.
  assert (NoDup (merge_sort keyLe (map_to_list m)).*1) as Hnd
    by (rewrite Hperm; apply NoDup_fst_map_to_list).
  rewrite fold_insert_map by done.
  rewrite (list_to_map_proper _ (map_to_list m)) by done. apply list_to_map_to_list.
Qed.

Lemma slice_roundtrip {T} (zero : T) (enc : T -> json) (dec : decoder T) (l : list T) :
  (forall x, x ∈ l -> dec (enc x) zero = Ok x) ->
  decSlice zero dec (JArr (map enc l)) [] = Ok l.
Proof.
  intros H. cbn [decSlice]. induction l as [|x l IH]; [done|].
  cbn [map decElems]. rewrite H by left. cbn [obind].
  rewrite IH by (intros; apply H; by right). done.
Qed.

Lemma decUint64_enc n cur : is_u64 n -> decUint64 (JInt n) cur = Ok n.
Proof. intros H. unfold decUint64, JInt. by rewrite ParseUint_Itoa. Qed.

Lemma decInt64_enc n cur : is_i64 n -> decInt64 (JInt n) cur = Ok n.
Proof. intros H. unfold decInt64, JInt. by rewrite Atoi_Itoa. Qed.

Lemma decFloat64_enc x cur :
  isFloat64 x = true -> is_finite x = true -> decFloat64 (JNum (FormatFloat x)) cur = Ok x.
Proof. intros H1 H2. unfold decFloat64. by rewrite ParseFloat_FormatFloat. Qed.
