(* ===== verification/JsonText.v ===== *)
(** * encoding/json: the text of a document

    [print] is what the encoder writes, without spaces; [parse] is what the decoder
    reads: the first value of a text, with any spaces, and whatever follows it.  The
    parser recurses on fuel, and the length of the text is enough: it never stops
    for lack of it ([parse_fuel]). *)
From stdpp Require Import sorting.
From S2P Require Import Prelude GoStrings GoFloat GoScan JsonString NumberText Json.

(** ** The encoder *)

Fixpoint print (j : json) : string :=
  match j with
  | JNull => "null"
  | JBool b => if b then "true" else "false"
  | JNum s => s
  | JStr s => printString s
  | JArr js => String "[" (Join "," (map print js) +:+ "]")
  | JObj ms => String "{" (Join "," (map (fun m => printString m.1 +:+ String ":" (print m.2)) ms) +:+ "}")
  end.

(** ** The decoder *)

Definition isSpace (c : ascii) : bool := is_char (String " " (String "009" (String "010" (String "013" "")))) c.

Fixpoint skipSpaces (s : string) : string :=
  match s with
  | String c s' => if isSpace c then skipSpaces s' else s
  | "" => ""
  end.

(** The rest after a word. *)
Fixpoint expect (word s : string) : option string :=
  match word, s with
  | "", _ => Some s
  | String a w, String b s' => if Ascii.eqb a b then expect w s' else None
  | _, _ => None
  end.

Definition maxNestingDepth : Z := 10000.

Definition nested (depth : Z) : bool := depth <? maxNestingDepth.

(** The value at the start of a text, inside [depth] arrays and objects; the
    elements of an array, and the members of an object, up to its end. *)
Fixpoint value (fuel : nat) (depth : Z) (s : string) : option (json * string) :=
  match fuel with
  | O => None
  | S f =>
      match skipSpaces s with
      | "" => None
      | String c r =>
          if Ascii.eqb c quote then option_map (fun '(t, r') => (JStr t, r')) (readString 0 r)
          else if Ascii.eqb c "[" then
            if nested depth then
              match expect "]" (skipSpaces r) with
              | Some r' => Some (JArr [], r')
              | None => option_map (fun '(js, r') => (JArr js, r')) (elements f (depth + 1) r)
              end
            else None
          else if Ascii.eqb c "{" then
            if nested depth then
              match expect "}" (skipSpaces r) with
              | Some r' => Some (JObj [], r')
              | None => option_map (fun '(ms, r') => (JObj ms, r')) (members f (depth + 1) r)
              end
            else None
          else if Ascii.eqb c "t" then option_map (fun r' => (JBool true, r')) (expect "rue" r)
          else if Ascii.eqb c "f" then option_map (fun r' => (JBool false, r')) (expect "alse" r)
          else if Ascii.eqb c "n" then option_map (fun r' => (JNull, r')) (expect "ull" r)
          else option_map (fun '(t, r') => (JNum t, r')) (scanNumber (String c r))
      end
  end
with elements (fuel : nat) (depth : Z) (s : string) : option (list json * string) :=
  match fuel with
  | O => None
  | S f =>
      match value f depth s with
      | None => None
      | Some (j, r) =>
          match skipSpaces r with
          | String c r' =>
              if Ascii.eqb c "," then option_map (fun '(js, r'') => (j :: js, r'')) (elements f depth r')
              else if Ascii.eqb c "]" then Some ([j], r') else None
          | "" => None
          end
      end
  end
with members (fuel : nat) (depth : Z) (s : string) : option (list (string * json) * string) :=
  match fuel with
  | O => None
  | S f =>
      match expect (String quote "") (skipSpaces s) with
      | None => None
      | Some r0 =>
          match readString 0 r0 with
          | None => None
          | Some (k, r1) =>
              match expect ":" (skipSpaces r1) with
              | None => None
              | Some r2 =>
                  match value f depth r2 with
                  | None => None
                  | Some (j, r3) =>
                      match skipSpaces r3 with
                      | String c r' =>
                          if Ascii.eqb c "," then option_map (fun '(ms, r'') => ((k, j) :: ms, r'')) (members f depth r')
                          else if Ascii.eqb c "}" then Some ([(k, j)], r') else None
                      | "" => None
                      end
                  end
              end
          end
      end
  end.

(** [Decoder.Decode] up to the document: an error for an empty or malformed text. *)
Definition parse (s : string) : outcome json :=
  match value (2 * String.length s + 1) 0 s with
  | Some (j, _) => Ok j
  | None => Err (ErrOpaque (if String.eqb (skipSpaces s) "" then "EOF" else "invalid character"))
  end.

(** [Encoder.Encode]: the document and a newline, or nothing when the payload cannot
    be encoded. *)
Definition Encode (payload : outcome json) : string :=
  match payload with Ok j => print j +:+ eol | _ => "" end.

(** [Decoder.Decode] into a typed target. *)
Definition Decode {T} (dec : decoder T) (s : string) (cur : T) : outcome T :=
  let! j := parse s in dec j cur.

(** ** Documents that have a faithful text *)

(** The strings are UTF-8 and the numbers are literals. *)
Inductive wfText : json -> Prop :=
| wf_null : wfText JNull
| wf_bool b : wfText (JBool b)
| wf_num s : isLiteral s -> wfText (JNum s)
| wf_str s : ValidString s = true -> wfText (JStr s)
| wf_arr js : Forall wfText js -> wfText (JArr js)
| wf_obj ms : Forall (fun m => ValidString m.1 = true /\ wfText m.2) ms -> wfText (JObj ms).

(** How deep arrays and objects nest. *)
Fixpoint depthOf (j : json) : Z :=
  match j with
  | JArr js => 1 + foldr Z.max 0 (map depthOf js)
  | JObj ms => 1 + foldr Z.max 0 (map (fun m => depthOf m.2) ms)
  | _ => 0
  end.

(** Texts with apostrophes for quotes, in the examples. *)
Fixpoint quoted (s : string) : string :=
  match s with "" => "" | String c s' => String (if Ascii.eqb c "'" then quote else c) (quoted s') end.

Example parse_spaces : parse (quoted " { 'a' : [1 , -2.5e3,true] ,'b':'\u00e9'} trailing") =
  Ok (JObj [("a", JArr [JNum "1"; JNum "-2.5e3"; JBool true]); ("b", JStr (String "195" (String "169" "")))]).
Proof. reflexivity. Qed.

(** A number ends where no number can go on; what follows is not read. *)
Example parse_not_found : parse ("404 page not found" +:+ eol) = Ok (JNum "404").
Proof. reflexivity. Qed.

Example parse_malformed : map (fun s => is_ok (parse (quoted s))) [""; "[1,]"; "{'a' 1}"; "01"; "-"; "[1"; "nul"] =
  [false; false; false; true; false; false; false].
Proof. reflexivity. Qed.

(** ** Lemmas: what the parser consumes *)

Lemma skipSpaces_length s : (String.length (skipSpaces s) <= String.length s)%nat.
Proof. induction s as [|c s IH]; [done|]. cbn [skipSpaces String.length]. destruct (isSpace c); cbn [String.length]; lia. Qed.

Lemma expect_length w s r : expect w s = Some r -> (String.length r + String.length w = String.length s)%nat.
Proof.
  revert s. induction w as [|a w IH]; intros s H; [cbn in H; simplify_eq; cbn; lia|].
  destruct s as [|b s]; [done|]. cbn in H. destruct (Ascii.eqb a b); [|done]. apply IH in H. cbn. lia.
Qed.

Lemma prefixed_Some p o t r : prefixed p o = Some (t, r) -> exists t', o = Some (t', r).
Proof. destruct o as [[t' r']|]; [|done]. cbn. intros [= _ ->]. eauto. Qed.

Lemma readString_length m s t r : readString m s = Some (t, r) -> (String.length r < String.length s)%nat.
Proof.
  remember (String.length s) as n eqn:Hn. revert m s Hn t.
  induction (lt_wf n) as [n _ IH]. intros m s -> t H.
  assert (forall m' s' t', (String.length s' < String.length s)%nat -> readString m' s' = Some (t', r) ->
            (String.length r < String.length s)%nat) as Hrec.
  { intros m' s' t' Hlt H'. pose proof (IH _ Hlt m' s' eq_refl t' H'). lia. }
  destruct s as [|c s]; [done|]. cbn [readString] in H.
  repeat (first [ discriminate H
                | progress (apply prefixed_Some in H as [? H])
                | injection H as ? ?; subst; cbn [String.length]; lia
                | eapply Hrec; [|exact H]; cbn [String.length]; lia
                | case_match ]).
Qed.

Lemma take_while_length P s w r : take_while P s = (w, r) -> (String.length r + String.length w = String.length s)%nat.
Proof.
  revert w r. induction s as [|c s IH]; intros w r; cbn [take_while]; [intros [= <- <-]; done|].
  destruct (P c); [|intros [= <- <-]; cbn [String.length]; lia].
  destruct (take_while P s) as [w' r']. specialize (IH w' r' eq_refl). intros [= <- <-]. cbn [String.length]. lia.
Qed.

Lemma scanInteger_length s t r : scanInteger s = Some (t, r) -> (String.length r < String.length s)%nat.
Proof.
  destruct s as [|c s]; [done|]. cbn [scanInteger]. destruct (Ascii.eqb c "0"); [intros [= _ <-]; cbn [String.length]; lia|].
  destruct (is_digit c) eqn:Hc; [|done]. cbn [take_while]. rewrite Hc. destruct (take_while is_digit s) as [w r'] eqn:E.
  intros [= _ <-]. apply take_while_length in E. cbn [String.length]. lia.
Qed.

Lemma scanFraction_length s t r : scanFraction s = Some (t, r) -> (String.length r <= String.length s)%nat.
Proof.
  destruct s as [|c s]; [intros [= _ <-]; done|]. cbn [scanFraction]. destruct (Ascii.eqb c "."); [|by intros [= _ <-]].
  destruct (take_while is_digit s) as [w r'] eqn:E. destruct (String.eqb w ""); [done|]. intros [= _ <-].
  apply take_while_length in E. cbn [String.length]. lia.
Qed.

Lemma accept_length cs s c r : accept cs s = Some (c, r) -> (String.length r < String.length s)%nat.
Proof. destruct s as [|x s]; [done|]. cbn [accept]. destruct (is_char cs x); [|done]. intros [= _ <-]. cbn [String.length]. lia. Qed.

Lemma scanExponent_length s t r : scanExponent s = Some (t, r) -> (String.length r <= String.length s)%nat.
Proof.
  destruct s as [|c s]; [intros [= _ <-]; done|]. cbn [scanExponent]. destruct (is_char "eE" c); [|by intros [= _ <-]].
  destruct (accept "+-" s) as [[x r1]|] eqn:Ea; [apply accept_length in Ea|];
    (destruct (take_while is_digit _) as [w r'] eqn:E; apply take_while_length in E;
     destruct (String.eqb w ""); [done|]; intros [= _ <-]; cbn [String.length]; lia).
Qed.

Lemma scanNumber_length s t r : scanNumber s = Some (t, r) -> (String.length r < String.length s)%nat.
Proof.
  unfold scanNumber. set (p := match s with String c r => _ | "" => _ end).
  assert (String.length p.2 <= String.length s)%nat as Hp.
  { subst p. destruct s as [|c s']; [done|]. destruct (Ascii.eqb c "-"); cbn [snd String.length]; lia. }
  destruct p as [sign s0]. cbn [snd] in Hp.
  destruct (scanInteger s0) as [[ip s1]|] eqn:E1; [|done]. destruct (scanFraction s1) as [[fp s2]|] eqn:E2; [|done].
  destruct (scanExponent s2) as [[ep s3]|] eqn:E3; [|done]. intros [= _ <-].
  apply scanInteger_length in E1. apply scanFraction_length in E2. apply scanExponent_length in E3. lia.
Qed.

Lemma option_map_pair {A B C} (f : A * C -> B * C) (o : option (A * C)) b c :
  option_map f o = Some (b, c) -> exists a c', o = Some (a, c') /\ f (a, c') = (b, c).
Proof. destruct o as [[a c']|]; [|done]. cbn. intros [= H]. eauto. Qed.

(** What is read is never empty. *)
Lemma parser_length f :
  (forall d s j r, value f d s = Some (j, r) -> (String.length r < String.length s)%nat) /\
  (forall d s js r, elements f d s = Some (js, r) -> (String.length r < String.length s)%nat) /\
  (forall d s ms r, members f d s = Some (ms, r) -> (String.length r < String.length s)%nat).
Proof.
  induction f as [|f (IHv & IHe & IHm)]; [done|]. split_and!; intros d s x r H; cbn [value elements members] in H.
  - pose proof (skipSpaces_length s) as Hs. destruct (skipSpaces s) as [|c s']; [done|]. cbn [String.length] in Hs.
    pose proof (skipSpaces_length s') as Hs'.
    assert (forall w y, expect w s' = Some y -> (String.length y < String.length s)%nat) as Hw
      by (intros w y Hy%expect_length; lia).
    destruct (Ascii.eqb c quote).
    { apply option_map_pair in H as (t & r' & H & [= _ ->]). apply readString_length in H. lia. }
    destruct (Ascii.eqb c "[").
    { destruct (nested d); [|done]. destruct (expect "]" (skipSpaces s')) eqn:Ee;
        [apply expect_length in Ee; simplify_eq; cbn [String.length] in Ee; lia|].
      apply option_map_pair in H as (t & r' & H & [= _ ->]). apply IHe in H. lia. }
    destruct (Ascii.eqb c "{").
    { destruct (nested d); [|done]. destruct (expect "}" (skipSpaces s')) eqn:Ee;
        [apply expect_length in Ee; simplify_eq; cbn [String.length] in Ee; lia|].
      apply option_map_pair in H as (t & r' & H & [= _ ->]). apply IHm in H. lia. }
    do 3 (destruct (Ascii.eqb c _); [destruct (expect _ s') eqn:Ee; [|done]; injection H as _ <-; by eapply Hw|]).
    apply option_map_pair in H as (t & r' & H & [= _ ->]). apply scanNumber_length in H. cbn [String.length] in H. lia.
  - destruct (value f d s) as [[j r1]|] eqn:Ev; [|done]. apply IHv in Ev. pose proof (skipSpaces_length r1) as Hs.
    destruct (skipSpaces r1) as [|c r2]; [done|]. cbn [String.length] in Hs.
    destruct (Ascii.eqb c ","); [apply option_map_pair in H as (t & r' & H & [= _ ->]); apply IHe in H; lia|].
    destruct (Ascii.eqb c "]"); [|done]. injection H as _ <-. lia.
  - pose proof (skipSpaces_length s) as Hs. destruct (expect _ (skipSpaces s)) as [r0|] eqn:E0; [|done]. apply expect_length in E0.
    destruct (readString 0 r0) as [[k r1]|] eqn:E1; [|done]. apply readString_length in E1.
    pose proof (skipSpaces_length r1) as Hs1. destruct (expect ":" _) as [r2|] eqn:E2; [|done]. apply expect_length in E2.
    destruct (value f d r2) as [[j r3]|] eqn:Ev; [|done]. apply IHv in Ev. pose proof (skipSpaces_length r3) as Hs3.
    destruct (skipSpaces r3) as [|c r4]; [done|]. cbn [String.length] in Hs3.
    destruct (Ascii.eqb c ","); [apply option_map_pair in H as (t & r' & H & [= _ ->]); apply IHm in H; lia|].
    destruct (Ascii.eqb c "}"); [|done]. injection H as _ <-. lia.
Qed.

(** The length of the text is enough fuel. *)
Lemma parser_fuel f :
  (forall g d s, (2 * String.length s + 1 <= f)%nat -> (f <= g)%nat -> value g d s = value f d s) /\
  (forall g d s, (2 * String.length s + 2 <= f)%nat -> (f <= g)%nat -> elements g d s = elements f d s) /\
  (forall g d s, (2 * String.length s + 2 <= f)%nat -> (f <= g)%nat -> members g d s = members f d s).
Proof.
  induction f as [|f (IHv & IHe & IHm)]; [split_and!; intros; lia|].
  destruct (parser_length f) as (Lv & _ & _).
  split_and!; (intros [|g] d s Hf Hg; [lia|]); cbn [value elements members].
  - pose proof (skipSpaces_length s) as Hs. destruct (skipSpaces s) as [|c s']; [done|]. cbn [String.length] in Hs.
    destruct (Ascii.eqb c quote); [done|].
    rewrite (IHe g (d + 1) s'), (IHm g (d + 1) s') by lia. done.
  - rewrite (IHv g) by lia. destruct (value f d s) as [[j r1]|] eqn:Ev; [|done]. apply Lv in Ev.
    pose proof (skipSpaces_length r1) as Hs. destruct (skipSpaces r1) as [|c r2]; [done|]. cbn [String.length] in Hs.
    by rewrite (IHe g) by lia.
  - pose proof (skipSpaces_length s) as Hs. destruct (expect _ (skipSpaces s)) as [r0|] eqn:E0; [|done]. apply expect_length in E0.
    destruct (readString 0 r0) as [[k r1]|] eqn:E1; [|done]. apply readString_length in E1.
    pose proof (skipSpaces_length r1) as Hs1. destruct (expect ":" _) as [r2|] eqn:E2; [|done]. apply expect_length in E2.
    cbn [String.length] in *.
    rewrite (IHv g) by lia. destruct (value f d r2) as [[j r3]|] eqn:Ev; [|done]. apply Lv in Ev. pose proof (skipSpaces_length r3) as Hs3.
    destruct (skipSpaces r3) as [|c r4]; [done|]. cbn [String.length] in Hs3. by rewrite (IHm g) by lia.
Qed.

(** More fuel changes nothing: the parser ends by itself on every text. *)
Lemma parse_fuel f s :
  (2 * String.length s + 1 <= f)%nat -> value f 0 s = value (2 * String.length s + 1) 0 s.
Proof. intros Hf. by apply parser_fuel. Qed.

(** ** Lemmas: the text of a document is read back *)

Lemma isLiteral_head s : isLiteral s -> exists c r, s = String c r /\ (Ascii.eqb c "-" || is_digit c) = true.
Proof.
  intros (neg & l & -> & [[Hi _]%andb_true_iff _]%andb_true_iff). destruct (isInteger_digits _ Hi) as [Hd Hne].
  unfold literalText. destruct (lInt l) as [|c r]; [done|]. cbn [all_chars] in Hd. apply andb_true_iff in Hd as [Hd _].
  destruct neg; cbn [signText].
  - rewrite string_app_cons. eauto.
  - rewrite string_app_nil_l, !string_app_cons. do 2 eexists. split; [done|]. by rewrite Hd, orb_true_r.
Qed.

Lemma number_head c : (Ascii.eqb c "-" || is_digit c) = true ->
  isSpace c = false /\ Ascii.eqb c quote = false /\ Ascii.eqb c "[" = false /\ Ascii.eqb c "{" = false /\
  Ascii.eqb c "t" = false /\ Ascii.eqb c "f" = false /\ Ascii.eqb c "n" = false /\ Ascii.eqb c "]" = false.
Proof. destruct c as [[] [] [] [] [] [] [] []]; intros H; first [discriminate H | done]. Qed.

(** The first character of a document. *)
Lemma print_head j : wfText j -> exists c r, print j = String c r /\ isSpace c = false /\ Ascii.eqb c "]" = false.
Proof.
  intros H. destruct H as [|[]|s Hs|s Hs|js Hjs|ms Hms]; try by (do 2 eexists).
  apply isLiteral_head in Hs as (c & r & -> & Hc). exists c, r. split; [done|]. apply number_head in Hc. tauto.
Qed.

Lemma skipSpaces_print j rest : wfText j -> skipSpaces (print j +:+ rest) = print j +:+ rest.
Proof. intros (c & r & -> & Hc & _)%print_head. rewrite string_app_cons. cbn [skipSpaces]. by rewrite Hc. Qed.

(** The document [j] is read back, at any depth that allows it. *)
Definition readBack (j : json) : Prop := forall fuel d rest,
  d + depthOf j <= maxNestingDepth -> stops rest = true -> (2 * String.length (print j) + 1 <= fuel)%nat ->
  value fuel d (print j +:+ rest) = Some (j, rest).

Lemma maxDepth_le (l : list Z) x : x ∈ l -> x <= foldr Z.max 0 l.
Proof. induction l as [|y l IH]; [by intros ?%not_elem_of_nil|]. intros [->|H]%elem_of_cons; cbn; [lia|]. apply IH in H. lia. Qed.

Lemma elements_print j js fuel d rest :
  Forall readBack (j :: js) -> Forall (fun j => d + depthOf j <= maxNestingDepth) (j :: js) ->
  (2 * String.length (Join "," (map print (j :: js))) + 2 <= fuel)%nat ->
  elements fuel d (Join "," (map print (j :: js)) +:+ String "]" rest) = Some (j :: js, rest).
Proof.
  revert j fuel. induction js as [|j2 js IH]; intros j fuel [Hj Hjs]%list.Forall_cons_1 [Hd Hds]%list.Forall_cons_1 Hf;
    (destruct fuel as [|fuel]; [lia|]); cbn [elements].
  - cbn [map Join] in *. rewrite Hj by (done || lia). reflexivity.
  - change (Join "," (map print (j :: j2 :: js))) with (print j +:+ "," +:+ Join "," (map print (j2 :: js))) in *.
    rewrite !string_app_length in Hf. cbn [String.length] in Hf.
    rewrite string_app_assoc. change ("," +:+ ?x) with (String "," x). rewrite string_app_cons.
    rewrite Hj by (done || lia). cbn [skipSpaces].
    change (isSpace ",") with false. cbv iota. change (Ascii.eqb "," ",") with true. cbv iota.
    rewrite IH by (done || lia). reflexivity.
Qed.

Definition printMember (m : string * json) : string := printString m.1 +:+ String ":" (print m.2).

Lemma members_print m ms fuel d rest :
  Forall (fun m => ValidString m.1 = true /\ readBack m.2) (m :: ms) ->
  Forall (fun m => d + depthOf m.2 <= maxNestingDepth) (m :: ms) ->
  (2 * String.length (Join "," (map printMember (m :: ms))) + 2 <= fuel)%nat ->
  members fuel d (Join "," (map printMember (m :: ms)) +:+ String "}" rest) = Some (m :: ms, rest).
Proof.
  assert (forall (m : string * json) fuel t, ValidString m.1 = true -> readBack m.2 -> d + depthOf m.2 <= maxNestingDepth ->
    (2 * String.length (printMember m) + 2 <= S fuel)%nat -> stops t = true ->
    members (S fuel) d (printMember m +:+ t) =
      match skipSpaces t with
      | String c r' =>
          if Ascii.eqb c "," then option_map (fun '(ms, r'') => (m :: ms, r'')) (members fuel d r')
          else if Ascii.eqb c "}" then Some ([m], r') else None
      | "" => None
      end) as Hm.
  { clear. intros [k j] fuel t Hk Hj Hd Hf Ht. cbn [fst snd] in *. cbn [members]. unfold printMember in *. cbn [fst snd] in *.
    rewrite string_app_assoc, string_app_cons. rewrite string_app_length in Hf. cbn [String.length] in Hf.
    destruct (readString_print k (String ":" (print j +:+ t)) Hk) as (u & -> & Hu). cbn [skipSpaces].
    change (isSpace quote) with false. cbv iota. cbn [expect]. rewrite Ascii.eqb_refl, Hu. cbn [skipSpaces].
    change (isSpace ":") with false. cbv iota. cbn [expect]. rewrite Ascii.eqb_refl.
    by rewrite Hj by (done || lia). }
  revert m fuel. induction ms as [|m2 ms IH]; intros m fuel [[Hk Hj] Hjs]%list.Forall_cons_1 [Hd Hds]%list.Forall_cons_1 Hf;
    (destruct fuel as [|fuel]; [lia|]).
  - cbn [map Join] in *. rewrite Hm by (done || lia). reflexivity.
  - change (Join "," (map printMember (m :: m2 :: ms))) with (printMember m +:+ "," +:+ Join "," (map printMember (m2 :: ms))) in *.
    rewrite !string_app_length in Hf. cbn [String.length] in Hf.
    rewrite string_app_assoc. change ("," +:+ ?x) with (String "," x). rewrite string_app_cons, Hm by (done || lia).
    cbn [skipSpaces]. change (isSpace ",") with false. cbv iota. change (Ascii.eqb "," ",") with true. cbv iota.
    rewrite IH by (done || lia). reflexivity.
Qed.

Lemma Join_element sep (l : list string) x : x ∈ l -> (String.length x <= String.length (Join sep l))%nat.
Proof.
  induction l as [|y l IH]; [by intros ?%not_elem_of_nil|]. intros [->|H]%elem_of_cons.
  - destruct l; cbn [Join]; [done|]. rewrite string_app_length. lia.
  - destruct l as [|z l]; [by apply not_elem_of_nil in H|]. apply IH in H.
    change (Join sep (y :: z :: l)) with (y +:+ sep +:+ Join sep (z :: l)). rewrite !string_app_length. lia.
Qed.

Lemma foldr_max_nonneg l : 0 <= foldr Z.max 0 l.
Proof. induction l; cbn; lia. Qed.

Lemma array_print js : Forall wfText js -> Forall readBack js -> readBack (JArr js).
Proof.
  intros Hw Hb fuel d rest Hdepth Hrest Hf. destruct fuel as [|fuel]; [lia|]. cbn [print depthOf String.length] in *.
  rewrite string_app_length in Hf. cbn [String.length] in Hf.
  rewrite string_app_cons, string_app_assoc. change ("]" +:+ rest) with (String "]" rest). cbn [value skipSpaces].
  change (isSpace "[") with false. change (Ascii.eqb "[" quote) with false. change (Ascii.eqb "[" "[") with true. cbv iota.
  pose proof (foldr_max_nonneg (map depthOf js)). unfold nested. rewrite (proj2 (Z.ltb_lt _ _)) by lia.
  destruct js as [|j js]; [reflexivity|].
  assert (expect "]" (skipSpaces (Join "," (map print (j :: js)) +:+ String "]" rest)) = None) as ->.
  { apply list.Forall_cons_1 in Hw as [Hj _].
    assert (exists u, Join "," (map print (j :: js)) = print j +:+ u) as [u ->].
    { destruct js as [|j2 js]; [exists ""; cbn [map Join]; by rewrite string_app_nil_r|]. by eexists. }
    rewrite string_app_assoc, skipSpaces_print by done. destruct (print_head j Hj) as (c & r & -> & _ & Hc).
    rewrite string_app_cons. cbn [expect]. by rewrite Ascii.eqb_sym, Hc. }
  rewrite elements_print; [reflexivity|done| |lia].
  rewrite list.Forall_forall. intros x Hx.
  pose proof (maxDepth_le (map depthOf (j :: js)) (depthOf x) (list_elem_of_fmap_2 _ _ _ Hx)). lia.
Qed.

Lemma object_print ms : Forall (fun m => ValidString m.1 = true /\ readBack m.2) ms -> readBack (JObj ms).
Proof.
  intros Hb fuel d rest Hdepth Hrest Hf. destruct fuel as [|fuel]; [lia|]. cbn [print depthOf String.length] in *.
  rewrite string_app_length in Hf. cbn [String.length] in Hf.
  change (fun m : string * json => printString m.1 +:+ String ":" (print m.2)) with printMember in *.
  rewrite string_app_cons, string_app_assoc. change ("}" +:+ rest) with (String "}" rest). cbn [value skipSpaces].
  change (isSpace "{") with false. change (Ascii.eqb "{" quote) with false.
  change (Ascii.eqb "{" "[") with false. change (Ascii.eqb "{" "{") with true. cbv iota.
  pose proof (foldr_max_nonneg (map (fun m => depthOf m.2) ms)). unfold nested. rewrite (proj2 (Z.ltb_lt _ _)) by lia.
  destruct ms as [|m ms]; [reflexivity|].
  assert (expect "}" (skipSpaces (Join "," (map printMember (m :: ms)) +:+ String "}" rest)) = None) as ->.
  { assert (exists u, Join "," (map printMember (m :: ms)) = String quote u) as [u ->]; [|done].
    destruct ms as [|m2 ms]; eexists; cbn [map Join]; unfold printMember, printString; by rewrite !string_app_cons. }
  rewrite members_print; [reflexivity|done| |lia].
  rewrite list.Forall_forall. intros x Hx.
  pose proof (maxDepth_le (map (fun m => depthOf m.2) (m :: ms)) (depthOf x.2) (list_elem_of_fmap_2 (fun m : string * json => depthOf m.2) _ _ Hx)). lia.
Qed.

Lemma value_print j : wfText j -> readBack j.
Proof.
  remember (String.length (print j)) as n eqn:Hn. revert j Hn.
  induction (lt_wf n) as [n _ IH]. intros j -> Hw. destruct Hw as [|b|s Hs|s Hs|js Hjs|ms Hms].
  - intros fuel d rest _ _ Hf. destruct fuel; [lia|reflexivity].
  - intros fuel d rest _ _ Hf. destruct fuel; [lia|by destruct b].
  - intros fuel d rest _ Hrest Hf. destruct fuel as [|fuel]; [lia|]. cbn [value print].
    destruct (isLiteral_head s Hs) as (c & r & E & Hc). pose proof (scanNumber_isLiteral s rest Hs Hrest) as Hscan.
    subst s. rewrite string_app_cons in *. apply number_head in Hc as (Hsp & Hq & Ha & Ho & Ht & Hf' & Hn & _).
    cbn [skipSpaces]. by rewrite Hsp, Hq, Ha, Ho, Ht, Hf', Hn, Hscan.
  - intros fuel d rest _ _ Hf. destruct fuel as [|fuel]; [lia|]. cbn [value print].
    destruct (readString_print s rest Hs) as (u & -> & Hu). cbn [skipSpaces].
    change (isSpace quote) with false. cbv iota. by rewrite Ascii.eqb_refl, Hu.
  - apply array_print; [done|]. rewrite !list.Forall_forall in *. intros x Hx.
    eapply IH; [|reflexivity|by apply Hjs]. cbn [print String.length]. rewrite string_app_length.
    pose proof (Join_element "," (map print js) (print x) (list_elem_of_fmap_2 print _ _ Hx)). lia.
  - apply object_print. rewrite !list.Forall_forall in *. intros x Hx. destruct (Hms x Hx) as [Hk Hwx]. split; [done|].
    eapply IH; [|reflexivity|done]. cbn [print String.length]. rewrite string_app_length.
    change (fun m : string * json => printString m.1 +:+ String ":" (print m.2)) with printMember.
    pose proof (Join_element "," (map printMember ms) (printMember x) (list_elem_of_fmap_2 printMember _ _ Hx)) as Hl.
    assert (String.length (print x.2) < String.length (printMember x))%nat
      by (unfold printMember; rewrite string_app_length; cbn [String.length]; lia). lia.
Qed.

(** What the encoder writes, and a newline, the decoder reads back. *)
Theorem parse_print j rest :
  wfText j -> depthOf j <= maxNestingDepth -> stops rest = true -> parse (print j +:+ rest) = Ok j.
Proof.
  intros Hw Hd Hr. unfold parse. rewrite (value_print j Hw); [done|lia|done|]. rewrite string_app_length. lia.
Qed.

(** ** Well-formed documents *)

(** A document with a faithful text, of bounded depth. *)
Definition document (n : Z) (j : json) : Prop := wfText j /\ depthOf j <= n.

Definition documentMember (n : Z) (m : string * json) : Prop := ValidString m.1 = true /\ document n m.2.

Lemma parse_Encode n j : document n j -> n <= maxNestingDepth -> parse (Encode (Ok j)) = Ok j.
Proof. intros [Hw Hd] Hn. apply parse_print; [done|lia|done]. Qed.

Lemma parse_outcome s : (exists j, parse s = Ok j) \/ exists e, parse s = Err e.
Proof. unfold parse. destruct (value _ _ s) as [[j r]|]; eauto. Qed.

Lemma document_le n n' j : document n j -> n <= n' -> document n' j.
Proof. intros [Hw Hd] Hn. split; [done|lia]. Qed.

Lemma document_u64 n : is_u64 n -> document 0 (JInt n).
Proof. intros [? ?]. split; [|done]. constructor. apply Itoa_literal. lia. Qed.

Lemma document_i64 n : is_i64 n -> document 0 (JInt n).
Proof. intros [? ?]. split; [|done]. constructor. apply Itoa_literal. lia. Qed.

Lemma document_float x : isFloat64 x = true -> is_finite x = true -> document 0 (JNum (FormatFloat x)).
Proof. intros. split; [|done]. constructor. by apply FormatFloat_isLiteral. Qed.

Lemma document_str s : ValidString s = true -> document 0 (JStr s).
Proof. intros. split; [by constructor|done]. Qed.

Lemma document_obj n ms : 0 <= n -> Forall (documentMember n) ms -> document (n + 1) (JObj ms).
Proof.
  intros Hn H. split.
  - constructor. eapply list.Forall_impl; [exact H|]. intros m (? & ? & ?). done.
  - cbn [depthOf]. enough (foldr Z.max 0 (map (fun m => depthOf m.2) ms) <= n) by lia.
    clear -H Hn. induction H as [|x ms (_ & _ & Hx) _ IH]; cbn; lia.
Qed.

Lemma document_omit n name s :
  ValidString name = true -> ValidString s = true -> 0 <= n -> Forall (documentMember n) (omitEmpty name s).
Proof.
  intros Hn Hs H0. unfold omitEmpty. destruct (String.eqb s ""); [constructor|]. constructor; [|constructor].
  split; [done|]. eapply document_le; [by apply document_str|done].
Qed.

(** The document of a map, from those of its values. *)
Lemma document_map {V} (enc : V -> outcome json) (m : gmap string V) j n :
  encMap enc m = Ok j -> 0 <= n ->
  (forall k v j', m !! k = Some v -> enc v = Ok j' -> ValidString k = true /\ document n j') ->
  document (n + 1) j.
Proof.
  intros He Hn H. unfold encMap in He. apply obind_ok in He as (ms & Hms & He). inv_ok. apply document_obj; [done|].
  assert (forall k v, (k, v) ∈ merge_sort keyLe (map_to_list m) -> m !! k = Some v) as Hin.
  { intros k v Hkv. rewrite merge_sort_Permutation in Hkv. by apply elem_of_map_to_list in Hkv. }
  revert ms Hms Hin. generalize (merge_sort keyLe (map_to_list m)) as kvs.
  induction kvs as [|[k v] kvs IH]; intros ms Hms Hin; cbn [encMapList] in Hms; [inv_ok; constructor|].
  apply obind_ok in Hms as (j & Hj & Hms). apply obind_ok in Hms as (js & Hjs & Hms). inv_ok.
  constructor; [apply (H k v j); [apply Hin; left|done]|]. apply IH; [done|]. intros k' v' Hkv. apply Hin. by right.
Qed.

(** The document of a slice of structs. *)
Lemma document_slice {T} (enc : T -> json) (l : list T) n :
  0 <= n -> (forall x, x ∈ l -> document n (enc x)) -> document (n + 1) (JArr (map enc l)).
Proof.
  intros Hn H. split.
  - constructor. rewrite list.Forall_forall. intros j (x & -> & Hx)%list_elem_of_fmap. by apply H.
  - cbn [depthOf]. enough (foldr Z.max 0 (map depthOf (map enc l)) <= n) by lia. induction l as [|x l IH]; cbn; [done|].
    destruct (H x ltac:(by left)) as [_ ?]. enough (foldr Z.max 0 (map depthOf (map enc l)) <= n) by lia.
    apply IH. intros y Hy. apply H. by right.
Qed.

(** A document with one string is read back whatever its bytes. *)
Lemma parse_message name message :
  parse (Encode (Ok (JObj [(name, JStr message)]))) = Ok (JObj [(toValid name, JStr (toValid message))]).
Proof.
  unfold Encode. cbn [print map Join fst snd]. rewrite !string_app_cons, !string_app_assoc.
  change ("}" +:+ eol) with (String "}" eol). rewrite string_app_cons.
  destruct (readString_printed name (String ":" (printString message +:+ String "}" eol))) as (t & -> & Ht).
  destruct (readString_printed message (String "}" eol)) as (u & Eu & Hu). rewrite Eu in Ht.
  assert (String.length t >= 1)%nat as Hlen.
  { apply readString_length in Ht. lia. }
  unfold parse. cbn [String.length].
  destruct (2 * S (S (String.length t)) + 1)%nat as [|[|[|f]]] eqn:Ef; [lia..|].
  cbn [value skipSpaces]. change (isSpace "{") with false. cbv iota beta. change (Ascii.eqb "{" quote) with false.
  change (Ascii.eqb "{" "[") with false. change (Ascii.eqb "{" "{") with true. change (nested 0) with true. cbv iota.
  cbn [skipSpaces]. change (isSpace quote) with false. cbv iota. cbn [expect]. change (Ascii.eqb "}" quote) with false. cbv iota.
  cbn [members skipSpaces]. change (isSpace quote) with false. cbv iota. cbn [expect]. rewrite Ascii.eqb_refl, Ht.
  cbn [skipSpaces]. change (isSpace ":") with false. cbv iota. cbn [expect]. rewrite Ascii.eqb_refl.
  cbn [value skipSpaces]. change (isSpace quote) with false. cbv iota beta. by rewrite Ascii.eqb_refl, Hu.
Qed.
