(* ===== verification/Client.v ===== *)
(** * client/client.go: the payload types, their JSON, and the HTTP client *)
From S2P Require Import Prelude GoStrings GoFloat JsonString NumberText Json JsonText.

Module Client.

(** ** Payloads *)

Record MemoryUsage : Type := mkMemoryUsage {
  mMemoryUsage : Z; mSwapUsage : Z; mMemoryLimit : Z; mSwapLimit : Z;
  mMaxMemoryUsage : Z; mMaxSwapUsage : Z }.

Record CpuUsage : Type := mkCpuUsage { UsageInPercents : Z }.

Record HostCpuUsage : Type := mkHostCpuUsage {
  hUsage : float64; hAmount : Z; QueueLengthExponentiallySmoothed : float64 }.

Record HostMemoryUsage : Type := mkHostMemoryUsage {
  hFree : Z; hTotal : Z; hSwap : Z; hMemoryUsage : Z; hMemoryCommitted : Z;
  hMaxMemoryUsage : Z; hSwapUsage : Z; hSwapCommitted : Z; hMaxSwapUsage : Z }.

Record HostUsage : Type := mkHostUsage { hCPU : HostCpuUsage; hMemory : HostMemoryUsage }.

(** [netstat.NetworkStat], embedded in [NetUsage]. *)
Record networkInfo : Type := mkNetworkInfo {
  Bytes : Z; Packets : Z; Drop : Z; Errs : Z; Fifo : Z; Frame : Z; Compressed : Z; Multicast : Z }.
Record NetworkStat : Type := mkNetworkStat {
  Interface : string; Received : networkInfo; Transmit : networkInfo }.

Record NetUsage : Type := mkNetUsage { nStat : NetworkStat; RxBps : Z; TxBps : Z }.

Record IODeviceUsage : Type := mkIODeviceUsage {
  ioDevice : string; ioDevicePath : string; ioMountpoint : string;
  ioMajor : Z; ioMinor : Z; ioReadBytes : Z; ioWriteBytes : Z; ioReadIOs : Z; ioWriteIOs : Z }.

Record IOUsage : Type := mkIOUsage { ioDevices : list IODeviceUsage }.

Record Usage : Type := mkUsage {
  uMemory : option MemoryUsage; uCpu : option CpuUsage; uIO : option IOUsage;
  uNet : option NetUsage; uLabels : gmap string string }.

(** Zero values. *)
Definition zeroMemoryUsage : MemoryUsage := mkMemoryUsage 0 0 0 0 0 0.
Definition zeroCpuUsage : CpuUsage := mkCpuUsage 0.
Definition zeroHostCpuUsage : HostCpuUsage := mkHostCpuUsage fzero 0 fzero.
Definition zeroHostMemoryUsage : HostMemoryUsage := mkHostMemoryUsage 0 0 0 0 0 0 0 0 0.
Definition zeroHostUsage : HostUsage := mkHostUsage zeroHostCpuUsage zeroHostMemoryUsage.
Definition zeroNetworkInfo : networkInfo := mkNetworkInfo 0 0 0 0 0 0 0 0.
Definition zeroNetworkStat : NetworkStat := mkNetworkStat "" zeroNetworkInfo zeroNetworkInfo.
Definition zeroNetUsage : NetUsage := mkNetUsage zeroNetworkStat 0 0.
Definition zeroIODeviceUsage : IODeviceUsage := mkIODeviceUsage "" "" "" 0 0 0 0 0 0.
Definition zeroIOUsage : IOUsage := mkIOUsage [].
Definition zeroUsage : Usage := mkUsage None None None None ∅.

(** [ContainersUsage], and [NewContainersUsage()]. *)
Definition ContainersUsage : Type := gmap string Usage.
Definition NewContainersUsage : ContainersUsage := ∅.

(** ** Encoding, by the struct tags *)

Definition encMemoryUsage (m : MemoryUsage) : json := JObj
  [ ("memory_usage", JInt (mMemoryUsage m)); ("swap_usage", JInt (mSwapUsage m));
    ("memory_limit", JInt (mMemoryLimit m)); ("swap_limit", JInt (mSwapLimit m));
    ("max_memory_usage", JInt (mMaxMemoryUsage m)); ("max_swap_usage", JInt (mMaxSwapUsage m)) ].

Definition encCpuUsage (c : CpuUsage) : json := JObj [("usage_in_percents", JInt (UsageInPercents c))].

Definition encHostCpuUsage (c : HostCpuUsage) : outcome json :=
  let! u := encFloat (hUsage c) in
  let! q := encFloat (QueueLengthExponentiallySmoothed c) in
  Ok (JObj [ ("usage", u); ("amount", JInt (hAmount c)); ("queue_length_exponentially_smoothed", q) ]).

Definition encHostMemoryUsage (m : HostMemoryUsage) : json := JObj
  [ ("free", JInt (hFree m)); ("total", JInt (hTotal m)); ("swap", JInt (hSwap m));
    ("memory_usage", JInt (hMemoryUsage m)); ("memory_committed", JInt (hMemoryCommitted m));
    ("max_memory_usage", JInt (hMaxMemoryUsage m)); ("swap_usage", JInt (hSwapUsage m));
    ("swap_committed", JInt (hSwapCommitted m)); ("max_swap_usage", JInt (hMaxSwapUsage m)) ].

Definition encHostUsage (h : HostUsage) : outcome json :=
  let! c := encHostCpuUsage (hCPU h) in
  Ok (JObj [ ("cpu", c); ("memory", encHostMemoryUsage (hMemory h)) ]).

Definition encNetworkInfo (i : networkInfo) : json := JObj
  [ ("bytes", JInt (Bytes i)); ("packets", JInt (Packets i)); ("drop", JInt (Drop i));
    ("errs", JInt (Errs i)); ("fifo", JInt (Fifo i)); ("frame", JInt (Frame i));
    ("compressed", JInt (Compressed i)); ("multicast", JInt (Multicast i)) ].

(** The embedded [NetworkStat] has no tag: its members are those of [NetUsage]. *)
Definition encNetUsage (n : NetUsage) : json := JObj
  [ ("interface", JStr (Interface (nStat n))); ("received", encNetworkInfo (Received (nStat n)));
    ("transmit", encNetworkInfo (Transmit (nStat n)));
    ("rx_bps", JInt (RxBps n)); ("tx_bps", JInt (TxBps n)) ].

Definition encIODeviceUsage (d : IODeviceUsage) : json := JObj
  (omitEmpty "device" (ioDevice d) ++ omitEmpty "device_path" (ioDevicePath d) ++
   omitEmpty "mountpoint" (ioMountpoint d) ++
   [ ("major", JInt (ioMajor d)); ("minor", JInt (ioMinor d));
     ("read_bytes", JInt (ioReadBytes d)); ("write_bytes", JInt (ioWriteBytes d));
     ("read_ios", JInt (ioReadIOs d)); ("write_ios", JInt (ioWriteIOs d)) ])%list.

Definition encIOUsage (u : IOUsage) : json :=
  JObj [("devices", JArr (map encIODeviceUsage (ioDevices u)))].

Definition encOpt {T} (enc : T -> json) (o : option T) : json :=
  match o with Some v => enc v | None => JNull end.

Definition encUsage (u : Usage) : outcome json :=
  let! labels := encMap (fun s => Ok (JStr s)) (uLabels u) in
  Ok (JObj
    ([ ("memory", encOpt encMemoryUsage (uMemory u)); ("cpu", encOpt encCpuUsage (uCpu u));
       ("io", encOpt encIOUsage (uIO u)) ] ++
     (match uNet u with Some n => [("net", encNetUsage n)] | None => [] end) ++
     (if decide (uLabels u = ∅) then [] else [("labels", labels)]))%list).

Definition encContainersUsage (m : ContainersUsage) : outcome json := encMap encUsage m.

(** ** Decoding, by the same tags *)

Definition decMemoryUsage : decoder MemoryUsage := decStruct
  [ ("memory_usage", field mMemoryUsage (fun v m => mkMemoryUsage v (mSwapUsage m) (mMemoryLimit m) (mSwapLimit m) (mMaxMemoryUsage m) (mMaxSwapUsage m)) decUint64);
    ("swap_usage", field mSwapUsage (fun v m => mkMemoryUsage (mMemoryUsage m) v (mMemoryLimit m) (mSwapLimit m) (mMaxMemoryUsage m) (mMaxSwapUsage m)) decUint64);
    ("memory_limit", field mMemoryLimit (fun v m => mkMemoryUsage (mMemoryUsage m) (mSwapUsage m) v (mSwapLimit m) (mMaxMemoryUsage m) (mMaxSwapUsage m)) decUint64);
    ("swap_limit", field mSwapLimit (fun v m => mkMemoryUsage (mMemoryUsage m) (mSwapUsage m) (mMemoryLimit m) v (mMaxMemoryUsage m) (mMaxSwapUsage m)) decUint64);
    ("max_memory_usage", field mMaxMemoryUsage (fun v m => mkMemoryUsage (mMemoryUsage m) (mSwapUsage m) (mMemoryLimit m) (mSwapLimit m) v (mMaxSwapUsage m)) decUint64);
    ("max_swap_usage", field mMaxSwapUsage (fun v m => mkMemoryUsage (mMemoryUsage m) (mSwapUsage m) (mMemoryLimit m) (mSwapLimit m) (mMaxMemoryUsage m) v) decUint64) ].

Definition decCpuUsage : decoder CpuUsage := decStruct
  [ ("usage_in_percents", field UsageInPercents (fun v _ => mkCpuUsage v) decInt64) ].

Definition decHostCpuUsage : decoder HostCpuUsage := decStruct
  [ ("usage", field hUsage (fun v c => mkHostCpuUsage v (hAmount c) (QueueLengthExponentiallySmoothed c)) decFloat64);
    ("amount", field hAmount (fun v c => mkHostCpuUsage (hUsage c) v (QueueLengthExponentiallySmoothed c)) decInt64);
    ("queue_length_exponentially_smoothed", field QueueLengthExponentiallySmoothed (fun v c => mkHostCpuUsage (hUsage c) (hAmount c) v) decFloat64) ].

Definition decHostMemoryUsage : decoder HostMemoryUsage := decStruct
  [ ("free", field hFree (fun v m => mkHostMemoryUsage v (hTotal m) (hSwap m) (hMemoryUsage m) (hMemoryCommitted m) (hMaxMemoryUsage m) (hSwapUsage m) (hSwapCommitted m) (hMaxSwapUsage m)) decUint64);
    ("total", field hTotal (fun v m => mkHostMemoryUsage (hFree m) v (hSwap m) (hMemoryUsage m) (hMemoryCommitted m) (hMaxMemoryUsage m) (hSwapUsage m) (hSwapCommitted m) (hMaxSwapUsage m)) decUint64);
    ("swap", field hSwap (fun v m => mkHostMemoryUsage (hFree m) (hTotal m) v (hMemoryUsage m) (hMemoryCommitted m) (hMaxMemoryUsage m) (hSwapUsage m) (hSwapCommitted m) (hMaxSwapUsage m)) decUint64);
    ("memory_usage", field hMemoryUsage (fun v m => mkHostMemoryUsage (hFree m) (hTotal m) (hSwap m) v (hMemoryCommitted m) (hMaxMemoryUsage m) (hSwapUsage m) (hSwapCommitted m) (hMaxSwapUsage m)) decUint64);
    ("memory_committed", field hMemoryCommitted (fun v m => mkHostMemoryUsage (hFree m) (hTotal m) (hSwap m) (hMemoryUsage m) v (hMaxMemoryUsage m) (hSwapUsage m) (hSwapCommitted m) (hMaxSwapUsage m)) decUint64);
    ("max_memory_usage", field hMaxMemoryUsage (fun v m => mkHostMemoryUsage (hFree m) (hTotal m) (hSwap m) (hMemoryUsage m) (hMemoryCommitted m) v (hSwapUsage m) (hSwapCommitted m) (hMaxSwapUsage m)) decUint64);
    ("swap_usage", field hSwapUsage (fun v m => mkHostMemoryUsage (hFree m) (hTotal m) (hSwap m) (hMemoryUsage m) (hMemoryCommitted m) (hMaxMemoryUsage m) v (hSwapCommitted m) (hMaxSwapUsage m)) decUint64);
    ("swap_committed", field hSwapCommitted (fun v m => mkHostMemoryUsage (hFree m) (hTotal m) (hSwap m) (hMemoryUsage m) (hMemoryCommitted m) (hMaxMemoryUsage m) (hSwapUsage m) v (hMaxSwapUsage m)) decUint64);
    ("max_swap_usage", field hMaxSwapUsage (fun v m => mkHostMemoryUsage (hFree m) (hTotal m) (hSwap m) (hMemoryUsage m) (hMemoryCommitted m) (hMaxMemoryUsage m) (hSwapUsage m) (hSwapCommitted m) v) decUint64) ].

Definition decHostUsage : decoder HostUsage := decStruct
  [ ("cpu", field hCPU (fun v h => mkHostUsage v (hMemory h)) decHostCpuUsage);
    ("memory", field hMemory (fun v h => mkHostUsage (hCPU h) v) decHostMemoryUsage) ].

Definition decNetworkInfo : decoder networkInfo := decStruct
  [ ("bytes", field Bytes (fun v i => mkNetworkInfo v (Packets i) (Drop i) (Errs i) (Fifo i) (Frame i) (Compressed i) (Multicast i)) decUint64);
    ("packets", field Packets (fun v i => mkNetworkInfo (Bytes i) v (Drop i) (Errs i) (Fifo i) (Frame i) (Compressed i) (Multicast i)) decUint64);
    ("drop", field Drop (fun v i => mkNetworkInfo (Bytes i) (Packets i) v (Errs i) (Fifo i) (Frame i) (Compressed i) (Multicast i)) decUint64);
    ("errs", field Errs (fun v i => mkNetworkInfo (Bytes i) (Packets i) (Drop i) v (Fifo i) (Frame i) (Compressed i) (Multicast i)) decUint64);
    ("fifo", field Fifo (fun v i => mkNetworkInfo (Bytes i) (Packets i) (Drop i) (Errs i) v (Frame i) (Compressed i) (Multicast i)) decUint64);
    ("frame", field Frame (fun v i => mkNetworkInfo (Bytes i) (Packets i) (Drop i) (Errs i) (Fifo i) v (Compressed i) (Multicast i)) decUint64);
    ("compressed", field Compressed (fun v i => mkNetworkInfo (Bytes i) (Packets i) (Drop i) (Errs i) (Fifo i) (Frame i) v (Multicast i)) decUint64);
    ("multicast", field Multicast (fun v i => mkNetworkInfo (Bytes i) (Packets i) (Drop i) (Errs i) (Fifo i) (Frame i) (Compressed i) v) decUint64) ].

Definition setStat (f : NetworkStat -> NetworkStat) (n : NetUsage) : NetUsage :=
  mkNetUsage (f (nStat n)) (RxBps n) (TxBps n).

Definition decNetUsage : decoder NetUsage := decStruct
  [ ("interface", field (fun n => Interface (nStat n)) (fun v => setStat (fun s => mkNetworkStat v (Received s) (Transmit s))) decString);
    ("received", field (fun n => Received (nStat n)) (fun v => setStat (fun s => mkNetworkStat (Interface s) v (Transmit s))) decNetworkInfo);
    ("transmit", field (fun n => Transmit (nStat n)) (fun v => setStat (fun s => mkNetworkStat (Interface s) (Received s) v)) decNetworkInfo);
    ("rx_bps", field RxBps (fun v n => mkNetUsage (nStat n) v (TxBps n)) decInt64);
    ("tx_bps", field TxBps (fun v n => mkNetUsage (nStat n) (RxBps n) v) decInt64) ].

Definition decIODeviceUsage : decoder IODeviceUsage := decStruct
  [ ("device", field ioDevice (fun v d => mkIODeviceUsage v (ioDevicePath d) (ioMountpoint d) (ioMajor d) (ioMinor d) (ioReadBytes d) (ioWriteBytes d) (ioReadIOs d) (ioWriteIOs d)) decString);
    ("device_path", field ioDevicePath (fun v d => mkIODeviceUsage (ioDevice d) v (ioMountpoint d) (ioMajor d) (ioMinor d) (ioReadBytes d) (ioWriteBytes d) (ioReadIOs d) (ioWriteIOs d)) decString);
    ("mountpoint", field ioMountpoint (fun v d => mkIODeviceUsage (ioDevice d) (ioDevicePath d) v (ioMajor d) (ioMinor d) (ioReadBytes d) (ioWriteBytes d) (ioReadIOs d) (ioWriteIOs d)) decString);
    ("major", field ioMajor (fun v d => mkIODeviceUsage (ioDevice d) (ioDevicePath d) (ioMountpoint d) v (ioMinor d) (ioReadBytes d) (ioWriteBytes d) (ioReadIOs d) (ioWriteIOs d)) decUint64);
    ("minor", field ioMinor (fun v d => mkIODeviceUsage (ioDevice d) (ioDevicePath d) (ioMountpoint d) (ioMajor d) v (ioReadBytes d) (ioWriteBytes d) (ioReadIOs d) (ioWriteIOs d)) decUint64);
    ("read_bytes", field ioReadBytes (fun v d => mkIODeviceUsage (ioDevice d) (ioDevicePath d) (ioMountpoint d) (ioMajor d) (ioMinor d) v (ioWriteBytes d) (ioReadIOs d) (ioWriteIOs d)) decUint64);
    ("write_bytes", field ioWriteBytes (fun v d => mkIODeviceUsage (ioDevice d) (ioDevicePath d) (ioMountpoint d) (ioMajor d) (ioMinor d) (ioReadBytes d) v (ioReadIOs d) (ioWriteIOs d)) decUint64);
    ("read_ios", field ioReadIOs (fun v d => mkIODeviceUsage (ioDevice d) (ioDevicePath d) (ioMountpoint d) (ioMajor d) (ioMinor d) (ioReadBytes d) (ioWriteBytes d) v (ioWriteIOs d)) decUint64);
    ("write_ios", field ioWriteIOs (fun v d => mkIODeviceUsage (ioDevice d) (ioDevicePath d) (ioMountpoint d) (ioMajor d) (ioMinor d) (ioReadBytes d) (ioWriteBytes d) (ioReadIOs d) v) decUint64) ].

Definition decIOUsage : decoder IOUsage := decStruct
  [ ("devices", field ioDevices (fun v _ => mkIOUsage v) (decSlice zeroIODeviceUsage decIODeviceUsage)) ].

Definition decUsage : decoder Usage := decStruct
  [ ("memory", field uMemory (fun v u => mkUsage v (uCpu u) (uIO u) (uNet u) (uLabels u)) (decPtr zeroMemoryUsage decMemoryUsage));
    ("cpu", field uCpu (fun v u => mkUsage (uMemory u) v (uIO u) (uNet u) (uLabels u)) (decPtr zeroCpuUsage decCpuUsage));
    ("io", field uIO (fun v u => mkUsage (uMemory u) (uCpu u) v (uNet u) (uLabels u)) (decPtr zeroIOUsage decIOUsage));
    ("net", field uNet (fun v u => mkUsage (uMemory u) (uCpu u) (uIO u) v (uLabels u)) (decPtr zeroNetUsage decNetUsage));
    ("labels", field uLabels (fun v u => mkUsage (uMemory u) (uCpu u) (uIO u) (uNet u) v) (decMap "" decString)) ].

Definition decContainersUsage : decoder ContainersUsage := decMap zeroUsage decUsage.

(** ** The client *)

Record t : Type := mkClient { Endpoint : string; Username : string; Password : string }.

Definition ClientOpts : Type := t -> t.

Definition WithAuthentication (user pass : string) : ClientOpts :=
  fun c => mkClient (Endpoint c) user pass.

(** The request [do] sends. *)
Record request : Type := mkRequest {
  reqMethod : string; reqURL : string; reqHeaders : list (string * string);
  reqBasicAuth : option (string * string) }.

(** A response: its status and the text of its body. *)
Record response : Type := mkResponse { resStatus : Z; resBody : string }.

Section Requests.
(** [url.Parse], [http.NewRequest]'s validation and [http.DefaultClient.Do]. *)
Variable parseURL : string -> outcome unit.
Variable checkRequest : string -> outcome unit.
Variable transport : request -> outcome response.

Definition NewClient (endpoint : string) (opts : list ClientOpts) : outcome t :=
  let! _ := wrapMsg ("parse endpoint '" +:+ endpoint +:+ "'") (parseURL endpoint) in
  Ok (fold_left (fun c opt => opt c) opts (mkClient endpoint "" "")).

Definition do (c : t) (method url : string) : outcome response :=
  transport (mkRequest method url
    [("Content-Type", "application/json"); ("User-Agent", "Acadocker Client v1")]
    (if negb (String.eqb (Username c) "") && negb (String.eqb (Password c) "")
     then Some (Username c, Password c) else None)).

Definition fullURL (c : t) (path query : string) : string :=
  if String.eqb query "" then Endpoint c +:+ path else Endpoint c +:+ path +:+ "?" +:+ query.

(** [data] is the caller's pointer: what it points to after the call. *)
Definition getPathWithQuery {T} (c : t) (path query : string) (dec : decoder T) (data : option T)
    : outcome (option T) :=
  let endpoint := fullURL c path query in
  let! _ := wrapMsg "create new http request" (checkRequest endpoint) in
  let! res := wrapMsg "execute http request" (do c "GET" endpoint) in
  wrapMsg "decode response body payload"
    (let! j := parse (resBody res) in decodeInterface dec j data).

Definition resourcePath (dockerId resourceType : string) : string :=
  if String.eqb dockerId "" then "/containers/" +:+ resourceType
  else "/containers/" +:+ dockerId +:+ "/" +:+ resourceType.

Definition getResourceWithQuery {T} (c : t) (dockerId resourceType query : string)
    (dec : decoder T) (data : option T) : outcome (option T) :=
  getPathWithQuery c (resourcePath dockerId resourceType) query dec data.

Definition getResource {T} (c : t) (dockerId resourceType : string) (dec : decoder T) (data : option T) :=
  getResourceWithQuery c dockerId resourceType "" dec data.

(** [var mem *MemoryUsage; c.getResource(ctx, dockerId, "mem", mem)]. *)
Definition Memory (c : t) (dockerId : string) : outcome (option MemoryUsage) :=
  wrapMsg "get container memory usage" (getResource c dockerId "mem" decMemoryUsage None).

(** [io := &IOUsage{}]. *)
Definition IOUsageReq (c : t) (dockerID : string) : outcome (option IOUsage) :=
  wrapMsg "get container io usage" (getResource c dockerID "io" decIOUsage (Some zeroIOUsage)).

Definition CpuUsageReq (c : t) (dockerId : string) : outcome (option CpuUsage) :=
  wrapMsg "get container cpu usage" (getResource c dockerId "cpu" decCpuUsage None).

Definition NetUsageReq (c : t) (dockerId : string) : outcome (option NetUsage) :=
  wrapMsg "get container network usage" (getResource c dockerId "net" decNetUsage None).

(** [fmt.Sprintf("net=%v", net)]. *)
Definition netQuery (net : bool) : string := if net then "net=true" else "net=false".

Definition UsageReq (c : t) (dockerId : string) (net : bool) : outcome (option Usage) :=
  wrapMsg "get container usage"
    (getResourceWithQuery c dockerId "usage" (netQuery net) decUsage (Some zeroUsage)).

(** [var usage ContainersUsage; ... &usage]. *)
Definition AllContainersUsage (c : t) : outcome (option ContainersUsage) :=
  wrapMsg "get all containers usage" (getResource c "" "usage" decContainersUsage (Some ∅)).

Definition labelQuery (label : string) : string :=
  if String.eqb label "" then "" else "include_container_if_label=" +:+ label.

Definition HostUsageReq (c : t) (label : string) : outcome (option HostUsage) :=
  wrapMsg "get host usage"
    (getPathWithQuery c "/host/usage" (labelQuery label) decHostUsage (Some zeroHostUsage)).

End Requests.

(** ** Well-formed payloads: every number in the range of its Go type, every string
    in UTF-8 *)

Definition wfMemoryUsage (m : MemoryUsage) : Prop :=
  Forall is_u64 [mMemoryUsage m; mSwapUsage m; mMemoryLimit m; mSwapLimit m;
                 mMaxMemoryUsage m; mMaxSwapUsage m].
Definition wfNetworkInfo (i : networkInfo) : Prop :=
  Forall is_u64 [Bytes i; Packets i; Drop i; Errs i; Fifo i; Frame i; Compressed i; Multicast i].
Definition wfNetUsage (n : NetUsage) : Prop :=
  wfNetworkInfo (Received (nStat n)) /\ wfNetworkInfo (Transmit (nStat n)) /\
  is_i64 (RxBps n) /\ is_i64 (TxBps n) /\ ValidString (Interface (nStat n)) = true.
Definition wfIODeviceUsage (d : IODeviceUsage) : Prop :=
  Forall is_u64 [ioMajor d; ioMinor d; ioReadBytes d; ioWriteBytes d; ioReadIOs d; ioWriteIOs d] /\
  Forall (fun s => ValidString s = true) [ioDevice d; ioDevicePath d; ioMountpoint d].
Definition wfIOUsage (u : IOUsage) : Prop := Forall wfIODeviceUsage (ioDevices u).
Definition wfCpuUsage (c : CpuUsage) : Prop := is_i64 (UsageInPercents c).
Definition wfOpt {T} (P : T -> Prop) (o : option T) : Prop :=
  match o with Some v => P v | None => True end.
Definition validLabels (labels : gmap string string) : Prop :=
  map_Forall (fun k v => ValidString k = true /\ ValidString v = true) labels.
Definition wfUsage (u : Usage) : Prop :=
  wfOpt wfMemoryUsage (uMemory u) /\ wfOpt wfCpuUsage (uCpu u) /\
  wfOpt wfIOUsage (uIO u) /\ wfOpt wfNetUsage (uNet u) /\ validLabels (uLabels u).
Definition wfHostUsage (h : HostUsage) : Prop :=
  isFloat64 (hUsage (hCPU h)) = true /\ isFloat64 (QueueLengthExponentiallySmoothed (hCPU h)) = true /\
  is_i64 (hAmount (hCPU h)) /\
  Forall is_u64 [hFree (hMemory h); hTotal (hMemory h); hSwap (hMemory h); hMemoryUsage (hMemory h);
    hMemoryCommitted (hMemory h); hMaxMemoryUsage (hMemory h); hSwapUsage (hMemory h);
    hSwapCommitted (hMemory h); hMaxSwapUsage (hMemory h)].

(** The document the server's error middleware sends. *)
Definition errorBody (message : string) : string := Encode (Ok (JObj [("error", JStr message)])).

(** ** Lemmas *)

Lemma decMembers_step {T} (fields : list (string * decoder T)) name j js cur d v r :
  findField fields name = Some d -> d j cur = Ok v -> decMembers fields js v = r ->
  decMembers fields ((name, j) :: js) cur = r.
Proof. intros Hf Hd <-. cbn [decMembers]. by rewrite Hf, Hd. Qed.

Lemma decMembers_omit {T} (fields : list (string * decoder T)) name s js cur d v r :
  findField fields name = Some d -> d (JStr s) cur = Ok v -> (s = "" -> v = cur) ->
  decMembers fields js v = r -> decMembers fields (omitEmpty name s ++ js)%list cur = r.
Proof.
  intros Hf Hd He Hr. unfold omitEmpty. destruct (String.eqb_spec s "") as [E|E].
  - by rewrite <- (He E).
  - by eapply decMembers_step.
Qed.

(** The target after the member, reduced. *)
Lemma field_ok {T F} (get : T -> F) set (dec : decoder F) j cur v cur' :
  dec j (get cur) = Ok v -> set v cur = cur' -> field get set dec j cur = Ok cur'.
Proof. intros H <-. unfold field. by rewrite H. Qed.

Lemma decPtr_ok {T} (zero : T) dec j v :
  j <> JNull -> dec j zero = Ok v -> decPtr zero dec j None = Ok (Some v).
Proof. intros Hj H. destruct j; [done| cbn [decPtr default]; by rewrite H ..]. Qed.

Ltac split_Forall :=
  repeat match goal with H : Forall _ (_ :: _) |- _ => apply list.Forall_cons_1 in H as [? H] end.

(** Decode the members of an encoded struct one after the other. *)
Ltac dec_field tac := eapply field_ok; [first [tac | reflexivity] | cbn; reflexivity].
Ltac dec_member tac :=
  lazymatch goal with
  | |- decMembers _ [] _ = _ => reflexivity
  | |- _ => eapply decMembers_step; [reflexivity | dec_field tac | ]
  end.
Ltac dec_struct tac := unfold decStruct; cbv beta iota; repeat dec_member tac.
Ltac dec_number := first [apply decUint64_enc; done | apply decInt64_enc; done].

Lemma decMemoryUsage_enc m : wfMemoryUsage m -> decMemoryUsage (encMemoryUsage m) zeroMemoryUsage = Ok m.
Proof.
  destruct m. intros H. unfold wfMemoryUsage in H. simpl in H.
  split_Forall. unfold decMemoryUsage, encMemoryUsage. dec_struct dec_number.
Qed.

Lemma decCpuUsage_enc c : wfCpuUsage c -> decCpuUsage (encCpuUsage c) zeroCpuUsage = Ok c.
Proof. destruct c. intros H. unfold decCpuUsage, encCpuUsage. dec_struct dec_number. Qed.

Lemma decNetworkInfo_enc i : wfNetworkInfo i -> decNetworkInfo (encNetworkInfo i) zeroNetworkInfo = Ok i.
Proof.
  destruct i. intros H. unfold wfNetworkInfo in H. simpl in H.
  split_Forall. unfold decNetworkInfo, encNetworkInfo. dec_struct dec_number.
Qed.

Lemma decNetUsage_enc n : wfNetUsage n -> decNetUsage (encNetUsage n) zeroNetUsage = Ok n.
Proof.
  destruct n as [[i r t] rx tx]. intros (Hr & Ht & Hrx & Htx & _). cbn in Hr, Ht, Hrx, Htx.
  unfold decNetUsage, encNetUsage. dec_struct ltac:(first [dec_number | by apply decNetworkInfo_enc]).
Qed.

Lemma decIODeviceUsage_enc d :
  wfIODeviceUsage d -> decIODeviceUsage (encIODeviceUsage d) zeroIODeviceUsage = Ok d.
Proof.
  destruct d. intros [H _]. simpl in H. split_Forall.
  unfold decIODeviceUsage, encIODeviceUsage. unfold decStruct; cbv beta iota.
  do 3 (eapply decMembers_omit; [reflexivity | dec_field fail | cbn; by intros -> |]).
  repeat dec_member dec_number.
Qed.

Lemma decIOUsage_enc u : wfIOUsage u -> decIOUsage (encIOUsage u) zeroIOUsage = Ok u.
Proof.
  destruct u as [ds]. intros H. unfold decIOUsage, encIOUsage. unfold decStruct; cbv beta iota.
  assert (decSlice zeroIODeviceUsage decIODeviceUsage (JArr (map encIODeviceUsage ds)) [] = Ok ds) as Hs.
  { apply slice_roundtrip. intros d Hd. apply decIODeviceUsage_enc. unfold wfIOUsage in H. rewrite list.Forall_forall in H. by apply H. }
  dec_member ltac:(exact Hs). reflexivity.
Qed.

Lemma decPtr_enc {T} (zero : T) (dec : decoder T) (enc : T -> json) (P : T -> Prop) o :
  (forall v, enc v <> JNull) -> (forall v, P v -> dec (enc v) zero = Ok v) -> wfOpt P o ->
  decPtr zero dec (encOpt enc o) None = Ok o.
Proof. intros Hn Hd Ho. destruct o; [|done]. apply decPtr_ok; [apply Hn|]. by apply Hd. Qed.

Lemma usage_members u :
  wfUsage u -> exists j, encUsage u = Ok j /\ decUsage j zeroUsage = Ok u.
Proof.
  destruct u as [m c io n ls]. intros (Hm & Hc & Hio & Hn & _). simpl in *.
  destruct (map_roundtrip "" (fun s => Ok (JStr s)) decString ls) as (labels & Hl & Hdl).
  { intros k v _. by exists (JStr v). }
  unfold encUsage. cbn [uLabels uMemory uCpu uIO uNet]. rewrite Hl. cbn [obind].
  eexists. split; [reflexivity|]. unfold decUsage. unfold decStruct; cbv beta iota; cbn [app].
  dec_member ltac:(eapply decPtr_enc; [done | apply decMemoryUsage_enc | done]).
  dec_member ltac:(eapply decPtr_enc; [done | apply decCpuUsage_enc | done]).
  dec_member ltac:(eapply decPtr_enc; [done | apply decIOUsage_enc | done]).
  cbn [uLabels uMemory uCpu uIO uNet zeroUsage].
  destruct n as [n|]; cbn [app];
    [dec_member ltac:(apply decPtr_ok; [done | by apply decNetUsage_enc]) |];
    (destruct (decide (ls = ∅)) as [->|]; [reflexivity|]);
    dec_member ltac:(exact Hdl); reflexivity.
Qed.

Lemma encHostUsage_ok h :
  is_ok (encHostUsage h) = is_finite (hUsage (hCPU h)) && is_finite (QueueLengthExponentiallySmoothed (hCPU h)).
Proof.
  unfold encHostUsage, encHostCpuUsage, encFloat.
  destruct (is_finite (hUsage (hCPU h))); [|done].
  by destruct (is_finite (QueueLengthExponentiallySmoothed (hCPU h))).
Qed.

Lemma decHostUsage_enc h j :
  wfHostUsage h -> encHostUsage h = Ok j -> decHostUsage j zeroHostUsage = Ok h.
Proof.
  destruct h as [[u a q] m]. intros (Hu & Hq & Ha & Hm) Henc. unfold encHostUsage in Henc.
  apply obind_ok in Henc as (jc & Hc & Henc). inv_ok. unfold encHostCpuUsage, encFloat in Hc.
  cbn in Hc, Ha, Hu, Hq. destruct (is_finite u) eqn:Fu; [|done]. destruct (is_finite q) eqn:Fq; [|done]. cbn in Hc. inv_ok.
  assert (decHostCpuUsage (JObj [("usage", JNum (FormatFloat u)); ("amount", JInt a);
            ("queue_length_exponentially_smoothed", JNum (FormatFloat q))]) zeroHostCpuUsage
          = Ok (mkHostCpuUsage u a q)) as Hcd.
  { unfold decHostCpuUsage. dec_struct ltac:(first [by apply decFloat64_enc | dec_number]). }
  assert (decHostMemoryUsage (encHostMemoryUsage m) zeroHostMemoryUsage = Ok m) as Hmd.
  { destruct m. simpl in Hm. split_Forall.
    unfold decHostMemoryUsage, encHostMemoryUsage. dec_struct dec_number. }
  unfold decHostUsage. dec_struct ltac:(first [exact Hcd | exact Hmd]).
Qed.

(** ** Lemmas: the text of the payloads *)

Ltac document_member tac :=
  lazymatch goal with
  | |- Forall _ [] => apply list.Forall_nil; exact I
  | |- Forall _ (_ :: _) => apply list.Forall_cons; split; [split; [reflexivity | tac] | ]
  end.
Ltac document_number := first [apply document_u64; done | apply document_i64; done].
Ltac document_numbers := apply (document_obj 0); [done|]; repeat document_member document_number.

Lemma encMemoryUsage_document m : wfMemoryUsage m -> document 1 (encMemoryUsage m).
Proof. destruct m. intros H. unfold wfMemoryUsage in H. simpl in H. split_Forall. document_numbers. Qed.

Lemma encCpuUsage_document c : wfCpuUsage c -> document 1 (encCpuUsage c).
Proof. destruct c. intros H. unfold wfCpuUsage in H. simpl in H. document_numbers. Qed.

Lemma encNetworkInfo_document i : wfNetworkInfo i -> document 1 (encNetworkInfo i).
Proof. destruct i. intros H. unfold wfNetworkInfo in H. simpl in H. split_Forall. document_numbers. Qed.

Lemma encNetUsage_document n : wfNetUsage n -> document 2 (encNetUsage n).
Proof.
  destruct n as [[i r t] rx tx]. intros (Hr & Ht & Hrx & Htx & Hi). cbn in Hr, Ht, Hrx, Htx, Hi.
  apply (document_obj 1); [done|].
  repeat document_member ltac:(first [ by apply encNetworkInfo_document
    | eapply document_le; [first [by apply document_str | document_number]|done]]).
Qed.

Lemma encIODeviceUsage_document d : wfIODeviceUsage d -> document 1 (encIODeviceUsage d).
Proof.
  destruct d. intros [H Hs]. simpl in H, Hs. split_Forall. apply (document_obj 0); [done|]. simpl.
  rewrite !list.Forall_app. split_and!; [by apply document_omit..|]. repeat document_member document_number.
Qed.

Lemma encIOUsage_document u : wfIOUsage u -> document 3 (encIOUsage u).
Proof.
  intros H. apply (document_obj 2); [done|]. document_member ltac:(apply (document_slice _ _ 1); [done|]).
  - intros d Hd. apply encIODeviceUsage_document. unfold wfIOUsage in H. rewrite list.Forall_forall in H. by apply H.
  - document_member fail.
Qed.

Lemma encOpt_document {T} (enc : T -> json) (P : T -> Prop) n o :
  (forall v, P v -> document n (enc v)) -> 0 <= n -> wfOpt P o -> document n (encOpt enc o).
Proof. intros H Hn Ho. destruct o; [by apply H|]. split; [constructor|done]. Qed.

Lemma encUsage_document u j : wfUsage u -> encUsage u = Ok j -> document 4 j.
Proof.
  intros (Hm & Hc & Hio & Hn & Hl) He. unfold encUsage in He. apply obind_ok in He as (labels & Hlabels & He). inv_ok.
  assert (document 1 labels) as Hld.
  { eapply (document_map _ _ _ 0); [exact Hlabels|done|]. intros k v j' Hk Hj'. injection Hj' as <-.
    destruct (Hl k v Hk). split; [done|]. by apply document_str. }
  apply (document_obj 3); [done|].
  do 3 document_member ltac:(first
      [ eapply encOpt_document; [|done|exact Hm]; intros v Hv; eapply document_le; [by apply encMemoryUsage_document|done]
      | eapply encOpt_document; [|done|exact Hc]; intros v Hv; eapply document_le; [by apply encCpuUsage_document|done]
      | eapply encOpt_document; [|done|exact Hio]; intros v Hv; eapply document_le; [by apply encIOUsage_document|done]]).
  apply list.Forall_app. split.
  - destruct (uNet u) as [n|]; [|document_member fail].
    document_member ltac:(eapply document_le; [by apply encNetUsage_document|done]). document_member fail.
  - destruct (decide (uLabels u = ∅)); [document_member fail|].
    document_member ltac:(eapply document_le; [exact Hld|done]). document_member fail.
Qed.

Lemma encHostUsage_document h j : wfHostUsage h -> encHostUsage h = Ok j -> document 2 j.
Proof.
  destruct h as [[u a q] m]. intros (Hu & Hq & Ha & Hm) He. unfold encHostUsage, encHostCpuUsage, encFloat in He.
  cbn in He, Hu, Hq, Ha. destruct (is_finite u) eqn:Fu; [|done]. destruct (is_finite q) eqn:Fq; [|done]. cbn in He. inv_ok.
  destruct m. simpl in Hm. split_Forall.
  apply (document_obj 1); [done|]. repeat document_member ltac:(apply (document_obj 0); [done|];
    repeat document_member ltac:(first [by apply document_float | document_number])).
Qed.

Lemma parse_errorBody message : parse (errorBody message) = Ok (JObj [("error", JStr (toValid message))]).
Proof. apply (parse_message "error"). Qed.

(** ** Properties *)

(** C33. The wire loses nothing: what the client decodes of the text the server
    encodes of the usages of any containers is the same map, pointers, labels and
    devices included, if the strings are UTF-8. *)
Theorem ContainersUsage_roundtrip (m : ContainersUsage)
    (H : map_Forall (fun id u => ValidString id = true /\ wfUsage u) m) :
  Decode decContainersUsage (Encode (encContainersUsage m)) ∅ = Ok m.
Proof.
  destruct (map_roundtrip zeroUsage encUsage decUsage m) as (j & Hj & Hd).
  { intros k u Hk. apply usage_members. by apply (H k u Hk). }
  unfold encContainersUsage. rewrite Hj. unfold Decode. rewrite (parse_Encode 5); [exact Hd| |done].
  eapply (document_map _ _ _ 4); [exact Hj|done|]. intros k u j' Hk Hj'. destruct (H k u Hk) as [Hv Hw].
  split; [done|]. by eapply encUsage_document.
Qed.

(** The host's usage has a document exactly when its two floats are finite, and the
    text of that document decodes to the same usage. *)
Theorem HostUsage_roundtrip (h : HostUsage) (H : wfHostUsage h) :
  match encHostUsage h with
  | Ok j => Decode decHostUsage (Encode (Ok j)) zeroHostUsage = Ok h
  | Err _ => is_finite (hUsage (hCPU h)) = false
             \/ is_finite (QueueLengthExponentiallySmoothed (hCPU h)) = false
  | Panic _ => False
  end.
Proof.
  destruct (encHostUsage h) as [j|e|m] eqn:E.
  - unfold Decode. rewrite (parse_Encode 2); [by apply decHostUsage_enc|by eapply encHostUsage_document|done].
  - pose proof (encHostUsage_ok h) as Hok. rewrite E in Hok. symmetry in Hok.
    by apply andb_false_iff in Hok.
  - unfold encHostUsage, encHostCpuUsage, encFloat in E. by repeat case_match.
Qed.

Section ClientProperties.
Variable checkRequest : string -> outcome unit.
Variable transport : request -> outcome response.

(** [Memory], [CpuUsage] and [NetUsage] hand a nil pointer to the decoder:
    whatever the server answers, what they return without an error is the nil
    pointer. *)
Theorem nil_results (c : t) (id : string) :
  match Memory checkRequest transport c id with Ok p => p = None | _ => True end /\
  match CpuUsageReq checkRequest transport c id with Ok p => p = None | _ => True end /\
  match NetUsageReq checkRequest transport c id with Ok p => p = None | _ => True end.
Proof.
  unfold Memory, CpuUsageReq, NetUsageReq, getResource, getResourceWithQuery, getPathWithQuery.
  repeat split;
    (destruct (checkRequest _); cbn [wrapMsg wrap obind]; [|done ..];
     destruct (do _ _ _ _) as [res| |]; cbn [wrapMsg wrap obind]; [|done ..];
     destruct (parse (resBody res)) as [j| |]; cbn [obind decodeInterface]; [|done..]; by destruct (decodesGeneric j)).
Qed.

End ClientProperties.

Definition exampleUsage : Usage :=
  mkUsage (Some (mkMemoryUsage 1 2 3 4 5 6)) (Some (mkCpuUsage 12))
    (Some (mkIOUsage [mkIODeviceUsage "" "/dev/vda" "/" 8 0 1 2 3 4])) None (<["app" := "x"]> ∅).

Lemma ContainersUsage_roundtrip_witness :
  Decode decContainersUsage (Encode (encContainersUsage (<["c1" := exampleUsage]> ∅))) ∅ = Ok (<["c1" := exampleUsage]> ∅).
Proof.
  apply (ContainersUsage_roundtrip (<["c1" := exampleUsage]> ∅)).
  apply map_Forall_insert_2; [|apply map_Forall_empty]. split; [reflexivity|].
  assert (validLabels (uLabels exampleUsage)) as Hl
    by (apply map_Forall_insert_2; [split; reflexivity | apply map_Forall_empty]).
  refine (conj _ (conj _ (conj _ (conj I Hl)))); [repeat constructor; done | split; done |].
  apply list.Forall_cons. split; [split; repeat constructor; done | apply list.Forall_nil; exact I].
Defined.

(** The text itself. *)
Example exampleUsage_text : Encode (encContainersUsage (<["c1" := exampleUsage]> ∅)) =
  quoted ("{'c1':{'memory':{'memory_usage':1,'swap_usage':2,'memory_limit':3,'swap_limit':4,'max_memory_usage':5,"
    +:+ "'max_swap_usage':6},'cpu':{'usage_in_percents':12},'io':{'devices':[{'device_path':'/dev/vda','mountpoint':'/',"
    +:+ "'major':8,'minor':0,'read_bytes':1,'write_bytes':2,'read_ios':3,'write_ios':4}]},'labels':{'app':'x'}}}") +:+ eol.
Proof. vm_compute. reflexivity. Qed.

Lemma HostUsage_roundtrip_witness :
  Decode decHostUsage (Encode (encHostUsage (mkHostUsage (mkHostCpuUsage fone 4 fzero) zeroHostMemoryUsage))) zeroHostUsage
  = Ok (mkHostUsage (mkHostCpuUsage fone 4 fzero) zeroHostMemoryUsage).
Proof.
  apply (HostUsage_roundtrip (mkHostUsage (mkHostCpuUsage fone 4 fzero) zeroHostMemoryUsage)).
  split; [reflexivity|]. split; [reflexivity|]. split; [done|]. repeat constructor; done.
Defined.

End Client.
