(* ===== verification/Filters.v ===== *)
(** * filters/exponential_smoothing.go: the smoothed queue length

    The loop of [Start] is given as one function per iteration, fed with what the
    clock and the metrics reader answer during it; [Read] and [Stop] are the
    operations of the other goroutines.  The arithmetic is a parameter: the
    program computes in [float64]; the rationals are used to say what the
    recursion computes when nothing is rounded. *)
From S2P Require Import Prelude GoStrings GoFloat GoTime.
From Stdlib Require Import QArith Lqa.
#[local] Open Scope Z_scope.

(** The operations of the number type. *)
Class Arith (F : Type) : Type := {
  azero : F;
  aone : F;
  aadd : F -> F -> F;
  asub : F -> F -> F;
  amul : F -> F -> F;
  adiv : F -> F -> F;
  aofInt : Z -> F }.

#[export] Instance float64_arith : Arith float64 :=
  {| azero := fzero; aone := fone; aadd := fadd; asub := fsub; amul := fmul; adiv := fdiv;
     aofInt := of_int |}.

#[export] Instance Q_arith : Arith Q :=
  {| azero := 0%Q; aone := 1%Q; aadd := Qplus; asub := Qminus; amul := Qmult; adiv := Qdiv;
     aofInt := inject_Z |}.

Module Filters.

Section Smoothing.
Context {F : Type} {arith : Arith F}.

(** [ExponentialSmoothing] without its reader and its two mutexes; times are
    nanoseconds of the monotonic clock. *)
Record t : Type := mkSmoothing {
  averageLength : Z;
  averageInterval : Z;
  queueLength : Z;
  stopped : bool;
  queue : list F;
  lastSampleTime : Z;
  lastAverageTime : Z }.

Definition ExponentialSmoothingOpts : Type := t -> t.

Definition WithAverageConfig (sampleCount averageInterval : Z) : ExponentialSmoothingOpts := fun res =>
  mkSmoothing sampleCount averageInterval (queueLength res) (stopped res) (queue res)
    (lastSampleTime res) (lastAverageTime res).

Definition WithQueueLength (length : Z) : ExponentialSmoothingOpts := fun res =>
  mkSmoothing (averageLength res) (averageInterval res) length (stopped res) (queue res)
    (lastSampleTime res) (lastAverageTime res).

(** [NewExponentialSmoothing]; [now1] and [now2] are its two readings of the clock. *)
Definition NewExponentialSmoothing (now1 now2 : Z) (opts : list ExponentialSmoothingOpts) : outcome t :=
  let result := fold_left (fun r opt => opt r) opts
    (mkSmoothing 5 (10 * Second) 6 false [] now1 now2) in
  if queueLength result <=? 0 then Err (ErrOpaque ("QueueLength should be >0, current value: " +:+ Itoa (queueLength result)))
  else if averageLength result <=? 0 then 
    Err (ErrOpaque ("averageLength should be >0, current value: " +:+ Itoa (averageLength result)))
  else if averageInterval result <=? Millisecond then 
    Err (ErrOpaque ("averageInterval should be > 1ms, current values: " +:+ DurationString (averageInterval result)))
  else Ok result.

(** [exponentialSmoothing], by recursion on the pointer. *)
Fixpoint smooth (values : list F) (ptr : nat) (alpha : F) : outcome F :=
  match ptr with
  | O => index values 0
  | S p =>
      let! v := index values (Z.of_nat ptr) in
      let! r := smooth values p alpha in
      Ok (aadd (amul alpha v) (amul (asub aone alpha) r))
  end.

Definition exponentialSmoothing (values : list F) (ptr : Z) (alpha : F) : outcome F :=
  smooth values (Z.to_nat ptr) alpha.

(** [Read]; [exp] is [math.Exp]. *)
Definition Read (exp : F -> F) (e : t) : outcome F :=
  let n := Z.of_nat (length (queue e)) in
  if n <? queueLength e then Err ErrNotEnoughMetrics
  else exponentialSmoothing (queue e) (n - 1) (exp (aofInt (muli (-1) n))).

Definition setQueue (q : list F) (e : t) : t :=
  mkSmoothing (averageLength e) (averageInterval e) (queueLength e) (stopped e) q
    (lastSampleTime e) (lastAverageTime e).
Definition setSampleTime (now : Z) (e : t) : t :=
  mkSmoothing (averageLength e) (averageInterval e) (queueLength e) (stopped e) (queue e)
    now (lastAverageTime e).
Definition setAverageTime (now : Z) (e : t) : t :=
  mkSmoothing (averageLength e) (averageInterval e) (queueLength e) (stopped e) (queue e)
    (lastSampleTime e) now.

(** The slice expression keeps the last [queueLength] elements. *)
Definition appendToQueue (value : F) (e : t) : t :=
  let q := (queue e ++ [value])%list in
  let n := Z.of_nat (length q) in
  setQueue (if queueLength e <? n then drop (Z.to_nat (n - queueLength e)) q else q) e.

Definition isStopped (e : t) : bool := stopped e.

Definition Stop (e : t) : t :=
  mkSmoothing (averageLength e) (averageInterval e) (queueLength e) true (queue e)
    (lastSampleTime e) (lastAverageTime e).

(** How long [waitForNextSample] sleeps ([Sub] saturates), if positive. *)
Definition saturate (d : Z) : Z := Z.max (- 2 ^ 63) (Z.min (2 ^ 63 - 1) d).

Definition timeBetweenSamples (e : t) : Z := Z.quot (averageInterval e) (averageLength e).

Definition timeToWait (e : t) (now : Z) : Z :=
  saturate (lastSampleTime e + timeBetweenSamples e - now).

(** What an iteration of [Start] sees: the clock before and after the sleep, the
    reader's answer, and the clock around the computation of an average. *)
Record iteration : Type := mkIteration {
  nowBefore : Z; nowAfter : Z; reading : outcome F; nowTest : Z; nowAverage : Z }.

Definition waitForNextSample (it : iteration) (e : t) : t := setSampleTime (nowAfter it) e.

(** [for _, v := range values { result += v }; result / float64(len(values))]. *)
Definition average (values : list F) : F :=
  adiv (fold_left aadd values azero) (aofInt (Z.of_nat (length values))).

(** The state of [Start]: the shared filter, the local [values], and whether the
    loop still runs. *)
Record loop : Type := mkLoop { filter : t; values : list F; running : bool }.

Definition startLoop (e : t) : loop := mkLoop e [] true.

Definition iterate (it : iteration) (l : loop) : outcome loop :=
  if negb (running l) then Ok l
  else
    let e := waitForNextSample it (filter l) in
    if isStopped e then Ok (mkLoop e (values l) false)
    else
      match reading it with
      | Panic m => Panic m
      | Err _ => Ok (mkLoop e (values l) true)
      | Ok value =>
          let vs := (values l ++ [value])%list in
          if lastAverageTime e + averageInterval e <? nowTest it then
            Ok (mkLoop (setAverageTime (nowAverage it) (appendToQueue (average vs) e)) [] true)
          else Ok (mkLoop e vs true)
      end.

(** Events of the filter's life: iterations of its goroutine, and [Stop]. *)
Inductive event : Type :=
| Iterate (it : iteration)
| DoStop.

Definition handle (ev : event) (l : loop) : outcome loop :=
  match ev with
  | Iterate it => iterate it l
  | DoStop => Ok (mkLoop (Stop (filter l)) (values l) (running l))
  end.

Fixpoint run (evs : list event) (l : loop) : outcome loop :=
  match evs with
  | [] => Ok l
  | ev :: evs' => let! l' := handle ev l in run evs' l'
  end.

(** ** Specification

    The successful readings before the loop is stopped, and their division into the
    batches that were averaged and the rest. *)
Fixpoint readings (evs : list event) : list F :=
  match evs with
  | [] => []
  | DoStop :: _ => []
  | Iterate it :: evs' =>
      match reading it with Ok v => v :: readings evs' | _ => readings evs' end
  end.

Definition lastn (n : nat) {A} (l : list A) : list A := drop (length l - n) l.

(** The filter holds exactly the averages of the last batches of [history]. *)
Definition holds (history : list F) (batches : list (list F)) (l : loop) : Prop :=
  history = (concat batches ++ values l)%list /\
  Forall (fun b => b <> []) batches /\
  queue (filter l) = lastn (Z.to_nat (queueLength (filter l))) (map average batches).

Definition wf (e : t) : Prop :=
  0 < queueLength e /\ 0 < averageLength e /\ Millisecond < averageInterval e.

(** The recursion as a fold from the oldest value to the newest. *)
Definition smoothed (alpha : F) (vs : list F) : F :=
  match vs with
  | [] => azero
  | v :: vs' => fold_left (fun acc x => aadd (amul alpha x) (amul (asub aone alpha) acc)) vs' v
  end.

(** ** Lemmas *)

Lemma lastn_all n {A} (l : list A) : (length l <= n)%nat -> lastn n l = l.
Proof. intros H. unfold lastn. by replace (length l - n)%nat with 0%nat by lia. Qed.

Lemma lastn_length n {A} (l : list A) : length (lastn n l) = Nat.min n (length l).
Proof. unfold lastn. rewrite length_drop. lia. Qed.

Lemma lastn_snoc n {A} (l : list A) a :
  (0 < n)%nat ->
  lastn n (lastn n l ++ [a])%list = lastn n (l ++ [a])%list.
Proof.
  intros Hn. unfold lastn. rewrite !length_app, length_drop. cbn [length].
  rewrite <- (drop_app_le l [a] (length l - n)) by lia. rewrite drop_drop. f_equal. lia.
Qed.

Lemma appendToQueue_lastn v e :
  0 < queueLength e ->
  queue (appendToQueue v e) = lastn (Z.to_nat (queueLength e)) (queue e ++ [v])%list.
Proof.
  intros Hq. unfold appendToQueue, lastn. simpl.
  destruct (Z.ltb_spec (queueLength e) (Z.of_nat (length (queue e ++ [v])%list))) as [H|H].
  - f_equal. lia.
  - replace (length (queue e ++ [v])%list - Z.to_nat (queueLength e))%nat with 0%nat by lia. done.
Qed.

Lemma handle_config ev l l' :
  handle ev l = Ok l' ->
  queueLength (filter l') = queueLength (filter l) /\
  averageLength (filter l') = averageLength (filter l) /\
  averageInterval (filter l') = averageInterval (filter l).
Proof.
  destruct ev as [it|]; simpl; [|by intros; inv_ok].
  unfold iterate. intros H. repeat case_match; inv_ok; done.
Qed.

Lemma handle_length ev l l' :
  0 < queueLength (filter l) -> handle ev l = Ok l' ->
  Z.of_nat (length (queue (filter l))) <= queueLength (filter l) ->
  Z.of_nat (length (queue (filter l'))) <= queueLength (filter l').
Proof.
  intros Hq H Hlen. destruct ev as [it|]; cbn [handle] in H; [|by inv_ok].
  unfold iterate in H. destruct (negb (running l)); [by inv_ok|]. destruct (isStopped _); [by inv_ok|].
  destruct (reading it) as [v|e|m]; [|by inv_ok|done]. destruct (_ <? _); inv_ok; [|done].
  cbn [filter setAverageTime queue queueLength].
  rewrite (appendToQueue_lastn _ (waitForNextSample it (filter l)) Hq), lastn_length.
  cbn [appendToQueue setQueue queueLength waitForNextSample setSampleTime]. lia.
Qed.

(** An iteration of a running, not stopped loop. *)
Lemma iterate_holds it l l' history batches :
  0 < queueLength (filter l) -> running l = true -> stopped (filter l) = false ->
  holds history batches l -> iterate it l = Ok l' ->
  running l' = true /\ stopped (filter l') = false /\
  exists batches', holds (history ++ match reading it with Ok v => [v] | _ => [] end)%list batches' l'.
Proof.
  intros Hq Hrun Hst (Hh & Hne & Hqueue) Hit. unfold iterate in Hit. rewrite Hrun in Hit.
  cbn [negb] in Hit. unfold isStopped in Hit. simpl in Hit. rewrite Hst in Hit.
  destruct (reading it) as [v|e|m]; [|inv_ok|done].
  2: { split; [done|]. split; [done|]. exists batches. unfold holds. simpl.
       rewrite app_nil_r. done. }
  destruct (_ <? _); inv_ok; (split; [done|]; split; [done|]).
  - exists (batches ++ [values l ++ [v]])%list. split; [|split]; cbn [values].
    + rewrite concat_app. simpl. by rewrite !app_nil_r, <- app_assoc.
    + apply Forall_app. split; [done|]. constructor; [|constructor]. by destruct (values l).
    + cbn [filter setAverageTime queue queueLength appendToQueue setQueue].
      change (queueLength (waitForNextSample it (filter l))) with (queueLength (filter l)).
      rewrite map_app. cbn [map]. rewrite <- lastn_snoc by lia. rewrite <- Hqueue.
      by apply (appendToQueue_lastn _ (waitForNextSample it (filter l))).
  - exists batches. split; [|split]; [|done|done]. cbn [values]. by rewrite <- app_assoc.
Qed.

Lemma iterate_total it l :
  (forall m, reading it <> Panic m) -> exists l', iterate it l = Ok l'.
Proof.
  intros H. unfold iterate. destruct (negb (running l)); [eauto|].
  destruct (isStopped _); [eauto|]. destruct (reading it) as [v|e|m]; [|eauto|by destruct (H m)].
  destruct (_ <? _); eauto.
Qed.

(** Once stopped, nothing but the sampling time changes. *)
Lemma stopped_iterate it l l' :
  stopped (filter l) = true -> iterate it l = Ok l' ->
  stopped (filter l') = true /\ values l' = values l /\ queue (filter l') = queue (filter l) /\
  queueLength (filter l') = queueLength (filter l).
Proof.
  intros Hs H. unfold iterate in H. destruct (negb (running l)); [by inv_ok|].
  unfold isStopped in H. simpl in H. rewrite Hs in H. by inv_ok.
Qed.

Lemma run_stopped evs l :
  Forall (fun ev => match ev with Iterate it => forall m, reading it <> Panic m | DoStop => True end) evs ->
  stopped (filter l) = true ->
  exists l', run evs l = Ok l' /\ values l' = values l /\ queue (filter l') = queue (filter l) /\
             queueLength (filter l') = queueLength (filter l).
Proof.
  intros Hevs. revert l. induction Hevs as [|ev evs Hev _ IH]; intros l Hs; [by exists l|].
  cbn [run]. destruct ev as [it|]; cbn [handle].
  - destruct (iterate_total it l Hev) as [l1 H1]. rewrite H1. cbn [obind].
    destruct (stopped_iterate it l l1 Hs H1) as (Hs1 & <- & <- & <-). by apply IH.
  - cbn [obind]. destruct (IH (mkLoop (Stop (filter l)) (values l) (running l)) eq_refl)
      as (l' & ? & ? & ? & ?). by exists l'.
Qed.

Lemma run_holds evs l history batches :
  Forall (fun ev => match ev with Iterate it => forall m, reading it <> Panic m | DoStop => True end) evs ->
  0 < queueLength (filter l) -> running l = true -> stopped (filter l) = false ->
  holds history batches l ->
  exists l' batches', run evs l = Ok l' /\ queueLength (filter l') = queueLength (filter l) /\
    holds (history ++ readings evs)%list batches' l'.
Proof.
  intros Hevs. revert l history batches.
  induction Hevs as [|ev evs Hev Hevs IH]; intros l history batches Hq Hr Hs Hh.
  { exists l, batches. cbn [run readings]. by rewrite app_nil_r. }
  destruct ev as [it|]; cbn [run handle readings].
  - destruct (iterate_total it l Hev) as [l1 H1]. rewrite H1. cbn [obind].
    destruct (handle_config (Iterate it) l l1 H1) as (Hq1 & _).
    destruct (iterate_holds it l l1 history batches Hq Hr Hs Hh H1) as (Hr1 & Hs1 & b1 & Hh1).
    destruct (fun a b c => IH l1 _ b1 a b c Hh1) as (l' & b' & Hrun & Hq' & Hh'); [lia | done | done |].
    exists l', b'. split; [done|]. split; [lia|]. rewrite <- app_assoc in Hh'.
    destruct (reading it); done.
  - cbn [obind]. rewrite app_nil_r.
    destruct (run_stopped evs (mkLoop (Stop (filter l)) (values l) (running l)) Hevs eq_refl)
      as (l' & Hrun & Hv & Hqu & Hql).
    exists l', batches. split; [done|]. split; [done|]. destruct Hh as (H1 & H2 & H3).
    cbn [values filter queue queueLength Stop] in *. split; [by rewrite Hv|]. split; [done|].
    by rewrite Hqu, Hql.
Qed.

Lemma smooth_fold alpha v vs p :
  (p <= length vs)%nat -> smooth (v :: vs) p alpha = Ok (smoothed alpha (v :: take p vs)).
Proof.
  induction p as [|p IH]; intros Hp; [done|].
  destruct (lookup_lt_is_Some_2 vs p) as [x Hx]; [lia|].
  cbn [smooth].
  rewrite (index_Some (v :: vs) (S p) x) by done. rewrite IH by lia. cbn [obind].
  rewrite (take_S_r _ _ x Hx). unfold smoothed. by rewrite fold_left_app.
Qed.

Lemma exponentialSmoothing_all vs alpha :
  0 < Z.of_nat (length vs) -> exponentialSmoothing vs (Z.of_nat (length vs) - 1) alpha = Ok (smoothed alpha vs).
Proof.
  destruct vs as [|v vs]; [cbn; lia|]. intros _. unfold exponentialSmoothing. cbn [length].
  replace (Z.to_nat (Z.of_nat (S (length vs)) - 1)) with (length vs) by lia.
  rewrite smooth_fold by lia. by rewrite firstn_all.
Qed.

Lemma run_start evs e :
  Forall (fun ev => match ev with Iterate it => forall m, reading it <> Panic m | DoStop => True end) evs ->
  0 < queueLength e -> queue e = [] -> stopped e = false ->
  exists l batches, run evs (startLoop e) = Ok l /\ queueLength (filter l) = queueLength e /\
    holds (readings evs) batches l.
Proof.
  intros Hevs Hq Hqu Hs. apply (run_holds evs (startLoop e) [] []); try done.
Qed.

End Smoothing.
Arguments t F : clear implicits.
Arguments loop F : clear implicits.
Arguments iteration F : clear implicits.
Arguments event F : clear implicits.

(** ** Properties *)

Section Properties.
Context {F : Type} {arith : Arith F}.
Variable exp : F -> F.

(** C7. However samples, failures, clock readings and [Stop] interleave, the
    loop never fails, and its state is determined by the successful readings before
    the stop: they divide, in order and without loss, into non-empty batches and
    the values still pending; the queue holds the averages of the last
    [queueLength] batches; and [Read] answers [ErrNotEnoughMetrics] while there are
    fewer batches than that, else the smoothing of exactly those averages. *)
Theorem Start_Read (evs : list (event F)) (e : t F) :
  Forall (fun ev => match ev with Iterate it => forall m, reading it <> Panic m | DoStop => True end) evs ->
  0 < queueLength e -> queue e = [] -> stopped e = false ->
  exists l batches,
    run evs (startLoop e) = Ok l /\
    readings evs = (concat batches ++ values l)%list /\ Forall (fun b => b <> []) batches /\
    Read exp (filter l) =
      let n := Z.to_nat (queueLength e) in
      if (length batches <? n)%nat then Err ErrNotEnoughMetrics
      else Ok (smoothed (exp (aofInt (muli (-1) (queueLength e)))) (lastn n (map average batches))).
Proof.
  intros Hevs Hq Hqu Hs.
  destruct (run_start evs e Hevs Hq Hqu Hs) as (l & batches & Hrun & Hl & Hh & Hne & Hqueue).
  exists l, batches. split; [done|]. split; [done|]. split; [done|].
  unfold Read. rewrite Hl in *. rewrite Hqueue, lastn_length, length_map.
  cbv zeta. set (n := Z.to_nat (queueLength e)).
  destruct (Nat.ltb_spec (length batches) n) as [Hlt|Hge].
  { destruct (Z.ltb_spec (Z.of_nat (Nat.min n (length batches))) (queueLength e)); [done|lia]. }
  destruct (Z.ltb_spec (Z.of_nat (Nat.min n (length batches))) (queueLength e)); [lia|].
  replace (Z.of_nat (Nat.min n (length batches))) with (queueLength e) by lia.
  assert (length (lastn n (map average batches)) = n) as Hlen
    by (rewrite lastn_length, length_map; lia).
  destruct (lastn n (map average batches)) as [|v vs]; [cbn in Hlen; lia|]. cbn [length] in Hlen.
  unfold exponentialSmoothing. rewrite smooth_fold by lia.
  by rewrite firstn_all2 by lia.
Qed.

(** The constructor accepts exactly the configurations whose three
    parameters are usable, and then the filter starts empty, running, with the
    options applied over the defaults. *)
Theorem NewExponentialSmoothing_valid (now1 now2 len count interval : Z) :
  match NewExponentialSmoothing (F:=F) now1 now2 [WithQueueLength len; WithAverageConfig count interval] with
  | Ok e => 0 < len /\ 0 < count /\ Millisecond < interval /\
            e = mkSmoothing count interval len false [] now1 now2
  | Err _ => len <= 0 \/ count <= 0 \/ interval <= Millisecond
  | Panic _ => False
  end.
Proof.
  unfold NewExponentialSmoothing. cbn -[Z.leb Millisecond].
  destruct (Z.leb_spec len 0); [by left|]. destruct (Z.leb_spec count 0); [by right; left|].
  destruct (Z.leb_spec interval Millisecond); [by right; right|]. auto.
Qed.

(** If sleeping takes at least the time asked for, two samples of a valid
    filter are at least the integral part of [averageInterval / averageLength]
    apart. *)
Theorem sample_spacing (it : iteration F) (e : t F) :
  wf e -> is_i64 (averageInterval e) -> lastSampleTime e <= nowBefore it ->
  nowBefore it <= nowAfter it ->
  (0 < timeToWait e (nowBefore it) -> nowBefore it + timeToWait e (nowBefore it) <= nowAfter it) ->
  averageInterval e - averageLength e <
    (lastSampleTime (waitForNextSample it e) - lastSampleTime e) * averageLength e.
Proof.
  intros (_ & Hn & Hi) H64 Hnow Hmono Hsleep. unfold is_i64 in H64. cbn [waitForNextSample setSampleTime lastSampleTime].
  unfold timeToWait, saturate, timeBetweenSamples in Hsleep.
  pose proof (Z.quot_rem' (averageInterval e) (averageLength e)) as Hqr.
  assert (0 < Millisecond) by done.
  pose proof (Z.rem_bound_pos (averageInterval e) (averageLength e)) as Hr.
  assert (0 <= Z.quot (averageInterval e) (averageLength e) <= averageInterval e) as Hqb.
  { split; [apply Z.quot_pos; lia|]. apply Z.quot_le_upper_bound; [lia|]. nia. }
  assert (Z.quot (averageInterval e) (averageLength e) <= nowAfter it - lastSampleTime e) as Hge by lia.
  nia.
Qed.

End Properties.

Lemma smoothed_bounds alpha lo hi (vs : list Q) :
  (0 <= alpha <= 1)%Q -> vs <> [] -> Forall (fun v => (lo <= v <= hi)%Q) vs -> (lo <= smoothed alpha vs <= hi)%Q.
Proof.
  intros Ha Hne Hb. destruct vs as [|v vs]; [done|]. apply list.Forall_cons_1 in Hb as [Hv Hvs].
  clear Hne. unfold smoothed. revert v Hv.
  induction Hvs as [|x vs Hx _ IH]; intros v Hv; [done|]. cbn [fold_left].
  apply IH. cbn [aadd amul asub aone Q_arith]. split; nra.
Qed.

(** In exact arithmetic the smoothing of a non-empty queue is a weighted mean: for a
    factor between 0 and 1 it lies between any bounds of the queue. *)
Theorem smoothed_between (alpha lo hi : Q) (vs : list Q) :
  (0 <= alpha <= 1)%Q -> vs <> [] -> Forall (fun v => (lo <= v <= hi)%Q) vs ->
  exists r, exponentialSmoothing vs (Z.of_nat (length vs) - 1) alpha = Ok r /\ (lo <= r <= hi)%Q.
Proof.
  intros Ha Hne Hb. exists (smoothed alpha vs). split; [|by apply smoothed_bounds].
  apply exponentialSmoothing_all. destruct vs; [done|cbn; lia].
Qed.

Definition exampleIteration (now v : Z) : iteration Q :=
  mkIteration now now (Ok (inject_Z v)) now now.

Definition exampleFilter : t Q := mkSmoothing 2 (2 * Millisecond) 1 false [] 0 0.

Lemma Start_Read_witness :
  exists l batches,
    run [Iterate (exampleIteration 1000000 3); Iterate (exampleIteration 3000000 5)]
      (startLoop exampleFilter) = Ok l /\
    [3%Q; 5%Q] = (concat batches ++ values l)%list /\ Forall (fun b => b <> []) batches /\
    Read (fun x => x) (filter l) =
      let n := 1%nat in
      if (length batches <? n)%nat then Err ErrNotEnoughMetrics
      else Ok (smoothed (aofInt (muli (-1) 1)) (lastn n (map average batches))).
Proof.
  apply (Start_Read (fun x : Q => x)
           [Iterate (exampleIteration 1000000 3); Iterate (exampleIteration 3000000 5)] exampleFilter);
    [repeat constructor; done | done | done | done].
Defined.

(** The two samples of the witness do make one batch, whose average is read. *)
Example exampleFilter_read :
  (let! l := run [Iterate (exampleIteration 1000000 3); Iterate (exampleIteration 3000000 5)]
               (startLoop exampleFilter) in Read (fun x => x) (filter l)) = Ok (8 # 2)%Q.
Proof. reflexivity. Qed.

Lemma sample_spacing_witness :
  2000000 - 2 < (lastSampleTime (waitForNextSample (exampleIteration 1000000 3) exampleFilter) - 0) * 2.
Proof.
  apply (sample_spacing (exampleIteration 1000000 3) exampleFilter); try done.
Defined.

Lemma smoothed_between_witness :
  exists r, exponentialSmoothing [1%Q; 3%Q] 1 (1 # 2)%Q = Ok r /\ (1 <= r <= 3)%Q.
Proof.
  apply (smoothed_between (1 # 2)%Q 1%Q 3%Q [1%Q; 3%Q]); [done | done |].
  repeat constructor; done.
Defined.

End Filters.
