(* ===== verification/Smoothing.v ===== *)
(** * filters/: the smoothed queue length in floating point

    [Filters] says which float the filter computes, for any arithmetic.  Here the two
    arithmetics are compared: what [Read] answers in float64 is within a bounded
    distance of what the same recursion computes of the exact means of the readings,
    which is a weighted mean of them. *)
From S2P Require Import Prelude GoFloat GoTime FloatBounds NumberText Rounding Filters.
From Stdlib Require Import QArith Qabs Lqa.
#[local] Open Scope Z_scope.

Module Smoothing.
Import Filters.

(** ** Sums of integers are exact *)

Lemma fadd_exactly a b x y :
  0 <= a -> 0 <= b -> a + b < 2 ^ 53 -> exactly a x -> exactly b y -> exactly (a + b) (fadd x y).
Proof.
  intros Ha Hb Hs Hx Hy.
  destruct x as [| | |sx mx ex]; cbn in Hx; [| done..|]; destruct y as [| | |sy my ey]; cbn in Hy; try done.
  - destruct Hx as [-> ->]. by destruct Hy as [-> ->].
  - by destruct Hx as [-> ->].
  - destruct Hy as [-> ->]. by rewrite Z.add_0_r.
  - destruct Hx as (-> & Hex & Hmx). destruct Hy as (-> & Hey & Hmy).
    unfold fadd. cbn [SFadd cond_Zopp].
    destruct (shl_align_le mx ex (Z.min ex ey) ltac:(lia)) as (px & -> & Hpx).
    destruct (shl_align_le my ey (Z.min ex ey) ltac:(lia)) as (py & -> & Hpy). cbn [fst].
    apply normalize_exactly; [lia|lia|]. rewrite Z.mul_add_distr_r. f_equal.
    + rewrite Hpx, Hmx, <- Z.mul_assoc, <- Z.pow_add_r by lia. do 2 f_equal. lia.
    + rewrite Hpy, Hmy, <- Z.mul_assoc, <- Z.pow_add_r by lia. do 2 f_equal. lia.
Qed.

Lemma exactly_value k x : exactly k x -> (fvalue x == inject_Z k)%Q.
Proof.
  destruct x as [s| | |s p e]; cbn [exactly]; try done; [by intros [_ ->]|].
  intros (-> & He & Hp). rewrite fvalue_pow2, Hp, inject_Z_mult, <- pow2_Z, <- Qmult_assoc, <- pow2_plus by lia.
  replace (- e + e) with 0 by lia. change (pow2 0) with 1%Q. ring.
Qed.

Lemma exactly_nonneg_float k x : isFloat64 x = true -> exactly k x -> nonneg x.
Proof. intros Hv H. split; [done|]. destruct x; cbn in H; try done; by destruct H. Qed.

Lemma of_int_nonneg k : 0 <= k < 2 ^ 53 -> nonneg (of_int k) /\ (fvalue (of_int k) == inject_Z k)%Q.
Proof.
  intros Hk. pose proof (of_int_exactly k Hk) as He. split; [|by apply exactly_value].
  by apply (exactly_nonneg_float k), He; apply of_int_valid.
Qed.

Definition total (ks : list Z) : Z := fold_left Z.add ks 0.

Lemma total_fold ks a : fold_left Z.add ks a = a + total ks.
Proof.
  unfold total. revert a. induction ks as [|k ks IH]; intros a; cbn [fold_left]; [lia|].
  rewrite (IH (a + k)), (IH (0 + k)). lia.
Qed.

Lemma total_cons k ks : total (k :: ks) = k + total ks.
Proof. unfold total at 1. cbn [fold_left]. rewrite total_fold. lia. Qed.

Lemma total_bounds hi ks : Forall (fun k => 0 <= k <= hi) ks -> 0 <= total ks <= Z.of_nat (length ks) * hi.
Proof.
  induction 1 as [|k ks Hk _ IH]; [cbn; lia|]. rewrite total_cons. cbn [length]. lia.
Qed.

Lemma sum_exactly ks a x :
  Forall (fun k => 0 <= k) ks -> 0 <= a -> a + total ks < 2 ^ 53 -> exactly a x -> isFloat64 x = true ->
  exactly (a + total ks) (fold_left fadd (map of_int ks) x) /\ isFloat64 (fold_left fadd (map of_int ks) x) = true.
Proof.
  intros Hks. revert a x. induction Hks as [|k ks Hk Hks IH]; intros a x Ha Hs Hx Hv; cbn [map fold_left].
  { by rewrite Z.add_0_r. }
  rewrite total_cons in *. pose proof (total_bounds (total ks) ks) as Hb.
  assert (0 <= total ks) as Ht.
  { clear -Hks. induction Hks as [|k ks Hk _ IH]; [done|]. rewrite total_cons. lia. }
  replace (a + (k + total ks)) with (a + k + total ks) by lia. apply IH; [lia|lia| |].
  - apply fadd_exactly; [done|done|lia|done|]. apply of_int_exactly. lia.
  - by apply fadd_valid, of_int_valid.
Qed.

(** The exact mean of a batch. *)
Definition mean (ks : list Z) : Q := (inject_Z (total ks) / inject_Z (Z.of_nat (length ks)))%Q.

Lemma mean_bounds lo hi ks :
  ks <> [] -> Forall (fun k => lo <= k <= hi) ks -> (inject_Z lo <= mean ks <= inject_Z hi)%Q.
Proof.
  intros Hne Hks. assert (Z.of_nat (length ks) * lo <= total ks <= Z.of_nat (length ks) * hi) as [H1 H2].
  { clear Hne. induction Hks as [|k ks Hk _ IH]; [cbn; lia|]. rewrite total_cons. cbn [length]. lia. }
  assert (0 < inject_Z (Z.of_nat (length ks)))%Q as Hl.
  { rewrite <- (Zlt_Qlt 0). destruct ks; [done|cbn; lia]. }
  rewrite Zle_Qle, inject_Z_mult in H1, H2. unfold mean.
  split; [apply Qle_shift_div_l|apply Qle_shift_div_r]; lra.
Qed.

(** The average of a batch of integers, rounded once. *)
Lemma average_rounds hi ks :
  ks <> [] -> Forall (fun k => 0 <= k <= hi) ks -> Z.of_nat (length ks) * hi < 2 ^ 53 -> Z.of_nat (length ks) < 2 ^ 53 ->
  rounds (mean ks) (average (map of_int ks)).
Proof.
  intros Hne Hks Hlt Hlen. pose proof (total_bounds hi ks Hks) as Ht.
  destruct (sum_exactly ks 0 fzero) as [He Hv]; [by eapply list.Forall_impl; [exact Hks|cbn; lia] | lia | lia | done | done |].
  rewrite Z.add_0_l in He. unfold average. cbn [aadd adiv azero aofInt float64_arith]. rewrite length_map.
  destruct (of_int_nonneg (Z.of_nat (length ks)) ltac:(lia)) as [Hn Hnv].
  assert (0 < Z.of_nat (length ks)) as Hpos by (destruct ks; [done|cbn; lia]).
  pose proof (mean_bounds 0 hi ks Hne Hks) as [_ Hm].
  assert (mean ks == fvalue (fold_left fadd (map of_int ks) fzero) / fvalue (of_int (Z.of_nat (length ks))))%Q as E.
  { unfold mean. by rewrite (exactly_value _ _ He), Hnv. }
  rewrite E in *. apply fdiv_rounds; [by eapply exactly_nonneg_float|done| |].
  - rewrite Hnv. by rewrite <- (Zlt_Qlt 0).
  - eapply Qle_trans; [exact Hm|]. rewrite (pow2_Z 1000) by lia. rewrite <- Zle_Qle.
    assert (hi <= 2 ^ 53) by nia. assert (2 ^ 53 <= 2 ^ 1000) by (by apply Z.pow_le_mono_r). lia.
Qed.

(** ** One step of the recursion *)

(** [2 ^ -49], in which the error of a step is counted. *)
Definition step64 : Q := 1 # 562949953421312.

Lemma tiny64_small : (tiny64 <= 1 # 1267650600228229401496703205376)%Q.
Proof. vm_compute. discriminate. Qed.

(** The float recursion stays within [k] steps of the exact one. *)
Definition closeBy (k hi : Q) (r : float64) (q : Q) : Prop :=
  nonneg r /\ (q - k * step64 * hi <= fvalue r <= q + k * step64 * hi)%Q.

Lemma rounds_within X B x : (0 <= X <= B)%Q -> (1 <= B)%Q -> rounds X x ->
  nonneg x /\ (X - (101 # 900719925474099200) * B <= fvalue x <= X + (101 # 900719925474099200) * B)%Q.
Proof.
  intros HX HB [Hn H]. split; [done|]. pose proof tiny64_small. change unit64 with (1 # 9007199254740992)%Q in H. lra.
Qed.

Lemma scaled_bounds a b c D : (0 <= a <= c)%Q -> (- D <= b <= D)%Q -> (- (c * D) <= a * b <= c * D)%Q.
Proof.
  intros Ha Hb. split; nra.
Qed.

Lemma fone_value : nonneg fone /\ (fvalue fone == 1)%Q.
Proof. by apply (of_int_nonneg 1). Qed.

Lemma smooth_step k hi alpha x r q y :
  (0 <= k <= 1099511627776)%Q -> (1 <= hi <= pow2 900)%Q -> nonneg alpha -> (fvalue alpha <= 1)%Q ->
  nonneg x -> (y - (1 # 2251799813685248) * hi <= fvalue x <= y + (1 # 2251799813685248) * hi)%Q ->
  (0 <= y <= hi)%Q -> (0 <= q <= hi)%Q -> closeBy k hi r q ->
  closeBy (k + 1) hi (fadd (fmul alpha x) (fmul (fsub fone alpha) r)) (fvalue alpha * y + (1 - fvalue alpha) * q).
Proof.
  intros Hk [Hhi Hmax] Ha Ha1 Hx Hxy Hy Hq [Hr Hrq].
  pose proof (nonneg_value _ Ha) as Ha0. pose proof (nonneg_value _ Hx) as Hx0. pose proof (nonneg_value _ Hr) as Hr0.
  destruct fone_value as [H1 V1].
  assert (pow2 900 * 4 <= pow2 1000)%Q as Hhuge by (vm_compute; discriminate).
  assert (0 <= k * step64 * hi <= (1 # 512) * hi)%Q as HK.
  { change step64 with (1 # 562949953421312)%Q. nra. }
  set (K := (k * step64 * hi)%Q) in *.
  assert ((k + 1) * step64 * hi == K + (1 # 562949953421312) * hi)%Q as HK1 by (unfold K; change step64 with (1 # 562949953421312)%Q; ring).
  clearbody K. set (a := fvalue alpha) in *.
  (* alpha * x *)
  assert (0 <= a * fvalue x <= (101 # 100) * hi)%Q as Hax by nra.
  destruct (rounds_within (a * fvalue x) ((101 # 100) * hi) (fmul alpha x)) as [N1 E1]; [done|lra|apply fmul_rounds; (done || (fold a; lra))|].
  assert (- (1 * ((1 # 2251799813685248) * hi)) <= a * (fvalue x - y) <= 1 * ((1 # 2251799813685248) * hi))%Q as Hay
    by (apply scaled_bounds; lra).
  (* 1 - alpha *)
  destruct (rounds_within (fvalue fone - a) 1 (fsub fone alpha)) as [N2 E2]; [lra|lra|apply fsub_rounds; (done || (fold a; lra))|].
  rewrite V1 in E2. set (s := fvalue (fsub fone alpha)) in *. pose proof (nonneg_value _ N2) as Hs0. fold s in Hs0.
  (* (1 - alpha) * r *)
  assert (0 <= s * fvalue r <= (11 # 10) * hi)%Q as Hsr by nra.
  destruct (rounds_within (s * fvalue r) ((11 # 10) * hi) (fmul (fsub fone alpha) r)) as [N3 E3]; [done|lra|apply fmul_rounds; (done || (fold s; lra))|].
  assert (- ((101 # 100) * hi * (101 # 900719925474099200)) <= fvalue r * (s - (1 - a)) <= (101 # 100) * hi * (101 # 900719925474099200))%Q as Hsa
    by (apply scaled_bounds; lra).
  assert (- (1 * K) <= (1 - a) * (fvalue r - q) <= 1 * K)%Q as Hrq' by (apply scaled_bounds; lra).
  (* the sum *)
  pose proof (nonneg_value _ N1) as P1. pose proof (nonneg_value _ N3) as P3.
  destruct (rounds_within (fvalue (fmul alpha x) + fvalue (fmul (fsub fone alpha) r)) ((5 # 2) * hi)
    (fadd (fmul alpha x) (fmul (fsub fone alpha) r))) as [N4 E4]; [lra|lra|apply fadd_rounds; (done || lra)|].
  split; [done|]. rewrite HK1.
  assert (a * (fvalue x - y) == a * fvalue x - a * y)%Q as R1 by ring. rewrite R1 in Hay.
  assert (fvalue r * (s - (1 - a)) + (1 - a) * (fvalue r - q) == s * fvalue r - (1 - a) * q)%Q as R2 by ring.
  set (A1 := (a * y)%Q) in *. set (A2 := ((1 - a) * q)%Q) in *. set (A3 := (a * fvalue x)%Q) in *.
  set (A4 := (s * fvalue r)%Q) in *. set (A5 := (fvalue r * (s - (1 - a)))%Q) in *. set (A6 := ((1 - a) * (fvalue r - q))%Q) in *.
  clearbody A1 A2 A3 A4 A5 A6. lra.
Qed.

(** ** The whole recursion *)

Definition floatStep (alpha : float64) (acc x : float64) : float64 := fadd (fmul alpha x) (fmul (fsub fone alpha) acc).
Definition exactStep (alpha : Q) (acc y : Q) : Q := (alpha * y + (1 - alpha) * acc)%Q.

(** A computed average and the exact mean. *)
Definition averageOf (hi : Q) (x : float64) (y : Q) : Prop :=
  nonneg x /\ (y - (1 # 2251799813685248) * hi <= fvalue x <= y + (1 # 2251799813685248) * hi)%Q /\ (0 <= y <= hi)%Q.

Lemma fold_close hi alpha xs ys k r q :
  (0 <= k)%Q -> (k + inject_Z (Z.of_nat (length xs)) <= 1099511627776)%Q -> (1 <= hi <= pow2 900)%Q ->
  nonneg alpha -> (fvalue alpha <= 1)%Q -> Forall2 (averageOf hi) xs ys -> (0 <= q <= hi)%Q -> closeBy k hi r q ->
  closeBy (k + inject_Z (Z.of_nat (length xs))) hi (fold_left (floatStep alpha) xs r) (fold_left (exactStep (fvalue alpha)) ys q).
Proof.
  intros Hk Hn Hhi Ha Ha1 H. pose proof (nonneg_value _ Ha) as Ha0. revert k r q Hk Hn.
  induction H as [|x y xs ys (Hx & Hxy & Hy) _ IH]; intros k r q Hk Hn Hq Hr.
  - cbn [fold_left length]. destruct Hr as [N E]. split; [done|]. change (inject_Z (Z.of_nat 0)) with 0%Q.
    assert ((k + 0) * step64 * hi == k * step64 * hi)%Q as -> by ring. done.
  - cbn [fold_left length] in *. rewrite Nat2Z.inj_succ in *. unfold Z.succ in *.
    rewrite inject_Z_plus in *. change (inject_Z 1) with 1%Q in *.
    assert (0 <= inject_Z (Z.of_nat (length xs)))%Q as Hl by (rewrite <- (Zle_Qle 0); lia).
    assert (forall r' q', closeBy (k + 1 + inject_Z (Z.of_nat (length xs))) hi r' q' ->
                closeBy (k + (inject_Z (Z.of_nat (length xs)) + 1)) hi r' q') as Hassoc.
    { intros r' q' [N E]. split; [done|].
      assert ((k + (inject_Z (Z.of_nat (length xs)) + 1)) * step64 * hi == (k + 1 + inject_Z (Z.of_nat (length xs))) * step64 * hi)%Q as -> by ring. done. }
    apply Hassoc, IH; [lra|lra| |].
    + unfold exactStep. split; nra.
    + apply smooth_step; (done || lra).
Qed.

Lemma smoothed_close hi alpha xs ys :
  xs <> [] -> Z.of_nat (length xs) <= 2 ^ 40 -> (1 <= hi <= pow2 900)%Q -> nonneg alpha -> (fvalue alpha <= 1)%Q ->
  Forall2 (averageOf hi) xs ys ->
  closeBy (inject_Z (Z.of_nat (length xs))) hi (smoothed alpha xs) (smoothed (fvalue alpha) ys).
Proof.
  intros Hne Hlen Hhi Ha Ha1 H. destruct H as [|x y xs ys (Hx & Hxy & Hy) H]; [done|]. cbn [length] in *.
  assert (Z.of_nat (S (length xs)) = 1 + Z.of_nat (length xs)) as -> by lia. rewrite inject_Z_plus. change (inject_Z 1) with 1%Q.
  apply (fold_close hi alpha xs ys 1 x y); try done.
  - assert (Z.of_nat (length xs) <= 2 ^ 40 - 1) as Hl by lia.
    rewrite Zle_Qle in Hl. change (inject_Z (2 ^ 40 - 1)) with (1099511627775 # 1)%Q in Hl. lra.
  - split; [done|]. change step64 with (1 # 562949953421312)%Q. lra.
Qed.

(** ** Events with the readings as integers *)

Definition mapReading {F G} (f : F -> G) (o : outcome F) : outcome G :=
  match o with Ok x => Ok (f x) | Err e => Err e | Panic m => Panic m end.

Definition mapIteration {F G} (f : F -> G) (it : iteration F) : iteration G :=
  mkIteration (nowBefore it) (nowAfter it) (mapReading f (reading it)) (nowTest it) (nowAverage it).

Definition mapEvent {F G} (f : F -> G) (ev : event F) : event G :=
  match ev with Iterate it => Iterate (mapIteration f it) | DoStop => DoStop end.

Lemma readings_map {F G} (f : F -> G) evs : readings (map (mapEvent f) evs) = map f (readings evs).
Proof.
  induction evs as [|[it|] evs IH]; [done| |done]. cbn [map mapEvent readings mapIteration reading].
  rewrite IH. by destruct (reading it).
Qed.

Lemma concat_map_split {A B} (f : A -> B) (bs : list (list B)) vs ks :
  map f ks = (concat bs ++ vs)%list ->
  exists zs rest, ks = (concat zs ++ rest)%list /\ bs = map (map f) zs /\ vs = map f rest.
Proof.
  revert ks. induction bs as [|b bs IH]; intros ks H; cbn [concat] in H.
  - exists [], ks. done.
  - rewrite <- app_assoc in H. apply map_eq_app in H as (k1 & k2 & -> & <- & H).
    destruct (IH k2 H) as (zs & rest & -> & -> & ->). exists (k1 :: zs), rest. cbn. by rewrite app_assoc.
Qed.

Lemma lastn_map {A B} n (f : A -> B) l : lastn n (map f l) = map f (lastn n l).
Proof. unfold lastn. by rewrite length_map, skipn_map. Qed.

(** ** What the filter holds stays finite

    The readings are 64-bit counters: below [2 ^ 52] of them in a batch, nothing
    overflows, and every element of the queue is a finite number. *)

Lemma of_int_u64 k : is_u64 k -> nonneg (of_int k) /\ (fvalue (of_int k) <= pow2 65)%Q.
Proof.
  intros [H0 H1]. assert (inject_Z k * pow2 0 <= pow2 64)%Q as Hk.
  { change (pow2 0) with 1%Q. rewrite Qmult_1_r, pow2_Z by lia. rewrite <- Zle_Qle. lia. }
  destruct (normalize_rounds k 0) as [Hn [_ Hv]]; [lia| |].
  { eapply Qle_trans; [exact Hk|]. by apply pow2_mono. }
  split; [exact Hn|]. eapply Qle_trans; [exact Hv|].
  assert (pow2 64 + ((1 # 9007199254740992) * pow2 64 + tiny64) <= pow2 65)%Q by (vm_compute; discriminate).
  change unit64 with (1 # 9007199254740992)%Q. lra.
Qed.

Definition saneSum (j : Z) (x : float64) : Prop := nonneg x /\ (fvalue x <= inject_Z j * pow2 67)%Q.

Lemma saneSum_step j x k :
  0 <= j < 2 ^ 52 -> saneSum j x -> is_u64 k -> saneSum (j + 1) (fadd x (of_int k)).
Proof.
  intros Hj [Hn Hx] Hk. destruct (of_int_u64 k Hk) as [Nk Vk].
  assert (inject_Z j <= 4503599627370496 # 1)%Q as Hq by (change (4503599627370496 # 1)%Q with (inject_Z (2 ^ 52)); rewrite <- Zle_Qle; lia).
  assert (0 <= inject_Z j)%Q as Hq0 by (rewrite <- (Zle_Qle 0); lia).
  assert (pow2 65 == (1 # 4) * pow2 67)%Q as E by (vm_compute; reflexivity). pose proof (pow2_pos 67) as P67.
  assert (inject_Z j * pow2 67 <= (4503599627370496 # 1) * pow2 67)%Q as Hjp by nra.
  assert ((4503599627370497 # 1) * pow2 67 <= pow2 1000)%Q as Hm by (vm_compute; discriminate).
  assert (tiny64 <= (1 # 9007199254740992) * pow2 67)%Q as Ht by (vm_compute; discriminate).
  destruct (fadd_rounds x (of_int k) Hn Nk) as [Ns [_ Hs]]; [lra|].
  split; [done|]. rewrite inject_Z_plus. change (inject_Z 1) with 1%Q.
  change unit64 with (1 # 9007199254740992)%Q in Hs.
  assert ((inject_Z j + 1) * pow2 67 == inject_Z j * pow2 67 + pow2 67)%Q as -> by ring. lra.
Qed.

Lemma saneSum_fold ks j x :
  0 <= j -> j + Z.of_nat (length ks) <= 2 ^ 52 -> saneSum j x -> Forall is_u64 ks ->
  saneSum (j + Z.of_nat (length ks)) (fold_left fadd (map of_int ks) x).
Proof.
  intros Hj Hl Hx Hks. revert j x Hj Hl Hx. induction Hks as [|k ks Hk _ IH]; intros j x Hj Hl Hx.
  - by rewrite Z.add_0_r.
  - cbn [map fold_left length] in *. rewrite Nat2Z.inj_succ in *.
    replace (j + Z.succ (Z.of_nat (length ks))) with (j + 1 + Z.of_nat (length ks)) by lia.
    apply IH; [lia|lia|]. apply saneSum_step; [lia|done|done].
Qed.

(** An element of the queue. *)
Definition saneAverage (x : float64) : Prop := nonneg x /\ (fvalue x <= pow2 120)%Q.

Lemma average_sane ks :
  ks <> [] -> Forall is_u64 ks -> Z.of_nat (length ks) <= 2 ^ 52 -> saneAverage (average (map of_int ks)).
Proof.
  intros Hne Hks Hl. destruct (saneSum_fold ks 0 fzero) as [Hn Hs]; [lia|lia| |done|].
  { split; [by split|]. cbn [fvalue fzero]. change (inject_Z 0) with 0%Q. lra. }
  rewrite Z.add_0_l in Hs. unfold average. cbn [aadd adiv azero aofInt float64_arith]. rewrite length_map.
  assert (0 < Z.of_nat (length ks)) as Hpos by (destruct ks; [done|cbn; lia]).
  set (n := Z.of_nat (length ks)) in *. destruct (of_int_nonneg n ltac:(lia)) as [Nn Vn].
  assert (inject_Z n <= 4503599627370496 # 1)%Q as Hq by (change (4503599627370496 # 1)%Q with (inject_Z (2 ^ 52)); rewrite <- Zle_Qle; lia).
  assert (1 <= inject_Z n)%Q as Hq1 by (change 1%Q with (inject_Z 1); rewrite <- Zle_Qle; lia).
  pose proof (pow2_pos 67) as P67.
  assert (fvalue (fold_left fadd (map of_int ks) fzero) / fvalue (of_int n) <= pow2 67)%Q as Hd.
  { rewrite Vn. apply Qle_shift_div_r; [lra|]. lra. }
  assert (pow2 67 <= pow2 1000)%Q as Hm by (by apply pow2_mono).
  destruct (fdiv_rounds (fold_left fadd (map of_int ks) fzero) (of_int n) Hn Nn) as [N [_ V]]; [lra|lra|].
  split; [done|]. eapply Qle_trans; [exact V|]. change unit64 with (1 # 9007199254740992)%Q.
  assert (pow2 67 + ((1 # 9007199254740992) * pow2 67 + tiny64) <= pow2 120)%Q by (vm_compute; discriminate). lra.
Qed.

(** The filter after at most [n] readings in its present batch. *)
Definition sane (n : nat) (l : loop float64) : Prop :=
  Forall saneAverage (queue (filter l)) /\
  exists ks, values l = map of_int ks /\ Forall is_u64 ks /\ (length ks <= n)%nat.

Lemma sane_iterate n it l l' :
  Z.of_nat n < 2 ^ 52 -> (forall x, reading it = Ok x -> exists k, is_u64 k /\ x = of_int k) ->
  sane n l -> iterate it l = Ok l' -> sane (S n) l'.
Proof.
  intros Hn Hread [Hq (ks & Hv & Hks & Hlen)] Hit. unfold iterate in Hit.
  destruct (negb (running l)). { inv_ok. split; [done|]. exists ks. repeat split; (done || lia). }
  destruct (isStopped _). { inv_ok. split; [done|]. exists ks. repeat split; (done || lia). }
  destruct (reading it) as [x|e|m] eqn:Er; [| |done].
  2: { inv_ok. split; [done|]. exists ks. repeat split; (done || lia). }
  destruct (Hread x eq_refl) as (k & Hk & ->).
  assert (values l ++ [of_int k] = map of_int (ks ++ [k]))%list as E by (by rewrite map_app, Hv).
  assert (Forall is_u64 (ks ++ [k])) as Hks' by (apply Forall_app; split; [done|]; constructor; [done|constructor]).
  assert (length (ks ++ [k]) = S (length ks)) as Hl' by (rewrite length_app; cbn; lia).
  rewrite E in Hit. destruct (_ <? _); inv_ok; (split; [|]).
  - cbn [filter setAverageTime queue appendToQueue setQueue waitForNextSample setSampleTime queueLength].
    assert (Forall saneAverage (queue (filter l) ++ [average (map of_int (ks ++ [k]))])) as Hall.
    { apply Forall_app. split; [done|]. constructor; [|constructor]. apply average_sane; [by destruct ks|done|lia]. }
    destruct (_ <? _); [by apply Forall_drop|done].
  - exists []. cbn. repeat split; [constructor|lia].
  - done.
  - exists (ks ++ [k])%list. repeat split; [done|lia].
Qed.

(** What [Read] answers then. *)
Lemma sane_Read n exp l x :
  sane n l -> 0 < queueLength (filter l) -> Z.of_nat (length (queue (filter l))) <= 2 ^ 40 ->
  (forall k, 0 < k -> nonneg (exp (of_int (- k))) /\ (fvalue (exp (of_int (- k))) <= 1)%Q) ->
  Read exp (filter l) = Ok x -> nonneg x.
Proof.
  intros [Hq _] Hpos Hlen Hexp H. unfold Read in H.
  destruct (Z.ltb_spec (Z.of_nat (length (queue (filter l)))) (queueLength (filter l))) as [|Hge]; [done|].
  set (q := queue (filter l)) in *. assert (muli (-1) (Z.of_nat (length q)) = - Z.of_nat (length q)) as E.
  { unfold muli. rewrite i64_small; [lia|]. unfold is_i64. lia. }
  change (aofInt (F:=float64)) with of_int in H. rewrite E in H. destruct (Hexp (Z.of_nat (length q))) as [Ha Ha1]; [lia|].
  set (alpha := exp (of_int (- Z.of_nat (length q)))) in *.
  assert (q <> []) as Hne by (intros E'; rewrite E' in Hge; cbn in Hge; lia).
  assert (x = smoothed alpha q) as ->.
  { rewrite exponentialSmoothing_all in H by lia. by inv_ok. }
  apply (smoothed_close (pow2 120) alpha q (map fvalue q)); [done|done| |done|done|].
  - split; [vm_compute; discriminate|by apply pow2_mono].
  - clear -Hq. induction Hq as [|v vs [Hn Hv] _ IH]; constructor; [|done].
    pose proof (nonneg_value _ Hn). pose proof (pow2_pos 120). split; [done|]. split; [lra|done].
Qed.

(** ** Property *)

Lemma mapEvent_total {F} (f : Z -> F) evs :
  Forall (fun ev : event Z => match ev with Iterate it => forall m, reading it <> Panic m | DoStop => True end) evs ->
  Forall (fun ev => match ev with Iterate it => forall m, reading it <> Panic m | DoStop => True end) (map (mapEvent f) evs).
Proof.
  intros H. apply List.Forall_map. eapply list.Forall_impl; [exact H|]. intros [it|]; cbn; [|done].
  intros Hp m. specialize (Hp m). destruct (reading it); naive_solver.
Qed.

(** A batch of readings below [hi], as the filter averages it. *)
Definition batchBelow (hi : Z) (b : list Z) : Prop :=
  b <> [] /\ Forall (fun k => 0 <= k <= hi) b /\ Z.of_nat (length b) * hi < 2 ^ 53.

Lemma batch_averageOf hi b :
  1 <= hi -> batchBelow hi b -> averageOf (inject_Z hi) (average (map of_int b)) (mean b).
Proof.
  intros Hhi (Hne & Hb & Hlt). destruct (mean_bounds 0 hi b Hne Hb) as [M0 M1]. change (inject_Z 0) with 0%Q in M0.
  assert (1 <= inject_Z hi)%Q as Q1 by (change 1%Q with (inject_Z 1); by rewrite <- Zle_Qle).
  destruct (rounds_within (mean b) (inject_Z hi) (average (map of_int b))) as [Hn E]; [done|done|apply (average_rounds hi); (done || nia)|].
  split; [done|]. split; [lra|done].
Qed.

(** C36. The smoothed queue length in floating point: when the readings are integers
    up to [hi], for every interleaving of samples, failures and [Stop], [Read] answers
    [ErrNotEnoughMetrics] or a finite float64 that is within [2 ^ -49 * hi] for each
    element of the queue of the same recursion computed exactly, with the same factor,
    on the exact means of the last batches; and that exact number is between any
    bounds of the readings. *)
Theorem Read_accurate (exp : float64 -> float64) (evs : list (event Z)) (e : t float64) (hi : Z) :
  Forall (fun ev : event Z => match ev with Iterate it => forall m, reading it <> Panic m | DoStop => True end) evs ->
  0 < queueLength e <= 2 ^ 40 -> queue e = [] -> stopped e = false -> 1 <= hi ->
  let alpha := exp (of_int (muli (-1) (queueLength e))) in
  nonneg alpha -> (fvalue alpha <= 1)%Q ->
  exists l batches rest,
    run (map (mapEvent of_int) evs) (startLoop e) = Ok l /\ readings evs = (concat batches ++ rest)%list /\
    let window := lastn (Z.to_nat (queueLength e)) batches in
    let exact := smoothed (fvalue alpha) (map mean window) in
    if (length batches <? Z.to_nat (queueLength e))%nat then Read exp (filter l) = Err ErrNotEnoughMetrics
    else Forall (batchBelow hi) window ->
      exists r, Read exp (filter l) = Ok r /\ isFloat64 r = true /\ is_finite r = true /\
        (Qabs (fvalue r - exact) <= inject_Z (queueLength e) * step64 * inject_Z hi)%Q /\
        forall lo up, Forall (Forall (fun k => lo <= k <= up)) window -> (inject_Z lo <= exact <= inject_Z up)%Q.
Proof.
  intros Hevs Hq Hqu Hst Hhi alpha Ha Ha1.
  destruct (Start_Read exp (map (mapEvent of_int) evs) e) as (l & bs & Hrun & Hsplit & Hne & Hread);
    [by apply mapEvent_total | lia | done | done |].
  rewrite readings_map in Hsplit. apply concat_map_split in Hsplit as (batches & rest & Hbr & -> & _).
  exists l, batches, rest. split; [done|]. split; [done|]. cbv zeta in *. rewrite Hread, length_map.
  destruct (Nat.ltb_spec (length batches) (Z.to_nat (queueLength e))) as [|Hlen]; [done|].
  set (window := lastn (Z.to_nat (queueLength e)) batches). intros Hw.
  assert (length window = Z.to_nat (queueLength e)) as Hwl by (unfold window; rewrite lastn_length; lia).
  assert (window <> []) as Hwne by (intros E; rewrite E in Hwl; cbn in Hwl; lia).
  rewrite map_map, lastn_map. change (aofInt (muli (-1) (queueLength e))) with (of_int (muli (-1) (queueLength e))).
  fold alpha. fold window.
  destruct (Z.le_gt_cases hi (2 ^ 53)) as [Hh|Hh].
  2: { exfalso. destruct window as [|b w]; [done|]. apply list.Forall_cons_1 in Hw as [(Hb & _ & Hlt) _].
       destruct b; [done|]. cbn [length] in Hlt. nia. }
  destruct (smoothed_close (inject_Z hi) alpha (map (fun b => average (map of_int b)) window) (map mean window)) as [Hn Hc]; try done.
  { by intros E%map_eq_nil. }
  { rewrite length_map. lia. }
  { split; [change 1%Q with (inject_Z 1); by rewrite <- Zle_Qle|]. rewrite pow2_Z by lia. rewrite <- Zle_Qle. assert (2 ^ 53 <= 2 ^ 900) by (by apply Z.pow_le_mono_r). lia. }
  { clear -Hw Hhi. induction Hw; constructor; [by apply batch_averageOf|done]. }
  exists (smoothed alpha (map (fun b => average (map of_int b)) window)). split; [done|].
  split; [apply Hn|]. split; [by apply nonneg_finite|]. rewrite length_map, Hwl, Z2Nat.id in Hc by lia. split.
  { apply Qabs_Qle_condition. lra. }
  intros lo up Hb. apply smoothed_bounds; [split; [by apply nonneg_value|done]|by destruct window|].
  apply List.Forall_map. rewrite Forall_forall in Hb |- *. rewrite Forall_forall in Hw. intros b Hin.
  apply mean_bounds; [by apply Hw|by apply Hb].
Qed.

(** ** Witness *)

Definition exampleIteration (now k : Z) : iteration Z := mkIteration now now (Ok k) now now.

Definition exampleFilter : t float64 := mkSmoothing 2 (2 * Millisecond) 1 false [] 0 0.

Definition exampleEvents : list (event Z) := [Iterate (exampleIteration 1000000 3); Iterate (exampleIteration 3000000 4)].

Definition exampleAlpha : float64 := GoFloat.of_decimal 37 (-2).

Lemma Read_accurate_witness :
  exists l batches rest,
    run (map (mapEvent of_int) exampleEvents) (startLoop exampleFilter) = Ok l /\ [3; 4] = (concat batches ++ rest)%list /\
    let window := lastn 1 batches in
    let exact := smoothed (fvalue exampleAlpha) (map mean window) in
    if (length batches <? 1)%nat then Read (fun _ => exampleAlpha) (filter l) = Err ErrNotEnoughMetrics
    else Forall (batchBelow 4) window ->
      exists r, Read (fun _ => exampleAlpha) (filter l) = Ok r /\ isFloat64 r = true /\ is_finite r = true /\
        (Qabs (fvalue r - exact) <= inject_Z 1 * step64 * inject_Z 4)%Q /\
        forall lo up, Forall (Forall (fun k => lo <= k <= up)) window -> (inject_Z lo <= exact <= inject_Z up)%Q.
Proof.
  apply (Read_accurate (fun _ => exampleAlpha) exampleEvents exampleFilter 4);
    [repeat constructor; done | done | done | done | done | split; reflexivity | vm_compute; discriminate].
Defined.

(** The queue of the witness is full, and its answer is exact. *)
Example exampleFilter_smoothed :
  (let! l := run (map (mapEvent of_int) exampleEvents) (startLoop exampleFilter) in Read (fun _ => exampleAlpha) (filter l))
  = Ok (GoFloat.of_decimal 35 (-1)).
Proof. vm_compute. reflexivity. Qed.

End Smoothing.
