(* ===== verification/Docker.v ===== *)
(** * docker/: the container list and the stream of container events

    The goroutines of [ContainerRepositoryImpl] as a transition system: the
    listener and its pumps (one per connection to docker), the broadcaster, and
    one goroutine per registration that sends the containers already running.
    A send on a channel of capacity 1 is possible when its buffer is empty; a
    direct hand-over to a waiting receiver is the send followed by the receive.
    Fields marked history record what happened and are never tested. *)
From S2P Require Import Prelude GoTime Config.

Record ContainerEvent : Type := mkEvent { ContainerID : string; Action : string }.

Definition ContainerActionStart : string := "start".
Definition ContainerActionStop : string := "stop".

#[export] Instance ContainerEvent_eq_dec : EqDecision ContainerEvent.
Proof. solve_decision. Defined.

(** The part of [container.Summary] the program reads. *)
Record Summary : Type := mkSummary { ID : string; Labels : gmap string string }.

(** The docker client: its construction, and the list of running containers. *)
Class DockerLib : Type := {
  dockerHandle : Type;
  dockerNew : string -> outcome dockerHandle;
  containerList : dockerHandle -> outcome (list Summary) }.

Module Docker.

Section Listing.
Context {lib : DockerLib}.
Variable config : Config.t.

Definition Client : outcome dockerHandle :=
  wrapMsg "create docker client" (dockerNew (mapget "" (Config.env config) "DOCKER_URL")).

Definition ListContainers : outcome (list Summary) :=
  let! c := wrapMsg "get docker client" Client in
  wrapMsg "list docker containers" (containerList c).

End Listing.

(** ** The repository *)

(** A registration: its channel, and the goroutine that sends the initial
    containers ([None] while it lists them). *)
Record registration : Type := mkRegistration {
  buf : list ContainerEvent;
  pending : option (list ContainerEvent);
  received : list ContainerEvent;      (* history: what the consumer took *)
  initialSent : list ContainerEvent;   (* history *)
  liveSent : list ContainerEvent;      (* history *)
  since : nat                          (* history: length of [log] at registration *) }.

(** The goroutine that ranges over [eventsChan]: the channels still to send to. *)
Inductive broadcaster : Type :=
| Idle
| Locking (c : ContainerEvent)
| Sending (c : ContainerEvent) (rest : list nat).

(** [listenToDockerEvents]: waiting for an error, asleep, or returned. *)
Inductive listener : Type :=
| Listening
| Backoff (d : Z)
| Returned.

Record state : Type := mkState {
  phase : listener;
  pumps : list (option ContainerEvent);  (* what each pump goroutine holds *)
  bcast : broadcaster;
  registered : list registration;
  log : list ContainerEvent              (* history: the events broadcast so far *) }.

(** [NewContainerRepository] and [StartListeningToNewContainers], with the answer
    of [Client]: an error ends the listener, and nothing looks at it. *)
Definition StartListeningToNewContainers {A} (client : outcome A) : state :=
  mkState (match client with Ok _ => Backoff 0 | _ => Returned end) [] Idle [] [].

(** How long the listener sleeps after an error of the events stream. *)
Inductive streamError : Type := StreamClosed | StreamEOF | StreamUnexpectedEOF | StreamOther.

Definition reconnectDelay (err : streamError) : Z :=
  match err with
  | StreamEOF | StreamUnexpectedEOF => 250 * Millisecond
  | StreamOther => 5 * Second
  | StreamClosed => 0
  end.

Inductive label : Type :=
| Connect                                        (* Events, and a new pump *)
| Message (e : ContainerEvent)                   (* the newest pump gets a message *)
| StreamError (err : streamError)                (* <-eventsResult.Err *)
| Handoff (i : nat)                              (* events <- c, received by the broadcaster *)
| Lock
| SendLive
| Unlock
| RegisterToContainersStream
| Listed (k : nat) (containers : outcome (list Summary))
| SendInitial (k : nat)
| Consume (k : nat).

Definition setBuf (b : list ContainerEvent) (r : registration) : registration :=
  mkRegistration b (pending r) (received r) (initialSent r) (liveSent r) (since r).

Definition sendLive (c : ContainerEvent) (r : registration) : registration :=
  mkRegistration (buf r ++ [c])%list (pending r) (received r) (initialSent r) (liveSent r ++ [c])%list (since r).

Definition sendInitial (c : ContainerEvent) (cs : list ContainerEvent) (r : registration) : registration :=
  mkRegistration (buf r ++ [c])%list (Some cs) (received r) (initialSent r ++ [c])%list (liveSent r) (since r).

Definition consume (c : ContainerEvent) (b : list ContainerEvent) (r : registration) : registration :=
  mkRegistration b (pending r) (received r ++ [c])%list (initialSent r) (liveSent r) (since r).

(** The event sent for a container of the list. *)
Definition initialEvent (s : Summary) : ContainerEvent := mkEvent (ID s) ContainerActionStart.

Definition listed (containers : outcome (list Summary)) (r : registration) : registration :=
  mkRegistration (buf r)
    (Some (match containers with Ok cs => map initialEvent cs | _ => [] end))
    (received r) (initialSent r) (liveSent r) (since r).

Definition hasRoom (r : registration) : bool := (length (buf r) <? 1)%nat.

Definition mutexFree (s : state) : bool :=
  match bcast s with Sending _ _ => false | _ => true end.

Definition setRegistration (k : nat) (r : registration) (s : state) : state :=
  mkState (phase s) (pumps s) (bcast s) (<[k := r]> (registered s)) (log s).
Definition setBcast (b : broadcaster) (s : state) : state :=
  mkState (phase s) (pumps s) b (registered s) (log s).

(** One step of one goroutine; [None] when it is blocked. *)
Definition step (l : label) (s : state) : option state :=
  match l with
  | Connect =>
      match phase s with
      | Backoff _ => Some (mkState Listening (pumps s ++ [None])%list (bcast s) (registered s) (log s))
      | _ => None
      end
  | Message e =>
      match phase s, pumps s !! pred (length (pumps s)) with
      | Listening, Some None =>
          Some (mkState Listening (<[pred (length (pumps s)) := Some e]> (pumps s))
                  (bcast s) (registered s) (log s))
      | _, _ => None
      end
  | StreamError err =>
      match phase s with
      | Listening => Some (mkState (Backoff (reconnectDelay err)) (pumps s) (bcast s) (registered s) (log s))
      | _ => None
      end
  | Handoff i =>
      match pumps s !! i, bcast s with
      | Some (Some c), Idle =>
          Some (mkState (phase s) (<[i := None]> (pumps s)) (Locking c) (registered s) (log s))
      | _, _ => None
      end
  | Lock =>
      match bcast s with
      | Locking c =>
          Some (mkState (phase s) (pumps s) (Sending c (seq 0 (length (registered s))))
                  (registered s) (log s ++ [c])%list)
      | _ => None
      end
  | SendLive =>
      match bcast s with
      | Sending c (k :: rest) =>
          match registered s !! k with
          | Some r =>
              if hasRoom r then Some (setBcast (Sending c rest) (setRegistration k (sendLive c r) s))
              else None
          | None => None
          end
      | _ => None
      end
  | Unlock =>
      match bcast s with
      | Sending _ [] => Some (setBcast Idle s)
      | _ => None
      end
  | RegisterToContainersStream =>
      if mutexFree s then
        Some (mkState (phase s) (pumps s) (bcast s)
                (registered s ++ [mkRegistration [] None [] [] [] (length (log s))])%list (log s))
      else None
  | Listed k containers =>
      match registered s !! k with
      | Some r =>
          match pending r with
          | None => Some (setRegistration k (listed containers r) s)
          | Some _ => None
          end
      | None => None
      end
  | SendInitial k =>
      match registered s !! k with
      | Some r =>
          match pending r with
          | Some (c :: cs) =>
              if hasRoom r then Some (setRegistration k (sendInitial c cs r) s) else None
          | _ => None
          end
      | None => None
      end
  | Consume k =>
      match registered s !! k with
      | Some r =>
          match buf r with
          | c :: b => Some (setRegistration k (consume c b r) s)
          | [] => None
          end
      | None => None
      end
  end.

(** The transitions, and those without a given consumer's. *)
Definition Step (s t : state) : Prop := exists l, step l s = Some t.
Definition StepBut (k : nat) (s t : state) : Prop := exists l, l <> Consume k /\ step l s = Some t.

Definition reachable (s : state) : Prop :=
  exists A (client : outcome A), steps Step (StartListeningToNewContainers client) s.

(** ** Specification *)

(** [l] is made of [l1] and [l2], each in its order. *)
Inductive Interleaving {A} : list A -> list A -> list A -> Prop :=
| il_nil : Interleaving [] [] []
| il_left a l1 l2 l : Interleaving l1 l2 l -> Interleaving (a :: l1) l2 (a :: l)
| il_right a l1 l2 l : Interleaving l1 l2 l -> Interleaving l1 (a :: l2) (a :: l).

(** The event the broadcaster still owes to registration [k]. *)
Definition owed (k : nat) (b : broadcaster) : list ContainerEvent :=
  match b with
  | Sending c rest => if bool_decide (k ∈ rest) then [c] else []
  | _ => []
  end.

Definition registrationOk (s : state) (k : nat) (r : registration) : Prop :=
  (since r <= length (log s))%nat /\
  (liveSent r ++ owed k (bcast s))%list = drop (since r) (log s) /\
  Interleaving (initialSent r) (liveSent r) (received r ++ buf r)%list /\
  (length (buf r) <= 1)%nat.

Definition broadcasterOk (s : state) : Prop :=
  match bcast s with
  | Sending _ rest => NoDup rest /\ Forall (fun k => (k < length (registered s))%nat) rest
  | _ => True
  end.

Definition Inv (s : state) : Prop :=
  broadcasterOk s /\ forall k r, registered s !! k = Some r -> registrationOk s k r.

(** ** Lemmas *)

Lemma Interleaving_snoc_l {A} (a : A) l1 l2 l :
  Interleaving l1 l2 l -> Interleaving (l1 ++ [a])%list l2 (l ++ [a])%list.
Proof. induction 1; simpl; constructor; try done. constructor. Qed.

Lemma Interleaving_snoc_r {A} (a : A) l1 l2 l :
  Interleaving l1 l2 l -> Interleaving l1 (l2 ++ [a])%list (l ++ [a])%list.
Proof. induction 1; simpl; constructor; try done. constructor. Qed.

Lemma Inv_start {A} (client : outcome A) : Inv (StartListeningToNewContainers client).
Proof. split; [done|]. intros k r H. cbn [registered StartListeningToNewContainers] in H. by rewrite lookup_nil in H. Qed.

(** A step that leaves the registrations, the log and what is owed alone. *)
Lemma Inv_frame s t :
  registered t = registered s -> log t = log s -> (forall k, owed k (bcast t) = owed k (bcast s)) ->
  broadcasterOk t -> Inv s -> Inv t.
Proof.
  intros Hr Hl Ho Hb [_ H]. split; [done|]. intros k r Hk. rewrite Hr in Hk.
  destruct (H k r Hk) as (H1 & H2 & H3 & H4). unfold registrationOk. by rewrite Hl, Ho.
Qed.

(** A step of one registration's goroutine or consumer. *)
Lemma Inv_registration s k r r' :
  registered s !! k = Some r -> Inv s ->
  (registrationOk s k r -> registrationOk s k r') -> Inv (setRegistration k r' s).
Proof.
  intros Hk [Hb H] Hr'. split.
  - unfold broadcasterOk in *. simpl. by rewrite length_insert.
  - intros k' r'' Hk'. cbn in Hk'. apply list_lookup_insert_Some in Hk'.
    destruct Hk' as [(<- & -> & _) | (_ & Hk')]; [by apply Hr', H|]. exact (H k' r'' Hk').
Qed.

Lemma Inv_lock s c :
  bcast s = Locking c -> Inv s ->
  Inv (mkState (phase s) (pumps s) (Sending c (seq 0 (length (registered s)))) (registered s)
         (log s ++ [c])%list).
Proof.
  intros Hb [_ H]. split.
  - split; [apply NoDup_seq|]. apply list.Forall_forall. intros k Hk. simpl.
    apply elem_of_seq in Hk. lia.
  - intros k r Hk. simpl in Hk. destruct (H k r Hk) as (H1 & H2 & H3 & H4).
    rewrite Hb in H2. cbn [owed] in H2. rewrite app_nil_r in H2.
    unfold registrationOk. cbn [log bcast owed]. rewrite bool_decide_true.
    2: { apply elem_of_seq. apply lookup_lt_Some in Hk. lia. }
    rewrite length_app. split; [lia|]. rewrite drop_app_le by done. split; [by rewrite H2|done].
Qed.

Lemma Inv_sendLive s c k rest r :
  bcast s = Sending c (k :: rest) -> registered s !! k = Some r -> hasRoom r = true ->
  Inv s -> Inv (setBcast (Sending c rest) (setRegistration k (sendLive c r) s)).
Proof.
  intros Hb Hk Hroom [Hbo H]. unfold broadcasterOk in Hbo. rewrite Hb in Hbo.
  destruct Hbo as [[Hnin Hnd]%list.NoDup_cons [Hlt Hrest]%list.Forall_cons_1]. split.
  - unfold broadcasterOk. cbn. rewrite length_insert. done.
  - intros k' r' Hk'. cbn in Hk'. apply list_lookup_insert_Some in Hk'.
    unfold registrationOk. cbn [log bcast setBcast setRegistration owed].
    destruct Hk' as [(<- & <- & _) | (Hne & Hk')].
    + destruct (H k r Hk) as (H1 & H2 & H3 & H4). split; [done|].
      rewrite Hb in H2. cbn [owed] in H2. rewrite bool_decide_true in H2 by left.
      rewrite bool_decide_false by done. cbn [liveSent sendLive initialSent received buf since].
      rewrite app_nil_r. split; [done|]. split.
      * rewrite app_assoc. by apply Interleaving_snoc_r.
      * rewrite length_app. unfold hasRoom in Hroom. apply Nat.ltb_lt in Hroom. simpl. lia.
    + destruct (H k' r' Hk') as (H1 & H2 & H3 & H4). split; [done|]. split; [|done].
      rewrite Hb in H2. cbn [owed] in H2. rewrite <- H2.
      rewrite (bool_decide_ext (k' ∈ k :: rest) (k' ∈ rest)); [done|].
      rewrite elem_of_cons. naive_solver.
Qed.

Lemma Inv_register s :
  mutexFree s = true -> Inv s ->
  Inv (mkState (phase s) (pumps s) (bcast s)
         (registered s ++ [mkRegistration [] None [] [] [] (length (log s))])%list (log s)).
Proof.
  intros Hm [_ H]. unfold mutexFree in Hm. split.
  { unfold broadcasterOk. simpl. by destruct (bcast s). }
  intros k r Hk. simpl in Hk. apply lookup_app_Some in Hk.
  destruct Hk as [Hk | [Hlen Hk]]; [by apply H|].
  apply list_lookup_singleton_Some in Hk as [_ <-]. unfold registrationOk. cbn.
  split; [done|]. rewrite drop_all. split; [by destruct (bcast s)|]. split; [constructor|lia].
Qed.

Lemma Inv_step l s t : step l s = Some t -> Inv s -> Inv t.
Proof.
  intros Hst HI. pose proof HI as [Hb _]. destruct l; simpl in Hst.
  - destruct (phase s); simplify_eq. by apply (Inv_frame s).
  - destruct (phase s), (pumps s !! pred (length (pumps s))) as [[]|]; simplify_eq. by apply (Inv_frame s).
  - destruct (phase s); simplify_eq. by apply (Inv_frame s).
  - destruct (pumps s !! i) as [[c|]|], (bcast s) eqn:E; simplify_eq.
    apply (Inv_frame s); try done. intros k. by rewrite E.
  - destruct (bcast s) eqn:E; simplify_eq. by apply Inv_lock.
  - destruct (bcast s) as [| |c [|k rest]] eqn:E; simplify_eq.
    destruct (registered s !! k) eqn:Hk; simplify_eq.
    destruct (hasRoom _) eqn:Hroom; simplify_eq. by apply Inv_sendLive.
  - destruct (bcast s) as [| |c [|]] eqn:E; simplify_eq.
    apply (Inv_frame s); try done. intros k. rewrite E. cbn [owed setBcast bcast].
    by rewrite bool_decide_false by apply not_elem_of_nil.
  - destruct (mutexFree s) eqn:E; simplify_eq. by apply Inv_register.
  - destruct (registered s !! k) as [r|] eqn:Hk; simplify_eq. destruct (pending r); simplify_eq.
    by apply (Inv_registration s k r).
  - destruct (registered s !! k) as [r|] eqn:Hk; simplify_eq.
    destruct (pending r) as [[|c cs]|]; simplify_eq. destruct (hasRoom r) eqn:Hroom; simplify_eq.
    apply (Inv_registration s k r); [done|done|]. intros (H1 & H2 & H3 & H4).
    split; [done|]. split; [done|]. cbn [initialSent sendInitial liveSent received buf]. split.
    + rewrite app_assoc. by apply Interleaving_snoc_l.
    + rewrite length_app. unfold hasRoom in Hroom. apply Nat.ltb_lt in Hroom. simpl. lia.
  - destruct (registered s !! k) as [r|] eqn:Hk; simplify_eq. destruct (buf r) as [|c b] eqn:Hbuf; simplify_eq.
    apply (Inv_registration s k r); [done|done|]. intros (H1 & H2 & H3 & H4).
    split; [done|]. split; [done|]. rewrite Hbuf in H3, H4. cbn [initialSent consume liveSent received buf].
    rewrite <- app_assoc. split; [done|]. simpl in H4. lia.
Qed.

Lemma Inv_reachable s : reachable s -> Inv s.
Proof.
  intros (A & client & H). eapply steps_ind_inv; [apply (Inv_start client) | | exact H].
  intros a b Ha [l Hl]. by eapply Inv_step.
Qed.

(** What a stuck registration keeps in place. *)
Definition stuckOn (c : ContainerEvent) (k : nat) (rest : list nat) (s t : state) : Prop :=
  bcast t = Sending c (k :: rest) /\ log t = log s /\ length (registered t) = length (registered s) /\
  (exists r, registered t !! k = Some r /\ buf r <> []) /\
  (forall k' r r', registered s !! k' = Some r -> registered t !! k' = Some r' -> liveSent r' = liveSent r).

Lemma stuckOn_registration c k rest s t k' r r' :
  stuckOn c k rest s t -> registered t !! k' = Some r -> liveSent r' = liveSent r ->
  (k' = k -> buf r <> [] -> buf r' <> []) -> stuckOn c k rest s (setRegistration k' r' t).
Proof.
  intros (H1 & H2 & H3 & (rk & Hk & Hb) & H5) Hr Hl Hbuf.
  split; [done|]. split; [done|]. split; [cbn; by rewrite length_insert|]. split; cbn [registered setRegistration].
  - destruct (decide (k' = k)) as [->|Hne].
    + exists r'. rewrite list_lookup_insert_eq by (by eapply lookup_lt_Some).
      split; [done|]. apply Hbuf; [done|]. by simplify_eq.
    + exists rk. by rewrite list_lookup_insert_ne.
  - intros k2 r2 r3 Hr2 Hr3. apply list_lookup_insert_Some in Hr3.
    destruct Hr3 as [(<- & <- & _) | (_ & Hr3)]; [|by eapply H5]. rewrite Hl. by eapply H5.
Qed.

Lemma stuckOn_step c k rest s t u : stuckOn c k rest s t -> StepBut k t u -> stuckOn c k rest s u.
Proof.
  intros Hs (l & Hne & Hst). pose proof Hs as (H1 & H2 & H3 & (rk & Hk & Hb) & H5).
  destruct l; simpl in Hst; rewrite ?H1 in Hst.
  - destruct (phase t); simplify_eq. repeat split; try done. by exists rk.
  - destruct (phase t); try done. destruct (pumps t !! pred (length (pumps t))) as [[]|]; simplify_eq. repeat split; try done. by exists rk.
  - destruct (phase t); simplify_eq. repeat split; try done. by exists rk.
  - by destruct (pumps t !! i) as [[]|].
  - done.
  - rewrite Hk in Hst. unfold hasRoom in Hst. destruct (buf rk); [done|]. done.
  - done.
  - unfold mutexFree in Hst. by rewrite H1 in Hst.
  - destruct (registered t !! k0) as [r|] eqn:Hr; simplify_eq. destruct (pending r); simplify_eq.
    by eapply stuckOn_registration.
  - destruct (registered t !! k0) as [r|] eqn:Hr; simplify_eq.
    destruct (pending r) as [[|e cs]|]; simplify_eq. destruct (hasRoom r); simplify_eq.
    eapply stuckOn_registration; [done..|]. cbn. by destruct (buf r).
  - destruct (registered t !! k0) as [r|] eqn:Hr; simplify_eq. destruct (buf r) eqn:Hbr; simplify_eq.
    eapply stuckOn_registration; [done..|]. intros ->. by destruct Hne.
Qed.

(** The broadcaster and the consumers alone can serve a channel. *)
Lemma send_one c k rest s r :
  Inv s -> bcast s = Sending c (k :: rest) -> registered s !! k = Some r ->
  exists t, steps Step s t /\ Inv t /\ bcast t = Sending c rest.
Proof.
  intros HI Hb Hk. destruct (buf r) as [|e b] eqn:Hbuf.
  - eexists. assert (step SendLive s = Some (setBcast (Sending c rest) (setRegistration k (sendLive c r) s))) as H.
    { simpl. rewrite Hb, Hk. unfold hasRoom. by rewrite Hbuf. }
    split; [by apply steps_one; exists SendLive|]. split; [by eapply Inv_step|done].
  - destruct HI as [Hbo HR]. destruct (HR k r Hk) as (_ & _ & _ & Hlen).
    rewrite Hbuf in Hlen. destruct b; [|simpl in Hlen; lia].
    set (s1 := setRegistration k (consume e [] r) s).
    assert (step (Consume k) s = Some s1) as H1 by (simpl; by rewrite Hk, Hbuf).
    assert (step SendLive s1 = Some (setBcast (Sending c rest) (setRegistration k (sendLive c (consume e [] r)) s1))) as H2.
    { simpl. rewrite Hb. rewrite list_lookup_insert_eq by (by eapply lookup_lt_Some). done. }
    eexists. split; [eapply steps_trans; apply steps_one; [by exists (Consume k)|by exists SendLive]|].
    split; [|done]. eapply Inv_step; [exact H2|]. by eapply Inv_step; [exact H1|].
Qed.

Lemma send_all c rest s :
  Inv s -> bcast s = Sending c rest -> exists t, steps Step s t /\ Inv t /\ bcast t = Idle.
Proof.
  revert s. induction rest as [|k rest IH]; intros s HI Hb.
  - assert (step Unlock s = Some (setBcast Idle s)) as H by (simpl; by rewrite Hb).
    eexists. split; [by apply steps_one; exists Unlock|]. split; [by eapply Inv_step|done].
  - assert (exists r, registered s !! k = Some r) as [r Hr].
    { destruct HI as [Hbo _]. unfold broadcasterOk in Hbo. rewrite Hb in Hbo.
      destruct Hbo as [_ [Hlt _]%list.Forall_cons_1]. by apply lookup_lt_is_Some_2. }
    destruct (send_one c k rest s r HI Hb Hr) as (t & Hst & HIt & Hbt).
    destruct (IH t HIt Hbt) as (u & Hu & HIu & Hbu). exists u. split; [by eapply steps_trans|done].
Qed.

(** ** Properties *)

(** C8. In every reachable state, what a consumer has taken and what waits in its
    channel is an interleaving of the initial containers sent so far and of the
    live events sent to it, and those are, in order, without loss and without
    duplicate, the events broadcast since it registered, except the one being
    broadcast while its turn has not come. *)
Theorem consumer_stream (s : state) (k : nat) (r : registration) :
  reachable s -> registered s !! k = Some r ->
  Interleaving (initialSent r) (liveSent r) (received r ++ buf r)%list /\
  (liveSent r ++ owed k (bcast s))%list = drop (since r) (log s) /\
  (bcast s = Idle -> liveSent r = drop (since r) (log s)).
Proof.
  intros Hs Hk. destruct (Inv_reachable s Hs) as [_ H]. destruct (H k r Hk) as (_ & H2 & H3 & _).
  split; [done|]. split; [done|]. intros Hb. rewrite Hb in H2. cbn [owed] in H2.
  by rewrite app_nil_r in H2.
Qed.

(** C9. The broadcaster holds the registration mutex while it sends: when it
    reaches a channel that is full, and until that one consumer receives, no other
    consumer gets a live event, no event is taken and nobody can register. *)
Theorem stuck_consumer (s t : state) (c : ContainerEvent) (k : nat) (rest : list nat) (r : registration) :
  bcast s = Sending c (k :: rest) -> registered s !! k = Some r -> buf r <> [] ->
  steps (StepBut k) s t ->
  bcast t = bcast s /\ log t = log s /\ length (registered t) = length (registered s) /\
  forall k' r r', registered s !! k' = Some r -> registered t !! k' = Some r' -> liveSent r' = liveSent r.
Proof.
  intros Hb Hk Hbuf Hst.
  assert (stuckOn c k rest s t) as (H1 & H2 & H3 & _ & H5).
  { eapply steps_ind_inv; [| intros a b Ha Hab; by eapply stuckOn_step | exact Hst].
    repeat split; try done; [by exists r|]. intros k' r1 r2 Hr1 Hr2. by simplify_eq. }
  by rewrite Hb.
Qed.

(** Otherwise it always can finish: from every reachable state some steps
    bring the broadcaster back to waiting for an event, with everything it took
    sent to every registration. *)
Theorem broadcast_completes (s : state) :
  reachable s ->
  exists t, steps Step s t /\ bcast t = Idle /\
    forall k r, registered t !! k = Some r -> liveSent r = drop (since r) (log t).
Proof.
  intros Hs%Inv_reachable.
  assert (exists t, steps Step s t /\ Inv t /\ bcast t = Idle) as (t & Hst & HI & Hb).
  { destruct (bcast s) as [|c|c rest] eqn:Hb.
    - exists s. split; [constructor|done].
    - set (s1 := mkState (phase s) (pumps s) (Sending c (seq 0 (length (registered s))))
                   (registered s) (log s ++ [c])%list).
      assert (step Lock s = Some s1) as H by (simpl; by rewrite Hb).
      destruct (send_all c _ s1 (Inv_step _ _ _ H Hs) eq_refl) as (t & Ht & HI & Hbt).
      exists t. split; [|done]. eapply steps_trans; [|exact Ht]. apply steps_one. by exists Lock.
    - by eapply send_all. }
  exists t. split; [done|]. split; [done|]. intros k r Hk. destruct HI as [_ HR].
  destruct (HR k r Hk) as (_ & H2 & _). rewrite Hb in H2. cbn [owed] in H2. by rewrite app_nil_r in H2.
Qed.

(** Every reconnection adds a pump goroutine, whose channel the library never
    closes, and no step ever removes one; while the listener sleeps the repository
    accepts no message of docker. *)
Theorem pumps_never_end (l : label) (s t : state) :
  step l s = Some t ->
  length (pumps t) = (length (pumps s) + match l with Connect => 1 | _ => 0 end)%nat /\
  (forall d e, phase s = Backoff d -> step (Message e) s = None).
Proof.
  intros Hst. split; [|by intros d e Hd; simpl; rewrite Hd].
  destruct l; simpl in Hst; repeat case_match; simplify_eq; cbn [pumps setBcast setRegistration];
    rewrite ?length_app, ?length_insert; simpl; lia.
Qed.

(** ** Witnesses *)

Fixpoint exec (ls : list label) (s : state) : option state :=
  match ls with
  | [] => Some s
  | l :: ls' => match step l s with Some t => exec ls' t | None => None end
  end.

Lemma exec_steps ls s t : exec ls s = Some t -> steps Step s t.
Proof.
  revert s. induction ls as [|l ls IH]; intros s H; simpl in H; [simplify_eq; constructor|].
  destruct (step l s) as [u|] eqn:Hu; [|done].
  eapply steps_trans; [apply steps_one; by exists l | by apply IH].
Qed.

(** Two registrations, one initial container, one live event on its way. *)
Definition exampleTrace : list label :=
  [Connect; RegisterToContainersStream; RegisterToContainersStream; Listed 0 (Ok [mkSummary "a" ∅]);
   Message (mkEvent "b" "start"); Handoff 0; SendInitial 0; Lock].

Definition exampleStart : state := StartListeningToNewContainers (Ok tt).

Definition exampleState : state :=
  mkState Listening [None] (Sending (mkEvent "b" "start") [0%nat; 1%nat])
    [mkRegistration [mkEvent "a" "start"] (Some []) [] [mkEvent "a" "start"] [] 0;
     mkRegistration [] None [] [] [] 0] [mkEvent "b" "start"].

Lemma exampleState_reachable : reachable exampleState.
Proof. exists unit, (Ok tt). apply (exec_steps exampleTrace). reflexivity. Qed.

Lemma consumer_stream_witness :
  (([] : list ContainerEvent) ++ owed 0 (bcast exampleState))%list = [mkEvent "b" "start"].
Proof.
  apply (consumer_stream exampleState 0 (mkRegistration [mkEvent "a" "start"] (Some []) [] [mkEvent "a" "start"] [] 0));
    [exact exampleState_reachable | reflexivity].
Defined.

Lemma stuck_consumer_witness :
  exists t, steps (StepBut 0) exampleState t /\ bcast t = bcast exampleState.
Proof.
  exists exampleState. split; [constructor|].
  apply (stuck_consumer exampleState exampleState (mkEvent "b" "start") 0 [1%nat]
           (mkRegistration [mkEvent "a" "start"] (Some []) [] [mkEvent "a" "start"] [] 0));
    [reflexivity | reflexivity | done | constructor].
Defined.

Lemma broadcast_completes_witness :
  exists t, steps Step exampleState t /\ bcast t = Idle.
Proof.
  destruct (broadcast_completes exampleState exampleState_reachable) as (t & H1 & H2 & _).
  exists t. split; [exact H1 | exact H2].
Defined.

Lemma pumps_never_end_witness :
  exists t, step Connect exampleStart = Some t /\ length (pumps t) = 1%nat.
Proof.
  eexists. split; [reflexivity|].
  apply (pumps_never_end Connect exampleStart (mkState Listening [None] Idle [] [])). reflexivity.
Defined.

End Docker.
