(* ===== verification/Resources.v ===== *)
(** * resources/resources.go: memory and I/O usages of a container *)
From S2P Require Import Prelude GoStrings GoFloat JsonString Config Cgroup Json Client.

Module Resources.

(** [resources.Usage]. *)
Record Usage : Type := mkUsage { Memory : Client.MemoryUsage; IO : Client.IOUsage }.

Definition memoryUsageFromStats (stats : Stats) : Client.MemoryUsage :=
  Client.mkMemoryUsage (MemoryUsage stats) (SwapUsage stats) (MemoryLimit stats) (SwapLimit stats)
    (MemoryMaxUsage stats) (SwapMaxUsage stats).

(** The loop of [ioUsageFromStats]; the field [Device] is left at its zero value. *)
Definition ioUsageFromStats (stats : Stats) : Client.IOUsage :=
  Client.mkIOUsage
    (fold_left (fun devices device =>
       (devices ++ [Client.mkIODeviceUsage "" (dev_path device) (dev_mountpoint device)
                      (Major device) (Minor device) (ReadBytes device) (WriteBytes device)
                      (ReadIOs device) (WriteIOs device)])%list)
       (Devices (IOUsageOf stats)) []).

Section Getter.
(** [UsageGetter]: the struct around a [cgroup.StatsReader]. *)
Context {cgroupStatsReader : StatsReader}.

Definition GetMemoryUsage (id : string) : outcome Client.MemoryUsage :=
  let! stats := wrapMsg "get cgroup stats" (GetStats id) in Ok (memoryUsageFromStats stats).

Definition GetUsage (id : string) : outcome Usage :=
  let! stats := wrapMsg "get cgroup stats" (GetStats id) in
  Ok (mkUsage (memoryUsageFromStats stats) (ioUsageFromStats stats)).

Definition GetIOUsage (id : string) : outcome Client.IOUsage :=
  let! stats := wrapMsg "get cgroup stats" (GetStats id) in Ok (ioUsageFromStats stats).

End Getter.

(** ** Specification: the statistics a usage was made of *)

Definition deviceOf (d : Client.IODeviceUsage) : IODeviceUsage :=
  mkIODevice (Client.ioDevicePath d) (Client.ioMountpoint d) (Client.ioMajor d) (Client.ioMinor d)
    (Client.ioReadBytes d) (Client.ioWriteBytes d) (Client.ioReadIOs d) (Client.ioWriteIOs d).

Definition statsOf (cpu : Z) (u : Usage) : Stats :=
  let m := Memory u in
  mkStats cpu (Client.mMemoryUsage m) (Client.mMaxMemoryUsage m) (Client.mMemoryLimit m)
    (Client.mSwapUsage m) (Client.mMaxSwapUsage m) (Client.mSwapLimit m)
    (mkIOUsage (map deviceOf (Client.ioDevices (IO u)))).

(** Counters in the range of [uint64], names in UTF-8. *)
Definition wfDevice (d : IODeviceUsage) : Prop :=
  Forall is_u64 [Major d; Minor d; ReadBytes d; WriteBytes d; ReadIOs d; WriteIOs d] /\
  Forall (fun s => ValidString s = true) [dev_path d; dev_mountpoint d].
Definition wfStats (s : Stats) : Prop :=
  Forall is_u64 [MemoryUsage s; SwapUsage s; MemoryLimit s; SwapLimit s; MemoryMaxUsage s; SwapMaxUsage s]
  /\ Forall wfDevice (Devices (IOUsageOf s)).

(** ** Lemmas *)

Lemma ioUsageFromStats_map stats :
  Client.ioDevices (ioUsageFromStats stats) =
    map (fun device => Client.mkIODeviceUsage "" (dev_path device) (dev_mountpoint device)
           (Major device) (Minor device) (ReadBytes device) (WriteBytes device)
           (ReadIOs device) (WriteIOs device)) (Devices (IOUsageOf stats)).
Proof.
  unfold ioUsageFromStats. cbn [Client.ioDevices].
  induction (Devices (IOUsageOf stats)) as [|d ds IH] using rev_ind; [done|].
  by rewrite fold_left_app, IH, map_app.
Qed.

Lemma statsOf_usage stats :
  statsOf (CPUUsage stats) (mkUsage (memoryUsageFromStats stats) (ioUsageFromStats stats)) = stats.
Proof.
  unfold statsOf. cbn [IO Memory]. rewrite ioUsageFromStats_map, map_map.
  destruct stats as [? ? ? ? ? ? ? [ds]]. cbn. do 2 f_equal.
  induction ds as [|d ds IH]; [done|]. cbn [map]. rewrite IH. by destruct d.
Qed.

(** *** The payloads of reported metrics *)

Section Payloads.
Context {mi : MountInfos}.

(** Of cgroup v2: no maxima, and the lines with the names of their numbers. *)
Definition payloadV2 (mem : MemoryStatV2) (io : option (list IOEntry)) : Usage :=
  mkUsage (Client.mkMemoryUsage (v2Usage mem) (v2SwapUsage mem) (v2UsageLimit mem) (v2SwapLimit mem) 0 0)
    (Client.mkIOUsage (map (fun e =>
       Client.mkIODeviceUsage "" (DevicePath (Cgroup.ioMajor e) (Cgroup.ioMinor e))
         (Mountpoint (Cgroup.ioMajor e) (Cgroup.ioMinor e)) (Cgroup.ioMajor e) (Cgroup.ioMinor e)
         (Rbytes e) (Wbytes e) (Rios e) (Wios e)) (default [] io))).

(** Of cgroup v1: the swap less the memory, and a device for each key of the tables. *)
Definition payloadV1 (m : MetricsV1) : Usage :=
  let mu := getMemory memoryUsage (v1Memory m) in
  let ms := getMemory memorySwap (v1Memory m) in
  mkUsage (Client.mkMemoryUsage (getEntry memUsage mu) (Z.max 0 (getEntry memUsage ms - getEntry memUsage mu))
      (getEntry memLimit mu) (Z.max 0 (getEntry memLimit ms - getEntry memLimit mu))
      (getEntry memMax mu) (Z.max 0 (getEntry memMax ms - getEntry memMax mu)))
    (Client.mkIOUsage (match v1Blkio m with
     | None => []
     | Some b => map (fun key =>
         let d := specDevice (ioLines b) key in
         Client.mkIODeviceUsage "" (dev_path d) (dev_mountpoint d) (Major d) (Minor d)
           (ReadBytes d) (WriteBytes d) (ReadIOs d) (WriteIOs d)) (keysOf (ioLines b))
     end)).

Lemma payload_reportsV2 usec mem io st :
  reportsV2 usec mem io st -> mkUsage (memoryUsageFromStats st) (ioUsageFromStats st) = payloadV2 mem io.
Proof.
  intros (_ & H1 & H2 & H3 & H4 & H5 & H6 & H7). unfold payloadV2, memoryUsageFromStats. rewrite H1, H2, H3, H4, H5, H6. f_equal.
  pose proof (ioUsageFromStats_map st) as Hm. destruct (ioUsageFromStats st) as [ds]. cbn [Client.ioDevices] in Hm. subst ds. f_equal.
  induction H7 as [|e d es ds (E1 & E2 & E3 & E4 & E5 & E6 & E7 & E8) _ IH]; [done|].
  cbn [map]. by rewrite IH, E1, E2, E3, E4, E5, E6, E7, E8.
Qed.

Lemma payload_reportsV1 m st :
  reportsV1 m st -> mkUsage (memoryUsageFromStats st) (ioUsageFromStats st) = payloadV1 m.
Proof.
  intros (_ & H1 & H2 & H3 & H4 & H5 & H6 & H7). unfold payloadV1, memoryUsageFromStats. rewrite H1, H2, H3, H4, H5, H6. f_equal.
  pose proof (ioUsageFromStats_map st) as Hm. destruct (ioUsageFromStats st) as [ds]. cbn [Client.ioDevices] in Hm. subst ds. f_equal.
  rewrite H7. destruct (v1Blkio m) as [b|]; [|done]. cbn [specIOUsage Devices]. by rewrite map_map.
Qed.

End Payloads.

Lemma wfMemory_fromStats stats : wfStats stats -> Client.wfMemoryUsage (memoryUsageFromStats stats).
Proof. by intros [H _]. Qed.

Lemma wfIO_fromStats stats : wfStats stats -> Client.wfIOUsage (ioUsageFromStats stats).
Proof.
  intros [_ H]. unfold Client.wfIOUsage. rewrite ioUsageFromStats_map.
  induction H as [|d ds Hd _ IH]; simpl; constructor; [|exact IH].
  destruct Hd as [Hu Hs]. split; [exact Hu|]. constructor; [done|exact Hs].
Qed.

(** ** Property *)

(** The three getters are three views of one reading: they succeed together,
    the combined one is the pair of the two others, and it carries everything the
    statistics hold except the CPU time; an error of any of them still has the
    reader's type, whatever wrapping it went through. *)
Theorem getters_agree {r : StatsReader} {spec : StatsReaderSpec r} (id : string) :
  match GetUsage id with
  | Ok u => GetMemoryUsage id = Ok (Memory u) /\ GetIOUsage id = Ok (IO u) /\
            exists stats, GetStats id = Ok stats /\ statsOf (CPUUsage stats) u = stats
  | Err e => GetMemoryUsage id = Err e /\ GetIOUsage id = Err e /\ asStatsReaderError e = true
  | Panic m => GetMemoryUsage id = Panic m /\ GetIOUsage id = Panic m
  end.
Proof.
  unfold GetUsage, GetMemoryUsage, GetIOUsage.
  destruct (GetStats id) as [s|e|m] eqn:E; cbn [wrapMsg wrap obind]; [|split; [done|]; split; [done|]|done].
  - split; [done|]. split; [done|]. exists s. split; [done|]. apply statsOf_usage.
  - simpl. by eapply GetStats_error.
Qed.

Definition exampleStats : Stats :=
  mkStats 7 1 2 3 4 5 6 (mkIOUsage [mkIODevice "/dev/vda" "/" 254 0 10 20 30 40]).
Definition exampleReader : StatsReader := {| GetStats := fun _ => Ok exampleStats |}.
#[export] Instance exampleReader_spec : StatsReaderSpec exampleReader.
Proof. split. discriminate. Qed.

Lemma getters_agree_witness :
  @GetMemoryUsage exampleReader "a" = Ok (memoryUsageFromStats exampleStats).
Proof. apply (@getters_agree exampleReader exampleReader_spec "a"). Defined.

End Resources.
