(* ===== verification/CpuMonitor.v ===== *)
(** * cpu/cpu.go: the CPU usage of the host and of the containers

    [CPUUsageMonitor] and its goroutines.  The readers are the interfaces
    [CPUStat] and [StatsReader]; an action that reads carries the readers as they
    answer at that moment.  The state of the monitor is changed under its mutex
    only, so each action is one critical section. *)
From S2P Require Import Prelude GoFloat FloatBounds Config Cgroup Docker CpuStat Client.
From Stdlib Require Import QArith Qabs.

#[local] Open Scope Z_scope.

Module CpuMonitor.

Record t : Type := mkMonitor {
  numCPU : Z;
  currentHostUsage : option SingleCPUStat;
  previousHostUsage : option SingleCPUStat;
  currentSystemUsage : gmap string Z;
  previousSystemUsage : gmap string Z;
  currentContainerStats : gmap string Stats;
  previousContainerStats : gmap string Stats }.

Definition NewCPUUsageMonitor (cpus : Z) : t := mkMonitor cpus None None ∅ ∅ ∅ ∅.

(** [m[id]] for a map of statistics. *)
Definition statsAt (m : gmap string Stats) (id : string) : Stats := mapget zeroStats m id.

Definition updateHostCPUUsage {cpuStatReader : CPUStat} (m : t) : outcome t :=
  let! current := wrapMsg "get host CPU stats" ReadCPUStats in
  Ok (mkMonitor (numCPU m) (Some (All current)) (currentHostUsage m)
        (currentSystemUsage m) (previousSystemUsage m)
        (currentContainerStats m) (previousContainerStats m)).

Definition updateContainerCPUUsage {cpuStatReader : CPUStat} {cgroupStatsReader : StatsReader}
    (id : string) (m : t) : outcome t :=
  let! stats := wrapMsg "get cgroup stats" (GetStats id) in
  let! systemUsage := wrapMsg "read container CPU usage" ReadCPUStats in
  Ok (mkMonitor (numCPU m) (currentHostUsage m) (previousHostUsage m)
        (<[id := Sum (All systemUsage)]> (currentSystemUsage m))
        (<[id := mapget 0 (currentSystemUsage m) id]> (previousSystemUsage m))
        (<[id := stats]> (currentContainerStats m))
        (<[id := statsAt (currentContainerStats m) id]> (previousContainerStats m))).

(** The maps of system usages are not cleaned. *)
Definition cleanMonitoringData (id : string) (m : t) : t :=
  mkMonitor (numCPU m) (currentHostUsage m) (previousHostUsage m)
    (currentSystemUsage m) (previousSystemUsage m)
    (delete id (currentContainerStats m)) (delete id (previousContainerStats m)).

Definition zeroHost : Client.HostCpuUsage := Client.mkHostCpuUsage fzero 0 fzero.

Definition GetHostUsage (m : t) : outcome Client.HostCpuUsage :=
  match previousHostUsage m, currentHostUsage m with
  | Some previous, Some current =>
      let deltaSum := of_int (subi (Sum current) (Sum previous)) in
      let deltaIdled := of_int (subi (IDLE current) (IDLE previous)) in
      if fltb deltaIdled fzero || fltb deltaSum fzero then Ok zeroHost
      else Ok (Client.mkHostCpuUsage (fdiv (fsub deltaSum deltaIdled) deltaSum) (numCPU m) fzero)
  | _, _ => Ok zeroHost
  end.

(** [int((deltaCPUUsage / deltaSystemCPUUsage) * 100 * float64(m.numCPU))]. *)
Definition percents (oob : float64 -> Z) (cpus deltaCPU deltaSystem : Z) : Z :=
  let deltaCPUUsage := of_int deltaCPU in
  let deltaSystemCPUUsage := of_int deltaSystem in
  if fltb fzero deltaCPUUsage && fltb fzero deltaSystemCPUUsage
  then to_int64 oob (fmul (fmul (fdiv deltaCPUUsage deltaSystemCPUUsage) (of_int 100)) (of_int cpus))
  else 0.

Definition GetContainerUsage (oob : float64 -> Z) (id : string) (m : t) : outcome Client.CpuUsage :=
  match previousContainerStats m !! id with
  | None => Ok Client.zeroCpuUsage
  | Some _ =>
      Ok (Client.mkCpuUsage (percents oob (numCPU m)
        (subi (CPUUsage (statsAt (currentContainerStats m) id))
              (CPUUsage (statsAt (previousContainerStats m) id)))
        (subi (mapget 0 (currentSystemUsage m) id) (mapget 0 (previousSystemUsage m) id))))
  end.

(** ** The goroutines *)

(** One [monitorContainerCPU]: its container, whether its context is cancelled, and
    whether it has not returned. *)
Record goroutine : Type := mkGoroutine { gContainer : string; gCancelled : bool; gRunning : bool }.

(** The monitor, the [cancels] map of [Start] (each cancel function is that of one
    goroutine), and the goroutines in the order they were started. *)
Record system : Type := mkSystem {
  monitor : t;
  cancels : gmap string nat;
  goroutines : list goroutine }.

Definition start (cpus : Z) : system := mkSystem (NewCPUUsageMonitor cpus) ∅ [].

Definition setMonitor (m : t) (s : system) : system := mkSystem m (cancels s) (goroutines s).

Definition cancel (i : nat) (gs : list goroutine) : list goroutine :=
  alter (fun g => mkGoroutine (gContainer g) true (gRunning g)) i gs.

Definition terminate (i : nat) (gs : list goroutine) : list goroutine :=
  alter (fun g => mkGoroutine (gContainer g) (gCancelled g) false) i gs.

(** The body of the loop of [Start] for one event. *)
Definition handleEvent (event : ContainerEvent) (s : system) : system :=
  if String.eqb (Action event) ContainerActionStart then
    mkSystem (monitor s) (<[ContainerID event := length (goroutines s)]> (cancels s))
      (goroutines s ++ [mkGoroutine (ContainerID event) false true])%list
  else if String.eqb (Action event) ContainerActionStop then
    match cancels s !! ContainerID event with
    | Some i => mkSystem (monitor s) (delete (ContainerID event) (cancels s)) (cancel i (goroutines s))
    | None => s
    end
  else s.

(** A tick of [monitorHostUsage]: an error is logged. *)
Definition hostTick (r : CPUStat) (s : system) : outcome system :=
  match @updateHostCPUUsage r (monitor s) with
  | Ok m => Ok (setMonitor m s)
  | Err _ => Ok s
  | Panic p => Panic p
  end.

(** The branch [<-ctx.Done()] of goroutine [i], and what it does when it stops
    after an error. *)
Definition stopGoroutine (i : nat) (g : goroutine) (s : system) : system :=
  mkSystem (cleanMonitoringData (gContainer g) (monitor s)) (cancels s) (terminate i (goroutines s)).

(** A tick of goroutine [i]. *)
Definition containerTick (r : CPUStat) (c : StatsReader) (i : nat) (g : goroutine) (s : system)
    : outcome system :=
  match @updateContainerCPUUsage r c (gContainer g) (monitor s) with
  | Ok m => Ok (setMonitor m s)
  | Err e => if asStatsReaderError e then Ok (stopGoroutine i g s) else Ok s
  | Panic p => Panic p
  end.

Inductive action : Type :=
| Event (event : ContainerEvent)
| HostTick (r : CPUStat)
| ContainerTick (i : nat) (r : CPUStat) (c : StatsReader)
| ContainerDone (i : nat).

(** [None] when the goroutine cannot take that branch.  When both branches of its
    [select] are ready, Go takes either: a cancelled goroutine may still tick. *)
Definition step (a : action) (s : system) : option (outcome system) :=
  match a with
  | Event event => Some (Ok (handleEvent event s))
  | HostTick r => Some (hostTick r s)
  | ContainerTick i r c =>
      match goroutines s !! i with
      | Some g => if gRunning g then Some (containerTick r c i g s) else None
      | None => None
      end
  | ContainerDone i =>
      match goroutines s !! i with
      | Some g => if gRunning g && gCancelled g then Some (Ok (stopGoroutine i g s)) else None
      | None => None
      end
  end.

Definition Step (s u : system) : Prop := exists a, step a s = Some (Ok u).

(** ** Specification

    What an action does to the data of a container. *)
Inductive op : Type :=
| Updated (id : string) (stats : Stats) (systemUsage : Z)
| Cleaned (id : string).

Definition effect (a : action) (s : system) : list op :=
  match a with
  | ContainerTick i r c =>
      match goroutines s !! i with
      | Some g =>
          match @GetStats c (gContainer g), @ReadCPUStats r with
          | Ok st, Ok cpu => [Updated (gContainer g) st (Sum (All cpu))]
          | Ok _, Err e => if asStatsReaderError e then [Cleaned (gContainer g)] else []
          | Err e, _ => if asStatsReaderError e then [Cleaned (gContainer g)] else []
          | _, _ => []
          end
      | None => []
      end
  | ContainerDone i =>
      match goroutines s !! i with Some g => [Cleaned (gContainer g)] | None => [] end
  | _ => []
  end.

Inductive runs (s : system) : list op -> system -> Prop :=
| runs_nil : runs s [] s
| runs_snoc ops u a v : runs s ops u -> step a u = Some (Ok v) -> runs s (ops ++ effect a u)%list v.

(** The statistics recorded for a container since it was last cleaned, and the
    system usages recorded for it, which no cleaning forgets. *)
Definition statsSinceClean (id : string) (ops : list op) : list Stats :=
  fold_left (fun h o =>
    match o with
    | Updated i st _ => if String.eqb i id then (h ++ [st])%list else h
    | Cleaned i => if String.eqb i id then [] else h
    end) ops [].

Definition systemUsages (id : string) (ops : list op) : list Z :=
  fold_left (fun h o =>
    match o with
    | Updated i _ sys => if String.eqb i id then (h ++ [sys])%list else h
    | Cleaned _ => h
    end) ops [].

Definition specContainerUsage (oob : float64 -> Z) (cpus : Z) (sts : list Stats) (systems : list Z)
    : Client.CpuUsage :=
  match sts with
  | [] => Client.zeroCpuUsage
  | _ => Client.mkCpuUsage (percents oob cpus
           (subi (CPUUsage (newest zeroStats sts)) (CPUUsage (former zeroStats sts)))
           (subi (newest 0 systems) (former 0 systems)))
  end.

Definition tracks (ops : list op) (m : t) : Prop :=
  forall id,
    holds zeroStats (statsSinceClean id ops) (currentContainerStats m !! id) (previousContainerStats m !! id) /\
    holds 0 (systemUsages id ops) (currentSystemUsage m !! id) (previousSystemUsage m !! id).

(** ** Lemmas *)

Lemma statsSinceClean_app id ops o :
  statsSinceClean id (ops ++ [o])%list =
    match o with
    | Updated i st _ => if String.eqb i id then (statsSinceClean id ops ++ [st])%list else statsSinceClean id ops
    | Cleaned i => if String.eqb i id then [] else statsSinceClean id ops
    end.
Proof. unfold statsSinceClean. by rewrite fold_left_app. Qed.

Lemma systemUsages_app id ops o :
  systemUsages id (ops ++ [o])%list =
    match o with
    | Updated i _ sys => if String.eqb i id then (systemUsages id ops ++ [sys])%list else systemUsages id ops
    | Cleaned _ => systemUsages id ops
    end.
Proof. unfold systemUsages. by rewrite fold_left_app. Qed.

Lemma tracks_clean ops id m : tracks ops m -> tracks (ops ++ [Cleaned id])%list (cleanMonitoringData id m).
Proof.
  intros H id'. destruct (H id') as [H1 H2]. rewrite statsSinceClean_app, systemUsages_app.
  split; [|exact H2]. cbn [currentContainerStats previousContainerStats cleanMonitoringData].
  destruct (String.eqb_spec id id') as [->|Hne].
  - by rewrite !lookup_delete_eq.
  - by rewrite !lookup_delete_ne.
Qed.

Lemma tracks_update {r : CPUStat} {c : StatsReader} ops id m st cpu :
  GetStats id = Ok st -> ReadCPUStats = Ok cpu -> tracks ops m ->
  exists m', updateContainerCPUUsage id m = Ok m' /\ numCPU m' = numCPU m /\
             tracks (ops ++ [Updated id st (Sum (All cpu))])%list m'.
Proof.
  intros Hst Hcpu H. unfold updateContainerCPUUsage. rewrite Hst, Hcpu. eexists.
  split; [reflexivity|]. split; [done|]. intros id'. destruct (H id') as [H1 H2].
  rewrite statsSinceClean_app, systemUsages_app.
  cbn [currentContainerStats previousContainerStats currentSystemUsage previousSystemUsage].
  destruct (String.eqb_spec id id') as [->|Hne].
  - rewrite !lookup_insert_eq. split; by eapply holds_snoc.
  - by rewrite !lookup_insert_ne.
Qed.

Lemma step_tracks a s u ops :
  step a s = Some (Ok u) -> tracks ops (monitor s) ->
  tracks (ops ++ effect a s)%list (monitor u) /\ numCPU (monitor u) = numCPU (monitor s).
Proof.
  intros Hst H. destruct a as [e|r|i r c|i]; simpl in Hst.
  - simplify_eq. cbn [effect]. rewrite app_nil_r. unfold handleEvent. by repeat case_match.
  - unfold hostTick in Hst. cbn [effect]. rewrite app_nil_r.
    destruct (@updateHostCPUUsage r (monitor s)) as [m|e|p] eqn:E; simplify_eq; [|done].
    unfold updateHostCPUUsage in E. destruct ReadCPUStats; simpl in E; inv_ok. done.
  - cbn [effect]. destruct (goroutines s !! i) as [g|]; [|done]. destruct (gRunning g); simplify_eq.
    unfold containerTick in Hst.
    destruct (@GetStats c (gContainer g)) as [st|e|p] eqn:E1.
    + destruct (@ReadCPUStats r) as [cpu|e|p] eqn:E2.
      * destruct (tracks_update ops (gContainer g) (monitor s) st cpu E1 E2 H) as (m' & Hm & Hn & Ht).
        rewrite Hm in Hst. by simplify_eq.
      * unfold updateContainerCPUUsage in Hst. rewrite E1, E2 in Hst. simpl in Hst.
        destruct (asStatsReaderError e); simplify_eq; [|by rewrite app_nil_r].
        split; [by apply tracks_clean|done].
      * unfold updateContainerCPUUsage in Hst. rewrite E1, E2 in Hst. done.
    + unfold updateContainerCPUUsage in Hst. rewrite E1 in Hst. simpl in Hst.
      destruct (asStatsReaderError e); simplify_eq; [|by rewrite app_nil_r].
      split; [by apply tracks_clean|done].
    + unfold updateContainerCPUUsage in Hst. rewrite E1 in Hst. done.
  - cbn [effect]. destruct (goroutines s !! i) as [g|]; [|done].
    destruct (gRunning g && gCancelled g); simplify_eq. split; [by apply tracks_clean|done].
Qed.

Lemma runs_tracks cpus ops s :
  runs (start cpus) ops s -> tracks ops (monitor s) /\ numCPU (monitor s) = cpus.
Proof.
  induction 1 as [|ops u a v _ [IH Hn] Hst]; [done|].
  destruct (step_tracks a u v ops Hst IH) as [H1 H2]. split; [done|]. by rewrite H2.
Qed.

(** ** The goroutines of [Start] *)

(** A start event only for a container that is not being monitored: what the
    docker stream gives when no container is announced twice. *)
Definition freshStart (a : action) (s : system) : Prop :=
  match a with
  | Event e => Action e = ContainerActionStart -> cancels s !! ContainerID e = None
  | _ => True
  end.

Definition FreshStep (s u : system) : Prop := exists a, freshStart a s /\ step a s = Some (Ok u).

(** The running goroutines whose context is not cancelled are those of [cancels]. *)
Definition owned (s : system) : Prop :=
  forall i g, goroutines s !! i = Some g -> gRunning g = true -> gCancelled g = false ->
    cancels s !! gContainer g = Some i.

(** The indices of [cancels] are those of goroutines of their container, which are not cancelled. *)
Definition cancelsOk (s : system) : Prop :=
  forall id i, cancels s !! id = Some i ->
    exists g, goroutines s !! i = Some g /\ gContainer g = id /\ gCancelled g = false.

(** No cancel function of goroutine [i] is left, and its context is not cancelled. *)
Definition orphan (i : nat) (s : system) : Prop :=
  (forall id, cancels s !! id <> Some i) /\
  exists g, goroutines s !! i = Some g /\ gCancelled g = false.

(** Nothing but the four entries of one container differs. *)
Definition sameElsewhere (id : string) (m m' : t) : Prop :=
  numCPU m' = numCPU m /\ currentHostUsage m' = currentHostUsage m /\ previousHostUsage m' = previousHostUsage m /\
  (forall id', id <> id' -> currentContainerStats m' !! id' = currentContainerStats m !! id') /\
  (forall id', id <> id' -> previousContainerStats m' !! id' = previousContainerStats m !! id') /\
  (forall id', id <> id' -> currentSystemUsage m' !! id' = currentSystemUsage m !! id') /\
  (forall id', id <> id' -> previousSystemUsage m' !! id' = previousSystemUsage m !! id').

Lemma cancel_lookup i gs j g :
  cancel i gs !! j = Some g ->
  exists g0, gs !! j = Some g0 /\ gContainer g = gContainer g0 /\ gRunning g = gRunning g0 /\
             (gCancelled g = false -> gCancelled g0 = false /\ j <> i).
Proof.
  unfold cancel. destruct (decide (i = j)) as [->|Hne].
  - rewrite list_lookup_alter, decide_True by done. destruct (gs !! j) as [g0|]; simpl; intros H; simplify_eq.
    exists g0. simpl. naive_solver.
  - rewrite list_lookup_alter_ne by done. intros H. exists g. by repeat split; [..|intros ->].
Qed.

Lemma terminate_insert i gs g :
  gs !! i = Some g -> terminate i gs = <[i := mkGoroutine (gContainer g) (gCancelled g) false]> gs.
Proof.
  intros Hg. unfold terminate. apply list_eq. intros j. destruct (decide (i = j)) as [<-|Hne].
  - rewrite list_lookup_alter, decide_True, Hg by done.
    rewrite list_lookup_insert_eq; [done|]. by eapply lookup_lt_Some.
  - by rewrite list_lookup_alter_ne, list_lookup_insert_ne.
Qed.

Lemma terminate_lookup i gs j g :
  terminate i gs !! j = Some g ->
  exists g0, gs !! j = Some g0 /\ gContainer g = gContainer g0 /\ gCancelled g = gCancelled g0 /\
             (gRunning g = true -> gRunning g0 = true).
Proof.
  unfold terminate. destruct (decide (i = j)) as [->|Hne].
  - rewrite list_lookup_alter, decide_True by done. destruct (gs !! j) as [g0|]; simpl; intros H; simplify_eq.
    exists g0. simpl. naive_solver.
  - rewrite list_lookup_alter_ne by done. intros H. by exists g.
Qed.

(** The steps of a goroutine change neither [cancels] nor any context. *)
Lemma goroutine_step a s u :
  (forall e, a <> Event e) -> step a s = Some (Ok u) ->
  cancels u = cancels s /\ (goroutines u = goroutines s \/ exists i, goroutines u = terminate i (goroutines s)).
Proof.
  intros Ha Hst. destruct a as [e|r|i r c|i]; simpl in Hst.
  - by destruct (Ha e).
  - unfold hostTick in Hst. destruct updateHostCPUUsage; simplify_eq; auto.
  - destruct (goroutines s !! i) as [g|]; [|done]. destruct (gRunning g); simplify_eq.
    unfold containerTick in Hst. destruct updateContainerCPUUsage as [m|e|p]; simplify_eq; [auto|].
    destruct (asStatsReaderError e); simplify_eq; [|auto]. simpl. eauto.
  - destruct (goroutines s !! i) as [g|]; [|done].
    destruct (gRunning g && gCancelled g); simplify_eq. simpl. eauto.
Qed.

Lemma owned_terminate s u i :
  cancels u = cancels s -> goroutines u = goroutines s \/ goroutines u = terminate i (goroutines s) ->
  owned s -> owned u.
Proof.
  intros Hc [Hg|Hg] H j g Hj Hr Hca; rewrite Hc; rewrite Hg in Hj.
  - by apply (H j g).
  - destruct (terminate_lookup _ _ _ _ Hj) as (g0 & H0 & -> & Hca0 & Hr0).
    apply (H j g0); [done | by apply Hr0 | congruence].
Qed.

Lemma owned_event e s : freshStart (Event e) s -> owned s -> owned (handleEvent e s).
Proof.
  intros Hf H. unfold handleEvent. destruct (String.eqb_spec (Action e) ContainerActionStart) as [Ha|_].
  - specialize (Hf Ha). intros j g Hj Hr Hca. cbn [cancels goroutines] in *.
    apply lookup_app_Some in Hj. destruct Hj as [Hj | [Hlen Hj]].
    + pose proof (H j g Hj Hr Hca) as Hc. rewrite lookup_insert_ne; [done|]. intros E. by rewrite E, Hc in Hf.
    + apply list_lookup_singleton_Some in Hj as [Hj <-]. cbn [gContainer].
      rewrite lookup_insert_eq. f_equal. lia.
  - destruct (String.eqb (Action e) ContainerActionStop); [|done].
    destruct (cancels s !! ContainerID e) as [i|] eqn:E; [|done].
    intros j g Hj Hr Hca. cbn [cancels goroutines] in *.
    destruct (cancel_lookup _ _ _ _ Hj) as (g0 & H0 & -> & Hr0 & Hca0).
    destruct (Hca0 Hca) as [Hca1 Hne]. rewrite Hr0 in Hr. pose proof (H j g0 H0 Hr Hca1) as Hc.
    rewrite lookup_delete_ne; [done|]. intros E'. rewrite E' in E. congruence.
Qed.

Lemma owned_reachable cpus s : steps FreshStep (start cpus) s -> owned s.
Proof.
  apply steps_ind_inv.
  - intros i g Hi. cbn [start goroutines] in Hi. by rewrite lookup_nil in Hi.
  - intros a b Ha (act & Hf & Hst). destruct act as [e|r|i r c|i].
    { simpl in Hst. injection Hst as <-. by apply owned_event. }
    all: edestruct goroutine_step as (Hc & [Hg|[j Hg]]); [ | exact Hst | | ]; try done;
      [ eapply (owned_terminate _ _ 0); eauto | eapply owned_terminate; eauto ].
Qed.

Lemma cancelsOk_step a s u : step a s = Some (Ok u) -> cancelsOk s -> cancelsOk u.
Proof.
  intros Hst H id i. destruct a as [e|r|j r c|j].
  { simpl in Hst. injection Hst as <-. unfold handleEvent. repeat case_match; cbn [cancels goroutines].
    - rewrite lookup_insert_Some. intros [[<- <-]|[Hne Hc]].
      + eexists. split; [apply list_lookup_middle; done|done].
      + destruct (H id i Hc) as (g & Hg & Hid). exists g.
        split; [by apply lookup_app_l_Some|done].
    - rewrite lookup_delete_Some. intros [Hid Hc]. destruct (H id i Hc) as (g & Hg & Hgid).
      exists g. unfold cancel. destruct (decide (i = n)) as [->|Hne]; [|by rewrite list_lookup_alter_ne].
      destruct (H (ContainerID e) n ltac:(done)) as (g' & Hg' & E & _). destruct Hgid as [E' _]. congruence.
    - apply H.
    - apply H. }
  all: edestruct goroutine_step as (Hc & Hg); [ | exact Hst | ]; [done|].
  all: rewrite Hc; intros Hi; destruct (H id i Hi) as (g & Hgi & Hid).
  all: destruct Hg as [-> | [k ->]]; [by exists g|].
  all: unfold terminate; destruct (decide (i = k)) as [->|Hne];
    [ eexists; rewrite list_lookup_alter, decide_True, Hgi by done; by split
    | exists g; by rewrite list_lookup_alter_ne ].
Qed.

Lemma cancelsOk_reachable cpus s : steps Step (start cpus) s -> cancelsOk s.
Proof.
  apply steps_ind_inv; [by intros id i Hi; cbn in Hi; rewrite lookup_empty in Hi|].
  intros a b Ha [act Hst]. by eapply cancelsOk_step.
Qed.

Lemma orphan_step i s u : orphan i s -> Step s u -> orphan i u.
Proof.
  intros [Hc (g & Hg & Hca)] [a Hst]. destruct a as [e|r|j r c|j].
  { simpl in Hst. injection Hst as <-. unfold handleEvent. repeat case_match; [| |by split; [|exists g]..].
    - split; cbn [cancels goroutines].
      + intros id. rewrite lookup_insert_Some. intros [[_ E]|[_ E]]; [|by eapply Hc].
        apply lookup_lt_Some in Hg. lia.
      + exists g. split; [by apply lookup_app_l_Some|done].
    - split; cbn [cancels goroutines].
      + intros id. rewrite lookup_delete_Some. intros [_ E]. by eapply Hc.
      + exists g. unfold cancel. rewrite list_lookup_alter_ne; [done|]. intros ->. by eapply Hc. }
  all: edestruct goroutine_step as (Hcu & Hgu); [ | exact Hst | ]; [done|].
  all: split; [by rewrite Hcu|]; destruct Hgu as [-> | [k ->]]; [by exists g|].
  all: unfold terminate; destruct (decide (i = k)) as [->|Hne];
    [ eexists; rewrite list_lookup_alter, decide_True, Hg by done; by split
    | exists g; by rewrite list_lookup_alter_ne ].
Qed.

Lemma GetHostUsage_total m : exists u, GetHostUsage m = Ok u.
Proof. unfold GetHostUsage. repeat case_match; eauto. Qed.

Lemma GetHostUsage_nan m p s u :
  previousHostUsage m = Some p -> currentHostUsage m = Some s -> Sum s = Sum p -> IDLE s = IDLE p ->
  GetHostUsage m = Ok u -> is_finite (Client.hUsage u) = false.
Proof.
  intros Hp Hs E1 E2. unfold GetHostUsage. rewrite Hp, Hs, E1, E2. unfold subi. rewrite !Z.sub_diag.
  intros H. vm_compute in H. by inv_ok.
Qed.

(** ** Accuracy *)

Lemma exactly_not_neg k x : exactly k x -> fltb x fzero = false.
Proof. destruct x as [| | |s m e]; cbn; [done..|]. by intros (-> & _). Qed.

Lemma exactly_pos_lt k x : 0 < k -> exactly k x -> fltb fzero x = true.
Proof. intros Hk Hx. by apply exactly_pos in Hx as (m & e & -> & _); [|done]. Qed.

(** The percentage lies between 0 and 100 for each CPU, and within one of the exact
    one; what is rounded and then truncated may be one below it. *)
Lemma percents_accurate oob cpus used total :
  0 < cpus <= 2 ^ 40 -> 0 <= used <= total -> total < 2 ^ 53 ->
  0 <= percents oob cpus used total <= 100 * cpus /\
  Z.abs (percents oob cpus used total - used * 100 * cpus / total) <= 1.
Proof.
  intros Hc Hu Ht. unfold percents. destruct (decide (used = 0)) as [->|Hu0].
  { replace (fltb fzero (of_int 0)) with false by done. cbn [andb].
    rewrite !Z.mul_0_l, Zdiv_0_l. lia. }
  pose proof (of_int_exactly used ltac:(lia)) as Hx. pose proof (of_int_exactly total ltac:(lia)) as Hy.
  pose proof (of_int_exactly 100 ltac:(lia)) as H100. pose proof (of_int_exactly cpus ltac:(lia)) as Hcpus.
  set (x := of_int used) in *. set (y := of_int total) in *.
  set (h := of_int 100) in *. set (k := of_int cpus) in *.
  rewrite (exactly_pos_lt used x), (exactly_pos_lt total y) by (done || lia). cbn [andb].
  assert (between 1 (fdiv x y)) as Hb1.
  { apply (fdiv_between total); [lia| |done]. eapply between_mono; [|by apply exactly_between]. lia. }
  pose proof (fmul_between 1 100 _ _ ltac:(lia) ltac:(lia) Hb1 H100) as Hb2.
  pose proof (fmul_between 100 cpus _ _ ltac:(lia) ltac:(lia) Hb2 Hcpus) as Hb3.
  assert (used * 100 * cpus <= total * 100 * 2 ^ 40) as Hle.
  { transitivity (total * 100 * cpus); [nia|]. apply Z.mul_le_mono_nonneg_l; lia. }
  assert (near 1 used total (fdiv x y)) as Hn1 by (apply fdiv_near; lia || done).
  assert (near 3 (used * 100) total (fmul (fdiv x y) h)) as Hn2 by (apply (fmul_near 1); lia || done).
  assert (near 5 (used * 100 * cpus) total (fmul (fmul (fdiv x y) h) k)) as Hn3
    by (apply (fmul_near 3); lia || done).
  destruct (between_trunc (100 * cpus) _ ltac:(lia) Hb3) as (z & Hz & Hr).
  destruct (near_trunc 5 (used * 100 * cpus) total _ ltac:(lia) ltac:(lia) ltac:(nia) ltac:(lia) Hn3) as (z' & Hz' & Hr').
  rewrite Hz in Hz'. injection Hz' as <-.
  unfold to_int64. rewrite Hz, bool_decide_true by (unfold is_i64; lia). lia.
Qed.

(** The share answered when the counters grew. *)
Lemma share_accurate idle total :
  0 <= idle <= total -> 0 < total < 2 ^ 53 ->
  let x := fdiv (fsub (of_int total) (of_int idle)) (of_int total) in
  fltb (of_int idle) fzero = false /\ fltb (of_int total) fzero = false /\ between 1 x /\
  (Qabs (fvalue x - ratio (total - idle) total) <= (1 # 2 ^ 53) * ratio (total - idle) total)%Q.
Proof.
  intros Hi Ht. cbv zeta.
  pose proof (of_int_exactly total ltac:(lia)) as Hx. pose proof (of_int_exactly idle ltac:(lia)) as Hy.
  pose proof (fsub_exactly total idle _ _ (proj2 Ht) Hi Hx Hy) as Hd.
  set (y := of_int idle) in *. set (x := of_int total) in *. set (d := fsub x y) in *.
  split; [by eapply exactly_not_neg|]. split; [by eapply exactly_not_neg|]. split.
  { apply (fdiv_between total); [lia| |done]. eapply between_mono; [|by apply exactly_between]. lia. }
  destruct (decide (total - idle = 0)) as [E|E].
  - rewrite E in *. apply exactly_zero in Hd as (s & Hd). rewrite Hd.
    apply exactly_pos in Hx as (m & e & Hx & _ & _); [|lia]. rewrite Hx. unfold Qle. cbn. lia.
  - apply near_fvalue; [lia|]. apply fdiv_near; lia || done.
Qed.

(** ** Properties *)

(** C4. However the goroutines interleave, what [GetContainerUsage] answers is
    computed from the two last statistics recorded for the container since its data
    was last cleaned and from the two last system usages recorded for it: zero
    before the first record, and after one record the difference with zero, that
    is the usage since the container and the host started. *)
Theorem container_window (oob : float64 -> Z) (cpus : Z) (ops : list op) (s : system) (id : string) :
  runs (start cpus) ops s ->
  GetContainerUsage oob id (monitor s) =
    Ok (specContainerUsage oob cpus (statsSinceClean id ops) (systemUsages id ops)).
Proof.
  intros Hr. destruct (runs_tracks cpus ops s Hr) as [Ht Hn]. destruct (Ht id) as [H1 H2].
  unfold GetContainerUsage, specContainerUsage, statsAt, mapget. rewrite Hn.
  destruct (statsSinceClean id ops) as [|st sts] eqn:E; destruct H1 as [Hc Hp]; rewrite Hp; [done|].
  rewrite Hc. cbn [default].
  destruct (systemUsages id ops) as [|y ys]; destruct H2 as [-> ->]; done.
Qed.

(** The host usage is zero until two samples are there, and when the sum or
    the idle time went back; it is the share of the non-idle time otherwise; two
    equal samples give a value that is not a number. *)
Theorem GetHostUsage_cases (m : t) :
  match previousHostUsage m, currentHostUsage m with
  | Some p, Some c =>
      let dsum := of_int (subi (Sum c) (Sum p)) in
      let didle := of_int (subi (IDLE c) (IDLE p)) in
      exists u, GetHostUsage m = Ok u /\ Client.QueueLengthExponentiallySmoothed u = fzero /\
        ((fltb didle fzero = true \/ fltb dsum fzero = true) -> u = zeroHost) /\
        (fltb didle fzero = false -> fltb dsum fzero = false ->
           Client.hAmount u = numCPU m /\ Client.hUsage u = fdiv (fsub dsum didle) dsum) /\
        (Sum c = Sum p -> IDLE c = IDLE p -> is_finite (Client.hUsage u) = false)
  | _, _ => GetHostUsage m = Ok zeroHost
  end.
Proof.
  unfold GetHostUsage.
  destruct (previousHostUsage m) as [p|]; [|done]. destruct (currentHostUsage m) as [c|]; [|done].
  cbv zeta. set (dsum := of_int (subi (Sum c) (Sum p))). set (didle := of_int (subi (IDLE c) (IDLE p))).
  assert (Sum c = Sum p -> IDLE c = IDLE p -> dsum = fzero /\ didle = fzero) as Heq.
  { intros E1 E2. subst dsum didle. rewrite E1, E2. unfold subi. by rewrite !Z.sub_diag. }
  exists (if fltb didle fzero || fltb dsum fzero then zeroHost
          else Client.mkHostCpuUsage (fdiv (fsub dsum didle) dsum) (numCPU m) fzero).
  split; [by destruct (fltb didle fzero || fltb dsum fzero)|].
  split; [by destruct (fltb didle fzero || fltb dsum fzero)|].
  split; [intros [-> | ->]; by rewrite ?orb_true_r|].
  split; [by intros -> ->|]. intros E1 E2. by destruct (Heq E1 E2) as [-> ->].
Qed.

(** C19. A tick of a running goroutine.  When both readers answer, the four maps
    move on for its container alone (the statistics read and the sum of the CPU times
    become the current ones, the current ones, zero if there are none, the previous
    ones) and the goroutine goes on.  Any error of the statistics reader ends the
    goroutine, which stays among the cancel functions, and forgets the statistics of
    the container, whose usage is then zero, but not the system usages.  An error of
    the CPU reader that is not itself a [StatsReaderError] changes nothing. *)
Theorem container_tick (oob : float64 -> Z) (r : CPUStat) (c : StatsReader) {spec : StatsReaderSpec c}
    (i : nat) (g : goroutine) (s : system) :
  goroutines s !! i = Some g -> gRunning g = true ->
  match @GetStats c (gContainer g) with
  | Err _ => exists u, step (ContainerTick i r c) s = Some (Ok u) /\ cancels u = cancels s /\
      goroutines u = <[i := mkGoroutine (gContainer g) (gCancelled g) false]> (goroutines s) /\
      (forall u', step (ContainerTick i r c) u <> Some (Ok u')) /\
      GetContainerUsage oob (gContainer g) (monitor u) = Ok Client.zeroCpuUsage /\
      sameElsewhere (gContainer g) (monitor s) (monitor u) /\
      currentContainerStats (monitor u) !! gContainer g = None /\
      previousContainerStats (monitor u) !! gContainer g = None /\
      currentSystemUsage (monitor u) !! gContainer g = currentSystemUsage (monitor s) !! gContainer g /\
      previousSystemUsage (monitor u) !! gContainer g = previousSystemUsage (monitor s) !! gContainer g
  | Ok st =>
      match @ReadCPUStats r with
      | Err e => asStatsReaderError e = false -> step (ContainerTick i r c) s = Some (Ok s)
      | Ok cpu => exists u, step (ContainerTick i r c) s = Some (Ok u) /\
          cancels u = cancels s /\ goroutines u = goroutines s /\
          sameElsewhere (gContainer g) (monitor s) (monitor u) /\
          currentContainerStats (monitor u) !! gContainer g = Some st /\
          previousContainerStats (monitor u) !! gContainer g =
            Some (statsAt (currentContainerStats (monitor s)) (gContainer g)) /\
          currentSystemUsage (monitor u) !! gContainer g = Some (Sum (All cpu)) /\
          previousSystemUsage (monitor u) !! gContainer g =
            Some (default 0 (currentSystemUsage (monitor s) !! gContainer g))
      | Panic p => step (ContainerTick i r c) s = Some (Panic p)
      end
  | Panic p => step (ContainerTick i r c) s = Some (Panic p)
  end.
Proof.
  intros Hg Hr. unfold step. rewrite Hg, Hr. unfold containerTick, updateContainerCPUUsage.
  destruct (@GetStats c (gContainer g)) as [st|e|p] eqn:E1; cbn [wrapMsg wrap obind]; [| |done].
  - destruct (@ReadCPUStats r) as [cpu|e|p]; cbn [wrapMsg wrap obind]; [|by intros He; simpl; rewrite He|done].
    eexists. split; [reflexivity|]. do 2 (split; [done|]). split.
    + repeat split; cbn; intros id Hne; by rewrite !lookup_insert_ne.
    + cbn. by rewrite !lookup_insert_eq.
  - simpl. rewrite (GetStats_error _ _ E1). eexists. split; [reflexivity|]. split; [done|].
    cbn [stopGoroutine goroutines monitor]. rewrite (terminate_insert _ _ _ Hg). split; [done|].
    rewrite list_lookup_insert_eq by (by eapply lookup_lt_Some). split; [done|].
    split; [unfold GetContainerUsage; cbn; by rewrite lookup_delete_eq|]. split.
    + repeat split; cbn; intros id Hne; by rewrite ?lookup_delete_ne.
    + cbn. by rewrite !lookup_delete_eq.
Qed.

(** C17. While no container is announced twice, at most one goroutine monitors a
    container with a live context, the one whose cancel function is kept; once the
    container is stopped there is none. *)
Theorem one_goroutine (cpus : Z) (s : system) (i j : nat) (g h : goroutine) :
  steps FreshStep (start cpus) s ->
  goroutines s !! i = Some g -> gRunning g = true -> gCancelled g = false ->
  (cancels s !! gContainer g = Some i) /\
  (goroutines s !! j = Some h -> gRunning h = true -> gCancelled h = false ->
     gContainer h = gContainer g -> i = j).
Proof.
  intros Hs%owned_reachable Hg Hr Hc. pose proof (Hs i g Hg Hr Hc) as Hi. split; [done|].
  intros Hh Hrh Hch E. pose proof (Hs j h Hh Hrh Hch) as Hj. congruence.
Qed.

(** C18. A container announced twice, which the docker stream does when it starts
    between a registration and the listing of the running containers, leaves its
    first goroutine out of reach: whatever happens next, no stop event cancels it. *)
Theorem duplicate_start_leaks (cpus : Z) (s u : system) (id : string) (i : nat) (g : goroutine) :
  steps Step (start cpus) s -> cancels s !! id = Some i ->
  goroutines s !! i = Some g -> gCancelled g = false ->
  steps Step (handleEvent (mkEvent id ContainerActionStart) s) u ->
  exists h, goroutines u !! i = Some h /\ gCancelled h = false /\ step (ContainerDone i) u = None.
Proof.
  intros Hs%cancelsOk_reachable Hi Hg Hc Hu.
  assert (orphan i (handleEvent (mkEvent id ContainerActionStart) s)) as Ho.
  { unfold handleEvent. simpl. split; cbn [cancels goroutines].
    - intros id'. rewrite lookup_insert_Some. apply lookup_lt_Some in Hg as Hlt.
      intros [[_ E]|[Hne E]]; [lia|]. destruct (Hs id i Hi) as (g1 & H1 & <- & _).
      destruct (Hs id' i E) as (g2 & H2 & <- & _). simplify_eq.
    - exists g. split; [by apply lookup_app_l_Some|done]. }
  assert (orphan i u) as [_ (h & Hh & Hch)].
  { eapply steps_ind_inv; [exact Ho | intros a b Ha Hab; by eapply orphan_step | exact Hu]. }
  exists h. split; [done|]. split; [done|]. simpl. rewrite Hh, Hch. by rewrite andb_false_r.
Qed.

(** C5. However the goroutines interleave, if the container used no more CPU
    time between its two last records than the CPUs of the host counted together,
    and that is less than [2 ^ 53] ns, the percentage answered for it lies between
    0 and 100 for each CPU, and within one of the exact percentage rounded down:
    the three roundings of the computation move it by less than that. *)
Theorem container_usage_accurate (oob : float64 -> Z) (cpus : Z) (ops : list op) (s : system) (id : string) :
  runs (start cpus) ops s -> 0 < cpus <= 2 ^ 40 ->
  let stats := statsSinceClean id ops in
  let systems := systemUsages id ops in
  let used := CPUUsage (newest zeroStats stats) - CPUUsage (former zeroStats stats) in
  let total := newest 0 systems - former 0 systems in
  stats <> [] -> 0 <= used <= total -> total < 2 ^ 53 ->
  exists p, GetContainerUsage oob id (monitor s) = Ok (Client.mkCpuUsage p) /\
    0 <= p <= 100 * cpus /\ Z.abs (p - used * 100 * cpus / total) <= 1.
Proof.
  intros Hr Hc. cbv zeta. intros Hne Hu Ht. destruct (runs_tracks cpus ops s Hr) as [Htr Hn].
  destruct (Htr id) as [H1 H2].
  eexists. split; [|by apply (percents_accurate oob)].
  unfold GetContainerUsage, statsAt, mapget. rewrite Hn.
  assert (default 0 (currentSystemUsage (monitor s) !! id) = newest 0 (systemUsages id ops) /\
          default 0 (previousSystemUsage (monitor s) !! id) = former 0 (systemUsages id ops)) as [-> ->]
    by (destruct (systemUsages id ops); destruct H2 as [-> ->]; done).
  destruct (statsSinceClean id ops) as [|st sts]; [done|]. destruct H1 as [-> ->]. cbn [default].
  unfold subi, Datatypes.id. rewrite !i64_small by (unfold is_i64; lia). done.
Qed.

(** C35. After two readings of counters that grew by less than [2 ^ 53] ns, the
    host usage is a number between 0 and 1, and it is the exact share of the time
    that was not idle but for the rounding of one division. *)
Theorem host_share_accurate (r1 r2 : CPUStat) (c1 c2 : CPUStats) (m : t) :
  @ReadCPUStats r1 = Ok c1 -> @ReadCPUStats r2 = Ok c2 ->
  nonneg (All c1) -> counters_le (All c1) (All c2) -> exactSum (All c2) < 2 ^ 63 ->
  0 < exactSum (All c2) - exactSum (All c1) < 2 ^ 53 ->
  let total := exactSum (All c2) - exactSum (All c1) in
  let idle := IDLE (All c2) - IDLE (All c1) in
  exists u, (let! m1 := @updateHostCPUUsage r1 m in let! m2 := @updateHostCPUUsage r2 m1 in GetHostUsage m2) = Ok u /\
    Client.hAmount u = numCPU m /\ is_finite (Client.hUsage u) = true /\
    (0 <= fvalue (Client.hUsage u) <= 1)%Q /\
    (Qabs (fvalue (Client.hUsage u) - ratio (total - idle) total) <= (1 # 2 ^ 53) * ratio (total - idle) total)%Q.
Proof.
  intros H1 H2 Hn Hle Hlt Hd. cbv zeta. unfold updateHostCPUUsage, GetHostUsage. rewrite H1, H2.
  cbn [wrapMsg wrap obind currentHostUsage previousHostUsage numCPU].
  destruct (Sum_idle_delta _ _ Hn Hle Hlt) as [Hi Hs].
  assert (subi (IDLE (All c2)) (IDLE (All c1)) = IDLE (All c2) - IDLE (All c1)) as Hidle.
  { apply i64_small. unfold is_i64, nonneg, counters_le, exactSum in *. lia. }
  rewrite Hs, Hidle in *.
  destruct (share_accurate _ _ Hi Hd) as (-> & -> & Hb & Ha). cbn [orb].
  eexists. split; [reflexivity|]. cbn [Client.hAmount Client.hUsage]. split; [done|].
  split; [by eapply between_finite|]. split; [|done]. by apply (between_fvalue 1).
Qed.

(** ** Witnesses *)

Definition exampleCPU (user idle : Z) : CPUStat :=
  {| ReadCPUStats := Ok (mkCPUStats (<["cpu" := mkCPUStat "cpu" user 0 0 idle 0 0 0 0 0 0]> ∅)) |}.
Definition exampleReader (used : Z) : StatsReader :=
  {| GetStats := fun _ => Ok (mkStats used 0 0 0 0 0 0 (mkIOUsage [])) |}.
Definition failingReader : StatsReader :=
  {| GetStats := fun _ => Err (StatsReaderError (ErrOpaque "cgroup deleted")) |}.
#[export] Instance failingReader_spec : StatsReaderSpec failingReader.
Proof. split. intros id e. simpl. intros [= <-]. reflexivity. Qed.

#[export] Instance exampleReader_spec used : StatsReaderSpec (exampleReader used).
Proof. by split. Qed.

Definition exampleStarted : system := handleEvent (mkEvent "c" "start") (start 4).

Definition exampleSecond : outcome system :=
  match step (ContainerTick 0 (exampleCPU 100 300) (exampleReader 40)) exampleStarted with
  | Some (Ok s) =>
      match step (ContainerTick 0 (exampleCPU 150 450) (exampleReader 90)) s with
      | Some o => o
      | None => Panic ""
      end
  | _ => Panic ""
  end.

Definition exampleOps : list op :=
  ((([] ++ effect (Event (mkEvent "c" "start")) (start 4)) ++
     effect (ContainerTick 0 (exampleCPU 100 300) (exampleReader 40)) exampleStarted) ++
     effect (ContainerTick 0 (exampleCPU 150 450) (exampleReader 90))
       (setMonitor (mkMonitor 4 None None (<["c" := 400]> ∅) (<["c" := 0]> ∅)
          (<["c" := mkStats 40 0 0 0 0 0 0 (mkIOUsage [])]> ∅) (<["c" := zeroStats]> ∅)) exampleStarted))%list.

(** Half of one CPU over a window in which 200 of the 4 CPUs' units passed. *)
Lemma container_window_witness :
  exists s, exampleSecond = Ok s /\
    GetContainerUsage (fun _ => 0) "c" (monitor s) = Ok (Client.mkCpuUsage 100).
Proof.
  eexists. split; [vm_compute; reflexivity|].
  match goal with |- context [monitor ?s] => pose proof (container_window (fun _ => 0) 4 exampleOps s "c") as H end.
  etransitivity; [apply H | vm_compute; reflexivity]. unfold exampleOps.
  repeat (eapply runs_snoc; [|vm_compute; reflexivity]). constructor.
Defined.

Lemma container_usage_accurate_witness :
  exists s p, exampleSecond = Ok s /\
    GetContainerUsage (fun _ => 0) "c" (monitor s) = Ok (Client.mkCpuUsage p) /\
    0 <= p <= 400 /\ Z.abs (p - 100) <= 1.
Proof.
  eexists. match goal with |- exists p, exampleSecond = Ok ?s /\ _ =>
    assert (exampleSecond = Ok s) as E by (vm_compute; reflexivity) end.
  match goal with |- exists p, _ = Ok ?s /\ _ =>
    destruct (container_usage_accurate (fun _ => 0) 4 exampleOps s "c") as (p & H1 & H2 & H3) end.
  - unfold exampleOps. repeat (eapply runs_snoc; [|vm_compute; reflexivity]). constructor.
  - lia.
  - discriminate.
  - apply (bool_decide_unpack _). vm_compute. exact I.
  - apply (bool_decide_unpack _). vm_compute. exact I.
  - exists p. split; [exact E | split; [exact H1 | split; [exact H2 | exact H3]]].
Defined.

Lemma host_share_accurate_witness :
  exists u, (let! m1 := @updateHostCPUUsage (exampleCPU 100 300) (NewCPUUsageMonitor 4) in
             let! m2 := @updateHostCPUUsage (exampleCPU 150 450) m1 in GetHostUsage m2) = Ok u /\
    Client.hAmount u = 4 /\ is_finite (Client.hUsage u) = true.
Proof.
  destruct (host_share_accurate (exampleCPU 100 300) (exampleCPU 150 450)
    (mkCPUStats (<["cpu" := mkCPUStat "cpu" 100 0 0 300 0 0 0 0 0 0]> ∅))
    (mkCPUStats (<["cpu" := mkCPUStat "cpu" 150 0 0 450 0 0 0 0 0 0]> ∅)) (NewCPUUsageMonitor 4)) as (u & H1 & H2 & H3 & _);
    [reflexivity | reflexivity | | | | | exists u; split; [exact H1 | split; [exact H2 | exact H3]]].
  all: vm_compute; repeat split; discriminate.
Defined.

(** Truncation after rounding: 29 of 100 units of one CPU are answered as 28%. *)
Example percents_29 : percents (fun _ => 0) 1 29 100 = 28.
Proof. reflexivity. Qed.

(** One tick that records the system usage, one that ends the goroutine. *)
Lemma container_tick_witness :
  (exists u, step (ContainerTick 0 (exampleCPU 30 70) (exampleReader 40)) exampleStarted = Some (Ok u) /\
     currentSystemUsage (monitor u) !! "c" = Some 100) /\
  exists u, step (ContainerTick 0 (exampleCPU 1 1) failingReader) exampleStarted = Some (Ok u) /\
    GetContainerUsage (fun _ => 0) "c" (monitor u) = Ok Client.zeroCpuUsage.
Proof.
  split.
  - destruct (container_tick (fun _ => 0) (exampleCPU 30 70) (exampleReader 40) 0 (mkGoroutine "c" false true)
                exampleStarted) as (u & H1 & _ & _ & _ & _ & _ & H2 & _); [reflexivity | reflexivity |].
    exists u. split; [exact H1 | exact H2].
  - destruct (container_tick (fun _ => 0) (exampleCPU 1 1) failingReader 0 (mkGoroutine "c" false true)
                exampleStarted) as (u & H1 & _ & _ & _ & H2 & _); [reflexivity | reflexivity |].
    exists u. split; [exact H1 | exact H2].
Defined.

Lemma one_goroutine_witness : cancels exampleStarted !! "c" = Some 0%nat.
Proof.
  apply (one_goroutine 4 exampleStarted 0 0 (mkGoroutine "c" false true) (mkGoroutine "c" false true));
    [|reflexivity..].
  apply steps_one. exists (Event (mkEvent "c" "start")). split; [intros _; reflexivity | reflexivity].
Defined.

Lemma duplicate_start_leaks_witness :
  exists h, goroutines (handleEvent (mkEvent "c" "stop")
              (handleEvent (mkEvent "c" "start") exampleStarted)) !! 0%nat = Some h /\ gCancelled h = false.
Proof.
  destruct (duplicate_start_leaks 4 exampleStarted
    (handleEvent (mkEvent "c" "stop") (handleEvent (mkEvent "c" "start") exampleStarted)) "c" 0
    (mkGoroutine "c" false true)) as (h & H1 & H2 & _); [| reflexivity | reflexivity | reflexivity | |].
  - apply steps_one. exists (Event (mkEvent "c" "start")). reflexivity.
  - apply steps_one. exists (Event (mkEvent "c" "stop")). reflexivity.
  - exists h. split; [exact H1 | exact H2].
Defined.

End CpuMonitor.
