(* ===== verification/NetMonitor.v ===== *)
(** * net/: the network usage of the containers

    [NetMonitor], its two goroutines, whose critical sections interleave, and the
    search of a container's interface on the host.  The netlink calls, the run of [ip link show] and [netstat.Stats] are
    outside the repository: parameters. *)
From S2P Require Import Prelude GoStrings GoFloat FloatBounds GoTime ProcfsUtils Docker Client.

(** The calls of [getContainerIfaceID] and the command of [getContainerIface]: the
    outcome of [cmd.Start], then the output with the outcome of [cmd.Wait]. *)
Class NetLib : Type := {
  nsHandle : Type;
  nlHandle : Type;
  GetFromDocker : string -> outcome nsHandle;
  NewHandleAt : nsHandle -> outcome nlHandle;
  LinkParentIndex : nlHandle -> string -> outcome Z;
  ipLinkStart : outcome unit;
  ipLinkOutput : string;
  ipLinkWait : option error }.

Module NetMonitor.

(** ** net/iface.go *)

Definition getContainerIfaceID {lib : NetLib} (id : string) : outcome string :=
  let! ns := wrapMsg "could not get network namespace" (GetFromDocker id) in
  let! nl := wrapMsg "could not create netlink handle" (NewHandleAt ns) in
  let! parent := wrapMsg "could not get eth0 link" (LinkParentIndex nl "eth0") in
  if parent =? 0 then Err (Errorf "could not get veth parent index")
  else Ok (Itoa parent).

(** [strings.TrimSpace(strings.Split(strings.Split(line, "@")[0], ":")[1])]. *)
Definition ifaceName (line : string) : outcome string :=
  let! beforeAt := index (Split "@" line) 0 in
  let! name := index (Split ":" beforeAt) 1 in
  Ok (TrimSpace name).

(** The loop over the lines; [None] when no line starts with the identifier. *)
Fixpoint findIface (ifaceID : string) (lines : list string) : outcome (option string) :=
  match lines with
  | [] => Ok None
  | line :: lines' =>
      if HasPrefix line ifaceID then let! name := ifaceName line in Ok (Some name)
      else findIface ifaceID lines'
  end.

Definition getContainerIface {lib : NetLib} (id : string) : outcome string :=
  let! ifaceID := wrapMsg ("get container '" +:+ id +:+ "' interface") (getContainerIfaceID id) in
  let! _ := ipLinkStart in
  match ipLinkWait with
  | Some e => let! msg := errorString e in Err (ErrOpaque (msg +:+ ": " +:+ ipLinkOutput))
  | None =>
      let! found := findIface ifaceID (Split nl ipLinkOutput) in
      match found with
      | Some name => Ok name
      | None => Err (Errorf ("interface not found for '" +:+ id +:+ "', " +:+ ifaceID))
      end
  end.

(** ** net/net.go *)

Record t : Type := mkMonitor {
  netUsages : gmap string Client.NetworkStat;
  previousNetUsages : gmap string Client.NetworkStat;
  containerIfaces : gmap string string }.

Definition NewNetMonitor : t := mkMonitor ∅ ∅ ∅.

Definition statAt (m : gmap string Client.NetworkStat) (id : string) : Client.NetworkStat :=
  mapget Client.zeroNetworkStat m id.

(** The body of the loop of a tick has two critical sections.  Under
    [containerIfacesMutex], the container of the interface; [""] without one. *)
Definition lookupContainer (stat : Client.NetworkStat) (m : t) : string :=
  mapget "" (containerIfaces m) (Client.Interface stat).

(** Under [netUsagesMutex], the sample. *)
Definition recordUsage (containerID : string) (stat : Client.NetworkStat) (m : t) : t :=
  mkMonitor (<[containerID := stat]> (netUsages m))
    (<[containerID := statAt (netUsages m) containerID]> (previousNetUsages m))
    (containerIfaces m).

(** The body of the loop when no event is handled between the two; the goroutines below
    take them as two steps, of which this is one interleaving ([tick_runs]). *)
Definition observe (stat : Client.NetworkStat) (m : t) : t :=
  let containerID := lookupContainer stat m in
  if String.eqb containerID "" then m else recordUsage containerID stat m.

(** A tick of [Start] during which no event is handled; [stats] is what
    [netstat.Stats] returns. *)
Definition tick (stats : outcome (list Client.NetworkStat)) (m : t) : outcome t :=
  match stats with
  | Ok l => Ok (fold_left (fun m stat => observe stat m) l m)
  | Err _ => Ok m
  | Panic p => Panic p
  end.

Definition startMonitoringContainer {lib : NetLib} (containerID : string) (m : t) : outcome t :=
  match getContainerIface containerID with
  | Ok iface => Ok (mkMonitor (netUsages m) (previousNetUsages m) (<[iface := containerID]> (containerIfaces m)))
  | Err _ => Ok m
  | Panic p => Panic p
  end.

(** [cleanMonitoringData]: the loop over the map stops at the first interface of the
    container; [order] is the order in which Go visits the entries. *)
Definition cleanMonitoringData (order : list (string * string)) (containerID : string) (m : t) : t :=
  match List.find (fun kv => String.eqb kv.2 containerID) order with
  | Some (iface, _) =>
      mkMonitor (netUsages m) (previousNetUsages m) (delete iface (containerIfaces m))
  | None => m
  end.

(** The body of the loop of [listeningNewInterfaces]. *)
Definition handleEvent {lib : NetLib} (order : list (string * string)) (event : ContainerEvent) (m : t)
    : outcome t :=
  if String.eqb (Action event) ContainerActionStart then startMonitoringContainer (ContainerID event) m
  else if String.eqb (Action event) ContainerActionStop then
    Ok (cleanMonitoringData order (ContainerID event) m)
  else Ok m.

(** [int64(float64(cur - prev) / config.RefreshTime.Seconds())], if [prev > 0]. *)
Definition bps (oob : float64 -> Z) (refreshTime cur prev : Z) : Z :=
  if 0 <? prev then to_int64 oob (fdiv (of_int (subu cur prev)) (Seconds refreshTime)) else 0.

Definition rxBytes (s : Client.NetworkStat) : Z := Client.Bytes (Client.Received s).
Definition txBytes (s : Client.NetworkStat) : Z := Client.Bytes (Client.Transmit s).

Definition GetUsage (oob : float64 -> Z) (refreshTime : Z) (id : string) (m : t) : outcome Client.NetUsage :=
  let cur := statAt (netUsages m) id in
  let prev := statAt (previousNetUsages m) id in
  Ok (Client.mkNetUsage cur
        (bps oob refreshTime (rxBytes cur) (rxBytes prev))
        (bps oob refreshTime (txBytes cur) (txBytes prev))).

(** ** The two goroutines

    Between the two critical sections the goroutine of [Start] holds a sample and the
    container to record it for, and an event may be handled. *)

Record system : Type := mkSystem {
  monitor : t;
  holding : option (string * Client.NetworkStat) }.

Definition start : system := mkSystem NewNetMonitor None.

Inductive action : Type :=
| Lookup (stat : Client.NetworkStat)
| RecordHeld
| Event (lib : NetLib) (order : list (string * string)) (event : ContainerEvent).

Definition step (a : action) (s : system) : option (outcome system) :=
  match a with
  | Lookup stat =>
      match holding s with
      | Some _ => None
      | None =>
          let containerID := lookupContainer stat (monitor s) in
          Some (Ok (mkSystem (monitor s) (if String.eqb containerID "" then None else Some (containerID, stat))))
      end
  | RecordHeld =>
      match holding s with
      | Some (containerID, stat) => Some (Ok (mkSystem (recordUsage containerID stat (monitor s)) None))
      | None => None
      end
  | Event lib order event =>
      Some (let! m := @handleEvent lib order event (monitor s) in Ok (mkSystem m (holding s)))
  end.

(** The sample an action records, with its container. *)
Definition effect (a : action) (s : system) : list (string * Client.NetworkStat) :=
  match a, holding s with
  | RecordHeld, Some sample => [sample]
  | _, _ => []
  end.

Inductive runs (s : system) : list (string * Client.NetworkStat) -> system -> Prop :=
| runs_nil : runs s [] s
| runs_snoc h u a v : runs s h u -> step a u = Some (Ok v) -> runs s (h ++ effect a u)%list v.

(** ** Specification *)

(** The samples of one container. *)
Definition samplesOf (id : string) (h : list (string * Client.NetworkStat)) : list Client.NetworkStat :=
  map snd (List.filter (fun s => String.eqb s.1 id) h).

(** The bytes between two readings of a 64-bit counter: it wraps. *)
Definition elapsed (cur prev : Z) : Z := if prev <=? cur then cur - prev else 2 ^ 64 - (prev - cur).

Definition specRate (oob : float64 -> Z) (refreshTime cur prev : Z) : Z :=
  if 0 <? prev then to_int64 oob (fdiv (of_int (elapsed cur prev)) (Seconds refreshTime)) else 0.

Definition specUsage (oob : float64 -> Z) (refreshTime : Z) (samples : list Client.NetworkStat)
    : Client.NetUsage :=
  let cur := newest Client.zeroNetworkStat samples in
  let prev := former Client.zeroNetworkStat samples in
  Client.mkNetUsage cur (specRate oob refreshTime (rxBytes cur) (rxBytes prev))
    (specRate oob refreshTime (txBytes cur) (txBytes prev)).

Definition wfStat (s : Client.NetworkStat) : Prop := is_u64 (rxBytes s) /\ is_u64 (txBytes s).

(** A block of the output of [ip link show]: a numbered line, whose name may be
    followed by the peer's, and an indented line. *)
Record linkEntry : Type := mkLink { linkIndex : Z; linkName : string; linkPeer : option string;
                                    linkFlags : string; linkDetails : string }.

Definition renderLink (l : linkEntry) : list string :=
  [ FormatUint (linkIndex l) +:+ ": " +:+ linkName l +:+
      (match linkPeer l with Some p => "@" +:+ p | None => "" end) +:+ ": " +:+ linkFlags l;
    "    " +:+ linkDetails l ].

Definition noChar (c : ascii) (s : string) : bool := all_chars (fun x => negb (Ascii.eqb x c)) s.

Definition wfLink (l : linkEntry) : Prop :=
  is_u64 (linkIndex l) /\ linkName l <> "" /\ wordChars (linkName l) = true /\
  noChar "@" (linkName l) = true /\ noChar ":" (linkName l) = true /\
  noChar nl (linkFlags l) = true /\ noChar "@" (linkFlags l) = true /\ noChar nl (linkDetails l) = true /\
  match linkPeer l with Some p => noChar nl p = true | None => True end.

Definition renderLinks (ls : list linkEntry) : string := unlines (concat (map renderLink ls)).

(** The entries in the order the kernel lists them. *)
Fixpoint ascending (ls : list linkEntry) : Prop :=
  match ls with
  | l :: ((l' :: _) as ls') => linkIndex l < linkIndex l' /\ ascending ls'
  | _ => True
  end.

(** ** Lemmas *)

Lemma noChar_app c s u : noChar c (s +:+ u) = noChar c s && noChar c u.
Proof. apply all_chars_app. Qed.

Lemma noChar_digits c s : is_digit c = false -> all_chars is_digit s = true -> noChar c s = true.
Proof.
  intros Hc. apply all_chars_impl. intros x Hx. apply negb_true_iff.
  destruct (Ascii.eqb_spec x c) as [->|]; congruence.
Qed.

Lemma wordChars_noChar c s : is_space c = true -> wordChars s = true -> noChar c s = true.
Proof.
  intros Hc. apply all_chars_impl. intros x Hx%negb_true_iff. apply negb_true_iff.
  destruct (Ascii.eqb_spec x c) as [->|]; congruence.
Qed.

Lemma TrimRight_word w : wordChars w = true -> TrimRight w = w.
Proof.
  induction w as [|c w IH]; [done|]. unfold wordChars. cbn [all_chars TrimRight].
  rewrite andb_true_iff, negb_true_iff. intros [Hc Hw]. rewrite IH by done. rewrite Hc. by destruct w.
Qed.

Lemma TrimSpace_name w : wordChars w = true -> w <> "" -> TrimSpace (String " " w) = w.
Proof.
  intros Hw Hne. unfold TrimSpace. cbn [TrimLeft]. change (is_space " ") with true. cbv iota.
  rewrite <- (string_app_nil_r w) at 1. rewrite TrimLeft_word, string_app_nil_r by done.
  by apply TrimRight_word.
Qed.

Lemma ifaceName_render l :
  wfLink l ->
  ifaceName (FormatUint (linkIndex l) +:+ ": " +:+ linkName l +:+
      (match linkPeer l with Some p => "@" +:+ p | None => "" end) +:+ ": " +:+ linkFlags l)
  = Ok (linkName l).
Proof.
  intros (Hi & Hne & Hw & Hat & Hcol & _ & Hflags & _ & _). unfold ifaceName.
  assert (all_chars is_digit (FormatUint (linkIndex l)) = true) as Hd by apply FormatUint_digits, Hi.
  assert (forall rest, Split ":" (FormatUint (linkIndex l) +:+ ": " +:+ linkName l +:+ rest) =
            FormatUint (linkIndex l) :: Split ":" (" " +:+ linkName l +:+ rest)) as Hsplit.
  { intros rest. change (": " +:+ linkName l +:+ rest) with (String ":" (" " +:+ linkName l +:+ rest)).
    apply Split_app. by apply noChar_digits. }
  assert (noChar ":" (" " +:+ linkName l) = true) as Hcol' by by rewrite noChar_app, Hcol.
  assert (TrimSpace (" " +:+ linkName l) = linkName l) as Htrim by by apply TrimSpace_name.
  destruct (linkPeer l) as [p|].
  - assert (Split "@" (FormatUint (linkIndex l) +:+ ": " +:+ linkName l +:+ ("@" +:+ p) +:+ ": " +:+ linkFlags l)
            = (FormatUint (linkIndex l) +:+ ": " +:+ linkName l +:+ "") :: Split "@" (p +:+ ": " +:+ linkFlags l)) as ->.
    { rewrite string_app_nil_r, <- !string_app_assoc.
      rewrite (string_app_assoc _ "@" p), (string_app_assoc _ ("@" +:+ p) ": "),
        (string_app_assoc _ (("@" +:+ p) +:+ ": ")).
      change ((("@" +:+ p) +:+ ": ") +:+ linkFlags l) with (String "@" ((p +:+ ": ") +:+ linkFlags l)).
      apply Split_app.
      fold (noChar "@" ((FormatUint (linkIndex l) +:+ ": ") +:+ linkName l)).
      rewrite !noChar_app, Hat, (noChar_digits "@") by done. done. }
    change (index (?x :: ?y) 0) with (Ok x). cbn [obind]. rewrite Hsplit, string_app_nil_r.
    rewrite (Split_single ":" (" " +:+ linkName l)) by done.
    change (index [?x; ?y] 1) with (Ok y). cbn [obind]. by rewrite Htrim.
  - rewrite Split_single.
    2: { fold (noChar "@" (FormatUint (linkIndex l) +:+ ": " +:+ linkName l +:+ "" +:+ ": " +:+ linkFlags l)).
         rewrite !noChar_app, Hat, Hflags, (noChar_digits "@") by done. done. }
    change (index [?x] 0) with (Ok x). cbn [obind]. rewrite Hsplit, string_app_nil_l.
    change (" " +:+ linkName l +:+ ": " +:+ linkFlags l) with
      (" " +:+ (linkName l +:+ String ":" (" " +:+ linkFlags l))).
    rewrite <- string_app_assoc, Split_app by done.
    change (index (?x :: ?y :: ?z) 1) with (Ok y). cbn [obind]. by rewrite Htrim.
Qed.

Lemma parse_digits_ge s acc n : 0 <= acc -> parse_digits acc s = Some n -> acc <= n.
Proof.
  revert acc. induction s as [|c s IH]; intros acc Ha; cbn [parse_digits]; [intros [= ->]; lia|].
  destruct (is_digit c) eqn:Hc; [|done]. pose proof (digit_val_range c Hc).
  intros H1%IH; lia.
Qed.

(** A number whose decimal digits start with those of [p] is at least [p]. *)
Lemma FormatUint_prefix i p :
  is_u64 i -> is_u64 p -> HasPrefix (FormatUint i) (FormatUint p) = true -> p <= i.
Proof.
  intros Hi Hp [t Ht]%HasPrefix_spec. pose proof (FormatUint_parse i Hi) as H.
  rewrite Ht, parse_digits_app, FormatUint_parse in H by done.
  apply parse_digits_ge in H; [done|]. apply Hp.
Qed.

(** Digits are a prefix of a number and what follows it only if they are one of the number. *)
Lemma HasPrefix_digits d i c rest :
  all_chars is_digit d = true -> is_digit c = false ->
  HasPrefix (i +:+ String c rest) d = HasPrefix i d.
Proof.
  revert i. induction d as [|x d IH]; intros i Hd Hc; [by destruct i|].
  cbn [all_chars] in Hd. apply andb_true_iff in Hd as [Hx Hd].
  destruct i as [|y i]; [rewrite string_app_nil_l|rewrite string_app_cons]; unfold HasPrefix; cbn [String.prefix].
  - destruct (ascii_dec x c) as [->|]; [congruence|done].
  - destruct (ascii_dec x y); [by apply IH|done].
Qed.

Lemma HasPrefix_indented d rest :
  all_chars is_digit d = true -> d <> "" -> HasPrefix ("    " +:+ rest) d = false.
Proof.
  destruct d as [|x d]; [done|]. cbn [all_chars]. rewrite andb_true_iff. intros [Hx _] _.
  rewrite string_app_cons. unfold HasPrefix. cbn [String.prefix].
  by destruct (ascii_dec x " ") as [->|].
Qed.

Definition extends (p : Z) (l : linkEntry) : bool :=
  HasPrefix (FormatUint (linkIndex l)) (FormatUint p).

Lemma findIface_links p ls :
  is_u64 p -> Forall wfLink ls ->
  findIface (FormatUint p) (concat (map renderLink ls) ++ [""])%list =
    Ok (match List.find (extends p) ls with Some l => Some (linkName l) | None => None end).
Proof.
  intros Hp. assert (all_chars is_digit (FormatUint p) = true) as Hd by apply FormatUint_digits, Hp.
  induction 1 as [|l ls Hl _ IH].
  - cbn [map concat app findIface List.find]. destruct (FormatUint p) eqn:E; [by destruct (FormatUint_nonempty p)|done].
  - cbn [map concat renderLink app findIface List.find].
    change (FormatUint (linkIndex l) +:+ ": " +:+ ?x) with (FormatUint (linkIndex l) +:+ String ":" (" " +:+ x)).
    rewrite HasPrefix_digits by done. fold (extends p l). destruct (extends p l).
    + change (String ":" (" " +:+ ?x)) with (": " +:+ x). by rewrite ifaceName_render.
    + rewrite HasPrefix_indented by (done || apply FormatUint_nonempty). exact IH.
Qed.

Lemma Split_unlines ls :
  Forall (fun l => noChar nl l = true) ls -> Split nl (unlines ls) = (ls ++ [""])%list.
Proof.
  induction 1 as [|l ls Hl _ IH]; [done|]. cbn [unlines app].
  change (eol +:+ unlines ls) with (String nl (unlines ls)). by rewrite Split_app, IH.
Qed.

Lemma renderLinks_lines ls :
  Forall wfLink ls -> Forall (fun l => noChar nl l = true) (concat (map renderLink ls)).
Proof.
  induction 1 as [|l ls Hl _ IH]; [constructor|]. cbn [map concat renderLink app].
  destruct Hl as (Hi & _ & Hw & _ & _ & Hf & _ & Hdet & Hp).
  repeat constructor; [| |exact IH].
  - rewrite !noChar_app, Hf, (wordChars_noChar nl (linkName l)) by done.
    rewrite (noChar_digits nl (FormatUint (linkIndex l))) by (done || apply FormatUint_digits, Hi).
    destruct (linkPeer l); [rewrite noChar_app, Hp|]; reflexivity.
  - by rewrite noChar_app, Hdet.
Qed.

Lemma ascending_tail l ls : ascending (l :: ls) -> ascending ls /\ Forall (fun l' => linkIndex l < linkIndex l') ls.
Proof.
  revert l. induction ls as [|l' ls IH]; intros l H; [done|]. destruct H as [Hlt H]. split; [done|].
  constructor; [done|]. apply IH in H as [_ H]. eapply list.Forall_impl; [exact H|]. simpl. lia.
Qed.

(** In ascending order, the first entry that extends the number of one of them is that one. *)
Lemma find_extends p ls l :
  is_u64 p -> Forall wfLink ls -> ascending ls ->
  List.find (fun l => linkIndex l =? p) ls = Some l -> List.find (extends p) ls = Some l.
Proof.
  intros Hp. induction 1 as [|l' ls Hl' _ IH]; [done|]. intros Hasc. cbn [List.find].
  destruct (Z.eqb_spec (linkIndex l') p) as [E|Hne].
  - intros [= <-]. unfold extends. rewrite E.
    assert (HasPrefix (FormatUint p) (FormatUint p) = true) as -> by (apply HasPrefix_spec; exists ""; by rewrite string_app_nil_r).
    done.
  - intros Hf. apply ascending_tail in Hasc as [Hasc Hlt].
    destruct (extends p l') eqn:E; [|by apply IH].
    apply FormatUint_prefix in E; [|apply Hl'|done].
    apply find_some in Hf as [Hin Heq]. apply Z.eqb_eq in Heq.
    rewrite list.Forall_forall in Hlt. apply list_elem_of_In in Hin. specialize (Hlt l Hin). lia.
Qed.

(** An event records nothing and forgets nothing. *)
Lemma handleEvent_keeps {lib : NetLib} order e m m' :
  handleEvent order e m = Ok m' -> netUsages m' = netUsages m /\ previousNetUsages m' = previousNetUsages m.
Proof.
  unfold handleEvent, startMonitoringContainer, cleanMonitoringData. intros H.
  destruct (String.eqb (Action e) ContainerActionStart).
  - destruct (getContainerIface (ContainerID e)); by inv_ok.
  - destruct (String.eqb (Action e) ContainerActionStop); [|by inv_ok].
    destruct (List.find _ order) as [[]|]; by inv_ok.
Qed.

Lemma runs_holds h s id :
  runs start h s ->
  holds Client.zeroNetworkStat (samplesOf id h) (netUsages (monitor s) !! id) (previousNetUsages (monitor s) !! id).
Proof.
  induction 1 as [|h u a v _ IH Hst]; [done|].
  destruct a as [stat| |lib order e]; cbn [effect step] in *.
  - destruct (holding u); [done|]. simplify_eq. by rewrite app_nil_r.
  - destruct (holding u) as [[c stat]|]; [|done]. simplify_eq. unfold samplesOf.
    rewrite List.filter_app, map_app. cbn [List.filter fst monitor recordUsage netUsages previousNetUsages].
    destruct (String.eqb_spec c id) as [->|Hne].
    + rewrite !lookup_insert_eq. by eapply holds_snoc.
    + rewrite !lookup_insert_ne by done. by rewrite app_nil_r.
  - rewrite app_nil_r. destruct (@handleEvent lib order e (monitor u)) as [m| |] eqn:E; cbn [obind] in Hst; simplify_eq.
    apply handleEvent_keeps in E as [E1 E2]. cbn [monitor]. by rewrite E1, E2.
Qed.

(** A tick is made of the steps of the goroutine. *)
Lemma tick_runs stats h s m :
  runs start h s -> holding s = None -> tick stats (monitor s) = Ok m ->
  exists h', runs start h' (mkSystem m None).
Proof.
  intros Hr Hh Ht. destruct s as [u held]. cbn [holding monitor] in *. subst held. unfold tick in Ht.
  destruct stats as [l| |]; [|inv_ok; by eauto|done]. injection Ht as <-.
  revert h u Hr. induction l as [|stat l IH]; intros h u Hr; [by eauto|]. cbn [fold_left].
  assert (runs start (h ++ [])%list (mkSystem u (if String.eqb (lookupContainer stat u) "" then None
            else Some (lookupContainer stat u, stat)))) as Hl.
  { eapply (runs_snoc _ _ _ (Lookup stat)); [exact Hr|reflexivity]. }
  unfold observe. destruct (String.eqb _ ""); [by eapply IH|].
  eapply IH. eapply (runs_snoc _ _ _ RecordHeld); [exact Hl|reflexivity].
Qed.

Lemma subu_elapsed cur prev : is_u64 cur -> is_u64 prev -> subu cur prev = elapsed cur prev.
Proof.
  unfold is_u64, subu, u64, elapsed. intros H1 H2. destruct (Z.leb_spec prev cur).
  - rewrite Z.mod_small; lia.
  - rewrite <- (Z_mod_plus_full (cur - prev) 1). rewrite Z.mod_small; lia.
Qed.

Lemma newest_Forall {A} (P : A -> Prop) d l : P d -> Forall P l -> P (newest d l) /\ P (former d l).
Proof.
  intros Hd Hl. unfold newest, former. rewrite list.Forall_forall in Hl. split.
  - destruct (l !! pred (length l)) eqn:E; [|done]. by eapply Hl, list_elem_of_lookup_2.
  - destruct (length l <? 2)%nat; [done|].
    destruct (l !! (length l - 2)%nat) eqn:E; [|done]. by eapply Hl, list_elem_of_lookup_2.
Qed.

Lemma GetUsage_runs (oob : float64 -> Z) (refreshTime : Z) (h : list (string * Client.NetworkStat)) (s : system)
    (id : string) :
  runs start h s -> Forall wfStat (samplesOf id h) ->
  GetUsage oob refreshTime id (monitor s) = Ok (specUsage oob refreshTime (samplesOf id h)).
Proof.
  intros Hr Hwf. pose proof (runs_holds h s id Hr) as Hh.
  assert (statAt (netUsages (monitor s)) id = newest Client.zeroNetworkStat (samplesOf id h) /\
          statAt (previousNetUsages (monitor s)) id = former Client.zeroNetworkStat (samplesOf id h)) as [E1 E2].
  { unfold statAt, mapget. by destruct (samplesOf id h); destruct Hh as [-> ->]. }
  unfold GetUsage, specUsage. rewrite E1, E2.
  destruct (newest_Forall wfStat Client.zeroNetworkStat (samplesOf id h)) as [[W1 W2] [W3 W4]]; [done|done|].
  unfold bps, specRate. by rewrite !subu_elapsed.
Qed.

(** A whole number of seconds is exact, and so is the integer part of a rate. *)
Lemma Seconds_whole k : 0 < k < 2 ^ 53 -> exactly k (Seconds (k * Second)).
Proof.
  intros Hk. unfold Seconds. rewrite Z.quot_mul, Z.rem_mul by done.
  change (fdiv (of_int 0) (of_int Second)) with fzero.
  pose proof (of_int_exactly k ltac:(lia)) as Hx. destruct (exactly_pos k _ (proj1 Hk) Hx) as (m & e & E & _).
  rewrite E in *. exact Hx.
Qed.

Definition exactRate (k cur prev : Z) : Z := if 0 <? prev then elapsed cur prev / k else 0.

Lemma specRate_exact oob k cur prev :
  0 < k < 2 ^ 53 -> 0 <= elapsed cur prev < 2 ^ 53 -> specRate oob (k * Second) cur prev = exactRate k cur prev.
Proof.
  intros Hk He. unfold specRate, exactRate. destruct (0 <? prev); [|done].
  unfold to_int64. rewrite (trunc_fdiv (elapsed cur prev) k) by (done || by apply of_int_exactly || by apply Seconds_whole).
  rewrite bool_decide_true; [done|]. unfold is_i64.
  assert (0 <= elapsed cur prev / k) by (apply Z.div_pos; lia).
  assert (elapsed cur prev / k <= elapsed cur prev) by (apply Z.div_le_upper_bound; nia). lia.
Qed.

Lemma elapsed_nonneg cur prev : is_u64 cur -> is_u64 prev -> 0 <= elapsed cur prev.
Proof. unfold elapsed, is_u64. destruct (Z.leb_spec prev cur); lia. Qed.

(** *** After a stop *)

(** Any step but the start of the container. *)
Definition NotStarted (id : string) (s t : system) : Prop :=
  exists a, (forall lib order, a <> Event lib order (mkEvent id ContainerActionStart)) /\ step a s = Some (Ok t).

(** The sample that the goroutine of [Start] is about to record for the container. *)
Definition inFlight (id : string) (s : system) : option Client.NetworkStat :=
  match holding s with
  | Some (containerID, stat) => if String.eqb containerID id then Some stat else None
  | None => None
  end.

Lemma cleanMonitoringData_one order id iface m :
  order ≡ₚ map_to_list (containerIfaces m) -> (forall i, containerIfaces m !! i = Some id <-> i = iface) ->
  exists c, cleanMonitoringData order id m = mkMonitor (netUsages m) (previousNetUsages m) c /\
    forall i, c !! i <> Some id.
Proof.
  intros Hperm Hone. unfold cleanMonitoringData. destruct (List.find _ order) as [[i v]|] eqn:E.
  - eexists. split; [reflexivity|]. intros j Hj. apply lookup_delete_Some in Hj as [Hne Hj].
    apply find_some in E as [Hin Hv]. simpl in Hv. apply String.eqb_eq in Hv as ->.
    apply list_elem_of_In in Hin. rewrite Hperm in Hin. apply elem_of_map_to_list in Hin.
    apply Hone in Hin as ->. by apply Hone in Hj as ->.
  - exists (containerIfaces m). split; [by destruct m|]. intros j Hj.
    assert ((j, id) ∈ order) as Hin by (rewrite Hperm; by apply elem_of_map_to_list).
    apply list_elem_of_In in Hin. pose proof (find_none _ _ E _ Hin) as Hn. simpl in Hn.
    by rewrite String.eqb_refl in Hn.
Qed.

(** An event that does not start the container gives it no interface. *)
Lemma handleEvent_others {lib : NetLib} order e m m' id :
  e <> mkEvent id ContainerActionStart -> handleEvent order e m = Ok m' ->
  (forall i, containerIfaces m !! i <> Some id) -> forall i, containerIfaces m' !! i <> Some id.
Proof.
  unfold handleEvent, startMonitoringContainer, cleanMonitoringData. intros Hne H Hno.
  destruct (String.eqb_spec (Action e) ContainerActionStart) as [Ea|_].
  - destruct (getContainerIface (ContainerID e)) as [iface| |]; inv_ok; [|done].
    intros i. cbn [containerIfaces]. rewrite lookup_insert_Some.
    intros [[_ E]|[_ E]]; [|by eapply Hno]. destruct e. simpl in *. by subst.
  - destruct (String.eqb _ _); [|by inv_ok]. destruct (List.find _ order) as [[iface c]|]; inv_ok; [|done].
    intros i. cbn [containerIfaces]. intros [_ E]%lookup_delete_Some. by eapply Hno.
Qed.

(** What the stop of a container leaves, until its next start: [s] is the state at the stop. *)
Definition afterStop (id : string) (s s2 : system) : Prop :=
  (forall i, containerIfaces (monitor s2) !! i <> Some id) /\
  ((inFlight id s2 = inFlight id s /\
    netUsages (monitor s2) !! id = netUsages (monitor s) !! id /\
    previousNetUsages (monitor s2) !! id = previousNetUsages (monitor s) !! id) \/
   exists stat, inFlight id s = Some stat /\ inFlight id s2 = None /\
    netUsages (monitor s2) !! id = Some stat /\
    previousNetUsages (monitor s2) !! id = Some (statAt (netUsages (monitor s)) id)).

Lemma afterStop_step id s a u v :
  id <> "" -> (forall lib order, a <> Event lib order (mkEvent id ContainerActionStart)) ->
  step a u = Some (Ok v) -> afterStop id s u -> afterStop id s v.
Proof.
  intros Hid Hne Hst [Hno H]. destruct a as [stat| |lib order e]; cbn [step] in Hst.
  - destruct (holding u) eqn:Eu; [done|]. simplify_eq. split; [done|].
    assert (inFlight id (mkSystem (monitor u) (if String.eqb (lookupContainer stat (monitor u)) "" then None
              else Some (lookupContainer stat (monitor u), stat))) = inFlight id u) as E.
    { unfold inFlight. rewrite Eu. cbn [holding]. destruct (String.eqb_spec (lookupContainer stat (monitor u)) ""); [done|].
      destruct (String.eqb_spec (lookupContainer stat (monitor u)) id) as [E|]; [|done]. exfalso. unfold lookupContainer, mapget in E.
      destruct (containerIfaces (monitor u) !! Client.Interface stat) eqn:El; simpl in E; [|by subst].
      apply (Hno (Client.Interface stat)). by rewrite El, E. }
    rewrite E. exact H.
  - destruct (holding u) as [[c stat]|] eqn:Eu; [|done]. simplify_eq. split; [done|].
    cbn [monitor recordUsage netUsages previousNetUsages]. unfold inFlight in H at 1 4. rewrite Eu in H.
    destruct (String.eqb_spec c id) as [->|Hc].
    + rewrite !lookup_insert_eq. destruct H as [(H1 & H2 & _)|(? & _ & H & _)]; [|done]. right. exists stat.
      split; [done|]. split; [done|]. split; [done|]. unfold statAt, mapget. by rewrite H2.
    + rewrite !lookup_insert_ne by done. exact H.
  - destruct (@handleEvent lib order e (monitor u)) as [m| |] eqn:E; cbn [obind] in Hst; simplify_eq.
    split.
    + eapply handleEvent_others; [|exact E|exact Hno]. intros ->. by eapply Hne.
    + apply handleEvent_keeps in E as [E1 E2]. cbn [monitor]. rewrite E1, E2. exact H.
Qed.

(** ** Properties *)

(** C16. Against the output of [ip link show], whose entries are numbered in
    ascending order, the search finds the interface with the container's parent
    index whenever the host has it.  When the host does not, the result is an
    error only if no other number starts with the same digits: otherwise it is
    another interface. *)
Theorem getContainerIface_links {lib : NetLib} (id : string) (h : nsHandle) (n : nlHandle) (p : Z) (ls : list linkEntry) :
  GetFromDocker id = Ok h -> NewHandleAt h = Ok n -> LinkParentIndex n "eth0" = Ok p ->
  0 < p < 2 ^ 63 -> ipLinkStart = Ok tt -> ipLinkWait = None -> ipLinkOutput = renderLinks ls ->
  Forall wfLink ls -> ascending ls ->
  match List.find (fun l => linkIndex l =? p) ls, List.find (extends p) ls with
  | Some l, _ => getContainerIface id = Ok (linkName l)
  | None, Some other => getContainerIface id = Ok (linkName other) /\ p < linkIndex other
  | None, None => is_err (getContainerIface id) = true
  end.
Proof.
  intros H1 H2 H3 Hp H4 H5 H6 Hwf Hasc. assert (is_u64 p) as Hp' by (unfold is_u64; lia).
  assert (getContainerIface id =
    match List.find (extends p) ls with Some l => Ok (linkName l) | None => Err (Errorf ("interface not found for '" +:+ id +:+ "', " +:+ Itoa p)) end) as ->.
  { unfold getContainerIface, getContainerIfaceID. rewrite H1. cbn [wrapMsg wrap obind]. rewrite H2.
    cbn [wrapMsg wrap obind]. rewrite H3. cbn [wrapMsg wrap obind].
    destruct (Z.eqb_spec p 0); [lia|]. cbn [wrapMsg wrap obind]. rewrite H4, H5, H6. cbn [obind].
    unfold renderLinks. rewrite Split_unlines by by apply renderLinks_lines.
    assert (Itoa p = FormatUint p) as -> by (unfold Itoa; destruct (Z.ltb_spec p 0); [lia|done]).
    rewrite findIface_links by done. by destruct (List.find (extends p) ls). }
  destruct (List.find (fun l => linkIndex l =? p) ls) as [l|] eqn:E.
  - by rewrite (find_extends p ls l).
  - destruct (List.find (extends p) ls) as [other|] eqn:E2; [|done]. split; [done|].
    apply find_some in E2 as [Hin Hex]. pose proof (find_none _ _ E _ Hin) as Hne. simpl in Hne.
    apply Z.eqb_neq in Hne. apply list_elem_of_In in Hin. rewrite list.Forall_forall in Hwf.
    apply FormatUint_prefix in Hex; [lia | apply (Hwf other Hin) | done].
Qed.

(** C14. However the critical sections of the ticks and the container events
    interleave, the usage of a container is the one its last two recorded samples
    determine: the last sample itself, and each rate is the number of bytes between
    the two (a 64-bit counter that went back counting as one that wrapped) over the
    refresh time; a rate is zero when the former counter is zero, as it is while there
    is one sample at most. *)
Theorem GetUsage_samples (oob : float64 -> Z) (refreshTime : Z) (h : list (string * Client.NetworkStat)) (s : system)
    (id : string) :
  runs start h s -> Forall wfStat (samplesOf id h) ->
  GetUsage oob refreshTime id (monitor s) = Ok (specUsage oob refreshTime (samplesOf id h)).
Proof. apply GetUsage_runs. Qed.

(** C15. While less than [2 ^ 53] bytes pass between two samples, the floating-point
    computation of the rates is exact: for a refresh time of [k] seconds each rate
    is the number of bytes divided by [k], rounded down; 0 if the former counter is 0. *)
Theorem rates_exact (oob : float64 -> Z) (k : Z) (h : list (string * Client.NetworkStat)) (s : system) (id : string) :
  runs start h s -> Forall wfStat (samplesOf id h) -> 0 < k < 2 ^ 53 ->
  let cur := newest Client.zeroNetworkStat (samplesOf id h) in
  let prev := former Client.zeroNetworkStat (samplesOf id h) in
  elapsed (rxBytes cur) (rxBytes prev) < 2 ^ 53 -> elapsed (txBytes cur) (txBytes prev) < 2 ^ 53 ->
  GetUsage oob (k * Second) id (monitor s) =
    Ok (Client.mkNetUsage cur (exactRate k (rxBytes cur) (rxBytes prev)) (exactRate k (txBytes cur) (txBytes prev))).
Proof.
  intros Hr Hwf Hk cur prev H1 H2. rewrite (GetUsage_runs oob (k * Second) h s id Hr Hwf).
  destruct (newest_Forall wfStat Client.zeroNetworkStat (samplesOf id h)) as [[W1 W2] [W3 W4]]; [done|done|].
  unfold specUsage. fold cur prev in W1, W2, W3, W4 |- *.
  rewrite !specRate_exact by (done || (split; [by apply elapsed_nonneg|done])). done.
Qed.

(** C40. A stop event removes the one interface that leads to the container.  From
    then on, until the container is started again and whatever else happens, no
    interface leads to it and its usage stays the one at the stop, except that the
    goroutine of [Start] may have found the container before the stop: the one sample
    it then holds is still recorded, at its own moment.  The usages recorded before
    the stop are not forgotten. *)
Theorem stopped_usage_stays {lib : NetLib} (oob : float64 -> Z) (refreshTime : Z) (order : list (string * string))
    (id iface : string) (s : system) :
  id <> "" -> order ≡ₚ map_to_list (containerIfaces (monitor s)) ->
  (forall i, containerIfaces (monitor s) !! i = Some id <-> i = iface) ->
  exists s1, step (Event lib order (mkEvent id ContainerActionStop)) s = Some (Ok s1) /\
    forall s2, steps (NotStarted id) s1 s2 ->
      (forall i, containerIfaces (monitor s2) !! i <> Some id) /\
      (is_Some (netUsages (monitor s) !! id) -> is_Some (netUsages (monitor s2) !! id)) /\
      match inFlight id s with
      | None => GetUsage oob refreshTime id (monitor s2) = GetUsage oob refreshTime id (monitor s)
      | Some stat =>
          GetUsage oob refreshTime id (monitor s2) =
            match inFlight id s2 with
            | Some _ => GetUsage oob refreshTime id (monitor s)
            | None => GetUsage oob refreshTime id (recordUsage id stat (monitor s))
            end
      end.
Proof.
  intros Hid Hperm Hone. destruct (cleanMonitoringData_one order id iface (monitor s) Hperm Hone) as (c & E & Hc).
  exists (mkSystem (mkMonitor (netUsages (monitor s)) (previousNetUsages (monitor s)) c) (holding s)).
  split; [unfold step, handleEvent; simpl; by rewrite E|]. intros s2 Hs2.
  assert (afterStop id s s2) as [H1 H2].
  { eapply (steps_ind_inv (NotStarted id) (afterStop id s)); [| |exact Hs2].
    - split; [exact Hc|]. left. done.
    - intros a b Ha (x & Hx & Hst). by eapply afterStop_step. }
  split; [done|]. unfold GetUsage, statAt, mapget.
  destruct H2 as [(E1 & E2 & E3) | (stat & E1 & E2 & E3 & E4)].
  - rewrite E1, E2, E3. split; [done|]. by destruct (inFlight id s).
  - rewrite E1, E2, E3, E4. cbn [recordUsage netUsages previousNetUsages]. rewrite !lookup_insert_eq. by eauto.
Qed.

(** ** Witnesses *)

Definition exampleLinks : list linkEntry :=
  [mkLink 1 "lo" None "<LOOPBACK,UP> mtu 65536" "link/loopback";
   mkLink 72 "veth52ab" (Some "if71") "<BROADCAST,UP> mtu 1500" "link/ether"].

Definition exampleLib (parent : Z) : NetLib := {|
  nsHandle := unit; nlHandle := unit;
  GetFromDocker := fun _ => Ok tt; NewHandleAt := fun _ => Ok tt;
  LinkParentIndex := fun _ _ => Ok parent;
  ipLinkStart := Ok tt; ipLinkOutput := renderLinks exampleLinks; ipLinkWait := None |}.

Lemma exampleLinks_wf : Forall wfLink exampleLinks /\ ascending exampleLinks.
Proof.
  assert (forall z, bool_decide (is_u64 z) = true -> is_u64 z) as Hu by (intros z; by rewrite bool_decide_eq_true).
  split; [|done]. repeat constructor; done.
Qed.

(** The host has no interface 7: the search answers interface 72. *)
Lemma getContainerIface_links_witness :
  @getContainerIface (exampleLib 72) "c" = Ok "veth52ab" /\
  @getContainerIface (exampleLib 7) "c" = Ok "veth52ab".
Proof.
  split.
  - apply (@getContainerIface_links (exampleLib 72) "c" tt tt 72 exampleLinks);
      [reflexivity.. | lia | reflexivity | reflexivity | reflexivity | apply exampleLinks_wf | apply exampleLinks_wf].
  - apply (@getContainerIface_links (exampleLib 7) "c" tt tt 7 exampleLinks);
      [reflexivity.. | lia | reflexivity | reflexivity | reflexivity | apply exampleLinks_wf | apply exampleLinks_wf].
Defined.

Definition exampleStat (rx tx : Z) : Client.NetworkStat :=
  Client.mkNetworkStat "veth52ab" (Client.mkNetworkInfo rx 0 0 0 0 0 0 0) (Client.mkNetworkInfo tx 0 0 0 0 0 0 0).

Definition exampleMonitor : t :=
  mkMonitor (<["c" := exampleStat 1000 500]> ∅) (<["c" := Client.zeroNetworkStat]> ∅) (<["veth52ab" := "c"]> ∅).

(** Two samples of one interface, the first of them fixed. *)
Lemma exampleRun (rx tx : Z) :
  exists s, runs start [("c", exampleStat 1000 500); ("c", exampleStat rx tx)] s.
Proof.
  eexists.
  refine (runs_snoc _ [("c", exampleStat 1000 500)] (mkSystem exampleMonitor (Some ("c", exampleStat rx tx))) RecordHeld _ _ _);
    [|reflexivity].
  refine (runs_snoc _ [("c", exampleStat 1000 500)] (mkSystem exampleMonitor None) (Lookup (exampleStat rx tx)) _ _ _);
    [|reflexivity].
  refine (runs_snoc _ [] (mkSystem (mkMonitor ∅ ∅ (<["veth52ab" := "c"]> ∅)) (Some ("c", exampleStat 1000 500))) RecordHeld _ _ _);
    [|reflexivity].
  refine (runs_snoc _ [] (mkSystem (mkMonitor ∅ ∅ (<["veth52ab" := "c"]> ∅)) None) (Lookup (exampleStat 1000 500)) _ _ _);
    [|reflexivity].
  refine (runs_snoc _ [] start (Event (exampleLib 72) [] (mkEvent "c" "start")) _ _ _);
    [constructor|vm_compute; reflexivity].
Defined.

(** Two samples, one second apart: the received counter went from 1000 to 3000, the
    transmitted one restarted from 0. *)
Lemma GetUsage_samples_witness :
  exists s, runs start [("c", exampleStat 1000 500); ("c", exampleStat 3000 0)] s /\
    GetUsage (fun _ => 0) Second "c" (monitor s) =
      Ok (specUsage (fun _ => 0) Second [exampleStat 1000 500; exampleStat 3000 0]).
Proof.
  destruct (exampleRun 3000 0) as [m Hm]. exists m. split; [exact Hm|].
  apply (GetUsage_samples (fun _ => 0) Second [("c", exampleStat 1000 500); ("c", exampleStat 3000 0)] m "c" Hm).
  repeat constructor; done.
Defined.

(** 2001 bytes in 2 seconds. *)
Lemma rates_exact_witness :
  exists s, GetUsage (fun _ => 0) (2 * Second) "c" (monitor s) =
      Ok (Client.mkNetUsage (exampleStat 3001 501) 1000 0).
Proof.
  destruct (exampleRun 3001 501) as [m Hm]. exists m.
  apply (rates_exact (fun _ => 0) 2 [("c", exampleStat 1000 500); ("c", exampleStat 3001 501)] m "c" Hm);
    [repeat constructor; done | lia | vm_compute; reflexivity..].
Defined.

(** A counter that restarts makes a rate that [int64] cannot hold. *)
Example reset_rate :
  specRate (fun _ => - 2 ^ 63) Second 3000 1000 = 2000 /\ specRate (fun _ => - 2 ^ 63) Second 0 500 = - 2 ^ 63
  /\ specRate (fun _ => - 2 ^ 63) (20 * Second) 0 500 = 922337203685477632.
Proof. by vm_compute. Qed.

(** The stop comes between the lookup and the record of a sample: the usage changes
    once more, and a later tick of the same interface changes nothing. *)
Lemma stopped_usage_stays_witness :
  exists s1 s2, step (Event (exampleLib 72) [("veth52ab", "c")] (mkEvent "c" "stop"))
      (mkSystem exampleMonitor (Some ("c", exampleStat 7 7))) = Some (Ok s1) /\
    steps (NotStarted "c") s1 s2 /\
    GetUsage (fun _ => 0) Second "c" (monitor s2) = Ok (Client.mkNetUsage (exampleStat 7 7)
      (bps (fun _ => 0) Second 7 1000) (bps (fun _ => 0) Second 7 500)).
Proof.
  destruct (@stopped_usage_stays (exampleLib 72) (fun _ => 0) Second [("veth52ab", "c")] "c" "veth52ab"
              (mkSystem exampleMonitor (Some ("c", exampleStat 7 7)))) as (s1 & H1 & H2).
  - discriminate.
  - reflexivity.
  - intros i. cbn [exampleMonitor monitor containerIfaces]. rewrite lookup_insert_Some, lookup_empty. naive_solver.
  - assert (exists s2, steps (NotStarted "c") s1 s2 /\ holding s2 = None) as (s2 & Hs & Hh).
    { injection H1 as <-. eexists. split.
      - eapply steps_snoc; [eapply steps_snoc; [constructor|]|].
        + exists RecordHeld. split; [done|reflexivity].
        + exists (Lookup (exampleStat 9 9)). split; [done|reflexivity].
      - vm_compute. reflexivity. }
    exists s1, s2. split; [exact H1|]. split; [exact Hs|]. destruct (H2 s2 Hs) as (_ & _ & H3).
    unfold inFlight in H3. rewrite Hh in H3. exact H3.
Defined.

End NetMonitor.
