(* ===== verification/Monitoring.v ===== *)
(** * The monitors on the event stream

    What [main] runs concurrently: the goroutines of the container repository, the
    goroutine of [CPUUsageMonitor.Start] with those it starts, the goroutine of
    [listeningNewInterfaces] and that of [NetMonitor.Start].  The two monitors are
    the consumers of the repository: each registers once, then takes an event from
    its channel and handles it, in two steps between which the others run. *)
From S2P Require Import Prelude GoFloat Config Cgroup CpuStat Client.
From S2P Require Import Docker CpuMonitor NetMonitor.

Module Monitoring.

#[local] Arguments NetMonitor.step : simpl never.

(** The goroutine that ranges over a channel of the repository: the channel, once
    registered, and the event it has taken and not handled yet. *)
Record consumer : Type := mkConsumer {
  chan : option nat;
  hand : option ContainerEvent;
  handled : list ContainerEvent  (* history: the events handled so far *) }.

Record state : Type := mkState {
  repo : Docker.state;
  cpu : CpuMonitor.system;
  net : NetMonitor.system;
  cpuIn : consumer;
  netIn : consumer }.

(** [main] up to the start of the goroutines. *)
Definition start {A} (client : outcome A) (cpus : Z) : state :=
  mkState (Docker.StartListeningToNewContainers client) (CpuMonitor.start cpus) NetMonitor.start
    (mkConsumer None None []) (mkConsumer None None []).

Inductive label : Type :=
| Repo (l : Docker.label)               (* a goroutine of the repository *)
| CpuRegister | CpuReceive | CpuHandle  (* CPUUsageMonitor.Start *)
| CpuAct (a : CpuMonitor.action)        (* a goroutine that it started *)
| NetRegister | NetReceive              (* listeningNewInterfaces *)
| NetHandle (lib : NetLib) (order : list (string * string))
| NetAct (a : NetMonitor.action)         (* NetMonitor.Start *).

(** The steps that belong to the repository's own goroutines. *)
Definition ownStep (l : Docker.label) : bool :=
  match l with Docker.RegisterToContainersStream | Docker.Consume _ => false | _ => true end.

Definition ownAct (a : CpuMonitor.action) : bool :=
  match a with CpuMonitor.Event _ => false | _ => true end.

Definition netOwn (a : NetMonitor.action) : bool :=
  match a with NetMonitor.Event _ _ _ => false | _ => true end.

(** [events := RegisterToContainersStream(ctx)]. *)
Definition register (c : consumer) (r : Docker.state) : option (Docker.state * consumer) :=
  match chan c with
  | Some _ => None
  | None =>
      match Docker.step Docker.RegisterToContainersStream r with
      | Some r' => Some (r', mkConsumer (Some (length (Docker.registered r))) (hand c) (handled c))
      | None => None
      end
  end.

(** [for event := range events]: the next event, when the previous one is handled. *)
Definition receive (c : consumer) (r : Docker.state) : option (Docker.state * consumer) :=
  match chan c, hand c with
  | Some k, None =>
      match Docker.registered r !! k with
      | Some g =>
          match Docker.buf g, Docker.step (Docker.Consume k) r with
          | e :: _, Some r' => Some (r', mkConsumer (Some k) (Some e) (handled c))
          | _, _ => None
          end
      | None => None
      end
  | _, _ => None
  end.

(** The end of the body of the loop. *)
Definition done_with (e : ContainerEvent) (c : consumer) : consumer :=
  mkConsumer (chan c) None (handled c ++ [e])%list.

Definition step (l : label) (s : state) : option (outcome state) :=
  match l with
  | Repo l =>
      if ownStep l then
        option_map (fun r => Ok (mkState r (cpu s) (net s) (cpuIn s) (netIn s))) (Docker.step l (repo s))
      else None
  | CpuRegister =>
      option_map (fun '(r, c) => Ok (mkState r (cpu s) (net s) c (netIn s))) (register (cpuIn s) (repo s))
  | CpuReceive =>
      option_map (fun '(r, c) => Ok (mkState r (cpu s) (net s) c (netIn s))) (receive (cpuIn s) (repo s))
  | CpuHandle =>
      match hand (cpuIn s) with
      | Some e => Some (Ok (mkState (repo s) (CpuMonitor.handleEvent e (cpu s)) (net s)
                              (done_with e (cpuIn s)) (netIn s)))
      | None => None
      end
  | CpuAct a =>
      if ownAct a then
        option_map (fun o => let! m := o in Ok (mkState (repo s) m (net s) (cpuIn s) (netIn s)))
          (CpuMonitor.step a (cpu s))
      else None
  | NetRegister =>
      option_map (fun '(r, c) => Ok (mkState r (cpu s) (net s) (cpuIn s) c)) (register (netIn s) (repo s))
  | NetReceive =>
      option_map (fun '(r, c) => Ok (mkState r (cpu s) (net s) (cpuIn s) c)) (receive (netIn s) (repo s))
  | NetHandle lib order =>
      match hand (netIn s) with
      | Some e => option_map (fun o => let! m := o in Ok (mkState (repo s) (cpu s) m (cpuIn s) (done_with e (netIn s))))
                    (NetMonitor.step (NetMonitor.Event lib order e) (net s))
      | None => None
      end
  | NetAct a =>
      if netOwn a then
        option_map (fun o => let! m := o in Ok (mkState (repo s) (cpu s) m (cpuIn s) (netIn s)))
          (NetMonitor.step a (net s))
      else None
  end.

Definition Step (s t : state) : Prop := exists l, step l s = Some (Ok t).

(** A step of anyone but the handling of an event by the network monitor. *)
Definition BusyStep (s t : state) : Prop :=
  exists l, (forall lib order, l <> NetHandle lib order) /\ step l s = Some (Ok t).

(** A schedule. *)
Fixpoint exec (ls : list label) (s : state) : option state :=
  match ls with
  | [] => Some s
  | l :: ls' => match step l s with Some (Ok t) => exec ls' t | _ => None end
  end.

Definition reachable (cpus : Z) (s : state) : Prop :=
  exists A (client : outcome A), steps Step (start client cpus) s.

(** ** Specification *)

(** The containers that a sequence of events leaves started. *)
Definition startedStep (m : gset string) (e : ContainerEvent) : gset string :=
  if String.eqb (Action e) ContainerActionStart then {[ContainerID e]} ∪ m
  else if String.eqb (Action e) ContainerActionStop then m ∖ {[ContainerID e]} else m.

Definition startedAfter (es : list ContainerEvent) : gset string := fold_left startedStep es ∅.

(** The events a consumer has taken. *)
Definition taken (c : consumer) : list ContainerEvent :=
  (handled c ++ match hand c with Some e => [e] | None => [] end)%list.

(** A consumer and its registration. *)
Definition consumerOk (r : Docker.state) (c : consumer) : Prop :=
  match chan c with
  | None => hand c = None /\ handled c = []
  | Some k => exists g, Docker.registered r !! k = Some g /\ Docker.received g = taken c
  end.

Record Inv (cpus : Z) (s : state) : Prop := {
  inv_repo : Docker.reachable (repo s);
  inv_cpu : steps CpuMonitor.Step (CpuMonitor.start cpus) (cpu s);
  inv_net : exists h, NetMonitor.runs NetMonitor.start h (net s);
  inv_cpuIn : consumerOk (repo s) (cpuIn s);
  inv_netIn : consumerOk (repo s) (netIn s);
  inv_distinct : forall k, chan (cpuIn s) = Some k -> chan (netIn s) <> Some k;
  inv_cancels : dom (CpuMonitor.cancels (cpu s)) = startedAfter (handled (cpuIn s)) }.

(** ** Lemmas *)

(** Only its consumer changes what a registration has received. *)
Lemma step_received l r r' k g :
  Docker.step l r = Some r' -> l <> Docker.Consume k -> Docker.registered r !! k = Some g ->
  exists g', Docker.registered r' !! k = Some g' /\ Docker.received g' = Docker.received g.
Proof.
  intros Hst Hne Hk.
  assert (forall j g1 g2, Docker.registered r !! j = Some g1 -> (j = k -> Docker.received g2 = Docker.received g1) ->
            exists g', <[j := g2]> (Docker.registered r) !! k = Some g' /\ Docker.received g' = Docker.received g) as Hset.
  { intros j g1 g2 Hj Hr. destruct (decide (j = k)) as [->|Hjk].
    - exists g2. rewrite list_lookup_insert_eq by (by eapply lookup_lt_Some). simplify_eq. auto.
    - exists g. by rewrite list_lookup_insert_ne. }
  destruct l; simpl in Hst; repeat case_match; simplify_eq; cbn [Docker.registered Docker.setBcast Docker.setRegistration];
    try (by exists g); try (by eapply Hset).
  - exists g. split; [by apply lookup_app_l_Some|done].
  - eapply Hset; [done|]. by intros ->.
Qed.

Lemma consumerOk_step l r r' c :
  Docker.step l r = Some r' -> (forall k, chan c = Some k -> l <> Docker.Consume k) ->
  consumerOk r c -> consumerOk r' c.
Proof.
  unfold consumerOk. intros Hst Hne. destruct (chan c) as [k|]; [|done].
  intros (g & Hg & Ht). destruct (step_received l r r' k g Hst (Hne k eq_refl) Hg) as (g' & Hg' & Hr').
  exists g'. by rewrite Hr'.
Qed.

Lemma receive_spec c r r' c' :
  receive c r = Some (r', c') ->
  exists k g e b, chan c = Some k /\ hand c = None /\ Docker.registered r !! k = Some g /\
    Docker.buf g = e :: b /\ Docker.step (Docker.Consume k) r = Some r' /\
    r' = Docker.setRegistration k (Docker.consume e b g) r /\ c' = mkConsumer (Some k) (Some e) (handled c).
Proof.
  unfold receive. destruct (chan c) as [k|]; [|done]. destruct (hand c); [done|].
  destruct (Docker.registered r !! k) as [g|] eqn:Hg; [|done]. destruct (Docker.buf g) as [|e b] eqn:Hb; [done|].
  assert (Docker.step (Docker.Consume k) r = Some (Docker.setRegistration k (Docker.consume e b g) r)) as E
    by (simpl; by rewrite Hg, Hb).
  rewrite E. intros H. injection H as <- <-. by exists k, g, e, b.
Qed.

Lemma register_spec c r r' c' :
  register c r = Some (r', c') ->
  chan c = None /\ Docker.step Docker.RegisterToContainersStream r = Some r' /\
  c' = mkConsumer (Some (length (Docker.registered r))) (hand c) (handled c) /\
  exists g, Docker.registered r' !! length (Docker.registered r) = Some g /\ Docker.received g = [].
Proof.
  unfold register. destruct (chan c); [done|]. destruct (Docker.step _ r) as [r1|] eqn:E; [|done].
  intros H. injection H as <- <-. split; [done|]. split; [done|]. split; [done|].
  simpl in E. destruct (Docker.mutexFree r); simplify_eq. cbn [Docker.registered].
  eexists. split; [by apply list_lookup_middle|done].
Qed.

Lemma receive_ok c r r' c' : receive c r = Some (r', c') -> consumerOk r c -> consumerOk r' c'.
Proof.
  intros (k & g & e & b & Hc & Hh & Hg & Hb & _ & -> & ->)%receive_spec. unfold consumerOk. rewrite Hc. cbn [chan].
  intros (g0 & Hg0 & Ht). simplify_eq. eexists. cbn [Docker.registered Docker.setRegistration].
  split; [apply list_lookup_insert_eq; by eapply lookup_lt_Some|].
  cbn [Docker.received Docker.consume]. rewrite Ht. unfold taken. cbn [hand handled]. by rewrite Hh, app_nil_r.
Qed.

Lemma register_ok c r r' c' : register c r = Some (r', c') -> consumerOk r c -> consumerOk r' c'.
Proof.
  intros (Hc & _ & -> & (g & Hg & Hr))%register_spec. unfold consumerOk. rewrite Hc. cbn [chan].
  intros [Hh Hd]. exists g. split; [done|]. unfold taken. cbn [hand handled]. by rewrite Hh, Hd, Hr.
Qed.

Lemma done_with_ok e c r : hand c = Some e -> consumerOk r c -> consumerOk r (done_with e c).
Proof.
  unfold consumerOk, done_with. cbn [chan hand handled]. intros Hh. destruct (chan c); [|by intros [? _]; congruence].
  unfold taken. rewrite Hh. cbn [hand handled]. by rewrite app_nil_r.
Qed.

Lemma docker_reachable_step l r r' : Docker.step l r = Some r' -> Docker.reachable r -> Docker.reachable r'.
Proof.
  intros Hst (A & client & H). exists A, client. eapply steps_snoc; [exact H|]. by exists l.
Qed.

(** The channel of a registered consumer is one of the repository. *)
Lemma consumerOk_lt r c k : consumerOk r c -> chan c = Some k -> (k < length (Docker.registered r))%nat.
Proof.
  unfold consumerOk. intros H Hc. rewrite Hc in H. destruct H as (g & Hg & _). by eapply lookup_lt_Some.
Qed.

Lemma startedAfter_snoc es e : startedAfter (es ++ [e])%list = startedStep (startedAfter es) e.
Proof. unfold startedAfter. by rewrite fold_left_app. Qed.

Lemma handleEvent_dom e m :
  dom (CpuMonitor.cancels (CpuMonitor.handleEvent e m)) = startedStep (dom (CpuMonitor.cancels m)) e.
Proof.
  unfold CpuMonitor.handleEvent, startedStep.
  destruct (String.eqb (Action e) ContainerActionStart);
    cbn [CpuMonitor.cancels]; [by rewrite dom_insert_L|].
  destruct (String.eqb (Action e) ContainerActionStop); [|done].
  destruct (CpuMonitor.cancels m !! ContainerID e) eqn:E; cbn [CpuMonitor.cancels]; [by rewrite dom_delete_L|].
  apply not_elem_of_dom in E. set_solver.
Qed.

Lemma whole_start {A} (client : outcome A) cpus : Inv cpus (start client cpus).
Proof.
  constructor; cbn [start repo cpu net cpuIn netIn handled]; try done.
  - exists A, client. constructor.
  - constructor.
  - exists []. constructor.
Qed.

(** A step of the repository that is not a receive of either monitor. *)
Lemma Inv_repo cpus s l r :
  Docker.step l (repo s) = Some r -> (forall k, l <> Docker.Consume k) -> Inv cpus s ->
  Inv cpus (mkState r (cpu s) (net s) (cpuIn s) (netIn s)).
Proof.
  intros Hst Hne []. constructor; cbn [repo cpu net cpuIn netIn]; try done.
  - by eapply docker_reachable_step.
  - eapply consumerOk_step; [exact Hst | intros k _; apply Hne | done].
  - eapply consumerOk_step; [exact Hst | intros k _; apply Hne | done].
Qed.

Lemma Inv_cpuIn cpus s r c :
  register (cpuIn s) (repo s) = Some (r, c) \/ receive (cpuIn s) (repo s) = Some (r, c) -> Inv cpus s ->
  Inv cpus (mkState r (cpu s) (net s) c (netIn s)).
Proof.
  intros H [Hr Hcpu Hnet Hc Hn Hd Hm]. destruct H as [H|H].
  - pose proof (register_ok _ _ _ _ H Hc) as Hc'. apply register_spec in H as (_ & Hst & -> & _).
    constructor; cbn [repo cpu net cpuIn netIn chan handled]; try done.
    + by eapply docker_reachable_step.
    + by eapply consumerOk_step.
    + intros k [= <-] Hk. pose proof (consumerOk_lt _ _ _ Hn Hk). lia.
  - pose proof (receive_ok _ _ _ _ H Hc) as Hc'. apply receive_spec in H as (k & g & e & b & Hk & _ & _ & _ & Hst & _ & ->).
    constructor; cbn [repo cpu net cpuIn netIn chan handled]; try done.
    + by eapply docker_reachable_step.
    + eapply consumerOk_step; [exact Hst | | done]. intros k' Hk' [= ->]. by apply (Hd k').
    + intros k' [= <-]. by apply Hd.
Qed.

Lemma Inv_netIn cpus s r c :
  register (netIn s) (repo s) = Some (r, c) \/ receive (netIn s) (repo s) = Some (r, c) -> Inv cpus s ->
  Inv cpus (mkState r (cpu s) (net s) (cpuIn s) c).
Proof.
  intros H [Hr Hcpu Hnet Hc Hn Hd Hm]. destruct H as [H|H].
  - pose proof (register_ok _ _ _ _ H Hn) as Hn'. apply register_spec in H as (_ & Hst & -> & _).
    constructor; cbn [repo cpu net cpuIn netIn chan handled]; try done.
    + by eapply docker_reachable_step.
    + by eapply consumerOk_step.
    + intros k Hk [= E]. pose proof (consumerOk_lt _ _ _ Hc Hk). lia.
  - pose proof (receive_ok _ _ _ _ H Hn) as Hn'. apply receive_spec in H as (k & g & e & b & Hk & _ & _ & _ & Hst & _ & ->).
    constructor; cbn [repo cpu net cpuIn netIn chan handled]; try done.
    + by eapply docker_reachable_step.
    + eapply consumerOk_step; [exact Hst | | done]. intros k' Hk' [= ->]. by apply (Hd k').
    + intros k' Hk' [= ->]. by apply (Hd k').
Qed.

Lemma Inv_cpuHandle cpus s e :
  hand (cpuIn s) = Some e -> Inv cpus s ->
  Inv cpus (mkState (repo s) (CpuMonitor.handleEvent e (cpu s)) (net s) (done_with e (cpuIn s)) (netIn s)).
Proof.
  intros Hh []. constructor; cbn [repo cpu net cpuIn netIn chan handled done_with]; try done.
  - eapply steps_snoc; [done|]. by exists (CpuMonitor.Event e).
  - by apply done_with_ok.
  - rewrite handleEvent_dom, startedAfter_snoc. by f_equal.
Qed.

Lemma Inv_cpuAct cpus s a m :
  ownAct a = true -> CpuMonitor.step a (cpu s) = Some (Ok m) -> Inv cpus s ->
  Inv cpus (mkState (repo s) m (net s) (cpuIn s) (netIn s)).
Proof.
  intros Ha Hst []. constructor; cbn [repo cpu net cpuIn netIn]; try done.
  - eapply steps_snoc; [done|]. by exists a.
  - destruct (CpuMonitor.goroutine_step a (cpu s) m) as [-> _]; [intros e ->; done|done..].
Qed.

Lemma Inv_net cpus s a m c :
  NetMonitor.step a (net s) = Some (Ok m) -> consumerOk (repo s) c -> chan c = chan (netIn s) -> Inv cpus s ->
  Inv cpus (mkState (repo s) (cpu s) m (cpuIn s) c).
Proof.
  intros Hst Hc Hch []. constructor; cbn [repo cpu net cpuIn netIn]; try done.
  - destruct inv_net0 as [h Hh]. eexists. eapply NetMonitor.runs_snoc; [exact Hh|exact Hst].
  - rewrite Hch. done.
Qed.

Lemma whole_step cpus l s t : step l s = Some (Ok t) -> Inv cpus s -> Inv cpus t.
Proof.
  intros Hst HI. destruct l as [l| | | |a| | |lib order|b]; cbn [step] in Hst.
  - destruct (ownStep l) eqn:Hl; [|done]. destruct (Docker.step l (repo s)) as [r|] eqn:E; simplify_eq/=.
    eapply Inv_repo; [exact E | intros k ->; done | done].
  - destruct (register (cpuIn s) (repo s)) as [[r c]|] eqn:E; simplify_eq/=. apply Inv_cpuIn; auto.
  - destruct (receive (cpuIn s) (repo s)) as [[r c]|] eqn:E; simplify_eq/=. apply Inv_cpuIn; auto.
  - destruct (hand (cpuIn s)) as [e|] eqn:E; simplify_eq/=. by apply Inv_cpuHandle.
  - destruct (ownAct a) eqn:Ha; [|done].
    destruct (CpuMonitor.step a (cpu s)) as [[m|e|p]|] eqn:E; simplify_eq/=. by eapply Inv_cpuAct.
  - destruct (register (netIn s) (repo s)) as [[r c]|] eqn:E; simplify_eq/=. apply Inv_netIn; auto.
  - destruct (receive (netIn s) (repo s)) as [[r c]|] eqn:E; simplify_eq/=. apply Inv_netIn; auto.
  - destruct (hand (netIn s)) as [e|] eqn:E; [|done].
    destruct (NetMonitor.step (NetMonitor.Event lib order e) (net s)) as [[m|er|p]|] eqn:Em; simplify_eq/=.
    eapply (Inv_net _ _ (NetMonitor.Event lib order e)); [exact Em | apply done_with_ok; [done|by apply HI] | done..].
  - destruct (netOwn b); [|done]. destruct (NetMonitor.step b (net s)) as [[m| |]|] eqn:Em; simplify_eq/=.
    eapply Inv_net; [exact Em | by apply HI | done..].
Qed.

Lemma exec_run ls s t : exec ls s = Some t -> steps Step s t.
Proof.
  revert s. induction ls as [|l ls IH]; intros s H; simpl in H; [simplify_eq; constructor|].
  destruct (step l s) as [[u| |]|] eqn:Hu; [|done..].
  eapply steps_trans; [apply steps_one; by exists l | by apply IH].
Qed.

Lemma whole_reachable cpus s : reachable cpus s -> Inv cpus s.
Proof.
  intros (A & client & H). eapply steps_ind_inv; [apply (whole_start client) | | exact H].
  intros a b Ha [l Hl]. by eapply whole_step.
Qed.

(** Whether a container is left started depends on its own events only. *)
Definition about (id : string) (es : list ContainerEvent) : list ContainerEvent :=
  List.filter (fun e => String.eqb (ContainerID e) id) es.

Lemma about_app id l1 l2 : about id (l1 ++ l2) = (about id l1 ++ about id l2)%list.
Proof. apply List.filter_app. Qed.

Lemma startedAfter_about id es : id ∈ startedAfter es <-> id ∈ startedAfter (about id es).
Proof.
  induction es as [|e es IH] using rev_ind; [done|].
  rewrite about_app, startedAfter_snoc. cbn [about List.filter].
  destruct (String.eqb_spec (ContainerID e) id) as [<-|Hne].
  - rewrite startedAfter_snoc. unfold startedStep. repeat case_match; set_solver.
  - rewrite app_nil_r, <- IH. unfold startedStep. repeat case_match; set_solver.
Qed.

Lemma about_interleaving id l1 l2 l :
  Docker.Interleaving l1 l2 l -> id ∉ map ContainerID l1 -> about id l = about id l2.
Proof.
  intros H Hid. induction H as [|a l1 l2 l H IH|a l1 l2 l H IH]; [done| |].
  - cbn [map] in Hid. apply not_elem_of_cons in Hid as [Hne Hid]. cbn [about List.filter].
    destruct (String.eqb_spec (ContainerID a) id); [congruence|]. by apply IH.
  - cbn [about List.filter]. destruct (String.eqb (ContainerID a) id); [|by apply IH].
    f_equal. by apply IH.
Qed.

(** Nothing is on its way to a consumer. *)
Definition quiescent (s : state) (c : consumer) (g : Docker.registration) : Prop :=
  Docker.bcast (repo s) = Docker.Idle /\ Docker.buf g = [] /\ hand c = None.

(** Every step of the whole is none or one of the repository other than a receive
    of registration [k], while the consumer of [k] is busy. *)
Lemma busy_step l s t k e :
  step l s = Some (Ok t) -> (forall lib order, l <> NetHandle lib order) ->
  consumerOk (repo s) (cpuIn s) -> (forall j, chan (cpuIn s) = Some j -> j <> k) ->
  chan (netIn s) = Some k -> hand (netIn s) = Some e ->
  netIn t = netIn s /\ (repo t = repo s \/ Docker.StepBut k (repo s) (repo t)).
Proof.
  intros Hst Hne Hok Hc Hk He. destruct l as [l| | | |a| | |lib order|b]; cbn [step] in Hst.
  - destruct (ownStep l) eqn:Hl; [|done]. destruct (Docker.step l (repo s)) as [r|] eqn:E; simplify_eq/=.
    split; [done|]. right. exists l. split; [by intros ->|done].
  - destruct (register (cpuIn s) (repo s)) as [[r c]|] eqn:E; simplify_eq/=. split; [done|]. right.
    apply register_spec in E as (_ & E & _). by exists Docker.RegisterToContainersStream.
  - destruct (receive (cpuIn s) (repo s)) as [[r c]|] eqn:E; simplify_eq/=. split; [done|]. right.
    apply receive_spec in E as (j & g & e' & b & Hj & _ & _ & _ & E & _). exists (Docker.Consume j).
    split; [|done]. intros [= ->]. by apply (Hc k).
  - destruct (hand (cpuIn s)); simplify_eq/=. auto.
  - destruct (ownAct a); [|done]. destruct (CpuMonitor.step a (cpu s)) as [[m| |]|]; simplify_eq/=. auto.
  - unfold register in Hst. by rewrite Hk in Hst.
  - unfold receive in Hst. by rewrite Hk, He in Hst.
  - by destruct (Hne lib order).
  - destruct (netOwn b); [|done]. destruct (NetMonitor.step b (net s)) as [[m| |]|]; simplify_eq/=. auto.
Qed.

(** A schedule in which the list sent at registration is older than a live event. *)
Definition staleTrace (id : string) (labels : gmap string string) : list label :=
  [Repo Docker.Connect; CpuRegister; Repo (Docker.Listed 0 (Ok [mkSummary id labels]));
   Repo (Docker.Message (mkEvent id ContainerActionStop)); Repo (Docker.Handoff 0); Repo Docker.Lock;
   Repo Docker.SendLive; Repo Docker.Unlock; CpuReceive; CpuHandle;
   Repo (Docker.SendInitial 0); CpuReceive; CpuHandle].

Definition staleRegistration (id : string) : Docker.registration :=
  let started := mkEvent id ContainerActionStart in
  let stopped := mkEvent id ContainerActionStop in
  Docker.mkRegistration [] (Some []) [stopped; started] [started] [stopped] 0.

Definition staleState (cpus : Z) (id : string) : state :=
  let started := mkEvent id ContainerActionStart in
  let stopped := mkEvent id ContainerActionStop in
  mkState (Docker.mkState Docker.Listening [None] Docker.Idle [staleRegistration id] [stopped])
    (CpuMonitor.mkSystem (CpuMonitor.NewCPUUsageMonitor cpus) (<[id := 0%nat]> ∅)
       [CpuMonitor.mkGoroutine id false true])
    NetMonitor.start (mkConsumer (Some 0%nat) None [stopped; started]) (mkConsumer None None []).

Lemma staleTrace_exec cpus id labels :
  exec (staleTrace id labels) (start (Ok tt) cpus) = Some (staleState cpus id).
Proof.
  unfold staleTrace.
  do 9 (cbn [exec]; match goal with |- match ?x with _ => _ end = _ => let y := eval lazy in x in change x with y end; cbv beta iota).
  reflexivity.
Qed.

(** ** Properties *)

(** C10. The whole refines its parts: in every reachable state of the composition the
    repository is in a state of the repository alone, the CPU monitor in one of the
    CPU monitor alone, and the network monitor in one of its runs; each monitor has
    taken from its channel exactly the events it has handled and the one in its
    hands.  What is proved of each part for all its runs holds of the program. *)
Theorem components_reachable (cpus : Z) (s : state) :
  reachable cpus s ->
  Docker.reachable (repo s) /\ steps CpuMonitor.Step (CpuMonitor.start cpus) (cpu s) /\
  (exists h, NetMonitor.runs NetMonitor.start h (net s)) /\
  forall c, c = cpuIn s \/ c = netIn s ->
    match chan c with
    | None => taken c = []
    | Some k => exists g, Docker.registered (repo s) !! k = Some g /\ Docker.received g = taken c
    end.
Proof.
  intros []%whole_reachable. do 3 (split; [done|]). intros c Hc.
  assert (consumerOk (repo s) c) as H by by destruct Hc as [-> | ->].
  unfold consumerOk in H. destruct (chan c); [done|]. destruct H as [Hh Hd]. unfold taken. by rewrite Hh, Hd.
Qed.

(** C11. The cancel functions that the CPU monitor keeps are a function of docker's
    events: it keeps one for exactly the containers that the events it handled leave
    started; each is that of one of its goroutines for that container, which no one has
    cancelled (but which may have ended by itself); and once nothing is on its way, it
    keeps one for a container that was not in the initial list exactly when the last
    event broadcast of it since the registration is a start. *)
Theorem kept_cancels (cpus : Z) (s : state) (k : nat) (g : Docker.registration) :
  reachable cpus s -> chan (cpuIn s) = Some k -> Docker.registered (repo s) !! k = Some g ->
  dom (CpuMonitor.cancels (cpu s)) = startedAfter (handled (cpuIn s)) /\
  (forall id i, CpuMonitor.cancels (cpu s) !! id = Some i ->
     exists h, CpuMonitor.goroutines (cpu s) !! i = Some h /\ CpuMonitor.gContainer h = id /\
       CpuMonitor.gCancelled h = false) /\
  (quiescent s (cpuIn s) g -> forall id, id ∉ map ContainerID (Docker.initialSent g) ->
     (id ∈ dom (CpuMonitor.cancels (cpu s)) <->
      id ∈ startedAfter (drop (Docker.since g) (Docker.log (repo s))))).
Proof.
  intros [Hr Hcpu _ Hc _ _ Hm]%whole_reachable Hk Hg. split; [done|].
  split; [by apply (CpuMonitor.cancelsOk_reachable cpus)|]. intros (Hb & Hbuf & Hh) id Hid.
  destruct (Docker.Inv_reachable _ Hr) as [_ HR]. destruct (HR k g Hg) as (_ & Hlive & Hil & _).
  rewrite Hb in Hlive. cbn [Docker.owed] in Hlive. rewrite app_nil_r in Hlive.
  unfold consumerOk in Hc. rewrite Hk in Hc. destruct Hc as (g' & Hg' & Ht). simplify_eq.
  unfold taken in Ht. rewrite Hh, app_nil_r in Ht. rewrite Hbuf, app_nil_r, Ht in Hil.
  rewrite Hm, startedAfter_about, (about_interleaving id _ _ _ Hil Hid), <- startedAfter_about.
  by rewrite Hlive.
Qed.

(** C13. A container that stops while the initial list is being sent may be
    announced after its stop: there is a run at whose end nothing is on its way,
    docker's only event is the stop of the container, and the CPU monitor has a
    running goroutine for it whose context is not cancelled. *)
Theorem stale_start (cpus : Z) (id : string) (labels : gmap string string) :
  exists s g, reachable cpus s /\ chan (cpuIn s) = Some 0%nat /\ Docker.registered (repo s) !! 0%nat = Some g /\
    quiescent s (cpuIn s) g /\ Docker.pending g = Some [] /\
    Docker.log (repo s) = [mkEvent id ContainerActionStop] /\
    CpuMonitor.goroutines (cpu s) = [CpuMonitor.mkGoroutine id false true] /\
    id ∈ dom (CpuMonitor.cancels (cpu s)).
Proof.
  exists (staleState cpus id), (staleRegistration id).
  split; [exists unit, (Ok tt); by apply (exec_run (staleTrace id labels)), staleTrace_exec|].
  do 6 (split; [done|]). cbn [staleState cpu CpuMonitor.cancels]. rewrite dom_insert_L. set_solver.
Qed.

(** C12. The monitors are not independent: while the network monitor is busy with
    an event (it may wait for [ip link show]), its channel is full and the
    broadcaster has come to it, no consumer is sent a live event, whatever the
    other goroutines do; in particular the CPU monitor starts nothing new. *)
Theorem busy_net_blocks (cpus : Z) (s t : state) (k : nat) (rest : list nat) (c e : ContainerEvent)
    (g : Docker.registration) :
  reachable cpus s -> chan (netIn s) = Some k -> hand (netIn s) = Some e ->
  Docker.registered (repo s) !! k = Some g -> Docker.buf g <> [] ->
  Docker.bcast (repo s) = Docker.Sending c (k :: rest) ->
  steps BusyStep s t ->
  Docker.bcast (repo t) = Docker.bcast (repo s) /\ Docker.log (repo t) = Docker.log (repo s) /\
  forall j g1 g2, Docker.registered (repo s) !! j = Some g1 -> Docker.registered (repo t) !! j = Some g2 ->
    Docker.liveSent g2 = Docker.liveSent g1.
Proof.
  intros Hs%whole_reachable Hk He Hg Hbuf Hb Hst.
  assert (Inv cpus t /\ netIn t = netIn s /\ Docker.stuckOn c k rest (repo s) (repo t)) as (_ & _ & H1 & H2 & _ & _ & H5).
  { eapply (steps_ind_inv BusyStep (fun t => Inv cpus t /\ netIn t = netIn s /\ Docker.stuckOn c k rest (repo s) (repo t)));
      [| | exact Hst].
    - split; [done|]. split; [done|]. repeat split; try done; [by exists g|]. intros j g1 g2 Hg1 Hg2. by simplify_eq.
    - intros a b (Ha & Hna & Hsa) (l & Hl & Hstep). pose proof (whole_step _ _ _ _ Hstep Ha) as Hib.
      destruct (busy_step l a b k e Hstep Hl) as [Hnb Hrep]; [by apply Ha | | by rewrite Hna | by rewrite Hna |].
      { intros j Hj ->. destruct Ha as [_ _ _ _ _ Hd _]. apply (Hd k Hj). by rewrite Hna. }
      split; [done|]. split; [by rewrite Hnb|]. destruct Hrep as [-> | Hrep]; [done|].
      by eapply Docker.stuckOn_step. }
  by rewrite Hb.
Qed.

(** ** Witnesses *)

(** Two containers start while the network monitor waits for the first of them. *)
Definition busyTrace : list label :=
  [Repo Docker.Connect; NetRegister; CpuRegister;
   Repo (Docker.Message (mkEvent "a" "start")); Repo (Docker.Handoff 0); Repo Docker.Lock;
   Repo Docker.SendLive; Repo Docker.SendLive; Repo Docker.Unlock; NetReceive; CpuReceive; CpuHandle;
   Repo (Docker.Message (mkEvent "b" "start")); Repo (Docker.Handoff 0); Repo Docker.Lock;
   Repo Docker.SendLive; Repo Docker.SendLive; Repo Docker.Unlock; CpuReceive; CpuHandle;
   Repo (Docker.Message (mkEvent "c" "start")); Repo (Docker.Handoff 0); Repo Docker.Lock].

Definition busyState : state :=
  default (start (Ok tt) 4) (exec busyTrace (start (Ok tt) 4)).

Lemma busyState_reachable : reachable 4 busyState.
Proof. exists unit, (Ok tt). apply (exec_run busyTrace). vm_compute. reflexivity. Qed.

Lemma components_reachable_witness : Docker.reachable (repo busyState).
Proof. apply (components_reachable 4 busyState busyState_reachable). Defined.

Lemma kept_cancels_witness :
  dom (CpuMonitor.cancels (cpu busyState)) = startedAfter [mkEvent "a" "start"; mkEvent "b" "start"].
Proof.
  refine (proj1 (kept_cancels 4 busyState 1 _ busyState_reachable _ _)); [reflexivity|reflexivity].
Defined.

Lemma busy_net_blocks_witness :
  exists t, steps BusyStep busyState t /\ Docker.log (repo t) = Docker.log (repo busyState).
Proof.
  exists busyState. split; [constructor|].
  refine (proj1 (proj2 (busy_net_blocks 4 busyState busyState 0 [1%nat] (mkEvent "c" "start") (mkEvent "a" "start") _
    busyState_reachable _ _ _ _ _ _))); [reflexivity|reflexivity|reflexivity|discriminate|reflexivity|constructor].
Defined.

End Monitoring.
