(* ===== verification/Delivery.v ===== *)
(** * Delivery of the events

    How far the events that docker sent, or that the initial lists hold, still are from
    the monitors: the work left.  Every step of a goroutine that carries events makes
    it smaller, no other goroutine changes it, only docker's messages and lists add to
    it, and while there is some one of those goroutines can go on.  So nothing is
    delivered for ever, and nothing waits for ever, however the steps interleave. *)
From S2P Require Import Prelude Docker CpuMonitor NetMonitor Monitoring.

Module Delivery.
Import Monitoring.

(** ** The work left *)

Definition pumpWork (p : option ContainerEvent) : nat := match p with Some _ => 9 | None => 0 end.

(** A handed-over event may have to be sent to both monitors. *)
Definition bcastWork (b : Docker.broadcaster) : nat :=
  match b with
  | Docker.Idle => 0
  | Docker.Locking _ => 8
  | Docker.Sending _ rest => 1 + 3 * length rest
  end.

Definition regWork (g : Docker.registration) : nat :=
  2 * length (Docker.buf g) + 3 * length (default [] (Docker.pending g)).

Definition chanCount (c : consumer) : nat := match chan c with Some _ => 1 | None => 0 end.
Definition handCount (c : consumer) : nat := match hand c with Some _ => 1 | None => 0 end.
Definition consumerWork (c : consumer) : nat := (1 - chanCount c) + handCount c.

Definition work (s : state) : nat :=
  sum_list_with pumpWork (Docker.pumps (repo s)) + bcastWork (Docker.bcast (repo s)) +
  sum_list_with regWork (Docker.registered (repo s)) + consumerWork (cpuIn s) + consumerWork (netIn s).

(** The steps that carry an event towards a monitor. *)
Definition delivers (l : label) : bool :=
  match l with
  | Repo (Docker.Handoff _ | Docker.Lock | Docker.SendLive | Docker.Unlock | Docker.SendInitial _) => true
  | CpuRegister | CpuReceive | CpuHandle | NetRegister | NetReceive | NetHandle _ _ => true
  | _ => false
  end.

(** What docker adds: a message, or the containers of a list. *)
Definition arrived (l : label) : nat :=
  match l with
  | Repo (Docker.Message _) => 9
  | Repo (Docker.Listed _ (Ok cs)) => 3 * length cs
  | _ => 0
  end.

(** Nothing is on its way: each monitor has registered and has handled its initial
    containers and, in order, every event broadcast since then. *)
Definition delivered (r : Docker.state) (c : consumer) : Prop :=
  exists k g, chan c = Some k /\ Docker.registered r !! k = Some g /\ hand c = None /\ Docker.buf g = [] /\
    default [] (Docker.pending g) = [] /\
    Docker.Interleaving (Docker.initialSent g) (drop (Docker.since g) (Docker.log r)) (handled c).

Definition settled (s : state) : Prop :=
  (forall p, p ∈ Docker.pumps (repo s) -> p = None) /\ Docker.bcast (repo s) = Docker.Idle /\
  delivered (repo s) (cpuIn s) /\ delivered (repo s) (netIn s).

(** ** Sums *)

Lemma sum_insert {A} (f : A -> nat) l i x y :
  l !! i = Some x -> (sum_list_with f (<[i := y]> l) + f x = sum_list_with f l + f y)%nat.
Proof.
  revert i. induction l as [|a l IH]; intros [|i] H; simpl in H |- *; simplify_eq; [lia|].
  specialize (IH i H). lia.
Qed.

Lemma sum_zero {A} (f : A -> nat) l : sum_list_with f l = 0%nat <-> forall x, x ∈ l -> f x = 0%nat.
Proof.
  induction l as [|a l IH]; cbn; [split; [intros _ x Hx; by apply not_elem_of_nil in Hx|done]|].
  split.
  - intros H x [->|Hx]%elem_of_cons; [lia|]. apply IH; [lia|done].
  - intros H. rewrite (H a) by left. cbn. apply IH. intros x Hx. apply H. by right.
Qed.

(** ** The registrations are those of the monitors *)

Definition owned (s : state) : Prop :=
  length (Docker.registered (repo s)) = (chanCount (cpuIn s) + chanCount (netIn s))%nat.

(** A step of the repository other than a registration makes no channel. *)
Lemma step_registrations l r r' :
  Docker.step l r = Some r' ->
  length (Docker.registered r') =
    (length (Docker.registered r) + match l with Docker.RegisterToContainersStream => 1 | _ => 0 end)%nat.
Proof.
  intros Hst. destruct l; simpl in Hst; repeat case_match; simplify_eq;
    cbn [Docker.registered Docker.setBcast Docker.setRegistration]; rewrite ?length_app, ?length_insert; simpl; lia.
Qed.

Lemma register_count c r r' c' :
  register c r = Some (r', c') ->
  length (Docker.registered r') = S (length (Docker.registered r)) /\ chanCount c = 0%nat /\ chanCount c' = 1%nat /\
  handCount c' = handCount c.
Proof.
  intros (Hc & Hst & -> & _)%register_spec. apply step_registrations in Hst.
  unfold chanCount, handCount. rewrite Hc. cbn. repeat split. lia.
Qed.

Lemma receive_count c r r' c' :
  receive c r = Some (r', c') ->
  length (Docker.registered r') = length (Docker.registered r) /\ chanCount c = 1%nat /\ chanCount c' = 1%nat /\
  handCount c = 0%nat /\ handCount c' = 1%nat.
Proof.
  intros (k & g & e & b & Hc & Hh & _ & _ & Hst & _ & ->)%receive_spec. apply step_registrations in Hst.
  unfold chanCount, handCount. rewrite Hc, Hh. cbn. repeat split. lia.
Qed.

Lemma done_with_count e c : chanCount (done_with e c) = chanCount c /\ handCount (done_with e c) = 0%nat.
Proof. done. Qed.

Lemma owned_step l s t : step l s = Some (Ok t) -> owned s -> owned t.
Proof.
  unfold owned. intros Hst H. destruct l as [l| | | |a| | |lib order|b]; cbn [step] in Hst.
  - destruct (ownStep l) eqn:Hl; [|done]. destruct (Docker.step l (repo s)) as [r|] eqn:E; simplify_eq/=.
    apply step_registrations in E. destruct l; try done; lia.
  - destruct (register (cpuIn s) (repo s)) as [[r c]|] eqn:E; simplify_eq/=. apply register_count in E. lia.
  - destruct (receive (cpuIn s) (repo s)) as [[r c]|] eqn:E; simplify_eq/=. apply receive_count in E. lia.
  - destruct (hand (cpuIn s)); by simplify_eq/=.
  - destruct (ownAct a); [|done]. by destruct (CpuMonitor.step a (cpu s)) as [[m| |]|]; simplify_eq/=.
  - destruct (register (netIn s) (repo s)) as [[r c]|] eqn:E; simplify_eq/=. apply register_count in E. lia.
  - destruct (receive (netIn s) (repo s)) as [[r c]|] eqn:E; simplify_eq/=. apply receive_count in E. lia.
  - destruct (hand (netIn s)); [|done]. by destruct (NetMonitor.step _ (net s)) as [[m| |]|]; simplify_eq/=.
  - destruct (netOwn b); [|done]. by destruct (NetMonitor.step b (net s)) as [[m| |]|]; simplify_eq/=.
Qed.

Lemma reachable_owned cpus s : reachable cpus s -> Inv cpus s /\ owned s.
Proof.
  intros (A & client & H).
  eapply (steps_ind_inv Step (fun s => Inv cpus s /\ owned s)); [split; [apply (whole_start client)|done]| |exact H].
  intros a b [Ha Hoa] [l Hl]. split; [by eapply whole_step | by eapply owned_step].
Qed.

(** A channel of the repository is that of one of the monitors. *)
Lemma owned_chan cpus s k g :
  Inv cpus s -> owned s -> Docker.registered (repo s) !! k = Some g ->
  chan (cpuIn s) = Some k \/ chan (netIn s) = Some k.
Proof.
  intros [_ _ _ Hc Hn Hd _] Ho Hk%lookup_lt_Some. unfold owned, chanCount in Ho.
  destruct (chan (cpuIn s)) as [i|] eqn:Ei, (chan (netIn s)) as [j|] eqn:Ej; [| | |lia].
  - pose proof (consumerOk_lt _ _ _ Hc Ei). pose proof (consumerOk_lt _ _ _ Hn Ej). specialize (Hd i eq_refl).
    assert (i <> j) by congruence. assert (k = i \/ k = j) as [-> | ->] by lia; auto.
  - pose proof (consumerOk_lt _ _ _ Hc Ei). assert (k = i) as -> by lia. auto.
  - pose proof (consumerOk_lt _ _ _ Hn Ej). assert (k = j) as -> by lia. auto.
Qed.

(** ** Each step and the work *)

(** The work of the repository alone. *)
Definition repoWork (r : Docker.state) : nat :=
  sum_list_with pumpWork (Docker.pumps r) + bcastWork (Docker.bcast r) + sum_list_with regWork (Docker.registered r).

Lemma repoWork_registration k g g' r :
  Docker.registered r !! k = Some g ->
  (repoWork (Docker.setRegistration k g' r) + regWork g = repoWork r + regWork g')%nat.
Proof.
  intros H. unfold repoWork. cbn [Docker.pumps Docker.bcast Docker.registered Docker.setRegistration].
  pose proof (sum_insert regWork _ _ _ g' H). lia.
Qed.

Lemma repoWork_own l r r' :
  Docker.step l r = Some r' -> (length (Docker.registered r) <= 2)%nat -> ownStep l = true ->
  if delivers (Repo l) then (repoWork r' < repoWork r)%nat else repoWork r' = (repoWork r + arrived (Repo l))%nat.
Proof.
  intros Hst Hlen Hl. destruct l as [ |e|err|i| | | | |k cs|k|k]; try done; cbn [delivers arrived]; simpl in Hst.
  - destruct (Docker.phase r); simplify_eq. unfold repoWork. cbn. rewrite sum_list_with_app. cbn. lia.
  - destruct (Docker.phase r), (Docker.pumps r !! pred (length (Docker.pumps r))) as [[]|] eqn:E; simplify_eq.
    unfold repoWork. cbn. pose proof (sum_insert pumpWork _ _ _ (Some e) E). cbn in *. lia.
  - destruct (Docker.phase r); simplify_eq. unfold repoWork. cbn. lia.
  - destruct (Docker.pumps r !! i) as [[c|]|] eqn:E, (Docker.bcast r) eqn:Eb; simplify_eq.
    unfold repoWork. rewrite Eb. cbn. pose proof (sum_insert pumpWork _ _ _ None E). cbn in *. lia.
  - destruct (Docker.bcast r) eqn:Eb; simplify_eq. unfold repoWork. rewrite Eb. cbn [Docker.pumps Docker.bcast Docker.registered bcastWork].
    rewrite length_seq. lia.
  - destruct (Docker.bcast r) as [| |c [|k rest]] eqn:Eb; simplify_eq.
    destruct (Docker.registered r !! k) as [g|] eqn:E; simplify_eq. destruct (Docker.hasRoom g); simplify_eq.
    pose proof (sum_insert regWork _ _ _ (Docker.sendLive c g) E) as H. unfold regWork at 2 4 in H.
    cbn [Docker.sendLive Docker.buf Docker.pending] in H. rewrite length_app in H. cbn [length] in H.
    unfold repoWork. rewrite Eb. cbn [Docker.pumps Docker.bcast Docker.registered Docker.setBcast Docker.setRegistration bcastWork length]. lia.
  - destruct (Docker.bcast r) as [| |c [|k rest]] eqn:Eb; simplify_eq. unfold repoWork. rewrite Eb. cbn. lia.
  - destruct (Docker.registered r !! k) as [g|] eqn:E; simplify_eq. destruct (Docker.pending g) eqn:Ep; simplify_eq.
    pose proof (repoWork_registration k g (Docker.listed cs g) r E) as H. unfold regWork in H.
    rewrite Ep in H. cbn [Docker.listed Docker.buf Docker.pending default length] in H.
    destruct cs; cbn [id default length] in *; rewrite ?length_map in *; lia.
  - destruct (Docker.registered r !! k) as [g|] eqn:E; simplify_eq. destruct (Docker.pending g) as [[|c cs]|] eqn:Ep; simplify_eq.
    destruct (Docker.hasRoom g); simplify_eq.
    pose proof (repoWork_registration k g (Docker.sendInitial c cs g) r E) as H. unfold regWork in H.
    rewrite Ep in H. cbn [Docker.sendInitial Docker.buf Docker.pending default id length] in H. rewrite length_app in H.
    cbn [length] in H. lia.
Qed.

Lemma repoWork_register c r r' c' :
  register c r = Some (r', c') -> (repoWork r' = repoWork r /\ S (consumerWork c') = consumerWork c)%nat.
Proof.
  intros H. pose proof (register_count _ _ _ _ H) as (_ & H1 & H2 & H3). unfold consumerWork. rewrite H1, H2, H3.
  apply register_spec in H as (_ & Hst & _ & _). simpl in Hst. destruct (Docker.mutexFree r); simplify_eq.
  unfold repoWork. cbn [Docker.pumps Docker.bcast Docker.registered]. rewrite sum_list_with_app. simpl. lia.
Qed.

Lemma repoWork_receive c r r' c' :
  receive c r = Some (r', c') -> (repoWork r' + consumerWork c' < repoWork r + consumerWork c)%nat.
Proof.
  intros H. pose proof (receive_count _ _ _ _ H) as (_ & H1 & H2 & H3 & H4). unfold consumerWork. rewrite H1, H2, H3, H4.
  apply receive_spec in H as (k & g & e & b & _ & _ & Hg & Hb & _ & -> & _).
  pose proof (repoWork_registration k g (Docker.consume e b g) r Hg) as H. unfold regWork in H. rewrite Hb in H.
  cbn [Docker.consume Docker.buf Docker.pending length] in H. lia.
Qed.

Lemma done_with_work e e' c :
  hand c = Some e -> (consumerWork (done_with e' c) < consumerWork c)%nat.
Proof. unfold consumerWork, handCount, chanCount. intros ->. cbn. destruct (chan c); lia. Qed.

Lemma work_step l s t :
  step l s = Some (Ok t) -> owned s ->
  if delivers l then (work t < work s)%nat else work t = (work s + arrived l)%nat.
Proof.
  intros Hst Ho. unfold work. fold (repoWork (repo s)). fold (repoWork (repo t)).
  destruct l as [l| | | |a| | |lib order|b]; cbn [step] in Hst.
  - destruct (ownStep l) eqn:Hl; [|done]. destruct (Docker.step l (repo s)) as [r|] eqn:E; [|done].
    cbn [option_map] in Hst. simplify_eq. cbn [repo cpuIn netIn].
    assert (length (Docker.registered (repo s)) <= 2)%nat as Hlen.
    { rewrite Ho. unfold chanCount. destruct (chan (cpuIn s)), (chan (netIn s)); lia. }
    pose proof (repoWork_own l _ _ E Hlen Hl). destruct (delivers (Repo l)); lia.
  - destruct (register (cpuIn s) (repo s)) as [[r c]|] eqn:E; simplify_eq/=. apply repoWork_register in E. lia.
  - destruct (receive (cpuIn s) (repo s)) as [[r c]|] eqn:E; simplify_eq/=. apply repoWork_receive in E. lia.
  - destruct (hand (cpuIn s)) as [e|] eqn:E; simplify_eq/=. pose proof (done_with_work e e _ E). lia.
  - destruct (ownAct a); [|done]. destruct (CpuMonitor.step a (cpu s)) as [[m| |]|]; simplify_eq/=. lia.
  - destruct (register (netIn s) (repo s)) as [[r c]|] eqn:E; simplify_eq/=. apply repoWork_register in E. lia.
  - destruct (receive (netIn s) (repo s)) as [[r c]|] eqn:E; simplify_eq/=. apply repoWork_receive in E. lia.
  - destruct (hand (netIn s)) as [e|] eqn:E; [|done]. destruct (NetMonitor.step _ (net s)) as [[m| |]|]; simplify_eq/=.
    pose proof (done_with_work e e _ E). lia.
  - destruct (netOwn b); [|done]. destruct (NetMonitor.step b (net s)) as [[m| |]|]; simplify_eq/=. lia.
Qed.

(** ** Some step is possible while there is work *)

Section Progress.
(** What netlink and [ip link show] answer the next time the network monitor asks. *)
Variable lib : NetLib.
Variable order : list (string * string).

Definition withLib (l : label) : Prop :=
  match l with NetHandle lib' order' => lib' = lib /\ order' = order | _ => True end.

(** The network monitor does not panic on the event in its hand. *)
Definition handles (s : state) : Prop :=
  forall e, hand (netIn s) = Some e -> is_ok (@NetMonitor.handleEvent lib order e (NetMonitor.monitor (net s))) = true.

Definition canDeliver (s : state) : Prop :=
  exists l t, delivers l = true /\ withLib l /\ step l s = Some (Ok t).

Lemma canDeliver_hand s : handles s -> (handCount (cpuIn s) + handCount (netIn s) <> 0)%nat -> canDeliver s.
Proof.
  intros Hok Hh. unfold handCount in Hh. destruct (hand (cpuIn s)) as [e|] eqn:Ec.
  - exists CpuHandle. eexists. split; [done|]. split; [done|]. cbn [step]. by rewrite Ec.
  - destruct (hand (netIn s)) as [e|] eqn:En; [|done]. specialize (Hok e En).
    destruct (@NetMonitor.handleEvent lib order e (NetMonitor.monitor (net s))) as [m| |] eqn:Em; try done.
    exists (NetHandle lib order). eexists. split; [done|]. split; [done|]. cbn [step]. rewrite En. unfold NetMonitor.step. by rewrite Em.
Qed.

Lemma receive_possible c r k g e b :
  chan c = Some k -> hand c = None -> Docker.registered r !! k = Some g -> Docker.buf g = e :: b ->
  exists r' c', receive c r = Some (r', c').
Proof.
  intros Hc Hh Hg Hb. unfold receive. rewrite Hc, Hh, Hg, Hb. cbn [Docker.step]. rewrite Hg, Hb. by eauto.
Qed.

Lemma canDeliver_buffer cpus s k g :
  Inv cpus s -> owned s -> (handCount (cpuIn s) + handCount (netIn s) = 0)%nat ->
  Docker.registered (repo s) !! k = Some g -> Docker.buf g <> [] -> canDeliver s.
Proof.
  intros HI Ho Hh Hg Hb. destruct (Docker.buf g) as [|e b] eqn:Eb; [done|]. unfold handCount in Hh.
  destruct (hand (cpuIn s)) eqn:Ec; [done|]. destruct (hand (netIn s)) eqn:En; [done|].
  destruct (owned_chan cpus s k g HI Ho Hg) as [Hc|Hc].
  - destruct (receive_possible _ _ _ _ _ _ Hc Ec Hg Eb) as (r' & c' & E).
    exists CpuReceive. eexists. split; [done|]. split; [done|]. cbn [step]. by rewrite E.
  - destruct (receive_possible _ _ _ _ _ _ Hc En Hg Eb) as (r' & c' & E).
    exists NetReceive. eexists. split; [done|]. split; [done|]. cbn [step]. by rewrite E.
Qed.

Lemma canDeliver_repo s l r :
  ownStep l = true -> delivers (Repo l) = true -> Docker.step l (repo s) = Some r -> canDeliver s.
Proof.
  intros Hl Hd E. exists (Repo l). eexists. split; [done|]. split; [done|]. cbn [step]. by rewrite Hl, E.
Qed.

(** With empty channels the broadcaster is never blocked. *)
Lemma canDeliver_bcast s :
  Docker.broadcasterOk (repo s) -> Forall (fun g => Docker.buf g = []) (Docker.registered (repo s)) ->
  Docker.bcast (repo s) <> Docker.Idle -> canDeliver s.
Proof.
  unfold Docker.broadcasterOk. intros Hb Hbuf Hi. destruct (Docker.bcast (repo s)) as [|c|c [|k rest]] eqn:E; [done| | |].
  - eapply (canDeliver_repo s Docker.Lock); [done|done|]. simpl. by rewrite E.
  - eapply (canDeliver_repo s Docker.Unlock); [done|done|]. simpl. by rewrite E.
  - destruct Hb as [_ [Hlt _]%list.Forall_cons_1]. apply lookup_lt_is_Some_2 in Hlt as [g Hg].
    pose proof (Forall_lookup_1 _ _ _ _ Hbuf Hg) as Hroom. cbv beta in Hroom.
    eapply (canDeliver_repo s Docker.SendLive); [done|done|]. simpl. rewrite E, Hg. unfold Docker.hasRoom. by rewrite Hroom.
Qed.

Lemma canDeliver_register s :
  Docker.bcast (repo s) = Docker.Idle -> (chanCount (cpuIn s) * chanCount (netIn s) = 0)%nat -> canDeliver s.
Proof.
  unfold chanCount. intros Hb Hc.
  assert (forall c, chan c = None -> exists r' c', register c (repo s) = Some (r', c')) as Hreg.
  { intros c H. unfold register. rewrite H. cbn [Docker.step]. unfold Docker.mutexFree. rewrite Hb. by eauto. }
  destruct (chan (cpuIn s)) eqn:Ec; [destruct (chan (netIn s)) eqn:En; [done|]|].
  - destruct (Hreg _ En) as (r' & c' & E). exists NetRegister. eexists. split; [done|]. split; [done|]. cbn [step]. by rewrite E.
  - destruct (Hreg _ Ec) as (r' & c' & E). exists CpuRegister. eexists. split; [done|]. split; [done|]. cbn [step]. by rewrite E.
Qed.

Lemma not_Forall_lookup {A} (P : A -> Prop) `{!forall x, Decision (P x)} (l : list A) :
  ~ Forall P l -> exists k x, l !! k = Some x /\ ~ P x.
Proof.
  intros Hf. apply not_Forall_Exists in Hf; [|done]. apply list.Exists_exists in Hf as (x & Hx & HP).
  apply list_elem_of_lookup in Hx as [k Hk]. by exists k, x.
Qed.

Lemma progress cpus s : Inv cpus s -> owned s -> handles s -> canDeliver s \/ work s = 0%nat.
Proof.
  intros HI Ho Hok.
  destruct (decide (handCount (cpuIn s) + handCount (netIn s) = 0)%nat) as [Hh|Hh]; [|left; by apply canDeliver_hand].
  destruct (decide (Forall (fun g => Docker.buf g = []) (Docker.registered (repo s)))) as [Hbuf|Hbuf].
  2: { apply not_Forall_lookup in Hbuf as (k & g & Hg & Hb); [|apply _]. left. by eapply canDeliver_buffer. }
  destruct (decide (bcastWork (Docker.bcast (repo s)) = 0%nat)) as [Hb|Hb].
  2: { left. apply canDeliver_bcast; [|done|]; [apply (Docker.Inv_reachable _ (inv_repo _ _ HI))|]. intros E. by rewrite E in Hb. }
  assert (Docker.bcast (repo s) = Docker.Idle) as Hi by by destruct (Docker.bcast (repo s)).
  destruct (decide (Forall (fun p => p = None) (Docker.pumps (repo s)))) as [Hp|Hp].
  2: { apply not_Forall_lookup in Hp as (i & [c|] & Hg & Hb'); [|done|apply _]. left.
       eapply (canDeliver_repo s (Docker.Handoff i)); [done|done|]. simpl. by rewrite Hg, Hi. }
  destruct (decide (Forall (fun g => default [] (Docker.pending g) = []) (Docker.registered (repo s)))) as [Hn|Hn].
  2: { apply not_Forall_lookup in Hn as (k & g & Hg & Hb'); [|apply _]. left.
       destruct (Docker.pending g) as [[|c cs]|] eqn:Eg; [done| |done].
       eapply (canDeliver_repo s (Docker.SendInitial k)); [done|done|]. simpl. rewrite Hg, Eg. unfold Docker.hasRoom.
       pose proof (Forall_lookup_1 _ _ _ _ Hbuf Hg) as Hroom. cbv beta in Hroom. by rewrite Hroom. }
  destruct (decide (chanCount (cpuIn s) * chanCount (netIn s) = 0)%nat) as [Hc|Hc]; [left; by apply canDeliver_register|].
  right. unfold work, consumerWork. rewrite Hb.
  assert (sum_list_with pumpWork (Docker.pumps (repo s)) = 0%nat) as ->.
  { apply sum_zero. intros p Hin. rewrite list.Forall_forall in Hp. by rewrite (Hp p Hin). }
  assert (sum_list_with regWork (Docker.registered (repo s)) = 0%nat) as ->.
  { apply sum_zero. intros g Hin. rewrite list.Forall_forall in Hn, Hbuf. unfold regWork. by rewrite (Hn g Hin), (Hbuf g Hin). }
  destruct (chanCount (cpuIn s)), (chanCount (netIn s)); lia.
Qed.

End Progress.

(** ** No work is left exactly when nothing is on its way *)

Lemma delivered_consumer cpus s c :
  Inv cpus s -> consumerOk (repo s) c -> Docker.bcast (repo s) = Docker.Idle ->
  (forall g, g ∈ Docker.registered (repo s) -> regWork g = 0%nat) -> consumerWork c = 0%nat -> delivered (repo s) c.
Proof.
  unfold consumerWork, chanCount, handCount, consumerOk. intros HI Hc Hb Hg Hw.
  destruct (chan c) as [k|] eqn:Ec; [|done]. destruct (hand c) eqn:Eh; [done|].
  destruct Hc as (g & Hk & Ht). exists k, g. unfold taken in Ht. rewrite Eh, app_nil_r in Ht.
  pose proof (Hg g ltac:(by eapply list_elem_of_lookup_2)) as H0. unfold regWork in H0.
  assert (Docker.buf g = []) as Ebuf by (destruct (Docker.buf g); [done|cbn in H0; lia]).
  assert (default [] (Docker.pending g) = []) as Ep by (destruct (default [] (Docker.pending g)); [done|cbn in H0; lia]).
  destruct (Docker.Inv_reachable _ (inv_repo _ _ HI)) as [_ HR]. destruct (HR k g Hk) as (_ & Hlive & Hil & _).
  rewrite Hb in Hlive. cbn [Docker.owed] in Hlive. rewrite app_nil_r in Hlive. rewrite Ebuf, app_nil_r, Ht, Hlive in Hil.
  done.
Qed.

Lemma no_work_settled cpus s : Inv cpus s -> work s = 0%nat -> settled s.
Proof.
  intros HI Hw. unfold work in Hw.
  assert (Docker.bcast (repo s) = Docker.Idle) as Hb by (destruct (Docker.bcast (repo s)); cbn in Hw; [done|lia|lia]).
  assert (forall g, g ∈ Docker.registered (repo s) -> regWork g = 0%nat) as Hg by (apply sum_zero; lia).
  split; [|split; [done|split]].
  - intros p Hp. pose proof (proj1 (sum_zero pumpWork (Docker.pumps (repo s))) ltac:(lia) p Hp). by destruct p.
  - eapply delivered_consumer; [done|apply HI|done|done|lia].
  - eapply delivered_consumer; [done|apply HI|done|done|lia].
Qed.

(** ** Properties *)

Lemma exec_work cpus ls s t :
  reachable cpus s -> exec ls s = Some t ->
  reachable cpus t /\
  (length (List.filter delivers ls) + work t <= work s + list_sum (map arrived ls))%nat.
Proof.
  revert s. induction ls as [|l ls IH]; intros s Hs H; cbn [exec] in H; [simplify_eq; cbn; split; [done|lia]|].
  destruct (step l s) as [[u| |]|] eqn:E; try done.
  assert (reachable cpus u) as Hu by (destruct Hs as (A & client & Hs); exists A, client; eapply steps_snoc; [exact Hs|by exists l]).
  destruct (IH u Hu H) as [Ht Hle]. split; [done|].
  pose proof (work_step l s u E (proj2 (reachable_owned _ _ Hs))) as Hw.
  cbn [List.filter map list_sum]. change (list_sum (arrived l :: map arrived ls)) with (arrived l + list_sum (map arrived ls))%nat.
  destruct (delivers l); cbn [length]; lia.
Qed.

(** C34. Delivery in the whole program: in a run from any reachable state, however the
    goroutines interleave, the steps that carry events are at most the work there was
    and the work that docker added (nine for a message, three for each container of a
    list).  At its end, either some of those steps is possible, provided the network
    monitor does not panic on the event in its hand, or everything has arrived: no
    pump holds an event, the broadcaster waits, each monitor has handled its initial
    containers and every event broadcast since it registered, in order, and the CPU
    monitor keeps a cancel function for the containers they leave started. *)
Theorem all_delivered (cpus : Z) (ls : list label) (s t : state) (lib : NetLib) (order : list (string * string)) :
  reachable cpus s -> exec ls s = Some t -> handles lib order t ->
  (length (List.filter delivers ls) + work t <= work s + list_sum (map arrived ls))%nat /\
  if bool_decide (work t = 0%nat)
  then settled t /\ dom (CpuMonitor.cancels (cpu t)) = startedAfter (handled (cpuIn t))
  else canDeliver lib order t.
Proof.
  intros Hs He Hok. destruct (exec_work cpus ls s t Hs He) as [Ht Hle]. split; [done|].
  destruct (reachable_owned _ _ Ht) as [HI Ho]. case_bool_decide as Hw.
  - split; [by eapply no_work_settled | apply HI].
  - by destruct (progress lib order cpus t HI Ho Hok).
Qed.

(** ** Witness *)

(** A host whose network monitor cannot read the name space of a container. *)
Definition quietLib : NetLib := {|
  nsHandle := unit; nlHandle := unit;
  GetFromDocker := fun _ => Err (ErrOpaque "no such container");
  NewHandleAt := fun _ => Ok tt; LinkParentIndex := fun _ _ => Ok 1;
  ipLinkStart := Ok tt; ipLinkOutput := ""; ipLinkWait := None |}.

(** A start of docker on its way to both monitors, with the container of the list
    sent to the CPU monitor. *)
Definition startTrace : list label :=
  [Repo Docker.Connect; NetRegister; CpuRegister; Repo (Docker.Listed 1 (Ok [mkSummary "a" ∅]));
   Repo (Docker.Message (mkEvent "b" "start"))].

Definition endTrace : list label :=
  [Repo (Docker.Handoff 0); Repo Docker.Lock; Repo Docker.SendLive; NetReceive; Repo Docker.SendLive;
   Repo Docker.Unlock; CpuReceive; CpuHandle; Repo (Docker.SendInitial 1); NetHandle quietLib []; CpuReceive; CpuHandle].

Definition exampleStart : state := start (Ok tt) 4.
Definition exampleEnd : state := default exampleStart (exec (startTrace ++ endTrace)%list exampleStart).

Lemma all_delivered_witness :
  (length (List.filter delivers (startTrace ++ endTrace)%list) = 14)%nat /\
  settled exampleEnd /\
  dom (CpuMonitor.cancels (cpu exampleEnd)) = startedAfter [mkEvent "b" "start"; mkEvent "a" "start"].
Proof.
  destruct (all_delivered 4 (startTrace ++ endTrace)%list exampleStart exampleEnd quietLib []) as [_ H].
  - exists unit, (Ok tt). constructor.
  - vm_compute. reflexivity.
  - assert (hand (netIn exampleEnd) = None) as E by (vm_compute; reflexivity). intros e. rewrite E. discriminate.
  - split; [reflexivity|]. assert (work exampleEnd = 0%nat) as E by (vm_compute; reflexivity).
    rewrite bool_decide_true in H by exact E. destruct H as [H1 H2]. split; [exact H1|].
    assert (handled (cpuIn exampleEnd) = [mkEvent "b" "start"; mkEvent "a" "start"]) as Eh by (vm_compute; reflexivity).
    rewrite Eh in H2. exact H2.
Defined.

(** The bound is reached: two for the registrations, nine for the message and three
    for the list. *)
Example work_examples :
  work exampleStart = 2%nat /\ list_sum (map arrived (startTrace ++ endTrace)%list) = 12%nat /\ work exampleEnd = 0%nat.
Proof. vm_compute. repeat split. Qed.

End Delivery.
