(* ===== verification/Webserver.v ===== *)
(** * webserver/: the HTTP handlers

    A handler takes the controller and what it reads of the request, and gives a
    response or an error for the router's middleware.  The monitors change while a
    handler runs: the controller gives their state at the moment the handler asks
    about a container. *)
From S2P Require Import Prelude GoStrings GoFloat Config Cgroup Meminfo CpuStat.
From S2P Require Import JsonString NumberText LoadAvg Json JsonText Client Docker Resources CpuMonitor NetMonitor.

Module Webserver.

(** The fields of [Controller]: each monitor as the handlers see it. *)
Record Controller : Type := mkController {
  resources : StatsReader;
  cpu : string -> CpuMonitor.t;
  hostCpu : CpuMonitor.t;
  net : string -> NetMonitor.t;
  queue : MetricsReader;
  procfsMemory : outcome Meminfo.MemInfo }.

(** [NewController], from the two monitors in one state each. *)
Definition NewController (resourceUsage : StatsReader) (c : CpuMonitor.t) (n : NetMonitor.t)
    (q : MetricsReader) (mem : outcome Meminfo.MemInfo) : Controller :=
  mkController resourceUsage (fun _ => c) c (fun _ => n) q mem.

(** [res.WriteHeader(status); json.NewEncoder(res).Encode(&payload)]: a payload that
    cannot be encoded leaves the body empty, after the status is sent. *)
Definition writeJSON (status : Z) (payload : outcome json) : Client.response :=
  Client.mkResponse status (Encode payload).

Section Handlers.
Variable oob : float64 -> Z.
Variable refreshTime : Z.
(** [docker.ListContainers]. *)
Variable containers : outcome (list Summary).
Variable c : Controller.

Definition ContainerUsageHandler (id : string) : outcome Client.response :=
  let! resourceUsage := wrapMsg "get container resources usage" (@Resources.GetUsage (resources c) id) in
  let! cpuUsage := wrapMsg "get container cpu usage" (CpuMonitor.GetContainerUsage oob id (cpu c id)) in
  let! netUsage := wrapMsg "get container network usage" (NetMonitor.GetUsage oob refreshTime id (net c id)) in
  Ok (writeJSON 200 (Client.encUsage
        (Client.mkUsage (Some (Resources.Memory resourceUsage)) (Some cpuUsage)
           (Some (Resources.IO resourceUsage)) (Some netUsage) ∅))).

Definition ContainerMemUsageHandler (id : string) : outcome Client.response :=
  let! m := wrapMsg "get container memory usage" (@Resources.GetMemoryUsage (resources c) id) in
  Ok (writeJSON 200 (Ok (Client.encMemoryUsage m))).

Definition ContainerIOUsageHandler (id : string) : outcome Client.response :=
  let! io := wrapMsg "get container io usage" (@Resources.GetIOUsage (resources c) id) in
  Ok (writeJSON 200 (Ok (Client.encIOUsage io))).

Definition ContainerCPUUsageHandler (id : string) : outcome Client.response :=
  let! u := wrapMsg "get container cpu usage" (CpuMonitor.GetContainerUsage oob id (cpu c id)) in
  Ok (writeJSON 200 (Ok (Client.encCpuUsage u))).

Definition ContainerNetUsageHandler (id : string) : outcome Client.response :=
  let! n := wrapMsg "get container network usage" (NetMonitor.GetUsage oob refreshTime id (net c id)) in
  Ok (writeJSON 200 (Ok (Client.encNetUsage n))).

(** The body of the loop of [ContainersUsageHandler]: any error skips the container. *)
Definition containersStep (container : Summary) (usage : gmap string Client.Usage)
    : outcome (gmap string Client.Usage) :=
  match CpuMonitor.GetContainerUsage oob (ID container) (cpu c (ID container)) with
  | Panic m => Panic m
  | Err _ => Ok usage
  | Ok cpuUsage =>
      match @Resources.GetUsage (resources c) (ID container) with
      | Panic m => Panic m
      | Err _ => Ok usage
      | Ok resourceUsage =>
          match NetMonitor.GetUsage oob refreshTime (ID container) (net c (ID container)) with
          | Panic m => Panic m
          | Err _ => Ok usage
          | Ok netUsage =>
              Ok (<[ID container :=
                    Client.mkUsage (Some (Resources.Memory resourceUsage)) (Some cpuUsage)
                      (Some (Resources.IO resourceUsage)) (Some netUsage) (Labels container)]> usage)
          end
      end
  end.

Fixpoint containersLoop (cs : list Summary) (usage : gmap string Client.Usage)
    : outcome (gmap string Client.Usage) :=
  match cs with
  | [] => Ok usage
  | container :: cs' => let! u := containersStep container usage in containersLoop cs' u
  end.

Definition ContainersUsageHandler : outcome Client.response :=
  match containers with
  | Panic m => Panic m
  | Err e =>
      let! msg := errorString e in
      Ok (writeJSON 500 (Ok (JObj [("error", JStr msg); ("message", JStr "fail to list containers")])))
  | Ok cs =>
      let! usage := containersLoop cs Client.NewContainersUsage in
      Ok (writeJSON 200 (Client.encContainersUsage usage))
  end.

(** The memory counters of the host with those of one more container. *)
Definition addMemory (m : Client.HostMemoryUsage) (u : Client.MemoryUsage) : Client.HostMemoryUsage :=
  Client.mkHostMemoryUsage (Client.hFree m) (Client.hTotal m) (Client.hSwap m)
    (addu (Client.hMemoryUsage m) (Client.mMemoryUsage u))
    (addu (Client.hMemoryCommitted m) (Client.mMemoryLimit u))
    (addu (Client.hMaxMemoryUsage m) (Client.mMaxMemoryUsage u))
    (addu (Client.hSwapUsage m) (Client.mSwapUsage u))
    (addu (Client.hSwapCommitted m) (Client.mSwapLimit u))
    (addu (Client.hMaxSwapUsage m) (Client.mMaxSwapUsage u)).

Definition labelled (labelFilter : string) (container : Summary) : bool :=
  if String.eqb labelFilter "" then true else bool_decide (is_Some (Labels container !! labelFilter)).

(** The loop of [HostResourcesHandler]. *)
Fixpoint hostLoop (labelFilter : string) (cs : list Summary) (memory : Client.HostMemoryUsage)
    : outcome Client.HostMemoryUsage :=
  match cs with
  | [] => Ok memory
  | container :: cs' =>
      if negb (labelled labelFilter container) then hostLoop labelFilter cs' memory
      else
        match @Resources.GetMemoryUsage (resources c) (ID container) with
        | Panic m => Panic m
        | Err _ => hostLoop labelFilter cs' memory
        | Ok u => hostLoop labelFilter cs' (addMemory memory u)
        end
  end.

(** [queueLength, err := c.queue.Read(ctx)]: the missing metrics are no error, and
    the value is then [0.0]. *)
Definition queueLength : outcome float64 :=
  match @ReadMetric (queue c) with
  | Err e => if isNotEnoughMetrics e then Ok fzero else Err (Wrap (Some e) "get current queue length")
  | o => o
  end.

Definition HostResourcesHandler (labelFilter : string) : outcome Client.response :=
  let! cpu := wrapMsg "get host cpu usage" (CpuMonitor.GetHostUsage (hostCpu c)) in
  let! q := queueLength in
  let! hostMemory := wrapMsg "get host memory usage" (procfsMemory c) in
  let! cs := wrapMsg "list docker containers" containers in
  let! memory := hostLoop labelFilter cs
    (Client.mkHostMemoryUsage (Meminfo.FreeBuffers hostMemory / 1024 / 1024)
       (hostMemory Meminfo.MemTotal / 1024 / 1024) (Meminfo.SwapUsed hostMemory / 1024 / 1024)
       0 0 0 0 0 0) in
  Ok (writeJSON 200 (Client.encHostUsage
        (Client.mkHostUsage (Client.mkHostCpuUsage (Client.hUsage cpu) (Client.hAmount cpu) q) memory))).

(** ** Specification *)

(** The statistics the host usage counts: those that can be read of the containers
    that carry the label, all of them without a label. *)
Definition counted (labelFilter : string) (cs : list Summary) : list Stats :=
  omap (fun container => match @GetStats (resources c) (ID container) with Ok st => Some st | _ => None end)
    (filter (fun container => labelFilter = "" \/ is_Some (Labels container !! labelFilter)) cs).

Definition sumOf (f : Stats -> Z) (sts : list Stats) : Z := foldr Z.add 0 (map f sts).

(** In mebibytes for the host, in bytes (in 64 bits) for the containers. *)
Definition specHostMemory (m : Meminfo.MemInfo) (sts : list Stats) : Client.HostMemoryUsage :=
  Client.mkHostMemoryUsage
    (u64 (m Meminfo.MemFree + m Meminfo.Buffers + m Meminfo.Cached) / 2 ^ 20) (m Meminfo.MemTotal / 2 ^ 20)
    (u64 (m Meminfo.SwapTotal - m Meminfo.SwapFree) / 2 ^ 20)
    (u64 (sumOf MemoryUsage sts)) (u64 (sumOf MemoryLimit sts)) (u64 (sumOf MemoryMaxUsage sts))
    (u64 (sumOf SwapUsage sts)) (u64 (sumOf SwapLimit sts)) (u64 (sumOf SwapMaxUsage sts)).

(** What is said of one container. *)
Definition specUsage (id : string) (labels : gmap string string) : option Client.Usage :=
  match CpuMonitor.GetContainerUsage oob id (cpu c id), @Resources.GetUsage (resources c) id,
        NetMonitor.GetUsage oob refreshTime id (net c id) with
  | Ok u, Ok r, Ok n =>
      Some (Client.mkUsage (Some (Resources.Memory r)) (Some u) (Some (Resources.IO r)) (Some n) labels)
  | _, _, _ => None
  end.

Definition specContainers (cs : list Summary) : gmap string Client.Usage :=
  list_to_map (omap (fun s =>
    match specUsage (ID s) (Labels s) with Some u => Some (ID s, u) | None => None end) cs).

(** ** Lemmas *)

Lemma GetContainerUsage_ok id m : exists u, CpuMonitor.GetContainerUsage oob id m = Ok u.
Proof. unfold CpuMonitor.GetContainerUsage. destruct (_ !! id); eauto. Qed.

Lemma hostLoop_sum label cs m :
  (forall id p, @GetStats (resources c) id <> Panic p) ->
  hostLoop label cs m =
    Ok (fold_left addMemory (map Resources.memoryUsageFromStats (counted label cs)) m).
Proof.
  intros Hnp. revert m. induction cs as [|s cs IH]; intros m; [done|].
  cbn [hostLoop]. unfold counted. rewrite filter_cons.
  assert (labelled label s = bool_decide (label = "" \/ is_Some (Labels s !! label))) as ->.
  { unfold labelled. destruct (String.eqb_spec label "").
    - symmetry. rewrite bool_decide_eq_true. by left.
    - apply bool_decide_ext. naive_solver. }
  case_bool_decide as Hl; [rewrite decide_True by done|rewrite decide_False by done; apply IH].
  cbn [negb omap list_omap]. fold (counted label cs).
  unfold Resources.GetMemoryUsage. specialize (Hnp (ID s)).
  destruct (@GetStats (resources c) (ID s)) as [st|e|p]; cbn [wrapMsg wrap obind];
    [apply IH | apply IH | by destruct (Hnp p)].
Qed.

Lemma fold_addMemory sts free total swap a1 a2 a3 a4 a5 a6 :
  fold_left addMemory (map Resources.memoryUsageFromStats sts)
    (Client.mkHostMemoryUsage free total swap (u64 a1) (u64 a2) (u64 a3) (u64 a4) (u64 a5) (u64 a6)) =
  Client.mkHostMemoryUsage free total swap
    (u64 (a1 + sumOf MemoryUsage sts)) (u64 (a2 + sumOf MemoryLimit sts))
    (u64 (a3 + sumOf MemoryMaxUsage sts)) (u64 (a4 + sumOf SwapUsage sts))
    (u64 (a5 + sumOf SwapLimit sts)) (u64 (a6 + sumOf SwapMaxUsage sts)).
Proof.
  revert a1 a2 a3 a4 a5 a6. induction sts as [|st sts IH]; intros.
  - cbn [map fold_left]. unfold sumOf. cbn. by rewrite !Z.add_0_r.
  - cbn [map fold_left]. unfold addMemory at 2. cbn [Client.hFree Client.hTotal Client.hSwap Client.hMemoryUsage
      Client.hMemoryCommitted Client.hMaxMemoryUsage Client.hSwapUsage Client.hSwapCommitted Client.hMaxSwapUsage].
    unfold addu. rewrite !u64_idemp_add, IH.
    unfold sumOf. cbn [map foldr]. by rewrite !Z.add_assoc.
Qed.

(** Only the listed containers have an entry. *)
Lemma specContainers_None cs k : k ∉ map ID cs -> specContainers cs !! k = None.
Proof.
  intros Hk. apply not_elem_of_list_to_map_1. intros Hin. apply Hk.
  apply list_elem_of_fmap in Hin as ([k' v] & -> & Hin). apply list_elem_of_omap in Hin as (s' & Hs' & Hv).
  destruct (specUsage (ID s') (Labels s')); simplify_eq. exact (list_elem_of_fmap_2 ID cs s' Hs').
Qed.

Lemma containersLoop_spec cs usage :
  (forall id p, @GetStats (resources c) id <> Panic p) ->
  NoDup (map ID cs) -> (forall s, s ∈ cs -> usage !! ID s = None) ->
  containersLoop cs usage = Ok (specContainers cs ∪ usage).
Proof.
  intros Hnp. revert usage. induction cs as [|s cs IH]; intros usage Hnd Hus.
  { cbn. by rewrite (left_id_L ∅ (∪)). }
  cbn [map] in Hnd. apply list.NoDup_cons in Hnd as [Hnin Hnd].
  cbn [containersLoop]. unfold containersStep, specContainers. cbn [omap list_omap]. fold (specContainers cs).
  unfold specUsage. destruct (GetContainerUsage_ok (ID s) (cpu c (ID s))) as [u ->].
  unfold Resources.GetUsage at 1 2. specialize (Hnp (ID s)) as Hnps.
  destruct (@GetStats (resources c) (ID s)) as [st|e|p]; cbn [wrapMsg wrap obind]; [| |by destruct (Hnps p)].
  2: { apply IH; [done|]. intros s' Hs'. apply Hus. by right. }
  unfold NetMonitor.GetUsage at 1 2. cbn [obind]. rewrite IH; [|done|].
  2: { intros s' Hs'. rewrite lookup_insert_ne; [apply Hus; by right|].
       intros E. apply Hnin. rewrite E. by apply list_elem_of_fmap_2. }
  f_equal. cbn [list_to_map foldr fst snd]. rewrite <- insert_union_l. symmetry. apply insert_union_r.
  by apply specContainers_None.
Qed.

Lemma specContainers_lookup cs s :
  NoDup (map ID cs) -> s ∈ cs -> specContainers cs !! ID s = specUsage (ID s) (Labels s).
Proof.
  intros Hnd. induction cs as [|s0 cs IH]; intros Hin; [by apply not_elem_of_nil in Hin|].
  cbn [map] in Hnd. apply list.NoDup_cons in Hnd as [Hnin Hnd].
  pose proof (specContainers_None cs (ID s0) Hnin) as Hnone.
  unfold specContainers. cbn [omap list_omap]. fold (specContainers cs).
  apply elem_of_cons in Hin as [->|Hin].
  - destruct (specUsage (ID s0) (Labels s0)); [|done]. cbn [list_to_map foldr fst snd].
    by rewrite lookup_insert_eq.
  - assert (ID s <> ID s0) as Hne.
    { intros E. apply Hnin. rewrite <- E. exact (list_elem_of_fmap_2 ID cs s Hin). }
    destruct (specUsage (ID s0) (Labels s0)); [|by apply IH]. cbn [list_to_map foldr fst snd].
    rewrite lookup_insert_ne by done. by apply IH.
Qed.

(** Counters in the range of their types, as the parsers and the libraries give them,
    and names in UTF-8. *)
Definition wfController : Prop :=
  (forall id st, @GetStats (resources c) id = Ok st -> Resources.wfStats st) /\
  (forall id, let stat := NetMonitor.statAt (NetMonitor.netUsages (net c id)) id in
     Client.wfNetworkInfo (Client.Received stat) /\ Client.wfNetworkInfo (Client.Transmit stat) /\
     ValidString (Client.Interface stat) = true) /\
  (forall m f, procfsMemory c = Ok m -> is_u64 (m f)) /\
  is_i64 (CpuMonitor.numCPU (hostCpu c)).

Lemma percents_range cpus d1 d2 : is_i64 (CpuMonitor.percents oob cpus d1 d2).
Proof. unfold CpuMonitor.percents. destruct (_ && _); [apply to_int64_range|done]. Qed.

Lemma bps_range cur prev : is_i64 (NetMonitor.bps oob refreshTime cur prev).
Proof. unfold NetMonitor.bps. destruct (0 <? prev); [apply to_int64_range|done]. Qed.

(** Listed containers whose identifier and labels are in UTF-8, as what docker's
    client decodes is. *)
Definition validContainers (cs : list Summary) : Prop :=
  Forall (fun s => ValidString (ID s) = true /\ Client.validLabels (Labels s)) cs.

Lemma specUsage_wf id labels u :
  wfController -> Client.validLabels labels -> specUsage id labels = Some u -> Client.wfUsage u.
Proof.
  intros (Hst & Hnet & _) Hlab Hu. unfold specUsage, Resources.GetUsage in Hu.
  destruct (CpuMonitor.GetContainerUsage oob id (cpu c id)) as [cu| |] eqn:Ec; [|done..].
  destruct (@GetStats (resources c) id) as [st| |] eqn:Est; [|done..]. cbn [wrapMsg wrap obind] in Hu.
  unfold NetMonitor.GetUsage in Hu. injection Hu as <-. specialize (Hst id st Est).
  split; [by apply Resources.wfMemory_fromStats|]. split; [|split; [by apply Resources.wfIO_fromStats|split; [|exact Hlab]]].
  - unfold CpuMonitor.GetContainerUsage in Ec. destruct (_ !! id); inv_ok; [apply percents_range|done].
  - destruct (Hnet id) as (H1 & H2 & H3). split; [exact H1|]. split; [exact H2|].
    split; [apply bps_range|]. split; [apply bps_range|exact H3].
Qed.

Lemma specContainers_wf cs :
  wfController -> validContainers cs -> map_Forall (fun id u => ValidString id = true /\ Client.wfUsage u) (specContainers cs).
Proof.
  intros Hwf Hv k u Hk. unfold specContainers in Hk. apply elem_of_list_to_map_2 in Hk.
  apply list_elem_of_omap in Hk as (s & Hin & Hs). unfold validContainers in Hv. rewrite list.Forall_forall in Hv.
  destruct (Hv s Hin) as [Hid Hl].
  destruct (specUsage (ID s) (Labels s)) as [u'|] eqn:E; simplify_eq. split; [done|]. by eapply specUsage_wf.
Qed.

Lemma GetHostUsage_amount m u : is_i64 (CpuMonitor.numCPU m) -> CpuMonitor.GetHostUsage m = Ok u -> is_i64 (Client.hAmount u).
Proof.
  intros Hn Hu.
  assert (match CpuMonitor.GetHostUsage m with
          | Ok v => Client.hAmount v = 0 \/ Client.hAmount v = CpuMonitor.numCPU m
          | _ => True end) as H.
  { unfold CpuMonitor.GetHostUsage.
    destruct (CpuMonitor.previousHostUsage m); [|by left].
    destruct (CpuMonitor.currentHostUsage m); [|by left].
    cbv zeta. by destruct (_ || _); [left|right]. }
  rewrite Hu in H. by destruct H as [-> | ->].
Qed.

Lemma specHost_wf m us x amount q :
  (forall f, is_u64 (m f)) -> is_i64 amount -> isFloat64 x = true -> isFloat64 q = true ->
  Client.wfHostUsage (Client.mkHostUsage (Client.mkHostCpuUsage x amount q) (specHostMemory m us)).
Proof.
  intros Hm Ha Hx Hq. split; [exact Hx|]. split; [exact Hq|]. split; [exact Ha|]. cbn.
  assert (forall z, is_u64 z -> is_u64 (z / 2 ^ 20)) as Hdiv.
  { intros z [H1 H2]. split; [by apply Z.div_pos|]. apply (Z.le_lt_trans _ z); [|exact H2].
    apply Z.div_le_upper_bound; [done|]. set (k := 2 ^ 20). assert (1 <= k) by done. nia. }
  rewrite !list.Forall_cons, list.Forall_nil.
  split_and!; first [exact I | apply u64_range | apply Hdiv; first [apply Hm | apply u64_range]].
Qed.

Lemma HostResourcesHandler_ok labelFilter q m cs u :
  (forall id p, @GetStats (resources c) id <> Panic p) ->
  queueLength = Ok q -> procfsMemory c = Ok m -> containers = Ok cs ->
  CpuMonitor.GetHostUsage (hostCpu c) = Ok u ->
  HostResourcesHandler labelFilter =
    Ok (writeJSON 200 (Client.encHostUsage (Client.mkHostUsage
          (Client.mkHostCpuUsage (Client.hUsage u) (Client.hAmount u) q)
          (specHostMemory m (counted labelFilter cs))))).
Proof.
  intros Hnp Hq Hm Hcs Hu. unfold HostResourcesHandler. rewrite Hu, Hq, Hm, Hcs. cbn [wrapMsg wrap obind].
  rewrite hostLoop_sum by done. cbn [obind].
  pose proof (fold_addMemory (counted labelFilter cs) (Meminfo.FreeBuffers m / 1024 / 1024)
    (m Meminfo.MemTotal / 1024 / 1024) (Meminfo.SwapUsed m / 1024 / 1024) 0 0 0 0 0 0) as Hf.
  change (u64 0) with 0 in Hf. rewrite Hf, !Z.div_div by lia.
  unfold Meminfo.FreeBuffers, Meminfo.SwapUsed, addu, subu. rewrite u64_idemp_add. reflexivity.
Qed.

Lemma ContainersUsageHandler_ok cs :
  (forall id p, @GetStats (resources c) id <> Panic p) -> NoDup (map ID cs) -> containers = Ok cs ->
  ContainersUsageHandler = Ok (writeJSON 200 (Client.encContainersUsage (specContainers cs))).
Proof.
  intros Hnp Hnd Hcs. unfold ContainersUsageHandler, Client.NewContainersUsage. rewrite Hcs.
  rewrite containersLoop_spec; [|done|done|intros; apply lookup_empty]. by rewrite (right_id_L ∅ (∪)).
Qed.

(** ** Properties *)

(** C2. The host's document: with the queue length (0 when its filter has not enough
    metrics), the memory and the list, the response is 200 with the CPU usage, the
    host's memory in MiB, and for each counter the 64-bit sum over exactly the
    containers that carry the label, all of them for an empty one, and whose
    statistics can be read: a failure of a container is no error.  Any other error of
    the queue, and an error of the memory or of the list, is the error of the handler,
    the first of them in this order, with its message. *)
Theorem HostResourcesHandler_spec (labelFilter : string) :
  (forall id p, @GetStats (resources c) id <> Panic p) ->
  let queueResult :=
    match @ReadMetric (queue c) with
    | Err ErrNotEnoughMetrics => Ok fzero
    | Err e => Err (Wrap (Some e) "get current queue length")
    | r => r
    end in
  match queueResult, procfsMemory c, containers with
  | Ok q, Ok m, Ok cs =>
      exists u, CpuMonitor.GetHostUsage (hostCpu c) = Ok u /\
        HostResourcesHandler labelFilter =
          Ok (writeJSON 200 (Client.encHostUsage (Client.mkHostUsage
                (Client.mkHostCpuUsage (Client.hUsage u) (Client.hAmount u) q)
                (specHostMemory m (counted labelFilter cs)))))
  | Ok _, Ok _, Err e => HostResourcesHandler labelFilter = Err (Wrap (Some e) "list docker containers")
  | Ok _, Err e, _ => HostResourcesHandler labelFilter = Err (Wrap (Some e) "get host memory usage")
  | Err e, _, _ => HostResourcesHandler labelFilter = Err e
  | Ok _, Ok _, Panic p | Ok _, Panic p, _ | Panic p, _, _ => HostResourcesHandler labelFilter = Panic p
  end.
Proof.
  intros Hnp queueResult. destruct (CpuMonitor.GetHostUsage_total (hostCpu c)) as [u Hu].
  assert (queueLength = queueResult) as Hq.
  { unfold queueLength, queueResult. destruct (@ReadMetric (queue c)) as [q|e|p]; [done| |done]. by destruct e. }
  destruct queueResult as [q| |], (procfsMemory c) as [m| |] eqn:Hm, containers as [cs| |] eqn:Hcs.
  1: { exists u. split; [done|]. by apply HostResourcesHandler_ok. }
  all: unfold HostResourcesHandler; rewrite Hu, Hq, ?Hm, ?Hcs; reflexivity.
Qed.

(** C3. The document of all containers: 200, with an entry for exactly the
    listed containers whose statistics can be read, each with its labels; a
    container that fails is left out, and only a failure of the list is reported,
    as a 500 whose document says so. *)
Theorem ContainersUsageHandler_spec :
  (forall id p, @GetStats (resources c) id <> Panic p) ->
  match containers with
  | Ok cs => NoDup (map ID cs) -> exists m : Client.ContainersUsage,
      ContainersUsageHandler = Ok (writeJSON 200 (Client.encContainersUsage m)) /\
      (forall s, s ∈ cs -> m !! ID s = specUsage (ID s) (Labels s)) /\
      (forall id, id ∉ map ID cs -> m !! id = None)
  | Err e => forall msg, errorString e = Ok msg ->
      ContainersUsageHandler =
        Ok (writeJSON 500 (Ok (JObj [("error", JStr msg); ("message", JStr "fail to list containers")])))
  | Panic p => ContainersUsageHandler = Panic p
  end.
Proof.
  intros Hnp. destruct containers as [cs|e|p] eqn:Hcs;
    [|by intros msg Hmsg; unfold ContainersUsageHandler; rewrite Hcs, Hmsg|by unfold ContainersUsageHandler; rewrite Hcs].
  intros Hnd. exists (specContainers cs). split; [by apply ContainersUsageHandler_ok|].
  split; [intros s Hs; by apply specContainers_lookup | by apply specContainers_None].
Qed.

(** The documents of one container: whatever the monitors hold, the CPU and
    the network usage always answer 200; the others answer 200 exactly when the
    statistics can be read, with the part of them they are about, and otherwise
    fail with the reader's error. *)
Theorem container_handlers {spec : StatsReaderSpec (resources c)} (id : string) :
  (exists j, ContainerCPUUsageHandler id = Ok (writeJSON 200 (Ok j))) /\
  (exists j, ContainerNetUsageHandler id = Ok (writeJSON 200 (Ok j))) /\
  match @GetStats (resources c) id with
  | Ok st =>
      ContainerMemUsageHandler id =
        Ok (writeJSON 200 (Ok (Client.encMemoryUsage (Resources.memoryUsageFromStats st)))) /\
      ContainerIOUsageHandler id =
        Ok (writeJSON 200 (Ok (Client.encIOUsage (Resources.ioUsageFromStats st)))) /\
      exists u, specUsage id ∅ = Some u /\
        ContainerUsageHandler id = Ok (writeJSON 200 (Client.encUsage u))
  | Err _ => exists e1 e2 e3, ContainerMemUsageHandler id = Err e1 /\ ContainerIOUsageHandler id = Err e2 /\
      ContainerUsageHandler id = Err e3 /\
      asStatsReaderError e1 && asStatsReaderError e2 && asStatsReaderError e3 = true
  | Panic p => ContainerMemUsageHandler id = Panic p
  end.
Proof.
  unfold ContainerCPUUsageHandler, ContainerNetUsageHandler, ContainerMemUsageHandler, ContainerIOUsageHandler,
    ContainerUsageHandler, Resources.GetMemoryUsage, Resources.GetIOUsage, specUsage, Resources.GetUsage.
  destruct (GetContainerUsage_ok id (cpu c id)) as [u Hu]. rewrite Hu. cbn [wrapMsg wrap obind].
  split; [eauto|]. split; [unfold NetMonitor.GetUsage; cbn [wrapMsg wrap obind]; eauto|].
  destruct (@GetStats (resources c) id) as [st|e|p] eqn:E; cbn [wrapMsg wrap obind]; [| |done].
  - unfold NetMonitor.GetUsage. cbn [wrapMsg wrap obind]. eauto.
  - do 3 eexists. repeat (split; [reflexivity|]). simpl. by rewrite (GetStats_error _ _ E).
Qed.

(** Two equal samples of the host's CPU counters make the host document
    impossible to encode: the response has status 200 and no body. *)
Theorem equal_samples_no_body (labelFilter : string) (p s : SingleCPUStat) (r : Client.response) :
  CpuMonitor.previousHostUsage (hostCpu c) = Some p -> CpuMonitor.currentHostUsage (hostCpu c) = Some s ->
  Sum s = Sum p -> IDLE s = IDLE p ->
  HostResourcesHandler labelFilter = Ok r ->
  Client.resStatus r = 200 /\ Client.resBody r = "".
Proof.
  intros Hp Hs E1 E2 H. unfold HostResourcesHandler in H.
  apply obind_ok in H as (u & Hu & H). apply wrap_ok in Hu.
  pose proof (CpuMonitor.GetHostUsage_nan (hostCpu c) p s u Hp Hs E1 E2 Hu) as Hnan.
  apply obind_ok in H as (q & _ & H). apply obind_ok in H as (m & _ & H).
  apply obind_ok in H as (cs & _ & H). apply obind_ok in H as (mem & _ & H). inv_ok.
  unfold writeJSON, Client.encHostUsage, Client.encHostCpuUsage, encFloat. cbn. by rewrite Hnan.
Qed.

End Handlers.

(** ** Witnesses *)

Definition exampleMonitor : CpuMonitor.t :=
  CpuMonitor.mkMonitor 4 (Some zeroCPUStat) (Some zeroCPUStat) ∅ ∅ ∅ ∅.

Definition exampleController : Controller :=
  NewController Resources.exampleReader exampleMonitor NetMonitor.exampleMonitor
    {| ReadMetric := Err ErrNotEnoughMetrics |} (Ok Meminfo.zeroMemInfo).

#[local] Instance exampleController_spec : StatsReaderSpec (resources exampleController).
Proof. split. discriminate. Qed.

Definition exampleContainers : list Summary := [mkSummary "a" (<["app" := "x"]> ∅); mkSummary "b" ∅].

Lemma HostResourcesHandler_spec_witness :
  exists u, CpuMonitor.GetHostUsage exampleMonitor = Ok u /\
    HostResourcesHandler (Ok exampleContainers) exampleController "app" =
      Ok (writeJSON 200 (Client.encHostUsage (Client.mkHostUsage
            (Client.mkHostCpuUsage (Client.hUsage u) (Client.hAmount u) fzero)
            (specHostMemory Meminfo.zeroMemInfo (counted exampleController "app" exampleContainers))))).
Proof.
  exact (HostResourcesHandler_spec (Ok exampleContainers) exampleController "app" ltac:(discriminate)).
Defined.

(** Of the two containers one carries the label. *)
Example exampleContainers_counted : length (counted exampleController "app" exampleContainers) = 1%nat.
Proof. reflexivity. Qed.

Lemma ContainersUsageHandler_spec_witness :
  exists m : Client.ContainersUsage,
    ContainersUsageHandler (fun _ => 0) 1 (Ok exampleContainers) exampleController =
      Ok (writeJSON 200 (Client.encContainersUsage m)) /\ m !! "z" = None.
Proof.
  destruct (ContainersUsageHandler_spec (fun _ => 0) 1 (Ok exampleContainers) exampleController)
    as (m & H1 & _ & H2); [discriminate | |].
  - exact (bool_decide_unpack _ (I : bool_decide (NoDup ["a"; "b"]))).
  - exists m. split; [exact H1|]. apply H2.
    exact (bool_decide_unpack _ (I : bool_decide ("z" ∉ ["a"; "b"]))).
Defined.

Lemma container_handlers_witness :
  ContainerMemUsageHandler exampleController "a" =
    Ok (writeJSON 200 (Ok (Client.encMemoryUsage (Resources.memoryUsageFromStats Resources.exampleStats)))).
Proof. apply (container_handlers (fun _ => 0) 1 exampleController "a"). Defined.

Lemma equal_samples_no_body_witness :
  exists r, HostResourcesHandler (Ok []) exampleController "" = Ok r /\
    Client.resStatus r = 200 /\ Client.resBody r = "".
Proof.
  eexists. split; [reflexivity|].
  eapply (equal_samples_no_body (Ok []) exampleController "" zeroCPUStat zeroCPUStat); reflexivity.
Defined.

End Webserver.
