(* ===== verification/Typed.v ===== *)
(** * The numbers stay in the range of their types

    The model keeps the machine integers of the program as [Z]: here, that every
    number the program stores is one of its Go type, and every name UTF-8, along
    every step, when the libraries' numbers and what the operating system answers
    are.  This is what the round trips of the payloads ask for. *)
From S2P Require Import Prelude GoStrings GoFloat JsonString ProcfsUtils Config Cgroup Meminfo CpuStat.
From S2P Require Import LoadAvg MountInfo Client Docker Resources CpuMonitor NetMonitor Monitoring Webserver.

Module Typed.

#[local] Arguments NetMonitor.step : simpl never.

(** ** What the libraries answer *)

Definition typedEntry (e : BlkIOEntry) : Prop := is_u64 (entMajor e) /\ is_u64 (entMinor e).

Definition typedMemoryEntry (e : MemoryEntry) : Prop := is_u64 (memUsage e) /\ is_u64 (memMax e) /\ is_u64 (memLimit e).

Definition typedOpt {A} (P : A -> Prop) (o : option A) : Prop := forall a, o = Some a -> P a.

(** The 64-bit fields of the metrics that the conversions copy. *)
Definition typedV1 (m : MetricsV1) : Prop :=
  typedOpt (fun s => typedOpt typedMemoryEntry (memoryUsage s) /\ typedOpt typedMemoryEntry (memorySwap s)) (v1Memory m) /\
  typedOpt (fun b => Forall typedEntry (IoServiceBytesRecursive b) /\ Forall typedEntry (IoServicedRecursive b)) (v1Blkio m).

Definition typedIOEntry (e : IOEntry) : Prop :=
  Forall is_u64 [ioMajor e; ioMinor e; Rbytes e; Wbytes e; Rios e; Wios e].

Definition typedV2 (m : MetricsV2) : Prop :=
  typedOpt (fun s => Forall is_u64 [v2Usage s; v2UsageLimit s; v2SwapUsage s; v2SwapLimit s]) (v2Memory m) /\
  typedOpt (Forall typedIOEntry) (v2Io m).

Record typedLib (lib : CgroupLib) : Prop := {
  typed_v1 : forall h m, @statV1 lib h = Ok m -> typedV1 m;
  typed_v2 : forall h m, @statV2 lib h = Ok m -> typedV2 m }.

Definition typedMounts (mi : MountInfos) : Prop :=
  forall major minor, ValidString (@DevicePath mi major minor) = true /\ ValidString (@Mountpoint mi major minor) = true.

(** A sample of [netstat.Stats]. *)
Definition typedStat (s : Client.NetworkStat) : Prop :=
  Client.wfNetworkInfo (Client.Received s) /\ Client.wfNetworkInfo (Client.Transmit s) /\
  ValidString (Client.Interface s) = true.

(** ** The statistics of a container *)

Section Cgroups.
Context {lib : CgroupLib} {mi : MountInfos}.
Hypothesis Hlib : typedLib lib.
Hypothesis Hmounts : typedMounts mi.

Lemma wfDevice_new e : typedEntry e -> Resources.wfDevice (newDevice e).
Proof.
  intros [H1 H2]. destruct (Hmounts (entMajor e) (entMinor e)). split; cbn; repeat (constructor; try done).
Qed.

(** Both closures keep a device in range, whatever they add. *)
Lemma wfDevice_update (update : deviceUpdate) d op v :
  update = updateBytes \/ update = updateIOs -> Resources.wfDevice d -> Resources.wfDevice (update d op v).
Proof.
  intros Hu [Hn Hs]. cbn in Hn, Hs. rewrite !list.Forall_cons in Hn. destruct Hn as (? & ? & ? & ? & ? & ? & _).
  destruct Hu as [-> | ->]; unfold updateBytes, updateIOs;
    repeat (destruct (String.eqb op _)); (split; [|exact Hs]);
    cbn; repeat (apply list.Forall_cons; split; [first [done | apply u64_range]|]); apply list.Forall_nil; exact I.
Qed.

Lemma wfDevices_fold update (l : list BlkIOEntry) (st : devState) :
  update = updateBytes \/ update = updateIOs -> Forall typedEntry l ->
  map_Forall (fun _ d => Resources.wfDevice d) st.1 ->
  map_Forall (fun _ d => Resources.wfDevice d) (fold_left (updateCgroupV1Device update) l st).1.
Proof.
  intros Hu Hl. revert st. induction Hl as [|e l He _ IH]; intros st Hst; [done|]. cbn [fold_left]. apply IH.
  unfold updateCgroupV1Device. destruct st as [devices order]. cbn [fst] in Hst.
  destruct (_ && _); [done|]. destruct (devices !! deviceKeyV1 e) as [d|] eqn:Hd; cbn [fst];
    (apply map_Forall_insert_2; [apply wfDevice_update; [done|] | done]); [by eapply Hst | by apply wfDevice_new].
Qed.

Lemma collectDevices_wf devices order ds :
  map_Forall (fun _ d => Resources.wfDevice d) devices -> collectDevices devices order = Ok ds -> Forall Resources.wfDevice ds.
Proof.
  intros Hd. revert ds. induction order as [|k ks IH]; intros ds H; cbn [collectDevices] in H; [inv_ok; constructor|].
  destruct (devices !! k) as [d|] eqn:Hk; [|done]. apply obind_ok in H as (ds' & Hds & H). inv_ok.
  constructor; [by eapply Hd|by apply IH].
Qed.

Lemma cgroupV1IOUsage_wf b io :
  typedOpt (fun b => Forall typedEntry (IoServiceBytesRecursive b) /\ Forall typedEntry (IoServicedRecursive b)) b ->
  cgroupV1IOUsage b = Ok io -> Forall Resources.wfDevice (Devices io).
Proof.
  intros Hb H. destruct b as [b|]; cbn [cgroupV1IOUsage] in H; [|inv_ok; constructor].
  destruct (Hb b eq_refl) as [H1 H2].
  pose proof (wfDevices_fold updateIOs (IoServicedRecursive b) _ (or_intror eq_refl) H2
    (wfDevices_fold updateBytes (IoServiceBytesRecursive b) (∅, []) (or_introl eq_refl) H1 (map_Forall_empty _))) as Hw.
  destruct (fold_left _ (IoServicedRecursive b) _) as [devices order]. apply obind_ok in H as (ds & Hds & H). inv_ok.
  by eapply collectDevices_wf.
Qed.

Lemma swap_range a b : is_u64 (cgroupV1SwapMetric a b).
Proof. unfold cgroupV1SwapMetric. destruct (a <? b); [done|apply u64_range]. Qed.

Lemma typedV1_entries m :
  typedV1 m -> wfEntry (getMemory memoryUsage (v1Memory m)) /\ wfEntry (getMemory memorySwap (v1Memory m)).
Proof.
  intros [Hm _]. destruct (v1Memory m) as [mem|]; [|by split; repeat split].
  destruct (Hm mem eq_refl) as [Hu Hs]. cbn [getMemory].
  split; [destruct (memoryUsage mem) as [e|]|destruct (memorySwap mem) as [e|]]; try by repeat split.
  - destruct (Hu e eq_refl) as (? & ? & ?). by split.
  - destruct (Hs e eq_refl) as (? & ? & ?). by split.
Qed.

Lemma GetStats_wf config id st : GetStatsImpl config id = Ok st -> Resources.wfStats st.
Proof.
  unfold GetStatsImpl, statsReaderError. intros H. apply obind_ok in H as (m & _ & H). apply wrap_ok in H.
  destruct (IsV2 m); unfold getCgroupV2Stats, getCgroupV1Stats in H; apply obind_ok in H as (h & _ & H); apply obind_ok in H as (s & Hs & H); apply wrap_ok in Hs.
  - destruct (typed_v2 _ Hlib _ _ Hs) as [Hm Hio]. unfold cgroupV2Stats in H.
    destruct (v2UsageUsec s); [|done]. destruct (v2Memory s) as [mem|]; [|done]. inv_ok.
    specialize (Hm mem eq_refl). rewrite !list.Forall_cons in Hm. destruct Hm as (? & ? & ? & ? & _). split.
    + cbn. repeat (apply list.Forall_cons; split; [done|]). apply list.Forall_nil. exact I.
    + cbn [IOUsageOf]. unfold cgroupV2IOUsage. destruct (v2Io s) as [es|]; [|constructor]. cbn [Devices].
      specialize (Hio es eq_refl). apply List.Forall_map. eapply list.Forall_impl; [exact Hio|]. intros e He.
      destruct (Hmounts (ioMajor e) (ioMinor e)). split; [exact He|]. cbn. repeat (constructor; try done).
  - destruct (typed_v1 _ Hlib _ _ Hs) as [Hm Hio]. unfold cgroupV1Stats in H. apply obind_ok in H as (io & Hio' & H). inv_ok.
    split; [|cbn [IOUsageOf]; by eapply cgroupV1IOUsage_wf].
    destruct (typedV1_entries s (conj Hm Hio)) as [(? & ? & ?) _].
    cbn. repeat (apply list.Forall_cons; split; [first [done | apply swap_range]|]). apply list.Forall_nil. exact I.
Qed.

End Cgroups.

(** ** /proc/meminfo *)

Lemma readLine_range line results results' :
  map_Forall (fun _ v => is_u64 v) results -> Meminfo.readLine line results = Ok results' ->
  map_Forall (fun _ v => is_u64 v) results'.
Proof.
  intros Hr H. unfold Meminfo.readLine in H. destruct (_ <? _)%nat; [done|].
  apply obind_ok in H as (f0 & _ & H). apply obind_ok in H as (f1 & _ & H).
  apply obind_ok in H as (v & Hv & H). apply wrap_ok in Hv. apply ParseUint_range in Hv.
  destruct (_ =? _)%nat; [|inv_ok; by apply map_Forall_insert_2].
  apply obind_ok in H as (f2 & _ & H). destruct (String.eqb f2 "kB"); [|done]. inv_ok.
  apply map_Forall_insert_2; [apply u64_range|done].
Qed.

Lemma meminfo_range {fs : FS} m f : Meminfo.Read = Ok m -> is_u64 (m f).
Proof.
  unfold Meminfo.Read. intros H. apply obind_ok in H as (file & _ & H). apply obind_ok in H as (results & Hl & H). inv_ok.
  rewrite Meminfo.FillStruct_spec. unfold mapget.
  assert (map_Forall (fun _ v => is_u64 v) results) as Hr.
  { eapply (readLoop_inv (map_Forall (fun _ v => is_u64 v))); [|apply map_Forall_empty|exact Hl]. intros line x y. apply readLine_range. }
  destruct (results !! _) as [v|] eqn:E; [by eapply Hr|done].
Qed.

(** ** The monitors *)

(** The usages, and the sample about to be recorded. *)
Definition typedNet (s : NetMonitor.system) : Prop :=
  map_Forall (fun _ u => typedStat u) (NetMonitor.netUsages (NetMonitor.monitor s)) /\
  match NetMonitor.holding s with Some (_, stat) => typedStat stat | None => True end.

Definition typedAction (a : NetMonitor.action) : Prop :=
  match a with NetMonitor.Lookup stat => typedStat stat | _ => True end.

Lemma net_step_typed a s s' : typedAction a -> NetMonitor.step a s = Some (Ok s') -> typedNet s -> typedNet s'.
Proof.
  intros Ha Hst [Hm Hh]. destruct a as [stat| |lib order e]; unfold NetMonitor.step in Hst.
  - destruct (NetMonitor.holding s); [done|]. simplify_eq. split; [done|]. cbn [NetMonitor.holding].
    by destruct (String.eqb (NetMonitor.lookupContainer stat (NetMonitor.monitor s)) "").
  - destruct (NetMonitor.holding s) as [[c stat]|]; [|done]. simplify_eq. split; [|done].
    cbn [NetMonitor.monitor NetMonitor.recordUsage NetMonitor.netUsages]. by apply map_Forall_insert_2.
  - destruct (@NetMonitor.handleEvent lib order e (NetMonitor.monitor s)) as [m| |] eqn:E; cbn [obind] in Hst; simplify_eq.
    apply NetMonitor.handleEvent_keeps in E as [E _]. unfold typedNet. cbn [NetMonitor.monitor NetMonitor.holding].
    by rewrite E.
Qed.

(** A step of the running program that records only such samples. *)
Definition typedLabel (l : Monitoring.label) : Prop :=
  match l with Monitoring.NetAct a => typedAction a | _ => True end.

Definition typedState (cpus : Z) (s : Monitoring.state) : Prop :=
  CpuMonitor.numCPU (CpuMonitor.monitor (Monitoring.cpu s)) = cpus /\ typedNet (Monitoring.net s).

Lemma cpu_step_numCPU a m m' :
  CpuMonitor.step a m = Some (Ok m') -> CpuMonitor.numCPU (CpuMonitor.monitor m') = CpuMonitor.numCPU (CpuMonitor.monitor m).
Proof.
  destruct a as [e|r|i r c|i]; cbn [CpuMonitor.step]; intros H.
  - simplify_eq. unfold CpuMonitor.handleEvent. by repeat case_match.
  - unfold CpuMonitor.hostTick, CpuMonitor.updateHostCPUUsage in H.
    destruct (@ReadCPUStats r); cbn in H; by simplify_eq.
  - destruct (CpuMonitor.goroutines m !! i) as [g|]; [|done]. destruct (CpuMonitor.gRunning g); [|done].
    unfold CpuMonitor.containerTick, CpuMonitor.updateContainerCPUUsage in H.
    destruct (@GetStats c (CpuMonitor.gContainer g)); cbn [wrapMsg wrap obind] in H;
      [destruct (@ReadCPUStats r); cbn [wrapMsg wrap obind] in H|..]; repeat case_match; by simplify_eq.
  - destruct (CpuMonitor.goroutines m !! i) as [g|]; [|done]. destruct (_ && _); by simplify_eq.
Qed.

Lemma typedState_step cpus l s t :
  typedLabel l -> Monitoring.step l s = Some (Ok t) -> typedState cpus s -> typedState cpus t.
Proof.
  intros Hl Hst [Hn Ht]. destruct l as [l| | | |a| | |lib order|b]; cbn [Monitoring.step] in Hst.
  - destruct (Monitoring.ownStep l); [|done]. destruct (Docker.step l (Monitoring.repo s)); by simplify_eq/=.
  - destruct (Monitoring.register _ _) as [[]|]; by simplify_eq/=.
  - destruct (Monitoring.receive _ _) as [[]|]; by simplify_eq/=.
  - destruct (Monitoring.hand (Monitoring.cpuIn s)) as [e|]; simplify_eq/=. split; [|done]. cbn [Monitoring.cpu].
    rewrite (cpu_step_numCPU (CpuMonitor.Event e) (Monitoring.cpu s)); done.
  - destruct (Monitoring.ownAct a); [|done]. destruct (CpuMonitor.step a (Monitoring.cpu s)) as [[m| |]|] eqn:E; simplify_eq/=.
    split; [|done]. cbn [Monitoring.cpu]. by rewrite (cpu_step_numCPU _ _ _ E).
  - destruct (Monitoring.register _ _) as [[]|]; by simplify_eq/=.
  - destruct (Monitoring.receive _ _) as [[]|]; by simplify_eq/=.
  - destruct (Monitoring.hand (Monitoring.netIn s)) as [e|]; [|done].
    destruct (NetMonitor.step _ (Monitoring.net s)) as [[m| |]|] eqn:E; simplify_eq/=.
    split; [done|]. by eapply net_step_typed; [|exact E|].
  - destruct (Monitoring.netOwn b); [|done].
    destruct (NetMonitor.step b (Monitoring.net s)) as [[m| |]|] eqn:E; simplify_eq/=.
    split; [done|]. by eapply net_step_typed; [|exact E|].
Qed.

Lemma statAt_typed s id :
  typedNet s -> typedStat (NetMonitor.statAt (NetMonitor.netUsages (NetMonitor.monitor s)) id).
Proof.
  intros [Hm _]. unfold NetMonitor.statAt, mapget. destruct (NetMonitor.netUsages (NetMonitor.monitor s) !! id) as [u|] eqn:E; [by eapply Hm|].
  split; [|split; [|reflexivity]]; apply (bool_decide_unpack _); exact I.
Qed.

(** ** The names of the mount tables

    The tables are built of what the operating system answers, and are UTF-8 when it is. *)

Record typedOS (os : OS) : Prop := {
  typed_dir : forall dir names, ReadDir dir = Ok names -> Forall (fun n => ValidString n = true) names;
  typed_link : forall path target, EvalSymlinks path = Ok target -> ValidString target = true }.

Definition typedInfos (infos : outcome (list mountEntry)) : Prop :=
  forall l, infos = Ok l -> Forall (fun e => ValidString (MountPoint e) = true) l.

Definition typedNames (m : gmap string string) : Prop := map_Forall (fun _ n => ValidString n = true) m.

Definition typedTables (st : mountState) : Prop := typedNames (mountInfos st) /\ typedNames (devices st).

Definition typedReader (r : readerConfig) : Prop := ValidString (dev r) = true /\ ValidString (devMapper r) = true.

Section Tables.
Context {os : OS}.
Variable r : readerConfig.
Hypothesis Hos : typedOS os.
Hypothesis Hr : typedReader r.

Lemma mapperLoop_typed names paths m :
  Forall (fun n => ValidString n = true) names -> typedNames paths -> mapperLoop r names paths = Ok m -> typedNames m.
Proof.
  intros Hn. revert paths. induction Hn as [|n names Hv _ IH]; intros paths Hp H; cbn [mapperLoop] in H; [by inv_ok|].
  apply obind_ok in H as (target & _ & H). eapply IH; [|exact H].
  apply map_Forall_insert_2; [|done]. apply valid_JoinPath. repeat constructor; [apply Hr|done].
Qed.

Lemma devicePath_typed key mapper p : typedNames mapper -> devicePath r key mapper = Ok p -> ValidString p = true.
Proof.
  intros Hm H. unfold devicePath in H. apply obind_ok in H as (target & Ht & H). apply wrap_ok in Ht.
  assert (ValidString (JoinPath [dev r; Base target]) = true) as Hv.
  { apply valid_JoinPath. repeat constructor; [apply Hr|]. eapply valid_Base, (typed_link _ Hos), Ht. }
  revert H Hv. generalize (JoinPath [dev r; Base target]). intros path H Hv. cbv zeta in H. unfold mapget in H.
  destruct (mapper !! path) as [alias|] eqn:E; simpl in H; [|by inv_ok].
  destruct (negb (String.eqb alias "")); inv_ok; [by eapply Hm|done].
Qed.

Lemma devicesLoop_typed names mapper devs m :
  typedNames mapper -> typedNames devs -> devicesLoop r names mapper devs = Ok m -> typedNames m.
Proof.
  intros Hm. revert devs. induction names as [|n names IH]; intros devs Hd H; cbn [devicesLoop] in H; [by inv_ok|].
  apply obind_ok in H as (p & Hp & H). apply wrap_ok in Hp. eapply IH; [|exact H].
  apply map_Forall_insert_2; [|done]. eapply devicePath_typed; [exact Hm|exact Hp].
Qed.

Lemma infosLoop_typed l : Forall (fun e => ValidString (MountPoint e) = true) l -> typedNames (infosLoop l).
Proof.
  induction l as [|e l IH] using rev_ind; intros H; [apply map_Forall_empty|]. unfold infosLoop.
  apply list.Forall_app in H as [Hl [He _]%list.Forall_cons]. rewrite fold_left_app. cbn [fold_left].
  apply map_Forall_insert_2; [done|]. by apply IH.
Qed.

(** Whatever a refresh does, the tables stay UTF-8. *)
Lemma Refresh_typed st : typedInfos (getMountInfos r) -> typedTables st -> typedTables (Refresh r st).1.
Proof.
  intros Hi Hst. unfold Refresh. destruct (refreshTables r) as [[infos devs]| |] eqn:E; [|done..].
  unfold refreshTables in E. apply obind_ok in E as (l & Hl & E). apply wrap_ok in Hl.
  apply obind_ok in E as (mapper & Hm & E). apply wrap_ok in Hm.
  apply obind_ok in E as (d & Hd & E). apply wrap_ok in Hd. inv_ok.
  unfold mapperPaths in Hm. apply obind_ok in Hm as (names & Hn & Hm). apply wrap_ok in Hn.
  unfold devicePaths in Hd. apply obind_ok in Hd as (listed & _ & Hd).
  assert (typedNames mapper) as Hmapper.
  { eapply mapperLoop_typed; [by eapply (typed_dir _ Hos)|apply map_Forall_empty|exact Hm]. }
  split; [by apply infosLoop_typed, Hi|]. eapply devicesLoop_typed; [exact Hmapper|apply map_Forall_empty|exact Hd].
Qed.

End Tables.

Lemma typedTables_mounts st : typedTables st -> typedMounts (MountInfosOf st).
Proof.
  intros [Hm Hd] major minor. cbn [MountInfosOf DevicePath Mountpoint]. unfold DevicePathOf, MountpointOf, mapget. split.
  - destruct (devices st !! _) eqn:E; [by eapply Hd|done].
  - destruct (mountInfos st !! _) eqn:E; [by eapply Hm|done].
Qed.

(** ** An example *)

Definition exampleLib : CgroupLib := {|
  Cgroup.handle := unit;
  Cgroup.load := fun _ => Ok tt;
  statV1 := fun _ => Ok (mkMetricsV1 (Some (mkCPUStatV1 (Some 5))) None None);
  statV2 := fun _ => Ok (mkMetricsV2 (Some 5) (Some (mkMemoryStatV2 1 2 3 4)) (Some [mkIOEntry 8 1 10 20 1 2]));
  procsV2 := fun _ => Ok []; tasksV1 := fun _ _ => Ok [] |}.

Definition exampleFS : FS := {| Open := fun _ => Ok (mkFile ("MemTotal: 8 kB" +:+ eol) None) |}.

Lemma exampleLib_typed : typedLib exampleLib.
Proof.
  split; intros h m [= <-]; split; intros a; try done; intros [= <-]; apply (bool_decide_unpack _); exact I.
Qed.

Lemma exampleOS_typed : typedOS exampleOS.
Proof.
  split; intros path a H; cbn [exampleOS ReadDir EvalSymlinks] in H; repeat case_match; inv_ok; by repeat constructor.
Qed.

End Typed.
