(* ===== verification/Server.v ===== *)
(** * cmd/acadock-monitoring/main.go: the server

    What [main] puts between a request and the handlers: the recovery and the content
    type of negroni, the global router, the profiling routes, the router of the
    handlers with its middlewares.  The routers are gorilla's: they redirect a path
    that is not clean, try the routes in order, and answer 405 or 404 by themselves
    when none matches; the middlewares are those of go-handlers. *)
From S2P Require Import Prelude GoStrings GoFloat GoTime GoUrl Base64 Json JsonText Config Client Docker Webserver.

Module Server.

(** A request: its path and query, and its headers [Authorization] and
    [Content-Type], empty when they are absent. *)
Record serverRequest : Type := mkServerRequest {
  sMethod : string; sPath : string; sQuery : string; sAuth : string; sContentType : string }.

(** What is sent back: the status, two headers and the body. *)
Record reply : Type := mkReply {
  status : Z; contentType : string; location : option string; body : string }.

(** ** Routers *)

(** A template such as [/containers/{id}/mem], by segments, or a prefix and a
    variable for the rest, [{any:.*}] or [{any:.+}]. *)
Inductive segment : Type := Lit (s : string) | Var (name : string).

Inductive template : Type :=
| Segments (segs : list segment)
| Rest (prefix : string) (nonEmpty : bool).

(** A variable takes one non-empty segment. *)
Fixpoint matchSegments (t : list segment) (segs : list string) : option (gmap string string) :=
  match t, segs with
  | [], [] => Some ∅
  | Lit s :: t', x :: segs' => if String.eqb s x then matchSegments t' segs' else None
  | Var n :: t', x :: segs' =>
      if String.eqb x "" then None else option_map (<[n := x]>) (matchSegments t' segs')
  | _, _ => None
  end.

(** The segments of an absolute path. *)
Definition pathSegments (path : string) : list string :=
  match Split "/" path with
  | "" :: segs => segs
  | _ => []
  end.

(** The dot of a regular expression does not match a newline. *)
Definition matchTemplate (t : template) (path : string) : option (gmap string string) :=
  match t with
  | Segments segs => matchSegments segs (pathSegments path)
  | Rest p nonEmpty =>
      match stripPrefix p path with
      | Some r => if Contains r nl || (nonEmpty && String.eqb r "") then None else Some ∅
      | None => None
      end
  end.

(** A route: its template, its methods if it has any, and its handler. *)
Record route (H : Type) : Type := mkRoute { rTemplate : template; rMethods : list string; rHandler : H }.
Arguments mkRoute {H}.
Arguments rTemplate {H}.
Arguments rMethods {H}.
Arguments rHandler {H}.

Inductive matched (H : Type) : Type :=
| Found (h : H) (params : gmap string string)
| MethodNotAllowed
| NotFound.
Arguments Found {H}.
Arguments MethodNotAllowed {H}.
Arguments NotFound {H}.

(** [Router.Match]: the first route whose template and method match; a mismatch of
    the method alone is remembered. *)
Fixpoint matchRoutes {H} (rs : list (route H)) (mismatch : bool) (method path : string) : matched H :=
  match rs with
  | [] => if mismatch then MethodNotAllowed else NotFound
  | r :: rs' =>
      match matchTemplate (rTemplate r) path with
      | None => matchRoutes rs' mismatch method path
      | Some params =>
          if match rMethods r with [] => true | ms => existsb (String.eqb method) ms end
          then Found (rHandler r) params
          else matchRoutes rs' true method path
      end
  end.

(** [cleanPath]. *)
Definition cleanPath (p : string) : string :=
  if String.eqb p "" then "/"
  else
    let p := if HasPrefix p "/" then p else "/" +:+ p in
    let np := Clean p in
    if negb (String.eqb (TrimSuffix p "/") p) && negb (String.eqb np "/") then np +:+ "/" else np.

Definition hexUpper (n : Z) : ascii := if n <? 10 then ascii_of_nat (Z.to_nat (48 + n)) else ascii_of_nat (Z.to_nat (55 + n)).

(** [url.escape(s, encodePath)]. *)
Fixpoint EscapePath (s : string) : string :=
  match s with
  | "" => ""
  | String c s' =>
      let n := Z.of_nat (nat_of_ascii c) in
      (if unreserved c || Contains "$&+,;=@" c then String c ""
       else String "%" (String (hexUpper (n / 16)) (String (hexUpper (n mod 16)) ""))) +:+ EscapePath s'
  end.

Section Routers.
(** [Content-Type] of the reply so far. *)
Variable ctype : string.

Definition redirect (path query : string) : reply :=
  mkReply 301 ctype (Some (EscapePath path +:+ (if String.eqb query "" then "" else "?" +:+ query))) "".

(** [http.NotFoundHandler], and gorilla's handler of other methods. *)
Definition plainNotFound : reply := mkReply 404 "text/plain; charset=utf-8" None ("404 page not found" +:+ eol).
Definition methodNotAllowed : reply := mkReply 405 ctype None "".

(** [Router.ServeHTTP]. *)
Definition serveMux {H} (rs : list (route H)) (serveHandler : H -> gmap string string -> outcome reply)
    (req : serverRequest) : outcome reply :=
  let p := cleanPath (sPath req) in
  if negb (String.eqb p (sPath req)) then Ok (redirect p (sQuery req))
  else
    match matchRoutes rs false (sMethod req) (sPath req) with
    | Found h params => serveHandler h params
    | MethodNotAllowed => Ok methodNotAllowed
    | NotFound => Ok plainNotFound
    end.

End Routers.

(** ** The routes of the handlers *)

Inductive endpoint : Type :=
| ContainerMem | ContainerIO | ContainerCPU | ContainerNet | ContainerUsage | ContainersUsage | HostUsage
| Unknown.

Definition containerRoute (resource : string) (e : endpoint) : route endpoint :=
  mkRoute (Segments [Lit "containers"; Var "id"; Lit resource]) ["GET"] e.

(** The calls of [r.HandleFunc], in order. *)
Definition routes : list (route endpoint) :=
  [ containerRoute "mem" ContainerMem; containerRoute "io" ContainerIO; containerRoute "cpu" ContainerCPU;
    containerRoute "net" ContainerNet; containerRoute "usage" ContainerUsage;
    mkRoute (Segments [Lit "containers"; Lit "usage"]) ["GET"] ContainersUsage;
    mkRoute (Segments [Lit "host"; Lit "usage"]) ["GET"] HostUsage;
    mkRoute (Rest "/" false) [] Unknown ].

(** The handlers of [net/http/pprof] behind [pprofRouter]. *)
Definition pprofRoute (name : string) (methods : list string) : route string :=
  mkRoute (Segments [Lit "debug"; Lit "pprof"; Lit name]) methods name.

Definition pprofRoutes : list (route string) :=
  [ mkRoute (Segments [Lit "debug"; Lit "pprof"]) ["GET"] "";
    pprofRoute "cmdline" ["GET"]; pprofRoute "profile" ["GET"];
    pprofRoute "symbol" ["GET"]; pprofRoute "symbol" ["POST"];
    pprofRoute "block" ["GET"]; pprofRoute "heap" ["GET"];
    pprofRoute "goroutine" ["GET"]; pprofRoute "threadcreate" ["GET"] ].

(** [globalRouter]: the profiling, when the flag [-profile] is given, and the rest. *)
Inductive global : Type := Profiling | Application.

Definition globalRoutes (doProfile : bool) : list (route global) :=
  (if doProfile then [mkRoute (Rest "/debug/pprof/" false) [] Profiling] else []) ++
  [mkRoute (Rest "/" true) [] Application].

(** ** Middlewares *)

(** [handlers.isContentTypeJSON]. *)
Definition isContentTypeJSON (ctype : string) : bool :=
  String.eqb ctype "application/json" || negb (String.eqb (TrimSuffix ctype "+json") ctype).

(** [handlers.ErrorMiddleware], for the errors of this program, none of which is a
    validation error or a bad request: 500 and the message; a panic, also one of
    [err.Error()], is recovered and printed. *)
Definition errorMiddleware (ctype : string) (o : outcome Client.response) : reply :=
  match o with
  | Ok r => mkReply (Client.resStatus r) ctype None (Client.resBody r)
  | Err e =>
      mkReply 500 ctype None
        (match errorString e with
         | Ok msg => if isContentTypeJSON ctype then Client.errorBody msg else msg +:+ eol
         | Panic p => p +:+ eol
         | Err _ => ""
         end)
  | Panic p => mkReply 500 ctype None (p +:+ eol)
  end.

(** [handlers.AuthMiddleware]: 401 without credentials that can be decoded; it panics
    when they have no colon. *)
Definition authMiddleware (cuts : nat -> bool) (check : string -> string -> bool) (ctype : string)
    (handler : reply) (req : serverRequest) : outcome reply :=
  let! clearAuth := credentials cuts (sAuth req) in
  match clearAuth with
  | None => Ok (mkReply 401 ctype None "")
  | Some clear =>
      if negb (Contains clear ":") then Panic "runtime error: index out of range [1] with length 1"
      else
        let '(user, password) := Cut clear ":" in
        if check user password then Ok handler
        else Ok (mkReply 401 ctype None
               (if String.eqb (sContentType req) "application/json"
                then Client.errorBody "invalid auth" else "invalid auth" +:+ eol))
  end.

(** [negroni.Recovery]: the panic and the stack. *)
Definition recovery (stack : string) (o : outcome reply) : reply :=
  match o with
  | Ok r => r
  | Panic p => mkReply 500 "application/json" None ("PANIC: " +:+ p +:+ eol +:+ stack)
  | Err _ => mkReply 500 "application/json" None ""
  end.

(** [JSONContentTypeMiddleware]: the header is set before the routers run. *)
Definition JSONContentTypeMiddleware {R} (next : string -> R) : R := next "application/json".

(** ** The server *)

Section Server.
Variable oob : float64 -> Z.
(** Where the buffer of the decoder of credentials ends. *)
Variable cuts : nat -> bool.
Variable config : Config.t.
(** The flag [-profile], the handlers of [net/http/pprof], the text of a stack. *)
Variable doProfile : bool.
Variable pprofHandler : string -> serverRequest -> reply.
Variable stack : string.
Variable containers : outcome (list Summary).
Variable c : Webserver.Controller.

(** The handler of every other path. *)
Definition notFound : Client.response := Client.mkResponse 404 (quoted "{'error': 'not found'}").

(** The handlers; [id] is [params["id"]]. *)
Definition handle (e : endpoint) (id query : string) : outcome Client.response :=
  let refresh := Config.RefreshTime config in
  match e with
  | ContainerMem => Webserver.ContainerMemUsageHandler c id
  | ContainerIO => Webserver.ContainerIOUsageHandler c id
  | ContainerCPU => Webserver.ContainerCPUUsageHandler oob c id
  | ContainerNet => Webserver.ContainerNetUsageHandler oob refresh c id
  | ContainerUsage => Webserver.ContainerUsageHandler oob refresh c id
  | ContainersUsage => Webserver.ContainersUsageHandler oob refresh containers c
  | HostUsage => Webserver.HostResourcesHandler containers c (QueryGet query "include_container_if_label")
  | Unknown => Ok notFound
  end.

Definition httpUsername : string := mapget "" (Config.env config) "HTTP_USERNAME".
Definition httpPassword : string := mapget "" (Config.env config) "HTTP_PASSWORD".

(** Authentication is on when both settings are there. *)
Definition authEnabled : bool := negb (String.eqb httpUsername "") && negb (String.eqb httpPassword "").

Definition checkAuth (user password : string) : bool :=
  String.eqb user httpUsername && String.eqb password httpPassword.

(** [r]: each handler inside [ErrorMiddleware], inside [AuthMiddleware]. *)
Definition application (ctype : string) (req : serverRequest) : outcome reply :=
  serveMux ctype routes
    (fun e params =>
       let handler := errorMiddleware ctype (handle e (mapget "" params "id") (sQuery req)) in
       if authEnabled then authMiddleware cuts checkAuth ctype handler req else Ok handler) req.

Definition profiling (ctype : string) (req : serverRequest) : outcome reply :=
  serveMux ctype pprofRoutes (fun name _ => Ok (pprofHandler name req)) req.

Definition globalRouter (ctype : string) (req : serverRequest) : outcome reply :=
  serveMux ctype (globalRoutes doProfile)
    (fun g _ => match g with Profiling => profiling ctype req | Application => application ctype req end) req.

(** [n]: what the HTTP server runs for a request. *)
Definition serve (req : serverRequest) : reply :=
  recovery stack (JSONContentTypeMiddleware (fun ctype => globalRouter ctype req)).

End Server.

(** ** Specification *)

(** The handler of a request and the identifier it gets, from the segments of the path. *)
Definition specEndpoint (method : string) (segs : list string) : endpoint * string :=
  if String.eqb method "GET" then
    match segs with
    | [a; id; resource] =>
        if String.eqb "containers" a && negb (String.eqb id "") then
          if String.eqb "mem" resource then (ContainerMem, id)
          else if String.eqb "io" resource then (ContainerIO, id)
          else if String.eqb "cpu" resource then (ContainerCPU, id)
          else if String.eqb "net" resource then (ContainerNet, id)
          else if String.eqb "usage" resource then (ContainerUsage, id)
          else (Unknown, "")
        else (Unknown, "")
    | [a; b] =>
        if String.eqb "usage" b then
          if String.eqb "containers" a then (ContainersUsage, "")
          else if String.eqb "host" a then (HostUsage, "") else (Unknown, "")
        else (Unknown, "")
    | _ => (Unknown, "")
    end
  else (Unknown, "").

(** ** Lemmas *)

Lemma Join_Split sep s : Join (String sep "") (Split sep s) = s.
Proof.
  induction s as [|c s IH]; [done|]. cbn [Split]. pose proof (Split_nonempty sep s) as Hne.
  destruct (Ascii.eqb_spec c sep) as [->|Hc].
  - destruct (Split sep s) as [|w ws]; [done|].
    change (Join (String sep "") ("" :: w :: ws)) with ("" +:+ String sep "" +:+ Join (String sep "") (w :: ws)).
    by rewrite IH, string_app_nil_l, string_app_cons, string_app_nil_l.
  - destruct (Split sep s) as [|w ws]; [done|]. destruct ws as [|w2 ws]; cbn [Join] in *; [by rewrite IH|].
    by rewrite string_app_cons, IH.
Qed.

Lemma Contains_Cut s sep : Contains s sep = false -> forall t, Cut (s +:+ String sep t) sep = (s, t).
Proof.
  intros H t. apply Cut_app. induction s as [|c s IH]; [done|]. simpl in H |- *.
  apply orb_false_iff in H as [-> H]. by apply IH.
Qed.

Lemma Contains_app s sep t : Contains (s +:+ String sep t) sep = true.
Proof.
  induction s as [|c s IH]; [rewrite string_app_nil_l; cbn [Contains]; by rewrite Ascii.eqb_refl|].
  rewrite string_app_cons. cbn [Contains]. by rewrite IH, orb_true_r.
Qed.

Lemma stripPrefix_spec p s r : stripPrefix p s = Some r -> s = p +:+ r.
Proof.
  revert s. induction p as [|a p IH]; intros s H; cbn [stripPrefix] in H; [by simplify_eq|].
  destruct s as [|b s]; [done|]. destruct (Ascii.eqb_spec a b) as [->|]; [|done].
  rewrite string_app_cons. f_equal. by apply IH.
Qed.

Lemma matchRoutes_In {H} (rs : list (route H)) mm method path h ps :
  matchRoutes rs mm method path = Found h ps -> exists r, r ∈ rs /\ rHandler r = h /\ matchTemplate (rTemplate r) path = Some ps.
Proof.
  revert mm. induction rs as [|r rs IH]; intros mm Hm; cbn [matchRoutes] in Hm; [by destruct mm|].
  destruct (matchTemplate (rTemplate r) path) as [q|] eqn:E.
  - destruct (match rMethods r with [] => _ | _ => _ end); [|apply IH in Hm as (r' & ? & ?)].
    + injection Hm as <- <-. exists r. split; [left|done].
    + exists r'. split; [by right|done].
  - apply IH in Hm as (r' & ? & ?). exists r'. split; [by right|done].
Qed.

(** The profiling router is only reached below [/debug/pprof/]: never by its first route. *)
Lemma index_unreachable method path u ps :
  stripPrefix "/debug/pprof/" path = Some u -> matchRoutes pprofRoutes false method path <> Found "" ps.
Proof.
  intros ->%stripPrefix_spec Hm. apply matchRoutes_In in Hm as (r & Hr & Hh & Ht).
  unfold pprofRoutes in Hr. repeat (apply elem_of_cons in Hr as [->|Hr]; [try discriminate Hh|]); [|by apply not_elem_of_nil in Hr].
  cbn [rTemplate matchTemplate] in Ht.
  assert (pathSegments ("/debug/pprof/" +:+ u) = "debug" :: "pprof" :: Split "/" u) as E by reflexivity.
  rewrite E in Ht. pose proof (Split_nonempty "/" u). by destruct (Split "/" u).
Qed.

(** The routes decide as the specification does. *)
Lemma matchRoutes_spec method r :
  Contains r nl = false -> exists p,
  matchRoutes routes false method (String "/" r) = Found (specEndpoint method (Split "/" r)).1 p /\
  mapget "" p "id" = (specEndpoint method (Split "/" r)).2.
Proof.
  intros Hr.
  assert (matchTemplate (Rest "/" false) (String "/" r) = Some ∅) as Hany.
  { cbn [matchTemplate stripPrefix]. change (Ascii.eqb "/" "/") with true. cbv iota. by rewrite Hr. }
  assert (forall id, mapget "" (<["id" := id]> (∅ : gmap string string)) "id" = id) as Hid
    by (intros id; unfold mapget; by rewrite lookup_insert_eq).
  unfold routes, containerRoute, specEndpoint. cbn [matchRoutes rTemplate rMethods rHandler existsb].
  rewrite Hany. cbn [matchTemplate]. change (pathSegments (String "/" r)) with (Split "/" r). rewrite orb_false_r.
  destruct (Split "/" r) as [|a [|b [|d [|e l]]]]; cbn [matchSegments].
  - destruct (String.eqb method "GET"); by eexists.
  - destruct (String.eqb "containers" a), (String.eqb "host" a), (String.eqb method "GET"); by eexists.
  - destruct (String.eqb "containers" a) eqn:Ea, (String.eqb "host" a) eqn:Eh, (String.eqb b ""), (String.eqb "usage" b) eqn:Eb,
      (String.eqb method "GET"); cbn [option_map]; eexists; split; try reflexivity.
  - destruct (String.eqb "containers" a), (String.eqb "host" a), (String.eqb b ""), (String.eqb "usage" b),
      (String.eqb method "GET"), (String.eqb "mem" d), (String.eqb "io" d), (String.eqb "cpu" d), (String.eqb "net" d), (String.eqb "usage" d);
    cbn [option_map negb andb]; eexists; split; first [reflexivity | apply Hid].
  - destruct (String.eqb "containers" a), (String.eqb "host" a), (String.eqb b ""), (String.eqb "usage" b),
      (String.eqb method "GET"), (String.eqb "mem" d), (String.eqb "io" d), (String.eqb "cpu" d), (String.eqb "net" d), (String.eqb "usage" d);
    cbn [option_map negb andb]; eexists; split; reflexivity.
Qed.

Section Properties.
Variable oob : float64 -> Z.
Variable cuts : nat -> bool.
Variable config : Config.t.
Variable doProfile : bool.
Variable stack : string.

(** A path for the handlers: clean, not the root, without a newline, and not of the
    profiling if that is on. *)
Definition forHandlers (path r : string) : Prop :=
  path = String "/" r /\ cleanPath path = path /\ r <> "" /\ Contains r nl = false /\
  (doProfile = false \/ stripPrefix "/debug/pprof/" path = None).

Lemma matchGlobal method path r :
  forHandlers path r -> matchRoutes (globalRoutes doProfile) false method path = Found Application ∅.
Proof.
  intros (-> & _ & Hne & Hnl & Hp).
  assert (matchTemplate (Rest "/" true) (String "/" r) = Some ∅) as Happ.
  { cbn [matchTemplate stripPrefix]. change (Ascii.eqb "/" "/") with true. cbv iota. rewrite Hnl.
    by destruct (String.eqb_spec r ""). }
  unfold globalRoutes. destruct doProfile; cbn [app matchRoutes rTemplate rMethods rHandler]; [|by rewrite Happ].
  destruct Hp as [Hp|Hp]; [done|]. cbn [matchTemplate]. rewrite Hp. cbn [matchTemplate] in Happ. by rewrite Happ.
Qed.

(** The handler that the routers choose, in its middlewares. *)
Lemma serve_application pprofHandler containers c req r :
  forHandlers (sPath req) r ->
  let '(e, id) := specEndpoint (sMethod req) (Split "/" r) in
  let handler := errorMiddleware "application/json" (handle oob config containers c e id (sQuery req)) in
  serve oob cuts config doProfile pprofHandler stack containers c req =
    recovery stack (if authEnabled config then authMiddleware cuts (checkAuth config) "application/json" handler req else Ok handler).
Proof.
  intros H. pose proof (matchGlobal (sMethod req) (sPath req) r H) as Hg. destruct H as (Hpath & Hclean & _ & Hnl & _).
  unfold serve, JSONContentTypeMiddleware, globalRouter, serveMux. rewrite Hclean, String.eqb_refl. cbn [negb]. rewrite Hg.
  unfold application, serveMux. rewrite Hclean, String.eqb_refl. cbn [negb]. rewrite Hpath.
  destruct (matchRoutes_spec (sMethod req) r Hnl) as (p & -> & Hid).
  destruct (specEndpoint (sMethod req) (Split "/" r)) as [e id]. cbn [fst snd] in *. by rewrite Hid.
Qed.

(** ** A clean path is not redirected again *)

(** What the stack of [path.Clean] holds for a path that starts with a slash. *)
Definition component (c : string) : Prop := c <> "" /\ c <> "." /\ c <> ".." /\ Contains c "/" = false.

Lemma Contains_all_chars s sep : Contains s sep = false -> all_chars (fun c => negb (Ascii.eqb c sep)) s = true.
Proof. induction s as [|c s IH]; [done|]. simpl. intros [-> H]%orb_false_iff. by apply IH. Qed.

Lemma Split_pieces sep s : Forall (fun w => Contains w sep = false) (Split sep s).
Proof.
  induction s as [|c s IH]; [by repeat constructor|]. cbn [Split]. destruct (Ascii.eqb c sep) eqn:E; [by constructor|].
  destruct (Split sep s) as [|w ws]; [by repeat constructor; cbn; rewrite E|].
  apply list.Forall_cons_1 in IH as [Hw Hws]. constructor; [|done]. cbn [Contains]. by rewrite E.
Qed.

Lemma Join_cons2 w w2 ws : Join "/" (w :: w2 :: ws) = w +:+ String "/" (Join "/" (w2 :: ws)).
Proof. reflexivity. Qed.

Lemma Split_Join ws : ws <> [] -> Forall component ws -> Split "/" (Join "/" ws) = ws.
Proof.
  induction ws as [|w ws IH]; [done|]. intros _ [(_ & _ & _ & Hw) Hws]%list.Forall_cons_1.
  destruct ws as [|w2 ws]; [by apply Split_single, Contains_all_chars|]. rewrite Join_cons2.
  rewrite Split_app by by apply Contains_all_chars. by rewrite IH.
Qed.

Lemma clean_step_component st c :
  Forall component st -> Contains c "/" = false -> Forall component (clean_step true st c).
Proof.
  intros Hst Hc. unfold clean_step. destruct (String.eqb_spec c ""), (String.eqb_spec c "."); cbn [orb]; [done..|].
  destruct (String.eqb_spec c ".."); [|by constructor]. destruct st as [|top st]; [done|].
  apply list.Forall_cons_1 in Hst as [(_ & _ & Ht & _) Hst]. by destruct (String.eqb_spec top "..").
Qed.

Lemma clean_fold_component l st :
  Forall component st -> Forall (fun c => Contains c "/" = false) l ->
  Forall component (fold_left (clean_step true) l st).
Proof.
  revert st. induction l as [|c l IH]; intros st Hst Hl; [done|]. apply list.Forall_cons_1 in Hl as [Hc Hl].
  apply IH; [by apply clean_step_component|done].
Qed.

Lemma clean_fold_id l st : Forall component l -> fold_left (clean_step true) l st = (rev l ++ st)%list.
Proof.
  revert st. induction l as [|c l IH]; intros st Hl; [done|]. apply list.Forall_cons_1 in Hl as [(H1 & H2 & H3 & _) Hl].
  cbn [fold_left rev]. rewrite <- app_assoc. cbn [app]. rewrite <- IH by done. f_equal. unfold clean_step.
  by rewrite !(proj2 (String.eqb_neq _ _)).
Qed.

Lemma HasPrefix_slash s : HasPrefix (String "/" s) "/" = true.
Proof. apply (HasPrefix_app "/" s). Qed.

(** [path.Clean] of a rooted path: its components after a slash. *)
Lemma Clean_rooted s : exists ws, Forall component ws /\ Clean (String "/" s) = String "/" (Join "/" ws).
Proof.
  unfold Clean. rewrite HasPrefix_slash. cbv zeta iota.
  eexists. split; [|reflexivity]. apply List.Forall_rev, clean_fold_component; [constructor|apply Split_pieces].
Qed.

Lemma Clean_components ws tail :
  Forall component ws -> tail = "" \/ tail = "/" /\ ws <> [] ->
  Clean (String "/" (Join "/" ws +:+ tail)) = String "/" (Join "/" ws).
Proof.
  intros Hws Ht. unfold Clean. rewrite HasPrefix_slash. cbv zeta iota.
  change (Split "/" (String "/" (Join "/" ws +:+ tail))) with ("" :: Split "/" (Join "/" ws +:+ tail)).
  cbn [fold_left]. change (clean_step true [] "") with (@nil string).
  assert (fold_left (clean_step true) (Split "/" (Join "/" ws +:+ tail)) [] = rev ws) as ->; [|by rewrite rev_involutive].
  destruct ws as [|w ws]; [destruct Ht as [-> | [_ []]]; done|]. set (l := w :: ws) in *.
  assert (fold_left (clean_step true) l [] = rev l) as Hl by by rewrite clean_fold_id, app_nil_r.
  destruct Ht as [-> | [-> _]]; [by rewrite string_app_nil_r, Split_Join|].
  assert (forall vs, vs <> [] -> Forall component vs -> Split "/" (Join "/" vs +:+ "/") = vs ++ [""])%list as Hs.
  { clear. intros vs. induction vs as [|v vs IH]; [done|]. intros _ [(_ & _ & _ & Hv) Hvs]%list.Forall_cons_1.
    destruct vs as [|v2 vs].
    - change (Join "/" [v] +:+ "/") with (v +:+ String "/" ""). by rewrite Split_app by by apply Contains_all_chars.
    - rewrite Join_cons2, string_app_assoc, string_app_cons.
      rewrite Split_app by by apply Contains_all_chars. by rewrite IH. }
  rewrite Hs by done. by rewrite fold_left_app, Hl.
Qed.

(** [p[len(p)-1] == '/'], as the definition of [cleanPath] writes it. *)
Definition endsSlash (p : string) : bool := negb (String.eqb (TrimSuffix p "/") p).

Lemma TrimSuffix_cons c s : s <> "" -> TrimSuffix (String c s) "/" = String c (TrimSuffix s "/").
Proof.
  intros Hs. cbn [TrimSuffix]. destruct (String.eqb_spec (String c s) "/") as [[= _ ->]|]; [done|reflexivity].
Qed.

Lemma endsSlash_app s t : t <> "" -> endsSlash (s +:+ t) = endsSlash t.
Proof.
  intros Ht. induction s as [|c s IH]; [done|]. rewrite string_app_cons. unfold endsSlash in *.
  rewrite TrimSuffix_cons by by destruct s, t. cbn [String.eqb]. by rewrite Ascii.eqb_refl.
Qed.

Lemma endsSlash_component c : component c -> endsSlash c = false.
Proof.
  intros (Hne & _ & _ & Hc). unfold endsSlash. apply negb_false_iff, String.eqb_eq.
  clear Hne. induction c as [|a c IH]; [done|]. cbn [Contains] in Hc. apply orb_false_iff in Hc as [Ha Hc].
  destruct (decide (c = "")) as [->|Hne]; [|by rewrite TrimSuffix_cons, IH].
  cbn [TrimSuffix String.eqb]. by rewrite Ha.
Qed.

Lemma endsSlash_Join ws : ws <> [] -> Forall component ws -> endsSlash (Join "/" ws) = false.
Proof.
  induction ws as [|w ws IH]; [done|]. intros _ [Hw Hws]%list.Forall_cons_1.
  destruct ws as [|w2 ws]; [by apply endsSlash_component|]. rewrite Join_cons2.
  change (String "/" (Join "/" (w2 :: ws))) with ("/" +:+ Join "/" (w2 :: ws)). rewrite <- string_app_assoc.
  assert (Join "/" (w2 :: ws) <> "") as Hne.
  { apply list.Forall_cons_1 in Hws as [(Hw2 & _) _]. destruct ws; [done|]. rewrite Join_cons2. by destruct w2. }
  rewrite endsSlash_app by done. by apply IH.
Qed.

(** What [cleanPath] answers, and that such a path is its own clean path. *)
Lemma cleanPath_form p : exists ws tail, Forall component ws /\ (tail = "" \/ tail = "/" /\ ws <> []) /\
  cleanPath p = String "/" (Join "/" ws +:+ tail).
Proof.
  unfold cleanPath. destruct (String.eqb_spec p "") as [->|Hne]; [exists [], ""; auto|].
  assert (exists s, (if HasPrefix p "/" then p else "/" +:+ p) = String "/" s) as [s ->].
  { destruct (HasPrefix p "/") eqn:E; [apply HasPrefix_spec in E as [t ->]; by exists t | by exists p]. }
  destruct (Clean_rooted s) as (ws & Hws & ->). destruct (_ && _) eqn:E.
  - apply andb_true_iff in E as [_ E%negb_true_iff%String.eqb_neq]. exists ws, "/". split; [done|]. split; [|done].
    right. split; [done|]. by intros ->.
  - exists ws, "". split; [done|]. split; [by left|]. by rewrite string_app_nil_r.
Qed.

Lemma cleanPath_idempotent p : cleanPath (cleanPath p) = cleanPath p.
Proof.
  destruct (cleanPath_form p) as (ws & tail & Hws & Ht & ->). unfold cleanPath.
  change (String.eqb (String "/" (Join "/" ws +:+ tail)) "") with false. cbv iota. rewrite HasPrefix_slash. cbv zeta iota.
  rewrite Clean_components by done. fold (endsSlash (String "/" (Join "/" ws +:+ tail))).
  destruct Ht as [-> | [-> Hne]].
  - rewrite string_app_nil_r. destruct ws as [|w ws]; [done|].
    change (String "/" (Join "/" (w :: ws))) with ("/" +:+ Join "/" (w :: ws)).
    destruct (decide (Join "/" (w :: ws) = "")) as [->|Hj]; [done|]. by rewrite endsSlash_app, endsSlash_Join.
  - rewrite <- string_app_cons, endsSlash_app by done. destruct (String.eqb_spec (String "/" (Join "/" ws)) "/") as [[= E]|]; [|done].
    exfalso. destruct ws as [|w ws]; [done|]. apply list.Forall_cons_1 in Hws as [(Hw & _) _].
    destruct ws; [done|]. rewrite Join_cons2 in E. by destruct w.
Qed.

(** A clean path is never redirected (the profiles of [net/http/pprof] apart). *)
Lemma serve_location pprofHandler containers c req :
  doProfile = false -> cleanPath (sPath req) = sPath req ->
  location (serve oob cuts config doProfile pprofHandler stack containers c req) = None.
Proof.
  intros -> Hc. unfold serve, JSONContentTypeMiddleware.
  assert (forall o, (forall a, o = Ok a -> location a = None) -> location (recovery stack o) = None) as Hrec.
  { intros [a|e|p] H; [by apply H|done|done]. }
  apply Hrec. intros a. unfold globalRouter, serveMux. rewrite Hc, String.eqb_refl. cbn [negb].
  change (globalRoutes false) with [mkRoute (Rest "/" true) [] Application]. cbn [matchRoutes rTemplate rMethods rHandler].
  destruct (matchTemplate _ _); [|by intros [= <-]].
  unfold application, serveMux. rewrite Hc, String.eqb_refl. cbn [negb].
  destruct (matchRoutes routes _ _ _) as [e ps'| |]; [|by intros [= <-]|by intros [= <-]].
  assert (forall o, location (errorMiddleware "application/json" o) = None) as He by by intros [].
  destruct (authEnabled config); [|by intros [= <-]]. unfold authMiddleware.
  destruct (credentials cuts (sAuth req)) as [[clear|]| |]; cbn [obind]; try done; [|by intros [= <-]].
  destruct (negb _); [done|]. destruct (Cut clear ":") as [user pw].
  destruct (checkAuth config user pw); by intros [= <-].
Qed.

(** ** Properties *)


(** C30. With both settings configured, the answer to a request outside the
    profiling whose header does not decode to exactly the configured user, a colon
    and the configured password, malformed headers included, does not depend on the state of the server in any way, and
    is not a success; a user name with a colon admits nobody. *)
Theorem auth_required (pprofHandler : string -> serverRequest -> reply) (containers containers' : outcome (list Summary))
    (c c' : Webserver.Controller) (req : serverRequest) :
  authEnabled config = true -> (doProfile = false \/ stripPrefix "/debug/pprof/" (sPath req) = None) ->
  (credentials cuts (sAuth req) <> Ok (Some (httpUsername config +:+ ":" +:+ httpPassword config))
   \/ Contains (httpUsername config) ":" = true) ->
  serve oob cuts config doProfile pprofHandler stack containers c req =
    serve oob cuts config doProfile pprofHandler stack containers' c' req /\
  status (serve oob cuts config doProfile pprofHandler stack containers c req) ∈ [301; 401; 404; 405; 500].
Proof.
  intros Hon Hp Hbad. unfold serve, JSONContentTypeMiddleware, globalRouter, serveMux.
  destruct (negb _); [by split; [|left]|].
  destruct (matchRoutes (globalRoutes doProfile) false (sMethod req) (sPath req)) as [[|] ps| |] eqn:Hm.
  - exfalso. unfold globalRoutes in Hm. destruct doProfile; cbn [app matchRoutes rTemplate rMethods rHandler] in Hm.
    + destruct Hp as [Hp|Hp]; [done|]. cbn [matchTemplate] in Hm. rewrite Hp in Hm. by destruct (stripPrefix "/" (sPath req)) as [q|]; [destruct (_ || _)|].
    + by destruct (matchTemplate _ _).
  - unfold application, serveMux. destruct (negb _); [split; [done|]; set_solver|].
    destruct (matchRoutes routes false (sMethod req) (sPath req)) as [e q| |]; [|split; [done|]; set_solver..].
    cbv zeta. rewrite Hon. unfold authMiddleware. destruct (credentials cuts (sAuth req)) as [[clear|]|err|msg] eqn:Ea; cbn [obind]; [|split; [done|]; set_solver..].
    destruct (Contains clear ":") eqn:Ec; cbn [negb]; [|split; [done|]; set_solver].
    destruct (Cut clear ":") as [u pw] eqn:Ecut.
    destruct (checkAuth config u pw) eqn:Echeck; [|split; [done|]; set_solver]. exfalso.
    unfold checkAuth in Echeck. apply andb_true_iff in Echeck as [->%String.eqb_eq ->%String.eqb_eq].
    apply Cut_spec in Ecut as [Heq Hno]; [|done].
    destruct Hbad as [Hbad|Hbad]; [by apply Hbad; rewrite Heq|congruence].
  - split; [done|]. set_solver.
  - split; [done|]. set_solver.
Qed.

(** C32. With the flag [-profile], the profiling answers anybody, whatever the
    credentials configured; and the index of the profiles, registered at
    [/debug/pprof], is not reached by any request: that path is not below
    [/debug/pprof/]. *)
Theorem profiling_open (containers : outcome (list Summary)) (c : Webserver.Controller) :
  doProfile = true ->
  (forall pprofHandler req name methods,
     pprofRoute name methods ∈ pprofRoutes -> sMethod req ∈ methods -> sPath req = "/debug/pprof/" +:+ name ->
     serve oob cuts config doProfile pprofHandler stack containers c req = pprofHandler name req) /\
  (forall handler1 handler2 req, (forall name q, name <> "" -> handler1 name q = handler2 name q) ->
     serve oob cuts config doProfile handler1 stack containers c req = serve oob cuts config doProfile handler2 stack containers c req).
Proof.
  intros ->. split.
  - intros h req name methods Hr Hm Hp. unfold serve, JSONContentTypeMiddleware, globalRouter.
    unfold pprofRoutes in Hr.
    apply elem_of_cons in Hr as [Hr|Hr]; [discriminate Hr|].
    repeat (apply elem_of_cons in Hr as [Hr|Hr];
      [injection Hr as -> ->; apply list_elem_of_singleton in Hm; unfold serveMux, profiling, serveMux; rewrite Hp, Hm; reflexivity|]).
    by apply not_elem_of_nil in Hr.
  - intros h1 h2 req Hh. unfold serve, JSONContentTypeMiddleware, globalRouter, serveMux. destruct (negb _); [done|].
    destruct (matchRoutes (globalRoutes true) false (sMethod req) (sPath req)) as [[|] ps| |] eqn:Hg; [|done..].
    apply matchRoutes_In in Hg as (r & Hr & Hrh & Ht). unfold globalRoutes in Hr. cbn [app] in Hr.
    apply elem_of_cons in Hr as [->|Hr]; [|apply list_elem_of_singleton in Hr as ->; discriminate Hrh].
    cbn [rTemplate matchTemplate] in Ht. destruct (stripPrefix "/debug/pprof/" (sPath req)) as [u|] eqn:Hu; [|done].
    unfold profiling, serveMux. destruct (negb _); [done|].
    destruct (matchRoutes pprofRoutes false (sMethod req) (sPath req)) as [name q| |] eqn:Hm; [|done..].
    rewrite Hh; [done|]. intros ->. by eapply index_unreachable.
Qed.

End Properties.

(** ** Witnesses *)

Definition exampleConfig (user password : string) : Config.t :=
  Config.mk (<["HTTP_USERNAME" := user]> (<["HTTP_PASSWORD" := password]> Config.ENV))
    (20 * Second) false (5 * Second) 5 6 true.

Definition examplePprof (name : string) (req : serverRequest) : reply := mkReply 200 "text/plain" None name.

Definition exampleServe (doProfile : bool) (req : serverRequest) : reply :=
  serve (fun _ => 0) (fun _ => false) (exampleConfig "bob" "secret") doProfile examplePprof "" (Ok []) Webserver.exampleController req.


Lemma auth_required_witness :
  status (exampleServe false (mkServerRequest "GET" "/host/usage" "" (SetBasicAuth "bob" "guess") "")) ∈ [301; 401; 404; 405; 500].
Proof.
  refine (proj2 (auth_required (fun _ => 0) (fun _ => false) (exampleConfig "bob" "secret") false "" examplePprof (Ok []) (Ok [])
    Webserver.exampleController Webserver.exampleController
    (mkServerRequest "GET" "/host/usage" "" (SetBasicAuth "bob" "guess") "") _ _ _)); [reflexivity | by left | left; discriminate].
Defined.

Lemma profiling_open_witness :
  exampleServe true (mkServerRequest "GET" "/debug/pprof/heap" "" "" "") = mkReply 200 "text/plain" None "heap".
Proof.
  refine (proj1 (profiling_open (fun _ => 0) (fun _ => false) (exampleConfig "bob" "secret") true "" (Ok []) Webserver.exampleController eq_refl)
    examplePprof (mkServerRequest "GET" "/debug/pprof/heap" "" "" "") "heap" ["GET"] _ _ _);
    [unfold pprofRoutes; do 6 right; left | left | reflexivity].
Defined.

(** Replies of the server, with their bodies. *)
Example serve_examples :
  map (fun path => let r := exampleServe true (mkServerRequest "GET" path "" (SetBasicAuth "bob" "secret") "") in (status r, location r, body r))
    ["/host//usage"; "/"; "/nothing"; "/debug/pprof"; "/debug/pprof/"; "/debug/pprof/symbol"] =
  [(301, Some "/host/usage", ""); (404, None, "404 page not found" +:+ eol); (404, None, quoted "{'error': 'not found'}");
   (404, None, quoted "{'error': 'not found'}"); (404, None, "404 page not found" +:+ eol); (200, None, "symbol")].
Proof. vm_compute. reflexivity. Qed.

End Server.
