(* ===== verification/Main.v ===== *)
(** * cmd/acadock-monitoring/main.go: start-up, and the client against the server

    The wiring of [main], and the client of client/client.go talking to the server
    of [Server]: requests and bodies are texts, and the client follows redirects. *)
From S2P Require Import Prelude GoStrings GoFloat GoTime JsonString NumberText Config Cgroup Meminfo CpuStat LoadAvg.
From S2P Require Import MountInfo Json JsonText Client Filters Docker Resources CpuMonitor NetMonitor Webserver GoUrl Base64 Server.
Import Server.

Module Main.

(** ** Start-up *)

(** [log.Fatalln(err)]: the process ends. *)
Definition fatal {A} (o : outcome A) : outcome A :=
  match o with Err _ => Panic "fatal" | _ => o end.

(** [if config.Debug { os.Setenv("LOGGER_LEVEL", "debug") }]. *)
Definition setLoggerLevel (config : Config.t) (os : gmap string string) : gmap string string :=
  if Config.Debug config then <["LOGGER_LEVEL" := "debug"]> os else os.

(** The filter of the queue length. *)
Definition newQueueLength (config : Config.t) (now1 now2 : Z) : outcome (Filters.t float64) :=
  fatal (Filters.NewExponentialSmoothing now1 now2
    [Filters.WithQueueLength (Config.QueueLengthElementsNeeded config);
     Filters.WithAverageConfig (Config.QueueLengthPointsPerSample config)
       (Config.QueueLengthSamplingInterval config)]).

(** [PROC_MOUNTINFO_PID], 0 when it is empty. *)
Definition mountInfoPID (config : Config.t) : outcome Z :=
  let v := mapget "" (Config.env config) "PROC_MOUNTINFO_PID" in
  if String.eqb v "" then Ok 0 else fatal (Atoi v).

(** The steps of [main] that can stop it, in order; [newMountInfos] is
    [procfs.NewMountInfoReader]. *)
Definition setup {M} (newMountInfos : string -> Z -> outcome M) (config : Config.t) (now1 now2 : Z)
    : outcome (Filters.t float64 * M) :=
  let! q := newQueueLength config now1 now2 in
  let! pid := mountInfoPID config in
  let! m := fatal (newMountInfos (mapget "" (Config.env config) "PROC_DIR") pid) in
  Ok (q, m).

(** ** The client against the server *)

(** A request of the client as the server at [endpoint] receives it. *)
Definition received (r : Client.request) (rest : string) : serverRequest :=
  let '(path, query) := Cut (sentQuery rest) "?" in
  mkServerRequest (Client.reqMethod r) path query
    (match Client.reqBasicAuth r with Some (u, p) => SetBasicAuth u p | None => "" end)
    (match List.find (fun h => String.eqb h.1 "Content-Type") (Client.reqHeaders r) with
     | Some (_, v) => v
     | None => ""
     end).

(** [http.DefaultClient.Do]: the server whose address the URL starts with, and the
    redirects it answers, followed with the same headers, nine of them at most.  A
    space in the URL makes a request line that the HTTP server does not parse; it
    answers before any handler. *)
Fixpoint deliver (redirects : nat) (endpoint : string) (server : serverRequest -> reply) (r : Client.request)
    : outcome Client.response :=
  match stripPrefix endpoint (Client.reqURL r) with
  | None => Err (ErrOpaque "dial")
  | Some rest =>
      if Contains (sentQuery rest) " " then Ok (Client.mkResponse 400 "400 Bad Request") else
      let answer := server (received r rest) in
      match location answer, redirects with
      | None, _ => Ok (Client.mkResponse (status answer) (body answer))
      | Some _, O => Err (ErrOpaque "stopped after 10 redirects")
      | Some l, S redirects' =>
          deliver redirects' endpoint server
            (Client.mkRequest (Client.reqMethod r) (endpoint +:+ l) (Client.reqHeaders r) (Client.reqBasicAuth r))
      end
  end.

(** A client that reaches the server and is let in: a plain address, and credentials
    without a zero byte, as in any environment, and without a colon in the user. *)
Definition admitted (config : Config.t) (cl : Client.t) : Prop :=
  safe (Client.Endpoint cl) = true /\ (authEnabled config = true ->
  Client.Username cl = httpUsername config /\ Client.Password cl = httpPassword config /\
  Contains (httpUsername config) ":" = false /\
  Contains (httpUsername config +:+ ":" +:+ httpPassword config) NUL = false).

(** What the client returns for the outcome of the handler it reaches. *)
Definition clientSees {T} (o : outcome Client.response) (dec : decoder T) (ptr : option T) : outcome (option T) :=
  wrapMsg "decode response body payload"
    (let! j := parse (body (errorMiddleware "application/json" o)) in decodeInterface dec j ptr).

(** ** Lemmas *)

(** The request of the client, as the server receives it. *)
Definition clientRequest (cl : Client.t) (path query : string) : serverRequest :=
  mkServerRequest "GET" path query
    (if negb (String.eqb (Client.Username cl) "") && negb (String.eqb (Client.Password cl) "")
     then SetBasicAuth (Client.Username cl) (Client.Password cl) else "") "application/json".

(** A URL of the client: its address, its path, and a query if there is one. *)
Lemma fullURL_rest (cl : Client.t) path query :
  safe path = true ->
  exists rest, Client.fullURL cl path query = Client.Endpoint cl +:+ rest /\
    Cut (sentQuery rest) "?" = (path, sentQuery query) /\
    Contains (sentQuery rest) " " = Contains (sentQuery query) " " /\ ParseURL rest = ParseURL query.
Proof.
  intros Hp. unfold Client.fullURL. destruct (String.eqb_spec query "") as [->|Hq].
  - exists path. split; [done|]. rewrite sentQuery_safe by done.
    split; [apply Cut_none, safe_not; done|]. split; [apply Contains_none, safe_not; done|].
    rewrite <- (ParseURL_prefix path "") by done. f_equal. clear. induction path as [|c p IH]; [done|]. rewrite string_app_cons. by rewrite <- IH.
  - exists (path +:+ "?" +:+ query). split; [done|]. unfold sentQuery.
    assert (all_chars (fun c => negb (Ascii.eqb c "#")) (path +:+ "?") = true) as H1 by (rewrite all_chars_app, safe_not; done).
    rewrite <- string_app_assoc, Cut_prefix by done. cbn [fst]. rewrite string_app_assoc. split; [by apply (Cut_app "?"), safe_not|]. split.
    + rewrite <- string_app_assoc. apply Contains_prefix. rewrite all_chars_app, safe_not; done.
    + rewrite string_app_assoc, ParseURL_prefix by done. unfold ParseURL.
      change ("?" +:+ query) with (String "?" query). cbn [Cut Ascii.eqb Bool.eqb]. destruct (Cut query "#") as [q f]. done.
Qed.

Lemma deliver_do n server (cl : Client.t) path query :
  safe path = true -> Contains (sentQuery query) " " = false ->
  location (server (clientRequest cl path (sentQuery query))) = None ->
  let answer := server (clientRequest cl path (sentQuery query)) in
  Client.do (deliver n (Client.Endpoint cl) server) cl "GET" (Client.fullURL cl path query) =
    Ok (Client.mkResponse (status answer) (body answer)).
Proof.
  intros Hp Hsp Hl. cbv zeta. unfold Client.do.
  destruct (fullURL_rest cl path query Hp) as (rest & -> & Hcut & Hspace & _).
  destruct n as [|n]; cbn [deliver Client.reqURL]; rewrite stripPrefix_app, Hspace, Hsp; unfold received; rewrite Hcut;
    cbn [Client.reqMethod Client.reqBasicAuth Client.reqHeaders List.find fst snd];
    change (String.eqb "Content-Type" "Content-Type") with true; cbv iota;
    unfold clientRequest in *;
    destruct (negb (String.eqb (Client.Username cl) "") && negb (String.eqb (Client.Password cl) ""));
    by rewrite Hl.
Qed.

Lemma deliver_space n endpoint server r rest :
  Client.reqURL r = endpoint +:+ rest -> Contains (sentQuery rest) " " = true ->
  deliver n endpoint server r = Ok (Client.mkResponse 400 "400 Bad Request").
Proof. intros Hu Hs. destruct n; cbn [deliver]; by rewrite Hu, stripPrefix_app, Hs. Qed.

Lemma errorMiddleware_location ctype o : location (errorMiddleware ctype o) = None.
Proof. by destruct o. Qed.

(** An admitted client reaches the handler of its path. *)
Lemma serve_admitted oob cuts config doProfile pprofHandler stack containers c (cl : Client.t) path r query e id :
  admitted config cl -> forHandlers doProfile path r -> specEndpoint "GET" (Split "/" r) = (e, id) ->
  serve oob cuts config doProfile pprofHandler stack containers c (clientRequest cl path query) =
    errorMiddleware "application/json" (handle oob config containers c e id query).
Proof.
  intros [_ Ha] Hr Hspec.
  pose proof (serve_application oob cuts config doProfile stack pprofHandler containers c (clientRequest cl path query) r Hr) as He.
  cbn [clientRequest sMethod sQuery] in He. rewrite Hspec in He. cbv zeta in He. rewrite He.
  destruct (authEnabled config) eqn:E; [|done]. destruct (Ha eq_refl) as (HU & HP & Hcol & Hnul).
  unfold authMiddleware, clientRequest. cbn [sAuth]. unfold authEnabled in E. rewrite HU, HP, E.
  rewrite credentials_SetBasicAuth by done. cbn [obind].
  change (":" +:+ httpPassword config) with (String ":" (httpPassword config)).
  rewrite Contains_app, Contains_Cut by done. cbn [negb]. unfold checkAuth. by rewrite !String.eqb_refl.
Qed.

(** It returns what it makes of the handler's document; the part of its query that is
    sent is the handler's. *)
Lemma getPath_served {T} oob cuts config doProfile pprofHandler stack containers c (cl : Client.t) path r query
    (dec : decoder T) (ptr : option T) e id :
  admitted config cl -> safe path = true -> forHandlers doProfile path r ->
  specEndpoint "GET" (Split "/" r) = (e, id) -> ParseURL query = Ok tt -> Contains (sentQuery query) " " = false ->
  Client.getPathWithQuery ParseURL
    (deliver 9 (Client.Endpoint cl) (serve oob cuts config doProfile pprofHandler stack containers c)) cl path query dec ptr =
  clientSees (handle oob config containers c e id (sentQuery query)) dec ptr.
Proof.
  intros Hadm Hs Hr Hspec Hparse Hsp.
  pose proof (serve_admitted oob cuts config doProfile pprofHandler stack containers c cl path r (sentQuery query) e id
    Hadm Hr Hspec) as Hserve.
  unfold Client.getPathWithQuery.
  pose proof (deliver_do 9 (serve oob cuts config doProfile pprofHandler stack containers c) cl path query Hs Hsp) as Hd.
  cbv zeta in Hd. rewrite Hserve in Hd.
  assert (ParseURL (Client.fullURL cl path query) = Ok tt) as ->.
  { destruct (fullURL_rest cl path query Hs) as (rest & -> & _ & _ & E). destruct Hadm as [Hend _]. by rewrite ParseURL_prefix, E. }
  cbn [wrapMsg wrap obind]. by rewrite Hd by apply errorMiddleware_location.
Qed.

(** The paths of the client are clean. *)
Lemma TrimSuffix_word q u : TrimSuffix u "/" = u -> (1 < String.length u)%nat -> TrimSuffix (q +:+ u) "/" = q +:+ u.
Proof.
  intros Hu Hl. induction q as [|c q IH]; [done|]. rewrite string_app_cons. cbn [TrimSuffix].
  destruct (String.eqb_spec (String c (q +:+ u)) "/") as [E|_]; [|by rewrite IH].
  exfalso. injection E as _ E. assert (String.length (q +:+ u) = 0%nat) as El by by rewrite E.
  rewrite string_app_length in El. lia.
Qed.

Ltac each_resource H :=
  repeat (apply elem_of_cons in H as [-> | H]); [.. | by apply not_elem_of_nil in H].

Lemma containerPath_clean id resource :
  all_chars (fun x => negb (Ascii.eqb x "/")) id = true -> id <> "" -> id <> "." -> id <> ".." ->
  resource ∈ ["mem"; "io"; "cpu"; "net"; "usage"] ->
  cleanPath ("/containers/" +:+ id +:+ "/" +:+ resource) = "/containers/" +:+ id +:+ "/" +:+ resource.
Proof.
  intros Hsl H1 H2 H3 Hres. unfold cleanPath.
  change (String.eqb ("/containers/" +:+ id +:+ "/" +:+ resource) "") with false. cbv iota.
  change (HasPrefix ("/containers/" +:+ id +:+ "/" +:+ resource) "/") with true. cbv iota zeta.
  assert (TrimSuffix ("/containers/" +:+ id +:+ "/" +:+ resource) "/" = "/containers/" +:+ id +:+ "/" +:+ resource) as ->.
  { rewrite <- !string_app_assoc. apply TrimSuffix_word; each_resource Hres; first [reflexivity | cbn; lia]. }
  rewrite String.eqb_refl. cbn [negb andb]. unfold Clean.
  change (HasPrefix ("/containers/" +:+ id +:+ "/" +:+ resource) "/") with true.
  change (Split "/" ("/containers/" +:+ id +:+ "/" +:+ resource)) with ("" :: "containers" :: Split "/" (id +:+ String "/" resource)).
  rewrite Split_app by done.
  apply String.eqb_neq in H1, H2, H3.
  each_resource Hres; cbn [Split fold_left]; unfold clean_step; rewrite H1, H2, H3; reflexivity.
Qed.

Definition resourceEndpoint (resource : string) : endpoint :=
  if String.eqb "mem" resource then ContainerMem else if String.eqb "io" resource then ContainerIO
  else if String.eqb "cpu" resource then ContainerCPU else if String.eqb "net" resource then ContainerNet
  else ContainerUsage.

Lemma resourcePath_safe id resource :
  safe id = true -> resource ∈ ["mem"; "io"; "cpu"; "net"; "usage"] -> id <> "" ->
  Client.resourcePath id resource = "/containers/" +:+ id +:+ "/" +:+ resource /\
  safe ("/containers/" +:+ id +:+ "/" +:+ resource) = true /\
  Contains ("containers/" +:+ id +:+ "/" +:+ resource) nl = false.
Proof.
  intros Hid Hres Hne. unfold Client.resourcePath. destruct (String.eqb_spec id ""); [done|]. split; [done|].
  assert (safe ("/containers/" +:+ id +:+ "/" +:+ resource) = true) as Hsafe by (rewrite !safe_app, Hid; by each_resource Hres).
  split; [done|].
  assert (Contains ("/containers/" +:+ id +:+ "/" +:+ resource) nl = false) as Hnl by (apply Contains_none, safe_not; done).
  exact Hnl.
Qed.

Lemma containerPath_route doProfile id resource :
  safe id = true -> Contains id "/" = false -> id <> "" -> id <> "." -> id <> ".." ->
  resource ∈ ["mem"; "io"; "cpu"; "net"; "usage"] ->
  exists r, Client.resourcePath id resource = String "/" r /\ safe (String "/" r) = true /\
    forHandlers doProfile (String "/" r) r /\ specEndpoint "GET" (Split "/" r) = (resourceEndpoint resource, id).
Proof.
  intros Hid Hsl Hne Hdot Hdots Hres. destruct (resourcePath_safe id resource Hid Hres Hne) as (-> & Hsafe & Hnl).
  assert (all_chars (fun x => negb (Ascii.eqb x "/")) id = true) as Hsl' by by apply Contains_all_chars.
  exists ("containers/" +:+ id +:+ "/" +:+ resource). split; [done|].
  change (String "/" ("containers/" +:+ ?x)) with ("/containers/" +:+ x). split; [done|]. split.
  - split; [done|]. split; [by apply containerPath_clean|]. split; [done|]. split; [exact Hnl|by right].
  - assert (Split "/" ("containers/" +:+ id +:+ "/" +:+ resource) = "containers" :: Split "/" (id +:+ String "/" resource)) as -> by reflexivity.
    rewrite Split_app by done. assert (String.eqb id "" = false) as Hid' by by apply String.eqb_neq.
    each_resource Hres; cbn [Split]; unfold specEndpoint; simpl; by rewrite Hid'.
Qed.

(** An identifier with a slash has no route. *)
Lemma Split_slash sep id rest :
  Contains id sep = true -> exists a b ws, Split sep (id +:+ String sep rest) = a :: b :: ws /\ ws <> [].
Proof.
  intros H. induction id as [|x id IH]; [done|]. cbn [Contains] in H. rewrite string_app_cons. cbn [Split].
  destruct (Ascii.eqb x sep) eqn:E.
  - destruct (Split sep (id +:+ String sep rest)) as [|w ws] eqn:Es; [by destruct (Split_nonempty sep (id +:+ String sep rest))|].
    exists "", w, ws. split; [done|]. intros ->.
    assert (Contains (id +:+ String sep rest) sep = false) as Hc; [|by rewrite Contains_app in Hc].
    pose proof (Join_Split sep (id +:+ String sep rest)) as Hj. rewrite Es in Hj. cbn [Join] in Hj. rewrite <- Hj.
    pose proof (Split_pieces sep (id +:+ String sep rest)) as Hp. rewrite Es in Hp. by apply list.Forall_cons in Hp as [Hp _].
  - cbn [orb] in H. destruct (IH H) as (a & b & ws & -> & Hws). by exists (String x a), b, ws.
Qed.

Lemma containerPath_unknown doProfile id resource :
  safe id = true -> Contains id "/" = true -> resource ∈ ["mem"; "io"; "cpu"; "net"; "usage"] ->
  cleanPath (Client.resourcePath id resource) = Client.resourcePath id resource ->
  exists r, Client.resourcePath id resource = String "/" r /\ safe (String "/" r) = true /\
    forHandlers doProfile (String "/" r) r /\ specEndpoint "GET" (Split "/" r) = (Unknown, "").
Proof.
  intros Hid Hsl Hres. assert (id <> "") as Hne by by intros ->.
  destruct (resourcePath_safe id resource Hid Hres Hne) as (-> & Hsafe & Hnl). intros Hclean.
  exists ("containers/" +:+ id +:+ "/" +:+ resource). split; [done|].
  change (String "/" ("containers/" +:+ ?x)) with ("/containers/" +:+ x). split; [done|]. split.
  - split; [done|]. split; [done|]. split; [done|]. split; [exact Hnl|by right].
  - assert (Split "/" ("containers/" +:+ id +:+ "/" +:+ resource) = "containers" :: Split "/" (id +:+ String "/" resource)) as -> by reflexivity.
    destruct (Split_slash "/" id resource Hsl) as (a & b & [|w ws] & -> & Hws); [done|]. reflexivity.
Qed.

(** What the server reads of a label that the client puts in a query as it is: nothing
    after a [#], nothing after a [&], no invalid escape or semicolon, and the others
    unescaped. *)
Definition receivedLabel (label : string) : string :=
  QueryGet (sentQuery (Client.labelQuery label)) "include_container_if_label".

(** A label with which there is a request that the HTTP server can parse. *)
Definition sendable (label : string) : bool :=
  is_ok (ParseURL (Client.labelQuery label)) && negb (Contains (sentQuery (Client.labelQuery label)) " ").

Lemma safe_labelQuery label : safe label = true ->
  sentQuery (Client.labelQuery label) = Client.labelQuery label /\ sendable label = true /\ receivedLabel label = label.
Proof.
  intros Hl. unfold receivedLabel, sendable, Client.labelQuery. destruct (String.eqb_spec label "") as [->|_]; [by vm_compute|].
  assert (forall c, unreserved c = false -> Ascii.eqb c "=" = false ->
            all_chars (fun x => negb (Ascii.eqb x c)) ("include_container_if_label=" +:+ label) = true) as Hnot.
  { intros c Hc Heq. rewrite all_chars_app, (safe_not c label), andb_true_r by done.
    apply (all_chars_impl (fun x => unreserved x || Ascii.eqb x "=")); [|reflexivity].
    intros x Hx. apply negb_true_iff. destruct (Ascii.eqb_spec x c) as [->|]; [|done]. by rewrite Hc, Heq in Hx. }
  assert (sentQuery ("include_container_if_label=" +:+ label) = "include_container_if_label=" +:+ label) as E.
  { unfold sentQuery. by rewrite Cut_none by by apply Hnot. }
  rewrite E. split; [done|]. split.
  - unfold ParseURL. rewrite Cut_none by by apply Hnot. rewrite all_chars_app, (safe_noCTL label) by done. cbn [QueryUnescape].
    rewrite Contains_none by by apply Hnot. done.
  - by apply (QueryGet_single "include_container_if_label" label).
Qed.

(** Labels that do not arrive as they are. *)
Example receivedLabel_examples :
  map receivedLabel ["app"; "a&b"; "a#b"; "a+b"; "50%"; "%41"; "a;b"; "x=y"; "a;b&include_container_if_label=c"] =
  ["app"; "a"; "a"; "a b"; ""; "A"; ""; "x=y"; "c"].
Proof. vm_compute. reflexivity. Qed.

(** The document of a handler that could encode its payload. *)
Lemma clientSees_ok {T} (enc : outcome json) (dec : decoder T) (zero v : T) n :
  (exists j, enc = Ok j /\ dec j zero = Ok v /\ document n j) -> n <= maxNestingDepth ->
  clientSees (Ok (Webserver.writeJSON 200 enc)) dec (Some zero) = Ok (Some v).
Proof.
  intros (j & -> & H & Hd) Hn. unfold clientSees. cbn [errorMiddleware body Webserver.writeJSON Client.resBody].
  rewrite (parse_Encode n) by done. cbn [obind decodeInterface]. by rewrite H.
Qed.

(** The document of an error decodes into any struct without a field [error], and into
    a parameter that holds a nil pointer. *)
Definition ignoresError {T} (dec : decoder T) (ptr : option T) : Prop :=
  match ptr with None => True | Some zero => forall s, dec (JObj [("error", JStr s)]) zero = Ok zero end.

(** The document of an error; the message of an error around nil cannot be read, and
    the text of the panic is no document. *)
Lemma clientSees_error {T} e (dec : decoder T) (ptr : option T) :
  ignoresError dec ptr ->
  match errorString e with
  | Ok _ => clientSees (Err e) dec ptr = Ok ptr
  | _ => is_err (clientSees (Err e) dec ptr) = true
  end.
Proof.
  intros Hd. unfold clientSees, errorMiddleware. pose proof (errorString_panic e) as Hp.
  destruct (errorString e) as [msg|e'|p]; cbn [body]; [|done|subst p; vm_compute; reflexivity].
  change (isContentTypeJSON "application/json") with true. cbv iota. rewrite Client.parse_errorBody.
  cbn [obind]. destruct ptr as [zero|]; [|done]. cbn [decodeInterface]. by rewrite Hd.
Qed.

Lemma clientSees_err {T} e msg (dec : decoder T) (ptr : option T) :
  errorString e = Ok msg -> ignoresError dec ptr -> clientSees (Err e) dec ptr = Ok ptr.
Proof. intros He Hd. pose proof (clientSees_error e dec ptr Hd) as H. by rewrite He in H. Qed.

Lemma clientSees_notFound {T} (dec : decoder T) (ptr : option T) :
  ignoresError dec ptr -> clientSees (Ok notFound) dec ptr = Ok ptr.
Proof.
  intros Hd. unfold clientSees. cbn [errorMiddleware body notFound Client.resBody].
  change (parse (quoted "{'error': 'not found'}")) with (Ok (JObj [("error", JStr "not found")])).
  cbn [obind]. destruct ptr as [zero|]; [|done]. cbn [decodeInterface]. by rewrite Hd.
Qed.

(** The request for the usage of the host, with any label. *)
Lemma host_request oob cuts config doProfile pprofHandler stack containers c (cl : Client.t) label :
  admitted config cl ->
  let answer := Client.HostUsageReq ParseURL
    (deliver 9 (Client.Endpoint cl) (serve oob cuts config doProfile pprofHandler stack containers c)) cl label in
  if sendable label then
    answer = wrapMsg "get host usage"
      (clientSees (Webserver.HostResourcesHandler containers c (receivedLabel label)) Client.decHostUsage (Some Client.zeroHostUsage))
  else is_err answer = true.
Proof.
  intros Hadmitted answer. unfold answer, Client.HostUsageReq.
  assert (forHandlers doProfile "/host/usage" "host/usage") as Hf by (repeat split; try reflexivity; [done|by right]).
  destruct (sendable label) eqn:Hsend; unfold sendable in Hsend.
  - apply andb_true_iff in Hsend as [Hp Hs%negb_true_iff].
    assert (ParseURL (Client.labelQuery label) = Ok tt) as Hok by (by destruct (ParseURL (Client.labelQuery label)) as [[]| |]).
    pose proof (getPath_served oob cuts config doProfile pprofHandler stack containers c cl "/host/usage" "host/usage"
      (Client.labelQuery label) Client.decHostUsage (Some Client.zeroHostUsage) HostUsage "" Hadmitted eq_refl Hf eq_refl Hok Hs) as Hg.
    cbn [handle] in Hg. fold (receivedLabel label) in Hg. by rewrite Hg.
  - unfold Client.getPathWithQuery. destruct Hadmitted as [Hend _].
    destruct (fullURL_rest cl "/host/usage" (Client.labelQuery label) eq_refl) as (rest & -> & _ & Hspace & Hparse).
    rewrite ParseURL_prefix, Hparse by done.
    destruct (ParseURL (Client.labelQuery label)) as [[]|e|m] eqn:E; cbn [wrapMsg wrap obind]; [|done|].
    + cbn [is_ok andb] in Hsend. apply negb_false_iff in Hsend.
      unfold Client.do. rewrite (deliver_space _ _ _ _ rest) by (done || by rewrite Hspace). vm_compute. reflexivity.
    + exfalso. unfold ParseURL in E. destruct (Cut (Client.labelQuery label) "#"). destruct (negb _); [done|]. by destruct (QueryUnescape _).
Qed.

(** ** Properties *)

Section Properties.
Variable oob : float64 -> Z.
Variable cuts : nat -> bool.
Variable config : Config.t.
Variable doProfile : bool.
Variable pprofHandler : string -> serverRequest -> reply.
Variable stack : string.
Variable containers : outcome (list Summary).
Variable c : Webserver.Controller.
Variable cl : Client.t.
Hypothesis Hadmitted : admitted config cl.

Let server := serve oob cuts config doProfile pprofHandler stack containers c.
Let transport := deliver 9 (Client.Endpoint cl) server.

(** The [HostUsage] method of the client against a server in any state: for the label
    that the server receives, it returns the CPU usage the monitor answers, the
    smoothed queue length, the host's memory in MiB and the sums over exactly the
    containers that carry the label, provided the two floats are numbers.  When the
    handler fails, it returns an empty usage without an error if the message of the
    error can be read, and otherwise an error. *)
Theorem client_host_usage (label : string) :
  sendable label = true -> Webserver.wfController c ->
  (forall id p, @GetStats (Webserver.resources c) id <> Panic p) ->
  (forall q m cs u, Webserver.queueLength c = Ok q -> Webserver.procfsMemory c = Ok m -> containers = Ok cs ->
     CpuMonitor.GetHostUsage (Webserver.hostCpu c) = Ok u ->
     isFloat64 (Client.hUsage u) = true -> is_finite (Client.hUsage u) = true ->
     isFloat64 q = true -> is_finite q = true ->
     Client.HostUsageReq ParseURL transport cl label =
       Ok (Some (Client.mkHostUsage (Client.mkHostCpuUsage (Client.hUsage u) (Client.hAmount u) q)
                   (Webserver.specHostMemory m (Webserver.counted c (receivedLabel label) cs))))) /\
  (forall e, Webserver.HostResourcesHandler containers c (receivedLabel label) = Err e ->
     match errorString e with
     | Ok _ => Client.HostUsageReq ParseURL transport cl label = Ok (Some Client.zeroHostUsage)
     | _ => is_err (Client.HostUsageReq ParseURL transport cl label) = true
     end) /\
  (forall p, Webserver.HostResourcesHandler containers c (receivedLabel label) = Panic p ->
     is_ok (parse (p +:+ eol)) = false -> is_err (Client.HostUsageReq ParseURL transport cl label) = true).
Proof.
  intros Hsend Hwf Hnp.
  pose proof (host_request oob cuts config doProfile pprofHandler stack containers c cl label Hadmitted) as Hreq.
  cbv zeta in Hreq. rewrite Hsend in Hreq. unfold transport, server. rewrite Hreq.
  split; [|split].
  - intros q m cs u Hq Hm Hcs Hu Hvu Hfu Hvq Hfq.
    rewrite (Webserver.HostResourcesHandler_ok containers c (receivedLabel label) q m cs u) by done.
    destruct Hwf as (_ & _ & Hmem & Hcpu).
    set (h := Client.mkHostUsage _ _).
    assert (Client.wfHostUsage h) as Hh.
    { apply Webserver.specHost_wf; [intros f; by apply Hmem | by eapply Webserver.GetHostUsage_amount|done|done]. }
    rewrite (clientSees_ok _ _ _ h 2); [done| |done]. pose proof (Client.encHostUsage_ok h) as Hok.
    change (Client.hUsage (Client.hCPU h)) with (Client.hUsage u) in Hok.
    change (Client.QueueLengthExponentiallySmoothed (Client.hCPU h)) with q in Hok.
    rewrite Hfu, Hfq in Hok. destruct (Client.encHostUsage h) as [j| |] eqn:E; [|done..].
    exists j. split; [done|]. split; [by apply Client.decHostUsage_enc | by eapply Client.encHostUsage_document].
  - intros e ->. pose proof (clientSees_error e Client.decHostUsage (Some Client.zeroHostUsage) (fun _ => eq_refl)) as H.
    destruct (errorString e); [by rewrite H|..]; revert H; by destruct (clientSees (Err e) Client.decHostUsage (Some Client.zeroHostUsage)).
  - intros p -> Hp. unfold clientSees. cbn [errorMiddleware body].
    destruct (parse_outcome (p +:+ eol)) as [[j E]|[e' E]]; rewrite E in Hp |- *; done.
Qed.

(** The method of the client for all containers: [AllContainersUsage] returns one entry for each listed container
    whose statistics can be read, which is what the monitors and the getters say of
    it, and no other entry; and an error when the containers cannot be listed. *)
Theorem client_all_usage :
  Webserver.wfController c -> (forall id p, @GetStats (Webserver.resources c) id <> Panic p) ->
  match containers with
  | Ok cs => NoDup (map ID cs) -> Webserver.validContainers cs -> exists m : Client.ContainersUsage,
      Client.AllContainersUsage ParseURL transport cl = Ok (Some m) /\
      (forall s, s ∈ cs -> m !! ID s = Webserver.specUsage oob (Config.RefreshTime config) c (ID s) (Labels s)) /\
      (forall id, id ∉ map ID cs -> m !! id = None)
  | Err e => forall msg, errorString e = Ok msg -> ValidString msg = true ->
      is_err (Client.AllContainersUsage ParseURL transport cl) = true
  | Panic p => is_ok (parse (p +:+ eol)) = false -> is_ok (Client.AllContainersUsage ParseURL transport cl) = false
  end.
Proof.
  intros Hwf Hnp. unfold Client.AllContainersUsage, Client.getResource, Client.getResourceWithQuery, transport, server.
  change (Client.resourcePath "" "usage") with "/containers/usage".
  assert (forHandlers doProfile "/containers/usage" "containers/usage") as Hf by (repeat split; try reflexivity; [done|by right]).
  pose proof (getPath_served oob cuts config doProfile pprofHandler stack containers c cl "/containers/usage" "containers/usage"
    "" Client.decContainersUsage (Some ∅) ContainersUsage "" Hadmitted eq_refl Hf eq_refl eq_refl eq_refl) as Hg.
  cbn [handle] in Hg. rewrite Hg. clear Hg Hf.
  destruct containers as [cs|e|p] eqn:Hcs.
  - intros Hnd Hvalid. exists (Webserver.specContainers oob (Config.RefreshTime config) c cs).
    rewrite (Webserver.ContainersUsageHandler_ok oob (Config.RefreshTime config) (Ok cs) c cs) by done.
    rewrite (clientSees_ok _ _ _ (Webserver.specContainers oob (Config.RefreshTime config) c cs) 5); [| |done].
    2: { pose proof (Webserver.specContainers_wf oob (Config.RefreshTime config) c cs Hwf Hvalid) as Hw.
         destruct (map_roundtrip Client.zeroUsage Client.encUsage Client.decUsage
           (Webserver.specContainers oob (Config.RefreshTime config) c cs)) as (j & Hj & Hd).
         { intros k u Hk. apply Client.usage_members. by apply (Hw k u Hk). }
         exists j. split; [done|]. split; [done|]. eapply (document_map _ _ _ 4); [exact Hj|done|].
         intros k u j' Hk Hj'. destruct (Hw k u Hk) as [Hv Hu]. split; [done|]. by eapply Client.encUsage_document. }
    split; [done|]. split; [intros s Hs; by apply Webserver.specContainers_lookup | by apply Webserver.specContainers_None].
  - intros msg Hmsg Hv. unfold Webserver.ContainersUsageHandler. rewrite Hmsg. cbn [obind].
    unfold clientSees. cbn [errorMiddleware body Webserver.writeJSON Client.resBody].
    rewrite (parse_Encode 1); [reflexivity| |done]. apply (document_obj 0); [done|].
    constructor; [|constructor; [|constructor]]; (split; [reflexivity|]); by apply document_str.
  - intros Hp. unfold clientSees, Webserver.ContainersUsageHandler. cbn [errorMiddleware body].
    by destruct (parse (p +:+ eol)).
Qed.

(** The method of the client for one container: [Usage] returns what the handler says of
    it, its [net] argument makes no difference, and a container whose statistics
    cannot be read gives an empty usage without an error. *)
Theorem client_usage (id : string) (net : bool) :
  safe id = true -> Contains id "/" = false -> id <> "" -> id <> "." -> id <> ".." -> Webserver.wfController c ->
  Client.UsageReq ParseURL transport cl id net = Client.UsageReq ParseURL transport cl id (negb net) /\
  match @GetStats (Webserver.resources c) id with
  | Ok _ => exists u, Webserver.specUsage oob (Config.RefreshTime config) c id ∅ = Some u /\
      Client.UsageReq ParseURL transport cl id net = Ok (Some u)
  | Err e => forall msg, errorString e = Ok msg ->
      Client.UsageReq ParseURL transport cl id net = Ok (Some Client.zeroUsage)
  | Panic p => is_ok (parse (p +:+ eol)) = false -> is_ok (Client.UsageReq ParseURL transport cl id net) = false
  end.
Proof.
  intros Hid Hsl Hne Hdot Hdots Hwf.
  destruct (containerPath_route doProfile id "usage" Hid Hsl Hne Hdot Hdots) as (r & H1 & H2 & H3 & H4); [set_solver|].
  assert (forall b, Client.UsageReq ParseURL transport cl id b =
            wrapMsg "get container usage" (clientSees (Webserver.ContainerUsageHandler oob (Config.RefreshTime config) c id)
              Client.decUsage (Some Client.zeroUsage))) as Hreq.
  { intros b. unfold Client.UsageReq, Client.getResourceWithQuery, transport, server. rewrite H1.
    pose proof (getPath_served oob cuts config doProfile pprofHandler stack containers c cl (String "/" r) r (Client.netQuery b)
      Client.decUsage (Some Client.zeroUsage) _ _ Hadmitted H2 H3 H4 ltac:(by destruct b) ltac:(by destruct b)) as Hg.
    change (resourceEndpoint "usage") with ContainerUsage in Hg. cbn [handle] in Hg. by rewrite Hg. }
  split; [by rewrite !Hreq|]. rewrite Hreq.
  pose proof (fun u => Webserver.specUsage_wf oob (Config.RefreshTime config) c id ∅ u Hwf (map_Forall_empty _)) as Huwf.
  revert Huwf. unfold Webserver.ContainerUsageHandler, Webserver.specUsage, Resources.GetUsage.
  destruct (Webserver.GetContainerUsage_ok oob id (Webserver.cpu c id)) as [u Hu]. rewrite Hu.
  destruct (@GetStats (Webserver.resources c) id) as [st|e|p]; cbn [wrapMsg wrap obind].
  - intros Huwf. eexists. split; [reflexivity|]. unfold NetMonitor.GetUsage. cbn [wrapMsg wrap obind].
    specialize (Huwf _ eq_refl). destruct (Client.usage_members _ Huwf) as (j & Hj & Hd).
    rewrite (clientSees_ok _ _ _ _ 4 (ex_intro _ j (conj Hj (conj Hd (Client.encUsage_document _ j Huwf Hj))))); done.
  - intros _ msg Hmsg. rewrite (clientSees_err _ ("get container resources usage" +:+ ": " +:+ "get cgroup stats" +:+ ": " +:+ msg)); [done| |done].
    simpl. by rewrite Hmsg.
  - intros _ Hp. unfold clientSees. cbn [errorMiddleware body]. by destruct (parse (p +:+ eol)).
Qed.

(** A request of the client for a resource of a container, and the reply to it. *)
Definition answered (id resource query : string) : reply :=
  server (clientRequest cl (Client.resourcePath id resource) (sentQuery query)).

Lemma resource_request {T} id resource query (dec : decoder T) ptr r e id' :
  Client.resourcePath id resource = String "/" r -> safe (String "/" r) = true -> forHandlers doProfile (String "/" r) r ->
  specEndpoint "GET" (Split "/" r) = (e, id') -> ParseURL query = Ok tt -> Contains (sentQuery query) " " = false ->
  answered id resource query = errorMiddleware "application/json" (handle oob config containers c e id' (sentQuery query)) /\
  Client.getResourceWithQuery ParseURL transport cl id resource query dec ptr =
    clientSees (handle oob config containers c e id' (sentQuery query)) dec ptr.
Proof.
  intros H1 H2 H3 H4 H5 H6. unfold answered, Client.getResourceWithQuery, transport, server. rewrite H1. split.
  - by eapply serve_admitted.
  - by eapply getPath_served.
Qed.

(** What [Usage], [IOUsage] and [Memory] return when the server answers their requests
    with [status]: a zero value, or the nil pointer, without an error. *)
Definition emptyAnswers (status_ : Z) (id : string) (net : bool) : Prop :=
  status (answered id "usage" (Client.netQuery net)) = status_ /\
  Client.UsageReq ParseURL transport cl id net = Ok (Some Client.zeroUsage) /\
  status (answered id "io" "") = status_ /\ Client.IOUsageReq ParseURL transport cl id = Ok (Some Client.zeroIOUsage) /\
  status (answered id "mem" "") = status_ /\ Client.Memory ParseURL transport cl id = Ok None.

Lemma emptyAnswers_unreadable id net e :
  safe id = true -> Contains id "/" = false -> id <> "" -> id <> "." -> id <> ".." ->
  @GetStats (Webserver.resources c) id = Err e -> is_ok (errorString e) = true -> emptyAnswers 500 id net.
Proof.
  intros H1 H2 H3 H4 H5 Hst He. destruct (errorString e) as [msg| |] eqn:Hmsg; [|done..].
  pose proof (fun resource => containerPath_route doProfile id resource H1 H2 H3 H4 H5) as Hroute.
  unfold emptyAnswers, Client.UsageReq, Client.IOUsageReq, Client.Memory, Client.getResource.
  destruct (Hroute "usage" ltac:(set_solver)) as (r1 & E1 & E2 & E3 & E4).
  destruct (resource_request id "usage" (Client.netQuery net) Client.decUsage (Some Client.zeroUsage) r1 _ _ E1 E2 E3 E4
    ltac:(by destruct net) ltac:(by destruct net)) as [-> ->].
  destruct (Hroute "io" ltac:(set_solver)) as (r2 & F1 & F2 & F3 & F4).
  destruct (resource_request id "io" "" Client.decIOUsage (Some Client.zeroIOUsage) r2 _ _ F1 F2 F3 F4 eq_refl eq_refl) as [-> ->].
  destruct (Hroute "mem" ltac:(set_solver)) as (r3 & G1 & G2 & G3 & G4).
  destruct (resource_request id "mem" "" Client.decMemoryUsage None r3 _ _ G1 G2 G3 G4 eq_refl eq_refl) as [-> ->].
  cbn [resourceEndpoint handle String.eqb Ascii.eqb Bool.eqb]. unfold Webserver.ContainerUsageHandler,
    Webserver.ContainerIOUsageHandler, Webserver.ContainerMemUsageHandler, Resources.GetUsage, Resources.GetIOUsage, Resources.GetMemoryUsage.
  rewrite Hst. cbn [wrapMsg wrap obind].
  split_and!; [done| |done| |done|]; (erewrite clientSees_err; [done | simpl; by rewrite Hmsg | done]).
Qed.

Lemma emptyAnswers_unknown id net :
  safe id = true -> Contains id "/" = true ->
  (forall resource, resource ∈ ["mem"; "io"; "usage"] ->
     cleanPath (Client.resourcePath id resource) = Client.resourcePath id resource) ->
  emptyAnswers 404 id net.
Proof.
  intros H1 H2 Hclean.
  pose proof (fun resource H => containerPath_unknown doProfile id resource H1 H2 H) as Hroute.
  unfold emptyAnswers, Client.UsageReq, Client.IOUsageReq, Client.Memory, Client.getResource.
  destruct (Hroute "usage" ltac:(set_solver) ltac:(apply Hclean; set_solver)) as (r1 & E1 & E2 & E3 & E4).
  destruct (resource_request id "usage" (Client.netQuery net) Client.decUsage (Some Client.zeroUsage) r1 _ _ E1 E2 E3 E4
    ltac:(by destruct net) ltac:(by destruct net)) as [-> ->].
  destruct (Hroute "io" ltac:(set_solver) ltac:(apply Hclean; set_solver)) as (r2 & F1 & F2 & F3 & F4).
  destruct (resource_request id "io" "" Client.decIOUsage (Some Client.zeroIOUsage) r2 _ _ F1 F2 F3 F4 eq_refl eq_refl) as [-> ->].
  destruct (Hroute "mem" ltac:(set_solver) ltac:(apply Hclean; set_solver)) as (r3 & G1 & G2 & G3 & G4).
  destruct (resource_request id "mem" "" Client.decMemoryUsage None r3 _ _ G1 G2 G3 G4 eq_refl eq_refl) as [-> ->].
  cbn [handle]. split_and!; [done| |done| |done|]; (rewrite clientSees_notFound; done).
Qed.

(** C39. The client never looks at the status of a response.  For a container whose
    statistics cannot be read the server answers 500, and for an identifier with a
    slash, which no route matches, 404: [Usage] and [IOUsage] return a zero value and
    [Memory] a nil pointer, without an error.  So does [HostUsage], with a zero value,
    when the handler of the host fails.  Only [AllContainersUsage], which expects a map
    of objects, reports the failure of its handler.  The errors here are those whose
    message can be read. *)
Theorem error_answers (id label : string) (net : bool) (e : error) :
  safe id = true -> is_ok (errorString e) = true ->
  (Contains id "/" = false -> id <> "" -> id <> "." -> id <> ".." ->
     @GetStats (Webserver.resources c) id = Err e -> emptyAnswers 500 id net) /\
  (Contains id "/" = true ->
     (forall resource, resource ∈ ["mem"; "io"; "usage"] ->
        cleanPath (Client.resourcePath id resource) = Client.resourcePath id resource) -> emptyAnswers 404 id net) /\
  (sendable label = true -> Webserver.HostResourcesHandler containers c (receivedLabel label) = Err e ->
     status (server (clientRequest cl "/host/usage" (sentQuery (Client.labelQuery label)))) = 500 /\
     Client.HostUsageReq ParseURL transport cl label = Ok (Some Client.zeroHostUsage)) /\
  (containers = Err e -> (forall msg, errorString e = Ok msg -> ValidString msg = true) ->
     status (answered "" "usage" "") = 500 /\ is_err (Client.AllContainersUsage ParseURL transport cl) = true).
Proof.
  intros Hid He. split; [by intros; eapply emptyAnswers_unreadable|]. split; [by intros; apply emptyAnswers_unknown|].
  destruct (errorString e) as [msg| |] eqn:Hmsg; [|done..].
  assert (forHandlers doProfile "/host/usage" "host/usage") as Hf by (repeat split; try reflexivity; [done|by right]).
  assert (forHandlers doProfile "/containers/usage" "containers/usage") as Hg by (repeat split; try reflexivity; [done|by right]).
  split.
  - intros Hsend Hh. split.
    + unfold server. rewrite (serve_admitted _ _ _ _ _ _ _ _ _ _ "host/usage" _ HostUsage "") by done.
      cbn [handle]. fold (receivedLabel label). by rewrite Hh.
    + pose proof (host_request oob cuts config doProfile pprofHandler stack containers c cl label Hadmitted) as Hreq.
      cbv zeta in Hreq. rewrite Hsend, Hh, (clientSees_err e msg) in Hreq by done. exact Hreq.
  - intros Hcs Hv. destruct (resource_request "" "usage" "" Client.decContainersUsage (Some ∅) "containers/usage" ContainersUsage ""
      eq_refl eq_refl Hg eq_refl eq_refl eq_refl) as [Ha Hreq].
    cbn [handle] in Ha, Hreq. unfold Webserver.ContainersUsageHandler in Ha, Hreq. rewrite Hcs, Hmsg in Ha, Hreq. cbn [obind] in Ha, Hreq.
    split; [by rewrite Ha|]. unfold Client.AllContainersUsage, Client.getResource. rewrite Hreq.
    unfold clientSees. cbn [errorMiddleware body Webserver.writeJSON Client.resBody].
    rewrite (parse_Encode 1); [reflexivity| |done]. apply (document_obj 0); [done|].
    constructor; [|constructor; [|constructor]]; (split; [reflexivity|]); apply document_str; [by apply Hv|reflexivity].
Qed.

End Properties.

(** With an empty process environment the program starts: the settings are
    the defaults, the filter is made, the mount table is the process's own and the
    authentication is off. *)
Theorem default_setup {M} (oob : float64 -> Z) (unified : bool) (kvs : list (string * string)) (now1 now2 : Z)
    (newMountInfos : string -> Z -> outcome M) (m : M) :
  kvs ≡ₚ map_to_list Config.ENV -> newMountInfos "/proc" 0 = Ok m ->
  exists config os, Config.init oob unified kvs ∅ = Ok (config, os) /\
    setup newMountInfos config now1 now2 = Ok (Filters.mkSmoothing 5 (5 * Second) 6 false [] now1 now2, m) /\
    Config.RefreshTime config = 20 * Second /\ authEnabled config = false.
Proof.
  intros Hkvs Hm. unfold Config.init. rewrite (Config.env_loop_final kvs ∅ Hkvs).
  set (config := Config.mk (Config.env_final ∅) (20 * Second) false (5 * Second) 5 6 unified).
  assert (Config.settings oob unified (Config.env_final ∅) = Ok config) as -> by (vm_compute; reflexivity).
  exists config, (Config.os_final ∅). split; [done|]. split; [|split; vm_compute; reflexivity].
  unfold setup.
  assert (newQueueLength config now1 now2 = Ok (Filters.mkSmoothing 5 (5 * Second) 6 false [] now1 now2)) as ->
    by (vm_compute; reflexivity).
  assert (mountInfoPID config = Ok 0) as -> by (vm_compute; reflexivity).
  assert (mapget "" (Config.env config) "PROC_DIR" = "/proc") as -> by (vm_compute; reflexivity).
  cbn [obind]. by rewrite Hm.
Qed.

(** ** Witnesses *)

Definition exampleClient : Client.t := Client.mkClient "http://host:4244" "bob" "secret".

Lemma example_admitted : admitted (exampleConfig "bob" "secret") exampleClient.
Proof. split; [reflexivity|]. intros _. vm_compute. done. Qed.

(** A controller whose host has two different CPU samples. *)
Definition exampleController : Webserver.Controller :=
  Webserver.NewController Resources.exampleReader
    (CpuMonitor.mkMonitor 4 (Some (mkCPUStat "cpu" 30 0 0 70 0 0 0 0 0 0)) (Some zeroCPUStat) ∅ ∅ ∅ ∅)
    NetMonitor.NewNetMonitor {| ReadMetric := Err ErrNotEnoughMetrics |} (Ok Meminfo.zeroMemInfo).

Lemma exampleController_wf : Webserver.wfController exampleController.
Proof.
  assert (forall z, bool_decide (is_u64 z) = true -> is_u64 z) as Hu by (intros z; by rewrite bool_decide_eq_true).
  split; [|split; [|split]].
  - intros id st [= <-]. split; [apply (bool_decide_unpack _); exact I|].
    constructor; [|constructor]. split; [apply (bool_decide_unpack _); exact I|]. repeat constructor.
  - intros id. unfold NetMonitor.statAt, mapget. cbn. rewrite lookup_empty.
    split_and!; [apply (bool_decide_unpack _); exact I..|reflexivity].
  - intros m f [= <-]. by apply Hu.
  - apply (bool_decide_unpack _). exact I.
Qed.

Definition exampleTransport (containers : outcome (list Summary)) : Client.request -> outcome Client.response :=
  deliver 9 "http://host:4244"
    (serve (fun _ => 0) (fun _ => false) (exampleConfig "bob" "secret") false examplePprof "" containers exampleController).

Lemma client_host_usage_witness :
  Client.HostUsageReq ParseURL (exampleTransport (Ok Webserver.exampleContainers)) exampleClient "app" =
  Ok (Some (Client.mkHostUsage (Client.mkHostCpuUsage (fdiv (fsub (of_int 100) (of_int 70)) (of_int 100)) 4 fzero)
    (Webserver.specHostMemory Meminfo.zeroMemInfo
       (Webserver.counted exampleController "app" Webserver.exampleContainers)))).
Proof.
  refine (proj1 (client_host_usage (fun _ => 0) (fun _ => false) (exampleConfig "bob" "secret") false examplePprof ""
    (Ok Webserver.exampleContainers) exampleController exampleClient example_admitted "app" eq_refl exampleController_wf _)
    fzero Meminfo.zeroMemInfo Webserver.exampleContainers
    (Client.mkHostCpuUsage (fdiv (fsub (of_int 100) (of_int 70)) (of_int 100)) 4 fzero) _ _ _ _ _ _ _ _).
  - discriminate.
  - reflexivity.
  - reflexivity.
  - reflexivity.
  - vm_compute. reflexivity.
  - vm_compute. reflexivity.
  - vm_compute. reflexivity.
  - reflexivity.
  - reflexivity.
Defined.

(** The text of the host's document on the wire. *)
Example host_text :
  body (serve (fun _ => 0) (fun _ => false) (exampleConfig "bob" "secret") false examplePprof "" (Ok Webserver.exampleContainers) exampleController
          (clientRequest exampleClient "/host/usage" "include_container_if_label=app")) =
  quoted ("{'cpu':{'usage':0.3,'amount':4,'queue_length_exponentially_smoothed':0},'memory':{'free':0,'total':0,'swap':0,"
    +:+ "'memory_usage':1,'memory_committed':3,'max_memory_usage':2,'swap_usage':4,'swap_committed':6,'max_swap_usage':5}}") +:+ eol.
Proof. vm_compute. reflexivity. Qed.

(** Two documents that the README describes otherwise: it says that the CPU usage is
    [text/plain], and calls the members of the memory usage [mem_usage], [mem_limit],
    [max_mem_usage], [max_swap_mem_usage], [swap_mem_usage] and [swap_mem_limit]. *)
Example readme_replies :
  map (fun path => let r := serve (fun _ => 0) (fun _ => false) (exampleConfig "bob" "secret") false examplePprof "" (Ok [])
                              exampleController (clientRequest exampleClient path "") in
                   (status r, contentType r, body r))
    ["/containers/c1/cpu"; "/containers/c1/mem"] =
  [(200, "application/json", quoted "{'usage_in_percents':0}" +:+ eol);
   (200, "application/json", quoted ("{'memory_usage':1,'swap_usage':4,'memory_limit':3,'swap_limit':6,"
      +:+ "'max_memory_usage':2,'max_swap_usage':5}") +:+ eol)].
Proof. vm_compute. reflexivity. Qed.

Lemma client_all_usage_witness :
  exists m : Client.ContainersUsage,
    Client.AllContainersUsage ParseURL (exampleTransport (Ok Webserver.exampleContainers)) exampleClient
      = Ok (Some m) /\ m !! "z" = None.
Proof.
  destruct (client_all_usage (fun _ => 0) (fun _ => false) (exampleConfig "bob" "secret") false examplePprof "" (Ok Webserver.exampleContainers)
              exampleController exampleClient example_admitted exampleController_wf) as (m & H1 & _ & H2).
  - discriminate.
  - exact (bool_decide_unpack _ (I : bool_decide (NoDup ["a"; "b"]))).
  - constructor; [|constructor; [|constructor]]; (split; [reflexivity|]).
    + apply map_Forall_insert_2; [split; reflexivity|apply map_Forall_empty].
    + apply map_Forall_empty.
  - exists m. split; [exact H1|]. apply H2.
    exact (bool_decide_unpack _ (I : bool_decide ("z" ∉ ["a"; "b"]))).
Defined.

Lemma client_usage_witness :
  exists u, Client.UsageReq ParseURL (exampleTransport (Ok [])) exampleClient "c1" true = Ok (Some u).
Proof.
  destruct (client_usage (fun _ => 0) (fun _ => false) (exampleConfig "bob" "secret") false examplePprof "" (Ok []) exampleController exampleClient
              example_admitted "c1" true eq_refl) as [_ (u & _ & H)];
    [reflexivity | discriminate | discriminate | discriminate | exact exampleController_wf |].
  exists u. exact H.
Defined.

(** A host on which no container can be read and docker does not answer. *)
Definition failingController : Webserver.Controller :=
  Webserver.NewController CpuMonitor.failingReader (CpuMonitor.NewCPUUsageMonitor 4) NetMonitor.NewNetMonitor
    {| ReadMetric := Err ErrNotEnoughMetrics |} (Ok Meminfo.zeroMemInfo).

Definition failingTransport : Client.request -> outcome Client.response :=
  deliver 9 "http://host:4244"
    (serve (fun _ => 0) (fun _ => false) (exampleConfig "bob" "secret") false examplePprof "" (Err (ErrOpaque "docker")) failingController).

Lemma error_answers_witness :
  Client.UsageReq ParseURL failingTransport exampleClient "c1" true = Ok (Some Client.zeroUsage) /\
  Client.IOUsageReq ParseURL failingTransport exampleClient "a/b" = Ok (Some Client.zeroIOUsage) /\
  Client.HostUsageReq ParseURL failingTransport exampleClient "app" = Ok (Some Client.zeroHostUsage) /\
  is_err (Client.AllContainersUsage ParseURL failingTransport exampleClient) = true.
Proof.
  pose proof (fun id e => error_answers (fun _ => 0) (fun _ => false) (exampleConfig "bob" "secret") false examplePprof ""
    (Err (ErrOpaque "docker")) failingController exampleClient example_admitted id "app" true e) as H.
  split; [|split; [|split]].
  - apply (proj1 (H "c1" (StatsReaderError (ErrOpaque "cgroup deleted")) eq_refl eq_refl)); done.
  - apply (proj1 (proj2 (H "a/b" (ErrOpaque "docker") eq_refl eq_refl))); [reflexivity|].
    intros resource Hr. repeat (apply elem_of_cons in Hr as [-> | Hr]; [reflexivity|]). by apply not_elem_of_nil in Hr.
  - apply (proj1 (proj2 (proj2 (H "c1" (Wrap (Some (ErrOpaque "docker")) "list docker containers") eq_refl eq_refl)))); reflexivity.
  - apply (proj2 (proj2 (proj2 (H "c1" (ErrOpaque "docker") eq_refl eq_refl)))); [reflexivity|]. intros msg [= <-]. reflexivity.
Defined.

Lemma default_setup_witness :
  exists config os, Config.init (fun _ => 0) true (map_to_list Config.ENV) ∅ = Ok (config, os) /\
    setup (fun _ _ => Ok tt) config 0 0 = Ok (Filters.mkSmoothing 5 (5 * Second) 6 false [] 0 0, tt).
Proof.
  destruct (default_setup (fun _ => 0) true (map_to_list Config.ENV) 0 0 (fun _ _ => Ok tt) tt)
    as (config & os & H1 & H2 & _); [reflexivity | reflexivity |].
  exists config, os. split; [exact H1 | exact H2].
Defined.

End Main.
