(* ===== verification/Program.v ===== *)
(** * The whole program

    [main] starts the repository of containers, the two monitors, the filter of the
    queue length and the refresher of the mount tables, and serves requests from what
    they hold.  Here they run together: a state has all of them, a step is one of any
    of them, and a handler looks at them at moments of a run.  What the client gets
    is then proved of every run, with no assumption on the state of the server. *)
From S2P Require Import Prelude GoStrings GoFloat GoTime GoScan JsonString NumberText Rounding Config ProcfsUtils Cgroup Meminfo CpuStat.
From S2P Require Import LoadAvg MountInfo Json JsonText Client Filters Smoothing Docker Resources CpuMonitor NetMonitor.
From S2P Require Import Monitoring Webserver Typed GoUrl Base64 Server Main.
From Stdlib Require Import QArith.
#[local] Open Scope Z_scope.

Module Program.
Import Server.

(** ** The state and its steps *)

Record state : Type := mkState {
  monitors : Monitoring.state;           (* containerRepository, cpuMonitor, netMonitor *)
  queueLoop : Filters.loop float64;      (* queueLength and its goroutine *)
  mountReader : readerConfig;            (* mountInfos, the paths *)
  mountTables : mountState               (* mountInfos, the maps *) }.

(** The goroutines that [main] starts. *)
Definition start {A} (client : outcome A) (cpus : Z)
    (made : Filters.t float64 * (readerConfig * mountState)) : state :=
  let '(queueLength, (reader, tables)) := made in
  mkState (Monitoring.start client cpus) (Filters.startLoop queueLength) reader tables.

Inductive label : Type :=
| Monitor (l : Monitoring.label)
| Sample (it : Filters.iteration float64)                                  (* queueLength.Start *)
| Refreshed (os : OS) (infos : outcome (list mountEntry))                  (* mountInfos.Start *).

(** A panic in a goroutine ends the program; an error of a refresh is only logged. *)
Definition step (l : label) (s : state) : option (outcome state) :=
  match l with
  | Monitor l =>
      option_map (fun o => let! m := o in Ok (mkState m (queueLoop s) (mountReader s) (mountTables s)))
        (Monitoring.step l (monitors s))
  | Sample it =>
      Some (let! q := Filters.iterate it (queueLoop s) in
            Ok (mkState (monitors s) q (mountReader s) (mountTables s)))
  | Refreshed os infos =>
      let reader := mkReaderConfig infos (sysDevBlock (mountReader s)) (dev (mountReader s)) (devMapper (mountReader s)) in
      Some (match @Refresh os reader (mountTables s) with
            | (_, Panic m) => Panic m
            | (tables, _) => Ok (mkState (monitors s) (queueLoop s) (mountReader s) tables)
            end)
  end.

(** What a step may take from the operating system: samples in the range of their
    type, some /proc/loadavg, names in UTF-8. *)
Definition typedLabel (l : label) : Prop :=
  match l with
  | Monitor l => Typed.typedLabel l
  | Sample it => exists (fs : FS) exotic_float, Filters.reading it = @LoadAvgMetric fs exotic_float
  | Refreshed os infos => Typed.typedOS os /\ Typed.typedInfos infos
  end.

Section Runs.
Variable config : Config.t.
Variable cpus : Z.
(** prometheus/procfs, and the process identifier. *)
Context {procfs : Type}.
Variable NewFS : string -> outcome procfs.
Variable GetProcMounts : procfs -> Z -> outcome (list mountEntry).
Variable Getpid : Z.

(** [runs n s]: [s] is reached by [n] steps after some successful start-up. *)
Inductive runs : nat -> state -> Prop :=
| runs_start {A} (client : outcome A) now1 now2 made :
    Main.setup (NewMountInfoReader procfs NewFS GetProcMounts Getpid) config now1 now2 = Ok made ->
    runs 0 (start client cpus made)
| runs_step n l s t : runs n s -> step l s = Some (Ok t) -> typedLabel l -> runs (S n) t.

End Runs.

(** ** What the handlers see

    Each container is looked at in a state of the run, the host in another. *)
Section Controllers.
Context {lib : CgroupLib}.
Variable exp : float64 -> float64.
Variable config : Config.t.

Definition controllerAt {fs : FS} (at_ : string -> state) (host : state) : Webserver.Controller :=
  Webserver.mkController
    {| GetStats := fun id => @GetStatsImpl lib (MountInfosOf (mountTables (at_ id))) config id |}
    (fun id => CpuMonitor.monitor (Monitoring.cpu (monitors (at_ id))))
    (CpuMonitor.monitor (Monitoring.cpu (monitors host)))
    (fun id => NetMonitor.monitor (Monitoring.net (monitors (at_ id))))
    {| ReadMetric := Filters.Read exp (Filters.filter (queueLoop host)) |}
    Meminfo.Read.

(** What is documented of the libraries: the ranges of containerd's metrics, and that
    they are filled in; that the exponential of a negative integer is between 0 and 1. *)
Record documented : Prop := {
  doc_typed : Typed.typedLib lib;
  doc_complete : completeLib lib;
  doc_exp : forall k, 0 < k -> Rounding.nonneg (exp (of_int (- k))) /\ (fvalue (exp (of_int (- k))) <= 1)%Q }.

End Controllers.
Arguments documented : clear implicits.

(** ** Invariant *)

Record Inv (config : Config.t) (cpus : Z) (n : nat) (s : state) : Prop := {
  inv_monitors : Typed.typedState cpus (monitors s);
  inv_queue : Smoothing.sane n (queueLoop s);
  inv_window : Filters.queueLength (Filters.filter (queueLoop s)) = Config.QueueLengthElementsNeeded config;
  inv_positive : 0 < Config.QueueLengthElementsNeeded config;
  inv_length : Z.of_nat (length (Filters.queue (Filters.filter (queueLoop s)))) <= Config.QueueLengthElementsNeeded config;
  inv_tables : Typed.typedTables (mountTables s);
  inv_reader : Typed.typedReader (mountReader s) }.

Lemma setup_made {M} (new : string -> Z -> outcome M) config now1 now2 q m :
  Main.setup new config now1 now2 = Ok (q, m) ->
  Filters.queue q = [] /\ Filters.queueLength q = Config.QueueLengthElementsNeeded config /\
  0 < Config.QueueLengthElementsNeeded config /\
  exists pid, new (mapget "" (Config.env config) "PROC_DIR") pid = Ok m.
Proof.
  unfold Main.setup. intros H. apply obind_ok in H as (q' & Hq & H). apply obind_ok in H as (pid & _ & H).
  apply obind_ok in H as (m' & Hm & H). inv_ok.
  assert (forall A (o : outcome A) a, Main.fatal o = Ok a -> o = Ok a) as Hfatal by (by intros A []).
  unfold Main.newQueueLength in Hq. apply Hfatal in Hq, Hm.
  unfold Filters.NewExponentialSmoothing in Hq. cbn -[Z.leb] in Hq.
  destruct (Z.leb_spec (Config.QueueLengthElementsNeeded config) 0); [done|].
  destruct (_ <=? 0); [done|]. destruct (_ <=? _); [done|]. inv_ok. cbn. by eauto.
Qed.

Lemma program_start {A procfs} NewFS GetProcMounts Getpid config cpus (client : outcome A) now1 now2 made :
  Main.setup (NewMountInfoReader procfs NewFS GetProcMounts Getpid) config now1 now2 = Ok made ->
  Inv config cpus 0 (start client cpus made).
Proof.
  destruct made as [q [reader tables]]. intros H. apply setup_made in H as (Hq & Hl & Hpos & pid & Hm).
  unfold NewMountInfoReader in Hm. apply obind_ok in Hm as (fs & _ & Hm). inv_ok.
  split; cbn [start monitors queueLoop mountTables Filters.startLoop Filters.filter]; try done.
  - split; cbn [Filters.startLoop Filters.filter Filters.values]; [by rewrite Hq|]. exists []. by repeat split.
  - rewrite Hq. cbn. lia.
Qed.

Lemma program_step config cpus n l s t :
  Z.of_nat n < 2 ^ 52 -> step l s = Some (Ok t) -> typedLabel l -> Inv config cpus n s -> Inv config cpus (S n) t.
Proof.
  intros Hn Hst Hl [I1 I2 I3 I4 I5 I6 I7].
  assert (Smoothing.sane (S n) (queueLoop s)) as I2'.
  { destruct I2 as [Hq (ks & Hv & Hks & Hlen)]. split; [done|]. exists ks. repeat split; (done || lia). }
  destruct l as [l|it|os infos]; cbn [step] in Hst.
  - destruct (Monitoring.step l (monitors s)) as [[m| |]|] eqn:E; simplify_eq/=.
    split; cbn [monitors queueLoop mountTables]; try done. by eapply Typed.typedState_step.
  - destruct (Filters.iterate it (queueLoop s)) as [q| |] eqn:E; simplify_eq/=.
    assert (0 < Filters.queueLength (Filters.filter (queueLoop s))) as Hpos by lia.
    destruct (Filters.handle_config (Filters.Iterate it) _ _ E) as (Hq & _).
    pose proof (Filters.handle_length (Filters.Iterate it) _ _ Hpos E ltac:(lia)) as Hlen.
    split; cbn [monitors queueLoop mountTables]; try done; [|lia|lia].
    eapply Smoothing.sane_iterate; [done| |exact I2|exact E].
    destruct Hl as (fs & ex & Hr). intros x Hx. rewrite Hr in Hx. by eapply LoadAvgMetric_reading.
  - destruct Hl as [Hos Hinfos].
    pose proof (Typed.Refresh_typed (mkReaderConfig infos (sysDevBlock (mountReader s)) (dev (mountReader s)) (devMapper (mountReader s)))
      Hos I7 (mountTables s) Hinfos I6) as Ht.
    destruct (Refresh _ _) as [tables [[]|e|m]]; simplify_eq/=; by split.
Qed.

Lemma runs_Inv {procfs} NewFS GetProcMounts Getpid config cpus n s :
  @runs config cpus procfs NewFS GetProcMounts Getpid n s -> Z.of_nat n <= 2 ^ 52 -> Inv config cpus n s.
Proof.
  induction 1 as [A client now1 now2 made H|n l s t _ IH Hst Hl]; intros Hn; [by eapply program_start|].
  eapply program_step; [lia|done|done|]. apply IH. lia.
Qed.

(** ** The controller of a run is well formed *)

Lemma GetHostUsage_valid m u : CpuMonitor.GetHostUsage m = Ok u -> isFloat64 (Client.hUsage u) = true.
Proof.
  unfold CpuMonitor.GetHostUsage.
  destruct (CpuMonitor.previousHostUsage m) as [p|]; [|intros [= <-]; reflexivity].
  destruct (CpuMonitor.currentHostUsage m) as [s|]; [|intros [= <-]; reflexivity]. cbv zeta.
  assert (forall a b, isFloat64 (fdiv (fsub (of_int a) (of_int b)) (of_int a)) = true) as H.
  { intros a b. apply fdiv_valid; [apply fsub_valid|]; apply of_int_valid. }
  assert (forall a b : Client.HostCpuUsage, Ok a = Ok b -> b = a) as Hinj by (by intros a b [= ->]).
  destruct (_ || _); intros ->%Hinj; [reflexivity|]. apply H.
Qed.

(** Two samples of the host with the same sum, where the idle time did not go back:
    the share of the idle time is then 0 / 0 or worse. *)
Definition equalSamples (m : CpuMonitor.t) : bool :=
  match CpuMonitor.previousHostUsage m, CpuMonitor.currentHostUsage m with
  | Some p, Some s => (subi (Sum s) (Sum p) =? 0) && (0 <=? subi (IDLE s) (IDLE p))
  | _, _ => false
  end.

(** The usage of the host is a number in every other case, whatever the counters did. *)
Lemma GetHostUsage_finite m u : CpuMonitor.GetHostUsage m = Ok u -> is_finite (Client.hUsage u) = negb (equalSamples m).
Proof.
  unfold CpuMonitor.GetHostUsage, equalSamples.
  destruct (CpuMonitor.previousHostUsage m) as [p|]; [|by intros [= <-]].
  destruct (CpuMonitor.currentHostUsage m) as [s|]; [|by intros [= <-]]. cbv zeta.
  assert (is_i64 (subi (Sum s) (Sum p))) as Hs by apply i64_range.
  assert (is_i64 (subi (IDLE s) (IDLE p))) as Hi by apply i64_range.
  revert Hs Hi. generalize (subi (Sum s) (Sum p)) (subi (IDLE s) (IDLE p)). intros sum idle Hs Hi.
  rewrite !of_int_lt_zero by done. unfold is_i64 in Hs, Hi.
  assert (forall a b : Client.HostCpuUsage, Ok a = Ok b -> b = a) as Hinj by (by intros a b [= ->]).
  destruct (Z.ltb_spec idle 0); cbn [orb]; [intros ->%Hinj; rewrite (proj2 (Z.leb_gt 0 idle)), andb_false_r by lia; done|].
  rewrite (proj2 (Z.leb_le 0 idle)), andb_true_r by lia.
  destruct (Z.ltb_spec sum 0); intros ->%Hinj; [by rewrite (proj2 (Z.eqb_neq _ _)) by lia|]. cbn [Client.hUsage].
  destruct (Z.eqb_spec sum 0) as [->|Hne]; [|by apply fdiv_difference_finite; lia].
  destruct (of_int_size idle ltac:(lia)) as ([_ Hn] & _). change (of_int 0) with fzero.
  destruct (of_int idle) as [z| | |z e f]; try done; by subst.
Qed.

Section Served.
Context {lib : CgroupLib} {fs : FS} {procfs : Type}.
Variable exp : float64 -> float64.
Variable config : Config.t.
Variable cpus : Z.
Variable NewFS : string -> outcome procfs.
Variable GetProcMounts : procfs -> Z -> outcome (list mountEntry).
Variable Getpid : Z.

(** The states that the handlers look at; [2 ^ 52] steps of a microsecond take more
    than a century. *)
Definition reached (s : state) : Prop :=
  exists n, Z.of_nat n <= 2 ^ 52 /\ runs config cpus NewFS GetProcMounts Getpid n s.

Variable at_ : string -> state.
Variable host : state.
Hypothesis Hdoc : documented lib exp.
Hypothesis Hcpus : is_i64 cpus.
Hypothesis Hwindow : Config.QueueLengthElementsNeeded config <= 2 ^ 40.
Hypothesis Hat : forall id, reached (at_ id).
Hypothesis Hhost : reached host.

Let c : Webserver.Controller := controllerAt (lib := lib) exp config at_ host.

Lemma reached_Inv s : reached s -> exists n, Inv config cpus n s.
Proof. intros (n & Hn & Hr). exists n. by eapply runs_Inv. Qed.

Lemma controllerAt_wf : Webserver.wfController c.
Proof.
  split; [|split; [|split]].
  - intros id st. destruct (reached_Inv _ (Hat id)) as [n I].
    apply (Typed.GetStats_wf (doc_typed _ Hdoc) (Typed.typedTables_mounts _ (inv_tables _ _ _ _ I))).
  - intros id. destruct (reached_Inv _ (Hat id)) as [n I]. apply Typed.statAt_typed, (inv_monitors _ _ _ _ I).
  - intros m f. apply Typed.meminfo_range.
  - destruct (reached_Inv _ Hhost) as [n I]. cbn. by rewrite (proj1 (inv_monitors _ _ _ _ I)).
Qed.

Lemma controllerAt_stats id p : @GetStats (Webserver.resources c) id <> Panic p.
Proof. apply GetStats_no_panic, Hdoc. Qed.

(** The queue length that a handler gets, 0 until there are enough metrics. *)
Lemma queueLength_cases :
  (@ReadMetric (Webserver.queue c) = Err ErrNotEnoughMetrics /\ Webserver.queueLength c = Ok fzero) \/
  exists q, @ReadMetric (Webserver.queue c) = Ok q /\ Webserver.queueLength c = Ok q /\ isFloat64 q = true /\ is_finite q = true.
Proof.
  destruct (reached_Inv _ Hhost) as [n [_ Is Iw Ip Il _ _]].
  pose proof (fun x => Smoothing.sane_Read n exp (queueLoop host) x Is ltac:(lia) ltac:(lia) (doc_exp _ Hdoc)) as Hread.
  unfold Webserver.queueLength. cbn [c controllerAt Webserver.queue ReadMetric].
  destruct (Filters.Read exp (Filters.filter (queueLoop host))) as [q|e|m] eqn:E.
  - right. exists q. destruct (Hread q eq_refl) as [Hv Hf]. repeat split; [done|]. by apply nonneg_finite.
  - left. unfold Filters.Read in E. destruct (Z.ltb_spec (Z.of_nat (length (Filters.queue (Filters.filter (queueLoop host))))) (Filters.queueLength (Filters.filter (queueLoop host)))); [by inv_ok|].
    by rewrite Filters.exponentialSmoothing_all in E by lia.
  - unfold Filters.Read in E. destruct (Z.ltb_spec (Z.of_nat (length (Filters.queue (Filters.filter (queueLoop host))))) (Filters.queueLength (Filters.filter (queueLoop host)))); [done|].
    by rewrite Filters.exponentialSmoothing_all in E by lia.
Qed.

(** ** What the client gets *)

Variable oob : float64 -> Z.
Variable cuts : nat -> bool.
Variable doProfile : bool.
Variable pprofHandler : string -> serverRequest -> reply.
Variable stack : string.
Variable containers : outcome (list Summary).
Variable cl : Client.t.
Hypothesis Hadmitted : Main.admitted config cl.

Let transport := Main.deliver 9 (Client.Endpoint cl) (serve oob cuts config doProfile pprofHandler stack containers c).

(** C1. End to end, from text to text, for every run of the whole program and every
    label: the [HostUsage] method of the client returns the CPU usage the monitor
    answers, the smoothed queue length (0 until there are enough samples), the host's
    memory in MiB and the 64-bit sums over exactly the containers that carry the label
    that the server receives.  That is what the server decodes of a query in which the
    client put the label without escaping it: the label itself when its characters need
    no escape.  Nothing is assumed of the state of the server: the queue length is
    always a finite float.  The client gets an error when no request can be made of the
    label; when the last two samples of the host have the same sum and the idle time did
    not go back; and when /proc/meminfo or the list of the containers fails with an
    error whose message cannot be read, or panics with a text that is no document.  When
    they fail with an error whose message can be read, it gets an empty usage without an
    error. *)
Theorem host_usage_served (label : string) :
  let answer := Client.HostUsageReq ParseURL transport cl label in
  let received := Main.receivedLabel label in
  let failed e :=
    match errorString e with Ok _ => answer = Ok (Some Client.zeroHostUsage) | _ => is_err answer = true end in
  let crashed p := is_ok (parse (p +:+ eol)) = false -> is_err answer = true in
  (safe label = true -> Main.sendable label = true /\ received = label) /\
  if Main.sendable label then
    match Meminfo.Read, containers with
    | Ok m, Ok cs =>
        exists u q, CpuMonitor.GetHostUsage (CpuMonitor.monitor (Monitoring.cpu (monitors host))) = Ok u /\
          (Filters.Read exp (Filters.filter (queueLoop host)) = Ok q \/
           Filters.Read exp (Filters.filter (queueLoop host)) = Err ErrNotEnoughMetrics /\ q = fzero) /\
          is_finite q = true /\
          if equalSamples (CpuMonitor.monitor (Monitoring.cpu (monitors host))) then is_err answer = true
          else answer = Ok (Some (Client.mkHostUsage (Client.mkHostCpuUsage (Client.hUsage u) (Client.hAmount u) q)
                         (Webserver.specHostMemory m (Webserver.counted c received cs))))
    | Err e, _ | Ok _, Err e => failed e
    | Panic p, _ | Ok _, Panic p => crashed p
    end
  else is_err answer = true.
Proof.
  intros answer received failed crashed. split; [intros Hl; by destruct (Main.safe_labelQuery label Hl) as (_ & H1 & H2)|].
  pose proof (Main.host_request oob cuts config doProfile pprofHandler stack containers c cl label Hadmitted) as Hreq.
  cbv zeta in Hreq. fold transport in Hreq. fold answer in Hreq. fold received in Hreq.
  destruct (Main.sendable label) eqn:Hsend; [|exact Hreq].
  destruct (Main.client_host_usage oob cuts config doProfile pprofHandler stack containers c cl Hadmitted label Hsend
    controllerAt_wf controllerAt_stats) as (Hok & Herr & Hpanic).
  fold transport in Hok, Herr, Hpanic. fold answer in Hok, Herr, Hpanic. fold received in Hok, Herr, Hpanic.
  destruct (CpuMonitor.GetHostUsage_total (CpuMonitor.monitor (Monitoring.cpu (monitors host)))) as [u Hu].
  assert (exists q, Webserver.queueLength c = Ok q /\ isFloat64 q = true /\ is_finite q = true /\
    (Filters.Read exp (Filters.filter (queueLoop host)) = Ok q \/
     Filters.Read exp (Filters.filter (queueLoop host)) = Err ErrNotEnoughMetrics /\ q = fzero)) as (q & Hq & Vq & Fq & Hcase).
  { destruct queueLength_cases as [[H1 H2]|(q & H1 & H2 & H3 & H4)]; [exists fzero|exists q]; split_and!; by auto. }
  assert (Webserver.HostResourcesHandler containers c received =
    let! m := wrapMsg "get host memory usage" (@Meminfo.Read fs) in
    let! cs := wrapMsg "list docker containers" containers in
    Ok (Webserver.writeJSON 200 (Client.encHostUsage (Client.mkHostUsage
          (Client.mkHostCpuUsage (Client.hUsage u) (Client.hAmount u) q)
          (Webserver.specHostMemory m (Webserver.counted c received cs)))))) as Hhandler.
  { destruct (@Meminfo.Read fs) as [m|e|p] eqn:Hm, containers as [cs|e'|p'] eqn:Hcs.
    1: by apply Webserver.HostResourcesHandler_ok; try done; apply controllerAt_stats.
    all: unfold Webserver.HostResourcesHandler; cbn [c controllerAt Webserver.hostCpu Webserver.procfsMemory];
      rewrite Hu; cbn [wrapMsg wrap obind]; rewrite Hq; cbn [obind]; by rewrite Hm. }
  assert (forall e message, Webserver.HostResourcesHandler containers c received = Err (Wrap (Some e) message) -> failed e) as Hfailed.
  { intros e message H. pose proof (Herr _ H) as He. unfold failed. cbn [Wrap errorString] in He. by destruct (errorString e). }
  destruct (@Meminfo.Read fs) as [m|e|p] eqn:Hm, containers as [cs|e'|p'] eqn:Hcs; cbn [wrapMsg wrap obind] in Hhandler;
    try (by eapply Hfailed); try (by intros Hp; eapply Hpanic).
  exists u, q. do 3 (split; [done|]). pose proof (GetHostUsage_valid _ _ Hu) as Vu. pose proof (GetHostUsage_finite _ _ Hu) as Fu.
  destruct (equalSamples _); cbn [negb] in Fu; [|by eapply Hok].
  rewrite Hreq, Hhandler.
  set (h := Client.mkHostUsage _ _). pose proof (Client.encHostUsage_ok h) as Hn.
  change (Client.hUsage (Client.hCPU h)) with (Client.hUsage u) in Hn. rewrite Fu in Hn. cbn [andb] in Hn.
  unfold Main.clientSees. cbn [errorMiddleware body Webserver.writeJSON Client.resBody].
  by destruct (Client.encHostUsage h).
Qed.

(** C28. End to end, for every run of the whole program: [AllContainersUsage] returns
    one entry for each listed container whose statistics can be read, which is what
    the monitors and the mount tables of the run say of it, and no other entry; and an
    error when the containers cannot be listed. *)
Theorem all_usage_served :
  match containers with
  | Ok cs => NoDup (map ID cs) -> Webserver.validContainers cs -> exists m : Client.ContainersUsage,
      Client.AllContainersUsage ParseURL transport cl = Ok (Some m) /\
      (forall s, s ∈ cs -> m !! ID s = Webserver.specUsage oob (Config.RefreshTime config) c (ID s) (Labels s)) /\
      (forall id, is_Some (m !! id) <->
         exists s st, s ∈ cs /\ id = ID s /\
           @GetStatsImpl lib (MountInfosOf (mountTables (at_ id))) config id = Ok st)
  | Err e => forall msg, errorString e = Ok msg -> ValidString msg = true ->
      is_err (Client.AllContainersUsage ParseURL transport cl) = true
  | Panic p => is_ok (parse (p +:+ eol)) = false -> is_ok (Client.AllContainersUsage ParseURL transport cl) = false
  end.
Proof.
  pose proof (Main.client_all_usage oob cuts config doProfile pprofHandler stack containers c cl Hadmitted
    controllerAt_wf controllerAt_stats) as H. fold transport in H.
  destruct containers as [cs|e|p]; [|exact H..]. intros Hnd Hv. destruct (H Hnd Hv) as (m & H1 & H2 & H3).
  exists m. split; [done|]. split; [done|]. intros id.
  assert (forall s, is_Some (Webserver.specUsage oob (Config.RefreshTime config) c (ID s) (Labels s)) <->
            exists st, @GetStatsImpl lib (MountInfosOf (mountTables (at_ (ID s)))) config (ID s) = Ok st) as Hspec.
  { intros s. unfold Webserver.specUsage, Resources.GetUsage, NetMonitor.GetUsage.
    destruct (Webserver.GetContainerUsage_ok oob (ID s) (Webserver.cpu c (ID s))) as [u ->].
    change (@GetStats (Webserver.resources c) (ID s)) with (@GetStatsImpl lib (MountInfosOf (mountTables (at_ (ID s)))) config (ID s)).
    destruct (GetStatsImpl config (ID s)) as [st|e|p]; cbn [wrapMsg wrap obind]; (split; [intros [? ?]|intros [? ?]]); by eauto. }
  destruct (decide (id ∈ map ID cs)) as [Hin|Hin].
  - apply list_elem_of_fmap in Hin as (s & -> & Hs). rewrite (H2 s Hs), (Hspec s).
    split; [intros [st Hst]; by exists s, st|]. intros (s' & st & _ & _ & Hst). by exists st.
  - rewrite (H3 id Hin). split; [by intros []|]. intros (s & st & Hs & -> & _). exfalso. apply Hin. by apply list_elem_of_fmap_2.
Qed.

(** C29. End to end for one container, for every run of the whole program: [Usage]
    returns what the handler says of it, its [net] argument makes no difference, and a
    container whose statistics cannot be read gives an empty usage without an error. *)
Theorem usage_served (id : string) (net : bool) :
  safe id = true -> Contains id "/" = false -> id <> "" -> id <> "." -> id <> ".." ->
  Client.UsageReq ParseURL transport cl id net = Client.UsageReq ParseURL transport cl id (negb net) /\
  match @GetStatsImpl lib (MountInfosOf (mountTables (at_ id))) config id with
  | Ok _ => exists u, Webserver.specUsage oob (Config.RefreshTime config) c id ∅ = Some u /\
      Client.UsageReq ParseURL transport cl id net = Ok (Some u)
  | Err e => forall msg, errorString e = Ok msg ->
      Client.UsageReq ParseURL transport cl id net = Ok (Some Client.zeroUsage)
  | Panic _ => False
  end.
Proof.
  intros H1 H2 H3 H4 H5.
  destruct (Main.client_usage oob cuts config doProfile pprofHandler stack containers c cl Hadmitted id net
    H1 H2 H3 H4 H5 controllerAt_wf) as [Hnet H]. split; [exact Hnet|].
  pose proof (controllerAt_stats id) as Hnp. cbn [c controllerAt Webserver.resources GetStats] in H, Hnp.
  destruct (GetStatsImpl config id) as [st|e|p]; [exact H|exact H|by destruct (Hnp p)].
Qed.

(** C20. End to end, what the figures of a container are: for every run of the whole
    program, once its cgroup is loaded and its metrics are read, the [Usage] method of
    the client returns the memory of those metrics (without maxima for cgroup v2, with
    the swap less the memory for v1), the counters of each of their devices named after
    the tables of mounts of the run, and the CPU and network usages of the monitors. *)
Theorem container_figures_served (id : string) (net : bool) (h : Cgroup.handle) :
  safe id = true -> Contains id "/" = false -> id <> "" -> id <> "." -> id <> ".." ->
  Cgroup.load (requestOf config id) = Ok h ->
  let tables := mountTables (at_ id) in
  let mounts := {| DevicePath := fun major minor => default "" (devices tables !! deviceKey major minor);
                   Mountpoint := fun major minor => default "" (mountInfos tables !! deviceKey major minor) |} in
  let served (payload : Resources.Usage) :=
    exists cpu n,
      CpuMonitor.GetContainerUsage oob id (CpuMonitor.monitor (Monitoring.cpu (monitors (at_ id)))) = Ok cpu /\
      NetMonitor.GetUsage oob (Config.RefreshTime config) id (NetMonitor.monitor (Monitoring.net (monitors (at_ id)))) = Ok n /\
      Client.UsageReq ParseURL transport cl id net =
        Ok (Some (Client.mkUsage (Some (Resources.Memory payload)) (Some cpu) (Some (Resources.IO payload)) (Some n) ∅)) in
  if Config.IsUsingCgroupV2 config then
    forall m, statV2 h = Ok m -> exists mem, v2Memory m = Some mem /\ served (@Resources.payloadV2 mounts mem (v2Io m))
  else forall m, statV1 h = Ok m -> served (@Resources.payloadV1 mounts m).
Proof.
  intros H1 H2 H3 H4 H5 Hl tables mounts served.
  assert (forall st payload, @GetStatsImpl lib mounts config id = Ok st ->
    Resources.mkUsage (Resources.memoryUsageFromStats st) (Resources.ioUsageFromStats st) = payload -> served payload) as Hserved.
  { intros st payload Hst <-. unfold served.
    destruct (Webserver.GetContainerUsage_ok oob id (CpuMonitor.monitor (Monitoring.cpu (monitors (at_ id))))) as [u Hu].
    eexists u, _. split; [done|]. split; [reflexivity|].
    destruct (Main.client_usage oob cuts config doProfile pprofHandler stack containers c cl Hadmitted id net
      H1 H2 H3 H4 H5 controllerAt_wf) as [_ H]. fold transport in H. cbn [c controllerAt Webserver.resources GetStats] in H.
    change (MountInfosOf (mountTables (at_ id))) with mounts in H. rewrite Hst in H. destruct H as (v & Hv & ->).
    unfold Webserver.specUsage, Resources.GetUsage, NetMonitor.GetUsage in Hv.
    cbn [c controllerAt Webserver.cpu Webserver.resources Webserver.net GetStats] in Hv. rewrite Hu in Hv.
    change (MountInfosOf (mountTables (at_ id))) with mounts in Hv. rewrite Hst in Hv. cbn [wrapMsg wrap obind] in Hv.
    by injection Hv as <-. }
  pose proof (@GetStatsImpl_loaded lib mounts config id h Hl) as Hst. destruct (Config.IsUsingCgroupV2 config); intros m Hm.
  - pose proof (complete_v2 _ (doc_complete _ Hdoc) h) as Hc. rewrite Hm in Hc. destruct Hc as [[usec Hus] [mem Hmem]].
    exists mem. split; [done|]. destruct (@cgroupV2Stats_reports mounts m usec mem Hus Hmem) as (st & Hok & Hr).
    rewrite Hm in Hst. cbn [wrapMsg wrap obind] in Hst. rewrite Hok in Hst.
    eapply Hserved; [exact Hst|]. by eapply Resources.payload_reportsV2.
  - destruct (Typed.typedV1_entries m (Typed.typed_v1 _ (doc_typed _ Hdoc) h m Hm)) as [Hmu Hms].
    destruct (@cgroupV1Stats_reports mounts m Hmu Hms) as (st & Hok & Hr).
    rewrite Hm in Hst. cbn [wrapMsg wrap obind] in Hst. rewrite Hok in Hst.
    eapply Hserved; [exact Hst|]. by apply Resources.payload_reportsV1.
Qed.

End Served.

(** ** Witnesses

    A run with two samples of the host, one of the queue and a refresh of the mounts. *)

Definition exampleConfig : Config.t := Server.exampleConfig "bob" "secret".

Definition exampleExp (x : float64) : float64 := GoFloat.of_decimal 25 (-4).

Lemma example_documented : documented Typed.exampleLib exampleExp.
Proof.
  split; [apply Typed.exampleLib_typed| |].
  - split; [discriminate|discriminate|]. intros h. cbn. split; eauto.
  - intros k _. split; [split; reflexivity|]. vm_compute. discriminate.
Qed.

Definition exampleRuns : nat -> state -> Prop :=
  runs exampleConfig 4 (procfs := unit) (fun _ => Ok tt) (fun _ _ => Ok []) 1.

Definition exampleMade : Filters.t float64 * (readerConfig * mountState) :=
  (Filters.mkSmoothing 5 (5 * Second) 6 false [] 0 0,
   (mkReaderConfig (Ok []) "/sys/dev/block" "/dev" "/dev/mapper", emptyMountState)).

Definition exampleLoadavg : FS := {| Open := fun _ => Ok (mkFile ("0.25 0.50 0.75 2/345 6789" +:+ eol) None) |}.

Definition noExotic (s : string) : outcome (float64 * string) := scanErr "invalid syntax".

Definition exampleSample : Filters.iteration float64 :=
  Filters.mkIteration 1 1 (@LoadAvgMetric exampleLoadavg noExotic) 1 1.

(** The state after some steps. *)
Fixpoint exec (ls : list label) (s : state) : option state :=
  match ls with
  | [] => Some s
  | l :: ls' => match step l s with Some (Ok t) => exec ls' t | _ => None end
  end.

Lemma runs_exec {procfs} config cpus NewFS GetProcMounts Getpid ls n s t :
  @runs config cpus procfs NewFS GetProcMounts Getpid n s -> (forall l, l ∈ ls -> typedLabel l) -> exec ls s = Some t ->
  @runs config cpus procfs NewFS GetProcMounts Getpid (length ls + n) t.
Proof.
  revert n s. induction ls as [|l ls IH]; intros n s Hr Hl He; cbn [exec] in He; [by simplify_eq|].
  destruct (step l s) as [[u| |]|] eqn:Hst; try done. cbn [length]. rewrite Nat.add_succ_comm.
  apply (IH (S n) u); [|intros l' Hin; apply Hl; by right|done].
  eapply runs_step; [done|done|]. apply Hl. by left.
Qed.

Definition exampleSteps : list label :=
  [Monitor (Monitoring.CpuAct (CpuMonitor.HostTick (CpuMonitor.exampleCPU 30 70)));
   Monitor (Monitoring.CpuAct (CpuMonitor.HostTick (CpuMonitor.exampleCPU 60 140)));
   Sample exampleSample;
   Refreshed exampleOS (Ok [mkMountEntry "8:1" "/srv"])].

Definition exampleStart : state := start (Ok tt) 4 exampleMade.

Definition exampleState : state := default exampleStart (exec exampleSteps exampleStart).

Lemma exampleState_reached : reached exampleConfig 4 (procfs := unit) (fun _ => Ok tt) (fun _ _ => Ok []) 1 exampleState.
Proof.
  exists 4%nat. split; [done|]. apply (runs_exec _ _ _ _ _ exampleSteps 0 exampleStart).
  - apply runs_start with (now1 := 0) (now2 := 0). vm_compute. reflexivity.
  - intros l Hin. unfold exampleSteps in Hin. repeat (apply elem_of_cons in Hin as [->|Hin]); [exact I|exact I| | |].
    + by exists exampleLoadavg, noExotic.
    + split; [exact Typed.exampleOS_typed|]. intros infos [= <-]. by repeat constructor.
    + by apply not_elem_of_nil in Hin.
  - vm_compute. reflexivity.
Qed.

Definition exampleController : Webserver.Controller :=
  @controllerAt Typed.exampleLib exampleExp exampleConfig Typed.exampleFS (fun _ => exampleState) exampleState.

Definition exampleTransport (containers : outcome (list Summary)) : Client.request -> outcome Client.response :=
  Main.deliver 9 "http://host:4244"
    (serve (fun _ => 0) (fun _ => false) exampleConfig false examplePprof "" containers exampleController).

Lemma example_i64 : is_i64 4.
Proof. split; [discriminate|reflexivity]. Qed.

Lemma host_usage_served_witness :
  exists u q, CpuMonitor.GetHostUsage (CpuMonitor.monitor (Monitoring.cpu (monitors exampleState))) = Ok u /\
    Client.HostUsageReq ParseURL (exampleTransport (Ok Webserver.exampleContainers)) Main.exampleClient "app" =
      Ok (Some (Client.mkHostUsage (Client.mkHostCpuUsage (Client.hUsage u) (Client.hAmount u) q)
        (Webserver.specHostMemory (Meminfo.FillStruct (<["MemTotal" := 8192]> ∅))
           (Webserver.counted exampleController "app" Webserver.exampleContainers)))).
Proof.
  destruct (host_usage_served (lib := Typed.exampleLib) (fs := Typed.exampleFS) exampleExp exampleConfig 4
    (fun _ => Ok tt) (fun _ _ => Ok []) 1 (fun _ => exampleState) exampleState example_documented example_i64
    ltac:(vm_compute; discriminate) (fun _ => exampleState_reached) exampleState_reached
    (fun _ => 0) (fun _ => false) false examplePprof "" (Ok Webserver.exampleContainers) Main.exampleClient
    Main.example_admitted "app") as (_ & u & q & Hu & _ & H).
  exists u, q. split; [exact Hu|].
  assert (equalSamples (CpuMonitor.monitor (Monitoring.cpu (monitors exampleState))) = false) as E by (vm_compute; reflexivity).
  rewrite E in H. exact (proj2 H).
Defined.

Lemma all_usage_served_witness :
  exists m : Client.ContainersUsage,
    Client.AllContainersUsage ParseURL (exampleTransport (Ok Webserver.exampleContainers)) Main.exampleClient = Ok (Some m) /\
    is_Some (m !! "a") /\ ~ is_Some (m !! "z").
Proof.
  destruct (all_usage_served (lib := Typed.exampleLib) (fs := Typed.exampleFS) exampleExp exampleConfig 4
    (fun _ => Ok tt) (fun _ _ => Ok []) 1 (fun _ => exampleState) exampleState example_documented example_i64
    (fun _ => exampleState_reached) exampleState_reached
    (fun _ => 0) (fun _ => false) false examplePprof "" (Ok Webserver.exampleContainers) Main.exampleClient
    Main.example_admitted) as (m & H1 & _ & H2).
  - exact (bool_decide_unpack _ (I : bool_decide (NoDup ["a"; "b"]))).
  - constructor; [|constructor; [|constructor]]; (split; [reflexivity|]).
    + apply map_Forall_insert_2; [split; reflexivity|apply map_Forall_empty].
    + apply map_Forall_empty.
  - exists m. split; [exact H1|]. split.
    + apply H2. eexists (mkSummary "a" _), _. split; [by left|]. split; reflexivity.
    + intros H. apply H2 in H as (s & st & Hs & E & _). unfold Webserver.exampleContainers in Hs.
      repeat (apply elem_of_cons in Hs as [->|Hs]; [discriminate E|]). by apply not_elem_of_nil in Hs.
Defined.

Lemma usage_served_witness :
  exists u, Client.UsageReq ParseURL (exampleTransport (Ok [])) Main.exampleClient "c1" true = Ok (Some u).
Proof.
  destruct (usage_served (lib := Typed.exampleLib) (fs := Typed.exampleFS) exampleExp exampleConfig 4
    (fun _ => Ok tt) (fun _ _ => Ok []) 1 (fun _ => exampleState) exampleState example_documented example_i64
    (fun _ => exampleState_reached) exampleState_reached
    (fun _ => 0) (fun _ => false) false examplePprof "" (Ok []) Main.exampleClient
    Main.example_admitted "c1" true eq_refl) as [_ (u & _ & H)]; [reflexivity|discriminate|discriminate|discriminate|].
  exists u. exact H.
Defined.

(** The metrics of cgroup v2 of a container with one device, which the refresh has named. *)
Lemma container_figures_served_witness :
  exists cpu n, Client.UsageReq ParseURL (exampleTransport (Ok [])) Main.exampleClient "c1" false =
    Ok (Some (Client.mkUsage (Some (Client.mkMemoryUsage 1 3 2 4 0 0)) (Some cpu)
      (Some (Client.mkIOUsage [Client.mkIODeviceUsage "" "/dev/sda1" "/srv" 8 1 10 20 1 2])) (Some n) ∅)).
Proof.
  destruct (container_figures_served (lib := Typed.exampleLib) (fs := Typed.exampleFS) exampleExp exampleConfig 4
    (fun _ => Ok tt) (fun _ _ => Ok []) 1 (fun _ => exampleState) exampleState example_documented example_i64
    (fun _ => exampleState_reached) exampleState_reached
    (fun _ => 0) (fun _ => false) false examplePprof "" (Ok []) Main.exampleClient
    Main.example_admitted "c1" false tt eq_refl eq_refl ltac:(discriminate) ltac:(discriminate) ltac:(discriminate) eq_refl
    (mkMetricsV2 (Some 5) (Some (mkMemoryStatV2 1 2 3 4)) (Some [mkIOEntry 8 1 10 20 1 2])) eq_refl)
    as (mem & Hmem & cpu & n & _ & _ & H).
  injection Hmem as <-. exists cpu, n. refine (eq_trans H _). vm_compute. reflexivity.
Defined.

End Program.
